(* ===== verification/_CoqProject ===== *)
-Q . S2P
Prelude.v
Str.v
Json.v
Errors.v
Sse.v
Options.v
Sha256.v
Ident.v
Quals.v
Tables.v
Cursor.v
Client.v
Session.v
CatalogOptions.v
Cache.v
Catalog.v
Readthrough.v
Quote.v
ToolCalls.v
Codegen.v
Ddl.v
ImportSchema.v
Registry.v
Api.v
Bookkeeping.v
PerTool.v
Datum.v
Pushdown.v
Fdw.v
Statements.v
Federation.v
Generated.v
JsonText.v
Vectors.v
VectorsCodegen.v
Stub.v
VectorsTables.v
PropTests.v
Sql.v
Scenarios.v
PerToolScenarios.v
