(* ===== verification/Prelude.v ===== *)
(** * pg_mcp: a verification library

    pg_mcp (src/pg/pg_mcp/src/) is a PostgreSQL extension in Rust: a foreign-data
    wrapper and a SQL API over an MCP server reached by JSON-RPC over HTTP.  This
    library translates the extension and proves what makes it correct.

    ** The program and its parts

    A foreign table is resolved to a handler (fdw.rs), its clauses are split into
    pushed quals and local ones (fdw.rs, quals.rs), the executor callbacks drive a
    cursor.  A handler takes the session of the current role and server from a
    backend-local map (session.rs), speaks JSON-RPC over it (client.rs, sse.rs,
    errors.rs) and caches lists (cache.rs).  IMPORT FOREIGN SCHEMA and the SQL API
    turn the server's tool list into tables, functions and views as SQL text
    (import.rs, api.rs, codegen/), and record what they created.

    ** Files

    - Prelude, Str, Json, Quote: results and the state monad [M S E]; Rust strings
      as UTF-8 byte strings; serde_json values; PostgreSQL's quoted tokens.
    - Errors (errors.rs), Sse (sse.rs), Client (client.rs), Session (session.rs,
      and the load hook of lib.rs), CatalogOptions (the walk of session.rs over the
      options of a catalog entry), Cache (cache.rs): the protocol layer.
      [Client.request], [Client.list_all], [Session.with_session],
      [Cache.get_or_fetch] are the functions of those names.
    - Options (options.rs), Quals (quals.rs), Tables (tables/mod.rs): options,
      pushed quals and the plan blob, column types, specifications, cells, rows.
    - Cursor (the trait [ScanCursor] of tables/mod.rs): the interface between the
      handlers and the executor, a class with laws; each handler's cursor is an
      instance, and so is the box fdw.rs holds.
    - Catalog, Readthrough, ToolCalls (tables/catalog.rs, readthrough.rs,
      tool_calls.rs): the registry's handlers, each a [begin_scan] and a cursor.
      PerTool (tables/per_tool.rs): the generated tool tables.
    - Sha256, Ident (codegen/ident.rs), Codegen (codegen/types.rs, codegen/mod.rs),
      Ddl (codegen/table.rs, function.rs, view.rs), Registry (codegen/registry.rs),
      ImportSchema (import.rs), Api (api.rs and the version functions of lib.rs):
      names, plans, statements, bookkeeping, entry points.
    - Datum, Pushdown, Fdw (fdw.rs): datums and JSON; what is pushed down; the
      executor, modify and import callbacks.
    - Bookkeeping (over Api), Statements, Federation and Generated (over Fdw): the
      components composed.  What a regeneration leaves in the table [mcp.generated];
      what a generated table is served as once catalogued; what an INSERT of several
      rows into [tool_calls] and a SELECT after it come to; how the tables IMPORT
      creates for an engine and its upstreams divide the engine's lists; whether the
      rows of a scan fit the columns a table was generated with.  The table, the
      catalog entry, the cutting of identifiers and the executor's loop over rows are
      PostgreSQL's, written there as documented.
    - PropTests: the randomized tests of codegen/ proved for every input their
      strategies draw, and the event stream cut into reads in any way.
    - JsonText, Stub, Vectors, VectorsCodegen, VectorsTables, Sql, Scenarios,
      PerToolScenarios: the tests of the repository evaluated on the model.  JsonText
      is a concrete [Serde]; Stub holds the loopback servers of cache.rs,
      readthrough.rs and tool_calls.rs as instances of [Net]; a definition named like
      a Rust test is that test, as a boolean over its assertions in order; an
      [Example] per suite evaluates it.  Sql is the part PostgreSQL plays in a test
      that runs SQL; PerToolScenarios keeps a database as the statements it ran.

    ** State

    The backend's thread-local state is explicit.  [Sessions X] is the session map,
    the world and a component [X]; the world is the list of requests sent so far,
    newest last, and a clock in milliseconds.  [Fdw.Backend] holds the catalog
    cache, the call log, the statements run and the messages emitted; a handler is
    lifted from its part of it.  Panics and [ereport] are failures of the monad, so a
    raised error ends the statement with the state it left.  A cancelled statement
    and a failed debug assertion are the errors [Unwinding], which no Rust frame sees:
    [with_session] does not put its session back, and the planner stops.

    ** Interfaces

    Code outside the repository is a type class, an argument of the definitions that
    use it: [Serde] (the JSON parser and printer), [UrlLib] (the url crate and name
    resolution), [Unicode] ([str::to_lowercase]), [Net] (the peer, the interrupt
    hook, the clock), [PgCatalog] (server and mapping lookups), [PgEnv] (clock, random
    bytes, SPI of the audit), [Spi], [HashOrder] (the order of a [HashMap]), [PgInput],
    [PgDatum], [PgOperators] (input and output functions, operator lookups).  What a
    theorem needs of one is a named predicate ([datum_ok], [UnicodeAscii],
    [token_blind], ...), and its witness gives a concrete instance.  The build profile is
    a class too, [Build]: does [debug_assert_eq!] run?  Theorems hold for both, the
    repository's tests are evaluated with it on.

    ** What the theorems show

    - A query gives what SQL asks for: [Fdw.select_gives_where] over
      [Pushdown.pushdown_answers] and the scans' own theorems; [scan_runs_dry] for
      the executor's loop over any lawful cursor; [slot_round_trip], [tool_rows_typed],
      [resource_contents_sound] for rows and datums; a backend reads the calls it made
      ([inserted_rows_read_back]).
    - The protocol: at most one re-initialization ([request_script_followed]);
      pagination as its reference and bounded ([list_all_iff],
      [list_all_bounded]); the event stream refines "the first complete frame with
      the wanted id" ([read_until_id_first_frame], [reply_before_deadline]).
    - Sessions and cache: isolation between roles and servers, which calls lose
      their session, one handshake per session, bounded staleness, credentials ([with_session_isolated],
      [one_initialize_for_n_calls], [cache_staleness], [resolve_credentials],
      [token_noninterference]).
    - Invocation: which statement may call a tool, with what arguments, and what it
      returns on every branch ([gate_respected], [scan_answers_quals],
      [arguments_exact], [insert_one_row], [insert_outcome], [modify_outcome],
      [call_tool_outcome], [log_is_recent_history]); a closed gate stays closed from the
      server's tool list to the SELECT ([generated_table_serves_its_tool],
      [closed_gate_stays_closed]); an INSERT statement is the calls of its rows up to
      the first failure ([insert_statement_outcome]).
    - Federation: every imported table is served by the registry handler of its name
      with its options ([imported_tables_serve_the_registry]), and the tables of the
      engine and of its upstreams split each list without loss or overlap
      ([engine_layout_splits_lists]).
    - Generation: planning fails in one way only, by the assertion of a debug build;
      names are distinct, of the identifier class and at most 63 bytes; statements
      read back as what was planned ([plan_total], [dedup_correct],
      [create_table_reads_back], [create_function_intact], [per_tool_layout]); a
      regeneration is its drops, its fetch, its statements and its records
      ([generate_functions_script]) and replaces what the one before made,
      when no two objects share a name ([regeneration_bookkeeping],
      [regeneration_drops_its_objects]); the rows of a SELECT fit the columns of a
      generated table while the tool keeps the schemas it was generated from
      ([generated_rows_fit]); no two tables of a plan share a name unless the cut at
      63 bytes makes them ([generated_tables_distinct]).
    - Defects found by the proofs are stated as theorems or examples of the model
      ([unresolved_parameter_unfiltered], [per_upstream_generation_fails],
      [opaque_filter_empties], [Bookkeeping.colliding_table_survives],
      [Statements.calls_is_taken], [Ddl.delimiter_in_schema], [Codegen.required_twice],
      [Session.cancel_loses_session], [PerTool.second_equality_ignored],
      [Generated.stale_table_misfit], [Generated.clipped_tables_collide],
      [Federation.dotted_resource_hidden], [read_through_ignores_upstream], ...).

    ** Bounds and fuel

    [list_go] runs MAX_LIST_PAGES (1000) rounds, the source's own cap.  [find_free] has
    two rounds more than there are names taken, which always suffices ([dedup_correct]).
    The readers of SQL and JSON text have the text's length, or twice that, as fuel.
    Sql iterates a scan at most 2000 times.  Integers of the wire and of cells
    are [Z] with their range tested where the source converts; the request counter is
    an unbounded [Z] where the source has a u64 it cannot exhaust; SHA-256 words wrap
    at 32 bits; time is in milliseconds.

    ** Not modelled

    - lib.rs: macros, module declarations, the install script and CREATE_TABLE_SQL,
      which are DDL text run once by PostgreSQL.
    - fdw.rs: the walks over C lists of clauses and columns (their result is a list
      argument), palloc and memory contexts, the path and plan nodes themselves, the
      text of EXPLAIN.
    - Sockets, TLS and HTTP framing (ureq), threads of the stub servers, and the
      plpgsql probe around a statement that must fail.
    - tables/mod.rs: [StubTable], a test-only handler no registry entry has, with the
      tests that loop over the entries having it.
    - Of the tests: the million-byte SHA vector, one that starts a thread, those that
      read EXPLAIN text or the error of a duplicate CREATE.
    - The Elixir library, its daemon and the FUSE mount: other programs, which the
      extension meets only as the peer of [Net]. *)
From Stdlib Require Import Ascii String ZArith Lia.
From stdpp Require Import base numbers gmap sets strings pretty list.
#[local] Set Warnings "-notation-overridden".

(** ** Results

    [Result<T, E>] of the source, with the error type last in Rust and first
    here so that [result E] is a monad.  The [?] operator is [mbind]. *)

Inductive result (E A : Type) : Type :=
  | Ok (a : A)
  | Err (e : E).
Arguments Ok {E A} a.
Arguments Err {E A} e.

#[export] Instance result_ret E : MRet (result E) := fun A a => Ok a.
#[export] Instance result_bind E : MBind (result E) :=
  fun A B f m => match m with Ok a => f a | Err e => Err e end.
#[export] Instance result_fmap E : FMap (result E) :=
  fun A B f m => match m with Ok a => Ok (f a) | Err e => Err e end.

#[export] Instance result_eq_dec {E A} `{EqDecision E, EqDecision A} :
  EqDecision (result E A).
Proof. solve_decision. Defined.

(** [opt.ok_or(e)?] *)
Definition ok_or {E A} (e : E) (o : option A) : result E A :=
  match o with Some a => Ok a | None => Err e end.

(** [res.map_err(f)] *)
Definition map_err {E F A} (f : E → F) (r : result E A) : result F A :=
  match r with Ok a => Ok a | Err e => Err (f e) end.

Definition is_ok {E A} (r : result E A) : bool :=
  match r with Ok _ => true | Err _ => false end.

(** ** Effects

    A computation over a state [S] that may fail with [E].  The state is
    threaded through a failure too: what a call did before it failed stays
    done, as in the source. *)

Definition M (S E A : Type) : Type := S → result E A * S.

#[export] Instance M_ret {S E} : MRet (M S E) := fun A a s => (Ok a, s).
#[export] Instance M_bind {S E} : MBind (M S E) :=
  fun A B f m s =>
    match m s with
    | (Ok a, s') => f a s'
    | (Err e, s') => (Err e, s')
    end.

Definition m_get {S E} : M S E S := fun s => (Ok s, s).
Definition m_put {S E} (s : S) : M S E unit := fun _ => (Ok tt, s).
Definition m_fail {S E A} (e : E) : M S E A := fun s => (Err e, s).
Definition m_lift {S E A} (r : result E A) : M S E A := fun s => (r, s).

Lemma m_bind_ok {S E A B} (m : M S E A) (f : A → M S E B) s a s' :
  m s = (Ok a, s') → (m ≫= f) s = f a s'.
Proof. intros H. unfold mbind, M_bind. by rewrite H. Qed.

Lemma m_bind_err {S E A B} (m : M S E A) (f : A → M S E B) s e s' :
  m s = (Err e, s') → (m ≫= f) s = (Err e, s').
Proof. intros H. unfold mbind, M_bind. by rewrite H. Qed.

Lemma m_bind_inv_ok {S E A B} (m : M S E A) (f : A → M S E B) s b s'' :
  (m ≫= f) s = (Ok b, s'') → ∃ a s', m s = (Ok a, s') ∧ f a s' = (Ok b, s'').
Proof.
  unfold mbind, M_bind. destruct (m s) as [[a|e] s'] eqn:H; intros; simplify_eq; eauto.
Qed.

Lemma result_bind_Ok {E A B} (m : result E A) (f : A → result E B) b :
  (m ≫= f) = Ok b ↔ ∃ a, m = Ok a ∧ f a = Ok b.
Proof. destruct m; unfold mbind, result_bind; naive_solver. Qed.

Lemma ok_or_Ok {E A} (e : E) (o : option A) a : ok_or e o = Ok a ↔ o = Some a.
Proof. destruct o; simpl; naive_solver. Qed.

(** Filters that agree on the elements of the list. *)
Lemma filter_iff_in {A} (P Q : A → Prop) `{!∀ x, Decision (P x), !∀ x, Decision (Q x)} (l : list A) :
  (∀ x, x ∈ l → P x ↔ Q x) → filter P l = filter Q l.
Proof.
  induction l as [|x l IH]; intros Hl; [done|]. rewrite !filter_cons, IH by set_solver.
  apply decide_ext. apply Hl. by left.
Qed.

(** A traversal that can fail succeeds when every element does. *)
Lemma mapM_Ok {E A B} (f : A → result E B) l k : mapM f l = Ok k ↔ Forall2 (fun x y => f x = Ok y) l k.
Proof.
  split.
  - revert k. induction l as [|x l IH]; intros k; cbn; [by intros [= <-]|].
    intros (y & Hy & (ys & Hys & [= <-])%result_bind_Ok)%result_bind_Ok. eauto.
  - induction 1 as [|x y l k Hx _ IH]; cbn; [done|]. rewrite Hx. cbn. by rewrite IH.
Qed.

Lemma filter_all {A} (P : A → Prop) `{!∀ x, Decision (P x)} (l : list A) : (∀ x, P x) → filter P l = l.
Proof. intros Hall. induction l as [|x l IH]; [done|]. rewrite filter_cons_True by done. by rewrite IH. Qed.

(** ** Tactics *)

(** Invert a successful chain of [?]s, one step per [mbind]. *)
Ltac inv_ok H :=
  repeat match type of H with
  | (_ ≫= _) = Ok _ =>
      let a := fresh "a" in let Ha := fresh "Ha" in
      apply result_bind_Ok in H as (a & Ha & H)
  end.


(** Case on the first [match] or [if] found in a hypothesis or the goal and
    clear the contradictory branches. *)
Ltac case_step :=
  match goal with
  | H : context [match ?x with _ => _ end] |- _ => destruct x eqn:?; simplify_eq/=
  | |- context [match ?x with _ => _ end] => destruct x eqn:?; simplify_eq/=
  end.
Ltac case_all := repeat case_step.

(** Turn a boolean test on naturals, integers or strings into its statement. *)
Ltac bool_prop :=
  repeat match goal with
  | H : (_ && _)%bool = true |- _ => apply andb_true_iff in H; destruct H
  | H : (_ && _)%bool = false |- _ => apply andb_false_iff in H
  | H : (_ || _)%bool = true |- _ => apply orb_true_iff in H
  | H : (_ || _)%bool = false |- _ => apply orb_false_iff in H; destruct H
  | H : negb _ = true |- _ => apply negb_true_iff in H
  | H : negb _ = false |- _ => apply negb_false_iff in H
  | H : bool_decide _ = true |- _ => apply bool_decide_eq_true in H
  | H : bool_decide _ = false |- _ => apply bool_decide_eq_false in H
  | H : Nat.ltb _ _ = true |- _ => apply Nat.ltb_lt in H
  | H : Nat.ltb _ _ = false |- _ => apply Nat.ltb_ge in H
  | H : Nat.leb _ _ = true |- _ => apply Nat.leb_le in H
  | H : Nat.leb _ _ = false |- _ => apply Nat.leb_gt in H
  | H : Nat.eqb _ _ = true |- _ => apply Nat.eqb_eq in H
  | H : Nat.eqb _ _ = false |- _ => apply Nat.eqb_neq in H
  | H : Z.ltb _ _ = true |- _ => apply Z.ltb_lt in H
  | H : Z.ltb _ _ = false |- _ => apply Z.ltb_ge in H
  | H : Z.leb _ _ = true |- _ => apply Z.leb_le in H
  | H : Z.leb _ _ = false |- _ => apply Z.leb_gt in H
  | H : Z.eqb _ _ = true |- _ => apply Z.eqb_eq in H
  | H : Z.eqb _ _ = false |- _ => apply Z.eqb_neq in H
  | H : String.eqb _ _ = true |- _ => apply String.eqb_eq in H
  | H : String.eqb _ _ = false |- _ => apply String.eqb_neq in H
  end.
