(* ===== verification/Str.v ===== *)
(** * Rust strings

    [String] and [&str] of the source are UTF-8 byte strings: [str::len] counts
    bytes, slicing is by byte offset, [chars] walks code points.  They are
    modelled by Rocq's [string], one [ascii] per byte, so that literals, [len]
    and the equality used by maps are the ones of the source.  This file holds
    the operations of the standard library that the program calls. *)

From Stdlib Require Import Ascii String ZArith Lia.
From stdpp Require Import base numbers gmap sets strings pretty list.
From S2P Require Import Prelude.
#[local] Open Scope Z_scope.

(** The double quote, which message literals spell through [quoted]. *)
Definition dq : string := String (ascii_of_nat 34) EmptyString.
Definition sq : string := String (ascii_of_nat 39) EmptyString.
Definition nl : string := String (ascii_of_nat 10) EmptyString.
Definition quoted (s : string) : string := dq +:+ s +:+ dq.

(** ** Bytes *)

Definition byte_Z (c : ascii) : Z := Z.of_nat (nat_of_ascii c).
Definition Z_byte (z : Z) : ascii := ascii_of_nat (Z.to_nat z).

Fixpoint bytes (s : string) : list Z :=
  match s with
  | EmptyString => []
  | String c s => byte_Z c :: bytes s
  end.

Fixpoint of_bytes (l : list Z) : string :=
  match l with
  | [] => EmptyString
  | z :: l => String (Z_byte z) (of_bytes l)
  end.

Definition in_range (lo hi z : Z) : bool := (lo <=? z) && (z <=? hi).

(** [u8::is_ascii_*] and [char::is_ascii_*] on a byte or a code point. *)
Definition is_ascii_lowercase (z : Z) : bool := in_range 97 122 z.
Definition is_ascii_uppercase (z : Z) : bool := in_range 65 90 z.
Definition is_ascii_digit (z : Z) : bool := in_range 48 57 z.
Definition is_ascii_alphabetic (z : Z) : bool :=
  is_ascii_lowercase z || is_ascii_uppercase z.
Definition is_ascii_alphanumeric (z : Z) : bool :=
  is_ascii_alphabetic z || is_ascii_digit z.

(** ** Code points: [str::chars] and [String::push] *)

Definition utf8_char (c : Z) : string :=
  if c <? 0x80 then of_bytes [c]
  else if c <? 0x800 then of_bytes [0xC0 + c / 64; 0x80 + c mod 64]
  else if c <? 0x10000 then
    of_bytes [0xE0 + c / 4096; 0x80 + (c / 64) mod 64; 0x80 + c mod 64]
  else
    of_bytes [0xF0 + c / 262144; 0x80 + (c / 4096) mod 64;
              0x80 + (c / 64) mod 64; 0x80 + c mod 64].

Definition utf8 (cs : list Z) : string :=
  foldr (fun c s => utf8_char c +:+ s) EmptyString cs.

(** Continuation bytes, and the ranges of the second byte after a given lead
    byte that exclude overlong forms, surrogates and values past U+10FFFF. *)
Definition cont (b : Z) : bool := in_range 0x80 0xBF b.
Definition second3 (b0 b1 : Z) : bool :=
  in_range (if b0 =? 0xE0 then 0xA0 else 0x80) (if b0 =? 0xED then 0x9F else 0xBF) b1.
Definition second4 (b0 b1 : Z) : bool :=
  in_range (if b0 =? 0xF0 then 0x90 else 0x80) (if b0 =? 0xF4 then 0x8F else 0xBF) b1.

(** UTF-8 validity, as [read_line] and [String::from_utf8] decide it. *)
Fixpoint valid_utf8 (l : list Z) : bool :=
  match l with
  | [] => true
  | b0 :: l0 =>
    if b0 <? 0x80 then valid_utf8 l0
    else match l0 with
    | [] => false
    | b1 :: l1 =>
      if in_range 0xC2 0xDF b0 then cont b1 && valid_utf8 l1
      else match l1 with
      | [] => false
      | b2 :: l2 =>
        if in_range 0xE0 0xEF b0 then second3 b0 b1 && cont b2 && valid_utf8 l2
        else match l2 with
        | [] => false
        | b3 :: l3 =>
          in_range 0xF0 0xF4 b0 && second4 b0 b1 && cont b2 && cont b3 && valid_utf8 l3
        end
      end
    end
  end.

(** The code points of a valid UTF-8 sequence.  A Rust [str] is never anything
    else; a byte that starts no valid sequence is passed through so that the
    function is total. *)
Fixpoint chars_of_bytes (l : list Z) : list Z :=
  match l with
  | [] => []
  | b0 :: l0 =>
    let skip := b0 :: chars_of_bytes l0 in
    if b0 <? 0x80 then skip
    else match l0 with
    | [] => skip
    | b1 :: l1 =>
      if in_range 0xC2 0xDF b0 && cont b1
      then ((b0 - 0xC0) * 64 + (b1 - 0x80)) :: chars_of_bytes l1
      else match l1 with
      | [] => skip
      | b2 :: l2 =>
        if in_range 0xE0 0xEF b0 && second3 b0 b1 && cont b2
        then ((b0 - 0xE0) * 4096 + (b1 - 0x80) * 64 + (b2 - 0x80)) :: chars_of_bytes l2
        else match l2 with
        | [] => skip
        | b3 :: l3 =>
          if in_range 0xF0 0xF4 b0 && second4 b0 b1 && cont b2 && cont b3
          then ((b0 - 0xF0) * 262144 + (b1 - 0x80) * 4096 + (b2 - 0x80) * 64 + (b3 - 0x80))
                 :: chars_of_bytes l3
          else skip
        end
      end
    end
  end.

Definition chars (s : string) : list Z := chars_of_bytes (bytes s).

(** ** Trimming *)

(** [char::is_whitespace]: the Unicode [White_Space] property. *)
Definition is_whitespace (c : Z) : bool :=
  in_range 0x9 0xD c || (c =? 0x20) || (c =? 0x85) || (c =? 0xA0) || (c =? 0x1680)
  || in_range 0x2000 0x200A c || (c =? 0x2028) || (c =? 0x2029) || (c =? 0x202F)
  || (c =? 0x205F) || (c =? 0x3000).

Fixpoint drop_while {A} (p : A → bool) (l : list A) : list A :=
  match l with
  | [] => []
  | x :: l' => if p x then drop_while p l' else l
  end.

Definition trim_end_with {A} (p : A → bool) (l : list A) : list A :=
  reverse (drop_while p (reverse l)).

(** [str::trim] *)
Definition trim (s : string) : string :=
  utf8 (trim_end_with is_whitespace (drop_while is_whitespace (chars s))).

(** [str::trim_end_matches([CR, LF])] *)
Definition trim_end_crlf (s : string) : string :=
  of_bytes (trim_end_with (fun b => (b =? 13) || (b =? 10)) (bytes s)).

(** ** Searching, splitting, replacing *)

(** [str::is_empty] *)
Definition is_empty (s : string) : bool := bool_decide (s = EmptyString).

Fixpoint strip_prefix (p s : string) : option string :=
  match p, s with
  | EmptyString, _ => Some s
  | String a p', String b s' => if Ascii.eqb a b then strip_prefix p' s' else None
  | String _ _, EmptyString => None
  end.

Definition starts_with (p s : string) : bool :=
  match strip_prefix p s with Some _ => true | None => false end.

(** [haystack.contains(needle)] *)
Fixpoint contains (needle s : string) : bool :=
  starts_with needle s ||
  match s with EmptyString => false | String _ s' => contains needle s' end.

(** [s.split_once(c)] at the first occurrence. *)
Fixpoint split_once (c : ascii) (s : string) : option (string * string) :=
  match s with
  | EmptyString => None
  | String a s' =>
    if Ascii.eqb a c then Some (EmptyString, s')
    else match split_once c s' with
         | Some (x, y) => Some (String a x, y)
         | None => None
         end
  end.

(** [s.split(c).collect()] *)
Fixpoint split_on (c : ascii) (s : string) : list string :=
  match s with
  | EmptyString => [EmptyString]
  | String a s' =>
    if Ascii.eqb a c then EmptyString :: split_on c s'
    else match split_on c s' with
         | [] => [String a EmptyString]
         | p :: ps => String a p :: ps
         end
  end.

(** [s.replace(c, r)] for an ASCII character [c]. *)
Fixpoint replace (c : ascii) (r s : string) : string :=
  match s with
  | EmptyString => EmptyString
  | String a s' => if Ascii.eqb a c then r +:+ replace c r s' else String a (replace c r s')
  end.

(** [parts.join(sep)] and [parts.concat()] *)
Fixpoint join (sep : string) (l : list string) : string :=
  match l with
  | [] => EmptyString
  | [x] => x
  | x :: l' => x +:+ sep +:+ join sep l'
  end.

Definition concat (l : list string) : string := foldr String.append EmptyString l.

(** [&s[..n]] and [&s[n..]], by byte offset. *)
Fixpoint str_take (n : nat) (s : string) : string :=
  match n, s with
  | S n', String c s' => String c (str_take n' s')
  | _, _ => EmptyString
  end.

Fixpoint str_drop (n : nat) (s : string) : string :=
  match n, s with
  | S n', String _ s' => str_drop n' s'
  | _, _ => s
  end.

(** [str::to_ascii_lowercase] *)
Definition ascii_lower (z : Z) : Z := if is_ascii_uppercase z then z + 32 else z.
Definition to_ascii_lowercase (s : string) : string := of_bytes (map ascii_lower (bytes s)).

(** ** Numbers *)

Definition u64_max : Z := 18446744073709551615.
Definition i64_max : Z := 9223372036854775807.
Definition i64_min : Z := -9223372036854775808.
Definition i32_max : Z := 2147483647.
Definition i32_min : Z := -2147483648.

Fixpoint digits_value (acc : Z) (l : list Z) : option Z :=
  match l with
  | [] => Some acc
  | d :: l' => if is_ascii_digit d then digits_value (acc * 10 + (d - 48)) l' else None
  end.

(** [str::parse] for an integer type of the given sign and range: an optional
    [+] (or [-] when signed), at least one digit, digits only, no overflow. *)
Definition parse_int (signed : bool) (lo hi : Z) (s : string) : option Z :=
  let body (neg : bool) (l : list Z) :=
    match l with
    | [] => None
    | _ => v ← digits_value 0 l;
           let v := if neg then - v else v in
           if in_range lo hi v then Some v else None
    end in
  match bytes s with
  | [] => None
  | b :: l => if b =? 43 then body false l
              else if (b =? 45) && signed then body true l
              else body false (b :: l)
  end.

Definition parse_u64 : string → option Z := parse_int false 0 u64_max.
Definition parse_i64 : string → option Z := parse_int true i64_min i64_max.

(** [n.to_string()] / [format!("{n}")] *)
Definition fmt_Z (n : Z) : string := pretty n.
Definition fmt_nat (n : nat) : string := pretty n.

(** [format!("{b:02x}")] on a byte *)
Definition hex_digit (n : Z) : Z := if n <? 10 then 48 + n else 87 + n.
Definition hex2 (b : Z) : string := of_bytes [hex_digit (b / 16); hex_digit (b mod 16)].

(** ** Lemmas *)

Create HintDb str.
Create Rewrite HintDb str.

Lemma byte_Z_range c : 0 <= byte_Z c < 256.
Proof. unfold byte_Z. pose proof (nat_ascii_bounded c). lia. Qed.

Lemma Z_byte_byte c : Z_byte (byte_Z c) = c.
Proof. unfold Z_byte, byte_Z. rewrite Nat2Z.id. apply ascii_nat_embedding. Qed.

Lemma byte_Z_byte z : 0 <= z < 256 → byte_Z (Z_byte z) = z.
Proof. intros H. unfold Z_byte, byte_Z. rewrite nat_ascii_embedding by lia. lia. Qed.

Lemma bytes_range s : Forall (fun z => 0 <= z < 256) (bytes s).
Proof. induction s; simpl; constructor; auto using byte_Z_range. Qed.

Lemma of_bytes_bytes s : of_bytes (bytes s) = s.
Proof. induction s; simpl; [done|]. by rewrite Z_byte_byte, IHs. Qed.

Lemma bytes_of_bytes l : Forall (fun z => 0 <= z < 256) l → bytes (of_bytes l) = l.
Proof. induction 1; simpl; [done|]. by rewrite byte_Z_byte, IHForall. Qed.

Lemma bytes_inj s t : bytes s = bytes t → s = t.
Proof. intros H. by rewrite <- (of_bytes_bytes s), H, of_bytes_bytes. Qed.

Lemma app_string_cons a s t : String a s +:+ t = String a (s +:+ t).
Proof. done. Qed.
Lemma app_string_nil t : EmptyString +:+ t = t.
Proof. done. Qed.
Lemma app_string_nil_r s : s +:+ EmptyString = s.
Proof. induction s; [done|]. by rewrite app_string_cons, IHs. Qed.
Lemma app_string_assoc s t u : (s +:+ t) +:+ u = s +:+ (t +:+ u).
Proof. induction s; [done|]. by rewrite !app_string_cons, IHs. Qed.

Lemma bytes_app s t : bytes (s +:+ t) = bytes s ++ bytes t.
Proof. induction s; [done|]. rewrite app_string_cons. simpl. by rewrite IHs. Qed.

Lemma length_bytes s : length (bytes s) = String.length s.
Proof. induction s; simpl; congruence. Qed.

Lemma length_app_string s t : String.length (s +:+ t) = (String.length s + String.length t)%nat.
Proof. by rewrite <- !length_bytes, bytes_app, length_app. Qed.

Lemma length_of_bytes l : String.length (of_bytes l) = length l.
Proof. induction l; simpl; congruence. Qed.

Lemma of_bytes_app l k : of_bytes (l ++ k) = of_bytes l +:+ of_bytes k.
Proof. induction l; [done|]. simpl. by rewrite app_string_cons, IHl. Qed.

Lemma bytes_str_take n s : bytes (str_take n s) = take n (bytes s).
Proof. revert n. induction s; intros [|n]; simpl; [done..|]. by rewrite IHs. Qed.

Lemma bytes_str_drop n s : bytes (str_drop n s) = drop n (bytes s).
Proof. revert n. induction s; intros [|n]; simpl; done. Qed.

Lemma length_str_take n s : String.length (str_take n s) = (n `min` String.length s)%nat.
Proof. by rewrite <- !length_bytes, bytes_str_take, length_take. Qed.

Lemma strip_prefix_Some p s r : strip_prefix p s = Some r ↔ s = p +:+ r.
Proof.
  revert s. induction p as [|a p IH]; intros s; simpl.
  - rewrite app_string_nil. naive_solver.
  - rewrite app_string_cons. destruct s as [|b s]; [naive_solver|].
    destruct (Ascii.eqb_spec a b); [|naive_solver]. subst. rewrite IH. naive_solver.
Qed.

Lemma starts_with_spec p s : starts_with p s = true ↔ ∃ r, s = p +:+ r.
Proof.
  unfold starts_with. split.
  - destruct (strip_prefix p s) eqn:E; [|done]. apply strip_prefix_Some in E. eauto.
  - intros [r ->]. by rewrite (proj2 (strip_prefix_Some p _ r)).
Qed.

Lemma contains_spec n s : contains n s = true ↔ ∃ a b, s = a +:+ n +:+ b.
Proof.
  induction s as [|c s IH]; simpl; rewrite orb_true_iff, starts_with_spec.
  - split; [intros [[r Hr]|]; [|done]; by exists EmptyString, r|].
    intros (a & b & H). left. destruct a; [eauto|done].
  - rewrite IH. split.
    + intros [[r Hr]|(a & b & ->)]; [by exists EmptyString, r|].
      by exists (String c a), b.
    + intros ([|x a] & b & H); [left; eauto|]. right.
      rewrite app_string_cons in H. simplify_eq. eauto.
Qed.

Lemma split_once_Some c s a b :
  split_once c s = Some (a, b) → s = a +:+ String c b ∧ byte_Z c ∉ bytes a.
Proof.
  revert a. induction s as [|x s IH]; intros a; simpl; [done|].
  destruct (Ascii.eqb_spec x c) as [->|Hne].
  - intros [= <- <-]. split; [done|apply not_elem_of_nil].
  - destruct (split_once c s) as [[y z]|] eqn:E; [|done]. intros [= <- <-].
    destruct (IH y) as [-> Hn]; [done|]. split; [done|]. simpl.
    rewrite list_elem_of_In. intros [Heq|Hin]; [|by apply Hn, list_elem_of_In].
    apply Hne. by rewrite <- (Z_byte_byte x), <- (Z_byte_byte c), Heq.
Qed.

Lemma split_once_app c a b : byte_Z c ∉ bytes a → split_once c (a +:+ String c b) = Some (a, b).
Proof.
  induction a as [|x a IH].
  - intros _. simpl. by rewrite Ascii.eqb_refl.
  - simpl bytes. rewrite not_elem_of_cons, app_string_cons. intros [Hx Ha]. simpl.
    destruct (Ascii.eqb_spec x c) as [->|]; [done|]. by rewrite (IH Ha).
Qed.

Lemma split_once_None c s : split_once c s = None ↔ byte_Z c ∉ bytes s.
Proof.
  induction s as [|x s IH]; simpl; [split; [intros; apply not_elem_of_nil|done]|].
  rewrite not_elem_of_cons. destruct (Ascii.eqb_spec x c) as [->|Hne].
  - split; [done|]. by intros [? _].
  - destruct (split_once c s) as [[y z]|]; split; try done.
    + intros [_ Hn]. by apply IH in Hn.
    + intros _. split; [|by apply IH].
      intros Heq. apply Hne. by rewrite <- (Z_byte_byte x), <- (Z_byte_byte c), Heq.
Qed.

(** Splitting at a separator and joining again gives the string back. *)
Lemma join_split_on c s : join (String c EmptyString) (split_on c s) = s.
Proof.
  induction s as [|x s IH]; [done|]. simpl.
  destruct (Ascii.eqb_spec x c) as [->|].
  - destruct (split_on c s) eqn:E; [by destruct s; simpl in E; case_all|].
    simpl in *. by rewrite app_string_nil, app_string_cons, IH.
  - destruct (split_on c s) as [|p ps] eqn:E; [by destruct s; simpl in E; case_all|].
    simpl in *. destruct ps; [by rewrite IH|]. by rewrite app_string_cons, IH.
Qed.

Lemma split_on_nonempty c s : split_on c s ≠ [].
Proof. destruct s; simpl; case_all; done. Qed.

#[export] Hint Rewrite bytes_app length_app_string app_string_nil_r app_string_assoc
  bytes_str_take length_str_take : str.

Lemma contains_app_r p m : contains m (p +:+ m) = true.
Proof. apply contains_spec. exists p, EmptyString. by rewrite app_string_nil_r. Qed.

Lemma contains_refl m : contains m m = true.
Proof. apply (contains_app_r EmptyString). Qed.

Lemma drop_while_none {A} (p : A → bool) l : Forall (fun x => p x = false) l → drop_while p l = l.
Proof. destruct 1 as [|x l Hx]; [done|]. simpl. by rewrite Hx. Qed.

Lemma trim_end_with_app {A} (p : A → bool) l k :
  Forall (fun x => p x = false) l → Forall (fun x => p x = true) k →
  trim_end_with p (l ++ k) = l.
Proof.
  intros Hl Hk. unfold trim_end_with. rewrite reverse_app.
  rewrite <- (reverse_involutive l) at 2. f_equal.
  rewrite <- Forall_reverse in Hk. induction Hk as [|x r Hx Hr IH]; simpl.
  - apply drop_while_none. by rewrite Forall_reverse.
  - by rewrite Hx.
Qed.

Definition crlf (b : Z) : bool := (b =? 13) || (b =? 10).

Lemma trim_end_crlf_app s t :
  Forall (fun b => crlf b = false) (bytes s) → Forall (fun b => crlf b = true) (bytes t) →
  trim_end_crlf (s +:+ t) = s.
Proof.
  intros Hs Ht. unfold trim_end_crlf. rewrite bytes_app.
  rewrite (trim_end_with_app crlf) by done. apply of_bytes_bytes.
Qed.

Lemma split_on_no_sep c s : Forall (fun p => byte_Z c ∉ bytes p) (split_on c s).
Proof.
  induction s as [|x s IH]; simpl; [repeat constructor; apply not_elem_of_nil|].
  destruct (Ascii.eqb_spec x c) as [->|Hne].
  - constructor; [apply not_elem_of_nil|done].
  - assert (byte_Z c ≠ byte_Z x).
    { intros Heq. apply Hne. by rewrite <- (Z_byte_byte x), <- (Z_byte_byte c), Heq. }
    destruct IH as [|p ps]; constructor; simpl; rewrite ?not_elem_of_cons; auto using not_elem_of_nil.
Qed.

Lemma split_on_Forall (P : Z → Prop) c s :
  Forall P (bytes s) → Forall (fun p => Forall P (bytes p)) (split_on c s).
Proof.
  induction s as [|x s IH]; simpl; [repeat constructor|].
  intros [Hx Hs]%Forall_cons. specialize (IH Hs). destruct (Ascii.eqb x c).
  - by constructor.
  - destruct IH as [|p ps]; constructor; simpl; auto.
Qed.

(** A code point below 128 comes from a byte of its own. *)
Lemma chars_ascii l :
  Forall (fun c => c < 128) (chars_of_bytes l) ∨ Forall (fun b => b < 128) l →
  chars_of_bytes l = l.
Proof.
  induction l as [l IH] using (induction_ltof1 _ length); unfold ltof in IH.
  destruct l as [|b0 l0]; [done|]. simpl. unfold cont, second3, second4, in_range.
  intros Ha. destruct (Z.ltb_spec b0 128).
  { f_equal. apply IH; [simpl; lia|]. destruct Ha as [Ha|Ha]; inv Ha; auto. }
  exfalso. destruct Ha as [Ha|Ha]; [|inv Ha; lia].
  destruct l0 as [|b1 l1]; [inv Ha; lia|].
  destruct (_ && _) eqn:E2 in Ha; [inv Ha; bool_prop; lia|]. clear E2.
  destruct l1 as [|b2 l2]; [inv Ha; lia|].
  destruct (_ && _) eqn:E3 in Ha;
    [inv Ha; bool_prop; destruct (b0 =? 224) eqn:?, (b0 =? 237) eqn:?; bool_prop; lia|]. clear E3.
  destruct l2 as [|b3 l3]; [inv Ha; lia|].
  destruct (_ && _) eqn:E4 in Ha;
    [inv Ha; bool_prop; destruct (b0 =? 240) eqn:?, (b0 =? 244) eqn:?; bool_prop; lia|].
  inv Ha; lia.
Qed.

Lemma chars_bytes s :
  Forall (fun c => c < 128) (chars s) ∨ Forall (fun b => b < 128) (bytes s) → chars s = bytes s.
Proof. apply chars_ascii. Qed.

Lemma replace_none c r s : byte_Z c ∉ bytes s → replace c r s = s.
Proof.
  induction s as [|a s IH]; [done|]. cbn [bytes replace]. intros Hn.
  destruct (Ascii.eqb_spec a c) as [->|_]; [destruct Hn; by left|].
  rewrite IH; [done|]. intros Hin. apply Hn. by right.
Qed.

(** *** Decimal numbers *)

Lemma pretty_N_char_byte x : (x < 10)%N → byte_Z (pretty_N_char x) = 48 + Z.of_N x.
Proof.
  intros Hx. assert (x = 0 ∨ x = 1 ∨ x = 2 ∨ x = 3 ∨ x = 4 ∨ x = 5 ∨ x = 6 ∨ x = 7 ∨ x = 8
    ∨ x = 9)%N as Hc by lia. by repeat destruct Hc as [-> | Hc]; [..|subst].
Qed.

(** Induction over the digit loop of the printer. *)
Lemma pretty_N_go_ind (P : N → string → string → Prop) :
  (∀ s, P 0%N s s) →
  (∀ x s r, (0 < x)%N → P (x / 10)%N (String (pretty_N_char (x mod 10)) s) r → P x s r) →
  ∀ x s, P x s (pretty_N_go x s).
Proof.
  intros H0 Hs x. induction (N.lt_wf_0 x) as [x _ IH]; intros s.
  destruct (decide (x = 0%N)) as [->|]; [rewrite pretty_N_go_0; apply H0|].
  rewrite pretty_N_go_step by lia. apply Hs; [lia|]. apply IH, N.div_lt; lia.
Qed.

Lemma digit_byte d : (d < 10)%N → is_ascii_digit (48 + Z.of_N d) = true.
Proof.
  intros Hd. unfold is_ascii_digit, in_range. apply andb_true_iff. rewrite !Z.leb_le. lia.
Qed.

Lemma pretty_N_go_digits x s :
  Forall (fun b => is_ascii_digit b = true) (bytes s) →
  Forall (fun b => is_ascii_digit b = true) (bytes (pretty_N_go x s)).
Proof.
  apply (pretty_N_go_ind (fun x s r => Forall (fun b => is_ascii_digit b = true) (bytes s) →
    Forall (fun b => is_ascii_digit b = true) (bytes r))); [done|].
  intros y t r Hy IH Ht. apply IH. simpl. constructor; [|done].
  pose proof (N.mod_lt y 10 ltac:(done)).
  rewrite pretty_N_char_byte by done. by apply digit_byte.
Qed.

Lemma pretty_N_go_value x s :
  digits_value 0 (bytes (pretty_N_go x s)) = digits_value (Z.of_N x) (bytes s).
Proof.
  apply (pretty_N_go_ind (fun x s r =>
    digits_value 0 (bytes r) = digits_value (Z.of_N x) (bytes s))); [done|].
  intros y t r Hy ->. simpl.
  pose proof (N.mod_lt y 10 ltac:(done)). pose proof (N.div_mod y 10 ltac:(done)).
  rewrite pretty_N_char_byte by done.
  rewrite digit_byte by done. f_equal. lia.
Qed.

Lemma pretty_N_go_length (k : nat) x s :
  (x < 10 ^ N.of_nat k)%N → (String.length (pretty_N_go x s) ≤ k + String.length s)%nat.
Proof.
  revert k. apply (pretty_N_go_ind (fun x s r => ∀ k : nat, (x < 10 ^ N.of_nat k)%N →
    (String.length r ≤ k + String.length s)%nat)); [lia|].
  intros y t r Hy IH [|k] Hk; [simpl in Hk; lia|].
  rewrite Nat2N.inj_succ, N.pow_succ_r' in Hk.
  assert (String.length r ≤ k + String.length (String (pretty_N_char (y mod 10)) t))%nat as Hr.
  { apply IH. apply N.Div0.div_lt_upper_bound. lia. }
  simpl in Hr. lia.
Qed.

Lemma fmt_nat_digits n : Forall (fun b => is_ascii_digit b = true) (bytes (fmt_nat n)).
Proof.
  unfold fmt_nat, pretty, pretty_nat, pretty, pretty_N.
  case_decide; [by repeat constructor|]. by apply pretty_N_go_digits.
Qed.

Lemma pretty_N_go_longer x s : (String.length s ≤ String.length (pretty_N_go x s))%nat.
Proof.
  apply (pretty_N_go_ind (fun _ s r => (String.length s ≤ String.length r)%nat)); [lia|].
  intros y t r _ IH. simpl in IH. lia.
Qed.

Lemma fmt_nat_nonempty n : String.length (fmt_nat (S n)) ≠ 0%nat.
Proof.
  unfold fmt_nat, pretty, pretty_nat, pretty, pretty_N. case_decide; [done|].
  rewrite pretty_N_go_step by lia.
  pose proof (pretty_N_go_longer (N.of_nat (S n) / 10)
                (String (pretty_N_char (N.of_nat (S n) mod 10)) EmptyString)) as Hl.
  cbn [String.length] in Hl. lia.
Qed.

Lemma fmt_nat_length n (k : nat) :
  (0 < k)%nat → (Z.of_nat n < 10 ^ Z.of_nat k)%Z → (String.length (fmt_nat n) ≤ k)%nat.
Proof.
  intros Hk Hn. unfold fmt_nat, pretty, pretty_nat, pretty, pretty_N.
  case_decide; [simpl; lia|].
  etrans; [apply (pretty_N_go_length k)|cbn [String.length]; lia].
  apply N2Z.inj_lt. rewrite N2Z.inj_pow, !nat_N_Z. done.
Qed.

(** A u64 survives [to_string] and [parse]. *)
Lemma parse_u64_fmt n : 0 <= n <= u64_max → parse_u64 (fmt_Z n) = Some n.
Proof.
  intros [H0 Hm]. destruct n as [|p|p]; [done| |lia].
  assert (fmt_Z (Z.pos p) = pretty_N_go (N.pos p) EmptyString) as -> by done.
  pose proof (pretty_N_go_value (N.pos p) EmptyString) as Hv.
  pose proof (pretty_N_go_digits (N.pos p) EmptyString (Forall_nil_2 _)) as Hd.
  unfold parse_u64, parse_int. destruct (bytes (pretty_N_go (N.pos p) EmptyString)) as [|b l]; [done|].
  apply Forall_cons in Hd as [Hb _]. unfold is_ascii_digit, in_range in Hb.
  rewrite (proj2 (Z.eqb_neq b 43)), (proj2 (Z.eqb_neq b 45)) by lia. cbn [andb].
  rewrite Hv. cbn. unfold in_range. rewrite !(proj2 (Z.leb_le _ _)) by lia. done.
Qed.

Lemma parse_int_range sg lo hi s v : parse_int sg lo hi s = Some v → lo ≤ v ≤ hi.
Proof.
  unfold parse_int, in_range. intros Hp.
  repeat (case_match; simplify_eq/=; try done);
    repeat match goal with H : (_ ≫= _) = Some _ |- _ =>
      apply bind_Some in H as (? & _ & H) end;
    repeat (case_match; simplify_eq/=); bool_prop; lia.
Qed.

#[export] Hint Resolve contains_app_r contains_refl : str.

#[global] Arguments contains : simpl never.
#[global] Arguments starts_with : simpl never.
#[global] Arguments strip_prefix : simpl never.
#[global] Arguments split_once : simpl never.
#[global] Arguments replace : simpl never.
