(* ===== verification/Json.v ===== *)
(** * JSON values

    [serde_json::Value] as the crate documents it, with the [preserve_order]
    feature [Cargo.toml] turns on: an object keeps its insertion order, and
    object equality ignores that order.  The accessors used by the program are
    total functions here.  The text parser and printer of the crate are not
    part of the repository: they are the operations of the class [Serde]. *)

From Stdlib Require Import Ascii String ZArith Lia.
From Stdlib Require Import SpecFloat.
From stdpp Require Import base numbers gmap sets strings pretty list.
From S2P Require Import Prelude Str.
#[local] Set Warnings "-register-all".
#[local] Open Scope Z_scope.

(** [serde_json::Number]: [PosInt] holds a [u64], [NegInt] a negative [i64],
    [Float] a finite [f64]. *)
Inductive Number : Type :=
  | PosInt (n : Z)
  | NegInt (n : Z)
  | Float (f : spec_float).

Inductive Value : Type :=
  | Null
  | Bool (b : bool)
  | Num (n : Number)
  | Str (s : string)
  | Array (items : list Value)
  | Object (fields : list (string * Value)).

(** [Value::from] on an [i32], [i64] or [u64]. *)
Definition num_of_Z (n : Z) : Value := if n <? 0 then Num (NegInt n) else Num (PosInt n).

(** ** Object maps, in insertion order *)

Fixpoint obj_get (k : string) (m : list (string * Value)) : option Value :=
  match m with
  | [] => None
  | (k', v) :: m' => if bool_decide (k' = k) then Some v else obj_get k m'
  end.

(** [Map::insert]: an existing key keeps its place. *)
Fixpoint obj_insert (k : string) (v : Value) (m : list (string * Value)) :
    list (string * Value) :=
  match m with
  | [] => [(k, v)]
  | (k', v') :: m' => if bool_decide (k' = k) then (k', v) :: m' else (k', v') :: obj_insert k v m'
  end.

Definition contains_key (k : string) (m : list (string * Value)) : bool :=
  match obj_get k m with Some _ => true | None => false end.

(** ** Accessors *)

Definition get (v : Value) (k : string) : option Value :=
  match v with Object m => obj_get k m | _ => None end.

Definition as_str (v : Value) : option string :=
  match v with Str s => Some s | _ => None end.
Definition as_bool (v : Value) : option bool :=
  match v with Bool b => Some b | _ => None end.
Definition as_array (v : Value) : option (list Value) :=
  match v with Array l => Some l | _ => None end.
Definition as_object (v : Value) : option (list (string * Value)) :=
  match v with Object m => Some m | _ => None end.
Definition is_null (v : Value) : bool :=
  match v with Null => true | _ => false end.

Definition num_as_i64 (n : Number) : option Z :=
  match n with
  | PosInt n => if n <=? i64_max then Some n else None
  | NegInt n => Some n
  | Float _ => None
  end.
Definition num_as_u64 (n : Number) : option Z :=
  match n with PosInt n => Some n | _ => None end.

Definition as_i64 (v : Value) : option Z :=
  match v with Num n => num_as_i64 n | _ => None end.
Definition as_u64 (v : Value) : option Z :=
  match v with Num n => num_as_u64 n | _ => None end.

(** [u64 as f64] and [i64 as f64]: round to nearest, ties to even, binary64. *)
Definition f64_of_Z (n : Z) : spec_float := binary_normalize 53 1024 n 0 false.

Definition num_as_f64 (n : Number) : spec_float :=
  match n with PosInt n => f64_of_Z n | NegInt n => f64_of_Z n | Float f => f end.
Definition as_f64 (v : Value) : option spec_float :=
  match v with Num n => Some (num_as_f64 n) | _ => None end.

(** [Number::from_f64]: only finite values are numbers. *)
Definition num_from_f64 (f : spec_float) : option Number :=
  match f with
  | S754_zero _ | S754_finite _ _ _ => Some (Float f)
  | _ => None
  end.

(** ** Equality: [impl PartialEq for Value] *)

Definition num_eqb (a b : Number) : bool :=
  match a, b with
  | PosInt x, PosInt y => x =? y
  | NegInt x, NegInt y => x =? y
  | Float x, Float y => SFeqb x y
  | _, _ => false
  end.

Fixpoint value_eqb (a b : Value) {struct a} : bool :=
  match a, b with
  | Null, Null => true
  | Bool x, Bool y => Bool.eqb x y
  | Num x, Num y => num_eqb x y
  | Str x, Str y => bool_decide (x = y)
  | Array xs, Array ys =>
      (fix list_eqb (xs ys : list Value) {struct xs} : bool :=
         match xs, ys with
         | [], [] => true
         | x :: xs', y :: ys' => value_eqb x y && list_eqb xs' ys'
         | _, _ => false
         end) xs ys
  | Object m, Object m' =>
      Nat.eqb (length m) (length m') &&
      (fix fields_in (m : list (string * Value)) : bool :=
         match m with
         | [] => true
         | (k, v) :: m0 =>
             match obj_get k m' with
             | Some v' => value_eqb v v' && fields_in m0
             | None => false
             end
         end) m
  | _, _ => false
  end.

(** [vec.contains(&v)] *)
Definition value_mem (v : Value) (l : list Value) : bool := existsb (fun x => value_eqb x v) l.

(** ** What the crate guarantees of a value: numbers in range and finite, distinct
    keys in every object *)

Definition number_ok (n : Number) : Prop :=
  match n with
  | PosInt n => 0 <= n <= u64_max
  | NegInt n => i64_min <= n < 0
  | Float (S754_zero _) | Float (S754_finite _ _ _) => True
  | Float _ => False
  end.

Fixpoint value_ok (v : Value) : Prop :=
  match v with
  | Num n => number_ok n
  | Array l => foldr (fun x P => value_ok x ∧ P) True l
  | Object m => NoDup m.*1 ∧ foldr (fun kv P => value_ok kv.2 ∧ P) True m
  | _ => True
  end.

(** ** The crate's text codec: not in the repository, hence a parameter *)

Class Serde := {
  json_from_str : string → option Value;
  json_to_string : Value → string;
}.

(** ** Induction over nested values *)

Section value_ind.
Context (P : Value → Prop).
Hypothesis (Hnull : P Null) (Hbool : ∀ b, P (Bool b)) (Hnum : ∀ n, P (Num n))
  (Hstr : ∀ s, P (Str s)) (Harr : ∀ l, Forall P l → P (Array l))
  (Hobj : ∀ m, Forall (fun kv => P kv.2) m → P (Object m)).

Fixpoint value_rect' (v : Value) : P v :=
  match v with
  | Null => Hnull
  | Bool b => Hbool b
  | Num n => Hnum n
  | Str s => Hstr s
  | Array l => Harr l ((fix go l : Forall P l :=
      match l with
      | [] => List.Forall_nil P
      | x :: l' => List.Forall_cons P x l' (value_rect' x) (go l')
      end) l)
  | Object m => Hobj m ((fix go m : Forall (fun kv => P kv.2) m :=
      match m with
      | [] => List.Forall_nil _
      | kv :: m' => List.Forall_cons _ kv m' (value_rect' kv.2) (go m')
      end) m)
  end.
End value_ind.

(** ** Lemmas *)

Lemma obj_get_insert_eq k v m : obj_get k (obj_insert k v m) = Some v.
Proof. induction m as [|[k' v'] m IH]; simpl; repeat (case_bool_decide; simpl); naive_solver. Qed.

Lemma obj_get_insert_ne k k' v m :
  k ≠ k' → obj_get k' (obj_insert k v m) = obj_get k' m.
Proof.
  intros Hne. induction m as [|[k0 v0] m IH]; simpl; repeat (case_bool_decide; simpl); naive_solver.
Qed.

Lemma value_ok_array l : value_ok (Array l) ↔ Forall value_ok l.
Proof. simpl. induction l; simpl; rewrite ?Forall_nil, ?Forall_cons; naive_solver. Qed.

Lemma value_ok_get v k x : value_ok v → get v k = Some x → value_ok x.
Proof.
  destruct v as [| | | | |m]; try done. simpl. intros [_ Hm]. revert Hm.
  induction m as [|[k' v'] m IH]; simpl; [done|].
  intros [Hv Hm]. case_bool_decide; [by intros [= <-]|auto].
Qed.

Lemma SFeqb_refl f : number_ok (Float f) → SFeqb f f = true.
Proof.
  destruct f as [s| | |s m e]; try done; intros _; unfold SFeqb, SFcompare.
  destruct s; by rewrite Z.compare_refl, ?Pos.compare_cont_refl.
Qed.

Lemma num_eqb_refl n : number_ok n → num_eqb n n = true.
Proof. destruct n as [n|n|f]; [intros _; apply Z.eqb_refl..|apply SFeqb_refl]. Qed.

Lemma as_i64_range v n : value_ok v → as_i64 v = Some n → i64_min <= n <= i64_max.
Proof.
  destruct v as [| |[n'|n'|f]| | |]; try done; simpl; unfold u64_max, i64_min, i64_max.
  - destruct (Z.leb_spec n' 9223372036854775807); intros; simplify_eq; lia.
  - intros; simplify_eq. lia.
Qed.

(** Equality is reflexive on the values the crate can hold. *)
Lemma value_eqb_refl v : value_ok v → value_eqb v v = true.
Proof.
  induction v as [|b|n|s|l IH|m IH] using value_rect'; simpl; intros Hv.
  - done.
  - apply Bool.eqb_reflx.
  - by apply num_eqb_refl.
  - by apply bool_decide_true.
  - induction IH as [|x l Hx _ IHl]; simpl in *; [done|]. destruct Hv as [Hv Hl].
    by rewrite Hx, IHl.
  - destruct Hv as [Hnd Hm]. rewrite Nat.eqb_refl. simpl.
    assert (∀ k v, (k, v) ∈ m → obj_get k m = Some v) as Hget.
    { intros k v Hin. clear IH Hm. induction m as [|[k0 v0] m IHm]; simpl in *; [set_solver|].
      apply NoDup_cons in Hnd as [Hn Hnd]. apply elem_of_cons in Hin as [[= <- <-]|Hin];
        [by rewrite bool_decide_true|].
      rewrite bool_decide_false; [auto|]. intros ->. apply Hn.
      apply (list_elem_of_fmap_2 fst _ _ Hin). }
    assert (Hall : ∀ whole m', (∀ k v, (k, v) ∈ m' → obj_get k whole = Some v) →
      Forall (fun kv => value_eqb kv.2 kv.2 = true) m' →
      (fix fields_in (m : list (string * Value)) : bool :=
         match m with
         | [] => true
         | (k, v) :: m0 =>
             match obj_get k whole with
             | Some v' => value_eqb v v' && fields_in m0
             | None => false
             end
         end) m' = true).
    { intros whole m' Hg Hr. induction Hr as [|[k v] m' Hkv _ IHm]; [done|].
      rewrite (Hg k v) by left. simpl in Hkv. rewrite Hkv. simpl.
      apply IHm. intros k' v' Hin. apply Hg. by right. }
    apply Hall; [done|]. clear Hnd Hget Hall.
    induction IH as [|[k v] m Hkv _ IHm]; simpl in *; [constructor|]. destruct Hm.
    constructor; auto.
Qed.

(** Keys stay distinct under insertion. *)
Lemma obj_insert_keys k v m : NoDup m.*1 → NoDup (obj_insert k v m).*1.
Proof.
  induction m as [|[k0 v0] m IH]; simpl; [intros _; apply NoDup_singleton|].
  rewrite NoDup_cons. intros [Hn Hd]. case_bool_decide; simpl.
  - by apply NoDup_cons.
  - apply NoDup_cons. split; [|auto]. clear IH Hd. revert Hn.
    induction m as [|[k1 v1] m IH]; simpl; [set_solver|].
    case_bool_decide; set_solver.
Qed.

Lemma obj_get_elem k v m : obj_get k m = Some v → (k, v) ∈ m.
Proof.
  induction m as [|[k0 v0] m IH]; simpl; [done|]. case_bool_decide; [|set_solver].
  intros [= <-]. subst. left.
Qed.

Lemma obj_get_None k m : obj_get k m = None ↔ k ∉ m.*1.
Proof.
  induction m as [|[k0 v0] m IH]; simpl; [set_solver|]. case_bool_decide; set_solver.
Qed.

Lemma obj_get_nodup k v m : NoDup m.*1 → (k, v) ∈ m → obj_get k m = Some v.
Proof.
  induction m as [|[k0 v0] m IH]; simpl; [set_solver|]. rewrite NoDup_cons. intros [Hn Hd].
  rewrite elem_of_cons. intros [[= <- <-]|Hin]; [by case_bool_decide|].
  case_bool_decide; [|auto]. subst. destruct Hn. apply (list_elem_of_fmap_2 fst _ _ Hin).
Qed.
