(* ===== verification/Errors.v ===== *)
(** * errors.rs: MCP and transport failures as PostgreSQL SQLSTATEs

    [McpError] with the source's sixteen variants, the SQLSTATE each one is
    reported as, the classification of JSON-RPC error objects and of HTTP
    statuses, and the two message sniffers.

    Besides what a function returns, a computation of the model can be left by a
    panic, which unwinds through its frames without any of them seeing a value.
    [Unwinding] is that: no variant of the source's enum, never made by the code's
    own error paths, and not for a frame to inspect or to keep anything after. *)

From Stdlib Require Import Ascii String ZArith Lia.
From stdpp Require Import base numbers gmap sets strings pretty list.
From S2P Require Import Prelude Str.
#[local] Open Scope Z_scope.

Definition JSONRPC_INVALID_PARAMS : Z := -32602.
Definition JSONRPC_METHOD_NOT_FOUND : Z := -32601.
Definition JSONRPC_INVALID_REQUEST : Z := -32600.
Definition JSONRPC_PARSE_ERROR : Z := -32700.
Definition JSONRPC_INTERNAL_ERROR : Z := -32603.

(** The panics there are: [pgrx::check_for_interrupts!] on a cancelled statement, and
    an assertion of a debug build. *)
Inductive Panic : Type := QueryCanceled | AssertionFailed.
#[export] Instance Panic_eq_dec : EqDecision Panic.
Proof. solve_decision. Defined.

Inductive McpError : Type :=
  | InvalidParams (m : string)
  | MethodNotFound (m : string)
  | Forbidden (m : string)
  | Transport (m : string)
  | UndefinedObject (m : string)
  | NoAuthMapping (m : string)
  | ToolError (m : string)
  | InvalidOption (m : string)
  | NotImplemented (m : string)
  | Internal (m : string)
  | FeatureNotSupported (m : string)
  | TooManyArguments (m : string)
  | NotNullViolation (m : string)
  | DatatypeMismatch (m : string)
  | InvalidSchemaName (m : string)
  | Rpc (code : Z) (m : string)
  | Unwinding (why : Panic) (m : string).

#[export] Instance McpError_eq_dec : EqDecision McpError.
Proof. solve_decision. Defined.

Abbreviation McpResult := (result McpError).

Definition sqlstate (e : McpError) : string :=
  match e with
  | InvalidParams _ | InvalidOption _ | Rpc _ _ => "22023"
  | MethodNotFound _ | NotImplemented _ => "0A000"
  | FeatureNotSupported _ => "0A000"
  | Internal _ => "XX000"
  | TooManyArguments _ => "54023"
  | NotNullViolation _ => "23502"
  | DatatypeMismatch _ => "42804"
  | InvalidSchemaName _ => "3F000"
  | Forbidden _ => "42501"
  | Transport _ => "08006"
  | UndefinedObject _ => "42704"
  | NoAuthMapping _ => "28000"
  | ToolError _ => "P0001"
  | Unwinding QueryCanceled _ => "57014"
  | Unwinding AssertionFailed _ => "XX000"
  end.

Definition message (e : McpError) : string :=
  match e with
  | InvalidParams m | MethodNotFound m | Forbidden m | Transport m
  | UndefinedObject m | NoAuthMapping m | ToolError m | InvalidOption m
  | NotImplemented m | Internal m | FeatureNotSupported m | TooManyArguments m
  | NotNullViolation m | DatatypeMismatch m | InvalidSchemaName m | Rpc _ m | Unwinding _ m => m
  end.

Definition is_authz_message (m : string) : bool :=
  let lower := to_ascii_lowercase m in
  contains "unauthorized" lower
  || contains "forbidden" lower
  || contains "access denied" lower
  || contains "insufficient scope" lower
  || contains "invalid_token" lower.

Definition is_expired_session (m : string) : bool :=
  let lower := to_ascii_lowercase m in
  (contains "session" lower
    && (contains "expired" lower || contains "unknown" lower || contains "not found" lower))
  || contains "invalid session id" lower.

Definition from_rpc (code : Z) (m : string) : McpError :=
  if code =? JSONRPC_INVALID_PARAMS then InvalidParams m
  else if code =? JSONRPC_METHOD_NOT_FOUND then MethodNotFound m
  else if (code =? JSONRPC_INVALID_REQUEST) || (code =? JSONRPC_PARSE_ERROR)
          || (code =? JSONRPC_INTERNAL_ERROR)
  then Internal ("MCP protocol failure (" +:+ fmt_Z code +:+ "): " +:+ m)
  else if is_authz_message m then Forbidden m
  else Rpc code m.

Definition from_http_status (status : Z) : McpError :=
  if (status =? 401) || (status =? 403)
  then Forbidden ("MCP server rejected the request (HTTP " +:+ fmt_Z status +:+ ")")
  else if status =? 400 then InvalidParams "MCP server rejected the request (HTTP 400)"
  else if status =? 405 then MethodNotFound "MCP server does not accept POST (HTTP 405)"
  else Transport ("MCP server returned HTTP " +:+ fmt_Z status).

(** The [PgSqlErrorCode] values [error_code] picks, and the five characters
    PostgreSQL's errcodes table gives each of them. *)
Inductive PgSqlErrorCode : Type :=
  | ERRCODE_INVALID_PARAMETER_VALUE
  | ERRCODE_FEATURE_NOT_SUPPORTED
  | ERRCODE_INTERNAL_ERROR
  | ERRCODE_TOO_MANY_ARGUMENTS
  | ERRCODE_NOT_NULL_VIOLATION
  | ERRCODE_DATATYPE_MISMATCH
  | ERRCODE_INVALID_SCHEMA_NAME
  | ERRCODE_INSUFFICIENT_PRIVILEGE
  | ERRCODE_CONNECTION_FAILURE
  | ERRCODE_UNDEFINED_OBJECT
  | ERRCODE_INVALID_AUTHORIZATION_SPECIFICATION
  | ERRCODE_RAISE_EXCEPTION
  | ERRCODE_QUERY_CANCELED.

Definition errcode_text (c : PgSqlErrorCode) : string :=
  match c with
  | ERRCODE_INVALID_PARAMETER_VALUE => "22023"
  | ERRCODE_FEATURE_NOT_SUPPORTED => "0A000"
  | ERRCODE_INTERNAL_ERROR => "XX000"
  | ERRCODE_TOO_MANY_ARGUMENTS => "54023"
  | ERRCODE_NOT_NULL_VIOLATION => "23502"
  | ERRCODE_DATATYPE_MISMATCH => "42804"
  | ERRCODE_INVALID_SCHEMA_NAME => "3F000"
  | ERRCODE_INSUFFICIENT_PRIVILEGE => "42501"
  | ERRCODE_CONNECTION_FAILURE => "08006"
  | ERRCODE_UNDEFINED_OBJECT => "42704"
  | ERRCODE_INVALID_AUTHORIZATION_SPECIFICATION => "28000"
  | ERRCODE_RAISE_EXCEPTION => "P0001"
  | ERRCODE_QUERY_CANCELED => "57014"
  end.

Definition error_code (e : McpError) : PgSqlErrorCode :=
  match e with
  | InvalidParams _ | InvalidOption _ | Rpc _ _ => ERRCODE_INVALID_PARAMETER_VALUE
  | MethodNotFound _ | NotImplemented _ => ERRCODE_FEATURE_NOT_SUPPORTED
  | FeatureNotSupported _ => ERRCODE_FEATURE_NOT_SUPPORTED
  | Internal _ => ERRCODE_INTERNAL_ERROR
  | TooManyArguments _ => ERRCODE_TOO_MANY_ARGUMENTS
  | NotNullViolation _ => ERRCODE_NOT_NULL_VIOLATION
  | DatatypeMismatch _ => ERRCODE_DATATYPE_MISMATCH
  | InvalidSchemaName _ => ERRCODE_INVALID_SCHEMA_NAME
  | Forbidden _ => ERRCODE_INSUFFICIENT_PRIVILEGE
  | Transport _ => ERRCODE_CONNECTION_FAILURE
  | UndefinedObject _ => ERRCODE_UNDEFINED_OBJECT
  | NoAuthMapping _ => ERRCODE_INVALID_AUTHORIZATION_SPECIFICATION
  | ToolError _ => ERRCODE_RAISE_EXCEPTION
  | Unwinding QueryCanceled _ => ERRCODE_QUERY_CANCELED
  | Unwinding AssertionFailed _ => ERRCODE_INTERNAL_ERROR
  end.

(** What [ereport(ERROR, ...)] is given: [raise] and [raise_ctx] do not return,
    so the report is the outcome. *)
Record Report : Type := mkReport {
  rp_code : PgSqlErrorCode;
  rp_message : string;
  rp_detail : option string;
}.

Definition raise (e : McpError) : Report := mkReport (error_code e) (message e) None.

(** A panic never gets here: PostgreSQL reports it as it was raised. *)
Definition raise_ctx (e : McpError) (server method : string) : Report :=
  mkReport (error_code e) (message e)
    match e with
    | Unwinding _ _ => None
    | _ => Some ("foreign server " +:+ quoted server +:+ ", MCP method " +:+ quoted method)
    end.

(** Whether a failure is [McpError::Transport], the one class for which the
    session layer discards the cached session. *)
Definition is_transport (e : McpError) : bool :=
  match e with Transport _ => true | _ => false end.

(** ** Lemmas *)

(** Both spellings of the SQLSTATE table agree on every variant. *)
Lemma error_code_sqlstate e : errcode_text (error_code e) = sqlstate e.
Proof. by destruct e as [| | | | | | | | | | | | | | | |[]]. Qed.

(** A JSON-RPC error object is never classified as a transport failure. *)
Lemma from_rpc_not_transport code m : is_transport (from_rpc code m) = false.
Proof. unfold from_rpc. by repeat case_match. Qed.

(** The server's own message survives in the error, for every code. *)
Lemma from_rpc_message code m : contains m (message (from_rpc code m)) = true.
Proof.
  unfold from_rpc. repeat case_match; cbn [message]; auto with str.
  rewrite <- !app_string_assoc. apply contains_app_r.
Qed.

(** [is_transport] is exactly SQLSTATE class 08. *)
Lemma is_transport_sqlstate e : is_transport e = true ↔ sqlstate e = "08006".
Proof. by destruct e as [| | | | | | | | | | | | | | | |[]]. Qed.
