(* ===== verification/Sse.v ===== *)
(** * sse.rs: the event-stream reader

    [read_until_id_observed] as a loop over the lines a [BufReader] hands out,
    with the clock, the interrupt hook and the observer made explicit; then a
    declarative reading of the stream (split at blank lines, keep the [data]
    fields, join) and the theorem that the loop computes it. *)

From Stdlib Require Import Ascii String ZArith Lia.
From stdpp Require Import base numbers gmap sets strings pretty list.
From S2P Require Import Prelude Str Json Errors.
#[local] Open Scope Z_scope.

Module Sse.

(** ** The byte source *)

(** What the HTTP body yields: some bytes, then end of stream or an I/O error
    of the given kind (the Debug form of [std::io::ErrorKind]). *)
Record Stream : Type := mkStream {
  st_bytes : string;
  st_error : option string;
}.

(** One [read_line]: a line with its terminator, or the kind of the failure. *)
Definition line_read (s : string) : result string string :=
  if valid_utf8 (bytes s) then Ok s else Err "InvalidData".

(** The successive [read_line] outcomes.  An unterminated tail is a line when
    the stream ends there and is lost when the stream fails there. *)
Fixpoint read_lines (cur s : string) (error : option string) : list (result string string) :=
  match s with
  | EmptyString =>
      match error with
      | Some kind => [Err kind]
      | None => if is_empty cur then [] else [line_read cur]
      end
  | String c s' =>
      if Ascii.eqb c "010" then line_read (cur +:+ nl) :: read_lines EmptyString s' error
      else read_lines (cur +:+ String c EmptyString) s' error
  end.

Definition lines_of (st : Stream) : list (result string string) :=
  read_lines EmptyString (st_bytes st) (st_error st).

(** ** The reader *)

Record Event : Type := mkEvent {
  ev_event : option string;
  ev_id : option string;
  ev_data : string;
}.
Definition default_event : Event := mkEvent None None EmptyString.

(** A field line: name and value, one leading space of the value dropped. *)
Definition field_of (trimmed : string) : string * string :=
  match split_once ":" trimmed with
  | Some (f, v) => (f, default v (strip_prefix " " v))
  | None => (trimmed, EmptyString)
  end.

Definition json_id (v : Value) : option Z :=
  match v with
  | Num n => num_as_i64 n
  | Str s => parse_i64 s
  | _ => None
  end.

Section reader.
Context `{Serde}.
(** [elapsed n]: the reading of [started.elapsed()] in iteration [n], in
    milliseconds; [check k]: the outcome of the [k]-th interrupt check. *)
Context (elapsed : nat → Z) (check : nat → McpResult unit).
Context (want_id timeout : Z).

(** Does a decoded frame carry the wanted id? *)
Definition wanted (v : Value) : bool :=
  match get v "id" ≫= json_id with
  | Some id => id =? want_id
  | None => false
  end.

(** The loop.  [n] counts iterations, [k] interrupt checks; [seen] collects
    what the observer was handed, newest first. *)
Fixpoint read_loop (n k : nat) (pending : Event) (data_lines : list string)
    (seen : list Value) (input : list (result string string)) :
    McpResult Value * list Value :=
  if timeout <=? elapsed n then
    (Err (Transport ("MCP request timed out after " +:+ fmt_Z timeout
                     +:+ "ms while reading the event stream")), seen)
  else
  match input with
  | [] => (Err (Transport "MCP event stream ended before the response arrived"), seen)
  | Err kind :: _ => (Err (Transport ("event stream read failed: " +:+ kind)), seen)
  | Ok line :: rest =>
    let trimmed := trim_end_crlf line in
    if is_empty trimmed then
      match check k with
      | Err e => (Err e, seen)
      | Ok _ =>
        let next seen := read_loop (S n) (S k) default_event [] seen rest in
        match data_lines with
        | [] => next seen
        | _ =>
          match json_from_str (join nl data_lines) with
          | Some parsed =>
              if wanted parsed then (Ok parsed, parsed :: seen) else next (parsed :: seen)
          | None => next seen
          end
        end
      end
    else if starts_with ":" trimmed then read_loop (S n) k pending data_lines seen rest
    else
      let '(field, value) := field_of trimmed in
      if bool_decide (field = "data") then
        read_loop (S n) k pending (data_lines ++ [value]) seen rest
      else if bool_decide (field = "id") then
        read_loop (S n) k (mkEvent (ev_event pending) (Some value) (ev_data pending))
          data_lines seen rest
      else if bool_decide (field = "event") then
        read_loop (S n) k (mkEvent (Some value) (ev_id pending) (ev_data pending))
          data_lines seen rest
      else read_loop (S n) k pending data_lines seen rest
  end.

(** The reply, and the frames the observer saw in order. *)
Definition read_until_id_observed (st : Stream) : McpResult Value * list Value :=
  let '(r, seen) := read_loop 0 0 default_event [] [] (lines_of st) in (r, reverse seen).

Definition read_until_id (st : Stream) : McpResult Value :=
  (read_until_id_observed st).1.
End reader.

(** [io_kind] keeps the kind only: the message of the operating system is not
    even an input of the model. *)

(** ** The declarative reading *)

(** The value of a [data] field line; comments and other fields give none. *)
Definition data_value (line : string) : option string :=
  let trimmed := trim_end_crlf line in
  if starts_with ":" trimmed then None
  else let '(f, v) := field_of trimmed in if bool_decide (f = "data") then Some v else None.

Definition blank (line : string) : bool := is_empty (trim_end_crlf line).

(** Complete events: the groups of lines that a blank line closes. *)
Fixpoint events (cur : list string) (lines : list string) : list (list string) :=
  match lines with
  | [] => []
  | l :: rest => if blank l then cur :: events [] rest else events (cur ++ [l]) rest
  end.

Definition payload (ev : list string) : option string :=
  match omap data_value ev with [] => None | vs => Some (join nl vs) end.

(** The JSON frames a stream of lines carries, in order. *)
Definition frames `{Serde} (lines : list string) : list Value :=
  omap json_from_str (omap payload (events [] lines)).

(** The first wanted frame, and the frames up to it. *)
Fixpoint first_wanted (want_id : Z) (fs : list Value) : option Value * list Value :=
  match fs with
  | [] => (None, [])
  | f :: fs' =>
      if wanted want_id f then (Some f, [f])
      else let '(r, seen) := first_wanted want_id fs' in (r, f :: seen)
  end.

(** ** The loop computes the declarative reading *)

Section reader_facts.
Context `{Serde} (elapsed : nat → Z) (check : nat → McpResult unit).
Context (want_id timeout : Z).

Local Abbreviation loop := (read_loop elapsed check want_id timeout).

Definition eof_error : McpError :=
  Transport "MCP event stream ended before the response arrived".

Lemma omap_snoc {A B} (f : A → option B) l x :
  omap f (l ++ [x]) = omap f l ++ match f x with Some y => [y] | None => [] end.
Proof. rewrite omap_app. simpl. by destruct (f x). Qed.

(** One field line, folded into the accumulated data lines. *)
Lemma loop_field n k pending dl seen l rest :
  elapsed n < timeout → blank l = false →
  ∃ pending', loop n k pending dl seen (Ok l :: rest) =
    loop (S n) k pending' (dl ++ match data_value l with Some y => [y] | None => [] end)
      seen rest.
Proof.
  intros Ht Hb. simpl. rewrite (proj2 (Z.leb_gt _ _)) by done.
  unfold blank, data_value in *. rewrite Hb.
  destruct (starts_with ":" _); [exists pending; by rewrite app_nil_r|].
  destruct (field_of _) as [f v].
  repeat case_bool_decide; subst; rewrite ?app_nil_r; eauto.
Qed.

(** A blank line dispatches the accumulated event. *)
Lemma loop_blank n k pending ev seen l rest :
  elapsed n < timeout → check k = Ok tt → blank l = true →
  loop n k pending (omap data_value ev) seen (Ok l :: rest) =
    match payload ev ≫= json_from_str with
    | Some v => if wanted want_id v then (Ok v, v :: seen)
                else loop (S n) (S k) default_event [] (v :: seen) rest
    | None => loop (S n) (S k) default_event [] seen rest
    end.
Proof.
  intros Ht Hc Hb. simpl. rewrite (proj2 (Z.leb_gt _ _)) by done.
  unfold blank in Hb. rewrite Hb, Hc. unfold payload.
  destruct (omap data_value ev) eqn:E; [done|]. simpl.
  by destruct (json_from_str _).
Qed.

Hypothesis (in_time : ∀ n, elapsed n < timeout).
Hypothesis (never_cancelled : ∀ k, check k = Ok tt).

(** Reading the lines [ls] followed by [tail]: either the wanted frame is
    among the events of [ls], or the loop reaches [tail] between events. *)
Lemma read_loop_spec ls tail n k pending cur seen :
  let '(r, obs) := first_wanted want_id
                     (omap json_from_str (omap payload (events cur ls))) in
  match r with
  | Some v => loop n k pending (omap data_value cur) seen ((Ok <$> ls) ++ tail)
              = (Ok v, reverse obs ++ seen)
  | None => ∃ k' pending' dl',
      loop n k pending (omap data_value cur) seen ((Ok <$> ls) ++ tail)
      = loop (n + length ls) k' pending' dl' (reverse obs ++ seen) tail
  end.
Proof.
  revert n k pending cur seen. induction ls as [|l ls IH]; intros n k pending cur seen.
  { simpl. rewrite Nat.add_0_r. eauto. }
  simpl events. destruct (blank l) eqn:Hb.
  - rewrite fmap_cons, <- app_comm_cons, loop_blank by auto. simpl omap.
    destruct (payload cur) as [p|]; simpl;
      [destruct (json_from_str p) as [v|]; simpl; [destruct (wanted want_id v) eqn:Hw|]|].
    + done.
    + specialize (IH (S n) (S k) default_event [] (v :: seen)). simpl in IH.
      destruct (first_wanted _ _) as [[w|] obs];
        rewrite reverse_cons, <- app_assoc; simpl; [done|].
      destruct IH as (?&?&?&->). replace (n + S (length ls))%nat with (S n + length ls)%nat by lia.
      eauto.
    + specialize (IH (S n) (S k) default_event [] seen). simpl in IH.
      destruct (first_wanted _ _) as [[w|] obs]; [done|].
      replace (n + S (length ls))%nat with (S n + length ls)%nat by lia. eauto.
    + specialize (IH (S n) (S k) default_event [] seen). simpl in IH.
      destruct (first_wanted _ _) as [[w|] obs]; [done|].
      replace (n + S (length ls))%nat with (S n + length ls)%nat by lia. eauto.
  - destruct (loop_field n k pending (omap data_value cur) seen l ((Ok <$> ls) ++ tail))
      as [pending' Hl]; [done..|].
    rewrite fmap_cons, <- app_comm_cons, Hl, <- omap_snoc.
    specialize (IH (S n) k pending' (cur ++ [l]) seen).
    destruct (first_wanted _ _) as [[w|] obs]; [done|].
    simpl length. replace (n + S (length ls))%nat with (S n + length ls)%nat by lia. done.
Qed.
End reader_facts.

(** ** Deadline, and what a reply is *)

Section deadline.
Context `{Serde} (elapsed : nat → Z) (check : nat → McpResult unit).
Context (want_id timeout : Z).
Local Abbreviation loop := (read_loop elapsed check want_id timeout).

(** A reply carries the wanted id and is the last frame observed; every
    iteration up to the one that read its closing blank line started before
    the deadline; nothing after that line was read. *)
Lemma read_loop_Ok n k pending dl seen input v seen' :
  loop n k pending dl seen input = (Ok v, seen') →
  wanted want_id v = true ∧ (∃ earlier, seen' = v :: earlier) ∧
  ∃ m, (m < length input)%nat ∧ (∀ i, (n ≤ i ≤ n + m)%nat → elapsed i < timeout) ∧
       ∀ more, loop n k pending dl seen (take (S m) input ++ more) = (Ok v, seen').
Proof.
  revert n k pending dl seen.
  induction input as [|[l|e] input IH]; intros n k pending dl seen; simpl;
    destruct (Z.leb_spec timeout (elapsed n)) as [|Ht]; try done.
  assert (Hlift : ∀ k' pending' dl' seen0,
    loop (S n) k' pending' dl' seen0 input = (Ok v, seen') →
    wanted want_id v = true ∧ (∃ earlier, seen' = v :: earlier) ∧
    ∃ m, (m < S (length input))%nat ∧ (∀ i, (n ≤ i ≤ n + m)%nat → elapsed i < timeout) ∧
         ∃ m0, m = S m0 ∧
         ∀ more, loop (S n) k' pending' dl' seen0 (take (S m0) input ++ more) = (Ok v, seen')).
  { intros k' p' dl' s0 Hl. apply IH in Hl as (?&?&m&?&Hm&?).
    split_and!; [done..|]. exists (S m). split_and!; [lia| |eauto].
    intros i Hi. destruct (decide (i = n)) as [->|]; [done|]. apply Hm. lia. }
  clear IH. destruct (is_empty _).
  - destruct (check k); [|done]. destruct dl as [|d dl].
    + intros Hl. apply Hlift in Hl as (?&?&m&?&?&m0&->&?). eauto 10.
    + destruct (json_from_str _) as [parsed|].
      * destruct (wanted want_id parsed) eqn:Hw.
        -- intros [= -> <-]. split_and!; [done|eauto|].
           exists 0%nat. split_and!; [lia|intros i Hi; by assert (i = n) as -> by lia|].
           intros more. by rewrite ?Hw.
        -- intros Hl. apply Hlift in Hl as (?&?&m&?&?&m0&->&?). eauto 10.
      * intros Hl. apply Hlift in Hl as (?&?&m&?&?&m0&->&?). eauto 10.
  - destruct (starts_with ":" _);
      [intros Hl; apply Hlift in Hl as (?&?&m&?&?&m0&->&?); eauto 10|].
    destruct (field_of _) as [f w].
    repeat case_bool_decide; intros Hl;
      apply Hlift in Hl as (?&?&m&?&?&m0&->&?); eauto 10.
Qed.

(** Every failure of the reader other than an interrupt is a transport
    failure, SQLSTATE 08006. *)
Lemma read_loop_Err n k pending dl seen input e seen' :
  (∀ k, check k = Ok tt) →
  loop n k pending dl seen input = (Err e, seen') → sqlstate e = "08006".
Proof.
  intros Hc. revert n k pending dl seen.
  induction input as [|[l|e'] input IH]; intros n k pending dl seen; simpl;
    (destruct (Z.leb_spec timeout (elapsed n)); [by intros [= <- _]|]);
    try (by intros [= <- _]).
  rewrite Hc. repeat (case_match; try done); eauto.
Qed.
End deadline.

(** ** What a server that follows the SSE framing sends *)

(** The lines of one event carrying [s]: a [data] line per line of [s], then
    the blank line that dispatches it. *)
Definition event_lines (s : string) : list string :=
  ((fun l => "data: " +:+ l +:+ nl) <$> split_on "010" s) ++ [nl].

Lemma data_value_data l :
  Forall (fun b => crlf b = false) (bytes l) → data_value ("data: " +:+ l +:+ nl) = Some l.
Proof.
  intros Hl. unfold data_value. rewrite <- app_string_assoc.
  rewrite trim_end_crlf_app; [done| |by repeat constructor].
  rewrite bytes_app, Forall_app. split; [by repeat constructor|done].
Qed.

Lemma blank_data l :
  Forall (fun b => crlf b = false) (bytes l) → blank ("data: " +:+ l +:+ nl) = false.
Proof.
  intros Hl. unfold blank. rewrite <- app_string_assoc.
  rewrite trim_end_crlf_app; [done| |by repeat constructor].
  rewrite bytes_app, Forall_app. split; [by repeat constructor|done].
Qed.

Lemma events_event_lines parts cur rest :
  Forall (fun l => Forall (fun b => crlf b = false) (bytes l)) parts →
  events cur (((fun l => "data: " +:+ l +:+ nl) <$> parts) ++ nl :: rest) =
  (cur ++ ((fun l => "data: " +:+ l +:+ nl) <$> parts)) :: events [] rest.
Proof.
  intros Hp. revert cur. induction Hp as [|l parts Hl Hp IH]; intros cur.
  - by rewrite fmap_nil, !app_nil_r.
  - rewrite fmap_cons, <- app_comm_cons. cbn [events]. rewrite blank_data by done.
    by rewrite IH, <- app_assoc.
Qed.

Lemma no_crlf_parts s :
  13 ∉ bytes s →
  Forall (fun l => Forall (fun b => crlf b = false) (bytes l)) (split_on "010" s).
Proof.
  intros Hcr. pose proof (split_on_no_sep "010" s) as Hlf.
  assert (Forall (fun b => b ≠ 13) (bytes s)) as Hb.
  { apply Forall_forall. by intros b Hb ->. }
  apply (split_on_Forall _ "010") in Hb.
  apply Forall_forall. intros l Hl. rewrite Forall_forall in Hlf, Hb.
  specialize (Hlf l Hl). specialize (Hb l Hl). simpl in Hlf, Hb.
  rewrite Forall_forall in Hb. apply Forall_forall. intros b Hbl. unfold crlf.
  apply orb_false_iff. rewrite !Z.eqb_neq. split; [by apply Hb|]. by intros ->.
Qed.

(** The payload of the event is the text it carries. *)
Lemma events_payload s rest :
  13 ∉ bytes s → omap payload (events [] (event_lines s ++ rest)) = s :: omap payload (events [] rest).
Proof.
  intros Hcr. pose proof (no_crlf_parts s Hcr) as Hp. unfold event_lines.
  rewrite <- app_assoc. simpl. rewrite events_event_lines by done. simpl.
  assert (omap data_value ((fun l => "data: " +:+ l +:+ nl) <$> split_on "010" s)
          = split_on "010" s) as Ho.
  { clear Hcr. induction Hp as [|l ps Hl Hp IH]; [done|].
    rewrite fmap_cons. cbn [omap list_omap]. rewrite data_value_data by done. by f_equal. }
  assert (payload ((fun l => "data: " +:+ l +:+ nl) <$> split_on "010" s) = Some s) as ->; [|done].
  unfold payload. rewrite Ho. pose proof (join_split_on "010" s) as Hj.
  destruct (split_on "010" s) as [|p ps] eqn:Es; [by destruct (split_on_nonempty "010" s)|].
  by f_equal.
Qed.

Lemma frames_event `{Serde} p rest :
  13 ∉ bytes p → frames (event_lines p ++ rest) = option_list (json_from_str p) ++ frames rest.
Proof.
  intros Hp. unfold frames. rewrite events_payload by done. simpl.
  by destruct (json_from_str p).
Qed.

(** ** The theorems *)

Section theorems.
Context `{Serde} (elapsed : nat → Z) (check : nat → McpResult unit).
Context (want_id timeout : Z).
Local Abbreviation reader := (read_until_id_observed elapsed check want_id timeout).

(** C5. On a stream that is read to its end without an I/O failure, a
    timeout or a cancellation, the reader returns the first JSON frame that
    carries the wanted id, where the frames are the events that a blank line
    closes with their [data] lines joined; the observer sees exactly the
    frames up to that one; without such a frame the outcome is the
    end-of-stream error. *)
Theorem read_until_id_first_frame (st : Stream) (ls : list string) :
  (∀ n, elapsed n < timeout) → (∀ k, check k = Ok tt) →
  lines_of st = Ok <$> ls →
  reader st =
    let '(r, obs) := first_wanted want_id (frames ls) in
    (match r with Some v => Ok v | None => Err eof_error end, obs).
Proof.
  intros Ht Hc Hls. unfold read_until_id_observed. rewrite Hls.
  pose proof (read_loop_spec elapsed check want_id timeout Ht Hc ls [] 0 0
                default_event [] []) as Hs.
  rewrite app_nil_r in Hs. unfold frames. simpl in Hs.
  destruct (first_wanted _ _) as [[v|] obs].
  - rewrite Hs. by rewrite app_nil_r, reverse_involutive.
  - destruct Hs as (k & p & dl & ->). simpl.
    rewrite (proj2 (Z.leb_gt _ _)) by done. by rewrite app_nil_r, reverse_involutive.
Qed.

(** The deadline is total: a reply is returned only if every iteration up
    to the one that read the blank line closing it began before the timeout,
    and then no later line was read; the reply carries the wanted id and is
    the last frame observed. *)
Theorem reply_before_deadline (st : Stream) (v : Value) (obs : list Value) :
  reader st = (Ok v, obs) →
  wanted want_id v = true ∧ last obs = Some v ∧
  ∃ m, (m < length (lines_of st))%nat ∧ (∀ i, (i ≤ m)%nat → elapsed i < timeout).
Proof.
  unfold read_until_id_observed.
  destruct (read_loop _ _ _ _ _ _ _ _ _ _) as [r seen] eqn:E. intros [= -> <-].
  apply read_loop_Ok in E as (Hw & [earlier ->] & m & Hm & Ht & _).
  split_and!; [done|by rewrite reverse_cons, last_snoc|].
  exists m. split; [done|]. intros i Hi. apply Ht. lia.
Qed.

(** Framing round trip: the lines of an event that carries the text [s]
    (one [data] line per line of [s]), after any complete events without the
    wanted id and whatever follows, yield the value [s] decodes to. *)
Theorem event_round_trip (before after : list string) (s : string) (v : Value) (st : Stream) :
  (∀ n, elapsed n < timeout) → (∀ k, check k = Ok tt) →
  lines_of st = Ok <$> (mjoin (event_lines <$> before) ++ event_lines s ++ after) →
  Forall (fun p => (13 ∉ bytes p) ∧ ∀ w, json_from_str p = Some w → wanted want_id w = false)
    before →
  13 ∉ bytes s → json_from_str s = Some v → wanted want_id v = true →
  (reader st).1 = Ok v.
Proof.
  intros Ht Hc Hls Hb Hcr Hp Hw.
  rewrite (read_until_id_first_frame st _ Ht Hc Hls).
  assert (first_wanted want_id
    (frames (mjoin (event_lines <$> before) ++ event_lines s ++ after)) =
    (Some v, omap json_from_str before ++ [v])) as ->; [|done].
  clear Hls. induction Hb as [|p ps [Hpcr Hpw] Hps IH].
  - simpl. rewrite frames_event, Hp by done. simpl. by rewrite Hw.
  - rewrite fmap_cons. change (mjoin (?a :: ?b)) with (a ++ mjoin b).
    rewrite <- app_assoc, frames_event by done. simpl.
    destruct (json_from_str p) as [w|] eqn:Ep; simpl; [|exact IH].
    rewrite (Hpw w eq_refl). setoid_rewrite IH. done.
Qed.
End theorems.

(** ** Witnesses: a codec that knows two texts, and streams on the wire *)

Module Wit.
Definition reply_text : string := "{id:7}".
Definition note_text : string := "{method:n}".
Definition reply : Value := Object [("id", num_of_Z 7)].
Definition note : Value := Object [("method", Str "n")].
Definition serde : Serde := {|
  json_from_str s :=
    if bool_decide (s = reply_text) then Some reply
    else if bool_decide (s = note_text) then Some note else None;
  json_to_string v := EmptyString |}.
Definition st : Stream :=
  mkStream (": ping" +:+ nl +:+ "data: " +:+ note_text +:+ nl +:+ nl
            +:+ "id: 3" +:+ nl +:+ "data: " +:+ reply_text +:+ nl +:+ nl +:+ "tail") None.
Definition ls : list string :=
  [": ping" +:+ nl; "data: " +:+ note_text +:+ nl; nl; "id: 3" +:+ nl;
   "data: " +:+ reply_text +:+ nl; nl; "tail"].
Definition st2 : Stream :=
  mkStream ("data: " +:+ note_text +:+ nl +:+ nl +:+ "data: " +:+ reply_text +:+ nl +:+ nl) None.
End Wit.
#[local] Existing Instance Wit.serde.

Lemma read_until_id_first_frame_witness :
  read_until_id_observed (fun _ => 0) (fun _ => Ok tt) 7 5000 Wit.st
  = (Ok Wit.reply, [Wit.note; Wit.reply]).
Proof.
  rewrite (read_until_id_first_frame (fun _ => 0) (fun _ => Ok tt) 7 5000 Wit.st Wit.ls);
    [by vm_compute|intros; lia|done|by vm_compute].
Defined.

Lemma reply_before_deadline_witness :
  last [Wit.note; Wit.reply] = Some Wit.reply.
Proof.
  refine (proj1 (proj2 (reply_before_deadline Z.of_nat (fun _ => Ok tt) 7 5000 Wit.st
            Wit.reply [Wit.note; Wit.reply] _))).
  by vm_compute.
Defined.

Lemma event_round_trip_witness :
  (read_until_id_observed (fun _ => 0) (fun _ => Ok tt) 7 5000 Wit.st2).1 = Ok Wit.reply.
Proof.
  apply (event_round_trip (fun _ => 0) (fun _ => Ok tt) 7 5000 [Wit.note_text] []
           Wit.reply_text Wit.reply Wit.st2).
  - intros; lia.
  - done.
  - by vm_compute.
  - constructor; [|constructor]. split; [by vm_compute; set_solver|].
    intros w [= <-]. by vm_compute.
  - by vm_compute; set_solver.
  - by vm_compute.
  - by vm_compute.
Defined.

End Sse.
