(* ===== verification/Options.v ===== *)
(** * options.rs: foreign-server and user-mapping options

    Both option parsers with every check in source order.  The [url] crate and
    name resolution are not in the repository: they are the class [UrlLib]. *)

From Stdlib Require Import Ascii String ZArith Lia.
From stdpp Require Import base numbers gmap sets strings pretty list.
From S2P Require Import Prelude Str Errors.
#[local] Open Scope Z_scope.

(** [std::net::IpAddr]: the octets of a v4 address, a v6 address as [u128]. *)
Inductive IpAddr : Type :=
  | V4 (a b c d : Z)
  | V6 (n : Z).

(** [IpAddr::is_loopback]: 127.0.0.0/8, and ::1. *)
Definition ip_is_loopback (ip : IpAddr) : bool :=
  match ip with V4 a _ _ _ => a =? 127 | V6 n => n =? 1 end.

(** [url::Host] *)
Inductive Host : Type :=
  | HostIp (ip : IpAddr)
  | HostDomain (name : string).

Class UrlLib := {
  Url : Type;
  url_parse : string → option Url;
  url_scheme : Url → string;
  url_host : Url → option Host;
  url_port_or_known_default : Url → option Z;
  url_to_string : Url → string;
  to_socket_addrs : string → Z → option (list IpAddr);
}.

Module Options.

Definition DEFAULT_TIMEOUT_MS : Z := 15000.
Definition MIN_TIMEOUT_MS : Z := 1.
Definition MAX_TIMEOUT_MS : Z := 600000.
Definition DEFAULT_CACHE_TTL_MS : Z := 60000.

Inductive Mode : Type := ModeAuto | ModeGeneric | ModeSql.
Inductive AuthMode : Type := AuthBearer | AuthNone.
#[export] Instance Mode_eq_dec : EqDecision Mode. Proof. solve_decision. Defined.
#[export] Instance AuthMode_eq_dec : EqDecision AuthMode. Proof. solve_decision. Defined.

Definition Mode_parse (raw : string) : McpResult Mode :=
  if bool_decide (raw = "auto") then Ok ModeAuto
  else if bool_decide (raw = "generic") then Ok ModeGeneric
  else if bool_decide (raw = "sql") then Ok ModeSql
  else Err (InvalidOption ("invalid value for foreign server option " +:+ quoted "mode" +:+ ": "
    +:+ quoted raw +:+ " (expected auto, generic or sql)")).

Definition AuthMode_parse (raw : string) : McpResult AuthMode :=
  if bool_decide (raw = "bearer") then Ok AuthBearer
  else if bool_decide (raw = "none") then Ok AuthNone
  else Err (InvalidOption ("invalid value for foreign server option " +:+ quoted "auth" +:+ ": "
    +:+ quoted raw +:+ " (expected bearer or none)")).

Record ServerOptions : Type := mkServerOptions {
  so_url : string;
  so_mode : Mode;
  so_timeout_ms : Z;
  so_auth : AuthMode;
  so_max_unqualified_reads : Z;
  so_audit_table : option string;
  so_cache_ttl_ms : Z;
}.

Definition SERVER_OPTION_NAMES : list string :=
  ["url"; "mode"; "timeout_ms"; "auth"; "max_unqualified_reads"; "audit_table"; "cache_ttl_ms"].

Definition USER_MAPPING_OPTION_NAMES : list string := ["token"; "token_secret"].

(** [opts.iter().find(|(n, _)| n == k).map(|(_, v)| v)] *)
Fixpoint opt_get (k : string) (opts : list (string * string)) : option string :=
  match opts with
  | [] => None
  | (n, v) :: opts' => if bool_decide (n = k) then Some v else opt_get k opts'
  end.

(** The first name that is not an allowed option name. *)
Fixpoint first_unknown (names : list string) (opts : list (string * string)) : option string :=
  match opts with
  | [] => None
  | (n, _) :: opts' => if bool_decide (n ∈ names) then first_unknown names opts' else Some n
  end.

Definition is_plain_identifier (s : string) : bool :=
  let cs := chars s in
  negb (is_empty s)
  && Nat.leb (String.length s) 63
  && match cs with c :: _ => is_ascii_alphabetic c || (c =? 95) | [] => false end
  && forallb (fun c => is_ascii_alphanumeric c || (c =? 95) || (c =? 36)) cs.

Definition split_qualified (raw option : string) : McpResult (string * string) :=
  let parts := split_on "." raw in
  if negb (Nat.eqb (length parts) 2) || existsb is_empty parts then
    Err (InvalidOption ("invalid value for option " +:+ quoted option +:+ ": " +:+ quoted raw
      +:+ " is not a schema-qualified name (expected schema.table)"))
  else if negb (forallb is_plain_identifier parts) then
    Err (InvalidOption ("invalid value for option " +:+ quoted option +:+ ": " +:+ quoted raw
      +:+ " is not a plain SQL identifier pair"))
  else match parts with
       | [schema; table] => Ok (schema, table)
       | _ => Err (InvalidOption EmptyString) (* unreachable: two parts *)
       end.

Definition parse_audit_table (raw : string) : McpResult string :=
  '(schema, table) ← split_qualified raw "audit_table";
  Ok (schema +:+ "." +:+ table).

Definition not_an_integer (raw option : string) : McpError :=
  InvalidOption ("invalid value for foreign server option " +:+ quoted option +:+ ": "
    +:+ quoted raw +:+ " is not an integer").

Definition parse_timeout (raw : string) : McpResult Z :=
  n ← ok_or (not_an_integer raw "timeout_ms") (parse_u64 (trim raw));
  if negb (in_range MIN_TIMEOUT_MS MAX_TIMEOUT_MS n) then
    Err (InvalidOption ("invalid value for foreign server option " +:+ quoted "timeout_ms" +:+ ": "
      +:+ fmt_Z n +:+ " is outside " +:+ fmt_Z MIN_TIMEOUT_MS +:+ ".." +:+ fmt_Z MAX_TIMEOUT_MS))
  else Ok n.

Definition parse_non_negative (raw option : string) : McpResult Z :=
  n ← ok_or (not_an_integer raw option) (parse_i64 (trim raw));
  if n <? 0 then
    Err (InvalidOption ("invalid value for foreign server option " +:+ quoted option
      +:+ ": must be >= 0"))
  else Ok n.

Definition parse_non_negative_u64 (raw option : string) : McpResult Z :=
  ok_or (not_an_integer raw option) (parse_u64 (trim raw)).

Section with_url.
Context `{UrlLib}.

(** Case-insensitive on ASCII: [name.eq_ignore_ascii_case("localhost")]. *)
Definition is_loopback (url : Url) : bool :=
  match url_host url with
  | Some (HostIp ip) => ip_is_loopback ip
  | Some (HostDomain name) =>
      if bool_decide (to_ascii_lowercase name = "localhost") then true
      else
        let port := default 80 (url_port_or_known_default url) in
        match to_socket_addrs name port with
        | Some addrs => negb (Nat.eqb (length addrs) 0) && forallb ip_is_loopback addrs
        | None => false
        end
  | None => false
  end.

Definition parse_url (raw : string) : McpResult Url :=
  parsed ← ok_or (InvalidOption ("invalid value for foreign server option " +:+ quoted "url"
                   +:+ ": " +:+ quoted raw +:+ " is not an absolute URL")) (url_parse raw);
  if negb (bool_decide (url_scheme parsed = "http"))
     && negb (bool_decide (url_scheme parsed = "https")) then
    Err (InvalidOption ("invalid value for foreign server option " +:+ quoted "url"
      +:+ ": scheme " +:+ quoted (url_scheme parsed) +:+ " is not http or https"))
  else match url_host parsed with
  | None => Err (InvalidOption ("invalid value for foreign server option " +:+ quoted "url"
              +:+ ": missing host"))
  | Some _ => Ok parsed
  end.

Definition ServerOptions_parse (opts : list (string * string)) : McpResult ServerOptions :=
  match first_unknown SERVER_OPTION_NAMES opts with
  | Some name =>
      Err (InvalidOption ("invalid option " +:+ quoted name
        +:+ " for a pg_mcp foreign server (valid options: "
        +:+ join ", " SERVER_OPTION_NAMES +:+ ")"))
  | None =>
    raw_url ← ok_or (InvalidOption ("foreign server option " +:+ quoted "url" +:+ " is required"))
                    (opt_get "url" opts);
    parsed ← parse_url raw_url;
    mode ← match opt_get "mode" opts with Some v => Mode_parse v | None => Ok ModeAuto end;
    timeout_ms ← match opt_get "timeout_ms" opts with
                 | Some v => parse_timeout v | None => Ok DEFAULT_TIMEOUT_MS end;
    auth ← match opt_get "auth" opts with Some v => AuthMode_parse v | None => Ok AuthBearer end;
    if bool_decide (auth = AuthNone) && negb (is_loopback parsed) then
      Err (InvalidOption ("foreign server option " +:+ quoted "auth"
        +:+ " may only be 'none' when " +:+ quoted "url" +:+ " points at a loopback host"))
    else if bool_decide (url_scheme parsed = "http") && negb (is_loopback parsed) then
      Err (InvalidOption ("foreign server option " +:+ quoted "url"
        +:+ " must use https unless the host is loopback"))
    else
      max_unqualified_reads ← match opt_get "max_unqualified_reads" opts with
        | Some v => parse_non_negative v "max_unqualified_reads" | None => Ok 0 end;
      audit_table ← match opt_get "audit_table" opts with
        | Some v => t ← parse_audit_table v; Ok (Some t) | None => Ok None end;
      cache_ttl_ms ← match opt_get "cache_ttl_ms" opts with
        | Some v => parse_non_negative_u64 v "cache_ttl_ms" | None => Ok DEFAULT_CACHE_TTL_MS end;
      Ok (mkServerOptions (url_to_string parsed) mode timeout_ms auth max_unqualified_reads
            audit_table cache_ttl_ms)
  end.
End with_url.

Inductive Credential : Type :=
  | Token (t : string)
  | TokenSecret (schema table : string).

Record UserMappingOptions : Type := mkUserMapping { um_credential : Credential }.

Definition UserMappingOptions_parse (opts : list (string * string)) :
    McpResult UserMappingOptions :=
  match first_unknown USER_MAPPING_OPTION_NAMES opts with
  | Some name =>
      Err (InvalidOption ("invalid option " +:+ quoted name
        +:+ " for a pg_mcp user mapping (valid options: "
        +:+ join ", " USER_MAPPING_OPTION_NAMES +:+ ")"))
  | None =>
    match opt_get "token" opts, opt_get "token_secret" opts with
    | Some _, Some _ =>
        Err (InvalidOption ("user mapping options " +:+ quoted "token" +:+ " and "
          +:+ quoted "token_secret" +:+ " are mutually exclusive"))
    | Some token, None =>
        if is_empty (trim token) then
          Err (InvalidOption ("user mapping option " +:+ quoted "token" +:+ " must not be empty"))
        else Ok (mkUserMapping (Token token))
    | None, Some secret =>
        '(schema, table) ← split_qualified secret "token_secret";
        Ok (mkUserMapping (TokenSecret schema table))
    | None, None =>
        Err (InvalidOption ("a pg_mcp user mapping requires either " +:+ quoted "token" +:+ " or "
          +:+ quoted "token_secret"))
    end
  end.

(** ** Lemmas *)

Lemma first_unknown_None names opts :
  first_unknown names opts = None ↔ Forall (fun n => n ∈ names) opts.*1.
Proof.
  induction opts as [|[n v] opts IH]; simpl; [by split|].
  rewrite Forall_cons. case_bool_decide; [rewrite IH|]; naive_solver.
Qed.

Lemma is_plain_identifier_bytes s :
  is_plain_identifier s = true →
  Forall (fun b => is_ascii_alphanumeric b = true ∨ b = 95 ∨ b = 36) (bytes s)
  ∧ (0 < String.length s ≤ 63)%nat.
Proof.
  unfold is_plain_identifier. intros Hp. bool_prop.
  assert (Forall (fun c => is_ascii_alphanumeric c = true ∨ c = 95 ∨ c = 36) (chars s)) as Hc.
  { apply Forall_forall. intros c Hin. rewrite forallb_forall in H0.
    specialize (H0 c (proj1 (list_elem_of_In _ _) Hin)). bool_prop.
    destruct H0 as [H0|H0]; bool_prop; [destruct H0 as [|H0]; bool_prop|]; auto. }
  split.
  - rewrite <- (chars_bytes s); [done|]. left. eapply Forall_impl; [exact Hc|].
    unfold is_ascii_alphanumeric, is_ascii_alphabetic, is_ascii_lowercase, is_ascii_uppercase,
      is_ascii_digit, in_range.
    intros c [Hx|[-> | ->]]; [|lia..]. bool_prop.
    repeat (destruct Hx as [Hx|Hx]; bool_prop); lia.
  - unfold is_empty in H. destruct s; [done|]. simpl in *. lia.
Qed.

(** A plain identifier holds no separator and no quote. *)
Lemma is_plain_identifier_safe s b :
  is_plain_identifier s = true → b ∈ bytes s → b ≠ 46 ∧ b ≠ 34 ∧ b ≠ 39 ∧ b ≠ 0.
Proof.
  intros [Hp _]%is_plain_identifier_bytes Hb. rewrite Forall_forall in Hp.
  destruct (Hp b Hb) as [Hx|[-> | ->]]; [|lia..].
  split_and!; intros ->; done.
Qed.

Lemma split_qualified_Ok raw option a b :
  split_qualified raw option = Ok (a, b) →
  raw = a +:+ "." +:+ b ∧ is_plain_identifier a = true ∧ is_plain_identifier b = true.
Proof.
  unfold split_qualified. pose proof (join_split_on "." raw) as Hj.
  destruct (split_on "." raw) as [|x [|y [|z l]]]; simpl; try done;
    try (by case_match).
  destruct (_ || _); [done|]. destruct (is_plain_identifier x) eqn:Hx; [|done].
  destruct (is_plain_identifier y) eqn:Hy; [|done]. intros [= <- <-]. by rewrite <- Hj.
Qed.

Lemma parse_timeout_Ok raw n : parse_timeout raw = Ok n → MIN_TIMEOUT_MS ≤ n ≤ MAX_TIMEOUT_MS.
Proof.
  unfold parse_timeout. intros (v & _ & Hp)%result_bind_Ok.
  destruct (in_range _ _ v) eqn:E; simplify_eq/=. unfold in_range in E. bool_prop. lia.
Qed.

Lemma parse_non_negative_Ok raw k n : parse_non_negative raw k = Ok n → 0 ≤ n ≤ i64_max.
Proof.
  unfold parse_non_negative. intros (v & Hv & Hp)%result_bind_Ok.
  apply ok_or_Ok, parse_int_range in Hv. destruct (v <? 0) eqn:E; simplify_eq/=. bool_prop. lia.
Qed.

Lemma parse_non_negative_u64_Ok raw k n :
  parse_non_negative_u64 raw k = Ok n → 0 ≤ n ≤ u64_max.
Proof. intros Hv. by apply ok_or_Ok, parse_int_range in Hv. Qed.

Lemma parse_url_Ok `{UrlLib} raw u :
  parse_url raw = Ok u →
  url_parse raw = Some u ∧ is_Some (url_host u) ∧ (url_scheme u = "http" ∨ url_scheme u = "https").
Proof.
  unfold parse_url. intros (v & Hv & Hp)%result_bind_Ok. apply ok_or_Ok in Hv.
  destruct (_ && _) eqn:E; [done|]. destruct (url_host v) eqn:Eh; simplify_eq/=.
  split_and!; [done|rewrite Eh; eauto|].
  repeat case_bool_decide; auto; done.
Qed.

Lemma first_unknown_names names o1 o2 :
  o1.*1 = o2.*1 → first_unknown names o1 = first_unknown names o2.
Proof.
  revert o2. induction o1 as [|[n v] o1 IH]; intros [|[n' v'] o2] Hn; simplify_eq/=; [done|].
  case_bool_decide; auto.
Qed.

Lemma opt_get_is_Some k opts : is_Some (opt_get k opts) ↔ k ∈ opts.*1.
Proof.
  induction opts as [|[n v] opts IH]; simpl.
  - split; [by intros []|set_solver].
  - case_bool_decide; [|rewrite IH]; set_solver.
Qed.

Section theorems.
Context `{UrlLib}.

Lemma ServerOptions_parse_Ok (opts : list (string * string)) (o : ServerOptions) :
  ServerOptions_parse opts = Ok o →
  Forall (fun n => n ∈ SERVER_OPTION_NAMES) opts.*1 ∧
  MIN_TIMEOUT_MS ≤ so_timeout_ms o ≤ MAX_TIMEOUT_MS ∧
  0 ≤ so_max_unqualified_reads o ≤ i64_max ∧
  0 ≤ so_cache_ttl_ms o ≤ u64_max ∧
  ∃ raw url, opt_get "url" opts = Some raw ∧ url_parse raw = Some url ∧
    so_url o = url_to_string url ∧ is_Some (url_host url) ∧
    (url_scheme url = "http" ∨ url_scheme url = "https") ∧
    (so_auth o = AuthNone → is_loopback url = true) ∧
    (url_scheme url = "http" → is_loopback url = true).
Proof.
  unfold ServerOptions_parse. intros Hp.
  destruct (first_unknown _ _) eqn:Hn; [done|]. apply first_unknown_None in Hn.
  apply result_bind_Ok in Hp as (raw & Hraw & Hp). apply ok_or_Ok in Hraw.
  apply result_bind_Ok in Hp as (url & Hurl & Hp). apply parse_url_Ok in Hurl as (?&?&?).
  apply result_bind_Ok in Hp as (mode & _ & Hp).
  apply result_bind_Ok in Hp as (timeout & Ht & Hp).
  apply result_bind_Ok in Hp as (auth & _ & Hp).
  destruct (_ && _) eqn:Hauth in Hp; [done|]. destruct (_ && _) eqn:Hhttp in Hp; [done|].
  apply result_bind_Ok in Hp as (reads & Hr & Hp).
  apply result_bind_Ok in Hp as (audit & _ & Hp).
  apply result_bind_Ok in Hp as (ttl & Httl & [= <-]). simpl.
  split_and!; [done|..].
  1,2: destruct (opt_get "timeout_ms" opts); [apply parse_timeout_Ok in Ht; lia|
         injection Ht as <-; unfold DEFAULT_TIMEOUT_MS, MIN_TIMEOUT_MS, MAX_TIMEOUT_MS; lia].
  1,2: destruct (opt_get "max_unqualified_reads" opts);
         [apply parse_non_negative_Ok in Hr; lia|injection Hr as <-; unfold i64_max; lia].
  1,2: destruct (opt_get "cache_ttl_ms" opts);
         [apply parse_non_negative_u64_Ok in Httl; lia|
          injection Httl as <-; unfold DEFAULT_CACHE_TTL_MS, u64_max; lia].
  exists raw, url. split_and!; try done.
  - intros ->. by destruct (is_loopback url).
  - intros Hs. rewrite Hs in Hhttp. by destruct (is_loopback url).
Qed.

(** C32. Accepted server options are safe: every option name is known, the url
    parses, is http or https and has a host, plaintext http and [auth none]
    are only ever accepted for a loopback host, and every numeric option is
    in range. *)
Theorem server_options_safe (opts : list (string * string)) (o : ServerOptions) :
  ServerOptions_parse opts = Ok o →
  Forall (fun n => n ∈ SERVER_OPTION_NAMES) opts.*1 ∧
  MIN_TIMEOUT_MS ≤ so_timeout_ms o ≤ MAX_TIMEOUT_MS ∧
  0 ≤ so_max_unqualified_reads o ≤ i64_max ∧
  0 ≤ so_cache_ttl_ms o ≤ u64_max ∧
  ∃ raw url, opt_get "url" opts = Some raw ∧ url_parse raw = Some url ∧
    so_url o = url_to_string url ∧ is_Some (url_host url) ∧
    (url_scheme url = "http" ∨ url_scheme url = "https") ∧
    (so_auth o = AuthNone → is_loopback url = true) ∧
    (url_scheme url = "http" → is_loopback url = true).
Proof. apply ServerOptions_parse_Ok. Qed.

(** A credential is never echoed: two user mappings that differ only in
    the value of their [token] option fail with the same error. *)
Theorem token_not_in_errors (o1 o2 : list (string * string)) (e1 e2 : McpError) :
  o1.*1 = o2.*1 → (∀ k, k ≠ "token" → opt_get k o1 = opt_get k o2) →
  UserMappingOptions_parse o1 = Err e1 → UserMappingOptions_parse o2 = Err e2 → e1 = e2.
Proof.
  intros Hn Hv. unfold UserMappingOptions_parse.
  rewrite <- (first_unknown_names _ o1 o2 Hn), <- (Hv "token_secret") by done.
  destruct (first_unknown _ o1); [naive_solver|].
  assert (is_Some (opt_get "token" o1) ↔ is_Some (opt_get "token" o2)) as Hs
    by (rewrite !opt_get_is_Some; by rewrite Hn).
  destruct (opt_get "token" o1) as [t1|], (opt_get "token" o2) as [t2|].
  - destruct (opt_get "token_secret" o1); [naive_solver|]. repeat case_match; naive_solver.
  - destruct Hs as [Hs _]. by destruct (Hs (mk_is_Some _ _ eq_refl)).
  - destruct Hs as [_ Hs]. by destruct (Hs (mk_is_Some _ _ eq_refl)).
  - destruct (opt_get "token_secret" o1) as [s|]; [|naive_solver].
    destruct (split_qualified s "token_secret") as [[??]|]; naive_solver.
Qed.

(** A user mapping that is accepted holds exactly one credential: the
    token, not blank, or the two plain identifiers the [token_secret] value
    is made of. *)
Theorem user_mapping_one_credential (opts : list (string * string)) (m : UserMappingOptions) :
  UserMappingOptions_parse opts = Ok m →
  match um_credential m with
  | Token t => opt_get "token" opts = Some t ∧ opt_get "token_secret" opts = None
               ∧ is_empty (trim t) = false
  | TokenSecret schema table =>
      opt_get "token" opts = None
      ∧ opt_get "token_secret" opts = Some (schema +:+ "." +:+ table)
      ∧ is_plain_identifier schema = true ∧ is_plain_identifier table = true
  end.
Proof.
  unfold UserMappingOptions_parse. intros Hp. destruct (first_unknown _ _); [done|].
  destruct (opt_get "token" opts) as [t|], (opt_get "token_secret" opts) as [s|]; try done.
  - by destruct (is_empty (trim t)) eqn:?; simplify_eq/=.
  - apply result_bind_Ok in Hp as ([a b] & Hs & [= <-]).
    apply split_qualified_Ok in Hs as (-> & ? & ?). done.
Qed.

(** The stored [audit_table] option always splits back into the schema
    and the table it was made of, both plain identifiers: the writer of the
    audit row never finds the qualification missing. *)
Theorem audit_table_qualified (raw t : string) :
  parse_audit_table raw = Ok t →
  ∃ schema table, split_once "." t = Some (schema, table) ∧ t = raw ∧
    is_plain_identifier schema = true ∧ is_plain_identifier table = true.
Proof.
  unfold parse_audit_table. intros Hp.
  apply result_bind_Ok in Hp as ([a b] & Hs & [= <-]).
  apply split_qualified_Ok in Hs as (-> & Ha & Hb). exists a, b. split_and!; try done.
  apply split_once_app. intros Hin. by apply (is_plain_identifier_safe a) in Hin as [? _].
Qed.
End theorems.

(** ** Witnesses: a URL library that knows two URLs *)

Module Wit.
Definition lib : UrlLib := {|
  Url := bool; (* the loopback URL, or the remote one *)
  url_parse s := if bool_decide (s = "http://127.0.0.1:1/mcp") then Some true
                 else if bool_decide (s = "https://mcp.example/mcp") then Some false else None;
  url_scheme u := if u then "http" else "https";
  url_host u := Some (if u then HostIp (V4 127 0 0 1) else HostDomain "mcp.example");
  url_port_or_known_default u := Some (if u then 1 else 443);
  url_to_string u := if u then "http://127.0.0.1:1/mcp" else "https://mcp.example/mcp";
  to_socket_addrs _ _ := Some [V4 192 0 2 1]
|}.
Definition opts : list (string * string) :=
  [("url", "http://127.0.0.1:1/mcp"); ("auth", "none"); ("timeout_ms", " 250 ");
   ("audit_table", "audit.calls")].
End Wit.
#[local] Existing Instance Wit.lib.

Lemma server_options_safe_witness :
  ServerOptions_parse Wit.opts =
    Ok (mkServerOptions "http://127.0.0.1:1/mcp" ModeAuto 250 AuthNone 0 (Some "audit.calls") 60000)
  ∧ 1 ≤ 250 ≤ 600000.
Proof.
  assert (ServerOptions_parse Wit.opts = Ok (mkServerOptions "http://127.0.0.1:1/mcp" ModeAuto 250
            AuthNone 0 (Some "audit.calls") 60000)) as Hp by (by vm_compute).
  split; [done|]. exact (proj1 (proj2 (server_options_safe _ _ Hp))).
Defined.

Lemma token_not_in_errors_witness :
  UserMappingOptions_parse [("token", EmptyString); ("token_secret", "a.b")] =
  UserMappingOptions_parse [("token", "hunter2"); ("token_secret", "a.b")].
Proof.
  destruct (UserMappingOptions_parse [("token", EmptyString); ("token_secret", "a.b")])
    as [|e1] eqn:E1; [by vm_compute in E1|].
  destruct (UserMappingOptions_parse [("token", "hunter2"); ("token_secret", "a.b")])
    as [|e2] eqn:E2; [by vm_compute in E2|].
  f_equal. eapply token_not_in_errors; [| |exact E1|exact E2]; [done|].
  intros k Hk. simpl. repeat case_bool_decide; congruence.
Defined.

Lemma user_mapping_one_credential_witness :
  is_plain_identifier "secrets" = true.
Proof.
  assert (UserMappingOptions_parse [("token_secret", "secrets.tokens")]
          = Ok (mkUserMapping (TokenSecret "secrets" "tokens"))) as Hp by (by vm_compute).
  exact (proj1 (proj2 (proj2 (user_mapping_one_credential _ _ Hp)))).
Defined.

Lemma audit_table_qualified_witness :
  ∃ schema table, split_once "." "audit.calls" = Some (schema, table) ∧
    "audit.calls" = "audit.calls" ∧
    is_plain_identifier schema = true ∧ is_plain_identifier table = true.
Proof. apply (audit_table_qualified "audit.calls" "audit.calls"). by vm_compute. Defined.

End Options.
