(* ===== verification/Sha256.v ===== *)
(** * codegen/ident.rs: the SHA-256 the identifier suffixes come from

    The FIPS 180-4 algorithm as the source writes it, on 32-bit words kept as
    [Z] with their wrap-around written out, and the seven-hex-digit suffix. *)

From Stdlib Require Import Ascii String ZArith Lia.
From stdpp Require Import base numbers gmap sets strings pretty list.
From S2P Require Import Prelude Str.
#[local] Open Scope Z_scope.

Module Sha256.

Definition two32 : Z := 4294967296.

(** [u32] operations *)
Definition wrapping_add (a b : Z) : Z := (a + b) mod two32.
Definition rotate_right (x n : Z) : Z :=
  Z.lor (Z.shiftr x n) (Z.shiftl x (32 - n) mod two32).
Definition not32 (x : Z) : Z := Z.lxor x 0xffffffff.

(** The round constants and the initial state, in decimal. *)
Definition K : list Z :=
  [1116352408; 1899447441; 3049323471; 3921009573; 961987163; 1508970993;
   2453635748; 2870763221; 3624381080; 310598401; 607225278; 1426881987;
   1925078388; 2162078206; 2614888103; 3248222580; 3835390401; 4022224774;
   264347078; 604807628; 770255983; 1249150122; 1555081692; 1996064986;
   2554220882; 2821834349; 2952996808; 3210313671; 3336571891; 3584528711;
   113926993; 338241895; 666307205; 773529912; 1294757372; 1396182291;
   1695183700; 1986661051; 2177026350; 2456956037; 2730485921; 2820302411;
   3259730800; 3345764771; 3516065817; 3600352804; 4094571909; 275423344;
   430227734; 506948616; 659060556; 883997877; 958139571; 1322822218;
   1537002063; 1747873779; 1955562222; 2024104815; 2227730452; 2361852424;
   2428436474; 2756734187; 3204031479; 3329325298].

Definition H0 : list Z :=
  [1779033703; 3144134277; 1013904242; 2773480762;
   1359893119; 2600822924; 528734635; 1541459225].

(** [to_be_bytes] of a [w]-byte word, and [u32::from_be_bytes] *)
Fixpoint to_be_bytes (w : nat) (x : Z) : list Z :=
  match w with
  | O => []
  | S w' => (x / 256 ^ Z.of_nat w') mod 256 :: to_be_bytes w' x
  end.

Definition from_be_bytes (a b c d : Z) : Z := ((a * 256 + b) * 256 + c) * 256 + d.

(** Padding: the message, 0x80, zeros, the 64-bit length in bits. *)
Definition padded_len (n : nat) : nat := ((n + 9 + 63) / 64 * 64)%nat.

Definition pad (msg : list Z) : list Z :=
  let bit_len := (Z.of_nat (length msg) * 8) mod 18446744073709551616 in
  msg ++ [0x80] ++ replicate (padded_len (length msg) - length msg - 9) 0
      ++ to_be_bytes 8 bit_len.

(** The first sixteen words of the schedule: a chunk read big-endian. *)
Fixpoint words (l : list Z) : list Z :=
  match l with
  | a :: b :: c :: d :: l' => from_be_bytes a b c d :: words l'
  | _ => []
  end.

Definition sched_word (w : list Z) (i : nat) : Z :=
  let g k := nth (i - k) w 0 in
  let s0 := Z.lxor (Z.lxor (rotate_right (g 15%nat) 7) (rotate_right (g 15%nat) 18))
                   (Z.shiftr (g 15%nat) 3) in
  let s1 := Z.lxor (Z.lxor (rotate_right (g 2%nat) 17) (rotate_right (g 2%nat) 19))
                   (Z.shiftr (g 2%nat) 10) in
  wrapping_add (wrapping_add (wrapping_add (g 16%nat) s0) (g 7%nat)) s1.

(** [for i in 16..64 { w[i] = ... }] *)
Definition schedule (chunk : list Z) : list Z :=
  foldl (fun w i => w ++ [sched_word w i]) (words chunk) (seq 16 48).

Record Regs : Type := mkRegs { ra : Z; rb : Z; rc : Z; rd : Z; re : Z; rf : Z; rg : Z; rh : Z }.

(** One round of the compression loop. *)
Definition round (w : list Z) (r : Regs) (i : nat) : Regs :=
  let s1 := Z.lxor (Z.lxor (rotate_right (re r) 6) (rotate_right (re r) 11))
                   (rotate_right (re r) 25) in
  let ch := Z.lxor (Z.land (re r) (rf r)) (Z.land (not32 (re r)) (rg r)) in
  let temp1 := wrapping_add (wrapping_add (wrapping_add (wrapping_add (rh r) s1) ch)
                 (nth i K 0)) (nth i w 0) in
  let s0 := Z.lxor (Z.lxor (rotate_right (ra r) 2) (rotate_right (ra r) 13))
                   (rotate_right (ra r) 22) in
  let maj := Z.lxor (Z.lxor (Z.land (ra r) (rb r)) (Z.land (ra r) (rc r)))
                    (Z.land (rb r) (rc r)) in
  let temp2 := wrapping_add s0 maj in
  mkRegs (wrapping_add temp1 temp2) (ra r) (rb r) (rc r)
         (wrapping_add (rd r) temp1) (re r) (rf r) (rg r).

Definition compress (h : list Z) (chunk : list Z) : list Z :=
  let w := schedule chunk in
  let g i := nth i h 0 in
  let r := foldl (round w)
    (mkRegs (g 0%nat) (g 1%nat) (g 2%nat) (g 3%nat) (g 4%nat) (g 5%nat) (g 6%nat) (g 7%nat))
    (seq 0 64) in
  [wrapping_add (g 0%nat) (ra r); wrapping_add (g 1%nat) (rb r);
   wrapping_add (g 2%nat) (rc r); wrapping_add (g 3%nat) (rd r);
   wrapping_add (g 4%nat) (re r); wrapping_add (g 5%nat) (rf r);
   wrapping_add (g 6%nat) (rg r); wrapping_add (g 7%nat) (rh r)].

(** [block.as_chunks::<64>().0], [n] of them *)
Fixpoint chunks64 (n : nat) (l : list Z) : list (list Z) :=
  match n with
  | O => []
  | S n' => take 64 l :: chunks64 n' (drop 64 l)
  end.

Definition sha256 (msg : list Z) : list Z :=
  let block := pad msg in
  let h := foldl compress H0 (chunks64 (length block / 64) block) in
  mjoin (to_be_bytes 4 <$> h).

Definition SUFFIX_HEX : nat := 7.

(** The first 7 hex characters of the digest. *)
Definition sha256_hex7 (msg : list Z) : string :=
  str_take SUFFIX_HEX (concat (hex2 <$> take 4 (sha256 msg))).

Definition sha_suffix (original : string) : string := sha256_hex7 (bytes original).

(** ** The FIPS 180-4 test vectors *)

Example sha256_empty : sha256_hex7 [] = "e3b0c44".
Proof. vm_compute. reflexivity. Qed.
Example sha256_abc : concat (hex2 <$> sha256 (bytes "abc")) =
  "ba7816bf8f01cfea414140de5dae2223b00361a396177a9cb410ff61f20015ad".
Proof. vm_compute. reflexivity. Qed.
Example sha256_two_blocks :
  concat (hex2 <$> sha256 (bytes "abcdbcdecdefdefgefghfghighijhijkijkljklmklmnlmnomnopnopq")) =
  "248d6a61d20638b8e5c026930c3e6039a33ce45964ff2167f6ecedd419db06c1".
Proof. vm_compute. reflexivity. Qed.

(** ** Shape of the digest and of the suffix *)

Lemma length_to_be_bytes w x : length (to_be_bytes w x) = w.
Proof. induction w; simpl; congruence. Qed.

Lemma to_be_bytes_range w x : Forall (fun b => 0 <= b < 256) (to_be_bytes w x).
Proof. induction w; simpl; constructor; [apply Z.mod_pos_bound; lia|done]. Qed.

Lemma length_compress h c : length (compress h c) = 8%nat.
Proof. done. Qed.

Lemma padded_len_spec n : (n + 9 ≤ padded_len n < n + 73 ∧ (64 | padded_len n))%nat.
Proof.
  unfold padded_len. pose proof (Nat.div_mod_eq (n + 9 + 63) 64).
  pose proof (Nat.mod_upper_bound (n + 9 + 63) 64). split; [lia|].
  exists ((n + 9 + 63) / 64)%nat. lia.
Qed.

Lemma length_pad msg : length (pad msg) = padded_len (length msg).
Proof.
  unfold pad. rewrite !length_app, length_replicate, length_to_be_bytes. simpl.
  pose proof (padded_len_spec (length msg)). lia.
Qed.

(** The loop runs at least once, on chunks of exactly 64 bytes. *)
Lemma chunks64_length n l :
  (length l = n * 64)%nat → Forall (fun c => length c = 64%nat) (chunks64 n l).
Proof.
  revert l. induction n as [|n IH]; intros l Hl; simpl; constructor.
  - rewrite length_take. lia.
  - apply IH. rewrite length_drop. lia.
Qed.

Lemma sha256_shape msg :
  length (sha256 msg) = 32%nat ∧ Forall (fun b => 0 <= b < 256) (sha256 msg).
Proof.
  unfold sha256.
  assert (∀ cs h, length h = 8%nat → length (foldl compress h cs) = 8%nat) as Hf.
  { induction cs; intros h Hh; simpl; [done|]. apply IHcs, length_compress. }
  pose proof (Hf (chunks64 (length (pad msg) / 64) (pad msg)) H0 eq_refl) as Hl.
  destruct (foldl _ _ _) as [|a [|b [|c [|d [|e [|f [|g [|h [|? ?]]]]]]]]]; simplify_eq/=.
  split; [done|]. repeat (constructor; [apply Z.mod_pos_bound; lia|]). constructor.
Qed.

Lemma hex_digit_class n :
  0 <= n < 16 → is_ascii_lowercase (hex_digit n) = true ∨ is_ascii_digit (hex_digit n) = true.
Proof.
  intros Hn. unfold hex_digit, is_ascii_lowercase, is_ascii_digit, in_range.
  destruct (Z.ltb_spec n 10); [right|left]; apply andb_true_iff; rewrite !Z.leb_le; lia.
Qed.

(** The suffix is seven characters of [0-9a-f]. *)
Lemma sha256_hex7_shape msg :
  String.length (sha256_hex7 msg) = 7%nat ∧
  Forall (fun b => is_ascii_lowercase b = true ∨ is_ascii_digit b = true) (bytes (sha256_hex7 msg)).
Proof.
  destruct (sha256_shape msg) as [Hl Hr]. unfold sha256_hex7.
  destruct (sha256 msg) as [|a [|b [|c [|d l]]]]; try done.
  do 4 (apply Forall_cons in Hr as [? Hr]). clear Hl Hr. split; [done|].
  rewrite bytes_str_take. apply Forall_take.
  change (concat _) with (hex2 a +:+ hex2 b +:+ hex2 c +:+ hex2 d +:+ EmptyString).
  assert (∀ x, 0 <= x < 256 → Forall (fun b => is_ascii_lowercase b = true ∨
            is_ascii_digit b = true) (bytes (hex2 x))) as Hx.
  { intros x Hx. unfold hex2.
    assert (0 <= x / 16 < 16) by (split; [apply Z.div_pos|apply Z.div_lt_upper_bound]; lia).
    assert (0 <= x mod 16 < 16) by (apply Z.mod_pos_bound; lia).
    rewrite bytes_of_bytes.
    - constructor; [by apply hex_digit_class|]. constructor; [by apply hex_digit_class|]. constructor.
    - unfold hex_digit. repeat apply Forall_cons_2; [..|constructor]; case_match; lia. }
  rewrite !bytes_app, !Forall_app. split_and!; auto; constructor.
Qed.

End Sha256.
