(* ===== verification/Ident.v ===== *)
(** * codegen/ident.rs: MCP names to SQL identifiers

    [derive] (case split, lower-casing, separators, 63-byte rule), [dedup]
    (collision suffixes) and [is_reserved].  [str::to_lowercase] needs the
    Unicode tables and is the one operation of class [Unicode]; it agrees with
    [to_ascii_lowercase] on ASCII text. *)

From Stdlib Require Import Ascii String ZArith Lia.
From stdpp Require Import base numbers gmap sets strings pretty list.
From S2P Require Import Prelude Str Sha256.
Import Sha256.
#[local] Open Scope Z_scope.

Class Unicode := { to_lowercase : string → string }.
Class UnicodeAscii `{Unicode} :=
  to_lowercase_ascii : ∀ s, Forall (fun b => b < 128) (bytes s) →
    to_lowercase s = to_ascii_lowercase s.

Module Ident.

Definition MAX_BYTES : nat := 63.
Definition TRUNCATE_BYTES : nat := 55.
Definition underscore : Z := 95.

(** ** [split_case_boundaries] *)

(** Does an underscore go between [prev] and [c], when [next] follows [c]? *)
Definition boundary (prev c : Z) (next : option Z) : bool :=
  (is_ascii_lowercase prev && is_ascii_uppercase c)
  || (is_ascii_uppercase prev && is_ascii_uppercase c
      && match next with Some n => is_ascii_lowercase n | None => false end)
  || (is_ascii_digit prev && is_ascii_uppercase c).

Fixpoint split_go (prev : option Z) (cs : list Z) : list Z :=
  match cs with
  | [] => []
  | c :: cs' =>
      let sep := match prev with
                 | Some p => if boundary p c (head cs') then [underscore] else []
                 | None => []
                 end in
      sep ++ c :: split_go (Some c) cs'
  end.

Definition split_case_boundaries (name : string) : string := utf8 (split_go None (chars name)).

(** ** [derive_base] *)

Definition keep (c : Z) : bool := is_ascii_lowercase c || is_ascii_digit c.

(** The [for c in lowered.chars()] loop: what is pushed onto [out], given
    whether the last push was an underscore and whether [out] is still empty. *)
Fixpoint sep_go (last_was_underscore out_empty : bool) (cs : list Z) : list Z :=
  match cs with
  | [] => []
  | c :: cs' =>
      if keep c then c :: sep_go false false cs'
      else if negb last_was_underscore && negb out_empty
           then underscore :: sep_go true false cs'
           else sep_go last_was_underscore out_empty cs'
  end.

Definition is_underscore (c : Z) : bool := c =? underscore.

Definition derive_base_bytes (lowered : list Z) : list Z :=
  let out := sep_go false true lowered in
  let out := drop_while is_underscore out in
  let out := trim_end_with is_underscore out in
  match out with
  | c :: _ => if is_ascii_digit c then underscore :: out else out
  | [] => out
  end.

Section derive.
Context `{Unicode}.

Definition derive_base (name : string) : string :=
  of_bytes (derive_base_bytes (chars (to_lowercase (split_case_boundaries name)))).

Definition derive (name prefix : string) : string :=
  let base := derive_base name in
  let composed := if is_empty prefix then base else prefix +:+ base in
  if Nat.ltb MAX_BYTES (String.length composed) then
    str_take TRUNCATE_BYTES composed +:+ "_" +:+ sha256_hex7 (bytes composed)
  else composed.

(** ** [dedup] *)

(** The candidate for an occurrence ordinal of a colliding name: the first
    one, and the ones that carry the ordinal. *)
Definition candidate (sql hash : string) (occurrence : nat) : string :=
  if Nat.leb occurrence 1 then
    str_take (String.length sql `min` TRUNCATE_BYTES) sql +:+ "_" +:+ hash
  else
    let ordinal := fmt_nat occurrence in
    let head_len := (TRUNCATE_BYTES - (1 + String.length ordinal))%nat in
    str_take (head_len `min` String.length sql) sql +:+ "_" +:+ hash +:+ "_" +:+ ordinal.

(** [while seen.contains_key(&candidate) { occurrence += 1; ... }] *)
Fixpoint find_free (fuel : nat) (seen : gset string) (sql hash : string) (occurrence : nat) :
    option string :=
  let c := candidate sql hash occurrence in
  if bool_decide (c ∈ seen) then
    match fuel with
    | O => None
    | S fuel' => find_free fuel' seen sql hash (S occurrence)
    end
  else Some c.

(** The loop over the names; [None] only if a [while] ran out of fuel, which
    [dedup_total] excludes: the fuel exceeds the number of names seen. *)
Fixpoint dedup_go (seen : gset string) (pairs : list (string * string)) :
    option (list (string * string)) :=
  match pairs with
  | [] => Some []
  | (original, sql) :: rest =>
      if bool_decide (sql ∈ seen) then
        c ← find_free (size seen + 2) seen sql (sha256_hex7 (bytes original)) 1;
        out ← dedup_go ({[c]} ∪ seen) rest;
        Some ((original, c) :: out)
      else
        out ← dedup_go ({[sql]} ∪ seen) rest;
        Some ((original, sql) :: out)
  end.

Definition dedup (names : list string) (prefix : string) : option (list (string * string)) :=
  dedup_go ∅ ((fun n => (n, derive n prefix)) <$> names).
End derive.

(** ** [is_reserved] *)

Definition RESERVED : list string :=
  ["all"; "analyse"; "analyze"; "and"; "any"; "array"; "as"; "asc"; "asymmetric"; "binary";
   "both"; "case"; "cast"; "check"; "collate"; "collation"; "column"; "concurrently";
   "constraint"; "create"; "current_catalog"; "current_date"; "current_role"; "current_time";
   "current_timestamp"; "current_user"; "default"; "deferrable"; "desc"; "distinct"; "do";
   "else"; "end"; "except"; "false"; "fetch"; "filter"; "for"; "foreign"; "freeze"; "from";
   "full"; "grant"; "group"; "having"; "ilike"; "in"; "initially"; "inner"; "intersect"; "into";
   "is"; "isnull"; "join"; "lateral"; "leading"; "left"; "like"; "limit"; "localtime";
   "localtimestamp"; "natural"; "not"; "notnull"; "null"; "offset"; "on"; "only"; "or"; "order";
   "outer"; "overlaps"; "placing"; "primary"; "references"; "returning"; "right"; "select";
   "session_user"; "similar"; "some"; "symmetric"; "table"; "tablesample"; "then"; "to";
   "trailing"; "true"; "union"; "unique"; "user"; "using"; "variadic"; "verbose"; "when";
   "where"; "window"; "with"].

(** [slice::binary_search]: halve the range until one element is left, keeping
    the half that can hold the key, then compare. *)
Fixpoint search_go (fuel : nat) (l : list string) (key : string) (base size : nat) : nat :=
  match fuel with
  | O => base
  | S fuel' =>
      if Nat.leb size 1 then base
      else
        let half := Nat.div size 2 in
        let mid := (base + half)%nat in
        let base' := match String.compare (nth mid l EmptyString) key with
                     | Gt => base
                     | _ => mid
                     end in
        search_go fuel' l key base' (size - half)
  end.

Definition binary_search (l : list string) (key : string) : bool :=
  match l with
  | [] => false
  | _ => match String.compare (nth (search_go (length l) l key 0 (length l)) l EmptyString) key with
         | Eq => true
         | _ => false
         end
  end.

Definition is_reserved (name : string) : bool := binary_search RESERVED name.

(** ** The character class of identifiers *)

(** [a-z0-9_] *)
Definition ident_byte (b : Z) : Prop := keep b = true ∨ b = underscore.

(** A string of [ident_byte]s that does not start with a digit. *)
Definition fragment (s : string) : Prop :=
  Forall ident_byte (bytes s) ∧
  match bytes s with b :: _ => is_ascii_digit b = false | [] => True end.

Lemma ident_byte_range b : ident_byte b → 0 <= b < 128.
Proof.
  unfold ident_byte, keep, is_ascii_lowercase, is_ascii_digit, in_range, underscore.
  intros [Hb| ->]; [|lia]. bool_prop. destruct Hb; bool_prop; lia.
Qed.

Lemma keep_not_underscore b : keep b = true → b ≠ underscore.
Proof. by intros Hk ->. Qed.

Lemma keep_is_underscore b : keep b = true → is_underscore b = false.
Proof. intros Hk. by apply Z.eqb_neq, keep_not_underscore. Qed.

Lemma sep_go_class lu oe cs : Forall ident_byte (sep_go lu oe cs).
Proof.
  revert lu oe. induction cs as [|c cs IH]; intros lu oe; simpl; [constructor|].
  destruct (keep c) eqn:Hk; [constructor; [by left|auto]|].
  destruct (_ && _); [constructor; [by right|auto]|auto].
Qed.

Lemma drop_while_Forall {A} (P : A → Prop) p l : Forall P l → Forall P (drop_while p l).
Proof. induction 1 as [|x l Hx Hl IH]; simpl; [constructor|]. destruct (p x); [done|by constructor]. Qed.

Lemma trim_end_Forall {A} (P : A → Prop) p l : Forall P l → Forall P (trim_end_with p l).
Proof.
  intros Hl. unfold trim_end_with. rewrite Forall_reverse. apply drop_while_Forall.
  by rewrite Forall_reverse.
Qed.

Lemma derive_base_bytes_fragment cs :
  Forall ident_byte (derive_base_bytes cs) ∧
  match derive_base_bytes cs with b :: _ => is_ascii_digit b = false | [] => True end.
Proof.
  unfold derive_base_bytes.
  assert (Forall ident_byte (trim_end_with is_underscore
            (drop_while is_underscore (sep_go false true cs)))) as Hc.
  { apply trim_end_Forall, drop_while_Forall, sep_go_class. }
  destruct (trim_end_with _ _) as [|c l]; [done|].
  destruct (is_ascii_digit c) eqn:Hd; [|done]. split; [|done]. constructor; [by right|done].
Qed.

Lemma derive_base_fragment `{Unicode} name : fragment (derive_base name).
Proof.
  unfold fragment, derive_base.
  destruct (derive_base_bytes_fragment (chars (to_lowercase (split_case_boundaries name))))
    as [Hc Hd].
  rewrite bytes_of_bytes; [done|]. eapply Forall_impl; [exact Hc|].
  intros b Hb%ident_byte_range. lia.
Qed.

Lemma fragment_app s t : fragment s → s ≠ EmptyString → Forall ident_byte (bytes t) → fragment (s +:+ t).
Proof.
  intros [Hs Hd] Hne Ht. unfold fragment. rewrite bytes_app. split; [by apply Forall_app|].
  by destruct s.
Qed.

Lemma fragment_take n s : fragment s → fragment (str_take n s).
Proof.
  intros [Hs Hd]. unfold fragment. rewrite bytes_str_take. split; [by apply Forall_take|].
  destruct n; [done|]. by destruct (bytes s).
Qed.

Lemma hex7_ident msg : Forall ident_byte (bytes (sha256_hex7 msg)).
Proof.
  destruct (sha256_hex7_shape msg) as [_ Hs]. eapply Forall_impl; [exact Hs|].
  intros b Hb. left. unfold keep. destruct Hb as [-> | ->]; [done|]. apply orb_true_r.
Qed.

Lemma length_hex7 msg : String.length (sha256_hex7 msg) = 7%nat.
Proof. apply sha256_hex7_shape. Qed.

Lemma underscore_ident : Forall ident_byte (bytes "_").
Proof. constructor; [by right|constructor]. Qed.

#[export] Hint Resolve hex7_ident underscore_ident derive_base_fragment fragment_take : str.

(** The class of [derive]'s output, for any prefix of the class. *)
Lemma derive_fragment `{Unicode} name prefix :
  fragment prefix →
  fragment (derive name prefix) ∧ (String.length (derive name prefix) ≤ MAX_BYTES)%nat.
Proof.
  intros Hp. unfold derive.
  set (composed := if is_empty prefix then _ else _).
  assert (fragment composed) as Hc.
  { subst composed. unfold is_empty. case_bool_decide; [auto with str|].
    apply fragment_app; [done..|]. apply derive_base_fragment. }
  destruct (Nat.ltb_spec MAX_BYTES (String.length composed)) as [Hl|Hl]; [|done].
  clearbody composed. split.
  - apply fragment_app; [auto with str|..].
    + unfold TRUNCATE_BYTES. destruct composed; [simpl in Hl; lia|done].
    + rewrite bytes_app. apply Forall_app; auto with str.
  - rewrite !length_app_string, length_str_take, length_hex7.
    unfold MAX_BYTES, TRUNCATE_BYTES in *. cbn [String.length]. lia.
Qed.

Lemma trim_end_cons {A} (p : A → bool) c l :
  trim_end_with p (c :: l) =
    match trim_end_with p l with
    | [] => if p c then [] else [c]
    | r => c :: r
    end.
Proof.
  unfold trim_end_with. rewrite reverse_cons. generalize (reverse l) as k.
  induction k as [|x k IH]; simpl.
  - by destruct (p c).
  - destruct (p x); [done|]. rewrite (reverse_cons (k ++ [c])), reverse_app, (reverse_cons k).
    simpl. destruct (reverse k); done.
Qed.

(** When the result is empty. *)
Lemma sep_go_nil cs : sep_go false true cs = [] ↔ Forall (fun c => keep c = false) cs.
Proof.
  induction cs as [|c cs IH]; simpl; [done|]. destruct (keep c) eqn:Hk; simpl.
  - split; [done|]. intros [Hc _]%Forall_cons. congruence.
  - rewrite IH. split; [by constructor|by intros [_ ?]%Forall_cons].
Qed.

Lemma sep_go_starts lu cs : match sep_go lu true cs with c :: _ => keep c = true | [] => True end.
Proof.
  induction cs as [|c cs IH]; simpl; [done|]. destruct (keep c) eqn:Hk; [done|].
  by rewrite andb_false_r.
Qed.

Lemma derive_base_bytes_nil cs : derive_base_bytes cs = [] ↔ sep_go false true cs = [].
Proof.
  unfold derive_base_bytes. pose proof (sep_go_starts false cs) as Hs.
  destruct (sep_go false true cs) as [|c l]; [done|]. cbn [drop_while].
  rewrite (keep_is_underscore c Hs), trim_end_cons, (keep_is_underscore c Hs).
  split; [|done]. by destruct (trim_end_with _ l), (is_ascii_digit c).
Qed.

Lemma derive_empty_iff `{Unicode} name prefix :
  derive name prefix = EmptyString ↔
  prefix = EmptyString ∧
  Forall (fun c => keep c = false) (chars (to_lowercase (split_case_boundaries name))).
Proof.
  assert (derive name prefix = EmptyString ↔ prefix = EmptyString ∧ derive_base name = EmptyString)
    as ->.
  { unfold derive, is_empty. case_bool_decide as Hp.
    - subst. destruct (Nat.ltb_spec MAX_BYTES (String.length (derive_base name))); [|naive_solver].
      destruct (derive_base name); [simpl in *; lia|]. by split; [|intros [_ ?]].
    - destruct prefix; [done|]. rewrite app_string_cons. destruct (Nat.ltb _ _); split; naive_solver. }
  rewrite <- sep_go_nil, <- derive_base_bytes_nil. unfold derive_base.
  destruct (derive_base_bytes _); naive_solver.
Qed.

(** ** Termination of the collision loop *)

Lemma last_segment_inj (x1 x2 d1 d2 : list Z) :
  (underscore ∉ d1) → (underscore ∉ d2) →
  x1 ++ underscore :: d1 = x2 ++ underscore :: d2 → d1 = d2.
Proof.
  revert x2. induction x1 as [|a x1 IH]; intros [|b x2] H1 H2 Heq; simplify_eq/=.
  - done.
  - destruct H1. apply list_elem_of_In, in_or_app. right. by left.
  - destruct H2. apply list_elem_of_In, in_or_app. right. by left.
  - eauto.
Qed.

Lemma no_underscore_digits n : underscore ∉ bytes (fmt_nat n).
Proof.
  intros Hin. pose proof (fmt_nat_digits n) as Hd. rewrite Forall_forall in Hd.
  by specialize (Hd _ Hin).
Qed.

Lemma candidate_inj sql hash j k :
  (2 ≤ j)%nat → (2 ≤ k)%nat → candidate sql hash j = candidate sql hash k → j = k.
Proof.
  intros Hj Hk. unfold candidate.
  rewrite (proj2 (Nat.leb_gt j 1)), (proj2 (Nat.leb_gt k 1)) by lia.
  intros Heq%(f_equal bytes). rewrite !bytes_app in Heq. simpl in Heq.
  rewrite !app_comm_cons, !app_assoc in Heq.
  apply last_segment_inj in Heq; [|apply no_underscore_digits..].
  apply bytes_inj in Heq. by apply (inj pretty) in Heq.
Qed.

Lemma find_free_None fuel seen sql hash k :
  find_free fuel seen sql hash k = None →
  ∀ i, (i ≤ fuel)%nat → candidate sql hash (k + i) ∈ seen.
Proof.
  revert k. induction fuel as [|fuel IH]; intros k; simpl; case_bool_decide; try done.
  - intros _ i Hi. by replace (k + i)%nat with k by lia.
  - intros Hn [|i] Hi; [by rewrite Nat.add_0_r|].
    replace (k + S i)%nat with (S k + i)%nat by lia. apply IH; [done|lia].
Qed.

Lemma find_free_Some fuel seen sql hash k c :
  find_free fuel seen sql hash k = Some c →
  (c ∉ seen) ∧ ∃ i, (i ≤ fuel)%nat ∧ c = candidate sql hash (k + i).
Proof.
  revert k. induction fuel as [|fuel IH]; intros k; simpl; case_bool_decide; try done.
  - intros [= <-]. split; [done|]. exists 0%nat. by rewrite Nat.add_0_r.
  - intros Hf. apply IH in Hf as (? & i & Hi & ->). split; [done|].
    exists (S i). split; [lia|]. f_equal. lia.
  - intros [= <-]. split; [done|]. exists 0%nat. split; [lia|]. by rewrite Nat.add_0_r.
Qed.

(** Some candidate is free before the fuel runs out: pigeonhole on the
    candidates that carry an ordinal. *)
Lemma find_free_total seen sql hash : is_Some (find_free (size seen + 2) seen sql hash 1).
Proof.
  destruct (find_free _ _ _ _ _) as [c|] eqn:E; [eauto|]. exfalso.
  pose proof (find_free_None _ _ _ _ _ E) as Hall.
  assert (NoDup ((candidate sql hash) <$> seq 2 (size seen + 1))) as Hnd.
  { apply NoDup_fmap_2_strong; [|apply NoDup_seq].
    intros x y Hx%elem_of_seq Hy%elem_of_seq. apply candidate_inj; lia. }
  assert (list_to_set ((candidate sql hash) <$> seq 2 (size seen + 1)) ⊆ seen) as Hsub.
  { intros c Hc. apply elem_of_list_to_set, list_elem_of_fmap in Hc as (x & -> & Hx%elem_of_seq).
    replace x with (1 + (x - 1))%nat by lia. apply Hall. lia. }
  apply subseteq_size in Hsub.
  rewrite size_list_to_set, length_fmap, length_seq in Hsub by done. lia.
Qed.

(** ** What [dedup] returns *)

Lemma fragment_sep s t : fragment s → Forall ident_byte (bytes t) → fragment (s +:+ "_" +:+ t).
Proof.
  intros Hs Ht. destruct s as [|c s].
  - rewrite app_string_nil. split; [|done]. rewrite bytes_app. apply Forall_app; auto with str.
  - apply fragment_app; [done..|]. rewrite bytes_app. apply Forall_app; auto with str.
Qed.

Lemma fmt_nat_ident n : Forall ident_byte (bytes (fmt_nat n)).
Proof.
  eapply Forall_impl; [apply fmt_nat_digits|]. intros b Hb. left. unfold keep. rewrite Hb.
  apply orb_true_r.
Qed.

Lemma candidate_ok sql msg k :
  fragment sql → Z.of_nat k < 10 ^ 54 →
  fragment (candidate sql (sha256_hex7 msg) k) ∧
  (String.length (candidate sql (sha256_hex7 msg) k) ≤ MAX_BYTES)%nat.
Proof.
  intros Hs Hk. unfold candidate, MAX_BYTES, TRUNCATE_BYTES. destruct (Nat.leb k 1).
  - split; [apply fragment_sep; auto with str|].
    rewrite !length_app_string, length_str_take, length_hex7. cbn [String.length]. lia.
  - pose proof (fmt_nat_length k 54 ltac:(lia) Hk) as Hl. split.
    + apply fragment_sep; [auto with str|]. rewrite !bytes_app, !Forall_app.
      split_and!; auto using fmt_nat_ident with str.
    + rewrite !length_app_string, length_str_take, length_hex7. cbn [String.length]. lia.
Qed.

(** A name keeps its derived identifier unless an earlier name took it. *)
Definition kept_unless_taken (pairs : list (string * string)) (seen : gset string)
    (out : list (string * string)) : Prop :=
  ∀ i n sql c, pairs !! i = Some (n, sql) → out.*2 !! i = Some c →
    c = sql ∨ sql ∈ seen ∨ sql ∈ take i out.*2.

Lemma dedup_go_spec pairs seen :
  Forall (fun p => fragment p.2 ∧ (String.length p.2 ≤ MAX_BYTES)%nat) pairs →
  Z.of_nat (size seen + length pairs + 3) < 10 ^ 54 →
  ∃ out, dedup_go seen pairs = Some out ∧ out.*1 = pairs.*1 ∧ NoDup out.*2 ∧
    Forall (fun c => (c ∉ seen) ∧ fragment c ∧ (String.length c ≤ MAX_BYTES)%nat) out.*2 ∧
    kept_unless_taken pairs seen out.
Proof.
  revert seen. induction pairs as [|[n sql] pairs IH]; intros seen Hp Hb; simpl.
  { exists []. split_and!; [done|done|constructor|constructor|]. by intros i ? ? ?. }
  apply Forall_cons in Hp as [[Hf Hlen] Hp].
  assert (Hstep : ∀ c, (c ∉ seen) → fragment c → (String.length c ≤ MAX_BYTES)%nat →
    c = sql ∨ sql ∈ seen →
    ∃ out, dedup_go ({[c]} ∪ seen) pairs = Some out ∧ ((n, c) :: out).*1 = n :: pairs.*1 ∧
      NoDup ((n, c) :: out).*2 ∧
      Forall (fun c => (c ∉ seen) ∧ fragment c ∧ (String.length c ≤ MAX_BYTES)%nat)
        ((n, c) :: out).*2 ∧ kept_unless_taken ((n, sql) :: pairs) seen ((n, c) :: out)).
  { intros c Hc Hcf Hcl Hkeep. destruct (IH ({[c]} ∪ seen)) as (out & -> & H1 & H2 & H3 & H4).
    - done.
    - rewrite size_union, size_singleton by set_solver. simpl in Hb. lia.
    - exists out. split_and!; [done|cbn; by rewrite <- H1|..].
      + simpl. apply NoDup_cons. split; [|done]. intros Hin. rewrite Forall_forall in H3.
        apply H3 in Hin as [Hin _]. set_solver.
      + simpl. constructor; [done|]. eapply Forall_impl; [exact H3|].
        intros x (Hx & ? & ?). set_solver.
      + intros [|i] m q d; simpl; [naive_solver|]. intros Hq Hd.
        destruct (H4 i m q d Hq Hd) as [|[Hin|]]; [auto| |right; right; set_solver].
        apply elem_of_union in Hin as [->%elem_of_singleton|]; [|auto].
        right; right. left. }
  case_bool_decide as Hin.
  - destruct (find_free_total seen sql (sha256_hex7 (bytes n))) as [c Hc]. rewrite Hc. simpl.
    apply find_free_Some in Hc as (Hnew & i & Hi & ->).
    destruct (candidate_ok sql (bytes n) (1 + i)) as [Hcf Hcl]; [done|simpl in Hb; lia|].
    destruct (Hstep _ Hnew Hcf Hcl (or_intror Hin)) as (out & -> & ?). simpl. eauto.
  - destruct (Hstep sql Hin Hf Hlen (or_introl eq_refl)) as (out & -> & ?). simpl. eauto.
Qed.

(** ** Stability: a derived identifier derives to itself *)

(** Words of kept characters joined by single underscores, and the same with
    one underscore allowed at the end. *)
Fixpoint snake_tail (l : list Z) : bool :=
  match l with
  | [] => true
  | c :: l' =>
      if keep c then snake_tail l'
      else is_underscore c && match l' with d :: _ => keep d | [] => false end && snake_tail l'
  end.
Fixpoint pre_snake (l : list Z) : bool :=
  match l with
  | [] => true
  | c :: l' =>
      if keep c then pre_snake l'
      else is_underscore c && match l' with d :: _ => keep d | [] => true end && pre_snake l'
  end.
Definition starts_kept (l : list Z) : bool := match l with c :: _ => keep c | [] => true end.

Lemma sep_go_pre cs :
  (∀ lu, pre_snake (sep_go lu true cs) = true ∧ starts_kept (sep_go lu true cs) = true) ∧
  pre_snake (sep_go false false cs) = true ∧
  pre_snake (sep_go true false cs) = true ∧ starts_kept (sep_go true false cs) = true.
Proof.
  induction cs as [|c cs (IH1 & IH2 & IH3 & IH4)]; simpl; [done|].
  destruct (keep c) eqn:Hk; simpl.
  - rewrite Hk. split_and!; auto.
  - split_and!; auto.
    + intros lu. rewrite andb_false_r. apply IH1.
    + rewrite IH3. unfold starts_kept in IH4. by destruct (sep_go true false cs); rewrite ?IH4.
Qed.

Lemma trim_pre_snake l :
  pre_snake l = true →
  snake_tail (trim_end_with is_underscore l) = true ∧
  match l with c :: _ => keep c = true → head (trim_end_with is_underscore l) = Some c
             | [] => trim_end_with is_underscore l = [] end.
Proof.
  induction l as [|c l IH]; [done|]. simpl. rewrite trim_end_cons.
  destruct (keep c) eqn:Hk.
  - intros Hp. destruct (IH Hp) as [Hs _].
    pose proof (keep_is_underscore c Hk) as Hu.
    destruct (trim_end_with _ l); rewrite ?Hu; simpl; by rewrite ?Hk.
  - intros [[Hu Hd]%andb_true_iff Hp]%andb_true_iff. destruct (IH Hp) as [Hs Hh]. rewrite Hu.
    destruct l as [|d l]; [by rewrite Hh|].
    specialize (Hh Hd). destruct (trim_end_with _ (d :: l)) as [|e r]; [done|].
    injection Hh as ->. split; [|done]. cbn [snake_tail] in *. by rewrite Hk, Hu, Hd in *.
Qed.

Lemma snake_sep_go l : snake_tail l = true → sep_go false false l = l.
Proof.
  induction l as [|c l IH]; [done|]. simpl. destruct (keep c) eqn:Hk; simpl.
  - intros Hs. by rewrite IH.
  - intros [[Hu Hd]%andb_true_iff Hs]%andb_true_iff. destruct l as [|d l]; [done|].
    apply Z.eqb_eq in Hu as ->. specialize (IH Hs). cbn [sep_go] in *. rewrite Hd in *.
    by rewrite IH.
Qed.

Lemma snake_trim l : snake_tail l = true → trim_end_with is_underscore l = l.
Proof.
  induction l as [|c l IH]; [done|]. simpl. rewrite trim_end_cons.
  destruct (keep c) eqn:Hk.
  - intros Hs. rewrite (IH Hs). destruct l; [|done].
    by rewrite keep_is_underscore.
  - intros [[Hu Hd]%andb_true_iff Hs]%andb_true_iff. rewrite (IH Hs). by destruct l.
Qed.

Lemma snake_derive l :
  snake_tail l = true → starts_kept l = true →
  derive_base_bytes l =
    match l with c :: _ => if is_ascii_digit c then underscore :: l else l | [] => [] end ∧
  derive_base_bytes (underscore :: l) = derive_base_bytes l.
Proof.
  intros Hs Hk. unfold derive_base_bytes.
  assert (sep_go false true l = l) as ->.
  { destruct l as [|c l]; [done|]. simpl in *. rewrite Hk in *. by rewrite snake_sep_go. }
  assert (sep_go false true (underscore :: l) = l) as ->.
  { destruct l as [|c l]; [done|]. simpl in *. rewrite Hk in *. by rewrite snake_sep_go. }
  assert (drop_while is_underscore l = l) as ->.
  { destruct l as [|c l]; [done|]. simpl in *.
    by rewrite keep_is_underscore. }
  rewrite snake_trim by done. split; [|done]. by destruct l.
Qed.

Lemma derive_base_bytes_idem cs :
  derive_base_bytes (derive_base_bytes cs) = derive_base_bytes cs.
Proof.
  destruct (sep_go_pre cs) as [H1 _]. destruct (H1 false) as [Hp Hk].
  set (out := sep_go false true cs) in *.
  assert (drop_while is_underscore out = out) as Hd.
  { clearbody out. destruct out as [|c out]; [done|]. simpl in *.
    by rewrite keep_is_underscore. }
  destruct (trim_pre_snake out Hp) as [Hs Hh].
  assert (derive_base_bytes cs =
    match trim_end_with is_underscore out with
    | c :: _ => if is_ascii_digit c then underscore :: trim_end_with is_underscore out
                else trim_end_with is_underscore out
    | [] => [] end) as ->.
  { unfold derive_base_bytes. fold out. rewrite Hd. by destruct (trim_end_with _ out). }
  set (body := trim_end_with is_underscore out) in *.
  assert (starts_kept body = true) as Hkb.
  { clearbody out. destruct out as [|c out]; [by subst body|]. simpl in Hk.
    specialize (Hh Hk). destruct body; [done|]. by injection Hh as ->. }
  clearbody body. destruct (snake_derive body Hs Hkb) as [He Hu].
  destruct body as [|c body]; [done|]. destruct (is_ascii_digit c) eqn:Hc; [|done].
  by rewrite Hu, He.
Qed.

Lemma utf8_ascii l : Forall (fun b => b < 128) l → utf8 l = of_bytes l.
Proof.
  induction 1 as [|b l Hb _ IH]; [done|]. cbn [utf8 foldr of_bytes].
  fold (utf8 l). unfold utf8_char. rewrite (proj2 (Z.ltb_lt b 0x80)) by lia. by rewrite IH.
Qed.

Lemma ident_not_uppercase b : ident_byte b → is_ascii_uppercase b = false.
Proof.
  unfold ident_byte, keep, is_ascii_lowercase, is_ascii_digit, is_ascii_uppercase, in_range.
  intros [Hb| ->]; [|done]. apply not_true_iff_false. intros Hu. bool_prop.
  destruct Hb; bool_prop; lia.
Qed.

Lemma split_go_ident prev l : Forall ident_byte l → split_go prev l = l.
Proof.
  intros Hl. revert prev. induction Hl as [|b l Hb _ IH]; intros prev; [done|]. cbn [split_go].
  rewrite IH. destruct prev as [p|]; [|done].
  unfold boundary. by rewrite (ident_not_uppercase b Hb), !andb_false_r.
Qed.

Lemma ident_ascii l : Forall ident_byte l → Forall (fun b => b < 128) l.
Proof. intros Hl. eapply Forall_impl; [exact Hl|]. intros b Hb%ident_byte_range. lia. Qed.

Lemma lower_ident s : Forall ident_byte (bytes s) → to_ascii_lowercase s = s.
Proof.
  intros Hs. unfold to_ascii_lowercase. rewrite <- (of_bytes_bytes s) at 2. f_equal.
  induction Hs as [|b l Hb _ IH]; [done|]. cbn [map]. rewrite IH. unfold ascii_lower.
  by rewrite ident_not_uppercase.
Qed.

(** On text that is already of the identifier class the first two passes of
    [derive_base] do nothing. *)
Lemma derive_base_ident `{UnicodeAscii} s :
  Forall ident_byte (bytes s) → derive_base s = of_bytes (derive_base_bytes (bytes s)).
Proof.
  intros Hs. pose proof (ident_ascii _ Hs) as Ha. unfold derive_base, split_case_boundaries.
  rewrite (chars_bytes s) by auto. rewrite split_go_ident, utf8_ascii, of_bytes_bytes by done.
  rewrite to_lowercase_ascii by done. rewrite lower_ident by done. by rewrite chars_bytes by auto.
Qed.

(** ** The reserved-word search *)

Definition str_lt (a b : string) : Prop := String.compare a b = Lt.

Lemma string_compare_refl a : String.compare a a = Eq.
Proof.
  induction a as [|c a IH]; [done|]. cbn [String.compare]. unfold Ascii.compare.
  by rewrite N.compare_refl.
Qed.

Lemma ascii_compare_eq a b : Ascii.compare a b = Eq → a = b.
Proof. intros Hc%N.compare_eq. by rewrite <- (ascii_N_embedding a), Hc, ascii_N_embedding. Qed.

Lemma str_lt_trans a b c : str_lt a b → str_lt b c → str_lt a c.
Proof.
  unfold str_lt. revert b c. induction a as [|x a IH]; intros [|y b] [|z c]; try done.
  cbn [String.compare].
  destruct (Ascii.compare x y) eqn:E1; try done; destruct (Ascii.compare y z) eqn:E2; try done.
  - apply ascii_compare_eq in E1 as ->. rewrite E2. apply IH.
  - apply ascii_compare_eq in E1 as ->. by rewrite E2.
  - apply ascii_compare_eq in E2 as ->. by rewrite E1.
  - unfold Ascii.compare in *. apply N.compare_lt_iff in E1, E2.
    by rewrite (proj2 (N.compare_lt_iff _ _) (N.lt_trans _ _ _ E1 E2)).
Qed.

Fixpoint ascending (l : list string) : bool :=
  match l with
  | a :: (b :: _) as l' =>
      match String.compare a b with Lt => true | _ => false end && ascending l'
  | _ => true
  end.

Lemma ascending_lt l i j a b :
  ascending l = true → (i < j)%nat → l !! i = Some a → l !! j = Some b → str_lt a b.
Proof.
  revert i j a b. induction l as [|x l IH]; intros i j a b Ha Hij Hi Hj; [done|].
  destruct l as [|y l]; [destruct j, i; simpl in *; by try lia|].
  cbn [ascending] in Ha. apply andb_true_iff in Ha as [Hxy Ha].
  assert (str_lt x y) as Hlt by (unfold str_lt; by destruct (String.compare x y)).
  destruct j as [|j]; [lia|]. destruct i as [|i]; cbn in Hi, Hj.
  - injection Hi as <-. destruct j as [|j]; [cbn in Hj; by injection Hj as <-|].
    apply str_lt_trans with y; [done|]. apply (IH 0%nat (S j)); [done|lia|done|done].
  - apply (IH i j); [done|lia|done..].
Qed.

Lemma nth_default_lookup (l : list string) i x : l !! i = Some x → nth i l EmptyString = x.
Proof. revert i. induction l as [|y l IH]; intros [|i]; try done; [by intros [= <-]|apply IH]. Qed.

Lemma half_bounds n : (1 < n)%nat → (1 ≤ Nat.div n 2)%nat ∧ (Nat.div n 2 * 2 ≤ n)%nat.
Proof.
  intros Hn. pose proof (Nat.div_mod_eq n 2). pose proof (Nat.mod_upper_bound n 2 ltac:(lia)). lia.
Qed.

Lemma search_go_bound l key fuel base size :
  (1 ≤ size)%nat → (base ≤ search_go fuel l key base size < base + size)%nat.
Proof.
  revert base size. induction fuel as [|fuel IH]; intros base size Hs; cbn [search_go]; [lia|].
  destruct (Nat.leb_spec size 1) as [H1|H1]; [lia|].
  destruct (half_bounds size H1) as [Hh1 Hh2]. set (half := Nat.div size 2) in *.
  set (base' := match _ with Gt => _ | _ => _ end).
  assert (base' = base ∨ base' = (base + half)%nat) as Hb
    by (subst base'; destruct (String.compare _ _); auto).
  specialize (IH base' (size - half)%nat ltac:(lia)). lia.
Qed.

(** The window of the search always holds the key's index. *)
Lemma search_go_finds l key k fuel base size :
  ascending l = true → l !! k = Some key → (size ≤ fuel)%nat →
  (base ≤ k < base + size)%nat → (base + size ≤ length l)%nat →
  search_go fuel l key base size = k.
Proof.
  intros Ha Hk. revert base size. induction fuel as [|fuel IH]; intros base size Hf Hw Hl; [lia|].
  cbn [search_go]. destruct (Nat.leb_spec size 1) as [Hs|Hs]; [lia|].
  destruct (half_bounds size Hs) as [Hh1 Hh2]. set (half := Nat.div size 2) in *.
  destruct (lookup_lt_is_Some_2 l (base + half)) as [m Hmid]; [lia|].
  rewrite (nth_default_lookup _ _ _ Hmid).
  destruct (Nat.lt_trichotomy (base + half) k) as [Hlt|[Heq|Hgt]].
  - rewrite (ascending_lt l _ _ _ _ Ha Hlt Hmid Hk). apply IH; lia.
  - subst k. rewrite Hk in Hmid. injection Hmid as <-. rewrite string_compare_refl. apply IH; lia.
  - pose proof (ascending_lt l _ _ _ _ Ha Hgt Hk Hmid) as Hc. unfold str_lt in Hc.
    rewrite String.compare_antisym, Hc. cbn [CompOpp]. apply IH; lia.
Qed.

Lemma binary_search_iff l key : ascending l = true → binary_search l key = true ↔ key ∈ l.
Proof.
  intros Ha. unfold binary_search. destruct l as [|x l'] eqn:El.
  { split; [done|]. intros Hin. by apply elem_of_nil in Hin. }
  rewrite <- El in *. assert (1 ≤ length l)%nat as Hne by (rewrite El; simpl; lia). clear El. set (i := search_go _ _ _ _ _). split.
  - destruct (String.compare (nth i l EmptyString) key) eqn:Ec; [|done..]. intros _.
    apply String.compare_eq_iff in Ec. assert (i < length l)%nat as Hi.
    { apply (search_go_bound l key (length l) 0 (length l) Hne). }
    apply lookup_lt_is_Some_2 in Hi as [y Hy]. rewrite (nth_default_lookup _ _ _ Hy) in Ec.
    subst y. by eapply list_elem_of_lookup_2.
  - intros [k Hk]%list_elem_of_lookup. pose proof (lookup_lt_Some _ _ _ Hk) as Hlt. subst i.
    rewrite (search_go_finds l key k (length l) 0 (length l) Ha Hk) by lia.
    by rewrite (nth_default_lookup _ _ _ Hk), string_compare_refl.
Qed.

(** The whole batch, from the empty set of names. *)
Lemma dedup_spec `{Unicode} (names : list string) (prefix : string) :
  fragment prefix → Z.of_nat (length names) < 10 ^ 53 →
  ∃ out, dedup names prefix = Some out ∧ out.*1 = names ∧ NoDup out.*2 ∧
    Forall (fun c => fragment c ∧ (String.length c ≤ MAX_BYTES)%nat) out.*2 ∧
    ∀ i n c, names !! i = Some n → out.*2 !! i = Some c →
      c = derive n prefix ∨ derive n prefix ∈ take i out.*2.
Proof.
  intros Hp Hlen. unfold dedup.
  destruct (dedup_go_spec ((fun n => (n, derive n prefix)) <$> names) ∅)
    as (out & Ho & H1 & H2 & H3 & H4).
  - apply Forall_fmap, Forall_true. intros n. by apply derive_fragment.
  - rewrite size_empty, length_fmap. lia.
  - exists out. split_and!; [done| |done| |].
    + rewrite H1, <- list_fmap_compose. apply list_fmap_id.
    + eapply Forall_impl; [exact H3|]. naive_solver.
    + intros i n c Hn Hc. destruct (H4 i n (derive n prefix) c) as [|[Hin|]]; auto.
      * by rewrite list_lookup_fmap, Hn.
      * by apply elem_of_empty in Hin.
Qed.

(** Only a name whose own derived identifier is empty gets the empty one: the names
    made up for collisions carry a hash. *)
Lemma find_free_nonempty fuel seen sql hash k c : find_free fuel seen sql hash k = Some c → c ≠ EmptyString.
Proof.
  revert k. induction fuel as [|fuel IH]; intros k; cbn [find_free]; case_bool_decide; try done;
    try apply IH; intros [= <-]; unfold candidate; destruct (Nat.leb k 1);
    (intros Hc; apply (f_equal String.length) in Hc; rewrite !length_app_string in Hc; simpl in Hc; lia).
Qed.

Lemma dedup_empty `{Unicode} names prefix out i n :
  dedup names prefix = Some out → names !! i = Some n → out.*2 !! i = Some EmptyString →
  derive n prefix = EmptyString.
Proof.
  unfold dedup. generalize (∅ : gset string). revert out i.
  induction names as [|m names IH]; intros out i seen; [done|]. cbn [fmap list_fmap dedup_go].
  case_bool_decide.
  - intros (c & Hc & (out' & Ho & [= <-])%bind_Some)%bind_Some. destruct i as [|i]; cbn.
    + intros _ [= ->]. by apply find_free_nonempty in Hc.
    + intros Hn Hi. exact (IH _ _ _ Ho Hn Hi).
  - intros (out' & Ho & [= <-])%bind_Some. destruct i as [|i]; cbn.
    + intros [= <-] [= Hd]. done.
    + intros Hn Hi. exact (IH _ _ _ Ho Hn Hi).
Qed.

(** ** Properties *)

(** [derive] keeps its class whatever the MCP name is: for a prefix of the
    identifier class, the result has only [a-z0-9_], does not start with a digit
    and is at most 63 bytes long; and the result is empty exactly for the empty
    prefix and a name in which no ASCII letter or digit survives lower-casing. *)
Theorem derive_valid `{Unicode} (name prefix : string) :
  fragment prefix →
  fragment (derive name prefix) ∧
  (String.length (derive name prefix) ≤ MAX_BYTES)%nat ∧
  (derive name prefix = EmptyString ↔
   prefix = EmptyString ∧
   Forall (fun c => keep c = false) (chars (to_lowercase (split_case_boundaries name)))).
Proof.
  intros Hp. destruct (derive_fragment name prefix Hp) as [Hf Hl]. split_and!; [done..|].
  apply derive_empty_iff.
Qed.

(** C25. [dedup] terminates on every batch of fewer than 10^53 names and returns
    one identifier per name, in order: all distinct, all of the identifier class,
    all within 63 bytes; and a name loses its derived identifier only when an
    earlier name of the batch already holds it. *)
Theorem dedup_correct `{Unicode} (names : list string) (prefix : string) :
  fragment prefix → Z.of_nat (length names) < 10 ^ 53 →
  ∃ out, dedup names prefix = Some out ∧ out.*1 = names ∧ NoDup out.*2 ∧
    Forall (fun c => fragment c ∧ (String.length c ≤ MAX_BYTES)%nat) out.*2 ∧
    ∀ i n c, names !! i = Some n → out.*2 !! i = Some c →
      c = derive n prefix ∨ derive n prefix ∈ take i out.*2.
Proof. apply dedup_spec. Qed.

(** The base of an identifier is stable: deriving the base of a derived base
    gives it back, so running the generator on its own output renames nothing. *)
Theorem derive_base_idempotent `{UnicodeAscii} (name : string) :
  derive_base (derive_base name) = derive_base name.
Proof.
  destruct (derive_base_fragment name) as [Hc _]. rewrite derive_base_ident by done.
  unfold derive_base.
  destruct (derive_base_bytes_fragment (chars (to_lowercase (split_case_boundaries name))))
    as [Hi _].
  rewrite bytes_of_bytes; [by rewrite derive_base_bytes_idem|].
  eapply Forall_impl; [exact Hi|]. intros b Hb%ident_byte_range. lia.
Qed.

(** [is_reserved] is membership: the binary search over the table answers
    [true] exactly for the words in it (which needs the table to be sorted). *)
Theorem is_reserved_iff (name : string) : is_reserved name = true ↔ name ∈ RESERVED.
Proof. apply binary_search_iff. by vm_compute. Qed.

(** ** Witnesses *)

Module Wit.
Definition ascii_tables : Unicode := {| to_lowercase := to_ascii_lowercase |}.
#[local] Existing Instance ascii_tables.
Lemma ascii_tables_ok : UnicodeAscii.
Proof. by intros s _. Qed.
End Wit.
#[local] Existing Instance Wit.ascii_tables.
#[local] Existing Instance Wit.ascii_tables_ok.

Lemma derive_valid_witness :
  fragment (derive "getUserByID" "fs_") ∧ derive "getUserByID" "fs_" = "fs_get_user_by_id" ∧
  derive "???" EmptyString = EmptyString.
Proof.
  split_and!; [|by vm_compute|].
  - apply (derive_valid "getUserByID" "fs_"). split; [|done].
    repeat constructor; (by left) || (by right).
  - apply (derive_valid "???" EmptyString); [by split|]. split; [done|]. by repeat constructor.
Defined.

Lemma dedup_correct_witness :
  ∃ out, dedup ["readFile"; "read_file"; "read-file"] EmptyString = Some out ∧ NoDup out.*2.
Proof.
  destruct (dedup_correct ["readFile"; "read_file"; "read-file"] EmptyString)
    as (out & Ho & _ & Hn & _); [by split|by vm_compute|].
  exists out. split; [exact Ho|exact Hn].
Defined.

Example dedup_example :
  dedup ["readFile"; "read_file"] EmptyString =
    Some [("readFile", "read_file"); ("read_file", "read_file_c9f8123")].
Proof. by vm_compute. Qed.

Lemma derive_base_idempotent_witness :
  derive_base (derive_base "HTTPServer-2") = derive_base "HTTPServer-2" ∧
  derive_base "HTTPServer-2" = "http_server_2".
Proof. split; [apply (derive_base_idempotent "HTTPServer-2")|by vm_compute]. Defined.

End Ident.
