(* ===== verification/Quals.v ===== *)
(** * quals.rs: pushed-down restrictions

    [Qual], its validity test, its post-fetch filter and the values it
    restricts a column to; [ParamQual]; and [FdwPrivate], the JSON a plan
    carries them in ([Serialize] and [Deserialize] as derived). *)

From Stdlib Require Import Ascii String ZArith Lia.
From Stdlib Require Import SpecFloat.
From stdpp Require Import base numbers gmap sets strings pretty list.
From S2P Require Import Prelude Str Json.
#[local] Open Scope Z_scope.

Module Quals.

Inductive Operator : Type := Equal | AnyEqual.
#[export] Instance Operator_eq_dec : EqDecision Operator.
Proof. solve_decision. Defined.

Record Qual : Type := mkQual {
  field : string;
  operator : Operator;
  value : Value;
  use_or : bool;
}.

Definition equal (f : string) (v : Value) : Qual := mkQual f Equal v false.
Definition any_equal (f : string) (vs : list Value) : Qual := mkQual f AnyEqual (Array vs) false.

Definition is_qual_primitive (v : Value) : bool :=
  match v with Str _ | Num _ | Bool _ => true | _ => false end.

Definition is_supported (q : Qual) : bool :=
  if is_empty (field q) then false
  else match operator q with
       | Equal => negb (is_null (value q))
       | AnyEqual => match as_array (value q) with
                     | Some items => forallb is_qual_primitive items
                     | None => false
                     end
       end.

Definition json_equal (a b : Value) : bool :=
  match a, b with
  | Null, _ | _, Null => false
  | Num x, Num y => SFeqb (num_as_f64 x) (num_as_f64 y)
  | _, _ => value_eqb a b
  end.

Definition matches_json (q : Qual) (column : string) (candidate : Value) : bool :=
  if negb (bool_decide (column = field q)) then true
  else match operator q with
       | Equal => json_equal (value q) candidate
       | AnyEqual => match as_array (value q) with
                     | Some items => existsb (fun v => json_equal v candidate) items
                     | None => false
                     end
       end.

Definition restricted_values (q : Qual) : list Value :=
  match operator q, value q with
  | Equal, v => [v]
  | AnyEqual, Array items => items
  | AnyEqual, _ => []
  end.

(** ** Parameter quals and the plan's private blob *)

Record ParamQual : Type := mkParamQual {
  pfield : string;
  index : Z;            (* usize *)
  omit_null : bool;
  param_type : Z;       (* u32 *)
}.

Record FdwPrivate : Type := mkFdwPrivate {
  table : string;
  quals : list Qual;
  params : list ParamQual;
}.

(** What [#[derive(Serialize)]] writes. *)
Definition operator_to_json (o : Operator) : Value :=
  Str match o with Equal => "Equal" | AnyEqual => "AnyEqual" end.
Definition qual_to_json (q : Qual) : Value :=
  Object [("field", Str (field q)); ("operator", operator_to_json (operator q));
          ("value", value q); ("use_or", Bool (use_or q))].
Definition param_to_json (p : ParamQual) : Value :=
  Object [("field", Str (pfield p)); ("index", num_of_Z (index p));
          ("omit_null", Bool (omit_null p)); ("param_type", num_of_Z (param_type p))].
Definition private_to_json (p : FdwPrivate) : Value :=
  Object [("table", Str (table p)); ("quals", Array (qual_to_json <$> quals p));
          ("params", Array (param_to_json <$> params p))].

(** What [#[derive(Deserialize)]] accepts on a map: every field present and of
    its type, except [params], which defaults to the empty list. *)
Definition u32_max : Z := 4294967295.

Definition operator_of_json (v : Value) : option Operator :=
  s ← as_str v;
  if bool_decide (s = "Equal") then Some Equal
  else if bool_decide (s = "AnyEqual") then Some AnyEqual else None.

Definition qual_of_json (v : Value) : option Qual :=
  f ← get v "field" ≫= as_str;
  o ← get v "operator" ≫= operator_of_json;
  x ← get v "value";
  u ← get v "use_or" ≫= as_bool;
  Some (mkQual f o x u).

Definition param_of_json (v : Value) : option ParamQual :=
  f ← get v "field" ≫= as_str;
  i ← get v "index" ≫= as_u64;
  n ← get v "omit_null" ≫= as_bool;
  t ← get v "param_type" ≫= as_u64;
  if t <=? u32_max then Some (mkParamQual f i n t) else None.

Definition private_of_json (v : Value) : option FdwPrivate :=
  t ← get v "table" ≫= as_str;
  qs ← get v "quals" ≫= as_array;
  qs ← mapM qual_of_json qs;
  ps ← match get v "params" with
       | None => Some []
       | Some ps => as_array ps ≫= mapM param_of_json
       end;
  Some (mkFdwPrivate t qs ps).

Section codec.
Context `{Serde}.
Definition encode_private (p : FdwPrivate) : string := json_to_string (private_to_json p).
Definition decode_private (s : string) : option FdwPrivate :=
  json_from_str s ≫= private_of_json.
End codec.

(** ** Lemmas *)

Lemma json_equal_null_l v : json_equal Null v = false.
Proof. by destruct v. Qed.
Lemma json_equal_null_r v : json_equal v Null = false.
Proof. by destruct v. Qed.

Lemma matches_null q : matches_json q (field q) Null = false.
Proof.
  unfold matches_json. rewrite bool_decide_true by done. cbn [negb].
  destruct (operator q); [apply json_equal_null_r|]. destruct (as_array (value q)) as [l|]; [|done].
  induction l as [|x l IH]; [done|]. cbn [existsb]. by rewrite json_equal_null_r.
Qed.

Lemma qual_json_round_trip q : qual_of_json (qual_to_json q) = Some q.
Proof. by destruct q as [f [] v u]. Qed.

Definition param_ok (p : ParamQual) : Prop := 0 <= index p ∧ 0 <= param_type p <= u32_max.

Lemma as_u64_num n : 0 <= n → as_u64 (num_of_Z n) = Some n.
Proof. intros Hn. unfold num_of_Z. by rewrite (proj2 (Z.ltb_ge _ _) Hn). Qed.

Lemma param_json_round_trip p : param_ok p → param_of_json (param_to_json p) = Some p.
Proof.
  destruct p as [f i n t]. intros [Hi [Ht0 Ht]]. simpl in *. unfold param_of_json, param_to_json.
  simpl. rewrite !as_u64_num by done. simpl. by rewrite (proj2 (Z.leb_le _ _) Ht).
Qed.

Lemma mapM_round_trip {A B} (f : A → B) (g : B → option A) (P : A → Prop) l :
  (∀ x, P x → g (f x) = Some x) → Forall P l → mapM g (f <$> l) = Some l.
Proof.
  intros Hg. induction 1 as [|x l Hx _ IH]; [done|]. cbn. by rewrite Hg, IH by done.
Qed.

Lemma existsb_In {A} (p : A → bool) (l : list A) : existsb p l = true ↔ ∃ x, x ∈ l ∧ p x = true.
Proof. rewrite existsb_exists. setoid_rewrite list_elem_of_In. done. Qed.

(** ** Properties *)

(** The post-fetch filter accepts exactly the rows the qual asks for: on its
    own column a qual matches a cell iff the cell equals one of the values the
    qual restricts the column to; a SQL NULL matches no qual; and a qual on
    another column rejects nothing. *)
Theorem matches_restricted (q : Qual) (column : string) (candidate : Value) :
  (matches_json q column candidate = true ↔
     (column = field q → ∃ v, v ∈ restricted_values q ∧ json_equal v candidate = true)) ∧
  (column = field q → matches_json q column Null = false).
Proof.
  unfold matches_json, restricted_values. split.
  - case_bool_decide as Hc; simpl; [|naive_solver].
    destruct (operator q).
    + setoid_rewrite list_elem_of_singleton. naive_solver.
    + destruct (value q); simpl; try (setoid_rewrite elem_of_nil; naive_solver).
      rewrite existsb_In. naive_solver.
  - intros ->. rewrite bool_decide_true by done. simpl.
    destruct (operator q); [apply json_equal_null_r|].
    destruct (as_array _) as [items|]; [|done].
    apply not_true_iff_false. intros (v & _ & Hv)%existsb_In. by rewrite json_equal_null_r in Hv.
Qed.

(** A plan's pushed quals survive the plan tree: whatever text the JSON
    printer produces for the blob, if the parser reads it back, decoding the encoded blob
    gives the same table, quals and parameter quals, for every index and type
    OID of their Rust ranges. *)
Theorem private_round_trip `{Serde} (p : FdwPrivate) :
  json_from_str (json_to_string (private_to_json p)) = Some (private_to_json p) →
  Forall param_ok (params p) →
  decode_private (encode_private p) = Some p.
Proof.
  intros Hs Hp. unfold decode_private, encode_private. rewrite Hs. simpl.
  destruct p as [t qs ps]. unfold private_of_json, private_to_json. simpl in *.
  rewrite (mapM_round_trip qual_to_json qual_of_json (fun _ => True));
    [|by intros; apply qual_json_round_trip|by apply Forall_true].
  simpl. by rewrite (mapM_round_trip _ _ param_ok) by (done || apply param_json_round_trip).
Qed.

(** Integers are compared as [f64]: past 2^53 two of them can be taken for equal. *)
Example json_equal_collision :
  json_equal (num_of_Z 9007199254740992) (num_of_Z 9007199254740993) = true.
Proof. reflexivity. Qed.

Lemma matches_restricted_witness :
  matches_json (any_equal "name" [Str "a"; Str "b"]) "name" Null = false ∧
  matches_json (any_equal "name" [Str "a"; Str "b"]) "name" (Str "b") = true.
Proof.
  split.
  - by apply (matches_restricted (any_equal "name" [Str "a"; Str "b"]) "name" Null).
  - apply (proj1 (matches_restricted (any_equal "name" [Str "a"; Str "b"]) "name" (Str "b"))).
    intros _. exists (Str "b"). split; [by right; left|reflexivity].
Defined.

Module Wit.
Definition plan : FdwPrivate :=
  mkFdwPrivate "tools" [equal "name" (Str "a")] [mkParamQual "title" 0 true 25].
(** A codec that knows one text. *)
Definition blob : string := "the plan's blob".
Definition codec : Serde := {|
  json_from_str s := if bool_decide (s = blob) then Some (private_to_json plan) else None;
  json_to_string _ := blob |}.
End Wit.

Lemma private_round_trip_witness :
  @decode_private Wit.codec (@encode_private Wit.codec Wit.plan) = Some Wit.plan.
Proof.
  apply (@private_round_trip Wit.codec Wit.plan); [reflexivity|].
  repeat constructor; by vm_compute.
Defined.

End Quals.
