(* ===== verification/Tables.v ===== *)
(** * tables/mod.rs: the foreign-table registry

    Column types, the ten table specifications, cells and rows, the insert row
    and the scan context's view of the quals.  The handlers named in the
    registry are modelled in their own files; here they are tags. *)

From Stdlib Require Import Ascii String ZArith Lia.
From Stdlib Require Import SpecFloat.
From stdpp Require Import base numbers gmap sets strings pretty list.
From S2P Require Import Prelude Str Json Errors Quals.
Import Quals.
#[local] Open Scope Z_scope.

Module Tables.

Inductive ColumnType : Type :=
  | Text | Jsonb | Boolean | Int4 | Int8 | Bytea | Uuid | TimestampTz | Float8 | Date.
#[export] Instance ColumnType_eq_dec : EqDecision ColumnType.
Proof. solve_decision. Defined.

(** The built-in type OIDs of [pg_type.dat]. *)
Definition oid (t : ColumnType) : Z :=
  match t with
  | Text => 25 | Jsonb => 3802 | Boolean => 16 | Int4 => 23 | Int8 => 20 | Bytea => 17
  | Uuid => 2950 | TimestampTz => 1184 | Float8 => 701 | Date => 1082
  end.

Definition sql_name (t : ColumnType) : string :=
  match t with
  | Text => "text" | Jsonb => "jsonb" | Boolean => "boolean" | Int4 => "integer"
  | Int8 => "bigint" | Bytea => "bytea" | Uuid => "uuid" | TimestampTz => "timestamptz"
  | Float8 => "double precision" | Date => "date"
  end.

Inductive Source : Type :=
  | ServerIdentity
  | Initialize
  | List (method : string)
  | ReadThrough (method : string)
  | Invocation
  | Local_.

Record ColumnSpec : Type := mkColumn {
  c_name : string;
  c_type : ColumnType;
  c_source : Source;
}.
Record TableSpec : Type := mkTable {
  t_name : string;
  t_columns : list ColumnSpec;
}.

Definition arity (spec : TableSpec) : nat := length (t_columns spec).

(** [iter().position(..)]: the index of the first match. *)
Fixpoint position {A} (p : A → bool) (l : list A) : option nat :=
  match l with
  | [] => None
  | x :: l' => if p x then Some 0%nat else S <$> position p l'
  end.

Definition attno (spec : TableSpec) (column : string) : option nat :=
  S <$> position (fun c => bool_decide (c_name c = column)) (t_columns spec).

Definition column (spec : TableSpec) (index : nat) : option ColumnSpec :=
  t_columns spec !! index.

(** ** Cells and rows *)

Inductive Cell : Type :=
  | CText (s : string)
  | CJson (v : Value)
  | CBool (b : bool)
  | CInt4 (i : Z)
  | CInt8 (i : Z)
  | CBytea (b : list Z)
  | CUuid (b : list Z)
  | CTimestampTz (micros : Z)
  | CFloat8 (f : spec_float)
  | CDate (s : string).

Definition as_json (c : Cell) : Value :=
  match c with
  | CText s => Str s
  | CJson v => v
  | CBool b => Bool b
  | CInt4 i => num_of_Z i
  | CInt8 i => num_of_Z i
  | CFloat8 f => match num_from_f64 f with Some n => Num n | None => Null end
  | CDate d => Str d
  | CBytea _ | CUuid _ | CTimestampTz _ => Null
  end.

Abbreviation Row := (list (option Cell)).
Definition empty_row (spec : TableSpec) : Row := replicate (arity spec) None.

Record InsertRow : Type := mkInsertRow { ir_spec : TableSpec; ir_cells : Row }.

Definition ir_value (r : InsertRow) (col : string) : option Cell :=
  a ← attno (ir_spec r) col;
  mjoin (ir_cells r !! (a - 1)%nat).

(** ** Contexts *)

(** [ctx.restricted_values(column)]: the values of every qual on the column. *)
Definition ctx_restricted_values (quals : list Qual) (col : string) : list Value :=
  mjoin (restricted_values <$> filter (fun q => field q = col) quals).

Definition table_option (options : list (string * string)) (key : string) : option string :=
  match list_find (fun kv => kv.1 = key) options with
  | Some (_, (_, v)) => Some v
  | None => None
  end.

Definition TABLE_OPTION_UPSTREAM : string := "upstream".
Definition TABLE_OPTION_CACHE_TTL_MS : string := "cache_ttl_ms".

Definition table_ttl_ms (options : list (string * string)) : option Z :=
  v ← table_option options TABLE_OPTION_CACHE_TTL_MS; parse_u64 (trim v).
Definition upstream (options : list (string * string)) : option string :=
  table_option options TABLE_OPTION_UPSTREAM.

(** [x as i32]: the low 32 bits, two's complement. *)
Definition wrap_i32 (n : Z) : Z := (n + 2147483648) mod 4294967296 - 2147483648.

(** Writing a cell under a column name; an unknown name is ignored. *)
Definition set (spec : TableSpec) (row : Row) (col : string) (cell : option Cell) : Row :=
  match attno spec col with
  | Some index => <[(index - 1)%nat := cell]> row
  | None => row
  end.

(** The default [begin_modify] of the handler trait. *)
Definition default_begin_modify {A} : McpResult A :=
  Err (FeatureNotSupported "INSERT is only supported on mcp.tool_calls (PRD-7 §4.7)").

(** ** The registry *)

Definition SERVER_SPEC : TableSpec := mkTable "server"
    [mkColumn "name" Text ServerIdentity;
     mkColumn "url" Text ServerIdentity;
     mkColumn "protocol_version" Text Initialize;
     mkColumn "server_name" Text Initialize;
     mkColumn "server_version" Text Initialize;
     mkColumn "instructions" Text Initialize;
     mkColumn "capabilities" Jsonb Initialize;
     mkColumn "mode" Text ServerIdentity;
     mkColumn "session_id" Text ServerIdentity].

Definition TOOLS_SPEC : TableSpec := mkTable "tools"
    [mkColumn "name" Text (List "tools/list");
     mkColumn "title" Text (List "tools/list");
     mkColumn "description" Text (List "tools/list");
     mkColumn "input_schema" Jsonb (List "tools/list");
     mkColumn "output_schema" Jsonb (List "tools/list");
     mkColumn "annotations" Jsonb (List "tools/list");
     mkColumn "read_only" Boolean (List "tools/list");
     mkColumn "destructive" Boolean (List "tools/list");
     mkColumn "idempotent" Boolean (List "tools/list");
     mkColumn "open_world" Boolean (List "tools/list");
     mkColumn "meta" Jsonb (List "tools/list")].

Definition PROMPTS_SPEC : TableSpec := mkTable "prompts"
    [mkColumn "name" Text (List "prompts/list");
     mkColumn "title" Text (List "prompts/list");
     mkColumn "description" Text (List "prompts/list");
     mkColumn "meta" Jsonb (List "prompts/list")].

Definition PROMPT_ARGUMENTS_SPEC : TableSpec := mkTable "prompt_arguments"
    [mkColumn "prompt" Text (List "prompts/list");
     mkColumn "name" Text (List "prompts/list");
     mkColumn "description" Text (List "prompts/list");
     mkColumn "required" Boolean (List "prompts/list");
     mkColumn "idx" Int4 (List "prompts/list")].

Definition RESOURCES_SPEC : TableSpec := mkTable "resources"
    [mkColumn "uri" Text (List "resources/list");
     mkColumn "name" Text (List "resources/list");
     mkColumn "title" Text (List "resources/list");
     mkColumn "description" Text (List "resources/list");
     mkColumn "mime_type" Text (List "resources/list");
     mkColumn "size" Int8 (List "resources/list");
     mkColumn "annotations" Jsonb (List "resources/list");
     mkColumn "meta" Jsonb (List "resources/list")].

Definition RESOURCE_TEMPLATES_SPEC : TableSpec := mkTable "resource_templates"
    [mkColumn "uri_template" Text (List "resources/templates/list");
     mkColumn "name" Text (List "resources/templates/list");
     mkColumn "title" Text (List "resources/templates/list");
     mkColumn "description" Text (List "resources/templates/list");
     mkColumn "mime_type" Text (List "resources/templates/list");
     mkColumn "annotations" Jsonb (List "resources/templates/list");
     mkColumn "meta" Jsonb (List "resources/templates/list")].

Definition RESOURCE_CONTENTS_SPEC : TableSpec := mkTable "resource_contents"
    [mkColumn "uri" Text (ReadThrough "resources/read");
     mkColumn "idx" Int4 (ReadThrough "resources/read");
     mkColumn "mime_type" Text (ReadThrough "resources/read");
     mkColumn "text" Text (ReadThrough "resources/read");
     mkColumn "blob" Bytea (ReadThrough "resources/read");
     mkColumn "meta" Jsonb (ReadThrough "resources/read")].

Definition PROMPT_MESSAGES_SPEC : TableSpec := mkTable "prompt_messages"
    [mkColumn "prompt" Text (ReadThrough "prompts/get");
     mkColumn "arguments" Jsonb (ReadThrough "prompts/get");
     mkColumn "idx" Int4 (ReadThrough "prompts/get");
     mkColumn "role" Text (ReadThrough "prompts/get");
     mkColumn "content_type" Text (ReadThrough "prompts/get");
     mkColumn "text" Text (ReadThrough "prompts/get");
     mkColumn "content" Jsonb (ReadThrough "prompts/get");
     mkColumn "description" Text (ReadThrough "prompts/get")].

Definition COMPLETIONS_SPEC : TableSpec := mkTable "completions"
    [mkColumn "ref" Jsonb (ReadThrough "completion/complete");
     mkColumn "argument_name" Text (ReadThrough "completion/complete");
     mkColumn "argument_value" Text (ReadThrough "completion/complete");
     mkColumn "value" Text (ReadThrough "completion/complete");
     mkColumn "idx" Int4 (ReadThrough "completion/complete");
     mkColumn "total" Int4 (ReadThrough "completion/complete");
     mkColumn "has_more" Boolean (ReadThrough "completion/complete")].

Definition TOOL_CALLS_SPEC : TableSpec := mkTable "tool_calls"
    [mkColumn "id" Uuid Local_;
     mkColumn "tool" Text Invocation;
     mkColumn "arguments" Jsonb Invocation;
     mkColumn "content" Jsonb Invocation;
     mkColumn "structured" Jsonb Invocation;
     mkColumn "is_error" Boolean Invocation;
     mkColumn "error" Jsonb Invocation;
     mkColumn "called_at" TimestampTz Local_;
     mkColumn "duration_ms" Int4 Local_].

Inductive Handler : Type :=
  | SERVER_TABLE | TOOLS_TABLE | PROMPTS_TABLE | PROMPT_ARGUMENTS_TABLE | RESOURCES_TABLE
  | RESOURCE_TEMPLATES_TABLE | RESOURCE_CONTENTS_TABLE | PROMPT_MESSAGES_TABLE
  | COMPLETIONS_TABLE | TOOL_CALLS_TABLE.
#[export] Instance Handler_eq_dec : EqDecision Handler.
Proof. solve_decision. Defined.

Record TableEntry : Type := mkEntry { e_spec : TableSpec; e_handler : Handler }.

Definition REGISTRY : list TableEntry :=
  [mkEntry SERVER_SPEC SERVER_TABLE; mkEntry TOOLS_SPEC TOOLS_TABLE;
   mkEntry PROMPTS_SPEC PROMPTS_TABLE; mkEntry PROMPT_ARGUMENTS_SPEC PROMPT_ARGUMENTS_TABLE;
   mkEntry RESOURCES_SPEC RESOURCES_TABLE;
   mkEntry RESOURCE_TEMPLATES_SPEC RESOURCE_TEMPLATES_TABLE;
   mkEntry RESOURCE_CONTENTS_SPEC RESOURCE_CONTENTS_TABLE;
   mkEntry PROMPT_MESSAGES_SPEC PROMPT_MESSAGES_TABLE; mkEntry COMPLETIONS_SPEC COMPLETIONS_TABLE;
   mkEntry TOOL_CALLS_SPEC TOOL_CALLS_TABLE].

Definition find (name : string) : option TableEntry :=
  snd <$> list_find (fun e => t_name (e_spec e) = name) REGISTRY.

(** ** Typing of rows

    A row agrees with a specification when it has its width and every non-NULL
    cell is of its column's type and within that type's range. *)
Definition cell_ok (t : ColumnType) (c : Cell) : Prop :=
  match t, c with
  | Text, CText _ | Jsonb, CJson _ | Boolean, CBool _ | Float8, CFloat8 _ | Date, CDate _ => True
  | Int4, CInt4 i => i32_min <= i <= i32_max
  | Int8, CInt8 i => i64_min <= i <= i64_max
  | TimestampTz, CTimestampTz i => i64_min <= i <= i64_max
  | Bytea, CBytea b => Forall (fun x => 0 <= x < 256) b
  | Uuid, CUuid b => Forall (fun x => 0 <= x < 256) b ∧ length b = 16%nat
  | _, _ => False
  end.

Definition row_ok (spec : TableSpec) (row : Row) : Prop :=
  Forall2 (fun c o => match o with Some x => cell_ok (c_type c) x | None => True end)
    (t_columns spec) row.

(** ** Lemmas *)

Lemma position_Some {A} (p : A → bool) l i :
  position p l = Some i →
  (∃ x, l !! i = Some x ∧ p x = true) ∧ ∀ j y, (j < i)%nat → l !! j = Some y → p y = false.
Proof.
  revert i. induction l as [|x l IH]; intros i; simpl; [done|]. destruct (p x) eqn:Hp.
  - intros [= <-]. split; [by exists x|]. intros j y Hj. lia.
  - intros (k & Hk & ->)%fmap_Some. destruct (IH k Hk) as [(z & Hz & Hpz) Hmin].
    split; [by exists z|]. intros [|j] y Hj Hy; [by simplify_eq/=|].
    apply (Hmin j y); [lia|done].
Qed.

Lemma position_first {A} (p : A → bool) l i x :
  l !! i = Some x → p x = true → (∀ j y, (j < i)%nat → l !! j = Some y → p y = false) →
  position p l = Some i.
Proof.
  revert i. induction l as [|y l IH]; intros i Hi Hp Hmin; [done|]. simpl.
  destruct i as [|i]; [injection Hi as ->; by rewrite Hp|].
  rewrite (Hmin 0%nat y) by (lia || done).
  rewrite (IH i Hi Hp); [done|]. intros j z Hj Hz. apply (Hmin (S j) z); [lia|done].
Qed.

(** With distinct column names, [attno] inverts [column]. *)
Lemma attno_column spec i c :
  NoDup (c_name <$> t_columns spec) → column spec i = Some c →
  attno spec (c_name c) = Some (S i).
Proof.
  intros Hnd Hc. unfold attno, column in *.
  rewrite (position_first _ _ i c Hc); [done|by apply bool_decide_true|].
  intros j y Hj Hy. apply bool_decide_false. intros Heq.
  enough (j = i) by lia. apply (NoDup_lookup (c_name <$> t_columns spec) _ _ (c_name c) Hnd).
  - by rewrite list_lookup_fmap, Hy, <- Heq.
  - by rewrite list_lookup_fmap, Hc.
Qed.

#[export] Instance NoDup_names_dec (l : list string) : Decision (NoDup l) := _.

Lemma registry_columns_distinct :
  Forall (fun e => NoDup (c_name <$> t_columns (e_spec e))) REGISTRY.
Proof. repeat constructor; apply (bool_decide_unpack _); by vm_compute. Qed.

Lemma registry_names_distinct : NoDup ((fun e => t_name (e_spec e)) <$> REGISTRY).
Proof. apply (bool_decide_unpack _). by vm_compute. Qed.

Lemma row_ok_length spec row : row_ok spec row → length row = arity spec.
Proof. intros Hr. symmetry. apply (Forall2_length _ _ _ Hr). Qed.

Lemma wrap_i32_range n : i32_min <= wrap_i32 n <= i32_max.
Proof.
  unfold wrap_i32, i32_min, i32_max.
  pose proof (Z.mod_pos_bound (n + 2147483648) 4294967296 ltac:(lia)). lia.
Qed.

(** A cell of the column's type keeps a row well typed. *)
Definition typed_cell (spec : TableSpec) (col : string) (cell : option Cell) : Prop :=
  match attno spec col ≫= (fun i => column spec (i - 1)%nat), cell with
  | Some c, Some x => cell_ok (c_type c) x
  | _, _ => True
  end.

Lemma row_ok_set spec row col cell :
  row_ok spec row → typed_cell spec col cell → row_ok spec (set spec row col cell).
Proof.
  unfold set, typed_cell, column, attno. intros Hr Hc.
  destruct (position _ _) as [i|] eqn:Hp; [|done].
  simpl in *. rewrite Nat.sub_0_r in *. apply position_Some in Hp as [(x & Hx & _) _].
  unfold row_ok in *. rewrite Forall2_lookup in Hr |- *.
  intros j. destruct (decide (i = j)) as [<-|Hne].
  - specialize (Hr i). rewrite Hx in *.
    destruct (row !! i) as [y|] eqn:Hy; [|by inversion Hr].
    rewrite list_lookup_insert_eq by (by eapply lookup_lt_Some). by constructor.
  - rewrite list_lookup_insert_ne by done. apply Hr.
Qed.

Lemma row_ok_empty spec : row_ok spec (empty_row spec).
Proof. unfold row_ok, empty_row, arity. induction (t_columns spec); constructor; auto. Qed.

Lemma find_registry e : e ∈ REGISTRY → find (t_name (e_spec e)) = Some e.
Proof.
  intros [i Hi]%list_elem_of_lookup. unfold find.
  assert (list_find (fun e' => t_name (e_spec e') = t_name (e_spec e)) REGISTRY = Some (i, e)) as ->.
  { apply list_find_Some. split_and!; [done|done|]. intros j y Hj Hlt Heq.
    enough (j = i) by lia. apply (NoDup_lookup _ _ _ (t_name (e_spec e)) registry_names_distinct);
      rewrite list_lookup_fmap, ?Hi, ?Hj; simpl; congruence. }
  done.
Qed.

(** ** Properties *)

(** The registry is a consistent catalog: every entry is found under its own
    table name, and for every column of it the value an INSERT row reports under
    the column's name is the cell at that column's position, so no column hides
    another. *)
Theorem registry_consistent (e : TableEntry) :
  e ∈ REGISTRY →
  find (t_name (e_spec e)) = Some e ∧
  ∀ i c cells, column (e_spec e) i = Some c →
    attno (e_spec e) (c_name c) = Some (S i) ∧
    ir_value (mkInsertRow (e_spec e) cells) (c_name c) = mjoin (cells !! i).
Proof.
  intros He. split; [by apply find_registry|]. intros i c cells Hc.
  pose proof registry_columns_distinct as Hd. rewrite Forall_forall in Hd.
  pose proof (attno_column _ i c (Hd e He) Hc) as Ha. split; [done|].
  unfold ir_value. simpl. rewrite Ha. simpl. by rewrite Nat.sub_0_r.
Qed.

Lemma registry_consistent_witness :
  find "tool_calls" = Some (mkEntry TOOL_CALLS_SPEC TOOL_CALLS_TABLE) ∧
  ir_value (mkInsertRow TOOL_CALLS_SPEC [None; Some (CText "echo")]) "tool" = Some (CText "echo").
Proof.
  assert (mkEntry TOOL_CALLS_SPEC TOOL_CALLS_TABLE ∈ REGISTRY) as Hin.
  { unfold REGISTRY. set_solver. }
  split.
  - apply (registry_consistent _ Hin).
  - apply (registry_consistent _ Hin) with (i := 1%nat) (c := mkColumn "tool" Text Invocation)
      (cells := [None; Some (CText "echo")]). reflexivity.
Defined.

End Tables.
