(* ===== verification/Cursor.v ===== *)
(** * tables/mod.rs: the traits of a scan in progress

    The trait [ScanCursor] as a class, with its default [re_scan], and what the
    executor callbacks rely on, [ScanCursorLaws]: a cursor stands before a finite
    list of rows, hands them out in order without failing, and a re-scan brings
    back a list that it announces.  The two ways the handlers keep their rows, a
    position in a list and a list that is consumed, satisfy the laws; they differ
    in [rewinds]. *)

From Stdlib Require Import Ascii String ZArith Lia.
From stdpp Require Import base numbers gmap sets strings pretty list.
From S2P Require Import Prelude Str Json Errors Quals Tables.
Import Tables.

(** The state left is what follows the result, as for [&mut self]. *)
Class ScanCursor (C : Type) := {
  iter_scan : C → McpResult (option Row) * C;
  re_scan : C → McpResult unit * C;
}.

(** The trait's own [re_scan]: nothing to unwind. *)
Definition default_re_scan {C} (c : C) : McpResult unit * C := (Ok tt, c).

Class ScanCursorLaws (C : Type) `{ScanCursor C} := {
  (** the rows still to come, and those a re-scan brings back *)
  cursor_rest : C → list Row;
  cursor_restart : C → list Row;
  (** whether a re-scan brings back all rows, those already read included *)
  rewinds : C → bool;
  rest_suffix c : cursor_rest c `suffix_of` cursor_restart c;
  iter_scan_next c :
    match cursor_rest c with
    | [] => iter_scan c = (Ok None, c)
    | row :: more => ∃ c', iter_scan c = (Ok (Some row), c') ∧ cursor_rest c' = more ∧
        cursor_restart c' `suffix_of` cursor_restart c ∧ rewinds c' = rewinds c ∧
        (rewinds c = true → cursor_restart c' = cursor_restart c)
    end;
  re_scan_restarts c :
    ∃ c', re_scan c = (Ok tt, c') ∧ cursor_rest c' = cursor_restart c ∧
      cursor_restart c' = cursor_restart c ∧ rewinds c' = rewinds c;
}.

(** ** A position in a list of rows *)

(** [rows.get(position)], and the position after it. *)
Definition read_at (rows : list Row) (pos : nat) : option Row * nat :=
  match rows !! pos with Some row => (Some row, S pos) | None => (None, pos) end.

Lemma read_at_next rows pos :
  match drop pos rows with
  | [] => read_at rows pos = (None, pos)
  | row :: more => read_at rows pos = (Some row, S pos) ∧ drop (S pos) rows = more
  end.
Proof.
  unfold read_at. destruct (rows !! pos) as [row|] eqn:Hl.
  - by rewrite (drop_S rows row pos Hl).
  - rewrite drop_ge by (by apply lookup_ge_None). done.
Qed.

Lemma drop_suffix {A} n (l : list A) : drop n l `suffix_of` l.
Proof. exists (take n l). by rewrite take_drop. Qed.

(** ** Reading a cursor *)

Section reading.
Context `{ScanCursorLaws C}.

(** [n] calls of [iter_scan], with the cursor they leave. *)
Fixpoint read (n : nat) (c : C) : McpResult (list (option Row)) * C :=
  match n with
  | O => (Ok [], c)
  | S n =>
      match iter_scan c with
      | (Ok row, c') => let '(more, c'') := read n c' in (cons row <$> more, c'')
      | (Err e, c') => (Err e, c')
      end
  end.

Lemma read_end n c : cursor_rest c = [] → read n c = (Ok (replicate n None), c).
Proof.
  intros Hc. induction n as [|n IH]; [done|]. cbn. pose proof (iter_scan_next c) as Hi.
  rewrite Hc in Hi. rewrite Hi, IH. done.
Qed.

(** What a cursor reads is decided by the laws: the rows to come, then none. *)
Lemma read_rest n c : (read (length (cursor_rest c) + n) c).1 = Ok ((Some <$> cursor_rest c) ++ replicate n None).
Proof.
  remember (cursor_rest c) as l eqn:Hl. revert c Hl. induction l as [|row l IH]; intros c Hl.
  - cbn. by rewrite read_end.
  - pose proof (iter_scan_next c) as Hi. rewrite <- Hl in Hi. destruct Hi as (c' & Hi & Hc' & _).
    cbn. rewrite Hi. specialize (IH c' (eq_sym Hc')). destruct (read (length l + n) c') as [out c''].
    cbn in IH. by rewrite IH.
Qed.

(** However much was read, a cursor that rewinds reads the same list again. *)
Lemma read_restart n c : rewinds c = true → cursor_restart (read n c).2 = cursor_restart c ∧ rewinds (read n c).2 = true.
Proof.
  revert c. induction n as [|n IH]; intros c Hc; [done|]. cbn. pose proof (iter_scan_next c) as Hi.
  destruct (cursor_rest c) as [|row more].
  - rewrite Hi. specialize (IH c Hc). by destruct (read n c).
  - destruct Hi as (c' & Hi & _ & _ & Hw & Hr). rewrite Hi, <- (Hr Hc). specialize (IH c').
    rewrite Hw in IH. specialize (IH Hc). by destruct (read n c').
Qed.

(** A re-scan after any reading gives every row, then none. *)
Lemma re_scan_reads_all n k c :
  rewinds c = true →
  (read (length (cursor_restart c) + k) (re_scan (read n c).2).2).1
  = Ok ((Some <$> cursor_restart c) ++ replicate k None).
Proof.
  intros Hc. destruct (read_restart n c Hc) as [Hr _].
  destruct (re_scan_restarts (read n c).2) as (c' & Hs & Hrest & _). rewrite Hs. cbn.
  rewrite <- Hr, <- Hrest. apply read_rest.
Qed.
End reading.

(** A cursor over [vec::IntoIter]: reading consumes. *)
Definition take_row (rows : list Row) : option Row * list Row :=
  match rows with [] => (None, []) | row :: more => (Some row, more) end.

Lemma take_row_suffix row (rows more : list Row) : rows = row :: more → more `suffix_of` rows.
Proof. intros ->. by exists [row]. Qed.
