(* ===== verification/Client.v ===== *)
(** * client.rs: JSON-RPC over MCP Streamable HTTP

    The session record, the exchange with the server and its classification,
    [initialize], [request] with its single re-initialization, pagination and
    the readers of a [CallToolResult].

    The peer (the MCP server behind [ureq]), the interrupt hook and the clock
    are the operations of class [Net]; an answer may depend on everything sent
    before it.  The world records what was sent and the time. *)

From Stdlib Require Import Ascii String ZArith Lia.
From stdpp Require Import base numbers gmap sets strings pretty list.
From S2P Require Import Prelude Str Json Errors Sse.
#[local] Open Scope Z_scope.

Record HttpRequest : Type := mkHttpRequest {
  rq_url : string;
  rq_timeout : Z;
  rq_headers : list (string * string);
  rq_body : Value;
}.

(** What [ureq::Request::send_bytes] returns: a response, an error status or a
    transport error of the given kind.  A response carries its headers, its body
    and the clock readings of the stream reader. *)
Inductive HttpOutcome : Type :=
  | Response (status : Z) (headers : list (string * string)) (body : Sse.Stream)
             (elapsed : nat → Z)
  | ErrorStatus (status : Z)
  | TransportError (kind : string).

Record World : Type := mkWorld {
  w_sent : list HttpRequest;
  w_now : Z;
}.

Class Net := {
  answer : World → HttpRequest → HttpOutcome;
  took : World → HttpRequest → nat;
  interrupt : World → McpResult unit;
  stream_interrupt : World → nat → McpResult unit;
}.

Create HintDb agree.

Module Client.

Definition CLIENT_PROTOCOL_VERSION : string := "2025-11-25".
Definition CLIENT_NAME : string := "pg_mcp".
Definition CLIENT_VERSION : string := "0.3.0".
Definition MAX_JSON_BODY : Z := 64 * 1024 * 1024.

Record Bearer : Type := mkBearer { b_token : string }.
Definition bearer_header (b : Bearer) : string := "Bearer " +:+ b_token b.
Definition bearer_debug (b : Bearer) : string := "Bearer(<redacted>)".

(** The session.  [notifications] is the shared flag; [agent_timeout] is the
    timeout the session's agent was built with. *)
Record McpSession : Type := mkSession {
  url : string;
  session_id : option string;
  protocol_version : string;
  server_info : Value;
  capabilities : Value;
  next_id : Z;
  initialized_at : Z;
  initialize_count : Z;
  tools_list_changed : bool;
  agent_timeout : Z;
}.

(** [observing]: does the transport hold the session's notification flags? *)
Record TransportCtx : Type := mkTransport {
  timeout : Z;
  bearer : option Bearer;
  observing : bool;
}.

Inductive Wire : Type :=
  | WJson (v : Value) (session_id : option string)
  | WSse (body : Sse.Stream) (elapsed : nat → Z)
  | WAccepted
  | WSessionGone
  | WFailed (e : McpError).

(** ** Notifications *)

Definition is_tools_list_changed (frame : Value) : bool :=
  bool_decide (get frame "method" ≫= as_str = Some "notifications/tools/list_changed").
Definition observe (flag : bool) (frame : Value) : bool :=
  if is_tools_list_changed frame then true else flag.

Definition set_flag (flag : bool) (s : McpSession) : McpSession :=
  mkSession (url s) (session_id s) (protocol_version s) (server_info s) (capabilities s)
    (next_id s) (initialized_at s) (initialize_count s) flag (agent_timeout s).
Definition take_tools_list_changed (s : McpSession) : bool * McpSession :=
  (tools_list_changed s, set_flag false s).

(** ** Reading answers *)

Definition classify_status (status : Z) : Wire :=
  if status =? 404 then WSessionGone else WFailed (from_http_status status).

(** Header lookup, case-insensitive, first match. *)
Definition header (name : string) (hs : list (string * string)) : option string :=
  match list_find (fun kv => to_ascii_lowercase kv.1 = to_ascii_lowercase name) hs with
  | Some (_, (_, v)) => Some v
  | None => None
  end.

(** [body.take(MAX_JSON_BODY).read_to_string(..)]: the text or the error kind. *)
Definition read_body (body : Sse.Stream) : result string string :=
  let b := Sse.st_bytes body in
  if Z.of_nat (String.length b) <? MAX_JSON_BODY then
    match Sse.st_error body with
    | Some kind => Err kind
    | None => Sse.line_read b
    end
  else Sse.line_read (str_take (Z.to_nat MAX_JSON_BODY) b).

Definition rpc_error (v : Value) : option (Z * string) :=
  error ← get v "error";
  let code := default 0 (get error "code" ≫= as_i64) in
  let msg := default "MCP server returned an error" (get error "message" ≫= as_str) in
  Some (code, msg).

Definition finish (v : Value) (id : Z) : McpResult Value :=
  match rpc_error v with
  | Some (code, msg) => Err (from_rpc code msg)
  | None =>
      match get v "result" with
      | Some r => Ok r
      | None => Err (Transport ("MCP response for request " +:+ fmt_Z id
                                +:+ " carried neither result nor error"))
      end
  end.

Definition text_part (item : Value) : option string :=
  if bool_decide (get item "type" ≫= as_str = Some "text") then get item "text" ≫= as_str
  else None.

Definition text_content (result : Value) : option string :=
  content ← get result "content" ≫= as_array;
  match omap text_part content with
  | [] => None
  | parts => Some (concat parts)
  end.

Definition is_error_result (result : Value) : bool :=
  default false (get result "isError" ≫= as_bool).

Definition page_items (result : Value) (array_key : string) : list Value * option string :=
  (default [] (get result array_key ≫= as_array), get result "nextCursor" ≫= as_str).

(** ** The exchange *)

Section client.
Context `{Serde, Net}.

Definition build (s : McpSession) (body : Value) (tr : TransportCtx) (sid : option string)
    (send_protocol_version : bool) : HttpRequest :=
  mkHttpRequest (url s) (agent_timeout s)
    ([("content-type", "application/json");
      ("accept", "application/json, text/event-stream");
      ("user-agent", CLIENT_NAME +:+ "/" +:+ CLIENT_VERSION)]
     ++ (if send_protocol_version then [("mcp-protocol-version", protocol_version s)] else [])
     ++ (match sid with Some v => [("mcp-session-id", v)] | None => [] end)
     ++ (match bearer tr with Some b => [("authorization", bearer_header b)] | None => [] end))
    body.

(** [request.send_bytes(&payload)] *)
Definition send (rq : HttpRequest) (w : World) : HttpOutcome * World :=
  (answer w rq, mkWorld (w_sent w ++ [rq]) (w_now w + Z.of_nat (took w rq))).

Definition dispatch (rq : HttpRequest) (w : World) : Wire * World :=
  match interrupt w with
  | Err e => (WFailed e, w)
  | Ok _ =>
    let '(out, w') := send rq w in
    (match out with
     | ErrorStatus status => classify_status status
     | TransportError kind => WFailed (Transport ("could not reach the MCP server: " +:+ kind))
     | Response status headers body elapsed =>
         if status =? 202 then WAccepted
         else
           let sid := header "mcp-session-id" headers in
           let ct := to_ascii_lowercase (default EmptyString (header "content-type" headers)) in
           if contains "text/event-stream" ct then WSse body elapsed
           else match read_body body with
                | Err kind =>
                    WFailed (Transport ("could not read the MCP response body: " +:+ kind))
                | Ok text =>
                    match json_from_str text with
                    | Some v => WJson v sid
                    | None => WFailed (Transport "MCP server returned a malformed JSON body")
                    end
                end
     end, w')
  end.

(** State of a session's methods: the session and the world. *)
Abbreviation SM := (M (McpSession * World) McpError).

Definition dispatch_m (mk : McpSession → HttpRequest) : SM Wire :=
  fun '(s, w) => let '(wire, w') := dispatch (mk s) w in (Ok wire, (s, w')).

Definition modify (f : McpSession → World → McpSession) : SM unit :=
  fun '(s, w) => (Ok tt, (f s w, w)).

Definition take_id : SM Z :=
  fun '(s, w) =>
    (Ok (next_id s),
     (mkSession (url s) (session_id s) (protocol_version s) (server_info s) (capabilities s)
        (next_id s + 1) (initialized_at s) (initialize_count s) (tools_list_changed s)
        (agent_timeout s), w)).

(** Drain the stream; the frames skipped on the way reach the session's flag
    when the transport holds it. *)
Definition read_stream (body : Sse.Stream) (elapsed : nat → Z) (want_id : Z)
    (tr : TransportCtx) : SM Value :=
  fun '(s, w) =>
    let '(r, frames) :=
      Sse.read_until_id_observed elapsed (stream_interrupt w) want_id (timeout tr) body in
    let flag := if observing tr then foldl observe (tools_list_changed s) frames
                else tools_list_changed s in
    (r, (set_flag flag s, w)).

Definition notify (body : Value) (tr : TransportCtx) : SM unit :=
  wire ← dispatch_m (fun s => build s body tr (session_id s) true);
  match wire with
  | WAccepted | WJson _ _ | WSessionGone | WSse _ _ => mret ()
  | WFailed e => m_fail e
  end.

Definition exchange_checked (body : Value) (id : Z) (tr : TransportCtx) :
    SM (option (Value * option string)) :=
  wire ← dispatch_m (fun s => build s body tr (session_id s) true);
  match wire with
  | WJson v sid =>
      match finish v id with
      | Ok r => mret (Some (r, sid))
      | Err e => if is_expired_session (message e) then mret None else m_fail e
      end
  | WSse st elapsed =>
      v ← read_stream st elapsed id tr;
      r ← m_lift (finish v id);
      mret (Some (r, None))
  | WAccepted => m_fail (Transport "MCP server accepted the request without answering it")
  | WSessionGone => mret None
  | WFailed e => m_fail e
  end.

Definition exchange (body : Value) (id : Z) (tr : TransportCtx) (sid : option string)
    (send_protocol_version : bool) : SM (Value * option string) :=
  wire ← dispatch_m (fun s => build s body tr sid send_protocol_version);
  match wire with
  | WJson v sid' => r ← m_lift (finish v id); mret (r, sid')
  | WSse st elapsed =>
      v ← read_stream st elapsed id tr;
      r ← m_lift (finish v id);
      mret (r, None)
  | WAccepted => m_fail (Transport "MCP server did not answer initialize")
  | WSessionGone =>
      m_fail (Transport "MCP server rejected the initialize request as an unknown session")
  | WFailed e => m_fail e
  end.

Definition initialize_body (id : Z) : Value :=
  Object [("jsonrpc", Str "2.0"); ("id", num_of_Z id); ("method", Str "initialize");
          ("params", Object
            [("protocolVersion", Str CLIENT_PROTOCOL_VERSION); ("capabilities", Object []);
             ("clientInfo", Object [("name", Str CLIENT_NAME); ("version", Str CLIENT_VERSION)])])].

Definition initialized_note : Value :=
  Object [("jsonrpc", Str "2.0"); ("method", Str "notifications/initialized")].

(** The fields [initialize] fills in from the handshake result. *)
Definition adopt (result : Value) (sid : option string) (s : McpSession) (w : World) : McpSession :=
  mkSession (url s) sid
    (default CLIENT_PROTOCOL_VERSION (get result "protocolVersion" ≫= as_str))
    (default Null (get result "serverInfo")) (default Null (get result "capabilities"))
    (next_id s) (w_now w) (initialize_count s + 1) (tools_list_changed s) (agent_timeout s).

Definition initialize (tr : TransportCtx) : SM unit :=
  id ← take_id;
  '(result, sid) ← exchange (initialize_body id) id tr None false;
  _ ← modify (adopt result sid);
  notify initialized_note tr.

Definition request_body (id : Z) (method : string) (params : Value) : Value :=
  Object [("jsonrpc", Str "2.0"); ("id", num_of_Z id); ("method", Str method);
          ("params", params)].

Definition try_request (method : string) (params : Value) (tr : TransportCtx) :
    SM (option Value) :=
  id ← take_id;
  r ← exchange_checked (request_body id method params) id tr;
  mret (fst <$> r).

Definition forget_session_id (s : McpSession) (_ : World) : McpSession :=
  mkSession (url s) None (protocol_version s) (server_info s) (capabilities s)
    (next_id s) (initialized_at s) (initialize_count s) (tools_list_changed s) (agent_timeout s).

Definition rejected_twice : McpError :=
  Transport "MCP session was rejected twice; giving up after one re-initialize".

Definition request (method : string) (params : Value) (tr : TransportCtx) : SM Value :=
  r ← try_request method params tr;
  match r with
  | Some v => mret v
  | None =>
      _ ← modify forget_session_id;
      _ ← initialize tr;
      r ← try_request method params tr;
      match r with
      | Some v => mret v
      | None => m_fail rejected_twice
      end
  end.

(** [McpSession::open] *)
Definition fresh (u : string) (tr : TransportCtx) (w : World) : McpSession :=
  mkSession u None CLIENT_PROTOCOL_VERSION Null Null 1 (w_now w) 0 false (timeout tr).

Definition open (u : string) (tr : TransportCtx) (w : World) : McpResult McpSession * World :=
  match initialize tr (fresh u tr w, w) with
  | (Ok _, (s, w')) => (Ok s, w')
  | (Err e, (_, w')) => (Err e, w')
  end.

(** ** Pagination *)

Definition MAX_LIST_PAGES : nat := 1000.

Definition too_many_pages (method : string) : McpError :=
  Transport ("MCP list method " +:+ quoted method +:+ " did not exhaust its cursor within "
             +:+ fmt_nat MAX_LIST_PAGES +:+ " pages").
Definition repeated_cursor (method : string) : McpError :=
  Transport ("MCP list method " +:+ quoted method +:+ " repeated pagination cursor").

Definition with_cursor (params : Value) (cursor : string) : Value :=
  match params with
  | Object m => Object (obj_insert "cursor" (Str cursor) m)
  | v => v
  end.

(** The loop; [pages] is [MAX_LIST_PAGES - followed.len()]. *)
Fixpoint list_go (pages : nat) (method array_key : string) (tr : TransportCtx)
    (items : list Value) (followed : list string) (params : Value) : SM (list Value) :=
  match pages with
  | O => m_fail (too_many_pages method)
  | S pages' =>
      result ← request method params tr;
      let '(page, next) := page_items result array_key in
      match next with
      | None => mret (items ++ page)
      | Some cursor =>
          if bool_decide (cursor ∈ followed) then m_fail (repeated_cursor method)
          else list_go pages' method array_key tr (items ++ page) (followed ++ [cursor])
                 (with_cursor params cursor)
      end
  end.

Definition list_all (method array_key : string) (params : Value) (tr : TransportCtx) :
    SM (list Value) :=
  list_go MAX_LIST_PAGES method array_key tr [] [] params.
End client.

(** ** What a call sends *)

Section trace.
Context `{Serde, Net}.

(** Same endpoint, same agent, same counters: what an exchange leaves alone. *)
Record same_session (s s' : McpSession) : Prop := {
  same_url : url s' = url s;
  same_agent : agent_timeout s' = agent_timeout s;
  same_version : protocol_version s' = protocol_version s;
  same_sid : session_id s' = session_id s;
  same_next : next_id s' = next_id s;
  same_count : initialize_count s' = initialize_count s;
}.

Lemma same_session_refl s : same_session s s.
Proof. by constructor. Qed.
Lemma same_session_flag b s : same_session s (set_flag b s).
Proof. by constructor. Qed.
Hint Resolve same_session_refl same_session_flag : core.

Lemma dispatch_sends rq w wire w' :
  dispatch rq w = (wire, w') →
  (w' = w ∧ ∃ e, wire = WFailed e) ∨ w_sent w' = w_sent w ++ [rq].
Proof.
  unfold dispatch. destruct (interrupt w) as [[]|e]; intros Hd; simplify_eq/=; eauto.
Qed.

Lemma dispatch_m_sends mk s w r s' w' :
  dispatch_m mk (s, w) = (r, (s', w')) →
  s' = s ∧ ∃ wire, r = Ok wire ∧
    ((w' = w ∧ ∃ e, wire = WFailed e) ∨ w_sent w' = w_sent w ++ [mk s]).
Proof.
  unfold dispatch_m. destruct (dispatch _ _) as [wire w1] eqn:Hd. intros; simplify_eq.
  split; [done|]. exists wire. split; [done|]. by apply dispatch_sends.
Qed.

Lemma read_stream_sends st el id tr s w r s' w' :
  read_stream st el id tr (s, w) = (r, (s', w')) → same_session s s' ∧ w' = w.
Proof.
  unfold read_stream. destruct (Sse.read_until_id_observed _ _ _ _ _). intros; simplify_eq; auto.
Qed.

(** [m] leaves the counters alone and sends [rq], or fails before sending. *)
Definition one_exchange {A} (m : M (McpSession * World) McpError A) (rq : McpSession → HttpRequest) :=
  ∀ s w r s' w', m (s, w) = (r, (s', w')) →
    same_session s s' ∧
    ((w' = w ∧ ∃ e, r = Err e) ∨ w_sent w' = w_sent w ++ [rq s]).

(** The reader of an answer: no further traffic, and a failed exchange fails. *)
Definition reads_answer {A} (k : Wire → M (McpSession * World) McpError A) :=
  ∀ wire s w r s' w', k wire (s, w) = (r, (s', w')) →
    same_session s s' ∧ w' = w ∧ ∀ e, wire = WFailed e → r = Err e.

Lemma dispatch_then {A} mk (k : Wire → M (McpSession * World) McpError A) :
  reads_answer k → one_exchange (dispatch_m mk ≫= k) mk.
Proof.
  intros Hk s w r s' w' Hm. unfold mbind, M_bind in Hm.
  destruct (dispatch_m mk (s, w)) as [r0 [s0 w0]] eqn:Hd.
  apply dispatch_m_sends in Hd as (-> & wire & -> & Hs).
  apply Hk in Hm as (Hsame & -> & Hf). split; [done|].
  destruct Hs as [[-> [e ->]]|Hs]; [left; eauto|by right].
Qed.

Ltac reader :=
  intros wire s w r s' w' Hk; unfold mret, M_ret, m_fail in Hk;
  destruct wire; simplify_eq/=; try (split_and!; by auto).

Lemma notify_exchange body tr :
  one_exchange (notify body tr) (fun s => build s body tr (session_id s) true).
Proof. apply dispatch_then. reader. split_and!; [auto|done|]. by intros ? [= ->]. Qed.

Lemma exchange_checked_exchange body id tr :
  one_exchange (exchange_checked body id tr) (fun s => build s body tr (session_id s) true).
Proof.
  apply dispatch_then. reader.
  - case_all; split_and!; by auto.
  - unfold mbind, M_bind, m_lift in Hk.
    destruct (read_stream _ _ _ _ _) as [r0 [s0 w0]] eqn:Hr.
    apply read_stream_sends in Hr as [Hs ->]. case_all; split_and!; by auto.
  - split_and!; [auto|done|]. by intros ? [= ->].
Qed.

Lemma exchange_exchange body id tr sid v :
  one_exchange (exchange body id tr sid v) (fun s => build s body tr sid v).
Proof.
  apply dispatch_then. reader.
  - unfold mbind, M_bind, m_lift in Hk. case_all; split_and!; by auto.
  - unfold mbind, M_bind, m_lift in Hk.
    destruct (read_stream _ _ _ _ _) as [r0 [s0 w0]] eqn:Hr.
    apply read_stream_sends in Hr as [Hs ->]. case_all; split_and!; by auto.
  - split_and!; [auto|done|]. by intros ? [= ->].
Qed.

Definition bump (s : McpSession) : McpSession :=
  mkSession (url s) (session_id s) (protocol_version s) (server_info s) (capabilities s)
    (next_id s + 1) (initialized_at s) (initialize_count s) (tools_list_changed s)
    (agent_timeout s).

Lemma build_same s s' body tr sid v : same_session s s' → build s' body tr sid v = build s body tr sid v.
Proof. intros [Hu Ha Hv _ _ _]. unfold build. by rewrite Hu, Ha, Hv. Qed.

Lemma try_request_trace method params tr s w r s' w' :
  try_request method params tr (s, w) = (r, (s', w')) →
  same_session (bump s) s' ∧
  ((w' = w ∧ ∃ e, r = Err e) ∨
   w_sent w' = w_sent w
     ++ [build s (request_body (next_id s) method params) tr (session_id s) true]).
Proof.
  unfold try_request, mbind, M_bind, mret, M_ret. simpl. fold (bump s).
  destruct (exchange_checked _ _ _ _) as [r0 [s0 w0]] eqn:He.
  apply exchange_checked_exchange in He as [Hs He].
  destruct r0 as [o|e]; intros; simplify_eq; (split; [done|]); [|destruct He as [[]|]; eauto].
  destruct He as [[_ [e ?]]|]; [done|auto].
Qed.

Definition init_request (s : McpSession) (id : Z) (tr : TransportCtx) : HttpRequest :=
  build s (initialize_body id) tr None false.
Definition note_request (s : McpSession) (tr : TransportCtx) : HttpRequest :=
  build s initialized_note tr (session_id s) true.

(** The handshake: one [initialize], then one notification. *)
Lemma initialize_trace tr s w r s' w' :
  initialize tr (s, w) = (r, (s', w')) →
  url s' = url s ∧ agent_timeout s' = agent_timeout s ∧ next_id s' = next_id s + 1 ∧
  ∃ reqs, w_sent w' = w_sent w ++ reqs ∧
    ((initialize_count s' = initialize_count s ∧ (∃ e, r = Err e) ∧
      reqs `prefix_of` [init_request s (next_id s) tr]) ∨
     (initialize_count s' = initialize_count s + 1 ∧
      reqs `prefix_of` [init_request s (next_id s) tr; note_request s' tr] ∧
      (r = Ok tt → length reqs = 2%nat))).
Proof.
  unfold initialize, mbind, M_bind. simpl. fold (bump s).
  destruct (exchange _ _ _ _ _ _) as [r0 [s0 w0]] eqn:He.
  apply exchange_exchange in He as [Hs0 He].
  change (build (bump s) _ tr None false) with (init_request s (next_id s) tr) in He.
  destruct r0 as [[result sid]|e].
  - destruct He as [[_ [e ?]]|He]; [done|]. simpl. set (s1 := adopt result sid s0 w0).
    intros [Hs1 Hn]%notify_exchange.
    assert (note_request s' tr = build s1 initialized_note tr (session_id s1) true) as Hnote.
    { unfold note_request. by rewrite (build_same s1), (same_sid s1) by done. }
    destruct Hs0 as [Hu0 Ha0 _ _ Hx0 Hc0], Hs1 as [Hu1 Ha1 _ _ Hx1 Hc1]. subst s1. simpl in *.
    split_and!; [congruence..|].
    destruct Hn as [[-> [e ->]]|Hn].
    + exists [init_request s (next_id s) tr]. split; [done|]. right.
      split_and!; [congruence|by apply prefix_cons, prefix_nil|done].
    + exists [init_request s (next_id s) tr; note_request s' tr].
      split; [by rewrite Hn, He, <- app_assoc, Hnote|]. right. split_and!; [congruence|done|done].
  - intros; simplify_eq. destruct Hs0 as [Hu0 Ha0 _ _ Hx0 Hc0]. simpl in *.
    split_and!; [done..|]. destruct He as [[-> _]|He].
    + exists []. split; [by rewrite app_nil_r|]. left. split_and!; [done|eauto|apply prefix_nil].
    + exists [init_request s (next_id s) tr]. split; [done|]. left. split_and!; [done|eauto|done].
Qed.

(** The four exchanges a request can take, in order. *)
Definition request_script (method : string) (params : Value) (tr : TransportCtx)
    (s s' : McpSession) : list HttpRequest :=
  [build s (request_body (next_id s) method params) tr (session_id s) true;
   init_request s (next_id s + 1) tr;
   note_request s' tr;
   build s' (request_body (next_id s + 2) method params) tr (session_id s') true].

Definition request_facts {A} (method : string) (params : Value) (tr : TransportCtx)
    (s s' : McpSession) (r : McpResult A) (reqs : list HttpRequest) : Prop :=
  reqs `prefix_of` request_script method params tr s s' ∧
  url s' = url s ∧ agent_timeout s' = agent_timeout s ∧
  next_id s < next_id s' <= next_id s + 3 ∧
  initialize_count s <= initialize_count s' <= initialize_count s + 1 ∧
  ∀ v, r = Ok v →
    (length reqs = 1%nat ∧ initialize_count s' = initialize_count s ∧
     session_id s' = session_id s) ∨
    (length reqs = 4%nat ∧ initialize_count s' = initialize_count s + 1).

(** After a rejected first attempt: handshake and second attempt. *)
Lemma retry_trace method params tr s w r s' w' :
  (_ ← initialize tr; r ← try_request method params tr;
   match r with Some v => mret v | None => m_fail rejected_twice end) (s, w) = (r, (s', w')) →
  url s' = url s ∧ agent_timeout s' = agent_timeout s ∧
  next_id s < next_id s' <= next_id s + 2 ∧
  initialize_count s <= initialize_count s' <= initialize_count s + 1 ∧
  ∃ reqs, w_sent w' = w_sent w ++ reqs ∧
    reqs `prefix_of` [init_request s (next_id s) tr; note_request s' tr;
      build s' (request_body (next_id s + 1) method params) tr (session_id s') true] ∧
    ∀ v, r = Ok v → length reqs = 3%nat ∧ initialize_count s' = initialize_count s + 1.
Proof.
  unfold mbind, M_bind, mret, M_ret, m_fail.
  destruct (initialize tr (s, w)) as [r0 [s1 w1]] eqn:Hi.
  apply initialize_trace in Hi as (Hu & Ha & Hn & reqs & Hsent & Hcase).
  destruct r0 as [[]|e]; simpl.
  - destruct Hcase as [(_ & [e ?] & _)|(Hc & Hp & Hlen)]; [done|]. specialize (Hlen eq_refl).
    destruct (try_request method params tr (s1, w1)) as [r2 [s2 w2]] eqn:Ht.
    apply try_request_trace in Ht as [Hs2 Ht].
    assert (reqs = [init_request s (next_id s) tr; note_request s1 tr]) as ->.
    { apply prefix_length_eq in Hp; [done|simpl; lia]. }
    assert (note_request s2 tr = note_request s1 tr) as Hn2.
    { unfold note_request. by rewrite (build_same (bump s1)), (same_sid (bump s1)) by done. }
    assert (∀ body, build s2 body tr (session_id s2) true =
                    build s1 body tr (session_id s1) true) as Hb2.
    { intros body. by rewrite (build_same (bump s1)), (same_sid (bump s1)) by done. }
    destruct Hs2 as [Hu2 Ha2 _ _ Hn2' Hc2]. simpl in *. intros Hend.
    assert (s' = s2 ∧ w' = w2 ∧ ∀ v, r = Ok v → ∃ o, r2 = Ok o) as (-> & -> & Hok).
    { destruct r2 as [[v|]|e]; simplify_eq; naive_solver. }
    split_and!; [congruence|congruence|lia|lia|lia|lia|]. rewrite Hn2, Hb2.
    destruct Ht as [[-> [e ->]]|Ht].
    + exists [init_request s (next_id s) tr; note_request s1 tr]. split_and!; [done|..].
      * do 2 apply prefix_cons. apply prefix_nil.
      * intros v Hv. destruct (Hok v Hv) as [o ?]. done.
    + eexists. split_and!; [by rewrite Ht, Hsent, <- app_assoc|by rewrite Hn|].
      intros v Hv. split; [done|lia].
  - intros; simplify_eq. split_and!; [done|done|lia|lia|..].
    1,2: destruct Hcase as [(? & _)|(? & _)]; lia.
    exists reqs. split_and!; [done|..|done].
    destruct Hcase as [(_ & _ & Hp)|(_ & Hp & _)].
    + etrans; [exact Hp|]. apply prefix_cons, prefix_nil.
    + etrans; [exact Hp|]. do 2 apply prefix_cons. apply prefix_nil.
Qed.

Lemma request_trace method params tr s w r s' w' :
  request method params tr (s, w) = (r, (s', w')) →
  ∃ reqs, w_sent w' = w_sent w ++ reqs ∧ request_facts method params tr s s' r reqs.
Proof.
  unfold request. unfold mbind at 1, M_bind at 1.
  destruct (try_request method params tr (s, w)) as [r0 [s1 w1]] eqn:Ht.
  apply try_request_trace in Ht as [Hs1 Ht]. unfold request_facts, request_script.
  destruct r0 as [[v|]|e].
  - destruct Ht as [[_ [e ?]]|Ht]; [done|]. unfold mret, M_ret. intros; simplify_eq.
    destruct Hs1 as [Hu Ha _ Hsid Hn Hc]. simpl in *. eexists. split; [exact Ht|].
    split_and!; [by apply prefix_cons, prefix_nil|congruence|congruence|lia|lia|lia|lia|].
    intros v' _. left. split_and!; [done|lia|congruence].
  - destruct Ht as [[_ [e ?]]|Ht]; [done|]. intros Hretry.
    apply (retry_trace method params tr (forget_session_id s1 w1) w1) in Hretry as
      (Hu2 & Ha2 & Hn2 & Hc2 & reqs & Hsent & Hp & Hok).
    assert (init_request (forget_session_id s1 w1) (next_id s1) tr
            = init_request s (next_id s + 1) tr) as Hi.
    { unfold init_request. destruct Hs1 as [Hu Ha _ _ Hn _]. unfold build. simpl in *.
      by rewrite Hu, Ha, Hn. }
    simpl in Hp. rewrite Hi in Hp. destruct Hs1 as [Hu Ha _ Hsid Hn Hc]. simpl in *.
    eexists. split; [by rewrite Hsent, Ht, <- app_assoc|].
    split_and!; [|congruence|congruence|lia|lia|lia|lia|].
    + simpl. apply prefix_cons. rewrite Hn in Hp.
      by replace (next_id s + 2) with (next_id s + 1 + 1) by lia.
    + intros v Hv. right. destruct (Hok v Hv) as [Hl Hc']. simpl. lia.
  - intros; simplify_eq. destruct Hs1 as [Hu Ha _ Hsid Hn Hc]. simpl in *.
    destruct Ht as [[-> _]|Ht]; [exists []|eexists].
    + split; [by rewrite app_nil_r|].
      split_and!; [apply prefix_nil|congruence|congruence|lia|lia|lia|lia|done].
    + split; [exact Ht|].
      split_and!; [by apply prefix_cons, prefix_nil|congruence|congruence|lia|lia|lia|lia|done].
Qed.
End trace.

(** ** Pagination, declaratively *)

Section pages.
Context `{Serde, Net}.
Context (method array_key : string) (tr : TransportCtx).

(** [pages_of params σ pages cursors σ']: starting from [params] in state [σ] the
    server hands out [pages] one request at a time, each request after the first
    carrying the cursor of the page before it, until a page has none. *)
Inductive pages_of : Value → McpSession * World → list (list Value) → list string →
    McpSession * World → Prop :=
  | pages_last params σ result page σ' :
      request method params tr σ = (Ok result, σ') →
      page_items result array_key = (page, None) →
      pages_of params σ [page] [] σ'
  | pages_more params σ result page cursor σ1 pages cursors σ' :
      request method params tr σ = (Ok result, σ1) →
      page_items result array_key = (page, Some cursor) →
      pages_of (with_cursor params cursor) σ1 pages cursors σ' →
      pages_of params σ (page :: pages) (cursor :: cursors) σ'.

Lemma pages_of_nonempty params σ pages cs σ' :
  pages_of params σ pages cs σ' → (1 ≤ length pages)%nat.
Proof. destruct 1; simpl; lia. Qed.

Lemma list_go_sound n items followed params σ res σ' :
  NoDup followed →
  list_go n method array_key tr items followed params σ = (Ok res, σ') →
  ∃ pages cs, pages_of params σ pages cs σ' ∧ res = items ++ mjoin pages ∧
    NoDup (followed ++ cs) ∧ (length pages ≤ n)%nat.
Proof.
  revert items followed params σ. induction n as [|n IH]; intros items followed params σ Hnd;
    cbn [list_go]; [done|].
  intros (result & σ1 & Hr & Hk)%m_bind_inv_ok.
  destruct (page_items result array_key) as [page [cursor|]] eqn:Hp.
  - case_bool_decide as Hin; [done|].
    apply IH in Hk as (pages & cs & Hpages & -> & Hnd' & Hl).
    + rewrite <- app_assoc in Hnd'. exists (page :: pages), (cursor :: cs).
      split_and!; [by eapply pages_more|by rewrite <- app_assoc|done|simpl; lia].
    + apply NoDup_app. split_and!; [done|set_solver|apply NoDup_singleton].
  - unfold mret, M_ret in Hk. simplify_eq. exists [page], [].
    split_and!; [by eapply pages_last|by (simpl; rewrite app_nil_r)|by rewrite app_nil_r|simpl; lia].
Qed.

Lemma list_go_complete n items followed params σ pages cs σ' :
  pages_of params σ pages cs σ' → NoDup (followed ++ cs) → (length pages ≤ n)%nat →
  list_go n method array_key tr items followed params σ = (Ok (items ++ mjoin pages), σ').
Proof.
  intros Hp. revert n items followed.
  induction Hp as [params σ result page σ' Hr Hpi
                  |params σ result page cursor σ1 pages cs σ' Hr Hpi Hp IH];
    intros [|n] items followed Hnd Hl; simpl in Hl; try lia; cbn [list_go];
    rewrite (m_bind_ok _ _ _ _ _ Hr), Hpi.
  - by (simpl; rewrite app_nil_r).
  - apply NoDup_app in Hnd as (Hf & Hd & Hc). rewrite bool_decide_false by set_solver.
    rewrite IH; [by rewrite <- app_assoc| |lia].
    rewrite <- app_assoc. apply NoDup_app. split_and!; [done|set_solver|done].
Qed.

Lemma list_go_bound n items followed params s w r s' w' :
  list_go n method array_key tr items followed params (s, w) = (r, (s', w')) →
  (length (w_sent w') ≤ length (w_sent w) + 4 * n)%nat ∧
  url s' = url s ∧ agent_timeout s' = agent_timeout s ∧ next_id s <= next_id s' ∧
  initialize_count s <= initialize_count s'.
Proof.
  revert items followed params s w. induction n as [|n IH]; intros items followed params s w;
    cbn [list_go].
  { unfold m_fail. intros; simplify_eq. split_and!; lia || done. }
  unfold mbind, M_bind, mret, M_ret, m_fail.
  destruct (request method params tr (s, w)) as [r0 [s1 w1]] eqn:Hr.
  apply request_trace in Hr as (reqs & Hsent & Hp & Hu & Ha & Hn & Hc & _).
  apply prefix_length in Hp. simpl in Hp.
  assert (length (w_sent w1) ≤ length (w_sent w) + 4)%nat by (rewrite Hsent, length_app; lia).
  assert (Hend : ∀ r1, (r1, (s1, w1)) = (r, (s', w')) →
    (length (w_sent w') ≤ length (w_sent w) + 4 * S n)%nat ∧
    url s' = url s ∧ agent_timeout s' = agent_timeout s ∧ next_id s <= next_id s' ∧
    initialize_count s <= initialize_count s').
  { intros; simplify_eq. split_and!; lia || done. }
  destruct r0 as [result|e]; [|apply Hend].
  destruct (page_items _ _) as [page [cursor|]]; [|apply Hend].
  case_bool_decide; [apply Hend|]. intros Hgo.
  apply IH in Hgo as (Hl' & Hu' & Ha' & Hn' & Hc'). split_and!; lia || congruence.
Qed.
End pages.

(** ** Secrecy of the token

    Two runs that differ only in the bearer token. *)

Definition strip (rq : HttpRequest) : HttpRequest :=
  mkHttpRequest (rq_url rq) (rq_timeout rq)
    (filter (fun kv => kv.1 ≠ "authorization") (rq_headers rq)) (rq_body rq).

Definition world_eq (w1 w2 : World) : Prop :=
  strip <$> w_sent w1 = strip <$> w_sent w2 ∧ w_now w1 = w_now w2.

(** A peer that does not look at the credential. *)
Record token_blind `{Net} : Prop := {
  blind_answer w1 w2 rq1 rq2 :
    world_eq w1 w2 → strip rq1 = strip rq2 → answer w1 rq1 = answer w2 rq2;
  blind_took w1 w2 rq1 rq2 :
    world_eq w1 w2 → strip rq1 = strip rq2 → took w1 rq1 = took w2 rq2;
  blind_interrupt w1 w2 : world_eq w1 w2 → interrupt w1 = interrupt w2;
  blind_stream w1 w2 : world_eq w1 w2 → stream_interrupt w1 = stream_interrupt w2;
}.

Definition with_bearer (tr : TransportCtx) (b : option Bearer) : TransportCtx :=
  mkTransport (timeout tr) b (observing tr).

Section secrecy.
Context `{Serde, Net} (blind : token_blind).
Local Abbreviation SM := (M (McpSession * World) McpError).

(** Same result, same session, worlds equal up to the credential. *)
Definition agree {A} (m1 m2 : SM A) : Prop :=
  ∀ s w1 w2, world_eq w1 w2 →
    ∃ r s' w1' w2', m1 (s, w1) = (r, (s', w1')) ∧ m2 (s, w2) = (r, (s', w2')) ∧ world_eq w1' w2'.

Lemma agree_bind {A B} (m1 m2 : SM A) (f1 f2 : A → SM B) :
  agree m1 m2 → (∀ a, agree (f1 a) (f2 a)) → agree (m1 ≫= f1) (m2 ≫= f2).
Proof.
  intros Hm Hf s w1 w2 Hw. destruct (Hm s w1 w2 Hw) as (r & s' & w1' & w2' & E1 & E2 & Hw').
  unfold mbind, M_bind. rewrite E1, E2. destruct r as [a|e]; [by apply Hf|].
  by exists (Err e), s', w1', w2'.
Qed.

Lemma agree_ret {A} (r : McpResult A) : agree (m_lift r) (m_lift r).
Proof. intros s w1 w2 Hw. by exists r, s, w1, w2. Qed.
Lemma agree_mret {A} (a : A) : agree (mret a) (mret a).
Proof. apply (agree_ret (Ok a)). Qed.
Lemma agree_fail {A} e : agree (A := A) (m_fail e) (m_fail e).
Proof. apply (agree_ret (Err e)). Qed.

Lemma agree_take_id : agree take_id take_id.
Proof. intros s w1 w2 Hw. unfold take_id. eauto 10. Qed.

Lemma agree_modify f :
  (∀ s w1 w2, world_eq w1 w2 → f s w1 = f s w2) → agree (modify f) (modify f).
Proof. intros Hf s w1 w2 Hw. unfold modify. rewrite (Hf s w1 w2 Hw). eauto 10. Qed.

Lemma strip_build s body tr b1 b2 sid v :
  strip (build s body (with_bearer tr b1) sid v) = strip (build s body (with_bearer tr b2) sid v).
Proof.
  unfold strip, build. cbn [rq_url rq_timeout rq_headers rq_body with_bearer bearer].
  rewrite !filter_app. do 4 f_equal. by destruct b1, b2.
Qed.

Lemma agree_dispatch mk1 mk2 :
  (∀ s, strip (mk1 s) = strip (mk2 s)) → agree (dispatch_m mk1) (dispatch_m mk2).
Proof.
  intros Hmk s w1 w2 Hw. unfold dispatch_m, dispatch, send.
  rewrite (blind_interrupt blind w1 w2 Hw), (blind_answer blind w1 w2 (mk1 s) (mk2 s)),
    (blind_took blind w1 w2 (mk1 s) (mk2 s)) by auto.
  destruct (interrupt w2) as [[]|e]; [|eauto 10].
  do 4 eexists. split; [done|]. split; [done|]. destruct Hw as [Hs Hn].
  split; simpl; [|congruence]. by rewrite !fmap_app, Hs; simpl; rewrite Hmk.
Qed.

Lemma agree_read_stream st el id tr b1 b2 :
  agree (read_stream st el id (with_bearer tr b1)) (read_stream st el id (with_bearer tr b2)).
Proof.
  intros s w1 w2 Hw. unfold read_stream. rewrite (blind_stream blind w1 w2 Hw). simpl.
  destruct (Sse.read_until_id_observed _ _ _ _ _). eauto 10.
Qed.

Hint Resolve agree_ret agree_mret agree_fail agree_take_id agree_read_stream : agree.
Ltac agree :=
  repeat first
    [ solve [eauto with agree]
    | apply agree_bind; [|intros ?]
    | apply agree_dispatch; intros ?; apply strip_build
    | apply agree_modify; intros ? ? ? [??]; unfold adopt, forget_session_id; congruence
    | progress case_match ].

Lemma agree_initialize tr b1 b2 :
  agree (initialize (with_bearer tr b1)) (initialize (with_bearer tr b2)).
Proof. unfold initialize, exchange, notify. agree. Qed.

Lemma agree_try_request m p tr b1 b2 :
  agree (try_request m p (with_bearer tr b1)) (try_request m p (with_bearer tr b2)).
Proof. unfold try_request, exchange_checked. agree. Qed.

Hint Resolve agree_initialize agree_try_request : agree.

Lemma agree_request m p tr b1 b2 :
  agree (request m p (with_bearer tr b1)) (request m p (with_bearer tr b2)).
Proof. unfold request. agree. Qed.

Hint Resolve agree_request : agree.

Lemma agree_list_go n m k tr b1 b2 items followed p :
  agree (list_go n m k (with_bearer tr b1) items followed p)
        (list_go n m k (with_bearer tr b2) items followed p).
Proof.
  revert items followed p. induction n as [|n IH]; intros items followed p; cbn [list_go]; agree.
Qed.

Lemma agree_open u tr b1 b2 w1 w2 :
  world_eq w1 w2 →
  (open u (with_bearer tr b1) w1).1 = (open u (with_bearer tr b2) w2).1 ∧
  world_eq (open u (with_bearer tr b1) w1).2 (open u (with_bearer tr b2) w2).2.
Proof.
  intros Hw. unfold open. assert (fresh u (with_bearer tr b1) w1 = fresh u (with_bearer tr b2) w2)
    as -> by (destruct Hw; unfold fresh; simpl; congruence).
  destruct (agree_initialize tr b1 b2 (fresh u (with_bearer tr b2) w2) w1 w2 Hw)
    as (r & s' & w1' & w2' & -> & -> & Hw'). by destruct r as [[]|e].
Qed.
End secrecy.

(** ** When the session counts as gone *)

Definition expired_answer `{Serde} (out : HttpOutcome) (id : Z) : Prop :=
  ∃ status headers body elapsed text v e,
    out = Response status headers body elapsed ∧ status ≠ 202 ∧
    contains "text/event-stream"
      (to_ascii_lowercase (default EmptyString (header "content-type" headers))) = false ∧
    read_body body = Ok text ∧ json_from_str text = Some v ∧
    finish v id = Err e ∧ is_expired_session (message e) = true.

(** Every branch but the two stated ones is refuted by what the answer was. *)
Ltac no_answer :=
  split; [done|];
  intros [_ [?|(? & ? & ? & ? & ? & ? & ? & ? & ? & ? & ? & ? & ? & ?)]]; simplify_eq/=; congruence.

Lemma exchange_checked_None `{Serde, Net} body id tr s w :
  (exchange_checked body id tr (s, w)).1 = Ok None ↔
  interrupt w = Ok tt ∧
  let out := answer w (build s body tr (session_id s) true) in
  out = ErrorStatus 404 ∨ expired_answer out id.
Proof.
  unfold exchange_checked, dispatch_m, dispatch, send, mbind, M_bind, expired_answer.
  destruct (interrupt w) as [[]|e]; [|by split; [|intros [? _]]]. simpl.
  destruct (answer _ _) as [status hs st el|status|kind]; simpl.
  - destruct (Z.eqb_spec status 202) as [->|Hs]; [no_answer|].
    destruct (contains _ _) eqn:Hc.
    { simpl. destruct (Sse.read_until_id_observed _ _ _ _ _) as [[v|e] frames]; [|no_answer].
      unfold m_lift. destruct (finish v id); no_answer. }
    destruct (read_body st) as [text|k] eqn:Hb; [|no_answer].
    destruct (json_from_str text) as [v|] eqn:Hj; [|no_answer].
    destruct (finish v id) as [r|e] eqn:Hf; [no_answer|].
    destruct (is_expired_session _) eqn:He; [|no_answer].
    split; [intros _|done]. split; [done|]. right. exists status, hs, st, el, text, v, e. done.
  - unfold classify_status. destruct (Z.eqb_spec status 404) as [->|Hs]; [|no_answer].
    split; [intros _; split; [done|by left]|done].
  - no_answer.
Qed.

Lemma try_request_None `{Serde, Net} method params tr s w :
  (try_request method params tr (s, w)).1 = Ok None ↔
  interrupt w = Ok tt ∧
  let out := answer w (build s (request_body (next_id s) method params) tr (session_id s) true) in
  out = ErrorStatus 404 ∨ expired_answer out (next_id s).
Proof.
  etrans; [|apply (exchange_checked_None (request_body (next_id s) method params)
                     (next_id s) tr (bump s) w)].
  unfold try_request, mbind, M_bind, mret, M_ret. simpl. fold (bump s).
  destruct (exchange_checked _ _ _ _) as [[[[v sid]|]|e] [s1 w1]]; naive_solver.
Qed.

(** Against a server that never forgets a session, a successful request is one
    message. *)
Definition never_forgets `{Serde, Net} : Prop :=
  ∀ w rq id, answer w rq ≠ ErrorStatus 404 ∧ ¬ expired_answer (answer w rq) id.

Lemma request_single `{Serde, Net} method params tr s w v s' w' :
  never_forgets → request method params tr (s, w) = (Ok v, (s', w')) →
  w_sent w' = w_sent w ++ [build s (request_body (next_id s) method params) tr (session_id s) true] ∧
  url s' = url s.
Proof.
  intros Hnf Hr. destruct (request_trace _ _ _ _ _ _ _ _ Hr) as (reqs & _ & _ & Hu & _).
  split; [|done]. clear reqs Hu. unfold request in Hr.
  apply m_bind_inv_ok in Hr as (o & [s1 w1] & Ht & Hk).
  destruct o as [v'|].
  - unfold mret, M_ret in Hk. simplify_eq. apply try_request_trace in Ht as [_ [[_ [e ?]]|Ht]]; done.
  - exfalso. assert ((try_request method params tr (s, w)).1 = Ok None) as Hg by by rewrite Ht.
    apply try_request_None in Hg as [_ Hg]. destruct (Hnf w (build s (request_body (next_id s)
      method params) tr (session_id s) true) (next_id s)). simpl in Hg. naive_solver.
Qed.

Lemma open_trace `{Serde, Net} u tr w s' w' :
  open u tr w = (Ok s', w') →
  w_sent w' = w_sent w ++ [init_request (fresh u tr w) 1 tr; note_request s' tr] ∧ url s' = u ∧
  initialize_count s' = 1.
Proof.
  unfold open. destruct (initialize tr _) as [[[]|e] [s1 w1]] eqn:Hi; [|done]. intros; simplify_eq.
  apply initialize_trace in Hi as (Hu & _ & _ & reqs & Hs & [(_ & [e ?] & _)|(Hc & Hp & Hl)]); [done|].
  split_and!; [|done|done]. rewrite Hs. f_equal. apply prefix_length_eq in Hp; [done|].
  simpl. rewrite (Hl eq_refl). lia.
Qed.

(** ** Properties *)

(** C2. One re-initialization per request (FR-6.6): whatever the server answers,
    what [request] sends is a prefix of the four-message script "request,
    initialize without a session id, initialized notification, same request" with
    consecutive ids and the session id of the moment on every message after the
    handshake; it succeeds either after exactly one message with the session
    untouched, or after exactly four with one more handshake counted. *)
Theorem request_script_followed `{Serde, Net} method params tr s w r s' w' :
  request method params tr (s, w) = (r, (s', w')) →
  ∃ reqs, w_sent w' = w_sent w ++ reqs ∧ request_facts method params tr s s' r reqs.
Proof. apply request_trace. Qed.

(** A first attempt is retried exactly when the HTTP status is 404 or a JSON
    body carries a JSON-RPC error whose mapped message says the session expired;
    an event-stream answer never counts, whatever error it carries. *)
Theorem session_gone_iff `{Serde, Net} method params tr s w :
  (try_request method params tr (s, w)).1 = Ok None ↔
  interrupt w = Ok tt ∧
  let out := answer w (build s (request_body (next_id s) method params) tr (session_id s) true) in
  out = ErrorStatus 404 ∨ expired_answer out (next_id s).
Proof. apply try_request_None. Qed.

(** C3. Pagination is exact: [list_all] returns a list if and only if the server
    hands out a finite chain of pages, at most 1000 of them and with distinct
    cursors, each requested with the cursor of the previous one; and then the
    list is the concatenation of the pages, in order. *)
Theorem list_all_iff `{Serde, Net} method key params tr σ items σ' :
  list_all method key params tr σ = (Ok items, σ') ↔
  ∃ pages cursors, pages_of method key tr params σ pages cursors σ' ∧
    items = mjoin pages ∧ NoDup cursors ∧ (length pages ≤ MAX_LIST_PAGES)%nat.
Proof.
  unfold list_all. split.
  - intros Hl. apply list_go_sound in Hl; [|constructor].
    destruct Hl as (pages & cs & Hp & -> & Hn & Hb). eauto 10.
  - intros (pages & cs & Hp & -> & Hn & Hb). by apply (list_go_complete _ _ _ _ [] [] _ _ _ cs).
Qed.

(** C39. [list_all] always ends: against any server, cycling cursors included, it
    sends at most 4 x 1000 messages, and whatever it returns the session keeps its
    endpoint and never reuses a request id. *)
Theorem list_all_bounded `{Serde, Net} method key params tr s w :
  ∃ r s' w', list_all method key params tr (s, w) = (r, (s', w')) ∧
    (length (w_sent w') ≤ length (w_sent w) + 4 * MAX_LIST_PAGES)%nat ∧
    url s' = url s ∧ next_id s <= next_id s'.
Proof.
  destruct (list_all method key params tr (s, w)) as [r [s' w']] eqn:Hl.
  exists r, s', w'. split; [done|]. apply list_go_bound in Hl. naive_solver.
Qed.

(** C12. The bearer token goes nowhere but the authorization header (FR-6.11):
    against a server that ignores that header, opening a session, a request and a
    paginated listing give the same result or the same error message, leave the
    same session and send the same messages up to that header, whatever the
    token is. *)
Theorem token_noninterference `{Serde, Net} (b1 b2 : option Bearer) tr s w1 w2 :
  token_blind → world_eq w1 w2 →
  (∀ method params, ∃ r s' w1' w2',
     request method params (with_bearer tr b1) (s, w1) = (r, (s', w1')) ∧
     request method params (with_bearer tr b2) (s, w2) = (r, (s', w2')) ∧ world_eq w1' w2') ∧
  (∀ method key params, ∃ r s' w1' w2',
     list_all method key params (with_bearer tr b1) (s, w1) = (r, (s', w1')) ∧
     list_all method key params (with_bearer tr b2) (s, w2) = (r, (s', w2')) ∧
     world_eq w1' w2') ∧
  ∀ u, (open u (with_bearer tr b1) w1).1 = (open u (with_bearer tr b2) w2).1.
Proof.
  intros Hb Hw. split_and!.
  - intros method params. by apply (agree_request Hb).
  - intros method key params. by apply (agree_list_go Hb).
  - intros u. by apply (agree_open Hb).
Qed.

(** ** Witnesses: a server that forgets the session once *)

Module Wit.
Definition codec : Serde := {|
  json_from_str s := if bool_decide (s = "{r}") then Some (Object [("result", Object [])]) else None;
  json_to_string _ := "{r}" |}.

Definition json_reply : HttpOutcome :=
  Response 200 [("Content-Type", "application/json"); ("Mcp-Session-Id", "s2")]
    (Sse.mkStream "{r}" None) (fun _ => 0).
Definition forgetful : Net := {|
  answer w _ := match length (w_sent w) with
                | O => ErrorStatus 404
                | 2%nat => Response 202 [] (Sse.mkStream EmptyString None) (fun _ => 0)
                | _ => json_reply
                end;
  took _ _ := 5%nat;
  interrupt _ := Ok tt;
  stream_interrupt _ _ := Ok tt |}.

Definition session : McpSession :=
  mkSession "http://localhost/mcp" (Some "s1") "2025-11-25" Null Null 7 0 1 false 15000.
Definition transport : TransportCtx := mkTransport 15000 (Some (mkBearer "secret")) true.
Definition world : World := mkWorld [] 0.

Lemma forgetful_blind : @token_blind forgetful.
Proof.
  split; simpl; [|done..]. intros w1 w2 rq1 rq2 [Hs _] _.
  by rewrite <- (length_fmap strip (w_sent w1)), Hs, length_fmap.
Qed.
End Wit.
#[local] Existing Instance Wit.codec.
#[local] Existing Instance Wit.forgetful.

Lemma request_script_followed_witness :
  let run := request "tools/list" (Object []) Wit.transport (Wit.session, Wit.world) in
  run.1 = Ok (Object []) ∧ length (w_sent run.2.2) = 4%nat ∧ session_id run.2.1 = Some "s2" ∧
  ∃ reqs, w_sent run.2.2 = reqs ∧
    request_facts "tools/list" (Object []) Wit.transport Wit.session run.2.1 run.1 reqs.
Proof.
  split_and!; [vm_compute; reflexivity..|].
  apply (request_script_followed "tools/list" (Object []) Wit.transport Wit.session Wit.world).
  vm_compute. reflexivity.
Defined.

Lemma token_noninterference_witness :
  (open "http://localhost/mcp" (with_bearer Wit.transport (Some (mkBearer "a"))) Wit.world).1 =
  (open "http://localhost/mcp" (with_bearer Wit.transport None) Wit.world).1.
Proof.
  apply (token_noninterference (Some (mkBearer "a")) None Wit.transport Wit.session Wit.world
           Wit.world); [exact Wit.forgetful_blind|by split].
Defined.

(** The same JSON-RPC error, sent as an event stream, is not retried. *)
Example expired_over_sse_not_retried :
  let expired := Object [("id", num_of_Z 7);
    ("error", Object [("code", num_of_Z 1); ("message", Str "session expired")])] in
  let codec : Serde := {| json_from_str _ := Some expired; json_to_string _ := "{e}" |} in
  let net ct : Net := {|
    answer _ _ := Response 200 [("content-type", ct)]
                    (Sse.mkStream ("data: {e}" +:+ nl +:+ nl) None) (fun _ => 0);
    took _ _ := 5%nat; interrupt _ := Ok tt; stream_interrupt _ _ := Ok tt |} in
  (@try_request codec (net "application/json") "ping" Null Wit.transport (Wit.session, Wit.world)).1
    = Ok None ∧
  (@try_request codec (net "text/event-stream") "ping" Null Wit.transport (Wit.session, Wit.world)).1
    = Err (Rpc 1 "session expired").
Proof. split; vm_compute; reflexivity. Qed.

End Client.
