(* ===== verification/Session.v ===== *)
(** * session.rs: the backend-local session cache

    Credential resolution from the catalog and [with_session] over the map of
    sessions, one per (foreign server OID, user OID).  The catalog lookups and
    the SPI query are PostgreSQL's: class [PgCatalog]. *)

From Stdlib Require Import Ascii String ZArith Lia.
From stdpp Require Import base numbers gmap sets strings pretty list.
From S2P Require Import Prelude Str Json Errors Sse Options Client.
Import Options Client.
#[local] Open Scope Z_scope.

Class PgCatalog := {
  (** [GetForeignServerByName(name, missing_ok)]: OID and options. *)
  foreign_server : string → option (Z * list (string * string));
  (** [pg_user_mapping]: the options of the mapping of (server, user), user 0
      being PUBLIC. *)
  user_mapping : Z → Z → option (list (string * string));
  get_user_id : Z;
  (** [Spi::get_one] of a text query, or the message of its failure. *)
  spi_get_one : string → result string (option string);
}.

Module Session.

Definition SessionKey : Type := Z * Z.

Record Resolved : Type := mkResolved {
  server_oid : Z;
  user_oid : Z;
  options : ServerOptions;
  rbearer : option Bearer;
}.

Definition InvalidOid : Z := 0.

Definition quote_double (s : string) : string := replace (ascii_of_nat 34) (dq +:+ dq) s.

Section resolve.
Context `{UrlLib, PgCatalog}.

Definition lookup_foreign_server (name : string) : McpResult (Z * list (string * string)) :=
  if bool_decide (0 ∈ bytes name) then
    Err (UndefinedObject ("invalid foreign server name " +:+ quoted name))
  else
    ok_or (UndefinedObject ("foreign server " +:+ quoted name +:+ " does not exist"))
      (foreign_server name).

Definition user_mapping_exists (server user : Z) : bool :=
  existsb (fun candidate => match user_mapping server candidate with Some _ => true | None => false end)
    [user; InvalidOid].

(** [GetUserMapping]: the user's own mapping before the PUBLIC one. *)
Definition get_user_mapping (server user : Z) : option (list (string * string)) :=
  match user_mapping server user with
  | Some m => Some m
  | None => user_mapping server InvalidOid
  end.

Definition lookup_user_mapping (server user : Z) : option (list (string * string)) :=
  if negb (user_mapping_exists server user) then None else get_user_mapping server user.

Definition token_secret_sql (schema table : string) : string :=
  "SELECT token FROM " +:+ quoted (quote_double schema) +:+ "." +:+ quoted (quote_double table)
  +:+ " WHERE role = current_user LIMIT 1".

Definition read_token_secret (schema table : string) : McpResult string :=
  fetched ← map_err (fun e => NoAuthMapping ("could not read the token_secret table "
               +:+ quoted schema +:+ "." +:+ quoted table +:+ ": " +:+ e))
              (spi_get_one (token_secret_sql schema table));
  match fetched with
  | Some token => if negb (is_empty (trim token)) then Ok token
                  else Err (NoAuthMapping ("no token for the current role in " +:+ quoted schema
                              +:+ "." +:+ quoted table))
  | None => Err (NoAuthMapping ("no token for the current role in " +:+ quoted schema
                   +:+ "." +:+ quoted table))
  end.

Definition resolve_bearer (server user : Z) (server_name : string) : McpResult Bearer :=
  mapping ← ok_or (NoAuthMapping ("no USER MAPPING for the current role on foreign server "
              +:+ quoted server_name
              +:+ "; create one with OPTIONS (token_secret 'schema.table') or set the server's auth option to 'none' for a loopback URL"))
              (lookup_user_mapping server user);
  parsed ← UserMappingOptions_parse mapping;
  match um_credential parsed with
  | Token token => Ok (mkBearer token)
  | TokenSecret schema table => token ← read_token_secret schema table; Ok (mkBearer token)
  end.

Definition resolve (server_name : string) : McpResult Resolved :=
  '(oid, opts) ← lookup_foreign_server server_name;
  o ← ServerOptions_parse opts;
  let user := get_user_id in
  b ← match so_auth o with
      | AuthNone => Ok None
      | AuthBearer => b ← resolve_bearer oid user server_name; Ok (Some b)
      end;
  Ok (mkResolved oid user o b).
End resolve.

(** ** The session map *)

(** The backend's state: the thread-local map, the outside world, and whatever
    other thread-local state [X] the caller keeps (the catalog cache, the call
    log), which the closure of [with_session] may also use. *)
Record Sessions (X : Type) : Type := mkSessions {
  sessions : gmap SessionKey McpSession;
  world : World;
  extra : X;
}.
Arguments mkSessions {X}.
Arguments sessions {X}.
Arguments world {X}.
Arguments extra {X}.

(** A session method, run in that wider state. *)
Definition lift_x {X E A} (m : M (McpSession * World) E A) : M (McpSession * World * X) E A :=
  fun '(sw, x) => let '(r, sw') := m sw in (r, (sw', x)).

Definition key_of (r : Resolved) : SessionKey := (server_oid r, user_oid r).

Section sessions.
Context `{Serde, Net} {X : Type}.
Implicit Types (st : Sessions X).

(** The session to run on: the cached one when it talks to the same url,
    otherwise a new one.  The map no longer holds it. *)
Definition acquire (r : Resolved) (st : Sessions X) : McpResult McpSession * World :=
  let tr := mkTransport (so_timeout_ms (options r)) (rbearer r) false in
  match sessions st !! key_of r with
  | Some existing =>
      if bool_decide (url existing = so_url (options r)) then (Ok existing, world st)
      else open (so_url (options r)) tr (world st)
  | None => open (so_url (options r)) tr (world st)
  end.

(** A panic of [f] unwinds through here while the session is out of the map, so it
    is dropped with the frame. *)
Definition with_session {T} (r : Resolved)
    (f : TransportCtx → M (McpSession * World * X) McpError T) : M (Sessions X) McpError T :=
  fun st =>
    let removed := delete (key_of r) (sessions st) in
    match acquire r st with
    | (Err e, w) => (Err e, mkSessions removed w (extra st))
    | (Ok session, w) =>
        let tr := mkTransport (so_timeout_ms (options r)) (rbearer r) true in
        let '(outcome, (session', w', x')) := f tr (session, w, extra st) in
        let keep := match outcome with Err (Transport _) | Err (Unwinding _ _) => false | _ => true end in
        (outcome, mkSessions (if keep then <[key_of r := session']> removed else removed) w' x')
    end.

Definition drop_session (server user : Z) (st : Sessions X) : bool * Sessions X :=
  (bool_decide (is_Some (sessions st !! (server, user))),
   mkSessions (delete (server, user) (sessions st)) (world st) (extra st)).

Definition cached_initialize_count (server user : Z) (st : Sessions X) : option Z :=
  initialize_count <$> sessions st !! (server, user).

Definition with_cached_session {T} (server user : Z) (f : McpSession → T) (st : Sessions X) : option T :=
  f <$> sessions st !! (server, user).

Definition session_count (st : Sessions X) : nat := size (sessions st).

Definition clear_all_sessions (st : Sessions X) : Sessions X := mkSessions ∅ (world st) (extra st).
End sessions.

(** [PgInterrupts::check], given the cancellation PostgreSQL has pending: the macro
    returns or unwinds, so there is no error for the method to return.  The hooks of
    [Net] are this one wherever a backend runs. *)
Definition PgInterrupts_check (pending : option string) : McpResult unit :=
  match pending with Some m => Err (Unwinding QueryCanceled m) | None => Ok tt end.

Definition pg_interrupts `{Net} : Prop :=
  (∀ w, ∃ pending, interrupt w = PgInterrupts_check pending) ∧
  (∀ w n, ∃ pending, stream_interrupt w n = PgInterrupts_check pending).

(** ** The exit hook

    The flag [EXIT_HOOK_REGISTERED] of the process and the callbacks it has handed
    to PostgreSQL's [on_proc_exit]. *)

Record Process (X : Type) : Type := mkProcess {
  exit_hook_registered : bool;
  on_proc_exit : list (Sessions X → Sessions X);
  backend : Sessions X;
}.
Arguments mkProcess {X}.
Arguments exit_hook_registered {X}.
Arguments on_proc_exit {X}.
Arguments backend {X}.

Definition pg_mcp_sessions_cleanup {X} (st : Sessions X) : Sessions X := clear_all_sessions st.

Definition register_exit_hook {X} (p : Process X) : Process X :=
  if exit_hook_registered p then p
  else mkProcess true (on_proc_exit p ++ [pg_mcp_sessions_cleanup]) (backend p).

(** Backend load. *)
Definition _PG_init {X} (p : Process X) : Process X := register_exit_hook p.

(** ** Validator and parameter helpers *)

Inductive ValidatorCatalog : Type := ForeignServer | UserMapping | ForeignDataWrapper | OtherCatalog.

(** The catalog relation OIDs of PostgreSQL's headers. *)
Definition ForeignServerRelationId : Z := 1417.
Definition UserMappingRelationId : Z := 1418.
Definition ForeignDataWrapperRelationId : Z := 2328.

Definition validator_catalog (catalog : Z) : ValidatorCatalog :=
  if catalog =? ForeignServerRelationId then ForeignServer
  else if catalog =? UserMappingRelationId then UserMapping
  else if catalog =? ForeignDataWrapperRelationId then ForeignDataWrapper
  else OtherCatalog.

Definition split_validator_options (raw : list (option string)) : list (string * string) :=
  omap (fun entry => entry ≫= split_once "=") raw.

Definition params_object (v : option Value) : Value :=
  match v with
  | Some (Object m) => Object m
  | Some Null | None => Object []
  | Some other => other
  end.

(** ** Lemmas *)

Lemma UserMapping_token_nonblank opts t :
  UserMappingOptions_parse opts = Ok (mkUserMapping (Token t)) → is_empty (trim t) = false.
Proof.
  unfold UserMappingOptions_parse. destruct (first_unknown _ _); [done|].
  destruct (opt_get "token" opts) as [token|], (opt_get "token_secret" opts) as [secret|]; try done.
  - destruct (is_empty (trim token)) eqn:He; intros; by simplify_eq.
  - intros ([a b] & _ & [=])%result_bind_Ok.
Qed.

Section resolve_facts.
Context `{UrlLib, PgCatalog}.

Lemma read_token_secret_nonblank schema table t :
  read_token_secret schema table = Ok t → is_empty (trim t) = false.
Proof.
  intros (o & _ & Ho)%result_bind_Ok. destruct o as [t'|]; [|done].
  destruct (is_empty (trim t')) eqn:He; simpl in Ho; by simplify_eq.
Qed.

Lemma resolve_bearer_nonblank server user name b :
  resolve_bearer server user name = Ok b → is_empty (trim (b_token b)) = false.
Proof.
  intros (mapping & _ & (parsed & Hp & Hb)%result_bind_Ok)%result_bind_Ok.
  destruct parsed as [[t|schema table]]; simpl in Hb.
  - simplify_eq. by eapply UserMapping_token_nonblank.
  - apply result_bind_Ok in Hb as (t & Ht & [= <-]). by eapply read_token_secret_nonblank.
Qed.

(** The existence probe answers for the lookup that follows it. *)
Lemma lookup_user_mapping_get server user :
  lookup_user_mapping server user = get_user_mapping server user.
Proof.
  unfold lookup_user_mapping, user_mapping_exists, get_user_mapping. simpl.
  destruct (user_mapping server user), (user_mapping server InvalidOid); done.
Qed.

Lemma resolve_bearer_missing server user name :
  user_mapping server user = None → user_mapping server InvalidOid = None →
  ∃ m, resolve_bearer server user name = Err (NoAuthMapping m).
Proof.
  intros H1 H2. unfold resolve_bearer. rewrite lookup_user_mapping_get. unfold get_user_mapping.
  rewrite H1, H2. simpl. eauto.
Qed.
End resolve_facts.

Section session_facts.
Context `{Serde, Net} {X : Type}.
Implicit Types (st : Sessions X).

Definition is_init (rq : HttpRequest) : bool :=
  bool_decide (get (rq_body rq) "method" ≫= as_str = Some "initialize").
Definition inits (l : list HttpRequest) : nat := length (filter (fun rq => is_init rq = true) l).

Lemma inits_app l k : inits (l ++ k) = (inits l + inits k)%nat.
Proof. unfold inits. by rewrite filter_app, length_app. Qed.

(** Is there a cached session that [with_session r] would reuse? *)
Definition usable (r : Resolved) (st : Sessions X) : bool :=
  match sessions st !! key_of r with
  | Some s => bool_decide (url s = so_url (options r))
  | None => false
  end.

Lemma acquire_usable r st :
  usable r st = true →
  ∃ s, sessions st !! key_of r = Some s ∧ url s = so_url (options r) ∧
    acquire r st = (Ok s, world st).
Proof.
  unfold usable, acquire. destruct (sessions st !! _) as [s|]; [|done].
  case_bool_decide; [|done]. eauto.
Qed.

Lemma acquire_fresh r st :
  usable r st = false →
  acquire r st = open (so_url (options r))
    (mkTransport (so_timeout_ms (options r)) (rbearer r) false) (world st).
Proof.
  unfold usable, acquire. destruct (sessions st !! _) as [s|]; [|done]. by case_bool_decide.
Qed.

Lemma acquire_url r st s w : acquire r st = (Ok s, w) → url s = so_url (options r).
Proof.
  intros Ha. destruct (usable r st) eqn:Hu.
  - apply acquire_usable in Hu as (s' & _ & Hu & Ha'). congruence.
  - rewrite acquire_fresh in Ha by done. by apply open_trace in Ha as (_ & ? & _).
Qed.

Lemma acquire_inits r st s w :
  acquire r st = (Ok s, w) →
  inits (w_sent w) = (inits (w_sent (world st)) + if usable r st then 0 else 1)%nat.
Proof.
  intros Ha. destruct (usable r st) eqn:Hu.
  - apply acquire_usable in Hu as (s' & _ & Hu & Ha'). rewrite Ha' in Ha. simplify_eq. lia.
  - rewrite acquire_fresh in Ha by done. apply open_trace in Ha as (Hs & _ & _).
    rewrite Hs, inits_app. f_equal.
Qed.

(** A sequence of calls of one role on one server. *)
Fixpoint run_calls (r : Resolved) (calls : list (string * Value)) (st : Sessions X) :
    list (McpResult Value) * Sessions X :=
  match calls with
  | [] => ([], st)
  | (method, params) :: rest =>
      let '(out, st1) := with_session r (fun tr => lift_x (request method params tr)) st in
      let '(outs, st2) := run_calls r rest st1 in
      (out :: outs, st2)
  end.

Lemma with_session_ok {T} r (f : TransportCtx → M (McpSession * World * X) McpError T)
    (st : Sessions X) v st' :
  with_session r f st = (Ok v, st') →
  ∃ s w s' w' x', acquire r st = (Ok s, w) ∧
    f (mkTransport (so_timeout_ms (options r)) (rbearer r) true) (s, w, extra st)
      = (Ok v, (s', w', x')) ∧
    st' = mkSessions (<[key_of r := s']> (delete (key_of r) (sessions st))) w' x'.
Proof.
  unfold with_session. destruct (acquire r st) as [[s|e] w] eqn:Ha; [|done].
  destruct (f _ (s, w, extra st)) as [out [[s' w'] x']] eqn:Hf. intros; simplify_eq. eauto 10.
Qed.

Lemma call_inits r method params st v st' :
  never_forgets → method ≠ "initialize" →
  with_session r (fun tr => lift_x (request method params tr)) st = (Ok v, st') →
  usable r st' = true ∧
  inits (w_sent (world st')) =
    (inits (w_sent (world st)) + if usable r st then 0 else 1)%nat.
Proof.
  intros Hnf Hm (s & w & s' & w' & x' & Ha & Hr & ->)%with_session_ok.
  unfold lift_x in Hr. destruct (request _ _ _ _) as [r0 [s0 w0]] eqn:Hr0. simplify_eq.
  rename Hr0 into Hr.
  pose proof (acquire_url _ _ _ _ Ha) as Hu. apply acquire_inits in Ha.
  apply request_single in Hr as [Hs Hu']; [|done]. split.
  - unfold usable. simpl. rewrite lookup_insert_eq. apply bool_decide_true. congruence.
  - simpl. rewrite Hs, inits_app, Ha.
    assert (inits [build s (request_body (next_id s) method params)
      (mkTransport (so_timeout_ms (options r)) (rbearer r) true) (session_id s) true] = 0%nat)
      as ->; [|lia].
    unfold inits. rewrite filter_cons_False; [done|]. unfold is_init.
    rewrite bool_decide_eq_true. intros Heq. injection Heq. auto.
Qed.

Lemma run_calls_inits r calls st outs st' :
  never_forgets → Forall (fun c => c.1 ≠ "initialize") calls →
  run_calls r calls st = (outs, st') → Forall (fun o => is_ok o = true) outs →
  inits (w_sent (world st')) =
    (inits (w_sent (world st)) + if usable r st || bool_decide (calls = []) then 0 else 1)%nat.
Proof.
  intros Hnf Hm. revert st outs. induction Hm as [|[method params] calls Hm _ IH]; intros st outs.
  { simpl. intros; simplify_eq. rewrite orb_true_r. lia. }
  cbn [run_calls]. destruct (with_session _ _ st) as [out st1] eqn:Hw.
  destruct (run_calls r calls st1) as [outs1 st2] eqn:Hr. intros [= <- <-] [Hok Hoks]%Forall_cons.
  destruct out as [v|e]; [|done]. apply call_inits in Hw as [Hu1 Hi1]; [|done..].
  rewrite (bool_decide_false (_ :: calls = [])) by done.
  rewrite (IH _ _ Hr Hoks), Hi1, Hu1, orb_false_r. simpl. lia.
Qed.
End session_facts.

(** However often the library is loaded, PostgreSQL holds one callback, which
    leaves no session behind and touches nothing else of the backend. *)
Lemma exit_hook_once {X} (p : Process X) n :
  exit_hook_registered p = false → on_proc_exit p = [] →
  let p' := Nat.iter (S n) _PG_init p in
  on_proc_exit p' = [pg_mcp_sessions_cleanup] ∧ backend p' = backend p ∧
  ∀ st : Sessions X, session_count (pg_mcp_sessions_cleanup st) = 0%nat ∧
    world (pg_mcp_sessions_cleanup st) = world st ∧ extra (pg_mcp_sessions_cleanup st) = extra st.
Proof.
  intros Hf Hc.
  set (q := mkProcess true [pg_mcp_sessions_cleanup] (backend p)).
  assert (∀ m : nat, Nat.iter (S m) _PG_init p = q) as ->.
  { induction m as [|m IH].
    - simpl. unfold _PG_init, register_exit_hook. by rewrite Hf, Hc.
    - change (_PG_init (Nat.iter (S m) _PG_init p) = q). by rewrite IH. }
  split_and!; [done..|]. intros st. split_and!; [|done..]. apply map_size_empty.
Qed.

(** ** Properties *)

(** C31. Credentials are resolved before anything is sent, and only safely: a
    resolution without a bearer token is only ever for a loopback url (with
    [auth none]); a bearer token is never blank; the session is keyed by the
    calling role; and under [auth bearer] a role with neither its own nor a PUBLIC
    mapping gets 28000. *)
Theorem resolve_credentials `{UrlLib, PgCatalog} (name : string) :
  (∀ r, resolve name = Ok r →
     user_oid r = get_user_id ∧
     match rbearer r with
     | None => so_auth (options r) = AuthNone ∧
               ∃ u, so_url (options r) = url_to_string u ∧ is_loopback u = true
     | Some b => is_empty (trim (b_token b)) = false
     end) ∧
  (∀ oid opts o, lookup_foreign_server name = Ok (oid, opts) → ServerOptions_parse opts = Ok o →
     so_auth o = AuthBearer → user_mapping oid get_user_id = None →
     user_mapping oid InvalidOid = None →
     ∃ m, resolve name = Err (NoAuthMapping m)).
Proof.
  split.
  - intros r ([oid opts] & _ & (o & Ho & (b & Hb & [= <-])%result_bind_Ok)%result_bind_Ok)%result_bind_Ok.
    simpl. split; [done|]. destruct (so_auth o) eqn:Ha.
    + apply result_bind_Ok in Hb as (b' & Hb & [= <-]). by eapply resolve_bearer_nonblank.
    + simplify_eq. split; [done|]. apply ServerOptions_parse_Ok in Ho as (_ & _ & _ & _ & Ho).
      destruct Ho as (raw & u & _ & _ & Hu & _ & _ & Hl & _). eauto.
  - intros oid opts o Hl Ho Ha H1 H2. unfold resolve. rewrite Hl. simpl. rewrite Ho. simpl.
    rewrite Ha. destruct (resolve_bearer_missing oid get_user_id name H1 H2) as [m ->].
    simpl. eauto.
Qed.

(** C4. Sessions are isolated: a call touches no other (server, role) entry of
    the map; the closure always runs on a session opened for the server's current
    url; when a usable session is cached nothing is sent but what the closure
    sends.  Afterwards the map holds the session exactly when there was one to run
    on and the closure neither failed in transport nor was cancelled: a session
    that cannot be opened, whatever the error, leaves none, and takes with it the
    one cached for another url. *)
Theorem with_session_isolated `{Serde, Net} {X T} (r : Resolved)
    (f : TransportCtx → M (McpSession * World * X) McpError T) (st : Sessions X) :
  let '(out, st') := with_session r f st in
  (∀ k, k ≠ key_of r → sessions st' !! k = sessions st !! k) ∧
  match acquire r st with
  | (Err e, w) => out = Err e ∧ world st' = w ∧ sessions st' !! key_of r = None
  | (Ok s, w) =>
      url s = so_url (options r) ∧ (usable r st = true → sessions st !! key_of r = Some s ∧ w = world st) ∧
      let run := f (mkTransport (so_timeout_ms (options r)) (rbearer r) true) (s, w, extra st) in
      out = run.1 ∧ world st' = run.2.1.2 ∧ extra st' = run.2.2 ∧
      sessions st' !! key_of r =
        match out with Err (Transport _) | Err (Unwinding _ _) => None | _ => Some run.2.1.1 end
  end.
Proof.
  unfold with_session. destruct (acquire r st) as [[s|e] w] eqn:Ha.
  - destruct (f _ (s, w, extra st)) as [out [[s' w'] x']] eqn:Hf. cbn -[lookup insert delete].
    split_and!; [| | |done|done|done|].
    + intros k Hk. case_match; [by rewrite lookup_insert_ne, lookup_delete_ne by done|].
      by rewrite lookup_delete_ne.
    + by eapply acquire_url.
    + intros (s0 & Hs & _ & Ha')%acquire_usable. rewrite Ha' in Ha. by simplify_eq.
    + destruct out as [v|[]]; by rewrite ?lookup_insert_eq, ?lookup_delete_eq.
  - simpl. split_and!; [|done|done|].
    + intros k Hk. by rewrite lookup_delete_ne.
    + by rewrite lookup_delete_eq.
Qed.

(** C10. One handshake serves N calls (FR-6.4): against a server that never
    forgets a session, any sequence of successful calls by one role sends exactly
    one [initialize] message, or none at all when a session for the current url was
    already cached. *)
Theorem one_initialize_for_n_calls `{Serde, Net} {X} r calls (st : Sessions X) outs st' :
  never_forgets → Forall (fun c => c.1 ≠ "initialize") calls → calls ≠ [] →
  run_calls r calls st = (outs, st') → Forall (fun o => is_ok o = true) outs →
  inits (w_sent (world st')) = (inits (w_sent (world st)) + if usable r st then 0 else 1)%nat.
Proof.
  intros Hnf Hm Hne Hr Hok. rewrite (run_calls_inits _ _ _ _ _ Hnf Hm Hr Hok).
  rewrite bool_decide_false by done. by rewrite orb_false_r.
Qed.

(** ** Witnesses *)

Module Wit.
Definition catalog : PgCatalog := {|
  foreign_server n :=
    if bool_decide (n = "local") then Some (1, Options.Wit.opts)
    else if bool_decide (n = "remote") then Some (2, [("url", "https://mcp.example/mcp")])
    else None;
  user_mapping _ _ := None;
  get_user_id := 10;
  spi_get_one _ := Ok None |}.

(** A server that answers every request and acknowledges notifications. *)
Definition codec : Serde := {|
  json_from_str s := if bool_decide (s = "{r}") then Some (Object [("result", Object [])]) else None;
  json_to_string _ := "{r}" |}.
Definition steady : Net := {|
  answer _ _ := Response 200 [] (Sse.mkStream "{r}" None) (fun _ => 0);
  took _ _ := 5%nat; interrupt _ := Ok tt; stream_interrupt _ _ := Ok tt |}.

Lemma steady_never_forgets : @never_forgets codec steady.
Proof.
  intros w rq id. split; [done|].
  intros (? & ? & body & ? & text & v & e & [= <- <- <- <-] & _ & _ & Hb & Hj & Hf & _).
  vm_compute in Hb. injection Hb as <-. vm_compute in Hj. injection Hj as <-. by vm_compute in Hf.
Qed.

Definition options : ServerOptions :=
  mkServerOptions "http://127.0.0.1:1/mcp" ModeAuto 250 AuthNone 0 None 60000.
Definition resolved : Resolved := mkResolved 1 10 options None.
Definition empty : Sessions unit := mkSessions ∅ (mkWorld [] 0) tt.
Definition calls : list (string * Value) := [("tools/list", Object []); ("prompts/list", Object [])].
End Wit.

Lemma resolve_credentials_witness :
  (∃ r, @resolve Options.Wit.lib Wit.catalog "local" = Ok r ∧ so_auth (options r) = AuthNone) ∧
  ∃ m, @resolve Options.Wit.lib Wit.catalog "remote" = Err (NoAuthMapping m).
Proof.
  split.
  - destruct (@resolve Options.Wit.lib Wit.catalog "local") as [r|e] eqn:Hr;
      [|by vm_compute in Hr]. exists r. split; [done|].
    destruct (@resolve_credentials Options.Wit.lib Wit.catalog "local") as [Ha _].
    specialize (Ha r Hr) as [_ Ha]. vm_compute in Hr. injection Hr as <-. exact (proj1 Ha).
  - apply (@resolve_credentials Options.Wit.lib Wit.catalog "remote") with (oid := 2)
      (opts := [("url", "https://mcp.example/mcp")])
      (o := mkServerOptions "https://mcp.example/mcp" ModeAuto 15000 AuthBearer 0 None 60000);
      by vm_compute.
Defined.

#[local] Existing Instance Wit.codec.
#[local] Existing Instance Wit.steady.

Lemma one_initialize_for_n_calls_witness :
  let run := run_calls Wit.resolved Wit.calls Wit.empty in
  Forall (fun o => is_ok o = true) run.1 ∧ inits (w_sent (world run.2)) = 1%nat.
Proof.
  intros run. assert (Forall (fun o => is_ok o = true) run.1) as Hok.
  { vm_compute. repeat constructor. }
  split; [exact Hok|].
  apply (one_initialize_for_n_calls Wit.resolved Wit.calls Wit.empty run.1 run.2).
  - exact Wit.steady_never_forgets.
  - repeat constructor; done.
  - done.
  - exact (surjective_pairing run).
  - exact Hok.
Defined.

(** A statement cancelled before its request: the session that served the first
    call is gone. *)
Definition cancelling : Net := {|
  answer := answer; took := took; stream_interrupt := stream_interrupt;
  interrupt w := PgInterrupts_check
    (if Nat.eqb (length (w_sent w)) 3 then Some "canceling statement due to user request" else None) |}.

Example cancel_loses_session :
  let _ := cancelling in
  let '(outs, st) := run_calls Wit.resolved Wit.calls Wit.empty in
  is_ok <$> outs = [true; false] ∧
  (run_calls Wit.resolved (take 1 Wit.calls) Wit.empty).2.(sessions) !! key_of Wit.resolved ≠ None ∧
  sessions st !! key_of Wit.resolved = None ∧ length (w_sent (world st)) = 3%nat.
Proof. vm_compute. repeat split; discriminate. Qed.

End Session.
