(* ===== verification/CatalogOptions.v ===== *)
(** * session.rs: option lists of the catalog

    [defelem_list] and [defelem_string]: the walk over PostgreSQL's list of
    [DefElem] nodes that every option of a server, a user mapping or a foreign
    table comes through.  C strings are lists of bytes; a null pointer is [None].
    [String::from_utf8_lossy] is the standard library's. *)

From Stdlib Require Import Ascii String ZArith Lia.
From stdpp Require Import base numbers gmap sets strings pretty list.
From S2P Require Import Prelude Str.
#[local] Open Scope Z_scope.

Module CatalogOptions.

(** U+FFFD REPLACEMENT CHARACTER *)
Definition REPLACEMENT : list Z := [0xEF; 0xBF; 0xBD].

(** Each maximal prefix of an ill-formed sequence becomes one replacement character. *)
Fixpoint from_utf8_lossy (l : list Z) : list Z :=
  match l with
  | [] => []
  | b0 :: l0 =>
    if b0 <? 0x80 then b0 :: from_utf8_lossy l0
    else if in_range 0xC2 0xDF b0 then
      match l0 with
      | b1 :: l1 => if cont b1 then b0 :: b1 :: from_utf8_lossy l1 else REPLACEMENT ++ from_utf8_lossy l0
      | [] => REPLACEMENT
      end
    else if in_range 0xE0 0xEF b0 then
      match l0 with
      | b1 :: l1 =>
        if second3 b0 b1 then
          match l1 with
          | b2 :: l2 => if cont b2 then b0 :: b1 :: b2 :: from_utf8_lossy l2
                        else REPLACEMENT ++ from_utf8_lossy l1
          | [] => REPLACEMENT
          end
        else REPLACEMENT ++ from_utf8_lossy l0
      | [] => REPLACEMENT
      end
    else if in_range 0xF0 0xF4 b0 then
      match l0 with
      | b1 :: l1 =>
        if second4 b0 b1 then
          match l1 with
          | b2 :: l2 =>
            if cont b2 then
              match l2 with
              | b3 :: l3 => if cont b3 then b0 :: b1 :: b2 :: b3 :: from_utf8_lossy l3
                            else REPLACEMENT ++ from_utf8_lossy l2
              | [] => REPLACEMENT
              end
            else REPLACEMENT ++ from_utf8_lossy l1
          | [] => REPLACEMENT
          end
        else REPLACEMENT ++ from_utf8_lossy l0
      | [] => REPLACEMENT
      end
    else REPLACEMENT ++ from_utf8_lossy l0
  end.

Section options.
(** The value node of an option, and PostgreSQL's [defGetString] of it. *)
Context {Node : Type} (defGetString : Node → option (list Z)).

Record DefElem : Type := mkDefElem { defname : list Z; arg : option Node }.

Definition defelem_string (arg : option Node) : string :=
  match arg with
  | None => EmptyString
  | Some node => match defGetString node with
                 | None => EmptyString
                 | Some ptr => of_bytes (from_utf8_lossy ptr)
                 end
  end.

(** The loop over the cells: a null node and a name that is not UTF-8 are skipped. *)
Fixpoint walk (cells : list (option DefElem)) : list (string * string) :=
  match cells with
  | [] => []
  | None :: rest => walk rest
  | Some node :: rest =>
      if valid_utf8 (defname node)
      then (of_bytes (defname node), defelem_string (arg node)) :: walk rest
      else walk rest
  end.

Definition defelem_list (l : option (list (option DefElem))) : list (string * string) :=
  match l with None => [] | Some cells => walk cells end.
End options.

(** ** Properties of the walk *)

Lemma in_range_true lo hi z : in_range lo hi z = true ↔ lo ≤ z ≤ hi.
Proof. unfold in_range. rewrite andb_true_iff, !Z.leb_le. done. Qed.

Lemma in_range_out lo hi z : z < lo ∨ hi < z → in_range lo hi z = false.
Proof. intros Hz. apply not_true_iff_false. rewrite in_range_true. lia. Qed.

Lemma valid_replacement l : valid_utf8 (REPLACEMENT ++ l) = valid_utf8 l.
Proof. done. Qed.

(** The byte classes of a lead byte exclude one another. *)
Lemma lead_two b : in_range 0xC2 0xDF b = true → (b <? 0x80) = false.
Proof. rewrite in_range_true. intros ?. apply Z.ltb_ge. lia. Qed.
Lemma lead_three b : in_range 0xE0 0xEF b = true → (b <? 0x80) = false ∧ in_range 0xC2 0xDF b = false.
Proof. rewrite in_range_true. intros ?. split; [apply Z.ltb_ge; lia|apply in_range_out; lia]. Qed.
Lemma lead_four b :
  in_range 0xF0 0xF4 b = true →
  (b <? 0x80) = false ∧ in_range 0xC2 0xDF b = false ∧ in_range 0xE0 0xEF b = false.
Proof. rewrite in_range_true. intros ?. split_and!; [apply Z.ltb_ge|apply in_range_out..]; lia. Qed.

(** Whatever the bytes, the result is UTF-8. *)
Lemma lossy_valid_upto n l : (length l ≤ n)%nat → valid_utf8 (from_utf8_lossy l) = true.
Proof.
  revert l. induction n as [|n IH]; intros l Hl; [by destruct l; [|simpl in Hl; lia]|].
  destruct l as [|b0 l0]; [done|]. cbn [length] in Hl. cbn [from_utf8_lossy].
  destruct (b0 <? 0x80) eqn:E0.
  { cbn [valid_utf8]. rewrite E0. apply IH. lia. }
  destruct (in_range 0xC2 0xDF b0) eqn:E2.
  { destruct l0 as [|b1 l1]; [done|]. destruct (cont b1) eqn:C1; [|apply IH; simpl in *; lia].
    cbn [valid_utf8]. rewrite E0, E2, C1. apply IH. simpl in Hl. lia. }
  destruct (in_range 0xE0 0xEF b0) eqn:E3.
  { destruct l0 as [|b1 l1]; [done|]. destruct (second3 b0 b1) eqn:C1; [|apply IH; simpl in *; lia].
    destruct l1 as [|b2 l2]; [done|]. destruct (cont b2) eqn:C2; [|apply IH; simpl in *; lia].
    cbn [valid_utf8]. rewrite E0, E2, E3, C1, C2. apply IH. simpl in Hl. lia. }
  destruct (in_range 0xF0 0xF4 b0) eqn:E4; [|apply IH; lia].
  destruct l0 as [|b1 l1]; [done|]. destruct (second4 b0 b1) eqn:C1; [|apply IH; simpl in *; lia].
  destruct l1 as [|b2 l2]; [done|]. destruct (cont b2) eqn:C2; [|apply IH; simpl in *; lia].
  destruct l2 as [|b3 l3]; [done|]. destruct (cont b3) eqn:C3; [|apply IH; simpl in *; lia].
  cbn [valid_utf8]. rewrite E0, E2, E3, E4, C1, C2, C3. apply IH. simpl in Hl. lia.
Qed.

Lemma lossy_valid l : valid_utf8 (from_utf8_lossy l) = true.
Proof. by apply (lossy_valid_upto (length l)). Qed.

(** UTF-8 is left alone. *)
Lemma lossy_id_upto n l : (length l ≤ n)%nat → valid_utf8 l = true → from_utf8_lossy l = l.
Proof.
  revert l. induction n as [|n IH]; intros l Hl; [by destruct l; [|simpl in Hl; lia]|].
  destruct l as [|b0 l0]; [done|]. cbn [length] in Hl. cbn [valid_utf8 from_utf8_lossy].
  destruct (b0 <? 0x80) eqn:E0; [intros Hv; f_equal; apply IH; [lia|done]|].
  destruct l0 as [|b1 l1]; [done|]. cbn [length] in Hl.
  destruct (in_range 0xC2 0xDF b0) eqn:E2.
  { intros [-> Hv]%andb_true_iff. do 2 f_equal. apply IH; [lia|done]. }
  destruct l1 as [|b2 l2]; [done|]. cbn [length] in Hl.
  destruct (in_range 0xE0 0xEF b0) eqn:E3.
  { intros [[-> ->]%andb_true_iff Hv]%andb_true_iff. do 3 f_equal. apply IH; [lia|done]. }
  destruct l2 as [|b3 l3]; [done|]. cbn [length] in Hl.
  intros [[[[-> ->]%andb_true_iff ->]%andb_true_iff ->]%andb_true_iff Hv]%andb_true_iff.
  do 4 f_equal. apply IH; [lia|done].
Qed.

Lemma lossy_id l : valid_utf8 l = true → from_utf8_lossy l = l.
Proof. by apply (lossy_id_upto (length l)). Qed.

(** Every byte of the result is one of the input or of the replacement. *)
Lemma lossy_Forall_upto (P : Z → Prop) n l :
  Forall P REPLACEMENT → (length l ≤ n)%nat → Forall P l → Forall P (from_utf8_lossy l).
Proof.
  intros Hr. revert l. induction n as [|n IH]; intros l Hl; [by destruct l; [|simpl in Hl; lia]|].
  assert (∀ k, (length k ≤ n)%nat → Forall P k → Forall P (REPLACEMENT ++ from_utf8_lossy k)) as Hrep.
  { intros k Hk Hp. apply Forall_app. split; [exact Hr|by apply IH]. }
  destruct l as [|b0 l0]; [done|]. cbn [length] in Hl. intros [H0 Hp]%Forall_cons.
  cbn [from_utf8_lossy]. destruct (b0 <? 0x80); [constructor; [done|apply IH; [lia|done]]|].
  destruct l0 as [|b1 l1]; [by repeat case_match|]. pose proof Hp as [H1 Hp1]%Forall_cons. simpl in Hl.
  destruct (in_range 0xC2 0xDF b0).
  { destruct (cont b1); [|apply Hrep; [simpl; lia|done]]. do 2 (constructor; [done|]). apply IH; [lia|done]. }
  destruct l1 as [|b2 l2]; [by repeat case_match; try apply Hrep; try (simpl; lia)|].
  pose proof Hp1 as [H2 Hp2]%Forall_cons. simpl in Hl. destruct (in_range 0xE0 0xEF b0).
  { destruct (second3 b0 b1); [|apply Hrep; [simpl; lia|done]].
    destruct (cont b2); [|apply Hrep; [simpl; lia|done]]. do 3 (constructor; [done|]). apply IH; [lia|done]. }
  destruct (in_range 0xF0 0xF4 b0); [|apply Hrep; [simpl; lia|done]].
  destruct (second4 b0 b1); [|apply Hrep; [simpl; lia|done]].
  destruct (cont b2); [|apply Hrep; [simpl; lia|done]].
  destruct l2 as [|b3 l3]; [done|]. pose proof Hp2 as [H3 Hp3]%Forall_cons. simpl in Hl.
  destruct (cont b3); [|apply Hrep; [simpl; lia|done]]. do 4 (constructor; [done|]). apply IH; [lia|done].
Qed.

Lemma lossy_bytes l :
  Forall (fun b => 0 <= b < 256) l → bytes (of_bytes (from_utf8_lossy l)) = from_utf8_lossy l.
Proof.
  intros Hl. apply bytes_of_bytes. apply (lossy_Forall_upto _ (length l)); [|done|done].
  repeat apply Forall_cons_2; [lia..|apply Forall_nil_2].
Qed.

Definition c_bytes : list Z → Prop := Forall (fun b => 0 <= b < 256).

(** What the parsers of options are given, for C strings of bytes: names and values
    in UTF-8; the options of the list in its order, but for null nodes and names
    that are no UTF-8; and a value in UTF-8 as it stands. *)
Theorem defelem_list_sound {Node : Type} (defGetString : Node → option (list Z))
    (cells : list (option (DefElem (Node := Node)))) :
  (∀ node text, defGetString node = Some text → c_bytes text) →
  (∀ e, Some e ∈ cells → c_bytes (defname e)) →
  let kept := filter (fun e => valid_utf8 (defname e) = true) (omap id cells) in
  let options := defelem_list defGetString (Some cells) in
  options = (fun e => (of_bytes (defname e), defelem_string defGetString (arg e))) <$> kept ∧
  Forall (fun o => valid_utf8 (bytes o.1) = true ∧ valid_utf8 (bytes o.2) = true) options ∧
  ∀ e node text, e ∈ kept → arg e = Some node → defGetString node = Some text → valid_utf8 text = true →
    bytes (defelem_string defGetString (arg e)) = text.
Proof.
  intros Ht Hn kept options.
  assert (options = (fun e => (of_bytes (defname e), defelem_string defGetString (arg e))) <$> kept) as Heq.
  { subst options kept. cbn [defelem_list]. clear. induction cells as [|[e|] cells IH]; [done| |exact IH].
    cbn [walk omap list_omap id]. destruct (valid_utf8 (defname e)) eqn:Hv.
    - rewrite filter_cons_True by done. by rewrite IH.
    - rewrite filter_cons_False by by rewrite Hv. exact IH. }
  split; [exact Heq|]. split.
  - rewrite Heq. apply Forall_fmap, Forall_forall. intros e [Hv He]%list_elem_of_filter.
    apply list_elem_of_omap in He as (c & Hc & Hid). unfold id in Hid. subst c. cbn [compose fst snd]. split.
    + rewrite bytes_of_bytes; [done|by apply Hn].
    + unfold defelem_string. destruct (arg e) as [node|]; [|done].
      destruct (defGetString node) as [text|] eqn:Hd; [|done].
      rewrite lossy_bytes by by eapply Ht. apply lossy_valid.
  - intros e node text _ -> Hd Hv. cbn [defelem_string]. rewrite Hd, lossy_id by done.
    apply bytes_of_bytes. by eapply Ht.
Qed.

(** Examples of the standard library's documentation and of the edges. *)
Example lossy_examples :
  from_utf8_lossy (bytes "Hello " ++ [0xF0; 0x90; 0x80] ++ bytes "World") = bytes "Hello " ++ REPLACEMENT ++ bytes "World" ∧
  from_utf8_lossy [0xED; 0xA0; 0x80] = REPLACEMENT ++ REPLACEMENT ++ REPLACEMENT ∧
  from_utf8_lossy [0xE2; 0x82] = REPLACEMENT ∧ from_utf8_lossy [0xC3; 0xA9] = [0xC3; 0xA9] ∧
  from_utf8_lossy [0xC3] = REPLACEMENT ∧ from_utf8_lossy [0xF0; 0x9F; 0x98; 0x41] = REPLACEMENT ++ [0x41].
Proof. by vm_compute. Qed.

Example walk_example :
  let arg (s : string) := Some (Some (bytes s)) in
  defelem_list id (Some [Some (mkDefElem (bytes "url") (arg "http://h/mcp")); None;
                         Some (mkDefElem [0xFF] (arg "x")); Some (mkDefElem (bytes "auth") None)])
  = [("url", "http://h/mcp"); ("auth", EmptyString)].
Proof. by vm_compute. Qed.

End CatalogOptions.
