(* ===== verification/Cache.v ===== *)
(** * cache.rs: the catalog cache

    One map per (foreign server OID, user OID) from slices to fetched items.
    [get_or_fetch] is written over any surrounding state [R] with a clock, and
    the fetch may itself change the map (it can re-enter SQL).  The staleness
    contract is then proved over arbitrary histories of the cache's operations. *)

From Stdlib Require Import Ascii String ZArith Lia.
From stdpp Require Import base numbers gmap sets strings pretty list.
From S2P Require Import Prelude Str Json Errors.
#[local] Open Scope Z_scope.

Module Cache.

Inductive Slice : Type := Tools | Prompts | Resources | ResourceTemplates | Initialize.
#[export] Instance Slice_eq_dec : EqDecision Slice.
Proof. solve_decision. Defined.
#[export] Instance Slice_countable : Countable Slice.
Proof.
  refine (inj_countable'
    (fun s => match s with Tools => 0 | Prompts => 1 | Resources => 2 | ResourceTemplates => 3
                         | Initialize => 4 end)%nat
    (fun n => match n with 0 => Tools | 1 => Prompts | 2 => Resources | 3 => ResourceTemplates
                         | _ => Initialize end)%nat _).
  by intros [].
Defined.

Record Entry : Type := mkEntry { fetched_at : Z; items : list Value }.
Abbreviation ServerCache := (gmap Slice Entry).
Abbreviation Caches := (gmap (Z * Z) ServerCache).

(** [entry.fetched_at.elapsed()] *)
Definition elapsed (now : Z) (e : Entry) : Z := Z.max 0 (now - fetched_at e).

Definition lookup_entry (k : Z * Z) (slice : Slice) (c : Caches) : option Entry :=
  c !! k ≫= fun server : ServerCache => server !! slice.

Definition store (k : Z * Z) (slice : Slice) (e : Entry) (c : Caches) : Caches :=
  <[k := <[slice := e]> (default ∅ (c !! k))]> c.

Section cache.
Context {R : Type} (now : R → Z).

Definition get_or_fetch (k : Z * Z) (ttl_ms : Z) (slice : Slice)
    (fetch : M (Caches * R) McpError (list Value)) : M (Caches * R) McpError (list Value) :=
  fun st =>
    if ttl_ms =? 0 then fetch st
    else
      let hit := match lookup_entry k slice st.1 with
                 | Some e => if elapsed (now st.2) e <? ttl_ms then Some (items e) else None
                 | None => None
                 end in
      match hit with
      | Some l => (Ok l, st)
      | None =>
          match fetch st with
          | (Ok l, (c, r)) => (Ok l, (store k slice (mkEntry (now r) l) c, r))
          | (Err e, st') => (Err e, st')
          end
      end.
End cache.

Definition drop_tools (k : Z * Z) (c : Caches) : bool * Caches :=
  match c !! k with
  | Some server => (bool_decide (is_Some (server !! Tools)), <[k := delete Tools server]> c)
  | None => (false, c)
  end.

Definition drop (k : Z * Z) (c : Caches) : bool * Caches :=
  (match c !! k with Some server => negb (bool_decide (server = ∅)) | None => false end, delete k c).

(** ** Lemmas *)

Lemma lookup_store_eq k sl e c : lookup_entry k sl (store k sl e c) = Some e.
Proof. unfold lookup_entry, store. by rewrite lookup_insert_eq; simpl; rewrite lookup_insert_eq. Qed.

Lemma lookup_store_ne k sl k' sl' e c :
  (k, sl) ≠ (k', sl') → lookup_entry k' sl' (store k sl e c) = lookup_entry k' sl' c.
Proof.
  intros Hne. unfold lookup_entry, store. destruct (decide (k = k')) as [->|Hk].
  - rewrite lookup_insert_eq. simpl. rewrite lookup_insert_ne by congruence.
    by destruct (c !! k').
  - by rewrite lookup_insert_ne.
Qed.

Lemma lookup_drop_tools k k' sl' c :
  lookup_entry k' sl' (drop_tools k c).2 =
    if decide (k = k' ∧ sl' = Tools) then None else lookup_entry k' sl' c.
Proof.
  unfold lookup_entry, drop_tools. destruct (c !! k) as [server|] eqn:Hk; simpl.
  - destruct (decide (k = k')) as [->|Hne].
    + rewrite lookup_insert_eq, Hk. simpl. destruct (decide (sl' = Tools)) as [->|Hs].
      * rewrite lookup_delete_eq. by rewrite decide_True.
      * rewrite lookup_delete_ne by congruence. by rewrite decide_False by naive_solver.
    + rewrite lookup_insert_ne by done. by rewrite decide_False by naive_solver.
  - destruct (decide _) as [[-> ->]|]; [by rewrite Hk|done].
Qed.

Lemma lookup_drop k k' sl' c :
  lookup_entry k' sl' (drop k c).2 = if decide (k = k') then None else lookup_entry k' sl' c.
Proof.
  unfold lookup_entry, drop. simpl. destruct (decide (k = k')) as [->|Hne].
  - by rewrite lookup_delete_eq.
  - by rewrite lookup_delete_ne.
Qed.

(** ** Histories

    A run of the cache: time passes, slices are asked for (with what the server
    would answer and how long it takes), slices are dropped.  The log records what
    happened, newest first. *)

Inductive Event : Type :=
  | Fetched (k : Z * Z) (slice : Slice) (at_ : Z) (l : list Value)
  | DroppedTools (k : Z * Z)
  | Dropped (k : Z * Z).

Record Trace : Type := mkTrace { t_now : Z; t_log : list Event }.

(** A fetch that takes [d] milliseconds; a successful one is logged. *)
Definition logged_fetch (k : Z * Z) (slice : Slice) (answer : McpResult (list Value)) (d : nat) :
    M (Caches * Trace) McpError (list Value) :=
  fun '(c, t) =>
    let now' := t_now t + Z.of_nat d in
    match answer with
    | Ok l => (Ok l, (c, mkTrace now' (Fetched k slice now' l :: t_log t)))
    | Err e => (Err e, (c, mkTrace now' (t_log t)))
    end.

Inductive step : Caches * Trace → option (Z * Z * Slice * Z * McpResult (list Value)) →
    Caches * Trace → Prop :=
  | step_tick c t (d : nat) :
      step (c, t) None (c, mkTrace (t_now t + Z.of_nat d) (t_log t))
  | step_get st k ttl slice answer d out st' :
      0 <= ttl →
      get_or_fetch t_now k ttl slice (logged_fetch k slice answer d) st = (out, st') →
      step st (Some (k, slice, ttl, out)) st'
  | step_drop_tools c t k :
      step (c, t) None ((drop_tools k c).2, mkTrace (t_now t) (DroppedTools k :: t_log t))
  | step_drop c t k :
      step (c, t) None ((drop k c).2, mkTrace (t_now t) (Dropped k :: t_log t)).

Inductive reachable : Caches * Trace → Prop :=
  | reachable_start t : reachable (∅, mkTrace t [])
  | reachable_step st o st' : reachable st → step st o st' → reachable st'.

(** Does an event make what was fetched for [k] and [slice] before it unusable? *)
Definition invalidates (k : Z * Z) (slice : Slice) (ev : Event) : bool :=
  match ev with
  | Fetched k' sl' _ _ => false
  | DroppedTools k' => bool_decide (k' = k ∧ slice = Tools)
  | Dropped k' => bool_decide (k' = k)
  end.

(** [l] was fetched for this key and slice at time [at_], and not dropped since. *)
Definition live_fetch (log : list Event) (k : Z * Z) (slice : Slice) (at_ : Z) (l : list Value) : Prop :=
  ∃ newer older, log = newer ++ Fetched k slice at_ l :: older ∧
    Forall (fun ev => invalidates k slice ev = false) newer.

Definition cache_inv (st : Caches * Trace) : Prop :=
  ∀ k slice e, lookup_entry k slice st.1 = Some e →
    fetched_at e <= t_now st.2 ∧ live_fetch (t_log st.2) k slice (fetched_at e) (items e).

Lemma live_fetch_cons log k sl at_ l ev :
  live_fetch log k sl at_ l → invalidates k sl ev = false → live_fetch (ev :: log) k sl at_ l.
Proof. intros (n & o & -> & Hn) He. exists (ev :: n), o. split; [done|]. by constructor. Qed.

Lemma live_fetch_here log k sl at_ l : live_fetch (Fetched k sl at_ l :: log) k sl at_ l.
Proof. by exists [], log. Qed.

#[export] Hint Resolve live_fetch_cons live_fetch_here : str.

Lemma logged_fetch_inv c t k slice answer d out c' t' :
  logged_fetch k slice answer d (c, t) = (out, (c', t')) →
  cache_inv (c, t) →
  cache_inv (c', t') ∧ t_now t <= t_now t' ∧
  ∀ l, out = Ok l → live_fetch (t_log t') k slice (t_now t') l.
Proof.
  unfold logged_fetch. intros Hf Hi.
  destruct answer as [l|er]; simplify_eq/=; (split_and!; [|lia|..]); try done.
  - intros k' sl' e He. destruct (Hi k' sl' e He). simpl in *. split; [lia|auto with str].
  - intros l' [= <-]. auto with str.
  - intros k' sl' e He. destruct (Hi k' sl' e He). simpl in *. split; [lia|done].
Qed.

Lemma get_or_fetch_inv st k ttl slice answer d out st' :
  cache_inv st → get_or_fetch t_now k ttl slice (logged_fetch k slice answer d) st = (out, st') →
  cache_inv st' ∧ t_now st.2 <= t_now st'.2 ∧
  ∀ l, out = Ok l → ∃ at_, live_fetch (t_log st'.2) k slice at_ l ∧ at_ <= t_now st'.2 ∧
    (at_ = t_now st'.2 ∨ (t_now st'.2 - at_ < ttl ∧ st' = st)).
Proof.
  destruct st as [c t]. intros Hi. unfold get_or_fetch. cbn [fst snd].
  destruct (ttl =? 0).
  { destruct st' as [c' t']. intros (Hi' & Hle & Hnow)%logged_fetch_inv; [|done].
    split_and!; [done|done|]. intros l Hl. exists (t_now t'). split_and!; [auto|done|auto]. }
  destruct (match lookup_entry k slice c with Some e => _ | None => None end) as [l0|] eqn:Hhit.
  - destruct (lookup_entry k slice c) as [e|] eqn:He; [|done].
    destruct (Z.ltb_spec (elapsed (t_now t) e) ttl) as [Hlt|]; [|done].
    intros; simplify_eq/=. destruct (Hi k slice e He) as [Hle Hl]. simpl in *.
    split_and!; [done|lia|]. intros l [= <-]. exists (fetched_at e). unfold elapsed in Hlt.
    split_and!; [done|done|]. right. split; [lia|done].
  - destruct (logged_fetch k slice answer d (c, t)) as [r [c1 t1]] eqn:Hf.
    apply (logged_fetch_inv c t) in Hf as (Hi1 & Hle & Hnow); [|done].
    destruct r as [l|e]; intros; simplify_eq/=; [|by split_and!].
    split_and!; [|done|].
    + intros k' sl' e' Hl'. simpl in *.
      destruct (decide ((k, slice) = (k', sl'))) as [[= <- <-]|Hne].
      * rewrite lookup_store_eq in Hl'. injection Hl' as <-. simpl. split; [lia|]. by apply Hnow.
      * rewrite lookup_store_ne in Hl' by done. by apply Hi1.
    + intros l' [= <-]. exists (t_now t1). split_and!; [by apply Hnow|lia|by left].
Qed.

Lemma get_or_fetch_unstored st k ttl slice answer d out st' :
  get_or_fetch t_now k ttl slice (logged_fetch k slice answer d) st = (out, st') →
  ttl = 0 ∨ is_ok out = false → st'.1 = st.1.
Proof.
  destruct st as [c t]. unfold get_or_fetch, logged_fetch. cbn [fst snd].
  destruct (Z.eqb_spec ttl 0).
  - by destruct answer; intros; simplify_eq/=.
  - destruct (match lookup_entry _ _ _ with Some _ => _ | None => _ end); [by intros; simplify_eq/=|].
    by destruct answer; intros ? [|]; simplify_eq/=.
Qed.

Lemma step_inv st o st' : cache_inv st → step st o st' → cache_inv st'.
Proof.
  intros Hi Hs. destruct Hs as [c t d|st k ttl slice answer d out st' _ Hg|c t k|c t k].
  - intros k sl e He. destruct (Hi k sl e He). simpl in *. split; [lia|done].
  - by eapply get_or_fetch_inv.
  - intros k' sl' e He. cbn [fst] in He. rewrite lookup_drop_tools in He.
    destruct (decide _) as [|Hne]; [done|]. destruct (Hi k' sl' e He). split; [done|].
    apply live_fetch_cons; [done|]. simpl. apply bool_decide_false. naive_solver.
  - intros k' sl' e He. cbn [fst] in He. rewrite lookup_drop in He.
    destruct (decide _) as [|Hne]; [done|]. destruct (Hi k' sl' e He). split; [done|].
    apply live_fetch_cons; [done|]. by apply bool_decide_false.
Qed.

Lemma reachable_inv st : reachable st → cache_inv st.
Proof.
  induction 1 as [t|st o st' _ IH Hs]; [|by eapply step_inv].
  intros k sl e He. unfold lookup_entry in He. simpl in He. by rewrite lookup_empty in He.
Qed.

(** ** Properties *)

(** C6. The staleness contract: in every history of the cache, a list that a scan
    obtains was fetched from the server for the same foreign server, the same role
    and the same slice, either by this very call or less than [ttl_ms] ago, and
    neither [drop] on that key nor, for tools, [drop_tools] happened since; a failed
    fetch and a [ttl_ms] of 0 leave the cache as it was. *)
Theorem cache_staleness st st' k slice ttl out :
  reachable st → step st (Some (k, slice, ttl, out)) st' →
  (∀ l, out = Ok l →
     ∃ at_, live_fetch (t_log st'.2) k slice at_ l ∧
       (at_ = t_now st'.2 ∨ (0 <= t_now st'.2 - at_ < ttl ∧ st' = st))) ∧
  (ttl = 0 ∨ is_ok out = false → st'.1 = st.1).
Proof.
  intros Hi%reachable_inv Hs. inversion Hs as [|? ? ? ? answer d ? ? _ Hg| |]; subst. split.
  - intros l ->. apply get_or_fetch_inv in Hg as (_ & _ & Hl); [|done].
    destruct (Hl l eq_refl) as (at_ & Hlive & Hle & Hor). exists at_. split; [done|].
    destruct Hor as [|[Hlt ->]]; [auto|]. right. split; [lia|done].
  - by eapply get_or_fetch_unstored.
Qed.

Lemma cache_staleness_witness :
  ∃ st', step (∅, mkTrace 0 []) (Some ((1, 10), Tools, 60000, Ok [Null])) st' ∧
    ∃ at_, live_fetch (t_log st'.2) (1, 10) Tools at_ [Null].
Proof.
  assert (step (∅, mkTrace 0 []) (Some ((1, 10), Tools, 60000, Ok [Null]))
    (store (1, 10) Tools (mkEntry 7 [Null]) ∅, mkTrace 7 [Fetched (1, 10) Tools 7 [Null]])) as Hs.
  { apply (step_get _ _ _ _ (Ok [Null]) 7); [done|]. reflexivity. }
  eexists. split; [exact Hs|].
  destruct (proj1 (cache_staleness _ _ _ _ _ _ (reachable_start 0) Hs) [Null] eq_refl)
    as (at_ & Hl & _). by exists at_.
Defined.

End Cache.
