(* ===== verification/Catalog.v ===== *)
(** * tables/catalog.rs: the catalog tables

    Row projection per table, the post-fetch filter, upstream scoping, the
    fetch through the session and the cache, the buffered cursor, and
    [begin_scan] of the six handlers. *)

From Stdlib Require Import Ascii String ZArith Lia.
From stdpp Require Import base numbers gmap sets strings pretty list.
From S2P Require Import Prelude Str Json Errors Sse Options Quals Tables Cursor Client Session Cache.
Import Options Quals Tables Client Session.
#[local] Open Scope Z_scope.

Record TableContext : Type := mkTableContext {
  tc_spec : TableSpec;
  tc_server_name : string;
  tc_resolved : Resolved;
  tc_options : list (string * string);
}.
Record ScanContext : Type := mkScanContext {
  sc_base : TableContext;
  sc_quals : list Qual;
}.

Definition cache_key (ctx : TableContext) : Z * Z :=
  (server_oid (tc_resolved ctx), user_oid (tc_resolved ctx)).

(** The fully buffered cursor. *)
Record RowsCursor : Type := mkCursor { cur_rows : list Row; cur_pos : nat }.

Definition rows_iter_scan (c : RowsCursor) : McpResult (option Row) * RowsCursor :=
  let row := cur_rows c !! cur_pos c in
  (Ok row, if bool_decide (is_Some row) then mkCursor (cur_rows c) (S (cur_pos c)) else c).
Definition rows_re_scan (c : RowsCursor) : McpResult unit * RowsCursor := (Ok tt, mkCursor (cur_rows c) 0).

#[export] Instance rows_cursor : ScanCursor RowsCursor := {|
  iter_scan := rows_iter_scan; re_scan := rows_re_scan |}.

#[export] Program Instance rows_cursor_laws : ScanCursorLaws RowsCursor := {|
  cursor_rest c := drop (cur_pos c) (cur_rows c);
  cursor_restart c := cur_rows c;
  rewinds _ := true |}.
Next Obligation. intros c. apply drop_suffix. Qed.
Next Obligation.
  intros [rows pos]. cbn. unfold rows_iter_scan. cbn. pose proof (read_at_next rows pos) as Hr.
  unfold read_at in Hr. destruct (drop pos rows), (rows !! pos); naive_solver.
Qed.
Next Obligation. intros [rows pos]. by eexists. Qed.

Module Catalog.

(** ** Row construction *)

Definition text_at (item : Value) (key : string) : option Cell :=
  CText <$> (get item key ≫= as_str).
Definition json_at (item : Value) (key : string) : option Cell :=
  match get item key with
  | None | Some Null => None
  | Some v => Some (CJson v)
  end.
Definition annotation (item : Value) (hint : string) : option Cell :=
  a ← get item "annotations"; CBool <$> (get a hint ≫= as_bool).
Definition bool_at (item : Value) (key : string) : option Cell :=
  CBool <$> (get item key ≫= as_bool).
Definition int8_at (item : Value) (key : string) : option Cell :=
  CInt8 <$> (get item key ≫= as_i64).

(** A row built by a sequence of [set]s. *)
Definition set_all (spec : TableSpec) (row : Row) (cells : list (string * option Cell)) : Row :=
  foldl (fun row '(col, cell) => set spec row col cell) row cells.

Definition tools_row (spec : TableSpec) (item : Value) : Row :=
  set_all spec (empty_row spec)
    [("name", text_at item "name"); ("title", text_at item "title");
     ("description", text_at item "description"); ("input_schema", json_at item "inputSchema");
     ("output_schema", json_at item "outputSchema"); ("annotations", json_at item "annotations");
     ("read_only", annotation item "readOnlyHint");
     ("destructive", annotation item "destructiveHint");
     ("idempotent", annotation item "idempotentHint");
     ("open_world", annotation item "openWorldHint"); ("meta", json_at item "_meta")].

Definition prompts_row (spec : TableSpec) (item : Value) : Row :=
  set_all spec (empty_row spec)
    [("name", text_at item "name"); ("title", text_at item "title");
     ("description", text_at item "description"); ("meta", json_at item "_meta")].

Definition prompt_argument_row (spec : TableSpec) (prompt : Value) (idx : nat) (argument : Value) : Row :=
  set_all spec (empty_row spec)
    [("prompt", CText <$> (get prompt "name" ≫= as_str)); ("name", text_at argument "name");
     ("description", text_at argument "description"); ("required", bool_at argument "required");
     ("idx", Some (CInt4 (wrap_i32 (Z.of_nat idx))))].

Definition prompt_argument_rows (spec : TableSpec) (prompts : list Value) : list Row :=
  mjoin ((fun prompt =>
    imap (prompt_argument_row spec prompt) (default [] (get prompt "arguments" ≫= as_array)))
    <$> prompts).

Definition resources_row (spec : TableSpec) (item : Value) : Row :=
  set_all spec (empty_row spec)
    [("uri", text_at item "uri"); ("name", text_at item "name"); ("title", text_at item "title");
     ("description", text_at item "description"); ("mime_type", text_at item "mimeType");
     ("size", int8_at item "size"); ("annotations", json_at item "annotations");
     ("meta", json_at item "_meta")].

Definition resource_templates_row (spec : TableSpec) (item : Value) : Row :=
  set_all spec (empty_row spec)
    [("uri_template", text_at item "uriTemplate"); ("name", text_at item "name");
     ("title", text_at item "title"); ("description", text_at item "description");
     ("mime_type", text_at item "mimeType"); ("annotations", json_at item "annotations");
     ("meta", json_at item "_meta")].

(** ** Post-fetch filters *)

Definition cell_json (spec : TableSpec) (row : Row) (col : string) : Value :=
  match attno spec col ≫= fun i => mjoin (row !! (i - 1)%nat) with
  | Some c => as_json c
  | None => Null
  end.

Definition apply_post_filters (spec : TableSpec) (rows : list Row) (quals : list Qual)
    (pushed : list string) : list Row :=
  let relevant := filter (fun q => field q ∈ pushed ∧ is_supported q = true) quals in
  match relevant with
  | [] => rows
  | _ => filter (fun row =>
           forallb (fun q => matches_json q (field q) (cell_json spec row (field q))) relevant = true)
           rows
  end.

(** ** Upstream scoping *)

Definition item_name (item : Value) : option string := get item "name" ≫= as_str.

Definition rename (item : Value) (name : string) : Value :=
  match item with
  | Object m => Object (obj_insert "name" (Str name) m)
  | v => v
  end.

Definition scoped_items (upstream : string) (items : list Value) : list Value :=
  if is_empty upstream then
    filter (fun item => from_option (fun n => negb (contains "." n)) true (item_name item) = true)
      items
  else
    omap (fun item =>
            name ← item_name item;
            local ← strip_prefix (upstream +:+ ".") name;
            Some (rename item local)) items.

(** ** Fetching through the session and the cache *)

Section scan.
Context `{Serde, Net}.
Abbreviation Backend := (Sessions Cache.Caches).
Abbreviation Scan := (M Backend McpError).

Definition ttl_of (ctx : TableContext) : Z :=
  default (so_cache_ttl_ms (options (tc_resolved ctx))) (table_ttl_ms (tc_options ctx)).

(** The cache, consulted from inside a session closure. *)
Definition through_cache (k : Z * Z) (ttl : Z) (slice : Cache.Slice)
    (fetch : M (McpSession * World) McpError (list Value)) :
    M (McpSession * World * Cache.Caches) McpError (list Value) :=
  fun '(sw, c) =>
    let fetch' : M (Cache.Caches * (McpSession * World)) McpError (list Value) :=
      fun '(c, sw) => let '(r, sw') := fetch sw in (r, (c, sw')) in
    let '(r, (c', sw')) := Cache.get_or_fetch (fun sw => w_now sw.2) k ttl slice fetch' (c, sw) in
    (r, (sw', c')).

(** A server without the method has an empty table. *)
Definition fail_open (m : M (McpSession * World) McpError (list Value)) :
    M (McpSession * World) McpError (list Value) :=
  fun sw => match m sw with
            | (Err (MethodNotFound _), sw') => (Ok [], sw')
            | r => r
            end.

Definition poll_tools (k : Z * Z) : M (McpSession * World * Cache.Caches) McpError unit :=
  fun '(s, w, c) =>
    let '(changed, s') := take_tools_list_changed s in
    (Ok tt, (s', w, if changed then (Cache.drop_tools k c).2 else c)).

Definition fetch_list (ctx : TableContext) (slice : Cache.Slice) (method array_key : string)
    (poll_tools_flag : bool) : Scan (list Value) :=
  with_session (tc_resolved ctx) (fun tr =>
    _ ← (if poll_tools_flag then poll_tools (cache_key ctx) else mret ());
    items ← through_cache (cache_key ctx) (ttl_of ctx) slice
              (fail_open (list_all method array_key (Object []) tr));
    mret (match upstream (tc_options ctx) with
          | Some u => scoped_items u items
          | None => items
          end)).

(** ** The handlers *)

Definition pushdown_columns (h : Handler) : list string :=
  match h with
  | TOOLS_TABLE | PROMPTS_TABLE => ["name"]
  | PROMPT_ARGUMENTS_TABLE => ["prompt"]
  | RESOURCE_CONTENTS_TABLE => ["uri"]
  | PROMPT_MESSAGES_TABLE => ["prompt"; "arguments"]
  | COMPLETIONS_TABLE => ["ref"; "argument_name"; "argument_value"]
  | TOOL_CALLS_TABLE => ["tool"; "id"]
  | SERVER_TABLE | RESOURCES_TABLE | RESOURCE_TEMPLATES_TABLE => []
  end.

Definition tools_scan (ctx : ScanContext) : Scan RowsCursor :=
  let spec := tc_spec (sc_base ctx) in
  items ← fetch_list (sc_base ctx) Cache.Tools "tools/list" "tools" true;
  mret (mkCursor (apply_post_filters spec (tools_row spec <$> items) (sc_quals ctx)
                    (pushdown_columns TOOLS_TABLE)) 0).

Definition prompts_scan (ctx : ScanContext) : Scan RowsCursor :=
  let spec := tc_spec (sc_base ctx) in
  items ← fetch_list (sc_base ctx) Cache.Prompts "prompts/list" "prompts" false;
  mret (mkCursor (apply_post_filters spec (prompts_row spec <$> items) (sc_quals ctx)
                    (pushdown_columns PROMPTS_TABLE)) 0).

Definition prompt_arguments_scan (ctx : ScanContext) : Scan RowsCursor :=
  let spec := tc_spec (sc_base ctx) in
  items ← fetch_list (sc_base ctx) Cache.Prompts "prompts/list" "prompts" false;
  mret (mkCursor (apply_post_filters spec (prompt_argument_rows spec items) (sc_quals ctx)
                    (pushdown_columns PROMPT_ARGUMENTS_TABLE)) 0).

Definition resources_scan (ctx : ScanContext) : Scan RowsCursor :=
  items ← fetch_list (sc_base ctx) Cache.Resources "resources/list" "resources" false;
  mret (mkCursor (resources_row (tc_spec (sc_base ctx)) <$> items) 0).

Definition resource_templates_scan (ctx : ScanContext) : Scan RowsCursor :=
  items ← fetch_list (sc_base ctx) Cache.ResourceTemplates "resources/templates/list"
            "resourceTemplates" false;
  mret (mkCursor (resource_templates_row (tc_spec (sc_base ctx)) <$> items) 0).

Definition resolved_mode (m : Mode) : string :=
  match m with ModeGeneric | ModeAuto => "generic" | ModeSql => "sql" end.

Definition initialize_params : Value :=
  Object [("protocolVersion", Str CLIENT_PROTOCOL_VERSION); ("capabilities", Object []);
          ("clientInfo", Object [("name", Str CLIENT_NAME); ("version", Str CLIENT_VERSION)])].

(** The columns read off the session before the cache is consulted. *)
Definition session_cells (s : McpSession) : list (string * option Cell) :=
  [("protocol_version", Some (CText (protocol_version s)));
   ("server_name", text_at (server_info s) "name");
   ("server_version", text_at (server_info s) "version");
   ("capabilities", match capabilities s with Null => None | v => Some (CJson v) end);
   ("session_id", CText <$> session_id s)].

Definition server_scan (ctx : ScanContext) : Scan RowsCursor :=
  let base := sc_base ctx in
  let spec := tc_spec base in
  let o := options (tc_resolved base) in
  let row := set_all spec (empty_row spec)
    [("name", Some (CText (tc_server_name base))); ("url", Some (CText (so_url o)));
     ("mode", Some (CText (resolved_mode (so_mode o))))] in
  '(row, instructions) ← with_session (tc_resolved base) (fun tr =>
    row ← (fun '(s, w, c) => (Ok (set_all spec row (session_cells s)), (s, w, c)));
    initialize ← through_cache (cache_key base) (ttl_of base) Cache.Initialize
      (fun sw => let '(r, sw') := request "initialize" initialize_params tr sw in
                 ((fun v => [v]) <$> r, sw'));
    mret (row, head initialize ≫= fun r => text_at r "instructions"));
  mret (mkCursor [set spec row "instructions" instructions] 0).
End scan.

(** ** Typing of the projected rows *)

Definition ok_as (t : ColumnType) (cell : option Cell) : Prop :=
  match cell with Some x => cell_ok t x | None => True end.

Lemma text_at_ok item k : ok_as Text (text_at item k).
Proof. unfold text_at. by destruct (get item k ≫= as_str). Qed.
Lemma json_at_ok item k : ok_as Jsonb (json_at item k).
Proof. unfold json_at. by destruct (get item k) as [[]|]. Qed.
Lemma annotation_ok item k : ok_as Boolean (annotation item k).
Proof. unfold annotation. destruct (get item "annotations"); [|done]. simpl. by destruct (get _ k ≫= as_bool). Qed.
Lemma bool_at_ok item k : ok_as Boolean (bool_at item k).
Proof. unfold bool_at. by destruct (get item k ≫= as_bool). Qed.
Lemma int8_at_ok item k : value_ok item → ok_as Int8 (int8_at item k).
Proof.
  intros Hv. unfold int8_at. destruct (get item k) as [v|] eqn:Hg; [|done]. simpl.
  destruct (as_i64 v) as [n|] eqn:Hn; [|done]. simpl.
  by apply (as_i64_range v); [eapply value_ok_get|].
Qed.
Lemma int4_wrap_ok n : ok_as Int4 (Some (CInt4 (wrap_i32 n))).
Proof. apply wrap_i32_range. Qed.

#[export] Hint Resolve text_at_ok json_at_ok annotation_ok bool_at_ok int8_at_ok int4_wrap_ok : str.

Lemma typed_cell_as spec col cell c :
  attno spec col ≫= (fun i => column spec (i - 1)%nat) = Some c → ok_as (c_type c) cell →
  typed_cell spec col cell.
Proof. unfold typed_cell, ok_as. by intros ->. Qed.

Lemma set_all_ok spec row cells :
  row_ok spec row → Forall (fun '(col, cell) => typed_cell spec col cell) cells →
  row_ok spec (set_all spec row cells).
Proof.
  intros Hr Hc. revert row Hr. induction Hc as [|[col cell] cells Hc _ IH]; intros row Hr; [done|].
  apply IH. by apply row_ok_set.
Qed.

(** Discharge a row built by [set_all] over a concrete specification. *)
Ltac typed_row :=
  apply set_all_ok; [apply row_ok_empty|];
  repeat (apply List.Forall_cons;
          [eapply typed_cell_as; [reflexivity|]; cbn [c_type]; auto with str|]);
  try apply List.Forall_nil.

Lemma tools_row_ok item : row_ok TOOLS_SPEC (tools_row TOOLS_SPEC item).
Proof. typed_row. Qed.
Lemma prompts_row_ok item : row_ok PROMPTS_SPEC (prompts_row PROMPTS_SPEC item).
Proof. typed_row. Qed.
Lemma prompt_argument_row_ok p i a :
  row_ok PROMPT_ARGUMENTS_SPEC (prompt_argument_row PROMPT_ARGUMENTS_SPEC p i a).
Proof. typed_row. apply (text_at_ok p "name"). Qed.
Lemma resources_row_ok item : value_ok item → row_ok RESOURCES_SPEC (resources_row RESOURCES_SPEC item).
Proof. intros Hv. typed_row. Qed.
Lemma resource_templates_row_ok item :
  row_ok RESOURCE_TEMPLATES_SPEC (resource_templates_row RESOURCE_TEMPLATES_SPEC item).
Proof. typed_row. Qed.

Lemma prompt_argument_rows_ok prompts :
  Forall (row_ok PROMPT_ARGUMENTS_SPEC) (prompt_argument_rows PROMPT_ARGUMENTS_SPEC prompts).
Proof.
  unfold prompt_argument_rows. apply Forall_join, Forall_fmap, Forall_true. intros p.
  apply Forall_lookup. intros i row Hi. rewrite list_lookup_imap in Hi.
  apply fmap_Some in Hi as (a & _ & ->). apply prompt_argument_row_ok.
Qed.

(** ** The filter, the scopes, the cursor *)

Definition satisfies (spec : TableSpec) (row : Row) (pushed : list string) (q : Qual) : Prop :=
  field q ∈ pushed → is_supported q = true →
  matches_json q (field q) (cell_json spec row (field q)) = true.

Lemma apply_post_filters_spec spec rows quals pushed :
  apply_post_filters spec rows quals pushed =
  filter (fun row => forallb (fun q => matches_json q (field q) (cell_json spec row (field q)))
            (filter (fun q => field q ∈ pushed ∧ is_supported q = true) quals) = true) rows.
Proof.
  unfold apply_post_filters. destruct (filter _ quals) as [|q qs] eqn:Hf; [|done].
  symmetry. induction rows as [|r rows IH]; [done|]. rewrite filter_cons_True by done. by rewrite IH.
Qed.

Lemma apply_post_filters_elem spec rows quals pushed row :
  row ∈ apply_post_filters spec rows quals pushed ↔
  row ∈ rows ∧ Forall (satisfies spec row pushed) quals.
Proof.
  rewrite apply_post_filters_spec, list_elem_of_filter, forallb_forall, Forall_forall.
  unfold satisfies. setoid_rewrite <- list_elem_of_In. setoid_rewrite list_elem_of_filter.
  naive_solver.
Qed.

(** Which scope an item of the union belongs to, by the first dot of its name. *)
Lemma contains_dot n : contains "." n = true ↔ byte_Z "." ∈ bytes n.
Proof.
  rewrite contains_spec. split.
  - intros (a & b & ->). rewrite !bytes_app. set_solver.
  - intros Hin. destruct (split_once "." n) as [[a b]|] eqn:Hs.
    + apply split_once_Some in Hs as [-> _]. by exists a, b.
    + by apply split_once_None in Hs.
Qed.

Lemma strip_upstream u n local :
  byte_Z "." ∉ bytes u → strip_prefix (u +:+ ".") n = Some local ↔ split_once "." n = Some (u, local).
Proof.
  intros Hu. rewrite strip_prefix_Some, app_string_assoc. split.
  - intros ->. by apply split_once_app.
  - by intros [-> _]%split_once_Some.
Qed.

Lemma item_name_rename item n n' : item_name item = Some n → item_name (rename item n') = Some n'.
Proof.
  unfold item_name. destruct item; try done. simpl. intros _. by rewrite obj_get_insert_eq.
Qed.

Section scan_facts.
Context `{Serde, Net}.

(** A cursor of a filtering handler holds a filtered projection. *)
Lemma m_ret_inv {S E A} (a b : A) (s s' : S) : (mret a : M S E A) s = (Ok b, s') → a = b ∧ s = s'.
Proof. unfold mret, M_ret. intros; by simplify_eq. Qed.

Lemma scan_filtered (ctx : ScanContext) slice method key flag pushed
    (project : list Value → list Row) st cur st' :
  (items ← fetch_list (sc_base ctx) slice method key flag;
   mret (mkCursor (apply_post_filters (tc_spec (sc_base ctx)) (project items) (sc_quals ctx) pushed) 0))
    st = (Ok cur, st') →
  ∃ items, fetch_list (sc_base ctx) slice method key flag st = (Ok items, st') ∧ cur_pos cur = 0%nat ∧
    cur_rows cur = apply_post_filters (tc_spec (sc_base ctx)) (project items) (sc_quals ctx) pushed.
Proof. intros (items & st1 & Hf & [<- <-]%m_ret_inv)%m_bind_inv_ok. by exists items. Qed.

(** A closure that fails with [-32601] inside the cache is an empty success. *)
Lemma fail_open_empty (m : M (McpSession * World) McpError (list Value)) sw msg sw' :
  m sw = (Err (MethodNotFound msg), sw') → fail_open m sw = (Ok [], sw').
Proof. unfold fail_open. by intros ->. Qed.

Lemma fail_open_errors (m : M (McpSession * World) McpError (list Value)) sw e sw' :
  fail_open m sw = (Err e, sw') → m sw = (Err e, sw') ∧ ∀ msg, e ≠ MethodNotFound msg.
Proof. unfold fail_open. destruct (m sw) as [[l|[]] s1]; intros; simplify_eq; split; done. Qed.
End scan_facts.

(** ** Properties *)

(** Every row a catalog table produces fits its table: full width, each cell
    of its column's PostgreSQL type and within that type's range, for any list of
    items the server may send (missing fields, wrong JSON types and out-of-range
    indexes included). *)
Theorem catalog_rows_typed (items : list Value) :
  Forall value_ok items →
  Forall (row_ok TOOLS_SPEC) (tools_row TOOLS_SPEC <$> items) ∧
  Forall (row_ok PROMPTS_SPEC) (prompts_row PROMPTS_SPEC <$> items) ∧
  Forall (row_ok PROMPT_ARGUMENTS_SPEC) (prompt_argument_rows PROMPT_ARGUMENTS_SPEC items) ∧
  Forall (row_ok RESOURCES_SPEC) (resources_row RESOURCES_SPEC <$> items) ∧
  Forall (row_ok RESOURCE_TEMPLATES_SPEC)
    (resource_templates_row RESOURCE_TEMPLATES_SPEC <$> items).
Proof.
  intros Hv. rewrite !Forall_fmap. split_and!.
  - apply Forall_true, tools_row_ok.
  - apply Forall_true, prompts_row_ok.
  - apply prompt_argument_rows_ok.
  - eapply Forall_impl; [exact Hv|]. apply resources_row_ok.
  - apply Forall_true, resource_templates_row_ok.
Qed.

(** Pushdown is sound and complete: a scan of [tools], [prompts] or
    [prompt_arguments] returns exactly the projected rows of the fetched list that
    satisfy every supported qual on its pushed columns, so a restriction PostgreSQL
    no longer checks is never lost and no matching row is dropped. *)
Theorem pushdown_exact `{Serde, Net} (ctx : ScanContext) st cur st' :
  let spec := tc_spec (sc_base ctx) in
  (tools_scan ctx st = (Ok cur, st') →
   ∃ items : list Value,
     fetch_list (sc_base ctx) Cache.Tools "tools/list" "tools" true st = (Ok items, st') ∧
     ∀ row, row ∈ cur_rows cur ↔
     row ∈ tools_row spec <$> items ∧ Forall (satisfies spec row ["name"]) (sc_quals ctx)) ∧
  (prompts_scan ctx st = (Ok cur, st') →
   ∃ items : list Value,
     fetch_list (sc_base ctx) Cache.Prompts "prompts/list" "prompts" false st = (Ok items, st') ∧
     ∀ row, row ∈ cur_rows cur ↔
     row ∈ prompts_row spec <$> items ∧ Forall (satisfies spec row ["name"]) (sc_quals ctx)) ∧
  (prompt_arguments_scan ctx st = (Ok cur, st') →
   ∃ items : list Value,
     fetch_list (sc_base ctx) Cache.Prompts "prompts/list" "prompts" false st = (Ok items, st') ∧
     ∀ row, row ∈ cur_rows cur ↔
     row ∈ prompt_argument_rows spec items ∧
     Forall (satisfies spec row ["prompt"]) (sc_quals ctx)).
Proof.
  split_and!; intros (items & Hf & _ & Hr)%scan_filtered; exists items; (split; [done|]);
    intros row; rewrite Hr; apply apply_post_filters_elem.
Qed.

(** Upstream scoping partitions the union: for an upstream name without a
    dot, an item is in its slice exactly when the part of its name before the first
    dot is that upstream, and it appears there under the rest of the name; the
    engine-local slice is exactly the items whose name has no dot (or is absent).
    So no tool is lost and none shows up in two schemas. *)
Theorem scoped_items_partition (items : list Value) (u : string) (item : Value) :
  byte_Z "." ∉ bytes u →
  (item ∈ scoped_items EmptyString items ↔
     item ∈ items ∧ ∀ n, item_name item = Some n → split_once "." n = None) ∧
  (u ≠ EmptyString →
   (item ∈ scoped_items u items ↔
      ∃ it n local, it ∈ items ∧ item_name it = Some n ∧ split_once "." n = Some (u, local) ∧
        item = rename it local ∧ item_name item = Some local)).
Proof.
  intros Hu. unfold scoped_items, is_empty. rewrite bool_decide_true by done. split.
  - rewrite list_elem_of_filter. destruct (item_name item) as [n|]; simpl; [|naive_solver].
    rewrite negb_true_iff, <- not_true_iff_false, contains_dot, <- split_once_None. naive_solver.
  - intros Hne. rewrite bool_decide_false by done. rewrite list_elem_of_omap. split.
    + intros (it & Hin & Hs). apply bind_Some in Hs as (n & Hn & Hs).
      apply bind_Some in Hs as (local & Hl & [= <-]). apply strip_upstream in Hl; [|done].
      exists it, n, local. split_and!; try done. by eapply item_name_rename.
    + intros (it & n & local & Hin & Hn & Hs & -> & _). exists it. split; [done|].
      rewrite Hn. simpl. by rewrite (proj2 (strip_upstream u n local Hu) Hs).
Qed.

(** A buffered cursor replays: however much was read before the re-scan, it
    returns every row in order, and then none. *)
Theorem cursor_replays (rows : list Row) (pos k n : nat) :
  (read (length rows + n) (re_scan (read k (mkCursor rows pos)).2).2).1 = Ok ((Some <$> rows) ++ replicate n None).
Proof. exact (re_scan_reads_all k n (mkCursor rows pos) eq_refl). Qed.

(** ** Witnesses *)

Lemma catalog_rows_typed_witness :
  Forall (row_ok TOOLS_SPEC) (tools_row TOOLS_SPEC <$> [Object [("name", Str "echo")]; Null]).
Proof.
  apply (catalog_rows_typed [Object [("name", Str "echo")]; Null]).
  apply List.Forall_cons; [split; [apply NoDup_singleton|done]|].
  apply List.Forall_cons; [done|apply List.Forall_nil].
Defined.

Lemma scoped_items_partition_witness :
  Object [("name", Str "read")] ∈ scoped_items "fs" [Object [("name", Str "fs.read")]] ∧
  scoped_items EmptyString [Object [("name", Str "fs.read")]] = [].
Proof.
  split; [|by vm_compute].
  apply (proj2 (scoped_items_partition [Object [("name", Str "fs.read")]] "fs"
    (Object [("name", Str "read")]) ltac:(by vm_compute; set_solver)) ltac:(done)).
  exists (Object [("name", Str "fs.read")]), "fs.read", "read".
  split_and!; [by left|by vm_compute..].
Defined.

End Catalog.
