(* ===== verification/Readthrough.v ===== *)
(** * tables/readthrough.rs: one request per key

    [restricted] (the AND of the quals on a column), the three read-through
    tables [resource_contents], [prompt_messages] and [completions], and the
    base64 decoder.  The rows are computed over the session state only: the
    catalog cache is not reachable from here. *)

From Stdlib Require Import Ascii String ZArith Lia.
From stdpp Require Import base numbers gmap sets strings pretty list.
From S2P Require Import Prelude Str Json Errors Options Quals Tables Cursor Client Session Catalog.
Import Options Quals Tables Client Session.
#[local] Open Scope Z_scope.

Module Readthrough.

(** ** The buffered cursor *)

Record BufferedCursor : Type := mkBuffered { bc_rows : list Row; bc_pos : nat }.
Definition buffered (rows : list Row) : BufferedCursor := mkBuffered rows 0.

Definition buffered_iter_scan (c : BufferedCursor) : McpResult (option Row) * BufferedCursor :=
  if Nat.ltb (bc_pos c) (length (bc_rows c)) then
    (Ok (bc_rows c !! bc_pos c), mkBuffered (bc_rows c) (S (bc_pos c)))
  else (Ok None, c).
Definition buffered_re_scan (c : BufferedCursor) : McpResult unit * BufferedCursor :=
  (Ok tt, mkBuffered (bc_rows c) 0).

#[global] Instance buffered_cursor : ScanCursor BufferedCursor := {|
  iter_scan := buffered_iter_scan; re_scan := buffered_re_scan |}.

#[global] Program Instance buffered_cursor_laws : ScanCursorLaws BufferedCursor := {|
  cursor_rest c := drop (bc_pos c) (bc_rows c);
  cursor_restart c := bc_rows c;
  rewinds _ := true |}.
Next Obligation. intros c. apply drop_suffix. Qed.
Next Obligation.
  intros [rows pos]. cbn -[Nat.ltb]. unfold buffered_iter_scan. cbn -[Nat.ltb]. pose proof (read_at_next rows pos) as Hr.
  unfold read_at in Hr. destruct (Nat.ltb_spec pos (length rows)) as [Hl|Hl].
  - apply lookup_lt_is_Some_2 in Hl as [row Hl]. rewrite Hl in Hr |- *.
    destruct (drop pos rows) as [|x more]; [done|]. destruct Hr as [[= <-] <-].
    eexists. repeat split; reflexivity.
  - by rewrite drop_ge.
Qed.
Next Obligation. intros [rows pos]. by eexists. Qed.

(** ** Quals to request keys *)

(** Order-preserving, by the crate's equality. *)
Definition dedupe (values : list Value) : list Value :=
  foldl (fun out v => if value_mem v out then out else out ++ [v]) [] values.

Definition restricted_step (acc : option (list Value)) (q : Qual) : option (list Value) :=
  let set := restricted_values q in
  Some match acc with
       | None => set
       | Some prev => filter (fun v => value_mem v set = true) prev
       end.

Definition restricted (quals : list Qual) (column : string) : option (list Value) :=
  dedupe <$> foldl restricted_step None (filter (fun q => field q = column) quals).

(** ** Errors with their method *)

Record CtxError : Type := mkCtxError { ce_error : McpError; ce_method : string }.
Definition feature (m method : string) : CtxError := mkCtxError (FeatureNotSupported m) method.

Definition put (spec : TableSpec) (row : Row) (col : string) (cell : Cell) : Row :=
  set spec row col (Some cell).
Definition put_opt (spec : TableSpec) (row : Row) (col : string) (cell : option Cell) : Row :=
  match cell with Some c => put spec row col c | None => row end.

Definition text_of (v : Value) : option string := as_str v.

(** ** base64 *)

Definition value_of (byte : Z) : option Z :=
  if in_range 65 90 byte then Some (byte - 65)
  else if in_range 97 122 byte then Some (byte - 97 + 26)
  else if in_range 48 57 byte then Some (byte - 48 + 52)
  else if byte =? 43 then Some 62
  else if byte =? 47 then Some 63
  else None.

Definition u8 (n : Z) : Z := n mod 256.

(** [acc |= value_of(b)? << (18 - 6 * i)] over a chunk. *)
Fixpoint accumulate (acc : Z) (shift : Z) (chunk : list Z) : option Z :=
  match chunk with
  | [] => Some acc
  | b :: rest => v ← value_of b; accumulate (Z.lor acc (Z.shiftl v shift)) (shift - 6) rest
  end.

Definition decode_chunk (chunk : list Z) : option (list Z) :=
  if Nat.eqb (length chunk) 1 then None
  else
    acc ← accumulate 0 18 chunk;
    Some ([u8 (Z.shiftr acc 16)]
          ++ (if Nat.ltb 2 (length chunk) then [u8 (Z.shiftr acc 8)] else [])
          ++ (if Nat.ltb 3 (length chunk) then [u8 acc] else [])).

Fixpoint decode_chunks (l : list Z) : option (list Z) :=
  match l with
  | [] => Some []
  | a :: b :: c :: d :: rest =>
      out ← decode_chunk [a; b; c; d]; more ← decode_chunks rest; Some (out ++ more)
  | tail => decode_chunk tail
  end.

Definition base64_space (b : Z) : bool := (b =? 32) || (b =? 9) || (b =? 13) || (b =? 10).

Fixpoint take_while {A} (p : A → bool) (l : list A) : list A :=
  match l with
  | [] => []
  | x :: l' => if p x then x :: take_while p l' else []
  end.

Definition base64_decode (input : string) : option (list Z) :=
  decode_chunks (take_while (fun b => negb (b =? 61))
                   (filter (fun b => base64_space b = false) (bytes input))).

(** ** Rows *)

Definition resource_content_row (spec : TableSpec) (uri : string) (idx : nat) (content : Value) :
    result CtxError Row :=
  let row := empty_row spec in
  let row := put spec row "uri" (CText uri) in
  let row := put spec row "idx" (CInt4 (wrap_i32 (Z.of_nat idx))) in
  let row := put_opt spec row "mime_type" (CText <$> (get content "mimeType" ≫= as_str)) in
  let row := put_opt spec row "text" (CText <$> (get content "text" ≫= as_str)) in
  row ← match get content "blob" ≫= as_str with
        | Some blob =>
            b ← ok_or (mkCtxError (InvalidParams ("resource_contents: the server's blob for uri "
                         +:+ quoted uri +:+ " is not valid base64")) "resources/read")
                      (base64_decode blob);
            Ok (put spec row "blob" (CBytea b))
        | None => Ok row
        end;
  Ok (match get content "_meta" with
      | Some meta => if is_null meta then row else put spec row "meta" (CJson meta)
      | None => row
      end).

Definition prompt_message_row (spec : TableSpec) (name : string) (arguments : Value)
    (description : option string) (idx : nat) (msg : Value) : Row :=
  let content := default Null (get msg "content") in
  let row := empty_row spec in
  let row := put spec row "prompt" (CText name) in
  let row := put spec row "arguments" (CJson arguments) in
  let row := put spec row "idx" (CInt4 (wrap_i32 (Z.of_nat idx))) in
  let row := put_opt spec row "role" (CText <$> (get msg "role" ≫= as_str)) in
  let row := put_opt spec row "content_type" (CText <$> (get content "type" ≫= as_str)) in
  let row := put_opt spec row "text" (CText <$> (get content "text" ≫= as_str)) in
  let row := if is_null content then row else put spec row "content" (CJson content) in
  put_opt spec row "description" (CText <$> description).

Definition completion_row (spec : TableSpec) (ref : Value) (name value : string)
    (total : option Z) (has_more : option bool) (idx : nat) (candidate : Value) : Row :=
  let row := empty_row spec in
  let row := put spec row "ref" (CJson ref) in
  let row := put spec row "argument_name" (CText name) in
  let row := put spec row "argument_value" (CText value) in
  let row := put_opt spec row "value" (CText <$> as_str candidate) in
  let row := put spec row "idx" (CInt4 (wrap_i32 (Z.of_nat idx))) in
  let row := put_opt spec row "total" ((fun t => CInt4 (wrap_i32 t)) <$> total) in
  put_opt spec row "has_more" (CBool <$> has_more).

(** ** The scans *)

Section scan.
Context `{Serde, Net} {X : Type}.
Abbreviation RM := (M (Sessions X) CtxError).

(** [.map_err(|e| CtxError::new(e, method))] *)
Definition ctx_err {A} (method : string) (m : M (Sessions X) McpError A) : RM A :=
  fun st => let '(r, st') := m st in (map_err (fun e => mkCtxError e method) r, st').

Definition call (r : Resolved) (method : string) (params : Value) : RM Value :=
  ctx_err method (with_session r (fun tr => lift_x (request method params tr))).

(** [for x in xs { rows.extend(f(x)?) }] *)
Fixpoint for_rows {A} (f : A → RM (list Row)) (xs : list A) : RM (list Row) :=
  match xs with
  | [] => mret []
  | x :: rest => rows ← f x; more ← for_rows f rest; mret (rows ++ more)
  end.

(** [for (idx, x) in xs.iter().enumerate() { rows.push(f(idx, x)?) }] *)
Fixpoint rows_from {A} (f : nat → A → result CtxError Row) (idx : nat) (xs : list A) :
    result CtxError (list Row) :=
  match xs with
  | [] => Ok []
  | x :: rest => row ← f idx x; more ← rows_from f (S idx) rest; Ok (row :: more)
  end.

Definition UNQUALIFIED_RESOURCE_CONTENTS : string :=
  "unqualified scan of mcp.resource_contents requires a uri qual or max_unqualified_reads > 0".

Definition unqualified_uris (ctx : ScanContext) : RM (list string) :=
  let resolved := tc_resolved (sc_base ctx) in
  let cap := so_max_unqualified_reads (options resolved) in
  if cap =? 0 then m_fail (feature UNQUALIFIED_RESOURCE_CONTENTS "resources/list")
  else
    items ← ctx_err "resources/list" (with_session resolved
              (fun tr => lift_x (list_all "resources/list" "resources" (Object []) tr)));
    let uris := omap (fun item => get item "uri" ≫= as_str) items in
    let distinct := omap text_of (dedupe (Str <$> uris)) in
    if cap <? Z.of_nat (length distinct) then
      m_fail (mkCtxError (TooManyArguments
        ("unqualified scan of mcp.resource_contents would read "
         +:+ fmt_nat (length distinct) +:+ " distinct URIs, exceeding max_unqualified_reads = "
         +:+ fmt_Z cap)) "resources/read")
    else mret distinct.

Definition read_uri (ctx : ScanContext) (uri : string) : RM (list Row) :=
  result ← call (tc_resolved (sc_base ctx)) "resources/read" (Object [("uri", Str uri)]);
  m_lift (rows_from (resource_content_row (tc_spec (sc_base ctx)) uri) 0
            (default [] (get result "contents" ≫= as_array))).

Definition resource_contents_rows (ctx : ScanContext) : RM (list Row) :=
  uris ← match restricted (sc_quals ctx) "uri" with
         | None => unqualified_uris ctx
         | Some values => mret (omap text_of values)
         end;
  for_rows (read_uri ctx) uris.

Definition prompt_get (ctx : ScanContext) (name : string) (arguments : Value) : RM (list Row) :=
  result ← call (tc_resolved (sc_base ctx)) "prompts/get"
             (Object [("name", Str name); ("arguments", params_object (Some arguments))]);
  let description := get result "description" ≫= as_str in
  mret (imap (prompt_message_row (tc_spec (sc_base ctx)) name arguments description)
          (default [] (get result "messages" ≫= as_array))).

Definition prompt_messages_rows (ctx : ScanContext) : RM (list Row) :=
  match restricted (sc_quals ctx) "prompt" with
  | None => m_fail (feature "mcp.prompt_messages requires a prompt = '...' qual (PRD-7 §4.5)"
                      "prompts/get")
  | Some prompts =>
      let argument_sets := default [Object []] (restricted (sc_quals ctx) "arguments") in
      for_rows (fun prompt =>
        match text_of prompt with
        | None => mret []
        | Some name => for_rows (prompt_get ctx name) argument_sets
        end) prompts
  end.

Definition COMPLETION_REQUIRED : list string := ["ref"; "argument_name"; "argument_value"].

Definition complete (ctx : ScanContext) (ref : Value) (name value : string) : RM (list Row) :=
  result ← call (tc_resolved (sc_base ctx)) "completion/complete"
             (Object [("ref", ref);
                      ("argument", Object [("name", Str name); ("value", Str value)])]);
  let completion := default Null (get result "completion") in
  mret (imap (completion_row (tc_spec (sc_base ctx)) ref name value
                (get completion "total" ≫= as_i64) (get completion "hasMore" ≫= as_bool))
          (default [] (get completion "values" ≫= as_array))).

(** The first required column without a qual, else their restrictions. *)
Fixpoint required_columns (quals : list Qual) (columns : list string) :
    result CtxError (list (list Value)) :=
  match columns with
  | [] => Ok []
  | column :: rest =>
      match restricted quals column with
      | None => Err (feature ("mcp.completions requires a " +:+ column +:+ " = qual (PRD-7 §4.6)")
                       "completion/complete")
      | Some values => more ← required_columns quals rest; Ok (values :: more)
      end
  end.

Definition completions_rows (ctx : ScanContext) : RM (list Row) :=
  cols ← m_lift (required_columns (sc_quals ctx) COMPLETION_REQUIRED);
  match cols with
  | [refs; names; values] =>
      for_rows (fun ref => for_rows (fun name => for_rows (fun value =>
        match text_of name, text_of value with
        | Some n, Some v => complete ctx ref n v
        | _, _ => mret []
        end) values) names) refs
  | _ => mret []
  end.

(** [begin_scan] of the three handlers: it raises, or buffers the rows. *)
Definition begin_scan (rows : ScanContext → RM (list Row)) (ctx : ScanContext) :
    Sessions X → (result Report BufferedCursor) * Sessions X :=
  fun st =>
    match rows ctx st with
    | (Ok l, st') => (Ok (buffered l), st')
    | (Err failed, st') =>
        (Err (raise_ctx (ce_error failed) (tc_server_name (sc_base ctx)) (ce_method failed)), st')
    end.
End scan.

Example base64_rejects : base64_decode "QUI*" = None ∧ base64_decode "Q" = None.
Proof. done. Qed.
Example base64_trailing_garbage : base64_decode "QQ==!?" = Some [65].
Proof. done. Qed.

(** ** base64: the RFC 4648 encoder, and the round trip *)

Definition digit (d : Z) : Z :=
  if d <? 26 then 65 + d else if d <? 52 then 71 + d else if d <? 62 then d - 4
  else if d =? 62 then 43 else 47.

Fixpoint encode_chunks (l : list Z) : list Z :=
  match l with
  | a :: b :: c :: rest =>
      [digit (a / 4); digit (a mod 4 * 16 + b / 16); digit (b mod 16 * 4 + c / 64); digit (c mod 64)]
      ++ encode_chunks rest
  | [a; b] => [digit (a / 4); digit (a mod 4 * 16 + b / 16); digit (b mod 16 * 4); 61]
  | [a] => [digit (a / 4); digit (a mod 4 * 16); 61; 61]
  | [] => []
  end.
Definition base64_encode (l : list Z) : string := of_bytes (encode_chunks l).

(** Facts about a sextet, by enumeration. *)
Lemma sextet_ind (p : Z → bool) :
  forallb (fun n => p (Z.of_nat n)) (seq 0 64) = true → ∀ d, 0 <= d < 64 → p d = true.
Proof.
  intros Hp d Hd. rewrite forallb_forall in Hp. rewrite <- (Z2Nat.id d) by lia.
  apply Hp, list_elem_of_In, elem_of_seq. lia.
Qed.

Lemma value_of_digit d : 0 <= d < 64 → value_of (digit d) = Some d.
Proof.
  intros Hd. apply (bool_decide_eq_true (value_of (digit d) = Some d)).
  revert d Hd. apply sextet_ind. by vm_compute.
Qed.

Lemma digit_class d :
  0 <= d < 64 → base64_space (digit d) = false ∧ (digit d =? 61) = false ∧ 0 <= digit d < 256.
Proof.
  intros Hd. assert (negb (base64_space (digit d)) && negb (digit d =? 61) && in_range 0 255 (digit d)
    = true) as Hb by (revert d Hd; apply sextet_ind; by vm_compute).
  unfold in_range in Hb. bool_prop. split_and!; done || lia.
Qed.

(** One sextet appended to the accumulator. *)
Lemma lor_sextet A v s :
  0 <= s → 0 <= v < 64 → Z.lor (A * 2 ^ (s + 6)) (Z.shiftl v s) = (A * 64 + v) * 2 ^ s.
Proof.
  intros Hs Hv. rewrite Z.shiftl_mul_pow2 by done. rewrite <- (Z.add_0_r (Z.lor _ _)).
  assert (Z.land (A * 2 ^ (s + 6)) (v * 2 ^ s) = 0) as <-.
  { apply Z.bits_inj'. intros n Hn. rewrite Z.land_spec, Z.bits_0.
    destruct (Z.lt_ge_cases n (s + 6)) as [Hlt|Hge].
    - by rewrite Z.mul_pow2_bits_low.
    - rewrite (Z.bits_above_log2 (v * 2 ^ s) n); [apply andb_false_r|nia|].
      destruct (Z.eq_dec v 0) as [->|Hne]; [simpl; lia|].
      rewrite Z.log2_mul_pow2 by lia.
      assert (Z.log2 v < 6) by (apply Z.log2_lt_pow2; lia). lia. }
  rewrite Z.add_lor_land, Z.pow_add_r by lia. lia.
Qed.

Lemma accumulate_digits A s ds :
  (0 <= s - 6 * Z.of_nat (length ds)) → Forall (fun d => 0 <= d < 64) ds →
  accumulate (A * 2 ^ s) (s - 6) (digit <$> ds) =
    Some (foldl (fun acc d => acc * 64 + d) A ds * 2 ^ (s - 6 * Z.of_nat (length ds))).
Proof.
  intros Hs Hd. revert A s Hs. induction Hd as [|d ds Hd _ IH]; intros A s Hs.
  { simpl. by rewrite Z.sub_0_r. }
  cbn [length] in *. rewrite fmap_cons. cbn [accumulate foldl]. rewrite value_of_digit by done.
  cbn [mbind option_bind]. replace s with ((s - 6) + 6) at 1 by lia. rewrite lor_sextet by lia.
  rewrite IH by lia. do 3 f_equal. lia.
Qed.

Lemma digits_ok l : Forall (fun d => 0 <= d < 64) l →
  filter (fun b => base64_space b = false) (digit <$> l) = digit <$> l ∧
  take_while (fun b => negb (b =? 61)) (digit <$> l) = digit <$> l ∧
  Forall (fun z => 0 <= z < 256) (digit <$> l).
Proof.
  induction 1 as [|d l Hd _ (IH1 & IH2 & IH3)]; [done|].
  destruct (digit_class d Hd) as (Hs & He & Hr).
  rewrite fmap_cons, filter_cons_True, IH1 by done. cbn [take_while]. rewrite He. simpl. rewrite IH2.
  split_and!; [done|done|]. by constructor.
Qed.

(** The encoder as sextets and padding. *)
Fixpoint sextets (l : list Z) : list Z :=
  match l with
  | a :: b :: c :: rest =>
      [a / 4; a mod 4 * 16 + b / 16; b mod 16 * 4 + c / 64; c mod 64] ++ sextets rest
  | [a; b] => [a / 4; a mod 4 * 16 + b / 16; b mod 16 * 4]
  | [a] => [a / 4; a mod 4 * 16]
  | [] => []
  end.
Fixpoint padding (l : list Z) : list Z :=
  match l with
  | _ :: _ :: _ :: rest => padding rest
  | [_; _] => [61]
  | [_] => [61; 61]
  | [] => []
  end.

Lemma list3_ind (P : list Z → Prop) :
  P [] → (∀ a, P [a]) → (∀ a b, P [a; b]) → (∀ a b c l, P l → P (a :: b :: c :: l)) → ∀ l, P l.
Proof.
  intros H0 H1 H2 H3. fix IH 1. intros [|a [|b [|c l]]]; [done|done|done|].
  apply H3, IH.
Qed.

Lemma encode_chunks_sextets l : encode_chunks l = (digit <$> sextets l) ++ padding l.
Proof. induction l as [| | |a b c l IH] using list3_ind; [done..|]. simpl. by rewrite IH. Qed.

Definition is_byte (z : Z) : Prop := 0 <= z < 256.

Lemma sextets_range l : Forall is_byte l → Forall (fun d => 0 <= d < 64) (sextets l).
Proof.
  unfold is_byte. induction l as [|a|a b|a b c l IH] using list3_ind; intros Hl.
  - constructor.
  - apply Forall_cons in Hl as [Ha _]. repeat constructor; Z.div_mod_to_equations; lia.
  - apply Forall_cons in Hl as [Ha [Hb _]%Forall_cons].
    repeat constructor; Z.div_mod_to_equations; lia.
  - apply Forall_cons in Hl as [Ha [Hb [Hc Hl]%Forall_cons]%Forall_cons].
    cbn [sextets app]. repeat (apply List.Forall_cons; [Z.div_mod_to_equations; lia|]). auto.
Qed.

Lemma padding_stops l : take_while (fun b => negb (b =? 61)) (filter (fun b => base64_space b = false) (padding l)) = [].
Proof. by induction l as [| | |a b c l IH] using list3_ind. Qed.

Lemma take_while_app {A} (p : A → bool) (l k : list A) :
  take_while p l = l → take_while p (l ++ k) = l ++ take_while p k.
Proof.
  induction l as [|x l IH]; [done|]. simpl. destruct (p x); [|done]. intros [= Hl].
  by rewrite IH.
Qed.

(** A full or partial group decodes to the bytes it came from. *)
Lemma decode_group ds :
  (2 ≤ length ds ≤ 4)%nat → Forall (fun d => 0 <= d < 64) ds →
  let acc := foldl (fun acc d => acc * 64 + d) 0 ds * 2 ^ (24 - 6 * Z.of_nat (length ds)) in
  decode_chunk (digit <$> ds) =
    Some ([acc / 65536 mod 256]
          ++ (if Nat.ltb 2 (length ds) then [acc / 256 mod 256] else [])
          ++ (if Nat.ltb 3 (length ds) then [acc mod 256] else [])).
Proof.
  intros Hl Hd acc. unfold decode_chunk. rewrite length_fmap.
  rewrite (proj2 (Nat.eqb_neq _ _)) by lia.
  pose proof (accumulate_digits 0 24 ds ltac:(lia) Hd) as Ha.
  change (0 * 2 ^ 24) with 0 in Ha. change (24 - 6) with 18 in Ha. rewrite Ha.
  cbn [mbind option_bind]. unfold u8. by rewrite !Z.shiftr_div_pow2 by lia.
Qed.

Lemma decode_sextets l : Forall is_byte l → decode_chunks (digit <$> sextets l) = Some l.
Proof.
  unfold is_byte. induction l as [|a|a b|a b c l IH] using list3_ind; intros Hl.
  - done.
  - pose proof (sextets_range _ Hl) as Hr. apply Forall_cons in Hl as [Ha _].
    change (decode_chunk (digit <$> sextets [a]) = Some [a]).
    rewrite decode_group by (simpl; done || lia). cbn -[Z.mul Z.div Z.modulo Z.pow]. f_equal.
    f_equal. change (2 ^ (24 - 6 * 2)) with 4096. Z.div_mod_to_equations; lia.
  - pose proof (sextets_range _ Hl) as Hr. apply Forall_cons in Hl as [Ha [Hb _]%Forall_cons].
    change (decode_chunk (digit <$> sextets [a; b]) = Some [a; b]).
    rewrite decode_group by (simpl; done || lia). cbn -[Z.mul Z.div Z.modulo Z.pow].
    change (2 ^ (24 - 6 * 3)) with 64. repeat f_equal; Z.div_mod_to_equations; lia.
  - assert (Forall (fun d => 0 <= d < 64) (sextets [a; b; c])) as Hr.
    { apply sextets_range. by apply (Forall_take _ 3) in Hl. }
    apply Forall_cons in Hl as [Ha [Hb [Hc Hl]%Forall_cons]%Forall_cons].
    change (decode_chunks (digit <$> sextets (a :: b :: c :: l))) with
      (out ← decode_chunk (digit <$> sextets [a; b; c]); more ← decode_chunks (digit <$> sextets l);
       Some (out ++ more)).
    rewrite decode_group by (simpl; done || lia). rewrite IH by done.
    cbn -[Z.mul Z.div Z.modulo Z.pow]. change (2 ^ (24 - 6 * 4)) with 1.
    repeat f_equal; Z.div_mod_to_equations; lia.
Qed.

Lemma base64_round_trip_lemma l : Forall is_byte l → base64_decode (base64_encode l) = Some l.
Proof.
  intros Hl. unfold base64_decode, base64_encode.
  destruct (digits_ok _ (sextets_range l Hl)) as (Hf & Ht & Hb).
  rewrite bytes_of_bytes.
  - rewrite encode_chunks_sextets, filter_app, Hf, take_while_app, padding_stops, app_nil_r by done.
    by apply decode_sextets.
  - rewrite encode_chunks_sextets. apply Forall_app. split; [done|].
    clear. induction l as [| | |a b c l IH] using list3_ind; repeat constructor; done || lia.
Qed.

(** ** The restriction is the intersection of the quals *)

Definition in_values (v : Value) (q : Qual) : bool := value_mem v (restricted_values q).

Lemma restricted_fold acc qs :
  foldl restricted_step (Some acc) qs = Some (filter (fun v => forallb (in_values v) qs = true) acc).
Proof.
  revert acc. induction qs as [|q qs IH]; intros acc; cbn [foldl restricted_step].
  - f_equal. induction acc as [|x acc IH]; [done|]. by rewrite filter_cons_True, <- IH by done.
  - unfold restricted_step at 2. rewrite IH. f_equal. rewrite list_filter_filter.
    apply list_filter_iff. intros v. cbn [forallb]. unfold in_values. rewrite andb_true_iff. naive_solver.
Qed.

Lemma dedupe_sub v l : v ∈ dedupe l → v ∈ l.
Proof.
  unfold dedupe. assert (∀ acc, v ∈ foldl (fun out v => if value_mem v out then out else out ++ [v]) acc l →
    v ∈ acc ∨ v ∈ l) as Hg.
  { induction l as [|x l IH]; intros acc; simpl; [auto|]. intros Hin%IH.
    destruct (value_mem x acc); set_solver. }
  intros Hin%Hg. set_solver.
Qed.

(** Every kept value is, literally or by the crate's equality, a value of each
    qual on the column. *)
Lemma restricted_sound quals col vs v q :
  restricted quals col = Some vs → v ∈ vs → q ∈ quals → field q = col →
  v ∈ restricted_values q ∨ in_values v q = true.
Proof.
  unfold restricted. intros (l & Hf & ->)%fmap_Some Hv%dedupe_sub Hq Hcol.
  assert (q ∈ filter (fun q => field q = col) quals) as Hin by (by apply list_elem_of_filter).
  destruct (filter _ quals) as [|q0 qs]; [by apply elem_of_nil in Hin|].
  cbn [foldl] in Hf. change (restricted_step None q0) with (Some (restricted_values q0)) in Hf.
  rewrite restricted_fold in Hf. injection Hf as <-.
  apply list_elem_of_filter in Hv as [Hall Hv]. apply elem_of_cons in Hin as [->|Hin]; [auto|].
  right. rewrite forallb_forall in Hall. by apply Hall, list_elem_of_In.
Qed.

Lemma restricted_None quals col : restricted quals col = None ↔ Forall (fun q => field q ≠ col) quals.
Proof.
  unfold restricted. rewrite fmap_None. induction quals as [|q qs IH]; [by split; [constructor|]|].
  rewrite Forall_cons. destruct (decide (field q = col)) as [Hf|Hf].
  - rewrite filter_cons_True by done. cbn [foldl].
    change (restricted_step None q) with (Some (restricted_values q)).
    rewrite restricted_fold. naive_solver.
  - rewrite filter_cons_False by done. naive_solver.
Qed.

Lemma value_eqb_Str x u : value_eqb x (Str u) = true → x = Str u.
Proof. destruct x; try done. simpl. intros ->%bool_decide_eq_true. done. Qed.

(** A text value of the restriction satisfies every qual on the column. *)
Lemma restricted_matches quals col vs u :
  restricted quals col = Some vs → Str u ∈ vs →
  ∀ q, q ∈ quals → field q = col → matches_json q col (Str u) = true.
Proof.
  intros Hr Hu q Hq Hf. assert (Str u ∈ restricted_values q) as Hin.
  { destruct (restricted_sound _ _ _ _ _ Hr Hu Hq Hf) as [|Hm]; [done|].
    unfold in_values, value_mem in Hm. apply existsb_In in Hm as (x & Hx & ->%value_eqb_Str). done. }
  unfold matches_json. rewrite bool_decide_true by done. simpl. unfold restricted_values in Hin.
  destruct (operator q); simpl.
  - apply list_elem_of_singleton in Hin as <-. simpl. by apply bool_decide_true.
  - destruct (value q); try (by apply elem_of_nil in Hin). simpl. apply existsb_In.
    exists (Str u). split; [done|]. simpl. by apply bool_decide_true.
Qed.

(** ** The rows *)

Lemma decode_chunk_bytes chunk out : decode_chunk chunk = Some out → Forall is_byte out.
Proof.
  unfold decode_chunk, u8, is_byte. destruct (Nat.eqb _ _); [done|].
  destruct (accumulate _ _ _) as [acc|]; [|done]. simpl. intros [= <-].
  repeat constructor; try apply Z.mod_pos_bound; try lia.
  rewrite Forall_app. split; case_match; repeat constructor; apply Z.mod_pos_bound; lia.
Qed.

Lemma decode_chunks_bytes l out : decode_chunks l = Some out → Forall is_byte out.
Proof.
  remember (length l) as n eqn:Hn. revert l out Hn.
  induction n as [n IH] using (well_founded_induction Nat.lt_wf_0).
  intros [|a [|b [|c [|d l]]]] out ->; try apply decode_chunk_bytes.
  { intros [= <-]. constructor. }
  cbn [decode_chunks]. intros (o & Ho & Hm)%bind_Some. apply bind_Some in Hm as (m & Hm & [= <-]).
  apply Forall_app. split; [by eapply decode_chunk_bytes|].
  apply (IH (length l)) with l; [simpl; lia|done|done].
Qed.

Lemma put_opt_set spec row col cell :
  put_opt spec row col cell = match cell with Some _ => set spec row col cell | None => row end.
Proof. by destruct cell. Qed.

Lemma row_ok_put_opt spec row col cell :
  row_ok spec row → typed_cell spec col cell → row_ok spec (put_opt spec row col cell).
Proof. rewrite put_opt_set. destruct cell; [apply row_ok_set|done]. Qed.

Lemma fmap_text_ok o : Catalog.ok_as Text (CText <$> o).
Proof. by destruct o. Qed.
#[export] Hint Resolve fmap_text_ok : str.

Ltac typed_put :=
  repeat first
    [ apply row_ok_empty
    | apply row_ok_put_opt; [|eapply Catalog.typed_cell_as; [reflexivity|]; cbn [c_type]; auto with str]
    | apply row_ok_set; [|eapply Catalog.typed_cell_as; [reflexivity|]; cbn [c_type]; auto with str] ].

(** One content block: well typed, and under the uri that was asked for. *)
Lemma resource_content_row_ok uri idx content row :
  resource_content_row RESOURCE_CONTENTS_SPEC uri idx content = Ok row →
  row_ok RESOURCE_CONTENTS_SPEC row ∧
  Catalog.cell_json RESOURCE_CONTENTS_SPEC row "uri" = Str uri.
Proof.
  unfold resource_content_row. intros (row1 & Hb & [= <-])%result_bind_Ok.
  assert (row_ok RESOURCE_CONTENTS_SPEC row1 ∧ row1 !! 0%nat = Some (Some (CText uri)) ∧
          (length row1 = 6)%nat) as (Hok & H0 & Hlen).
  { destruct (get content "blob" ≫= as_str) as [blob|]; simplify_eq.
    - apply result_bind_Ok in Hb as (b & Hb & [= <-]). apply ok_or_Ok, decode_chunks_bytes in Hb.
      split.
      + typed_put; [done|]. apply wrap_i32_range.
      + destruct (get content "mimeType" ≫= as_str), (get content "text" ≫= as_str); done.
    - split.
      + typed_put; [done|]. apply wrap_i32_range.
      + destruct (get content "mimeType" ≫= as_str), (get content "text" ≫= as_str); done. }
  assert (∀ row, row !! 0%nat = Some (Some (CText uri)) →
    Catalog.cell_json RESOURCE_CONTENTS_SPEC row "uri" = Str uri) as Hcell.
  { intros row Hrow. unfold Catalog.cell_json.
    change (attno RESOURCE_CONTENTS_SPEC "uri") with (Some 1%nat). cbn [mbind option_bind].
    change (1 - 1)%nat with 0%nat. by rewrite Hrow. }
  destruct (get content "_meta") as [meta|]; [|by auto]. destruct (is_null meta); [by auto|].
  split.
  - by apply row_ok_set; [|eapply Catalog.typed_cell_as; [reflexivity|]].
  - apply Hcell. unfold put, set.
    change (attno RESOURCE_CONTENTS_SPEC "meta") with (Some 6%nat). cbn [mbind option_bind].
    change (6 - 1)%nat with 5%nat. by rewrite list_lookup_insert_ne by lia.
Qed.

Section scan_facts.
Context `{Serde, Net} {X : Type}.
Implicit Types (st : Sessions X).

Lemma rows_from_elem {A} (f : nat → A → result CtxError Row) i xs rows row :
  rows_from f i xs = Ok rows → row ∈ rows → ∃ j x, f j x = Ok row.
Proof.
  revert i rows. induction xs as [|x xs IH]; intros i rows; simpl.
  - intros [= <-] Hin. by apply elem_of_nil in Hin.
  - intros (r & Hr & Hm)%result_bind_Ok. apply result_bind_Ok in Hm as (more & Hm & [= <-]).
    intros [->|Hin]%elem_of_cons; eauto.
Qed.

Lemma for_rows_elem {A} (f : A → M (Sessions X) CtxError (list Row)) xs st rows st' row :
  for_rows f xs st = (Ok rows, st') → row ∈ rows →
  ∃ x st1 rs st2, x ∈ xs ∧ f x st1 = (Ok rs, st2) ∧ row ∈ rs.
Proof.
  revert st rows. induction xs as [|x xs IH]; intros st rows; cbn [for_rows].
  - unfold mret, M_ret. intros [= <- <-] Hin. by apply elem_of_nil in Hin.
  - intros (rs & st1 & Hf & Hm)%m_bind_inv_ok.
    apply m_bind_inv_ok in Hm as (more & st2 & Hm & Hr). unfold mret, M_ret in Hr.
    injection Hr as <- <-. intros [Hin|Hin]%elem_of_app.
    + exists x, st, rs, st1. split; [by left|done].
    + destruct (IH _ _ Hm Hin) as (y & s1 & r & s2 & Hy & ?). exists y, s1, r, s2.
      split; [by right|done].
Qed.

Lemma read_uri_row ctx uri st rows st' row :
  tc_spec (sc_base ctx) = RESOURCE_CONTENTS_SPEC →
  read_uri ctx uri st = (Ok rows, st') → row ∈ rows →
  row_ok RESOURCE_CONTENTS_SPEC row ∧
  Catalog.cell_json RESOURCE_CONTENTS_SPEC row "uri" = Str uri.
Proof.
  intros Hspec (result & st1 & _ & Hl)%m_bind_inv_ok Hin. unfold m_lift in Hl.
  injection Hl as Hl <-. rewrite Hspec in Hl.
  destruct (rows_from_elem _ _ _ _ _ Hl Hin) as (j & x & Hx). by eapply resource_content_row_ok.
Qed.

Lemma required_columns_missing quals cols :
  Exists (fun c => restricted quals c = None) cols →
  ∃ c, c ∈ cols ∧ restricted quals c = None ∧
    required_columns quals cols =
      Err (feature ("mcp.completions requires a " +:+ c +:+ " = qual (PRD-7 §4.6)")
             "completion/complete").
Proof.
  induction cols as [|c cols IH]; intros He; [by inversion He|]. simpl.
  destruct (restricted quals c) as [vs|] eqn:Hc; [|exists c; by split; [left|]].
  apply Exists_cons in He as [?|He]; [congruence|].
  destruct (IH He) as (c' & Hin & Hn & ->). exists c'. split; [by right|done].
Qed.
End scan_facts.

(** ** Properties *)

(** base64 round trip: decoding the RFC 4648 encoding (padding included) of
    any byte string gives the bytes back, and whatever decodes is a list of
    bytes. *)
Theorem base64_round_trip (l : list Z) :
  Forall is_byte l →
  base64_decode (base64_encode l) = Some l ∧
  ∀ input out, base64_decode input = Some out → Forall is_byte out.
Proof.
  intros Hl. split; [by apply base64_round_trip_lemma|].
  intros input out. apply decode_chunks_bytes.
Qed.

(** C27. A scan of [resource_contents] returns only well-typed rows, and each row
    satisfies every qual on [uri] that was pushed to it, so PostgreSQL need not
    check them again. *)
Theorem resource_contents_sound `{Serde, Net} {X} (ctx : ScanContext) (st st' : Sessions X) rows :
  tc_spec (sc_base ctx) = RESOURCE_CONTENTS_SPEC →
  resource_contents_rows ctx st = (Ok rows, st') →
  Forall (fun row =>
    row_ok RESOURCE_CONTENTS_SPEC row ∧
    ∀ q, q ∈ sc_quals ctx → field q = "uri" →
      matches_json q "uri" (Catalog.cell_json RESOURCE_CONTENTS_SPEC row "uri") = true) rows.
Proof.
  intros Hspec (uris & st1 & Hu & Hf)%m_bind_inv_ok. apply Forall_forall. intros row Hin.
  destruct (for_rows_elem _ _ _ _ _ _ Hf Hin) as (uri & s1 & rs & s2 & Huri & Hr & Hrow).
  destruct (read_uri_row _ _ _ _ _ _ Hspec Hr Hrow) as [Hok ->]. split; [done|].
  intros q Hq Hfq. destruct (restricted (sc_quals ctx) "uri") as [vs|] eqn:Hres.
  - unfold mret, M_ret in Hu. injection Hu as <- <-.
    apply list_elem_of_omap in Huri as (v & Hv & Ht). destruct v; try done. injection Ht as ->.
    by eapply restricted_matches.
  - apply restricted_None in Hres. rewrite Forall_forall in Hres. by destruct (Hres q Hq).
Qed.

(** A read-through scan without the quals it needs does no I/O: with no [uri]
    qual and [max_unqualified_reads] 0, without a [prompt] qual, or without one of
    the three completion quals, the scan fails with 0A000 (naming a missing column)
    and nothing is sent or cached; and a restriction to the empty set yields no rows,
    again without any request. *)
Theorem missing_quals_no_io `{Serde, Net} {X} (ctx : ScanContext) (st : Sessions X) :
  (restricted (sc_quals ctx) "uri" = None →
   so_max_unqualified_reads (options (tc_resolved (sc_base ctx))) = 0 →
   resource_contents_rows ctx st = (Err (feature UNQUALIFIED_RESOURCE_CONTENTS "resources/list"), st)) ∧
  (restricted (sc_quals ctx) "uri" = Some [] → resource_contents_rows ctx st = (Ok [], st)) ∧
  (restricted (sc_quals ctx) "prompt" = None →
   ∃ m, prompt_messages_rows ctx st = (Err (feature m "prompts/get"), st)) ∧
  (Exists (fun c => restricted (sc_quals ctx) c = None) COMPLETION_REQUIRED →
   ∃ c, c ∈ COMPLETION_REQUIRED ∧ restricted (sc_quals ctx) c = None ∧
     completions_rows ctx st =
       (Err (feature ("mcp.completions requires a " +:+ c +:+ " = qual (PRD-7 §4.6)")
               "completion/complete"), st)).
Proof.
  split_and!.
  - intros Hr Hc. unfold resource_contents_rows, unqualified_uris. by rewrite Hr, Hc.
  - intros Hr. unfold resource_contents_rows. by rewrite Hr.
  - intros Hr. unfold prompt_messages_rows. rewrite Hr. by eexists.
  - intros (c & Hc & Hn & Hreq)%required_columns_missing. exists c. split_and!; [done|done|].
    unfold completions_rows. by rewrite Hreq.
Qed.

(** ** Witnesses *)

Lemma base64_round_trip_witness :
  base64_decode (base64_encode [77; 97; 110; 255]) = Some [77; 97; 110; 255] ∧
  base64_encode [77; 97; 110; 255] = "TWFu/w==".
Proof.
  split; [|by vm_compute]. apply (base64_round_trip [77; 97; 110; 255]).
  repeat (apply List.Forall_cons; [by split|]). apply List.Forall_nil.
Defined.

Module Wit.
(** A server whose every answer holds one text block. *)
Definition reply : Value :=
  Object [("result", Object [("contents", Array [Object [("text", Str "hi")]])])].
Definition codec : Serde := {|
  json_from_str s := if bool_decide (s = "{r}") then Some reply else None;
  json_to_string _ := "{r}" |}.
Definition ctx (quals : list Qual) : ScanContext :=
  mkScanContext (mkTableContext RESOURCE_CONTENTS_SPEC "srv" Session.Wit.resolved []) quals.
End Wit.
#[local] Existing Instance Wit.codec.
#[local] Existing Instance Session.Wit.steady.

Lemma resource_contents_sound_witness :
  ∃ row st', resource_contents_rows (Wit.ctx [equal "uri" (Str "a:b")]) Session.Wit.empty
    = (Ok [row], st') ∧
    matches_json (equal "uri" (Str "a:b")) "uri"
      (Catalog.cell_json RESOURCE_CONTENTS_SPEC row "uri") = true.
Proof.
  set (run := resource_contents_rows (Wit.ctx [equal "uri" (Str "a:b")]) Session.Wit.empty).
  assert (run.1 = Ok [[Some (CText "a:b"); Some (CInt4 0); None; Some (CText "hi"); None; None]]) as Hr
    by (by vm_compute).
  exists [Some (CText "a:b"); Some (CInt4 0); None; Some (CText "hi"); None; None], run.2.
  assert (run = (Ok [[Some (CText "a:b"); Some (CInt4 0); None; Some (CText "hi"); None; None]], run.2))
    as Heq by (by rewrite <- Hr, <- surjective_pairing).
  split; [exact Heq|].
  pose proof (resource_contents_sound (Wit.ctx [equal "uri" (Str "a:b")]) Session.Wit.empty run.2 _
    eq_refl Heq) as Hall.
  apply Forall_inv in Hall as [_ Hq]. apply Hq; [by left|done].
Defined.

Lemma missing_quals_no_io_witness :
  resource_contents_rows (Wit.ctx []) Session.Wit.empty =
    (Err (feature UNQUALIFIED_RESOURCE_CONTENTS "resources/list"), Session.Wit.empty).
Proof. apply (missing_quals_no_io (Wit.ctx []) Session.Wit.empty); reflexivity. Defined.

End Readthrough.
