(* ===== verification/Quote.v ===== *)
(** * Quoted SQL tokens

    PostgreSQL's lexical rule for a quoted identifier and for a string constant
    (with [standard_conforming_strings] on): the token runs to the first quote
    that is not doubled, and a doubled quote stands for one.  Shared by the parts
    of the program that compose SQL text. *)

From Stdlib Require Import Ascii String ZArith Lia.
From stdpp Require Import base numbers gmap sets strings pretty list.
From S2P Require Import Prelude Str.
#[local] Open Scope Z_scope.

Module Quote.

(** The text of the token after its opening quote, and what follows it. *)
Fixpoint read_body (q : ascii) (s : string) : option (string * string) :=
  match s with
  | EmptyString => None
  | String c s' =>
      if Ascii.eqb c q then
        match s' with
        | String c' s'' =>
            if Ascii.eqb c' q then
              match read_body q s'' with
              | Some (t, rest) => Some (String q t, rest)
              | None => None
              end
            else Some (EmptyString, s')
        | EmptyString => Some (EmptyString, EmptyString)
        end
      else match read_body q s' with
           | Some (t, rest) => Some (String c t, rest)
           | None => None
           end
  end.

Definition read_quoted (q : ascii) (s : string) : option (string * string) :=
  match s with
  | String c s' => if Ascii.eqb c q then read_body q s' else None
  | EmptyString => None
  end.

Definition one (q : ascii) : string := String q EmptyString.

(** A quoted token whose quotes are doubled. *)
Definition enquote (q : ascii) (s : string) : string :=
  one q +:+ replace q (one q +:+ one q) s +:+ one q.

(** What may follow the token: not another quote. *)
Definition not_quote (q : ascii) (rest : string) : Prop :=
  match rest with String c _ => c ≠ q | EmptyString => True end.

Lemma replace_cons c r a s :
  replace c r (String a s) = if Ascii.eqb a c then r +:+ replace c r s else String a (replace c r s).
Proof. done. Qed.

Lemma read_body_replace q s rest :
  not_quote q rest → read_body q (replace q (one q +:+ one q) s +:+ one q +:+ rest) = Some (s, rest).
Proof.
  intros Hr. induction s as [|c s IH].
  - cbn [replace]. rewrite app_string_nil. unfold one. rewrite app_string_cons, app_string_nil.
    cbn [read_body]. rewrite Ascii.eqb_refl. destruct rest as [|c rest]; [done|].
    by rewrite (proj2 (Ascii.eqb_neq c q) Hr).
  - rewrite replace_cons. destruct (Ascii.eqb_spec c q) as [->|Hne].
    + unfold one at 1 2. rewrite !app_string_cons, app_string_nil, !app_string_cons.
      cbn [read_body]. rewrite Ascii.eqb_refl. fold (one q). rewrite app_string_nil in *.
      by rewrite IH.
    + rewrite app_string_cons. cbn [read_body]. rewrite (proj2 (Ascii.eqb_neq c q) Hne). by rewrite IH.
Qed.

(** Composed tokens read back, whatever text they hold. *)
Lemma read_enquote q s rest : not_quote q rest → read_quoted q (enquote q s +:+ rest) = Some (s, rest).
Proof.
  intros Hr. unfold enquote. rewrite !app_string_assoc. unfold one at 1.
  rewrite app_string_cons, app_string_nil. cbn [read_quoted]. rewrite Ascii.eqb_refl.
  by apply read_body_replace.
Qed.

End Quote.
