(* ===== verification/ToolCalls.v ===== *)
(** * tables/tool_calls.rs: invocation and the call log

    One [tools/call] per inserted row, the capped per-(server, role) log, the
    audit statement, and the scan over the log.  The random source, the system
    clock, SPI and the Debug form of a cell are the class [PgEnv]; the SQL
    statements run are recorded in the state. *)

From Stdlib Require Import Ascii String ZArith Lia.
From stdpp Require Import base numbers gmap sets strings pretty list.
From S2P Require Import Prelude Str Json Errors Options Quals Tables Cursor Client Session Catalog Quote.
Import Options Quals Tables Client Session.
#[local] Open Scope Z_scope.

Class PgEnv := {
  (** [pg_strong_random] into 16 bytes; [None] when it fails. *)
  strong_random : World → option (list Z);
  (** [SystemTime::now()] in microseconds since the Unix epoch. *)
  system_micros : World → Z;
  (** [Spi::run] after the statements already run: success or the message. *)
  spi_run : list string → string → result string unit;
  cell_debug : Cell → string;
}.

Module ToolCalls.

Definition LOG_CAP : nat := 1000.
Definition PG_EPOCH_UNIX_MICROS : Z := 946684800000000.

Record CallRecord : Type := mkRecord {
  r_id : list Z;
  r_tool : string;
  r_arguments : Value;
  r_content : option Value;
  r_structured : option Value;
  r_is_error : bool;
  r_error : option Value;
  r_called_at : Z;
  r_duration_ms : Z;
}.

(** The thread-local logs, newest record last, and the statements SPI has run. *)
Abbreviation CallLogs := (gmap SessionKey (list CallRecord)).
Record Locals : Type := mkLocals { call_logs : CallLogs; spi_done : list string }.

(** ** Identifiers and time *)

Definition wrap_i64 (n : Z) : Z := (n + 2 ^ 63) mod 2 ^ 64 - 2 ^ 63.

Definition now_pg_micros `{PgEnv} (w : World) : Z :=
  let unix := if system_micros w <? 0 then 0 else wrap_i64 (system_micros w) in
  unix - PG_EPOCH_UNIX_MICROS.

(** [now as u128], big-endian. *)
Definition be16 (n : Z) : list Z :=
  map (fun i => (n mod 2 ^ 128) / 256 ^ Z.of_nat (15 - i) mod 256) (seq 0 16).

(** Setting the version and the variant. *)
Definition stamp (b : list Z) : list Z :=
  let b := alter (fun x => Z.lor (Z.land x 15) 64) 6%nat b in
  alter (fun x => Z.lor (Z.land x 63) 128) 8%nat b.

Definition uuid_v4 `{PgEnv} (w : World) : list Z :=
  stamp (match strong_random w with Some b => b | None => be16 (now_pg_micros w) end).

Definition uuid_hex (b : list Z) : string :=
  let hex := concat (hex2 <$> b) in
  let part a n := str_take n (str_drop a hex) in
  part 0%nat 8%nat +:+ "-" +:+ part 8%nat 4%nat +:+ "-" +:+ part 12%nat 4%nat +:+ "-"
  +:+ part 16%nat 4%nat +:+ "-" +:+ part 20%nat 12%nat.

(** ** The log *)

(** [while log.len() > LOG_CAP { log.pop_front() }] *)
Definition trim_log (log : list CallRecord) : list CallRecord :=
  List.skipn (length log - LOG_CAP) log.

Definition record (key : SessionKey) (rec : CallRecord) (logs : CallLogs) : CallLogs :=
  <[key := trim_log (default [] (logs !! key) ++ [rec])]> logs.

Definition snapshot (key : SessionKey) (logs : CallLogs) : list CallRecord :=
  reverse (default [] (logs !! key)).

Definition row_from_record (rec : CallRecord) : Row :=
  [Some (CUuid (r_id rec)); Some (CText (r_tool rec)); Some (CJson (r_arguments rec));
   CJson <$> r_content rec; CJson <$> r_structured rec; Some (CBool (r_is_error rec));
   CJson <$> r_error rec; Some (CTimestampTz (r_called_at rec)); Some (CInt4 (r_duration_ms rec))].

(** ** SELECT *)

Definition log_qual_matches (rec : CallRecord) (q : Qual) : bool :=
  let check candidate :=
    match operator q with
    | Equal => value_eqb (value q) candidate
    | AnyEqual => match as_array (value q) with
                  | Some items => value_mem candidate items
                  | None => false
                  end
    end in
  if bool_decide (field q = "tool") then check (Str (r_tool rec))
  else if bool_decide (field q = "id") then check (Str (uuid_hex (r_id rec)))
  else true.

Definition log_entry_matches (quals : list Qual) (rec : CallRecord) : bool :=
  forallb (log_qual_matches rec) quals.

(** A cursor over [vec::IntoIter]: reading consumes; [re_scan] is the trait's
    default and changes nothing. *)
Record LogCursor : Type := mkLogCursor { lc_rows : list Row }.
Definition log_iter_scan (c : LogCursor) : McpResult (option Row) * LogCursor :=
  let '(row, rest) := take_row (lc_rows c) in (Ok row, mkLogCursor rest).

#[global] Instance log_cursor : ScanCursor LogCursor := {|
  iter_scan := log_iter_scan; re_scan := default_re_scan |}.

#[global] Program Instance log_cursor_laws : ScanCursorLaws LogCursor := {|
  cursor_rest := lc_rows; cursor_restart := lc_rows; rewinds _ := false |}.
Next Obligation. done. Qed.
Next Obligation. intros [[|row rows]]; [done|]. eexists. repeat split; [by apply (take_row_suffix row)|done]. Qed.
Next Obligation. intros c. by exists c. Qed.

Definition begin_scan (ctx : ScanContext) (logs : CallLogs) : LogCursor :=
  mkLogCursor (row_from_record <$>
    filter (fun rec => log_entry_matches (sc_quals ctx) rec = true)
      (snapshot (cache_key (sc_base ctx)) logs)).

(** ** SQL text *)

Definition strip_nul (s : string) : string := replace "000" EmptyString s.
Definition sql_literal (v : string) : string := sq +:+ replace "'" (sq +:+ sq) (strip_nul v) +:+ sq.
Definition sql_ident (v : string) : string := replace (ascii_of_nat 34) (dq +:+ dq) v.

Section audit.
Context `{Serde, PgCatalog, PgEnv}.

Definition sql_jsonb (v : Value) : string := sql_literal (json_to_string v) +:+ "::jsonb".
Definition sql_jsonb_opt (v : option Value) : string :=
  match v with Some v => sql_jsonb v | None => "NULL" end.

Definition EXPECTED : list (string * string) :=
  [("id", "uuid"); ("server", "text"); ("role_name", "name"); ("tool", "text");
   ("arguments", "jsonb"); ("content", "jsonb"); ("structured", "jsonb"); ("is_error", "boolean");
   ("error", "jsonb"); ("called_at", "timestamp with time zone"); ("duration_ms", "integer")].

(** The first expected column that is absent or of another type. *)
Fixpoint check_shape (schema table : string) (found : list (string * string))
    (expected : list (string * string)) : McpResult unit :=
  match expected with
  | [] => Ok tt
  | (column, want) :: rest =>
      match opt_get column found with
      | None => Err (DatatypeMismatch ("audit table " +:+ quoted (schema +:+ "." +:+ table)
                  +:+ " is missing column " +:+ quoted column +:+ " (expected " +:+ want
                  +:+ "); the extension never alters the table (PRD-7 §4.8)"))
      | Some have =>
          if bool_decide (have = want) then check_shape schema table found rest
          else Err (DatatypeMismatch ("audit table " +:+ quoted (schema +:+ "." +:+ table)
                 +:+ " column " +:+ quoted column +:+ " is " +:+ have +:+ ", expected " +:+ want
                 +:+ "; the extension never alters the table (PRD-7 §4.8)"))
      end
  end.

(** [from_str::<HashMap<String, String>>]: an object whose values are strings. *)
Definition string_map (raw : string) : option (list (string * string)) :=
  m ← json_from_str raw ≫= as_object;
  mapM (fun kv => (fun v => (kv.1, v)) <$> as_str kv.2) m.

Definition regclass_sql (qualified : string) : string :=
  "SELECT to_regclass('" +:+ qualified +:+ "')::text".

Definition listing_sql (schema table : string) : string :=
  "SELECT jsonb_object_agg(a.attname::text, format_type(a.atttypid, a.atttypmod)::text)::text"
  +:+ nl +:+ "           FROM pg_attribute a"
  +:+ nl +:+ "           JOIN pg_class c ON c.oid = a.attrelid"
  +:+ nl +:+ "           JOIN pg_namespace n ON n.oid = c.relnamespace"
  +:+ nl +:+ "          WHERE n.nspname = " +:+ sql_literal schema +:+ " AND c.relname = "
  +:+ sql_literal table
  +:+ nl +:+ "            AND a.attnum > 0 AND NOT a.attisdropped".

Definition lookup_failed (e : string) : McpError := Internal ("audit lookup failed: " +:+ e).

Definition validate_audit_shape (schema table : string) : McpResult unit :=
  let qualified := sql_ident schema +:+ "." +:+ sql_ident table in
  exists_ ← map_err lookup_failed (spi_get_one (regclass_sql qualified));
  match exists_ with
  | None => Err (DatatypeMismatch ("audit table " +:+ qualified
      +:+ " does not exist; the extension never creates it — create it with the shape from PRD-7 §4.8 (first column: id uuid)"))
  | Some _ =>
      listing ← map_err lookup_failed (spi_get_one (listing_sql schema table));
      found ← match listing with
              | Some raw => ok_or (Internal "audit column listing was not valid json") (string_map raw)
              | None => Ok []
              end;
      check_shape schema table found EXPECTED
  end.

Definition audit_sql (server_name schema table : string) (rec : CallRecord) : string :=
  "INSERT INTO " +:+ quoted (sql_ident schema) +:+ "." +:+ quoted (sql_ident table)
  +:+ " (id, server, role_name, tool, arguments, content, structured, is_error, error, called_at, duration_ms) VALUES ('"
  +:+ uuid_hex (r_id rec) +:+ "'::uuid, " +:+ sql_literal server_name +:+ ", current_user, "
  +:+ sql_literal (r_tool rec) +:+ ", " +:+ sql_jsonb (r_arguments rec) +:+ ", "
  +:+ sql_jsonb_opt (r_content rec) +:+ ", " +:+ sql_jsonb_opt (r_structured rec) +:+ ", "
  +:+ (if r_is_error rec then "TRUE" else "FALSE") +:+ ", " +:+ sql_jsonb_opt (r_error rec)
  +:+ ", '2000-01-01 00:00:00+00'::timestamptz + " +:+ fmt_Z (r_called_at rec)
  +:+ " * interval '1 microsecond', " +:+ fmt_Z (r_duration_ms rec) +:+ ")".

Definition audit_append (ctx : TableContext) (rec : CallRecord) (done : list string) :
    McpResult unit * list string :=
  match so_audit_table (options (tc_resolved ctx)) with
  | None => (Ok tt, done)
  | Some target =>
      match split_once "." target with
      | None => (Err (Internal ("audit_table " +:+ quoted target +:+ " lost its qualification")), done)
      | Some (schema, table) =>
          match validate_audit_shape schema table with
          | Err e => (Err e, done)
          | Ok _ =>
              let sql := audit_sql (tc_server_name ctx) schema table rec in
              match spi_run done sql with
              | Ok _ => (Ok tt, done ++ [sql])
              | Err e => (Err (Internal ("audit insert into " +:+ quoted target +:+ " failed: "
                                         +:+ e)), done)
              end
          end
      end
  end.
End audit.

(** ** INSERT *)

Section insert.
Context `{Serde, Net, PgCatalog, PgEnv}.

Definition input_tool (input : InsertRow) : McpResult string :=
  match ir_value input "tool" with
  | Some (CText tool) => Ok tool
  | Some other => Err (Internal ("column " +:+ quoted "tool" +:+ " arrived as " +:+ cell_debug other
                                 +:+ "; expected text"))
  | None => Err (NotNullViolation ("null value in column " +:+ quoted "tool" +:+ " of relation "
              +:+ quoted "tool_calls" +:+ ": a call names a tool (PRD-7 §4.7)"))
  end.

Definition input_arguments (input : InsertRow) : Value :=
  match ir_value input "arguments" with Some (CJson v) => v | _ => Object [] end.

Definition call_params (tool : string) (arguments : Value) : Value :=
  Object [("name", Str tool); ("arguments", arguments)].

(** [i32::try_from(started.elapsed().as_millis()).unwrap_or(i32::MAX)] *)
Definition duration (before after : Z) : Z :=
  let elapsed := Z.max 0 (after - before) in
  if elapsed <=? i32_max then elapsed else i32_max.

Definition make_record (tool : string) (arguments result : Value) (called_at duration_ms : Z)
    (w : World) : CallRecord :=
  mkRecord (uuid_v4 w) tool arguments (get result "content") (get result "structuredContent")
    (is_error_result result) None called_at duration_ms.

Definition insert (ctx : TableContext) (input : InsertRow) : M (Sessions Locals) McpError Row :=
  tool ← m_lift (input_tool input);
  let arguments := input_arguments input in
  st0 ← m_get;
  let called_at := now_pg_micros (world st0) in
  result ← with_session (tc_resolved ctx)
             (fun tr => lift_x (request "tools/call" (call_params tool arguments) tr));
  st1 ← m_get;
  let duration_ms := duration (w_now (world st0)) (w_now (world st1)) in
  let rec := make_record tool arguments result called_at duration_ms (world st1) in
  let logs := record (cache_key ctx) rec (call_logs (extra st1)) in
  let '(audited, done) := audit_append ctx rec (spi_done (extra st1)) in
  _ ← m_put (mkSessions (sessions st1) (world st1) (mkLocals logs done));
  _ ← m_lift audited;
  mret (row_from_record rec).
End insert.

(** ** The log is the recent history *)

Lemma snapshot_record key rec logs :
  snapshot key (record key rec logs) = take LOG_CAP (rec :: snapshot key logs).
Proof.
  unfold snapshot, record, trim_log. rewrite lookup_insert_eq. cbn [default from_option id].
  set (l := default [] (logs !! key)).
  rewrite <- (reverse_snoc l rec). rewrite take_reverse. by rewrite length_app.
Qed.

Lemma snapshot_record_ne key key' rec logs :
  key ≠ key' → snapshot key' (record key rec logs) = snapshot key' logs.
Proof. intros Hne. unfold snapshot, record. by rewrite lookup_insert_ne. Qed.

Definition run_log (history : list (SessionKey * CallRecord)) : CallLogs :=
  foldl (fun logs '(k, rec) => record k rec logs) ∅ history.

Lemma run_log_snapshot history key :
  snapshot key (run_log history) =
  take LOG_CAP (reverse (snd <$> filter (fun kr => kr.1 = key) history)).
Proof.
  induction history as [|[k rec] history IH] using rev_ind; [done|].
  unfold run_log in *. rewrite foldl_snoc, filter_app, fmap_app, reverse_app.
  destruct (decide (k = key)) as [->|Hne].
  - rewrite snapshot_record, IH, filter_cons_True by done. cbn [filter list_filter fmap list_fmap].
    change (reverse [(key, rec).2]) with [rec]. cbn [app].
    change LOG_CAP with (S 999). rewrite !firstn_cons. f_equal. rewrite take_take. f_equal.
  - rewrite snapshot_record_ne, IH, filter_cons_False by done. done.
Qed.

(** ** Rows *)

Record env_ok `{PgEnv} : Prop := {
  random_ok w b : strong_random w = Some b → length b = 16%nat ∧ Forall (fun x => 0 <= x < 256) b;
  clock_ok w : 0 <= system_micros w < 2 ^ 63;
}.

Lemma byte_land_lor x m c : 0 <= x → 0 <= m < 256 → 0 <= c < 256 → 0 <= Z.lor (Z.land x m) c < 256.
Proof.
  intros Hx Hm Hc. assert (0 <= Z.land x m) by (apply Z.land_nonneg; lia).
  assert (0 <= Z.lor (Z.land x m) c) by (apply Z.lor_nonneg; lia). split; [done|].
  destruct (Z.eq_dec (Z.lor (Z.land x m) c) 0) as [->|Hne]; [lia|].
  change 256 with (2 ^ 8). apply Z.log2_lt_pow2; [lia|]. rewrite Z.log2_lor by lia.
  assert (∀ y, 0 <= y < 256 → Z.log2 y < 8) as Hl.
  { intros y Hy. destruct (Z.eq_dec y 0) as [->|]; [done|]. apply Z.log2_lt_pow2; lia. }
  pose proof (Z.log2_land x m Hx ltac:(lia)). pose proof (Hl m Hm). pose proof (Hl c Hc). lia.
Qed.

Lemma stamp_ok b :
  length b = 16%nat → Forall (fun x => 0 <= x < 256) b →
  Forall (fun x => 0 <= x < 256) (stamp b) ∧ length (stamp b) = 16%nat.
Proof.
  intros Hl Hb. unfold stamp. rewrite !length_alter. split; [|done].
  repeat (apply Forall_alter; [|intros x _ Hx; apply byte_land_lor; lia]). done.
Qed.

Lemma uuid_v4_ok `{PgEnv} w :
  env_ok → Forall (fun x => 0 <= x < 256) (uuid_v4 w) ∧ length (uuid_v4 w) = 16%nat.
Proof.
  intros [Hr _]. unfold uuid_v4. destruct (strong_random w) as [b|] eqn:Hb.
  - destruct (Hr w b Hb). by apply stamp_ok.
  - apply stamp_ok; [done|]. unfold be16. apply Forall_forall. intros x Hx.
    apply list_elem_of_In, in_map_iff in Hx as (i & <- & _). apply Z.mod_pos_bound. lia.
Qed.

Lemma now_pg_micros_ok `{PgEnv} w : env_ok → i64_min <= now_pg_micros w <= i64_max.
Proof.
  intros [_ Hc]. specialize (Hc w). unfold now_pg_micros, wrap_i64, PG_EPOCH_UNIX_MICROS, i64_min, i64_max.
  rewrite (proj2 (Z.ltb_ge _ _)) by lia. rewrite Z.mod_small by lia. lia.
Qed.

Definition record_ok (rec : CallRecord) : Prop :=
  (Forall (fun x => 0 <= x < 256) (r_id rec) ∧ length (r_id rec) = 16%nat) ∧
  i64_min <= r_called_at rec <= i64_max ∧ i32_min <= r_duration_ms rec <= i32_max.

Lemma row_from_record_ok rec : record_ok rec → row_ok TOOL_CALLS_SPEC (row_from_record rec).
Proof.
  intros (Hid & Hc & Hd). unfold row_ok, row_from_record.
  destruct (r_content rec), (r_structured rec), (r_error rec); repeat constructor; simpl; tauto || lia.
Qed.

Lemma duration_range a b : i32_min <= duration a b <= i32_max.
Proof. unfold duration, i32_min, i32_max. destruct (Z.leb_spec (Z.max 0 (b - a)) 2147483647); lia. Qed.

Lemma make_record_ok `{PgEnv} tool args result w0 w1 w2 w :
  env_ok → record_ok (make_record tool args result (now_pg_micros w0) (duration w1 w2) w).
Proof.
  intros He. split_and!; [by apply uuid_v4_ok|by apply uuid_v4_ok|apply now_pg_micros_ok; done..|
    apply duration_range|apply duration_range].
Qed.

Section insert_facts.
Context `{Serde, Net, PgCatalog, PgEnv}.

(** A session method leaves the other thread-local state alone, and time only
    moves forward. *)
Lemma lift_extra {X A} r (m : TransportCtx → M (McpSession * World) McpError A) (st : Sessions X) out st' :
  with_session r (fun tr => lift_x (m tr)) st = (out, st') → extra st' = extra st.
Proof.
  unfold with_session. destruct (acquire r st) as [[s|e] w]; [|by intros; simplify_eq].
  unfold lift_x. destruct (m _ _) as [r0 [s0 w0]]. intros; by simplify_eq.
Qed.

(** The audit step never touches the log and runs at most one statement. *)
Lemma audit_append_done ctx rec done r done' :
  audit_append ctx rec done = (r, done') →
  (done' = done ∨ ∃ sql, done' = done ++ [sql]) ∧ (so_audit_table (options (tc_resolved ctx)) = None → r = Ok tt).
Proof. unfold audit_append. intros Ha. repeat case_match; simplify_eq; split; eauto; done. Qed.

(** The audit step on every path, and what the statement then answers. *)
Lemma audit_outcome ctx rec done r done' :
  audit_append ctx rec done = (r, done') →
  let out := match r with Ok _ => Ok (row_from_record rec) | Err e => Err e end in
  match split_once "." <$> so_audit_table (options (tc_resolved ctx)) with
  | None => out = Ok (row_from_record rec) ∧ done' = done
  | Some None => (∃ m, out = Err (Internal m)) ∧ done' = done
  | Some (Some (schema, table)) =>
      let sql := audit_sql (tc_server_name ctx) schema table rec in
      match validate_audit_shape schema table, spi_run done sql with
      | Err e, _ => out = Err e ∧ done' = done
      | Ok _, Err _ => (∃ m, out = Err (Internal m)) ∧ done' = done
      | Ok _, Ok _ => out = Ok (row_from_record rec) ∧ done' = done ++ [sql]
      end
  end.
Proof.
  unfold audit_append. destruct (so_audit_table _) as [target|]; cbn [fmap option_fmap option_map]; [|by intros [= <- <-]].
  destruct (split_once "." target) as [[schema table]|]; [|intros [= <- <-]; eauto].
  destruct (validate_audit_shape schema table) as [u|e]; [|by intros [= <- <-]].
  destruct (spi_run _ _); intros [= <- <-]; eauto.
Qed.

Lemma insert_inv ctx input st out st' :
  insert ctx input st = (out, st') →
  (∃ e, input_tool input = Err e ∧ out = Err e ∧ st' = st) ∨
  ∃ tool, input_tool input = Ok tool ∧
    let call := with_session (tc_resolved ctx)
      (fun tr => lift_x (request "tools/call" (call_params tool (input_arguments input)) tr)) in
    (∃ e, call st = (Err e, st') ∧ out = Err e ∧ extra st' = extra st) ∨
    ∃ result st1, call st = (Ok result, st1) ∧
      let rec := make_record tool (input_arguments input) result (now_pg_micros (world st))
                   (duration (w_now (world st)) (w_now (world st1))) (world st1) in
      let '(audited, done) := audit_append ctx rec (spi_done (extra st)) in
      st' = mkSessions (sessions st1) (world st1)
              (mkLocals (record (cache_key ctx) rec (call_logs (extra st))) done) ∧
      out = match audited with Ok _ => Ok (row_from_record rec) | Err e => Err e end.
Proof.
  unfold insert. unfold mbind at 1, M_bind at 1, m_lift at 1. intros Hi.
  destruct (input_tool input) as [tool|e]; [|simplify_eq; left; eauto].
  right. exists tool. split; [done|]. unfold mbind, M_bind at 1, m_get at 1 in Hi.
  cbv zeta in *. unfold M_bind at 1 in Hi.
  destruct (with_session _ _ st) as [[result|e] st1] eqn:Hc.
  - right. exists result, st1. split; [done|]. rewrite <- (lift_extra _ _ _ _ _ Hc).
    revert Hi. unfold m_get, M_bind. destruct (audit_append _ _ _) as [[[]|e] done'];
      unfold m_put, m_lift, mret, M_ret; intros; by simplify_eq.
  - left. simplify_eq. exists e. split_and!; [done|done|]. by eapply lift_extra.
Qed.
End insert_facts.

(** ** Properties *)

(** C34. The call log is the recent history: after any sequence of completed calls,
    what a SELECT sees for a (server, role) is that pair's calls only, newest first,
    the latest 1000 of them. *)
Theorem log_is_recent_history (history : list (SessionKey * CallRecord)) (key : SessionKey) :
  snapshot key (run_log history) =
  take LOG_CAP (reverse (snd <$> filter (fun kr => kr.1 = key) history)).
Proof. apply run_log_snapshot. Qed.

(** C9. What an INSERT does, on every path.  Without a text [tool] it fails without
    sending or logging anything, with 23502 when [tool] is NULL and XX000 when it is
    of another type; a failed call is raised and leaves log and audit as they were;
    and a completed call, [isError] included, is logged first, then audited, and
    becomes a well-typed row carrying the tool's own answer.  The audit, when the
    server has one, is exactly one statement, run after the target's shape was
    found right; when the target is no qualified name, has another shape or rejects
    the statement, the INSERT fails and the call stays logged. *)
Theorem insert_outcome `{Serde, Net, PgCatalog, PgEnv} (ctx : TableContext) (input : InsertRow) st :
  env_ok →
  let '(out, st') := insert ctx input st in
  match ir_value input "tool" with
  | None => st' = st ∧ ∃ m, out = Err (NotNullViolation m)
  | Some (CText tool) =>
      match with_session (tc_resolved ctx)
              (fun tr => lift_x (request "tools/call" (call_params tool (input_arguments input)) tr)) st with
      | (Err e, st1) => out = Err e ∧ st' = st1 ∧ extra st' = extra st
      | (Ok result, st1) =>
          ∃ rec, r_tool rec = tool ∧ r_arguments rec = input_arguments input ∧
            r_content rec = get result "content" ∧ r_structured rec = get result "structuredContent" ∧
            r_is_error rec = is_error_result result ∧ r_error rec = None ∧
            row_ok TOOL_CALLS_SPEC (row_from_record rec) ∧
            sessions st' = sessions st1 ∧ world st' = world st1 ∧
            snapshot (cache_key ctx) (call_logs (extra st')) =
              take LOG_CAP (rec :: snapshot (cache_key ctx) (call_logs (extra st))) ∧
            (∀ k, k ≠ cache_key ctx → snapshot k (call_logs (extra st')) = snapshot k (call_logs (extra st))) ∧
            let before := spi_done (extra st) in
            let after := spi_done (extra st') in
            match split_once "." <$> so_audit_table (options (tc_resolved ctx)) with
            | None => out = Ok (row_from_record rec) ∧ after = before
            | Some None => (∃ m, out = Err (Internal m)) ∧ after = before
            | Some (Some (schema, table)) =>
                let sql := audit_sql (tc_server_name ctx) schema table rec in
                match validate_audit_shape schema table, spi_run before sql with
                | Err e, _ => out = Err e ∧ after = before
                | Ok _, Err _ => (∃ m, out = Err (Internal m)) ∧ after = before
                | Ok _, Ok _ => out = Ok (row_from_record rec) ∧ after = before ++ [sql]
                end
            end
      end
  | Some _ => st' = st ∧ ∃ m, out = Err (Internal m)
  end.
Proof.
  intros Henv. destruct (insert ctx input st) as [out st'] eqn:Hi. apply insert_inv in Hi.
  assert (∀ e, input_tool input = Err e → st' = st ∧ out = Err e) as Hno.
  { intros e He. destruct Hi as [(e' & He' & -> & ->)|(tool & Ht & _)]; split; congruence. }
  destruct (ir_value input "tool") as [cell|] eqn:Hv.
  2:{ unfold input_tool in Hno. rewrite Hv in Hno. edestruct Hno as [-> ->]; [done|]. eauto. }
  destruct cell as [tool| | | | | | | | |];
    try (unfold input_tool in Hno; rewrite Hv in Hno; edestruct Hno as [-> ->]; [done|]; by eauto).
  assert (input_tool input = Ok tool) as Ht by (unfold input_tool; by rewrite Hv).
  destruct Hi as [(e & He & _)|(tool' & Ht' & Hi)]; [congruence|].
  assert (tool' = tool) as -> by congruence. cbv zeta in Hi.
  destruct (with_session _ _ st) as [[result|e] st1] eqn:Hc.
  - destruct Hi as [(e & [=] & _)|(result' & st1' & [= <- <-] & Hi)].
    set (rec := make_record _ _ _ _ _ _) in Hi. exists rec.
    destruct (audit_append ctx rec _) as [audited done] eqn:Ha. destruct Hi as [-> ->].
    split_and!; try done.
    + by apply row_from_record_ok, make_record_ok.
    + apply snapshot_record.
    + intros k Hk. by apply snapshot_record_ne.
    + cbv zeta. by apply (audit_outcome ctx rec).
  - destruct Hi as [(e' & [= -> ->] & -> & Hx)|(result' & st1' & [=] & _)]. done.
Qed.

(** Values and names cannot escape their SQL token: whatever text follows (other
    than another quote), PostgreSQL's lexer reads a composed string literal back as
    exactly the value without its NUL bytes, and a quoted schema or table name back
    as exactly the name. *)
Theorem sql_tokens_read_back (v name rest : string) :
  Quote.not_quote "'" rest → Quote.not_quote (ascii_of_nat 34) rest →
  Quote.read_quoted "'" (sql_literal v +:+ rest) = Some (strip_nul v, rest) ∧
  Quote.read_quoted (ascii_of_nat 34) (quoted (sql_ident name) +:+ rest) = Some (name, rest) ∧
  (0 ∉ bytes v → strip_nul v = v).
Proof.
  intros H1 H2. split_and!.
  - by apply Quote.read_enquote.
  - by apply (Quote.read_enquote (ascii_of_nat 34)).
  - exact (replace_none "000"%char EmptyString v).
Qed.

(** ** Witnesses and behaviours *)

Module Wit.
Definition env : PgEnv := {|
  strong_random _ := Some (replicate 16 255);
  system_micros _ := 1700000000000000;
  spi_run _ _ := Ok tt;
  cell_debug _ := "?" |}.
Lemma env_is_ok : @env_ok env.
Proof.
  split; simpl; [|lia]. intros _ b [= <-]. split; [done|].
  repeat (apply List.Forall_cons; [lia|]). apply List.Forall_nil.
Qed.
Definition ctx : TableContext := mkTableContext TOOL_CALLS_SPEC "srv" Session.Wit.resolved [].
Definition input : InsertRow := mkInsertRow TOOL_CALLS_SPEC [None; Some (CText "echo"); None].
Definition start : Sessions Locals := mkSessions ∅ (mkWorld [] 0) (mkLocals ∅ []).
End Wit.
#[local] Existing Instance Wit.env.
#[local] Existing Instance Session.Wit.codec.
#[local] Existing Instance Session.Wit.steady.
#[local] Existing Instance Session.Wit.catalog.

Lemma insert_outcome_witness :
  ∃ rec, (insert Wit.ctx Wit.input Wit.start).1 = Ok (row_from_record rec) ∧ r_tool rec = "echo".
Proof.
  pose proof (insert_outcome Wit.ctx Wit.input Wit.start Wit.env_is_ok) as Hi.
  destruct (insert Wit.ctx Wit.input Wit.start) as [out st'] eqn:He.
  change (ir_value Wit.input "tool") with (Some (CText "echo")) in Hi. cbv iota in Hi.
  destruct (with_session _ _ Wit.start) as [[result|e] st1] eqn:Hw; [|by vm_compute in Hw].
  destruct Hi as (rec & Ht & _ & _ & _ & _ & _ & _ & _ & _ & _ & _ & Hok & _). exists rec. split; [exact Hok|exact Ht].
Defined.

Lemma sql_tokens_read_back_witness :
  Quote.read_quoted "'" (sql_literal "it's; DROP TABLE x" +:+ ", 1)") =
    Some ("it's; DROP TABLE x", ", 1)").
Proof.
  rewrite (proj1 (sql_tokens_read_back "it's; DROP TABLE x" "t" ", 1)" ltac:(done) ltac:(done))).
  by vm_compute.
Defined.

(** A drained log cursor stays empty after [re_scan]. *)
Example log_rescan_loses_rows :
  let c := mkLogCursor [[Some (CBool true)]] in
  (read 1 (re_scan (read 1 c).2).2).1 = Ok [None].
Proof. done. Qed.

(** The existence probe does not quote the two identifiers inside the literal, so
    PostgreSQL folds them to lower case. *)
Example regclass_probe_folds_case :
  is_plain_identifier "Audit" = true ∧
  regclass_sql (sql_ident "Audit" +:+ "." +:+ sql_ident "Calls") =
    "SELECT to_regclass('Audit.Calls')::text".
Proof. done. Qed.

End ToolCalls.
