(* ===== verification/Codegen.v ===== *)
(** * codegen/types.rs and codegen/mod.rs: planning per-tool objects

    The JSON Schema to PostgreSQL type map, the output-shape decision, the plan
    of one tool and of a batch.  Planning is pure. *)

From Stdlib Require Import Ascii String ZArith Lia.
From stdpp Require Import base numbers gmap sets strings pretty list.
From S2P Require Import Prelude Str Json Errors Sha256 Ident Tables.
Import Tables.
#[local] Open Scope Z_scope.

(** The profile the crate is built with: is [debug_assert_eq!] compiled in?  The
    release profile has none, the test builds have. *)
Class Build := { debug_assertions : bool }.
Definition debug_build : Build := {| debug_assertions := true |}.
Definition release_build : Build := {| debug_assertions := false |}.

Module Codegen.

(** ** types.rs *)

Definition map_named_type (t : string) (schema : Value) : ColumnType :=
  if bool_decide (t = "string") then
    match get schema "format" ≫= as_str with
    | Some f => if bool_decide (f = "date-time") then TimestampTz
                else if bool_decide (f = "date") then Date
                else if bool_decide (f = "uuid") then Uuid
                else Text
    | None => Text
    end
  else if bool_decide (t = "integer") then Int8
  else if bool_decide (t = "number") then Float8
  else if bool_decide (t = "boolean") then Boolean
  else Jsonb.

Definition map_type (schema : Value) : ColumnType :=
  match as_object schema with
  | None => Jsonb
  | Some obj =>
      if existsb (fun keyword => contains_key keyword obj) ["$ref"; "oneOf"; "anyOf"; "allOf"]
      then Jsonb
      else match obj_get "type" obj with
           | Some (Str t) => map_named_type t schema
           | Some (Array types) =>
               match filter (fun t => t ≠ "null") (omap as_str types) with
               | [only] => map_named_type only schema
               | _ => Jsonb
               end
           | _ => Jsonb
           end
  end.

Definition required_list (schema : Value) : list string :=
  match get schema "required" ≫= as_array with
  | Some items => omap as_str items
  | None => []
  end.

Definition required_set (schema : Value) : gset string := list_to_set (required_list schema).

Definition properties (schema : Value) : option (list (string * Value)) :=
  get schema "properties" ≫= as_object.

Section render.
Context `{Serde}.
Definition enum_hint (schema : Value) : option string :=
  values ← get schema "enum" ≫= as_array;
  match values with
  | [] => None
  | _ => Some ("Permitted values: "
               +:+ join ", " ((fun v => match v with Str s => s | other => json_to_string other end)
                              <$> values))
  end.
End render.

(** ** mod.rs: data *)

Inductive InvokeOnSelect : Type := ReadOnly | All | NoInvoke.
#[export] Instance InvokeOnSelect_eq_dec : EqDecision InvokeOnSelect.
Proof. solve_decision. Defined.

Definition InvokeOnSelect_parse (raw : string) : McpResult InvokeOnSelect :=
  if bool_decide (raw = "read_only") then Ok ReadOnly
  else if bool_decide (raw = "all") then Ok All
  else if bool_decide (raw = "none") then Ok NoInvoke
  else Err (InvalidOption ("invalid value for invoke_on_select: " +:+ quoted raw
         +:+ " (expected 'read_only', 'all' or 'none')")).

Definition InvokeOnSelect_as_str (g : InvokeOnSelect) : string :=
  match g with ReadOnly => "read_only" | All => "all" | NoInvoke => "none" end.

Record Column : Type := mkCol {
  property : string;
  sql_name : string;
  pg_type : ColumnType;
  required : bool;
  col_enum_hint : option string;
}.

Inductive OutputShape : Type :=
  | NoOutput
  | ElementOf (property : string) (columns : list Column)
  | Single (columns : list Column).

Record PlannedTool : Type := mkPlanned {
  tool_name : string;
  tool_sql_name : string;
  schema : string;
  read_only : bool;
  invoke_on_select : bool;
  inputs : list Column;
  output : OutputShape;
  params : list string;
  title : option string;
  description : option string;
}.

Definition output_columns (t : PlannedTool) : list Column :=
  match output t with NoOutput => [] | ElementOf _ cols => cols | Single cols => cols end.
Definition table_columns (t : PlannedTool) : list Column := inputs t ++ output_columns t.
Definition is_multi_row (t : PlannedTool) : bool :=
  match output t with ElementOf _ _ => true | _ => false end.

Record GenerationPlan : Type := mkPlan {
  tools : list PlannedTool;
  skipped : list string;
  warnings : list string;
}.

Inductive SchemaMode : Type := SingleSchema | PerUpstream.

(** ** Output shape *)

Definition array_items_of_objects (schema : Value) : option Value :=
  if negb (bool_decide (get schema "type" ≫= as_str = Some "array")) then None
  else
    items ← get schema "items";
    if bool_decide (get items "type" ≫= as_str = Some "object") then Some items else None.

Section plan.
Context `{Serde, Unicode}.

(** A name with no usable characters still gets a column. *)
Definition column_name (name : string) : string :=
  let d := Ident.derive name EmptyString in if is_empty d then "_" else d.

Definition output_column (np : string * Value) : Column :=
  mkCol np.1 (column_name np.1) (map_type np.2) false (enum_hint np.2).

Definition element_columns (items : Value) : list Column :=
  output_column <$> default [] (properties items).

Definition analyze_output (schema : option Value) : OutputShape :=
  match schema with
  | None => NoOutput
  | Some schema =>
      match properties schema with
      | None => Single []
      | Some [(only_property, only_schema)] =>
          match array_items_of_objects only_schema with
          | Some items => ElementOf only_property (element_columns items)
          | None => Single [output_column (only_property, only_schema)]
          end
      | Some props => Single (output_column <$> props)
      end
  end.

(** ** One tool *)

(** The loop over the input properties, [seen] being the derived names met. *)
Fixpoint input_columns (req : gset string) (seen : gset string) (props : list (string * Value)) :
    list Column :=
  match props with
  | [] => []
  | (prop, sch) :: rest =>
      let sql := column_name prop in
      let name := if bool_decide (sql ∈ seen) then sql +:+ "_" +:+ Sha256.sha_suffix prop else sql in
      mkCol prop name (map_type sch) (bool_decide (prop ∈ req)) (enum_hint sch)
        :: input_columns req ({[sql]} ∪ seen) rest
  end.

(** Required inputs in [required] order, then the optional ones. *)
Definition required_parameters (req : list string) (cols : list Column) : list string :=
  omap (fun name => sql_name <$> (snd <$> list_find (fun c => property c = name) cols)) req.
Definition parameters (req : list string) (cols : list Column) : list string :=
  required_parameters req cols ++ (sql_name <$> filter (fun c => required c = false) cols).

(** The [debug_assert_eq!] between the two: the panic when it is compiled in and does
    not hold. *)
Definition covered (req : gset string) (cols : list Column) : nat :=
  size (filter (fun name => existsb (fun c => bool_decide (property c = name)) cols = true) req).
Definition params_assertion {profile : Build} (req : list string) (cols : list Column) : option string :=
  let left := length (required_parameters req cols) in
  let right := covered (list_to_set req) cols in
  if debug_assertions && negb (Nat.eqb left right) then
    Some ("assertion `left == right` failed: params cover every required input" +:+ nl
          +:+ "  left: " +:+ fmt_nat left +:+ nl +:+ " right: " +:+ fmt_nat right)
  else None.

Definition gate_opens (gate : InvokeOnSelect) (read_only : bool) : bool :=
  match gate with ReadOnly => read_only | All => true | NoInvoke => false end.

Definition declared_read_only (tool : Value) : bool :=
  match get tool "annotations" with
  | Some a => default false (get a "readOnlyHint" ≫= as_bool)
  | None => false
  end.

(** What planning a tool returns, when it does not panic. *)
Definition plan_one (tool : Value) (local_name sql target_schema : string) (gate : InvokeOnSelect) :
    result string PlannedTool :=
  let input_schema := default Null (get tool "inputSchema") in
  match properties input_schema with
  | Some props =>
      let cols := input_columns (required_set input_schema) ∅ props in
      let ro := declared_read_only tool in
      Ok (mkPlanned (default local_name (get tool "name" ≫= as_str)) sql target_schema ro
            (gate_opens gate ro) cols (analyze_output (get tool "outputSchema"))
            (parameters (required_list input_schema) cols)
            (get tool "title" ≫= as_str) (get tool "description" ≫= as_str))
  | None => Err "inputSchema is not a JSON Schema object with properties (PRD-8 §4.2)"
  end.

Definition plan_one_panic {profile : Build} (tool : Value) : option string :=
  let input_schema := default Null (get tool "inputSchema") in
  props ← properties input_schema;
  params_assertion (required_list input_schema) (input_columns (required_set input_schema) ∅ props).

(** ** A batch *)

Definition tool_display_name (tool : Value) : string :=
  default "<unnamed>" (get tool "name" ≫= as_str).

Definition usable_name (tool : Value) : option string :=
  n ← get tool "name" ≫= as_str; if is_empty n then None else Some n.

Definition route (mode : SchemaMode) (fallback name : string) : string * string :=
  match mode with
  | SingleSchema => (fallback, name)
  | PerUpstream =>
      match split_once "." name with
      | Some (upstream, rest) =>
          if negb (is_empty upstream) && negb (is_empty rest) then (upstream, rest)
          else (fallback, name)
      | None => (fallback, name)
      end
  end.

(** A routed tool: its definition, its target schema, its local name. *)
Record Routed : Type := mkRouted { rt_tool : Value; rt_target : string; rt_local : string }.

Definition routed (mode : SchemaMode) (fallback : string) (ts : list Value) : list Routed :=
  omap (fun tool => (fun name => let '(target, local) := route mode fallback name in
                                 mkRouted tool target local) <$> usable_name tool) ts.

Definition unnamed_warnings (ts : list Value) : list string :=
  (fun _ => "skipped a tool entry with no usable name")
    <$> filter (fun tool => usable_name tool = None) ts.

(** The identifier of the [i]-th routed tool: the names of its target schema are
    deduplicated together, in order, and it takes the one at its own rank. *)
Definition group (target : string) (rs : list Routed) : list string :=
  rt_local <$> filter (fun r => rt_target r = target) rs.
Definition rank (rs : list Routed) (i : nat) (target : string) : nat :=
  length (filter (fun r => rt_target r = target) (take i rs)).
Definition by_target (prefix : string) (rs : list Routed) : gmap string (list string) :=
  list_to_map ((fun target => (target, (default [] (Ident.dedup (group target rs) prefix)).*2))
                 <$> remove_dups (rt_target <$> rs)).
Definition sql_names (prefix : string) (rs : list Routed) : list string :=
  let names := by_target prefix rs in
  imap (fun i r => default EmptyString (names !! rt_target r ≫= fun l => l !! rank rs i (rt_target r))) rs.

(** What one routed tool adds to the plan. *)
Definition plan_step (gate : InvokeOnSelect) (acc : GenerationPlan * list string)
    (rs : Routed * string) : GenerationPlan * list string :=
  let '(p, promoted) := acc in
  let '(r, sql) := rs in
  match plan_one (rt_tool r) (rt_local r) sql (rt_target r) gate with
  | Ok planned =>
      (mkPlan (tools p ++ [planned]) (skipped p) (warnings p),
       if bool_decide (gate = All) && negb (read_only planned)
       then promoted ++ [tool_name planned] else promoted)
  | Err reason =>
      let name := tool_display_name (rt_tool r) in
      (mkPlan (tools p) (skipped p ++ [name])
         (warnings p ++ ["skipped " +:+ name +:+ ": " +:+ reason]), promoted)
  end.

(** The loop: a panic ends it and everything around it. *)
Fixpoint plan_all {profile : Build} (gate : InvokeOnSelect) (acc : GenerationPlan * list string)
    (l : list (Routed * string)) : McpResult (GenerationPlan * list string) :=
  match l with
  | [] => Ok acc
  | x :: rest =>
      match plan_one_panic (rt_tool x.1) with
      | Some m => Err (Unwinding AssertionFailed m)
      | None => plan_all gate (plan_step gate acc x) rest
      end
  end.

Definition promoted_warning (promoted : list string) : string :=
  "invoke_on_select 'all': the following tools are not declared read-only but their tables will invoke on SELECT: "
  +:+ join ", " promoted.

Definition plan {profile : Build} (ts : list Value) (target prefix : string) (gate : InvokeOnSelect)
    (mode : SchemaMode) : McpResult GenerationPlan :=
  if is_empty target then Err (InvalidOption "the target schema name must not be empty")
  else
    let rs := routed mode target ts in
    '(p, promoted) ← plan_all gate (mkPlan [] [] (unnamed_warnings ts), []) (zip rs (sql_names prefix rs));
    Ok (if bool_decide (gate = All) && negb (bool_decide (promoted = []))
        then mkPlan (tools p) (skipped p) (warnings p ++ [promoted_warning promoted])
        else p).
End plan.

(** ** The plan as one pass *)

Definition mappable (tool : Value) : bool :=
  match properties (default Null (get tool "inputSchema")) with Some _ => true | None => false end.

Section facts.
Context `{Serde, Unicode} {profile : Build}.

(** The loop is the plain fold unless some tool panics, and then the first does. *)
Lemma plan_all_fold gate acc l :
  plan_all gate acc l =
  match head (omap (fun x => plan_one_panic (rt_tool x.1)) l) with
  | Some m => Err (Unwinding AssertionFailed m)
  | None => Ok (foldl (plan_step gate) acc l)
  end.
Proof. revert acc. induction l as [|x l IH]; intros acc; [done|]. cbn. by destruct (plan_one_panic _). Qed.

Lemma plan_one_Ok tool local sql target gate t :
  plan_one tool local sql target gate = Ok t →
  mappable tool = true ∧ tool_name t = default local (get tool "name" ≫= as_str) ∧
  tool_sql_name t = sql ∧ schema t = target ∧ read_only t = declared_read_only tool ∧
  invoke_on_select t = gate_opens gate (declared_read_only tool).
Proof. unfold plan_one, mappable. destruct (properties _); intros ?; by simplify_eq/=. Qed.

Lemma plan_one_Err tool local sql target gate e :
  plan_one tool local sql target gate = Err e → mappable tool = false.
Proof. unfold plan_one, mappable. by destruct (properties _). Qed.

Definition planned (gate : InvokeOnSelect) (rs : Routed * string) : option PlannedTool :=
  match plan_one (rt_tool rs.1) (rt_local rs.1) rs.2 (rt_target rs.1) gate with
  | Ok t => Some t
  | Err _ => None
  end.
Definition unplanned (rs : Routed * string) : option string :=
  if mappable (rt_tool rs.1) then None else Some (tool_display_name (rt_tool rs.1)).
Definition promotes (t : PlannedTool) : option string :=
  if read_only t then None else Some (tool_name t).

Lemma omap_cons {A B} (f : A → option B) x l : omap f (x :: l) = option_list (f x) ++ omap f l.
Proof. simpl. by destruct (f x). Qed.

Lemma plan_step_adds gate p pr x :
  ∃ w, plan_step gate (p, pr) x =
    (mkPlan (tools p ++ option_list (planned gate x)) (skipped p ++ option_list (unplanned x))
       (warnings p ++ w),
     pr ++ if bool_decide (gate = All) then option_list (planned gate x ≫= promotes) else []).
Proof.
  destruct x as [r sql], p as [ts sk ws]. unfold plan_step, planned, unplanned. cbn [fst snd].
  destruct (plan_one _ _ _ _ _) as [t|e] eqn:E.
  - destruct (plan_one_Ok _ _ _ _ _ _ E) as [-> _]. exists []. rewrite !app_nil_r.
    f_equal. destruct (bool_decide _); simpl; [|by rewrite app_nil_r].
    unfold promotes. by destruct (read_only t); simpl; rewrite ?app_nil_r.
  - rewrite (plan_one_Err _ _ _ _ _ _ E). eexists [_].
    by destruct (bool_decide _); simpl; rewrite !app_nil_r.
Qed.

Lemma plan_fold gate l p pr :
  ∃ w, foldl (plan_step gate) (p, pr) l =
    (mkPlan (tools p ++ omap (planned gate) l) (skipped p ++ omap unplanned l) (warnings p ++ w),
     pr ++ (if bool_decide (gate = All) then omap promotes (omap (planned gate) l) else [])).
Proof.
  revert p pr. induction l as [|x l IH]; intros p pr.
  { exists []. destruct p; simpl. rewrite !app_nil_r. by destruct (bool_decide _); rewrite ?app_nil_r. }
  cbn [foldl]. destruct (plan_step_adds gate p pr x) as [w ->].
  edestruct IH as [w' ->]. exists (w ++ w'). cbn [tools skipped warnings].
  rewrite !omap_cons, <- !app_assoc. do 2 f_equal.
  destruct (bool_decide _); [|done]. by destruct (planned gate x); simpl; [destruct (promotes _)|].
Qed.

(** ** Names per target schema *)

Lemma rank_lt rs i j r :
  rs !! i = Some r → (i < j)%nat → (rank rs i (rt_target r) < rank rs j (rt_target r))%nat.
Proof.
  intros Hi Hij. unfold rank.
  assert (take j rs = take i rs ++ [r] ++ drop (S i) (take j rs)) as ->.
  { rewrite app_assoc, <- take_S_r by done. rewrite <- (take_drop (S i) (take j rs)) at 1.
    by rewrite take_take, Nat.min_l by lia. }
  rewrite !filter_app, !length_app, filter_cons_True by done. simpl. lia.
Qed.

Lemma group_rank rs i r :
  rs !! i = Some r → group (rt_target r) rs !! rank rs i (rt_target r) = Some (rt_local r).
Proof.
  intros Hi. unfold group, rank. rewrite <- (take_drop_middle rs i r Hi) at 2.
  rewrite filter_app, fmap_app, lookup_app_r by by rewrite length_fmap.
  by rewrite length_fmap, Nat.sub_diag, filter_cons_True by done.
Qed.

Lemma group_length target rs : (length (group target rs) ≤ length rs)%nat.
Proof. unfold group. rewrite length_fmap. apply length_filter. Qed.

Lemma by_target_lookup prefix rs r :
  r ∈ rs → by_target prefix rs !! rt_target r = Some (default [] (Ident.dedup (group (rt_target r) rs) prefix)).*2.
Proof.
  intros Hr. unfold by_target. apply elem_of_list_to_map_1.
  - rewrite <- list_fmap_compose, list_fmap_id. apply NoDup_remove_dups.
  - apply list_elem_of_fmap. exists (rt_target r). split; [done|].
    apply elem_of_remove_dups. by apply list_elem_of_fmap_2.
Qed.

(** Every routed tool takes its own entry of the deduplicated group. *)
Lemma sql_name_at prefix rs i r :
  Ident.fragment prefix → Z.of_nat (length rs) < 10 ^ 53 → rs !! i = Some r →
  ∃ out c, Ident.dedup (group (rt_target r) rs) prefix = Some out ∧ NoDup out.*2 ∧
    out.*2 !! rank rs i (rt_target r) = Some c ∧ sql_names prefix rs !! i = Some c ∧
    Ident.fragment c ∧ (String.length c ≤ Ident.MAX_BYTES)%nat.
Proof.
  intros Hp Hl Hi. pose proof (group_length (rt_target r) rs) as Hg.
  destruct (Ident.dedup_spec (group (rt_target r) rs) prefix) as (out & Ho & H1 & H2 & H3 & _); [done|lia|].
  destruct (lookup_lt_is_Some_2 out.*2 (rank rs i (rt_target r))) as [c Hc].
  { rewrite length_fmap, <- (length_fmap fst out), H1. by eapply lookup_lt_Some, group_rank. }
  exists out, c. split_and!; [done..| | |].
  - unfold sql_names. rewrite list_lookup_imap, Hi. simpl.
    rewrite by_target_lookup by by eapply list_elem_of_lookup_2. by rewrite Ho; simpl; rewrite Hc.
  - by eapply (Forall_lookup_1 _ _ _ _ H3).
  - by eapply (Forall_lookup_1 _ _ _ _ H3).
Qed.

Lemma length_sql_names prefix rs : length (sql_names prefix rs) = length rs.
Proof. apply length_imap. Qed.

Lemma names_distinct prefix rs :
  Ident.fragment prefix → Z.of_nat (length rs) < 10 ^ 53 →
  NoDup ((fun x : Routed * string => (rt_target x.1, x.2)) <$> zip rs (sql_names prefix rs)).
Proof.
  intros Hp Hl. apply NoDup_alt. intros i j [T c] Hi Hj.
  apply list_lookup_fmap_Some in Hi as ([r c1] & [= -> ->] & Hi).
  apply list_lookup_fmap_Some in Hj as ([r' c'] & [= HT ->] & Hj). cbn [fst snd] in *.
  apply lookup_zip_Some in Hi as [Hi Hi'], Hj as [Hj Hj'].
  destruct (sql_name_at prefix rs i r) as (out & c1 & Ho & Hnd & Hc & Hs & _); [done..|].
  destruct (sql_name_at prefix rs j r') as (out' & c2 & Ho' & _ & Hc2 & Hs' & _); [done..|].
  rewrite <- HT in *. simplify_eq.
  pose proof (NoDup_lookup _ _ _ _ Hnd Hc Hc2) as Hr.
  destruct (Nat.lt_trichotomy i j) as [Hlt|[?|Hlt]]; [|done|].
  - pose proof (rank_lt _ _ _ _ Hi Hlt). lia.
  - pose proof (rank_lt _ _ _ _ Hj Hlt) as Hlt'. rewrite <- HT in Hlt'. lia.
Qed.

Lemma fmap_omap_sublist {A B C} (f : A → option B) (g : B → C) (h : A → C) l :
  (∀ x y, f x = Some y → g y = h x) → g <$> omap f l `sublist_of` h <$> l.
Proof.
  intros Hf. induction l as [|x l IH]; [done|]. simpl. destruct (f x) as [y|] eqn:E.
  - simpl. rewrite (Hf _ _ E). by constructor.
  - by constructor.
Qed.
(** ** From the batch to the plan *)

Lemma usable_name_get tool n : usable_name tool = Some n → get tool "name" ≫= as_str = Some n.
Proof.
  unfold usable_name. destruct (get tool "name" ≫= as_str) as [m|]; simpl; [|done].
  by destruct (is_empty m); intros ?; simplify_eq.
Qed.

Lemma usable_name_nonempty tool n : usable_name tool = Some n → n ≠ EmptyString.
Proof.
  unfold usable_name. destruct (get tool "name" ≫= as_str) as [[|c m]|]; simpl; [done| |done]. by intros [= <-].
Qed.

Lemma routed_cons mode fallback tool ts :
  routed mode fallback (tool :: ts) =
  match usable_name tool with
  | Some n => mkRouted tool (route mode fallback n).1 (route mode fallback n).2
                :: routed mode fallback ts
  | None => routed mode fallback ts
  end.
Proof. unfold routed. simpl. destruct (usable_name tool); simpl; [|done]. by destruct (route _ _ _). Qed.

Lemma planned_names gate mode fallback ts names :
  length names = length (routed mode fallback ts) →
  tool_name <$> omap (planned gate) (zip (routed mode fallback ts) names) =
    omap usable_name (filter (fun tool => mappable tool = true) ts) ∧
  omap unplanned (zip (routed mode fallback ts) names) =
    omap usable_name (filter (fun tool => mappable tool = false) ts).
Proof.
  revert names. induction ts as [|tool ts IH]; intros names; [done|].
  rewrite routed_cons, !filter_cons.
  destruct (usable_name tool) as [n|] eqn:En.
  - destruct names as [|nm names]; [done|]. intros [= Hl]. cbn [zip zip_with].
    destruct (IH _ Hl) as [IH1 IH2].
    rewrite !omap_cons, fmap_app, IH1, IH2. unfold planned, unplanned. cbn [fst snd rt_tool rt_local rt_target].
    destruct (plan_one _ _ _ _ _) as [t|e] eqn:E.
    + apply plan_one_Ok in E as (-> & Hn & _). rewrite (usable_name_get _ _ En) in Hn.
      rewrite decide_True, decide_False by done. simpl. by rewrite En, Hn.
    + apply plan_one_Err in E as ->. rewrite decide_False, decide_True by done. simpl.
      unfold tool_display_name. by rewrite En, (usable_name_get _ _ En).
  - intros Hl. destruct (IH _ Hl) as [-> ->].
    split; by destruct (decide _); simpl; rewrite ?En.
Qed.

Lemma length_routed mode fallback ts : (length (routed mode fallback ts) ≤ length ts)%nat.
Proof. induction ts; [done|]. rewrite routed_cons. destruct (usable_name _); simpl; lia. Qed.

Lemma elem_of_routed mode fallback ts r :
  r ∈ routed mode fallback ts →
  rt_tool r ∈ ts ∧ ∃ n, usable_name (rt_tool r) = Some n ∧ (rt_target r, rt_local r) = route mode fallback n.
Proof.
  unfold routed. intros (tool & Ht & Hr)%list_elem_of_omap.
  destruct (usable_name tool) as [n|] eqn:En; simplify_eq/=.
  destruct (route mode fallback n) eqn:Er; simplify_eq/=. eauto.
Qed.

(** What a successful plan consists of. *)
Lemma plan_inv ts target prefix gate mode p :
  plan ts target prefix gate mode = Ok p →
  let l := zip (routed mode target ts) (sql_names prefix (routed mode target ts)) in
  tools p = omap (planned gate) l ∧ skipped p = omap unplanned l ∧
  (gate = All → omap promotes (tools p) ≠ [] →
   last (warnings p) = Some (promoted_warning (omap promotes (tools p)))).
Proof.
  unfold plan. destruct (is_empty target); [done|]. rewrite plan_all_fold.
  destruct (head _); [done|]. cbn [mbind result_bind].
  destruct (plan_fold gate (zip (routed mode target ts) (sql_names prefix (routed mode target ts)))
              (mkPlan [] [] (unnamed_warnings ts)) []) as [w ->]. cbn [tools skipped warnings app].
  intros [= <-]. cbv zeta. destruct (bool_decide_reflect (gate = All)) as [Hg|Hg]; cbn [andb].
  - destruct (bool_decide_reflect (omap promotes (omap (planned gate)
      (zip (routed mode target ts) (sql_names prefix (routed mode target ts)))) = [])) as [Hp|Hp];
      cbn [negb tools skipped warnings]; split_and!; try done.
    intros _ _. by rewrite last_snoc.
  - by split_and!.
Qed.

Lemma plan_tools_from ts target prefix gate mode p t :
  plan ts target prefix gate mode = Ok p → t ∈ tools p →
  ∃ r sql, r ∈ routed mode target ts ∧ plan_one (rt_tool r) (rt_local r) sql (rt_target r) gate = Ok t.
Proof.
  intros (Hts & _)%plan_inv. rewrite Hts. intros ([r sql] & Hin & Hpl)%list_elem_of_omap.
  unfold planned in Hpl. destruct (plan_one _ _ _ _ _) eqn:E; [|done]. injection Hpl as ->.
  exists r, sql. split; [|done]. apply list_elem_of_lookup in Hin as [i [Hi _]%lookup_zip_Some].
  by eapply list_elem_of_lookup_2.
Qed.

(** ** Parameters *)

Lemma input_columns_property req seen props : property <$> input_columns req seen props = props.*1.
Proof.
  revert seen. induction props as [|[k v] props IH]; intros seen; [done|].
  cbn [input_columns fmap list_fmap]. f_equal. apply IH.
Qed.

Lemma input_columns_required req seen props :
  Forall (fun c => required c = bool_decide (property c ∈ req)) (input_columns req seen props).
Proof.
  revert seen. induction props as [|[k v] props IH]; intros seen; by constructor.
Qed.

Definition column_of (cols : list Column) (name : string) : option Column :=
  snd <$> list_find (fun c => property c = name) cols.

Lemma column_of_Some cols name c : column_of cols name = Some c → c ∈ cols ∧ property c = name.
Proof.
  unfold column_of. intros ([i c'] & (Hi & Hp & _)%list_find_Some & ->)%fmap_Some.
  split; [by eapply list_elem_of_lookup_2|done].
Qed.

Lemma column_of_unique cols c :
  NoDup (property <$> cols) → c ∈ cols → column_of cols (property c) = Some c.
Proof.
  intros Hnd Hc. unfold column_of.
  destruct (list_find_elem_of (fun c' => property c' = property c) cols c Hc eq_refl) as [[i c'] E].
  rewrite E. simpl. f_equal. apply list_find_Some in E as (Hi & Hp & _).
  apply list_elem_of_lookup in Hc as [j Hj].
  assert (i = j) as ->; [|congruence].
  apply (NoDup_lookup (property <$> cols) i j (property c)); [done|..]; rewrite list_lookup_fmap.
  - by rewrite Hi, <- Hp.
  - by rewrite Hj.
Qed.

Lemma parameters_eq req cols :
  parameters req cols =
  sql_name <$> omap (column_of cols) req ++ filter (fun c => required c = false) cols.
Proof.
  unfold parameters, required_parameters, column_of. rewrite fmap_app. f_equal.
  induction req as [|n req IH]; [done|]. rewrite !omap_cons, fmap_app, IH. f_equal.
  by destruct (list_find _ _) as [[]|].
Qed.

Lemma parameters_permutation req cols :
  NoDup (property <$> cols) → NoDup req →
  Forall (fun c => required c = bool_decide (property c ∈ req)) cols →
  parameters req cols ≡ₚ sql_name <$> cols.
Proof.
  intros Hc Hr Hq. rewrite parameters_eq. apply fmap_Permutation.
  rewrite <- (filter_app_complement (fun c => required c = true) cols) at 3.
  assert (filter (fun c => ¬ required c = true) cols = filter (fun c => required c = false) cols) as ->.
  { apply list_filter_iff. intros c. by destruct (required c). }
  f_equiv.
  apply NoDup_Permutation.
  - apply (NoDup_fmap_1 property). eapply sublist_NoDup; [exact Hr|].
    rewrite <- (list_fmap_id req) at 2. apply fmap_omap_sublist.
    intros n c [_ <-]%column_of_Some. done.
  - by apply NoDup_filter, (NoDup_fmap_1 property).
  - intros c. rewrite list_elem_of_omap, list_elem_of_filter. rewrite Forall_forall in Hq. split.
    + intros (n & Hn & [Hin <-]%column_of_Some). split; [|done].
      rewrite Hq by done. by apply bool_decide_true.
    + intros [Hreq Hin]. rewrite Hq in Hreq by done. apply bool_decide_eq_true in Hreq.
      exists (property c). split; [done|]. by apply column_of_unique.
Qed.
Lemma params_declared tool local sql target gate t :
  plan_one tool local sql target gate = Ok t → Forall (fun n => n ∈ sql_name <$> inputs t) (params t).
Proof.
  unfold plan_one. destruct (properties _) as [props|]; [|done]. intros [= <-]. cbn [inputs params].
  rewrite parameters_eq. apply Forall_fmap, Forall_forall. intros c Hc. simpl.
  apply list_elem_of_fmap_2. apply elem_of_app in Hc as [Hc|Hc].
  - by apply list_elem_of_omap in Hc as (n & _ & [? _]%column_of_Some).
  - by apply list_elem_of_filter in Hc as [_ ?].
Qed.

(** ** Column names stay in the identifier class *)

Definition ident_column (c : Column) : Prop := Forall Ident.ident_byte (bytes (sql_name c)).

Lemma column_name_ident name : Forall Ident.ident_byte (bytes (column_name name)).
Proof.
  unfold column_name. destruct (Ident.derive_fragment name EmptyString) as [[Hd _] _]; [by split|].
  destruct (is_empty _); [apply Ident.underscore_ident|done].
Qed.

Lemma input_columns_ident req seen props : Forall ident_column (input_columns req seen props).
Proof.
  revert seen. induction props as [|[k v] props IH]; intros seen; [constructor|].
  cbn [input_columns]. constructor; [|apply IH]. unfold ident_column. cbn [sql_name].
  destruct (bool_decide _); [|apply column_name_ident]. rewrite !bytes_app, !Forall_app.
  split_and!; [apply column_name_ident|apply Ident.underscore_ident|apply Ident.hex7_ident].
Qed.

Lemma output_columns_ident sch :
  Forall ident_column match analyze_output sch with
                      | NoOutput => [] | ElementOf _ cols => cols | Single cols => cols end.
Proof.
  assert (∀ props, Forall ident_column (output_column <$> props)) as Hall.
  { intros props. apply Forall_fmap, Forall_true. intros np. apply column_name_ident. }
  unfold analyze_output. destruct sch as [sch|]; [|constructor].
  destruct (properties sch) as [[|[k v] [|? ?]]|]; try apply Hall; [|constructor].
  destruct (array_items_of_objects v); [apply Hall|apply (Hall [(k, v)])].
Qed.

Lemma plan_one_columns tool local sql target gate t :
  plan_one tool local sql target gate = Ok t →
  Forall ident_column (inputs t) ∧ Forall ident_column (output_columns t).
Proof.
  unfold plan_one. destruct (properties _) as [props|]; [|done]. intros [= <-].
  split; [apply input_columns_ident|apply output_columns_ident].
Qed.
End facts.

(** ** The debug assertion *)

(** The names a schema requires, without repetition. *)
Definition required_once (tool : Value) : Prop :=
  NoDup (required_list (default Null (get tool "inputSchema"))).

(** What a debug build needs of a batch. *)
Definition assertions_hold {profile : Build} (ts : list Value) : Prop :=
  debug_assertions = true → Forall required_once ts.

Lemma length_required_parameters req cols :
  length (required_parameters req cols) =
  length (filter (fun name => existsb (fun c => bool_decide (property c = name)) cols = true) req).
Proof.
  unfold required_parameters. induction req as [|name req IH]; [done|]. rewrite omap_cons, filter_cons.
  destruct (list_find (fun c => property c = name) cols) as [[i c]|] eqn:E.
  - rewrite decide_True; [cbn; by f_equal|]. apply list_find_Some in E as (Hi & Hp & _).
    apply existsb_exists. exists c. split; [|by apply bool_decide_true].
    by apply list_elem_of_In, (list_elem_of_lookup_2 _ i).
  - rewrite decide_False; [done|]. intros (c & Hc & Hp)%existsb_exists. apply bool_decide_eq_true in Hp.
    rewrite list_find_None, Forall_forall in E. by apply (E c); [apply list_elem_of_In|].
Qed.

Lemma covered_NoDup req cols :
  NoDup req →
  covered (list_to_set req) cols =
  length (filter (fun name => existsb (fun c => bool_decide (property c = name)) cols = true) req).
Proof.
  intros Hnd. unfold covered. rewrite <- (size_list_to_set (C := gset string)) by by apply NoDup_filter.
  f_equal. apply set_eq. intros x.
  by rewrite elem_of_filter, !elem_of_list_to_set, list_elem_of_filter.
Qed.

Lemma no_assertion `{Serde, Unicode} {profile : Build} tool : required_once tool → plan_one_panic tool = None.
Proof.
  intros Hnd. unfold plan_one_panic. destruct (properties _) as [props|]; [|done]. cbn [mbind option_bind].
  unfold params_assertion. rewrite covered_NoDup, length_required_parameters by done.
  by rewrite Nat.eqb_refl, andb_false_r.
Qed.

Lemma plan_all_Err `{Serde, Unicode} {profile : Build} gate acc l e :
  plan_all gate acc l = Err e →
  ∃ x m, x ∈ l ∧ e = Unwinding AssertionFailed m ∧ debug_assertions = true ∧ ¬ required_once (rt_tool x.1).
Proof.
  rewrite plan_all_fold. destruct (head _) as [m|] eqn:Hh; [|done]. intros [= <-].
  assert (m ∈ omap (fun x : Routed * string => plan_one_panic (rt_tool x.1)) l) as Hin
    by (destruct (omap _ l); simplify_eq/=; left).
  apply list_elem_of_omap in Hin as (x & Hx & Hm). exists x, m. split_and!; [done|done| |].
  - unfold plan_one_panic, params_assertion in Hm. destruct (properties _); [|done]. cbn in Hm.
    by destruct debug_assertions.
  - intros Ho. by rewrite no_assertion in Hm.
Qed.

(** What planning a batch gives. *)
Definition plan_gives `{Serde, Unicode} (ts : list Value) (target prefix : string) (mode : SchemaMode)
    (p : GenerationPlan) : Prop :=
  tool_name <$> tools p = omap usable_name (filter (fun tool => mappable tool = true) ts) ∧
  skipped p = omap usable_name (filter (fun tool => mappable tool = false) ts) ∧
  NoDup ((fun t => (schema t, tool_sql_name t)) <$> tools p) ∧
  Forall (fun t => Ident.fragment (tool_sql_name t) ∧
                   (String.length (tool_sql_name t) ≤ Ident.MAX_BYTES)%nat) (tools p) ∧
  Forall (fun t => tool_sql_name t = EmptyString →
                   Ident.derive (route mode target (tool_name t)).2 prefix = EmptyString) (tools p).

Lemma plan_spec `{Serde, Unicode} {profile : Build} (ts : list Value) (target prefix : string)
    (gate : InvokeOnSelect) (mode : SchemaMode) (p : GenerationPlan) :
  Ident.fragment prefix → Z.of_nat (length ts) < 10 ^ 53 → plan ts target prefix gate mode = Ok p →
  plan_gives ts target prefix mode p.
Proof.
  intros Hp Hl (Hts & Hsk & _)%plan_inv. pose proof (length_routed mode target ts) as Hr.
  unfold plan_gives. rewrite Hts, Hsk.
  destruct (planned_names gate mode target ts (sql_names prefix (routed mode target ts))) as [-> ->]; [apply length_sql_names|].
  set (rs := routed mode target ts) in *.
  assert (∀ t, t ∈ omap (planned gate) (zip rs (sql_names prefix rs)) →
    ∃ i r, rs !! i = Some r ∧ sql_names prefix rs !! i = Some (tool_sql_name t) ∧
           rt_local r = (route mode target (tool_name t)).2) as Hat.
  { intros t ([r sql] & Hin & Hpl)%list_elem_of_omap. unfold planned in Hpl.
    destruct (plan_one _ _ _ _ _) eqn:E; [|done]. injection Hpl as ->.
    apply plan_one_Ok in E as (_ & Hn & -> & _).
    apply list_elem_of_lookup in Hin as [i [Hi Hs]%lookup_zip_Some]. exists i, r. split_and!; [done..|].
    assert (r ∈ rs) as (_ & n & Hu & Hroute)%elem_of_routed by by eapply list_elem_of_lookup_2.
    cbn [fst] in Hn. rewrite (usable_name_get _ _ Hu) in Hn. cbn in Hn. rewrite Hn, <- Hroute. done. }
  split_and!; [done..| | |].
  - eapply sublist_NoDup; [apply (names_distinct prefix rs); [done|lia]|].
    apply fmap_omap_sublist. intros [r sql] t. unfold planned.
    destruct (plan_one _ _ _ _ _) eqn:E; [|done]. intros [= ->].
    by apply plan_one_Ok in E as (_ & _ & -> & -> & _).
  - apply Forall_forall. intros t (i & r & Hi & Hs & _)%Hat.
    destruct (sql_name_at prefix rs i r) as (? & c & _ & _ & _ & Hc & ?); [done|lia|done|]. by simplify_eq.
  - apply Forall_forall. intros t (i & r & Hi & Hs & <-)%Hat He. rewrite He in Hs.
    destruct (sql_name_at prefix rs i r) as (out & c & Ho & _ & Hc & Hc' & _); [done|lia|done|]. simplify_eq.
    by apply (Ident.dedup_empty _ _ _ _ _ Ho (group_rank _ _ _ Hi)).
Qed.

(** The two ways planning fails. *)
Lemma plan_Err `{Serde, Unicode} {profile : Build} (ts : list Value) (target prefix : string)
    (gate : InvokeOnSelect) (mode : SchemaMode) e :
  plan ts target prefix gate mode = Err e →
  target = EmptyString ∧ e = InvalidOption "the target schema name must not be empty" ∨
  debug_assertions = true ∧ ∃ tool m, tool ∈ ts ∧ e = Unwinding AssertionFailed m ∧ ¬ required_once tool.
Proof.
  unfold plan. destruct target as [|c target]; [intros [= <-]; by left|]. cbn [is_empty]. right.
  destruct (plan_all _ _ _) as [[p pr]|e'] eqn:Ea; [done|]. simplify_eq/=.
  apply plan_all_Err in Ea as ([r sql] & m & Hin & -> & Hd & Hn). split; [done|].
  apply list_elem_of_lookup in Hin as [i [Hi _]%lookup_zip_Some].
  assert (r ∈ routed mode (String c target) ts) as (Hr & _)%elem_of_routed by by eapply list_elem_of_lookup_2.
  by exists (rt_tool r), m.
Qed.

Lemma plan_succeeds `{Serde, Unicode} {profile : Build} (ts : list Value) (target prefix : string)
    (gate : InvokeOnSelect) (mode : SchemaMode) :
  target ≠ EmptyString → assertions_hold ts → ∃ p, plan ts target prefix gate mode = Ok p.
Proof.
  intros Ht Ha. destruct (plan ts target prefix gate mode) as [p|e] eqn:E; [eauto|].
  apply plan_Err in E as [[-> _]|(Hd & tool & m & Hin & _ & Hn)]; [done|]. destruct Hn.
  specialize (Ha Hd). rewrite Forall_forall in Ha. by apply Ha.
Qed.

(** ** Properties *)

(** C11. Planning a batch on a non-empty target schema: every named tool is planned
    or skipped, each list in server order, a tool being skipped exactly when its
    [inputSchema] has no [properties] object; no two planned tools share a target
    schema and a SQL name; and a SQL name is of the identifier class, at most 63
    bytes long, and empty only for the empty prefix and a tool name in which no
    ASCII letter or digit survives lower-casing.  It fails in one way: a debug build
    panics on a tool that requires some name twice, which a release build plans. *)
Theorem plan_total `{Serde, Unicode} {profile : Build} (ts : list Value) (target prefix : string)
    (gate : InvokeOnSelect) (mode : SchemaMode) :
  target ≠ EmptyString → Ident.fragment prefix → Z.of_nat (length ts) < 10 ^ 53 →
  match plan ts target prefix gate mode with
  | Ok p =>
      tool_name <$> tools p = omap usable_name (filter (fun tool => mappable tool = true) ts) ∧
      skipped p = omap usable_name (filter (fun tool => mappable tool = false) ts) ∧
      NoDup ((fun t => (schema t, tool_sql_name t)) <$> tools p) ∧
      Forall (fun t =>
        Forall (fun b => Ident.keep b = true ∨ b = Ident.underscore) (bytes (tool_sql_name t)) ∧
        match bytes (tool_sql_name t) with b :: _ => is_ascii_digit b = false | [] => True end ∧ (String.length (tool_sql_name t) ≤ 63)%nat ∧
        (tool_sql_name t = EmptyString →
         prefix = EmptyString ∧
         Forall (fun c => Ident.keep c = false)
           (chars (to_lowercase (Ident.split_case_boundaries (route mode target (tool_name t)).2))))) (tools p)
  | Err e =>
      debug_assertions = true ∧ ∃ tool m, tool ∈ ts ∧ e = Unwinding AssertionFailed m ∧
        ¬ NoDup (required_list (default Null (get tool "inputSchema")))
  end.
Proof.
  intros Ht Hp Hl. destruct (plan ts target prefix gate mode) as [p|e] eqn:E.
  - apply plan_spec in E as (H1 & H2 & H3 & H4 & H5); [|done..]. split_and!; [done..|].
    apply Forall_forall. rewrite Forall_forall in H4, H5. intros t Hin.
    destruct (H4 t Hin) as [[Hi Hd] Hlen]. split_and!; [done..|].
    intros He. by apply Ident.derive_empty_iff, H5.
  - apply plan_Err in E as [[-> _]|(Hd & tool & m & ? & ? & ?)]; [done|]. eauto 10.
Qed.

(** C13. The invocation gate: every planned tool comes from a listed tool of the
    same name and its read-only mark is that tool's [readOnlyHint]; SELECT on its
    table invokes it exactly under [all], or under [read_only] when it is marked;
    and whenever SELECT can invoke a tool that is not marked, the plan ends in
    the warning that names it. *)
Theorem gate_respected `{Serde, Unicode} {profile : Build} (ts : list Value) (target prefix : string)
    (gate : InvokeOnSelect) (mode : SchemaMode) (p : GenerationPlan) (t : PlannedTool) :
  plan ts target prefix gate mode = Ok p → t ∈ tools p →
  (∃ tool, tool ∈ ts ∧ usable_name tool = Some (tool_name t) ∧
           read_only t = declared_read_only tool) ∧
  (invoke_on_select t = true ↔ gate = All ∨ (gate = ReadOnly ∧ read_only t = true)) ∧
  (invoke_on_select t = true → read_only t = false →
   ∃ promoted, tool_name t ∈ promoted ∧ last (warnings p) = Some (promoted_warning promoted)).
Proof.
  intros Hp Ht. pose proof (plan_inv _ _ _ _ _ _ Hp) as (_ & _ & Hw).
  destruct (plan_tools_from _ _ _ _ _ _ _ Hp Ht) as (r & sql & Hr & E).
  apply plan_one_Ok in E as (_ & Hn & _ & _ & Hro & Hi).
  apply elem_of_routed in Hr as (Hmem & n & Hu & _).
  rewrite (usable_name_get _ _ Hu) in Hn. simpl in Hn. subst n.
  split_and!.
  - eauto.
  - rewrite Hi, <- Hro. unfold gate_opens. destruct gate; naive_solver.
  - intros Hinv Hnro. assert (gate = All) as ->.
    { rewrite Hi, <- Hro, Hnro in Hinv. by destruct gate. }
    assert (tool_name t ∈ omap promotes (tools p)) as Hpr.
    { apply list_elem_of_omap. exists t. split; [done|]. unfold promotes. by rewrite Hnro. }
    eexists. split; [exact Hpr|]. apply Hw; [done|]. intros Hnil. rewrite Hnil in Hpr.
    by apply elem_of_nil in Hpr.
Qed.

(** The parameter list of a planned tool: its input columns are the
    [properties] in published order, every parameter is an input column (so the
    lookup of a parameter's column cannot fail), and when [required] lists no
    name twice the parameters are the input columns, each exactly once. *)
Theorem params_cover `{Serde, Unicode} (tool : Value) (local sql target : string)
    (gate : InvokeOnSelect) (t : PlannedTool) :
  value_ok tool → plan_one tool local sql target gate = Ok t →
  ∃ sch props, get tool "inputSchema" = Some sch ∧ properties sch = Some props ∧
    property <$> inputs t = props.*1 ∧
    Forall (fun n => n ∈ sql_name <$> inputs t) (params t) ∧
    (NoDup (required_list sch) → params t ≡ₚ sql_name <$> inputs t).
Proof.
  intros Hok Hp. pose proof (params_declared _ _ _ _ _ _ Hp) as Hd. revert Hp Hd.
  unfold plan_one. destruct (get tool "inputSchema") as [sch|] eqn:Es; [|done].
  cbn [default from_option id]. destruct (properties sch) as [props|] eqn:Ep; [|done].
  intros [= <-] Hd. cbn [inputs params] in *. exists sch, props. split_and!; [done..| | |].
  - apply input_columns_property.
  - exact Hd.
  - intros Hr. apply parameters_permutation.
    + rewrite input_columns_property. unfold properties in Ep.
      destruct (get sch "properties") as [[]|] eqn:Eg; try done. simpl in Ep. injection Ep as <-.
      by destruct (value_ok_get _ _ _ (value_ok_get _ _ _ Hok Es) Eg).
    + done.
    + eapply Forall_impl; [apply input_columns_required|]. intros c ->.
      unfold required_set. apply bool_decide_ext. by rewrite elem_of_list_to_set.
Qed.

(** ** Witnesses *)

Module Wit.
#[local] Instance ascii_tables : Unicode := {| to_lowercase := to_ascii_lowercase |}.
#[local] Instance no_text : Serde := {| json_from_str _ := None; json_to_string _ := EmptyString |}.
#[local] Existing Instance debug_build.

Definition text_schema : Value := Object [("type", Str "string")].
Definition tool_of (name : string) (props : list (string * Value)) (req : list Value) (ro : bool) : Value :=
  Object [("name", Str name); ("annotations", Object [("readOnlyHint", Bool ro)]);
          ("inputSchema", Object [("properties", Object props); ("required", Array req)])].
Definition write_file : Value :=
  tool_of "writeFile" [("mode", text_schema); ("path", text_schema)] [Str "path"; Str "ghost"] false.
Definition batch : list Value :=
  [write_file; Object [("name", Str "bare")]; tool_of "write_file" [] [] true; Null].

Definition outcome (gate : InvokeOnSelect) : option (list (string * string * list string) * list string * list string) :=
  match plan batch "s" "fs_" gate SingleSchema with
  | Ok p => Some ((fun t => (tool_name t, tool_sql_name t, params t)) <$> tools p, skipped p, warnings p)
  | Err _ => None
  end.
Definition all_plan : GenerationPlan :=
  match plan batch "s" "fs_" All SingleSchema with Ok p => p | Err _ => mkPlan [] [] [] end.
End Wit.
#[local] Existing Instance Wit.ascii_tables.
#[local] Existing Instance Wit.no_text.
#[local] Existing Instance debug_build.

Example plan_outcome :
  Wit.outcome All =
  Some ([("writeFile", "fs_write_file", ["path"; "mode"]);
         ("write_file", "fs_write_file_15223b6", [])],
        ["bare"],
        ["skipped a tool entry with no usable name";
         "skipped bare: inputSchema is not a JSON Schema object with properties (PRD-8 §4.2)";
         promoted_warning ["writeFile"]]).
Proof. by vm_compute. Qed.

Lemma fs_fragment : Ident.fragment "fs_".
Proof. split; [|done]. repeat constructor; (by left) || (by right). Qed.

(** A schema that requires a name twice: one parameter too many for the assertion,
    which its comment calls hardened. *)
Definition twice : Value := Wit.tool_of "twice" [("path", Wit.text_schema)] [Str "path"; Str "path"] false.
Example required_twice :
  plan (profile := debug_build) [twice] "s" EmptyString ReadOnly SingleSchema =
    Err (Unwinding AssertionFailed ("assertion `left == right` failed: params cover every required input" +:+ nl
                                    +:+ "  left: 2" +:+ nl +:+ " right: 1")) ∧
  match plan (profile := release_build) [twice] "s" EmptyString ReadOnly SingleSchema with
  | Ok p => params <$> tools p = [["path"; "path"]]
  | Err _ => False
  end.
Proof. by vm_compute. Qed.

Lemma plan_total_witness :
  ∃ p, plan Wit.batch "s" "fs_" ReadOnly SingleSchema = Ok p ∧ skipped p = ["bare"] ∧
    NoDup ((fun t => (schema t, tool_sql_name t)) <$> tools p).
Proof.
  pose proof (plan_total Wit.batch "s" "fs_" ReadOnly SingleSchema ltac:(done) fs_fragment ltac:(by vm_compute)) as Ht.
  destruct (plan Wit.batch "s" "fs_" ReadOnly SingleSchema) as [p|e] eqn:E; [|by vm_compute in E].
  destruct Ht as (_ & Hs & Hn & _). exists p. split_and!; [done|rewrite Hs; by vm_compute|exact Hn].
Defined.

Lemma gate_respected_witness :
  plan Wit.batch "s" "fs_" All SingleSchema = Ok Wit.all_plan ∧
  ∃ t promoted, t ∈ tools Wit.all_plan ∧ tool_name t ∈ promoted ∧
    last (warnings Wit.all_plan) = Some (promoted_warning promoted).
Proof.
  assert (plan Wit.batch "s" "fs_" All SingleSchema = Ok Wit.all_plan) as Hp by (by vm_compute).
  split; [exact Hp|]. destruct (tools Wit.all_plan) as [|t l] eqn:Ht; [by vm_compute in Ht|].
  assert (t ∈ tools Wit.all_plan) as Hin by (rewrite Ht; left).
  destruct (gate_respected Wit.batch "s" "fs_" All SingleSchema Wit.all_plan t Hp Hin)
    as (_ & _ & Hw).
  vm_compute in Ht. injection Ht as Ht _.
  destruct Hw as (promoted & H1 & H2); [by rewrite <- Ht..|].
  exists t, promoted. split_and!; [left|exact H1|exact H2].
Defined.

Lemma params_cover_witness :
  ∃ t, plan_one Wit.write_file EmptyString "w" "s" ReadOnly = Ok t ∧ params t = ["path"; "mode"] ∧
    Forall (fun n => n ∈ sql_name <$> inputs t) (params t).
Proof.
  eexists. split; [by vm_compute|]. split; [done|].
  destruct (params_cover Wit.write_file EmptyString "w" "s" ReadOnly _
              ltac:(repeat split; repeat constructor; set_solver) ltac:(by vm_compute))
    as (sch & props & _ & _ & _ & Hf & _).
  exact Hf.
Defined.

End Codegen.
