(* ===== verification/Ddl.v ===== *)
(** * codegen/table.rs, codegen/function.rs and codegen/view.rs: the emitters

    The statements of one planned tool, as text.  [read_foreign_table] is the
    inverse reading of a CREATE FOREIGN TABLE statement, following PostgreSQL's
    lexical rules for quoted tokens; it also serves the import statements. *)

From Stdlib Require Import Ascii String ZArith Lia.
From stdpp Require Import base numbers gmap sets strings pretty list.
From S2P Require Import Prelude Str Json Errors Sha256 Ident Tables Quote Codegen.
Import Codegen.
#[local] Open Scope Z_scope.

Module Ddl.

Definition dq_char : ascii := ascii_of_nat 34.
Definition sq_char : ascii := ascii_of_nat 39.

(** ** table.rs *)

Definition quote_ident (name : string) : string := dq +:+ replace dq_char (dq +:+ dq) name +:+ dq.
Definition quote_literal (value : string) : string := sq +:+ replace sq_char (sq +:+ sq) value +:+ sq.

Definition table_name (tool : PlannedTool) : string := "tool_" +:+ tool_sql_name tool.
Definition view_name (tool : PlannedTool) : string := "v_tool_" +:+ tool_sql_name tool.

Record ExtraOptions : Type := mkExtra { upstream : option string; cache_ttl_ms : option Z }.

Definition table_options (tool : PlannedTool) (extra : ExtraOptions) : list (string * string) :=
  [("tool", tool_name tool);
   ("invoke_on_select", if invoke_on_select tool then "true" else "false")]
  ++ match upstream extra with Some u => [("upstream", u)] | None => [] end
  ++ match cache_ttl_ms extra with Some ttl => [("cache_ttl_ms", fmt_Z ttl)] | None => [] end.

Definition column_ddl (c : string * string) : string := "  " +:+ quote_ident c.1 +:+ " " +:+ c.2.
Definition option_ddl (o : string * string) : string := o.1 +:+ " " +:+ quote_literal o.2.

(** Name and type of a column, as written. *)
Definition typed (c : Column) : string * string := (sql_name c, Tables.sql_name (pg_type c)).

Definition create_table (server_name : string) (tool : PlannedTool) (extra : ExtraOptions) : string :=
  let columns := ((fun c => column_ddl (typed c)) <$> table_columns tool)
                 ++ ["  " +:+ quoted "content" +:+ " jsonb"; "  " +:+ quoted "is_error" +:+ " boolean"] in
  "CREATE FOREIGN TABLE " +:+ quote_ident (schema tool) +:+ "." +:+ quote_ident (table_name tool)
  +:+ " (" +:+ nl +:+ join ("," +:+ nl) columns +:+ nl +:+ ") SERVER " +:+ quote_ident server_name
  +:+ " OPTIONS (" +:+ join ", " (option_ddl <$> table_options tool extra) +:+ ");".

Definition qualified_table (tool : PlannedTool) : string :=
  quote_ident (schema tool) +:+ "." +:+ quote_ident (table_name tool).

Definition column_comments (tool : PlannedTool) : list string :=
  omap (fun col =>
    (fun hint => "COMMENT ON COLUMN " +:+ qualified_table tool +:+ "." +:+ quote_ident (sql_name col)
                 +:+ " IS " +:+ quote_literal hint +:+ ";") <$> col_enum_hint col) (table_columns tool).

(** ** function.rs *)

Definition find_input (tool : PlannedTool) (param : string) : option Column :=
  snd <$> list_find (fun c => sql_name c = param) (inputs tool).

Definition parameter_types (tool : PlannedTool) : list Tables.ColumnType :=
  omap (fun param => pg_type <$> find_input tool param) (params tool).

(** The WHERE fragment of the parameter at 0-based position [i]; [None] is the
    panic of [expect] when the parameter is no declared input. *)
Definition conjunct (tool : PlannedTool) (i : nat) (param : string) : option string :=
  col ← find_input tool param;
  let n := fmt_nat (S i) in
  let binding := "t." +:+ quote_ident param +:+ " = $" +:+ n in
  Some (if required col then binding
        else "($" +:+ n +:+ "::" +:+ Tables.sql_name (pg_type col) +:+ " IS NULL OR " +:+ binding +:+ ")").

Definition where_clause (conjuncts : list string) : string :=
  match conjuncts with [] => EmptyString | _ => " WHERE " +:+ join " AND " conjuncts end.

Definition insert_columns (tool : PlannedTool) : string := join ", " (quote_ident <$> params tool).
Definition insert_values (tool : PlannedTool) : string :=
  join ", " (imap (fun i _ => "$" +:+ fmt_nat (S i)) (params tool)).

Definition returning_pair : string := "RETURNING " +:+ quoted "content" +:+ ", " +:+ quoted "is_error".

Definition insert_statement (tool : PlannedTool) : string :=
  match params tool with
  | [] => "INSERT INTO " +:+ qualified_table tool +:+ " DEFAULT VALUES " +:+ returning_pair
  | _ => "INSERT INTO " +:+ qualified_table tool +:+ " (" +:+ insert_columns tool +:+ ") VALUES ("
         +:+ insert_values tool +:+ ") " +:+ returning_pair
  end.

Definition result_object (alias : string) : string :=
  "jsonb_build_object('content', " +:+ alias +:+ quoted "content" +:+ ", 'is_error', " +:+ alias
  +:+ quoted "is_error" +:+ ")".

Definition function_body (tool : PlannedTool) : option string :=
  conjuncts ← mapM (fun ip => conjunct tool ip.1 ip.2) (imap pair (params tool));
  Some
    (if is_multi_row tool then
       if read_only tool && invoke_on_select tool then
         "SELECT " +:+ join ", " ((fun c => "t." +:+ quote_ident (sql_name c)) <$> output_columns tool)
         +:+ " FROM " +:+ qualified_table tool +:+ " AS t" +:+ where_clause conjuncts
       else
         "WITH call AS (" +:+ insert_statement tool +:+ ") SELECT "
         +:+ join ", " ((fun c => "NULL::" +:+ Tables.sql_name (pg_type c)) <$> output_columns tool)
         +:+ " FROM call AS t"
     else if read_only tool && invoke_on_select tool then
       "SELECT " +:+ result_object "t." +:+ " FROM " +:+ qualified_table tool +:+ " AS t"
       +:+ where_clause conjuncts
     else
       "WITH call AS (" +:+ insert_statement tool +:+ ") SELECT " +:+ result_object EmptyString
       +:+ " FROM call").

Definition parameter_ddl (tool : PlannedTool) (p : string * Tables.ColumnType) : string :=
  let optional := match find_input tool p.1 with Some c => negb (required c) | None => false end in
  quote_ident p.1 +:+ " " +:+ Tables.sql_name p.2 +:+ (if optional then " DEFAULT NULL" else EmptyString).

Definition returns (tool : PlannedTool) : string :=
  if is_multi_row tool then
    let columns := join ", " ((fun c => quote_ident (sql_name c) +:+ " " +:+ Tables.sql_name (pg_type c))
                              <$> output_columns tool) in
    if is_empty columns
    then "RETURNS TABLE (" +:+ quoted "content" +:+ " jsonb, " +:+ quoted "is_error" +:+ " boolean)"
    else "RETURNS TABLE (" +:+ columns +:+ ")"
  else "RETURNS jsonb".

Definition fn_tag : string := "$pg_mcp_fn$".

(** The statement up to the opening dollar quote. *)
Definition function_head (tool : PlannedTool) : string :=
  let signature := join ", " (parameter_ddl tool <$> zip (params tool) (parameter_types tool)) in
  "CREATE FUNCTION " +:+ quote_ident (schema tool) +:+ "." +:+ quote_ident (tool_sql_name tool)
  +:+ "(" +:+ signature +:+ ") " +:+ returns tool
  +:+ " LANGUAGE sql VOLATILE PARALLEL UNSAFE AS ".

Definition create_function (tool : PlannedTool) : option string :=
  body ← function_body tool;
  Some (function_head tool +:+ fn_tag +:+ " " +:+ body +:+ " " +:+ fn_tag +:+ ";").

Definition comment_text (tool : PlannedTool) : option string :=
  match title tool, description tool with
  | None, None => None
  | Some title, None => Some title
  | None, Some desc => Some desc
  | Some title, Some desc => Some (title +:+ ": " +:+ desc)
  end.

Definition comment_on_function (tool : PlannedTool) : option string :=
  text ← comment_text tool;
  Some ("COMMENT ON FUNCTION " +:+ quote_ident (schema tool) +:+ "." +:+ quote_ident (tool_sql_name tool)
        +:+ "(" +:+ join ", " (Tables.sql_name <$> parameter_types tool) +:+ ") IS "
        +:+ quote_literal text +:+ ";").

Definition drop_function (sch name : string) (arg_types : list Tables.ColumnType) : string :=
  "DROP FUNCTION " +:+ quote_ident sch +:+ "." +:+ quote_ident name +:+ "("
  +:+ join ", " (Tables.sql_name <$> arg_types) +:+ ") RESTRICT;".

(** ** view.rs *)

Definition eligible (tool : PlannedTool) : bool :=
  read_only tool && invoke_on_select tool && forallb (fun col => negb (required col)) (inputs tool).

Definition create_view (tool : PlannedTool) : option string :=
  if negb (eligible tool) then None
  else
    let columns := ((fun c => quote_ident (sql_name c)) <$> output_columns tool)
                   ++ [quoted "content"; quoted "is_error"] in
    Some ("CREATE VIEW " +:+ quote_ident (schema tool) +:+ "." +:+ quote_ident (view_name tool)
          +:+ " AS SELECT " +:+ join ", " columns +:+ " FROM " +:+ qualified_table tool +:+ ";").

Definition drop_view (sch name : string) : string :=
  "DROP VIEW " +:+ quote_ident sch +:+ "." +:+ quote_ident name +:+ " RESTRICT;".

(** ** Reading a CREATE FOREIGN TABLE statement *)

Record ForeignTable : Type := mkForeign {
  ft_schema : string;
  ft_table : string;
  ft_columns : list (string * string);
  ft_server : string;
  ft_options : list (string * string);
}.

Abbreviation reader A := (string → option (A * string)).

(** The longest prefix of bytes in a class. *)
Fixpoint read_word (p : Z → bool) (s : string) : string * string :=
  match s with
  | String c s' => if p (byte_Z c) then let '(w, rest) := read_word p s' in (String c w, rest)
                   else (EmptyString, s)
  | EmptyString => (EmptyString, EmptyString)
  end.

Fixpoint read_sep {A} (fuel : nat) (item : reader A) (sep : string) (s : string) :
    option (list A * string) :=
  match fuel with
  | O => None
  | S fuel' =>
      '(a, rest) ← item s;
      match strip_prefix sep rest with
      | Some rest' => '(l, rest'') ← read_sep fuel' item sep rest'; Some (a :: l, rest'')
      | None => Some ([a], rest)
      end
  end.

Definition type_byte (b : Z) : bool := is_ascii_lowercase b || (b =? 32).
Definition key_byte (b : Z) : bool := is_ascii_lowercase b || (b =? 95).

Definition read_column : reader (string * string) := fun s =>
  s ← strip_prefix "  " s;
  '(name, s) ← Quote.read_quoted dq_char s;
  s ← strip_prefix " " s;
  let '(ty, s) := read_word type_byte s in Some ((name, ty), s).

Definition read_option : reader (string * string) := fun s =>
  let '(key, s) := read_word key_byte s in
  s ← strip_prefix " " s;
  '(value, s) ← Quote.read_quoted sq_char s;
  Some ((key, value), s).

Definition read_foreign_table (s : string) : option ForeignTable :=
  let fuel := String.length s in
  s ← strip_prefix "CREATE FOREIGN TABLE " s;
  '(sch, s) ← Quote.read_quoted dq_char s;
  s ← strip_prefix "." s;
  '(tbl, s) ← Quote.read_quoted dq_char s;
  s ← strip_prefix (" (" +:+ nl) s;
  '(cols, s) ← read_sep fuel read_column ("," +:+ nl) s;
  s ← strip_prefix (nl +:+ ") SERVER ") s;
  '(srv, s) ← Quote.read_quoted dq_char s;
  match strip_prefix " OPTIONS (" s with
  | Some s =>
      '(opts, s) ← read_sep fuel read_option ", " s;
      if bool_decide (s = ");") then Some (mkForeign sch tbl cols srv opts) else None
  | None => if bool_decide (s = ";") then Some (mkForeign sch tbl cols srv []) else None
  end.

(** ** Lemmas on the readers *)

Lemma strip_prefix_app p s : strip_prefix p (p +:+ s) = Some s.
Proof. by apply strip_prefix_Some. Qed.

Lemma read_ident s rest :
  Quote.not_quote dq_char rest → Quote.read_quoted dq_char (quote_ident s +:+ rest) = Some (s, rest).
Proof. apply (Quote.read_enquote dq_char). Qed.

Lemma read_literal s rest :
  Quote.not_quote sq_char rest → Quote.read_quoted sq_char (quote_literal s +:+ rest) = Some (s, rest).
Proof. apply (Quote.read_enquote sq_char). Qed.

(** The next byte is outside the class. *)
Definition stops (p : Z → bool) (rest : string) : Prop :=
  match rest with String c _ => p (byte_Z c) = false | EmptyString => True end.

Lemma read_word_app p w rest :
  forallb p (bytes w) = true → stops p rest → read_word p (w +:+ rest) = (w, rest).
Proof.
  intros Hw Hr. induction w as [|c w IH].
  - rewrite app_string_nil. destruct rest as [|c rest]; [done|]. simpl in *. by rewrite Hr.
  - cbn [bytes forallb] in Hw. apply andb_true_iff in Hw as [Hc Hw]. rewrite app_string_cons.
    cbn [read_word]. by rewrite Hc, IH.
Qed.

Lemma join_cons2 sep x y l : join sep (x :: y :: l) = x +:+ sep +:+ join sep (y :: l).
Proof. done. Qed.

Lemma read_sep_join {A} (item : reader A) (print : A → string) (follows : string → Prop) sep tail l fuel :
  (∀ x rest, x ∈ l → follows rest → item (print x +:+ rest) = Some (x, rest)) →
  (∀ r, follows (sep +:+ r)) → follows tail → strip_prefix sep tail = None →
  l ≠ [] → (length l ≤ fuel)%nat →
  read_sep fuel item sep (join sep (print <$> l) +:+ tail) = Some (l, tail).
Proof.
  intros Hitem Hsep Htail Hno. revert fuel.
  induction l as [|x l IH]; intros fuel Hne Hf; [done|]. destruct fuel as [|fuel]; [simpl in Hf; lia|].
  destruct l as [|y l].
  - cbn [fmap list_fmap join read_sep]. rewrite Hitem by (done || left). cbn. by rewrite Hno.
  - change (print <$> x :: y :: l) with (print x :: print y :: (print <$> l)).
    rewrite join_cons2, !app_string_assoc.
    change (print y :: (print <$> l)) with (print <$> y :: l). cbn [read_sep].
    rewrite Hitem by (done || left). cbn [mbind option_bind]. rewrite strip_prefix_app, IH; [done| |done|simpl in *; lia].
    intros z rest Hz. apply Hitem. by right.
Qed.

Lemma length_join sep l :
  Forall (fun s => s ≠ EmptyString) l → (length l ≤ String.length (join sep l))%nat.
Proof.
  induction 1 as [|x l Hx Hl IH]; [simpl; lia|]. destruct l as [|y l].
  - destruct x; [done|]. simpl. lia.
  - rewrite join_cons2, !length_app_string. destruct x; [done|]. cbn [length String.length] in *. lia.
Qed.

(** ** The common shape of the statements *)

Definition options_clause (opts : list (string * string)) : string :=
  match opts with
  | [] => EmptyString
  | _ => " OPTIONS (" +:+ join ", " (option_ddl <$> opts) +:+ ")"
  end.

Definition foreign_table_text (f : ForeignTable) : string :=
  "CREATE FOREIGN TABLE " +:+ quote_ident (ft_schema f) +:+ "." +:+ quote_ident (ft_table f)
  +:+ " (" +:+ nl +:+ join ("," +:+ nl) (column_ddl <$> ft_columns f)
  +:+ nl +:+ ") SERVER " +:+ quote_ident (ft_server f) +:+ options_clause (ft_options f) +:+ ";".

(** What the emitters guarantee: some column, types and option names written
    with letters only. *)
Definition plain_foreign (f : ForeignTable) : Prop :=
  ft_columns f ≠ [] ∧
  Forall (fun c => forallb type_byte (bytes c.2) = true) (ft_columns f) ∧
  Forall (fun o => forallb key_byte (bytes o.1) = true) (ft_options f).

Lemma read_column_ddl c rest :
  forallb type_byte (bytes c.2) = true → stops type_byte rest →
  read_column (column_ddl c +:+ rest) = Some (c, rest).
Proof.
  intros Hc Hr. unfold read_column, column_ddl. rewrite !app_string_assoc, strip_prefix_app. cbn [mbind option_bind].
  rewrite read_ident by done. cbn [mbind option_bind]. rewrite strip_prefix_app. cbn [mbind option_bind].
  rewrite read_word_app by done. by destruct c.
Qed.

Lemma read_option_ddl o rest :
  forallb key_byte (bytes o.1) = true → Quote.not_quote sq_char rest →
  read_option (option_ddl o +:+ rest) = Some (o, rest).
Proof.
  intros Ho Hr. unfold read_option, option_ddl. rewrite !app_string_assoc, read_word_app by done.
  rewrite strip_prefix_app. cbn [mbind option_bind]. rewrite read_literal by done. by destruct o.
Qed.

Lemma column_ddl_nonempty c : column_ddl c ≠ EmptyString.
Proof. done. Qed.
Lemma option_ddl_nonempty o : option_ddl o ≠ EmptyString.
Proof. unfold option_ddl. by destruct o as [[|? ?] ?]. Qed.

Lemma read_options_clause opts fuel :
  opts ≠ [] → Forall (fun o => forallb key_byte (bytes o.1) = true) opts → (length opts ≤ fuel)%nat →
  read_sep fuel read_option ", " (join ", " (option_ddl <$> opts) +:+ ");") = Some (opts, ");").
Proof.
  intros Hne Hk Hf. rewrite Forall_forall in Hk.
  apply (read_sep_join _ _ (Quote.not_quote sq_char)); try done.
  intros x rest Hx Hr. apply read_option_ddl; auto.
Qed.

Lemma read_columns cols rest fuel :
  cols ≠ [] → Forall (fun c => forallb type_byte (bytes c.2) = true) cols → (length cols ≤ fuel)%nat →
  read_sep fuel read_column ("," +:+ nl) (join ("," +:+ nl) (column_ddl <$> cols) +:+ nl +:+ rest)
  = Some (cols, nl +:+ rest).
Proof.
  intros Hne Hk Hf. rewrite Forall_forall in Hk.
  apply (read_sep_join _ _ (stops type_byte)); try done.
  intros x r Hx Hr. apply read_column_ddl; auto.
Qed.

Lemma read_foreign_table_text f :
  plain_foreign f → read_foreign_table (foreign_table_text f) = Some f.
Proof.
  intros (Hc & Hct & Hok). unfold read_foreign_table.
  assert (length (ft_columns f) ≤ String.length (foreign_table_text f))%nat as Hf1.
  { unfold foreign_table_text. rewrite !length_app_string.
    pose proof (length_join ("," +:+ nl) (column_ddl <$> ft_columns f)
                  ltac:(by apply Forall_fmap, Forall_true)) as Hl.
    rewrite length_fmap in Hl. lia. }
  assert (length (ft_options f) ≤ String.length (foreign_table_text f))%nat as Hf2.
  { unfold foreign_table_text, options_clause. destruct (ft_options f) as [|o os]; [simpl; lia|].
    rewrite !length_app_string.
    pose proof (length_join ", " (option_ddl <$> o :: os)
                  ltac:(apply Forall_fmap, Forall_true; intros; apply option_ddl_nonempty)) as Hl.
    rewrite length_fmap in Hl. lia. }
  revert Hf1 Hf2. generalize (String.length (foreign_table_text f)). intros fuel Hf1 Hf2.
  unfold foreign_table_text. rewrite strip_prefix_app. cbn [mbind option_bind].
  rewrite read_ident by done. cbn [mbind option_bind]. rewrite strip_prefix_app. cbn [mbind option_bind].
  rewrite read_ident by done. cbn [mbind option_bind].
  rewrite <- (app_string_assoc " (" nl), strip_prefix_app. cbn [mbind option_bind].
  rewrite read_columns by done. cbn [mbind option_bind].
  rewrite <- (app_string_assoc nl ") SERVER "), strip_prefix_app. cbn [mbind option_bind].
  unfold options_clause. destruct f as [sch tbl cols srv [|o os]]; cbn [ft_options ft_server ft_schema ft_table ft_columns] in *.
  - rewrite app_string_nil, read_ident by done. done.
  - rewrite !app_string_assoc, read_ident by done. cbn [mbind option_bind]. rewrite strip_prefix_app.
    change (")" +:+ ";") with ");". rewrite read_options_clause by done. done.
Qed.

(** ** Emitted tables *)

Definition foreign_of (server_name : string) (tool : PlannedTool) (extra : ExtraOptions) : ForeignTable :=
  mkForeign (schema tool) (table_name tool)
    ((typed <$> table_columns tool) ++ [("content", "jsonb"); ("is_error", "boolean")])
    server_name (table_options tool extra).

Lemma create_table_text server_name tool extra :
  create_table server_name tool extra = foreign_table_text (foreign_of server_name tool extra).
Proof.
  unfold create_table, foreign_table_text, foreign_of, options_clause.
  cbn [ft_schema ft_table ft_columns ft_server ft_options]. rewrite fmap_app, <- list_fmap_compose.
  unfold table_options at 2. cbn [app]. by rewrite !app_string_assoc.
Qed.

Lemma type_name_plain t : forallb type_byte (bytes (Tables.sql_name t)) = true.
Proof. by destruct t. Qed.

Lemma foreign_of_plain server_name tool extra : plain_foreign (foreign_of server_name tool extra).
Proof.
  unfold plain_foreign, foreign_of, table_options. cbn [ft_columns ft_options]. split_and!.
  - by destruct (typed <$> _).
  - rewrite Forall_app, Forall_fmap. split; [|by repeat constructor].
    apply Forall_true. intros c. apply type_name_plain.
  - destruct (upstream extra), (cache_ttl_ms extra); by repeat constructor.
Qed.

(** ** Dollar quoting *)

(** The text before the first occurrence of the delimiter, and what follows. *)
Fixpoint split_at (tag s : string) : option (string * string) :=
  match strip_prefix tag s with
  | Some rest => Some (EmptyString, rest)
  | None => match s with
            | EmptyString => None
            | String c s' => '(a, b) ← split_at tag s'; Some (String c a, b)
            end
  end.

(** A function statement as PostgreSQL delimits it, when the head holds no
    dollar sign of its own: head, body, tail. *)
Definition read_function (s : string) : option (string * string * string) :=
  '(head, rest) ← split_at fn_tag s;
  '(body, tail) ← split_at fn_tag rest;
  Some (head, body, tail).

Definition dollar : Z := 36.
Definition dollar_free (s : string) : Prop := dollar ∉ bytes s.

(** Every dollar sign is followed by a digit, as in a parameter reference. *)
Fixpoint dollar_ok (s : string) : Prop :=
  match s with
  | EmptyString => True
  | String c s' =>
      (byte_Z c = dollar → match s' with String d _ => is_ascii_digit (byte_Z d) = true
                           | EmptyString => False end) ∧ dollar_ok s'
  end.

Lemma dollar_ok_app s t : dollar_ok s → dollar_ok t → dollar_ok (s +:+ t).
Proof.
  intros Hs Ht. induction s as [|c s IH]; [done|]. rewrite app_string_cons. cbn [dollar_ok] in *.
  destruct Hs as [Hc Hs]. split; [|auto]. intros Hd. specialize (Hc Hd).
  destruct s as [|d s]; [done|]. by rewrite app_string_cons.
Qed.

Lemma dollar_free_app s t : dollar_free (s +:+ t) ↔ dollar_free s ∧ dollar_free t.
Proof. unfold dollar_free. rewrite bytes_app. set_solver. Qed.

Lemma dollar_free_ok s : dollar_free s → dollar_ok s.
Proof.
  unfold dollar_free. induction s as [|c s IH]; [done|]. cbn [bytes dollar_ok]. intros Hn.
  apply not_elem_of_cons in Hn as [Hc Hn]. split; [congruence|auto].
Qed.

Lemma dollar_ok_join sep l : dollar_ok sep → Forall dollar_ok l → dollar_ok (join sep l).
Proof.
  intros Hs. induction 1 as [|x l Hx Hl IH]; [done|]. destruct l as [|y l]; [done|].
  rewrite join_cons2. auto using dollar_ok_app.
Qed.

Lemma dollar_free_replace c r s : dollar_free r → dollar_free s → dollar_free (replace c r s).
Proof.
  intros Hr Hs. induction s as [|a s IH]; [done|]. rewrite Quote.replace_cons.
  change (String a s) with (String a EmptyString +:+ s) in Hs. apply dollar_free_app in Hs as [Ha Hs].
  destruct (Ascii.eqb a c); [by apply dollar_free_app; auto|].
  change (String a (replace c r s)) with (String a EmptyString +:+ replace c r s).
  apply dollar_free_app; auto.
Qed.

Lemma literal_free s : bool_decide (dollar ∉ bytes s) = true → dollar_free s.
Proof. apply bool_decide_eq_true_1. Qed.

Lemma ident_free s : Forall Ident.ident_byte (bytes s) → dollar_free s.
Proof.
  intros Hs Hin. rewrite Forall_forall in Hs. by destruct (Hs _ Hin) as [Hk|Hk].
Qed.

Lemma quote_ident_free s : dollar_free s → dollar_free (quote_ident s).
Proof.
  intros Hs. unfold quote_ident. apply dollar_free_app. split; [by apply literal_free|].
  apply dollar_free_app. split; [|by apply literal_free].
  apply dollar_free_replace; [by apply literal_free|done].
Qed.

Lemma type_name_free t : dollar_free (Tables.sql_name t).
Proof. apply literal_free. by destruct t. Qed.

Lemma dollar_ok_position pre n post :
  dollar_ok pre → dollar_ok post → dollar_ok (pre +:+ "$" +:+ fmt_nat (S n) +:+ post).
Proof.
  intros Hpre Hpost. apply dollar_ok_app; [done|]. rewrite app_string_cons, app_string_nil.
  pose proof (fmt_nat_digits (S n)) as Hd.
  assert (dollar_ok (fmt_nat (S n))) as Hok.
  { apply dollar_free_ok. intros Hin. rewrite Forall_forall in Hd. by specialize (Hd _ Hin). }
  split; [|by apply dollar_ok_app]. intros _.
  destruct (fmt_nat (S n)) as [|d rest] eqn:E.
  - exfalso. apply (f_equal String.length) in E. revert E. apply fmt_nat_nonempty.
  - rewrite app_string_cons. by inversion Hd.
Qed.

Lemma split_at_tag b rest : dollar_ok b → split_at fn_tag (b +:+ fn_tag +:+ rest) = Some (b, rest).
Proof.
  induction b as [|c b IH]; cbn [dollar_ok].
  - intros _. rewrite app_string_nil. destruct (fn_tag +:+ rest) eqn:E; [done|].
    cbn [split_at]. by rewrite <- E, strip_prefix_app.
  - intros [Hc Hb]. rewrite app_string_cons. cbn [split_at].
    assert (strip_prefix fn_tag (String c (b +:+ fn_tag +:+ rest)) = None) as ->.
    { destruct (strip_prefix _ _) as [r|] eqn:E; [|done]. exfalso. apply strip_prefix_Some in E.
      unfold fn_tag in E at 2. rewrite !app_string_cons in E. injection E as -> E.
      specialize (Hc eq_refl). destruct b as [|d b]; [done|]. rewrite app_string_cons in E.
      by injection E as -> _. }
    by rewrite IH.
Qed.

(** ** The emitted function *)

Ltac dollars :=
  repeat match goal with
  | H : dollar_ok ?s |- dollar_ok ?s => exact H
  | |- dollar_ok (join _ _) => apply dollar_ok_join
  | |- dollar_ok (quote_ident _) => apply dollar_free_ok, quote_ident_free
  | |- dollar_ok (Tables.sql_name _) => apply dollar_free_ok, type_name_free
  | |- dollar_ok _ => apply dollar_free_ok, literal_free; reflexivity
  | |- dollar_ok (_ +:+ _) => apply dollar_ok_app
  end; auto.

Lemma find_input_Some t n : n ∈ sql_name <$> inputs t → is_Some (find_input t n).
Proof.
  intros (c & -> & Hc)%list_elem_of_fmap. unfold find_input. apply fmap_is_Some.
  by eapply (list_find_elem_of (fun c' => sql_name c' = sql_name c)).
Qed.

Lemma create_function_total t :
  Forall (fun n => n ∈ sql_name <$> inputs t) (params t) → is_Some (create_function t).
Proof.
  intros Hp. unfold create_function, function_body.
  assert (is_Some (mapM (fun ip => conjunct t ip.1 ip.2) (imap pair (params t)))) as [cs ->].
  { apply mapM_is_Some, Forall_forall. intros ip (i & n & -> & Hn)%elem_of_lookup_imap.
    rewrite Forall_forall in Hp. unfold compose, conjunct. cbn [fst snd].
    destruct (find_input_Some t n (Hp n (list_elem_of_lookup_2 _ _ _ Hn))) as [c ->]. by eexists. }
  by eexists.
Qed.

Lemma parameter_types_of t :
  Forall (fun n => n ∈ sql_name <$> inputs t) (params t) →
  Forall2 (fun n ty => ∃ c, c ∈ inputs t ∧ sql_name c = n ∧ pg_type c = ty) (params t) (parameter_types t).
Proof.
  unfold parameter_types. induction 1 as [|n l Hn _ IH]; [constructor|].
  destruct (find_input_Some t n Hn) as [c Hc]. rewrite omap_cons, Hc. constructor; [|exact IH].
  exists c. unfold find_input in Hc. apply fmap_Some in Hc as ([i c'] & (Hi & Hs & _)%list_find_Some & ->).
  split; [by eapply list_elem_of_lookup_2|done].
Qed.

(** A tool whose names cannot carry a delimiter, with declared parameters. *)
Record quotable (t : PlannedTool) : Prop := {
  q_schema : dollar_free (schema t);
  q_name : dollar_free (tool_sql_name t);
  q_inputs : Forall ident_column (inputs t);
  q_outputs : Forall ident_column (output_columns t);
  q_params : Forall (fun n => n ∈ sql_name <$> inputs t) (params t);
}.

Section quotable.
Context (t : PlannedTool) (Hq : quotable t).

Lemma param_free n : n ∈ params t → dollar_free n.
Proof.
  intros Hn. destruct Hq as [_ _ Hi _ Hp]. rewrite Forall_forall in Hp. rewrite Forall_forall in Hi.
  apply Hp in Hn as (c & -> & Hc)%list_elem_of_fmap. apply ident_free, (Hi c Hc).
Qed.

Lemma output_free c : c ∈ output_columns t → dollar_free (sql_name c).
Proof. intros Hc. destruct Hq as [_ _ _ Ho _]. rewrite Forall_forall in Ho. apply ident_free, (Ho c Hc). Qed.

Lemma qualified_ok : dollar_ok (qualified_table t).
Proof.
  destruct Hq. unfold qualified_table. dollars. unfold table_name.
  apply dollar_free_app. split; [by apply literal_free|done].
Qed.

Lemma conjunct_ok i n : n ∈ params t → ∃ c, conjunct t i n = Some c ∧ dollar_ok c.
Proof.
  intros Hn. pose proof (param_free n Hn) as Hf. destruct Hq as [_ _ _ _ Hp]. rewrite Forall_forall in Hp.
  destruct (find_input_Some t n (Hp n Hn)) as [col Hcol]. unfold conjunct. rewrite Hcol. cbn [mbind option_bind].
  eexists. split; [reflexivity|].
  assert (∀ post, dollar_ok post →
    dollar_ok (("t." +:+ quote_ident n +:+ " = $" +:+ fmt_nat (S i)) +:+ post)) as Hb.
  { intros post Hpost. change (" = $" +:+ fmt_nat (S i)) with (" = " +:+ "$" +:+ fmt_nat (S i)).
    rewrite !app_string_assoc, <- (app_string_assoc (quote_ident n)), <- app_string_assoc.
    apply dollar_ok_position; [|done]. dollars. }
  destruct (required col); [rewrite <- app_string_nil_r; by apply Hb|].
  change ("($" +:+ ?x) with ("(" +:+ "$" +:+ x). apply dollar_ok_position; [dollars|].
  do 3 (apply dollar_ok_app; [dollars|]). apply Hb. dollars.
Qed.

Lemma conjuncts_ok :
  ∃ cs, mapM (fun ip => conjunct t ip.1 ip.2) (imap pair (params t)) = Some cs ∧ Forall dollar_ok cs.
Proof.
  assert (Forall (fun ip : nat * string => ip.2 ∈ params t) (imap pair (params t))) as Hall.
  { apply Forall_forall. intros ip (i & n & -> & Hn)%elem_of_lookup_imap. by eapply list_elem_of_lookup_2. }
  induction Hall as [|[i n] l Hn _ (cs & Hcs & Hok)]; [by exists []|].
  destruct (conjunct_ok i n Hn) as (c & Hc & Hc'). exists (c :: cs). split; [|by constructor].
  cbn [mapM]. cbn [fst snd]. rewrite Hc. cbn [mbind option_bind]. by rewrite Hcs.
Qed.

Lemma where_ok cs : Forall dollar_ok cs → dollar_ok (where_clause cs).
Proof. intros Hcs. unfold where_clause. destruct cs; [done|]. dollars. Qed.

Lemma insert_ok : dollar_ok (insert_statement t).
Proof.
  pose proof qualified_ok as Hqt. unfold insert_statement.
  assert (dollar_ok (insert_columns t)).
  { unfold insert_columns. dollars. apply Forall_fmap, Forall_forall. intros n Hn. unfold compose.
    dollars. by apply param_free. }
  assert (dollar_ok (insert_values t)).
  { unfold insert_values. dollars. apply Forall_forall.
    intros x (i & n & -> & _)%elem_of_lookup_imap. rewrite <- (app_string_nil_r (fmt_nat _)).
    by apply (dollar_ok_position EmptyString). }
  destruct (params t); dollars.
Qed.

Lemma function_body_ok : ∃ body, function_body t = Some body ∧ dollar_ok body.
Proof.
  destruct conjuncts_ok as (cs & Hcs & Hok). unfold function_body. rewrite Hcs. cbn [mbind option_bind].
  eexists. split; [reflexivity|]. pose proof qualified_ok. pose proof insert_ok.
  pose proof (where_ok cs Hok).
  assert (Forall dollar_ok ((fun c => "t." +:+ quote_ident (sql_name c)) <$> output_columns t)).
  { apply Forall_fmap, Forall_forall. intros c Hc. unfold compose. dollars. by apply output_free. }
  assert (Forall dollar_ok ((fun c => "NULL::" +:+ Tables.sql_name (pg_type c)) <$> output_columns t)).
  { apply Forall_fmap, Forall_forall. intros c Hc. unfold compose. dollars. }
  destruct (is_multi_row t), (read_only t && invoke_on_select t); dollars.
Qed.

Lemma function_head_ok : dollar_ok (function_head t).
Proof.
  unfold function_head, returns. pose proof (q_schema t Hq). pose proof (q_name t Hq).
  assert (Forall dollar_ok (parameter_ddl t <$> zip (params t) (parameter_types t))).
  { apply Forall_fmap, Forall_forall. intros [n ty] [i [Hn _]%lookup_zip_Some]%list_elem_of_lookup. unfold compose, parameter_ddl. cbn [fst snd].
    dollars; [by eapply param_free, list_elem_of_lookup_2|].
    destruct (match find_input t n with Some c => _ | None => _ end); dollars. }
  assert (dollar_ok (join ", " ((fun c => quote_ident (sql_name c) +:+ " " +:+ Tables.sql_name (pg_type c))
                                <$> output_columns t))).
  { dollars. apply Forall_fmap, Forall_forall. intros c Hc. unfold compose. dollars. by apply output_free. }
  destruct (is_multi_row t); [destruct (is_empty _)|]; dollars.
Qed.

End quotable.

(** ** Properties *)

(** C8. The table statement says what was planned, whatever text the server
    put into its tool name and whatever the schema and server are called: read
    back, it is one table in the tool's schema, with the planned columns and
    types followed by [content] and [is_error], and exactly the planned options. *)
Theorem create_table_reads_back (server_name : string) (t : PlannedTool) (extra : ExtraOptions) :
  read_foreign_table (create_table server_name t extra) =
  Some (mkForeign (schema t) ("tool_" +:+ tool_sql_name t)
          (((fun c => (sql_name c, Tables.sql_name (pg_type c))) <$> inputs t ++ output_columns t)
           ++ [("content", "jsonb"); ("is_error", "boolean")])
          server_name
          ([("tool", tool_name t); ("invoke_on_select", if invoke_on_select t then "true" else "false")]
           ++ match upstream extra with Some u => [("upstream", u)] | None => [] end
           ++ match cache_ttl_ms extra with Some n => [("cache_ttl_ms", fmt_Z n)] | None => [] end)).
Proof. rewrite create_table_text. apply read_foreign_table_text, foreign_of_plain. Qed.

(** C33. The function statement of a planned tool, in any schema, is produced (the
    lookup of a parameter's column cannot fail), with one type per parameter: the
    type of the input column of that name.  And when neither the schema nor the SQL
    name holds a dollar sign PostgreSQL delimits the statement as intended: the
    head, the body, and nothing but the semicolon after. *)
Theorem create_function_intact `{Serde, Unicode} (tool : Value) (local sql target : string)
    (gate : InvokeOnSelect) (t : PlannedTool) :
  plan_one tool local sql target gate = Ok t →
  Forall2 (fun n ty => ∃ c, c ∈ inputs t ∧ sql_name c = n ∧ pg_type c = ty) (params t) (parameter_types t) ∧
  ∃ body text, function_body t = Some body ∧ create_function t = Some text ∧
    (dollar_free sql → dollar_free target →
     read_function text = Some (function_head t, " " +:+ body +:+ " ", ";")).
Proof.
  intros Hp. pose proof (params_declared _ _ _ _ _ _ Hp) as Hd. split; [by apply parameter_types_of|].
  destruct (create_function_total t Hd) as [text Htext]. pose proof Htext as Hb.
  unfold create_function in Hb. apply bind_Some in Hb as (body & Hb & [= <-]).
  exists body. eexists. split_and!; [done|exact Htext|]. intros Hs Ht.
  destruct (plan_one_Ok _ _ _ _ _ _ Hp) as (_ & _ & Hsql & Hsch & _).
  assert (quotable t) as Hq.
  { destruct (plan_one_columns _ _ _ _ _ _ Hp). split; [by rewrite Hsch|by rewrite Hsql|done..]. }
  destruct (function_body_ok t Hq) as (body' & Hb' & Hok). assert (body' = body) as -> by congruence.
  unfold read_function. rewrite split_at_tag by by apply function_head_ok. cbn [mbind option_bind].
  replace (" " +:+ body +:+ " " +:+ fn_tag +:+ ";") with ((" " +:+ body +:+ " ") +:+ fn_tag +:+ ";")
    by by rewrite !app_string_assoc.
  rewrite split_at_tag; [done|]. dollars.
Qed.

(** A flattened view exists exactly for a tool the server marks read-only,
    under a gate that lets SELECT invoke it, none of whose inputs is required:
    in particular [invoke_on_select 'all'] gives no view to an unmarked tool. *)
Theorem view_only_for_free_reads `{Serde, Unicode} (tool : Value) (local sql target : string)
    (gate : InvokeOnSelect) (t : PlannedTool) :
  plan_one tool local sql target gate = Ok t →
  (is_Some (create_view t) ↔
   declared_read_only tool = true ∧ gate ≠ NoInvoke ∧
   Forall (fun p => p ∉ required_list (default Null (get tool "inputSchema"))) (property <$> inputs t)).
Proof.
  intros Hp. destruct (plan_one_Ok _ _ _ _ _ _ Hp) as (_ & _ & _ & _ & Hro & Hinv).
  assert (forallb (fun col => negb (required col)) (inputs t) = true ↔
    Forall (fun p => p ∉ required_list (default Null (get tool "inputSchema"))) (property <$> inputs t)) as Hreq.
  { revert Hp. unfold plan_one. destruct (properties _) as [props|]; [|done]. intros [= <-]. cbn [inputs].
    rewrite forallb_forall, Forall_fmap, Forall_forall.
    pose proof (input_columns_required (required_set (default Null (get tool "inputSchema"))) ∅ props) as Hr.
    rewrite Forall_forall in Hr. split; intros Hall c Hc; specialize (Hall c).
    - apply list_elem_of_In in Hc as Hc'. specialize (Hall Hc'). rewrite (Hr c Hc), negb_true_iff, bool_decide_eq_false in Hall.
      unfold required_set in Hall. by rewrite elem_of_list_to_set in Hall.
    - apply list_elem_of_In in Hc. rewrite (Hr c Hc), negb_true_iff, bool_decide_eq_false.
      unfold required_set. rewrite elem_of_list_to_set. by apply Hall. }
  unfold create_view, eligible. rewrite Hro, Hinv.
  rewrite <- Hreq. destruct (declared_read_only tool), gate, (forallb _ (inputs t));
    cbn; rewrite ?is_Some_alt; naive_solver.
Qed.

(** ** Witnesses and examples *)

#[local] Instance ascii_tables : Unicode := {| to_lowercase := to_ascii_lowercase |}.
#[local] Instance no_text : Serde := {| json_from_str _ := None; json_to_string _ := EmptyString |}.

Definition planned_or (d : PlannedTool) (r : result string PlannedTool) : PlannedTool :=
  match r with Ok t => t | Err _ => d end.
Definition blank : PlannedTool :=
  mkPlanned EmptyString EmptyString EmptyString false false [] NoOutput [] None None.
Definition plan_example (name : string) (props : list (string * Value)) (req : list Value)
    (out : list (string * Value)) (target : string) (gate : InvokeOnSelect) : result string PlannedTool :=
  plan_one (Object ([("name", Str name); ("annotations", Object [("readOnlyHint", Bool true)]);
      ("inputSchema", Object [("properties", Object props); ("required", Array req)])] ++ out))
    name (Ident.derive name EmptyString) target gate.

Lemma create_function_intact_witness :
  ∃ t text, plan_example "readFile" [("path", Null); ("max", Null)] [Str "path"] [] "s" ReadOnly = Ok t ∧
    create_function t = Some text ∧ read_function text <> None.
Proof.
  destruct (plan_example "readFile" [("path", Null); ("max", Null)] [Str "path"] [] "s" ReadOnly)
    as [t|] eqn:Hp; [|by vm_compute in Hp].
  destruct (create_function_intact _ _ _ _ _ _ Hp) as (_ & body & text & _ & Ht & Hr).
  exists t, text. split_and!; [done|exact Ht|]. rewrite Hr; [done|by apply literal_free; vm_compute..].
Defined.

Lemma view_only_for_free_reads_witness :
  ∃ t, plan_example "listProjects" [("limit", Null)] [] [] "s" ReadOnly = Ok t ∧ is_Some (create_view t).
Proof.
  destruct (plan_example "listProjects" [("limit", Null)] [] [] "s" ReadOnly) as [t|] eqn:Hp; [|by vm_compute in Hp].
  exists t. split; [done|]. apply (view_only_for_free_reads _ _ _ _ _ _ Hp). split_and!; [done..|].
  apply Forall_true. intros x. by apply not_elem_of_nil.
Defined.

(** The body of a single-row read-only tool, as emitted. *)
Example read_body :
  function_body (planned_or blank (plan_example "readFile" [("max", Object [("type", Str "integer")]); ("path", Null)]
                                     [Str "path"] [] "s" ReadOnly)) =
  Some ("SELECT jsonb_build_object('content', t." +:+ quoted "content" +:+ ", 'is_error', t."
        +:+ quoted "is_error" +:+ ") FROM " +:+ quoted "s" +:+ "." +:+ quoted "tool_read_file"
        +:+ " AS t WHERE t." +:+ quoted "path" +:+ " = $1 AND ($2::bigint IS NULL OR t."
        +:+ quoted "max" +:+ " = $2)").
Proof. by vm_compute. Qed.

(** A schema name that holds the delimiter ends the body early: what follows in
    the name is outside the dollar-quoted string. *)
Example delimiter_in_schema :
  (function_body (planned_or blank (plan_example "y" [] [] [] "x$pg_mcp_fn$; DROP TABLE t; --" ReadOnly))
     ≫= fun body => split_at fn_tag (" " +:+ body +:+ " " +:+ fn_tag +:+ ";"))
  ≫= (fun r => Some (starts_with "; DROP TABLE t; --" r.2)) = Some true.
Proof. by vm_compute. Qed.

(** An input property called [content] gets a column of that name beside the
    column every per-tool table has. *)
Example content_twice :
  ft_columns <$> read_foreign_table
    (create_table "srv" (planned_or blank (plan_example "write_file"
       [("path", Object [("type", Str "string")]); ("content", Object [("type", Str "string")])] [] [] "s" ReadOnly))
       (mkExtra None None)) =
  Some [("path", "text"); ("content", "text"); ("content", "jsonb"); ("is_error", "boolean")].
Proof. by vm_compute. Qed.

(** An element schema without properties: two columns are declared, none is
    selected. *)
Example empty_element :
  let t := planned_or blank (plan_example "rows" [] []
    [("outputSchema", Object [("properties", Object [("rows", Object [("type", Str "array");
        ("items", Object [("type", Str "object")])])])])] "s" ReadOnly) in
  returns t = "RETURNS TABLE (" +:+ quoted "content" +:+ " jsonb, " +:+ quoted "is_error" +:+ " boolean)" ∧
  function_body t = Some ("SELECT  FROM " +:+ quoted "s" +:+ "." +:+ quoted "tool_rows" +:+ " AS t").
Proof. by vm_compute. Qed.

End Ddl.
