(* ===== verification/ImportSchema.v ===== *)
(** * import.rs: IMPORT FOREIGN SCHEMA and its options

    Option parsing, the default and the engine layout, the per-tool statement
    list.  The statements read back through [Ddl.read_foreign_table]. *)

From Stdlib Require Import Ascii String ZArith Lia.
From stdpp Require Import base numbers gmap sets strings pretty list sorting.
From S2P Require Import Prelude Str Json Errors Sha256 Ident Tables Quote Codegen Ddl.
Import Tables Codegen.
#[local] Open Scope Z_scope.

Module ImportSchema.

(** ** Options *)

Record ImportOptions : Type := mkImport {
  io_cache_ttl_ms : option Z;
  io_all_upstreams : bool;
  io_per_tool : bool;
  io_invoke_on_select : InvokeOnSelect;
  io_prefix : string;
  io_per_upstream_schema : bool;
}.

Definition ImportOptions_default : ImportOptions := mkImport None false false ReadOnly EmptyString false.

Definition validate_prefix (raw : string) : McpResult string :=
  if forallb (fun b => is_ascii_lowercase b || is_ascii_digit b || (b =? 95)) (bytes raw)
     && negb match bytes raw with b :: _ => is_ascii_digit b | [] => false end
  then Ok raw
  else Err (InvalidOption ("invalid value for import option " +:+ quoted "prefix" +:+ ": " +:+ quoted raw
         +:+ " is not an identifier fragment (lowercase letters, digits, underscores; must not start with a digit)")).

Section options.
Context `{Serde}.

Definition invalid_value {A} (key : string) (val : Value) (why : string) : McpResult A :=
  Err (InvalidOption ("invalid value for import option " +:+ quoted key +:+ ": "
                      +:+ json_to_string val +:+ why)).

Definition bool_option (key : string) (val : Value) : McpResult bool :=
  match as_bool val with Some b => Ok b | None => invalid_value key val " is not true or false" end.

Definition string_option (key : string) (val : Value) : McpResult string :=
  match as_str val with Some s => Ok s | None => invalid_value key val " is not a string" end.

Definition ttl_value (val : Value) : option Z :=
  match as_u64 val with Some n => Some n | None => as_str val ≫= fun s => parse_u64 (trim s) end.

(** One iteration of the loop over the option object. *)
Definition parse_step (opts : ImportOptions) (kv : string * Value) : McpResult ImportOptions :=
  let '(key, val) := kv in
  let '(mkImport ttl all per inv pre ups) := opts in
  if bool_decide (key = "cache_ttl_ms") then
    match ttl_value val with
    | Some n => Ok (mkImport (Some n) all per inv pre ups)
    | None => invalid_value key val " is not a non-negative integer"
    end
  else if bool_decide (key = "all_upstreams") then
    b ← bool_option key val; Ok (mkImport ttl b per inv pre ups)
  else if bool_decide (key = "per_tool") then
    b ← bool_option key val; Ok (mkImport ttl all b inv pre ups)
  else if bool_decide (key = "invoke_on_select") then
    raw ← string_option key val; g ← InvokeOnSelect_parse raw; Ok (mkImport ttl all per g pre ups)
  else if bool_decide (key = "prefix") then
    raw ← string_option key val; p ← validate_prefix raw; Ok (mkImport ttl all per inv p ups)
  else if bool_decide (key = "per_upstream_schema") then
    b ← bool_option key val; Ok (mkImport ttl all per inv pre b)
  else Err (InvalidOption ("unknown import option " +:+ quoted key
         +:+ " (valid options: all_upstreams, cache_ttl_ms, per_tool, invoke_on_select, prefix, per_upstream_schema)")).

Fixpoint parse_go (opts : ImportOptions) (obj : list (string * Value)) : McpResult ImportOptions :=
  match obj with
  | [] => Ok opts
  | kv :: obj' => opts' ← parse_step opts kv; parse_go opts' obj'
  end.

Definition ImportOptions_parse (value : Value) : McpResult ImportOptions :=
  match value with
  | Null => Ok ImportOptions_default
  | Object map => parse_go ImportOptions_default map
  | other => Err (InvalidOption ("mcp.import options must be a jsonb object, got: " +:+ json_to_string other))
  end.
End options.

Definition import_table_options (o : ImportOptions) : list (string * string) :=
  match io_cache_ttl_ms o with Some ttl => [(TABLE_OPTION_CACHE_TTL_MS, fmt_Z ttl)] | None => [] end.

(** ** Statements *)

Inductive TableFilter : Type :=
  | AllTables
  | LimitTo (names : list string)
  | Except (names : list string).

Definition import_option_ddl (o : string * string) : string :=
  o.1 +:+ " " +:+ sq +:+ replace Ddl.sq_char (sq +:+ sq) o.2 +:+ sq.

Definition create_foreign_table (server_name local_schema : string) (spec : TableSpec)
    (opts : list (string * string)) : string :=
  let columns := join ("," +:+ nl)
    ((fun col => "  " +:+ Ddl.quote_ident (c_name col) +:+ " " +:+ Tables.sql_name (c_type col)) <$> t_columns spec) in
  let options := match opts with
                 | [] => EmptyString
                 | _ => " OPTIONS (" +:+ join ", " (import_option_ddl <$> opts) +:+ ")"
                 end in
  "CREATE FOREIGN TABLE " +:+ Ddl.quote_ident local_schema +:+ "." +:+ Ddl.quote_ident (t_name spec)
  +:+ " (" +:+ nl +:+ columns +:+ nl +:+ ") SERVER " +:+ Ddl.quote_ident server_name +:+ options +:+ ";".

Definition passes (f : TableFilter) (name : string) : bool :=
  match f with
  | AllTables => true
  | LimitTo names => existsb (fun n => bool_decide (n = name)) names
  | Except names => negb (existsb (fun n => bool_decide (n = name)) names)
  end.

Definition statements_with (server_name local_schema : string) (f : TableFilter) (opts : ImportOptions) :
    list string :=
  (fun entry => create_foreign_table server_name local_schema (e_spec entry) (import_table_options opts))
    <$> filter (fun entry => passes f (t_name (e_spec entry)) = true) REGISTRY.

Definition statements (server_name local_schema : string) (f : TableFilter) : list string :=
  statements_with server_name local_schema f ImportOptions_default.

Definition is_engine_local (spec : TableSpec) : bool :=
  forallb (fun c => match c_source c with List _ | ReadThrough _ => false | _ => true end) (t_columns spec).

(** ** Upstreams *)

Definition str_le (a b : string) : Prop := String.compare a b ≠ Gt.
#[export] Instance str_le_dec : RelDecision str_le.
Proof. intros a b. unfold str_le. destruct (String.compare a b); (by left) || (right; congruence). Defined.

(** [Vec::dedup]: runs of equal neighbours keep their first element. *)
Fixpoint vec_dedup (l : list string) : list string :=
  match l with
  | a :: (b :: _) as l' => if bool_decide (a = b) then vec_dedup l' else a :: vec_dedup l'
  | _ => l
  end.

Definition upstreams_from_tool_names (names : list string) : list string :=
  vec_dedup (merge_sort str_le (omap (fun n => fst <$> split_once "." n) names)).

Definition engine_statements (server_name local_schema : string) (opts : ImportOptions)
    (upstreams : list string) : list string :=
  mjoin ((fun upstream =>
    ("CREATE SCHEMA " +:+ Ddl.quote_ident upstream +:+ ";")
    :: ((fun entry => create_foreign_table server_name upstream (e_spec entry)
           ((TABLE_OPTION_UPSTREAM, upstream) :: import_table_options opts))
        <$> filter (fun e => is_engine_local (e_spec e) = false) REGISTRY)) <$> upstreams)
  ++ ((fun entry => create_foreign_table server_name local_schema (e_spec entry)
         (if is_engine_local (e_spec entry) then import_table_options opts
          else (TABLE_OPTION_UPSTREAM, EmptyString) :: import_table_options opts)) <$> REGISTRY).

(** ** The per-tool layout *)

Section per_tool.
Context `{Serde, Unicode} {profile : Build}.

Definition extra_of (opts : ImportOptions) (local_schema : string) (tool : PlannedTool) : Ddl.ExtraOptions :=
  Ddl.mkExtra (if io_per_upstream_schema opts && negb (bool_decide (schema tool = local_schema))
               then Some (schema tool) else None) (io_cache_ttl_ms opts).

(** The statements of one tool but for its schema; [None] is a panic. *)
Definition tool_statements (server_name local_schema : string) (opts : ImportOptions) (tool : PlannedTool) :
    option (list string) :=
  function ← Ddl.create_function tool;
  Some (Ddl.create_table server_name tool (extra_of opts local_schema tool)
        :: Ddl.column_comments tool
        ++ function :: option_list (Ddl.comment_on_function tool) ++ option_list (Ddl.create_view tool)).

Fixpoint emit (server_name local_schema : string) (opts : ImportOptions) (created : list string)
    (ts : list PlannedTool) : option (list string) :=
  match ts with
  | [] => Some []
  | tool :: ts' =>
      let fresh := io_per_upstream_schema opts && negb (bool_decide (schema tool = local_schema))
                   && negb (bool_decide (schema tool ∈ created)) in
      own ← tool_statements server_name local_schema opts tool;
      rest ← emit server_name local_schema opts (if fresh then schema tool :: created else created) ts';
      Some ((if fresh then ["CREATE SCHEMA " +:+ Ddl.quote_ident (schema tool) +:+ ";"] else [])
            ++ own ++ rest)
  end.

(** [None] is a panic of a writer of statements, [Some (Err _)] what the planner
    fails with, its own panic included. *)
Definition per_tool_plan (server_name local_schema : string) (tools : list Value) (opts : ImportOptions) :
    option (McpResult (list string * GenerationPlan)) :=
  let mode := if io_per_upstream_schema opts then PerUpstream else SingleSchema in
  match plan tools local_schema (io_prefix opts) (io_invoke_on_select opts) mode with
  | Err e => Some (Err e)
  | Ok planned =>
      out ← emit server_name local_schema opts [] (Codegen.tools planned);
      Some (Ok (out, planned))
  end.
End per_tool.

(** ** Reading the statements back *)

(** The registry table [spec] as a foreign table. *)
Definition registry_table (server_name local_schema : string) (opts : list (string * string))
    (spec : TableSpec) : Ddl.ForeignTable :=
  Ddl.mkForeign local_schema (t_name spec)
    ((fun c => (c_name c, Tables.sql_name (c_type c))) <$> t_columns spec) server_name opts.

Lemma create_foreign_table_text server_name local_schema spec opts :
  create_foreign_table server_name local_schema spec opts =
  Ddl.foreign_table_text (registry_table server_name local_schema opts spec).
Proof.
  unfold create_foreign_table, Ddl.foreign_table_text, registry_table, Ddl.options_clause.
  cbn [Ddl.ft_schema Ddl.ft_table Ddl.ft_columns Ddl.ft_server Ddl.ft_options].
  by rewrite <- list_fmap_compose.
Qed.

Lemma registry_columns : Forall (fun e => t_columns (e_spec e) ≠ []) REGISTRY.
Proof. by repeat constructor. Qed.

Definition plain_keys (opts : list (string * string)) : Prop :=
  Forall (fun o => forallb Ddl.key_byte (bytes o.1) = true) opts.

Lemma import_table_options_plain o : plain_keys (import_table_options o).
Proof. unfold import_table_options, plain_keys. destruct (io_cache_ttl_ms o); by repeat constructor. Qed.

Lemma upstream_plain u o : plain_keys ((TABLE_OPTION_UPSTREAM, u) :: import_table_options o).
Proof. constructor; [done|]. apply import_table_options_plain. Qed.

Lemma read_registry_table server_name local_schema e opts :
  e ∈ REGISTRY → plain_keys opts →
  Ddl.read_foreign_table (create_foreign_table server_name local_schema (e_spec e) opts) =
  Some (registry_table server_name local_schema opts (e_spec e)).
Proof.
  intros He Ho. rewrite create_foreign_table_text. apply Ddl.read_foreign_table_text.
  pose proof registry_columns as Hc. rewrite Forall_forall in Hc. split_and!; [|..|done].
  - intros Hnil%fmap_nil_inv. by apply (Hc e He).
  - apply Forall_fmap, Forall_true. intros c. apply Ddl.type_name_plain.
Qed.

(** Reading a list of registry statements. *)
Lemma read_registry_list {A} (f : A → string) (g : A → Ddl.ForeignTable) (l : list A) :
  (∀ x, x ∈ l → Ddl.read_foreign_table (f x) = Some (g x)) →
  omap Ddl.read_foreign_table (f <$> l) = g <$> l.
Proof.
  intros Hf. induction l as [|x l IH]; [done|]. cbn [fmap list_fmap]. rewrite omap_cons, Hf by left.
  simpl. f_equal. apply IH. intros y Hy. apply Hf. by right.
Qed.

Lemma omap_app {A B} (f : A → option B) (l k : list A) : omap f (l ++ k) = omap f l ++ omap f k.
Proof. induction l as [|x l IH]; [done|]. cbn [app]. by rewrite !omap_cons, IH, app_assoc. Qed.

(** A statement that starts otherwise is no table. *)
Lemma read_other s : strip_prefix "CREATE FOREIGN TABLE " s = None → Ddl.read_foreign_table s = None.
Proof. intros Hs. unfold Ddl.read_foreign_table. by rewrite Hs. Qed.

(** ** Upstreams *)

Lemma str_le_lt a b : str_le a b → a ≠ b → Ident.str_lt a b.
Proof.
  unfold str_le, Ident.str_lt. intros Hle Hne. destruct (String.compare a b) eqn:E; [|done..].
  by apply String.compare_eq_iff in E.
Qed.

Lemma str_lt_irrefl a : ¬ Ident.str_lt a a.
Proof. unfold Ident.str_lt. by rewrite Ident.string_compare_refl. Qed.

#[export] Instance str_le_total : Total str_le.
Proof.
  intros a b. unfold str_le. rewrite (String.compare_antisym a b).
  destruct (String.compare b a); simpl; (by left) || (by right).
Qed.

#[export] Instance str_le_trans : Transitive str_le.
Proof.
  intros a b c Hab Hbc. destruct (decide (a = b)) as [->|H1]; [done|].
  destruct (decide (b = c)) as [->|H2]; [done|].
  pose proof (Ident.str_lt_trans _ _ _ (str_le_lt _ _ Hab H1) (str_le_lt _ _ Hbc H2)) as Hlt.
  unfold str_le, Ident.str_lt in *. by rewrite Hlt.
Qed.

Lemma elem_of_vec_dedup x l : x ∈ vec_dedup l ↔ x ∈ l.
Proof.
  induction l as [|a l IH]; [done|]. destruct l as [|b l]; [done|].
  change (vec_dedup (a :: b :: l)) with
    (if bool_decide (a = b) then vec_dedup (b :: l) else a :: vec_dedup (b :: l)).
  case_bool_decide as Hab; [|by rewrite !elem_of_cons, IH, elem_of_cons].
  rewrite IH. subst. set_solver.
Qed.

Lemma vec_dedup_sorted l : StronglySorted str_le l → StronglySorted Ident.str_lt (vec_dedup l).
Proof.
  induction l as [|a l IH]; [constructor|]. destruct l as [|b l]; [repeat constructor|].
  intros [Hs Ha]%StronglySorted_inv.
  change (vec_dedup (a :: b :: l)) with
    (if bool_decide (a = b) then vec_dedup (b :: l) else a :: vec_dedup (b :: l)).
  case_bool_decide as Hab; [auto|]. constructor; [auto|].
  apply Forall_forall. intros x Hx. rewrite elem_of_vec_dedup in Hx.
  rewrite Forall_forall in Ha.
  assert (Ident.str_lt a b) as Hlt by (apply str_le_lt; [apply Ha; left|done]).
  apply elem_of_cons in Hx as [->|Hx]; [done|].
  apply StronglySorted_inv in Hs as [_ Hb]. rewrite Forall_forall in Hb.
  destruct (decide (b = x)) as [->|Hbx]; [done|].
  eapply Ident.str_lt_trans; [exact Hlt|]. apply str_le_lt; auto.
Qed.

Lemma StronglySorted_NoDup l : StronglySorted Ident.str_lt l → NoDup l.
Proof.
  induction 1 as [|a l Hs IH Ha]; constructor; [|done]. intros Hin.
  rewrite Forall_forall in Ha. by apply (str_lt_irrefl a), Ha.
Qed.

(** ** Options *)

Definition options_ok (o : ImportOptions) : Prop :=
  Ident.fragment (io_prefix o) ∧
  match io_cache_ttl_ms o with Some n => 0 <= n <= u64_max | None => True end.

Lemma validate_prefix_Ok raw p : validate_prefix raw = Ok p → p = raw ∧ Ident.fragment p.
Proof.
  unfold validate_prefix. destruct (_ && _) eqn:E; [|done]. intros [= <-]. split; [done|].
  apply andb_true_iff in E as [Ha Hd]. split.
  - rewrite forallb_forall in Ha. apply Forall_forall. intros b Hb. apply list_elem_of_In, Ha in Hb.
    unfold Ident.ident_byte, Ident.keep, Ident.underscore. apply orb_true_iff in Hb as [?|?%Z.eqb_eq]; auto.
  - destruct (bytes raw); [done|]. by apply negb_true_iff in Hd.
Qed.

Section parsed.
Context `{Serde}.

Lemma parse_step_ok o kv o' :
  options_ok o → value_ok kv.2 → parse_step o kv = Ok o' → options_ok o'.
Proof.
  destruct kv as [key val], o as [ttl all per inv pre ups]. unfold options_ok. cbn [snd].
  intros [Hf Ht] Hv. unfold parse_step.
  repeat case_bool_decide; intros Hp; try done;
    repeat match type of Hp with (_ ≫= _) = Ok _ =>
      apply result_bind_Ok in Hp as (? & ? & Hp) end; simplify_eq/=; try done.
  - destruct (ttl_value val) as [n|] eqn:E; simplify_eq/=. split; [done|].
    unfold ttl_value in E. destruct (as_u64 val) as [m|] eqn:Em; simplify_eq.
    + destruct val as [| |[]| | |]; simplify_eq/=. done.
    + destruct (as_str val) as [raw|]; [|done]. simpl in E. by apply parse_int_range in E.
  - match goal with Hx : validate_prefix _ = Ok _ |- _ => by apply validate_prefix_Ok in Hx as [_ ?] end.
Qed.

Lemma ImportOptions_parse_ok v o : value_ok v → ImportOptions_parse v = Ok o → options_ok o.
Proof.
  assert (options_ok ImportOptions_default) as Hd by by split.
  destruct v as [| | | | |m]; intros Hv Hp; simplify_eq/=; try done.
  destruct Hv as [_ Hm]. revert Hd Hp. generalize ImportOptions_default. revert Hm.
  induction m as [|kv m IH]; intros Hm o0 Hd Hp; simplify_eq/=; [done|].
  apply result_bind_Ok in Hp as (o1 & Hs & Hp). destruct Hm as [Hv Hm].
  by eapply IH, Hp; [|eapply parse_step_ok].
Qed.
End parsed.

(** ** The per-tool layout *)

(** A CREATE SCHEMA statement and its name. *)
Definition read_create_schema (s : string) : option string :=
  s ← strip_prefix "CREATE SCHEMA " s;
  '(name, rest) ← Quote.read_quoted Ddl.dq_char s;
  if bool_decide (rest = ";") then Some name else None.

Lemma read_create_schema_text name :
  read_create_schema ("CREATE SCHEMA " +:+ Ddl.quote_ident name +:+ ";") = Some name.
Proof.
  unfold read_create_schema. rewrite Ddl.strip_prefix_app. cbn [mbind option_bind].
  by rewrite Ddl.read_ident.
Qed.

Section layout.
Context `{Serde, Unicode} {profile : Build} (server_name local_schema : string) (opts : ImportOptions).

Lemma omap_none {A B} (f : A → option B) (l : list A) : Forall (fun x => f x = None) l → omap f l = [].
Proof. induction 1 as [|x l Hx _ IH]; [done|]. by rewrite omap_cons, Hx. Qed.

(** None of the statements after the table is a table or a schema. *)
Lemma other_statements t fn :
  Ddl.create_function t = Some fn →
  Forall (fun s => Ddl.read_foreign_table s = None ∧ read_create_schema s = None)
    (Ddl.column_comments t ++ fn :: option_list (Ddl.comment_on_function t) ++ option_list (Ddl.create_view t)).
Proof.
  intros Hf. apply Forall_app. split; [|apply Forall_cons; split; [|apply Forall_app; split]].
  - apply Forall_forall. intros s (c & _ & Hs)%list_elem_of_omap.
    destruct (col_enum_hint c); simplify_eq/=. done.
  - unfold Ddl.create_function in Hf. destruct (Ddl.function_body t); simplify_eq/=. done.
  - unfold Ddl.comment_on_function. destruct (Ddl.comment_text t); simpl; by repeat constructor.
  - unfold Ddl.create_view. destruct (negb _); simpl; by repeat constructor.
Qed.

Lemma tool_statements_read t own :
  tool_statements server_name local_schema opts t = Some own →
  omap Ddl.read_foreign_table own = [Ddl.foreign_of server_name t (extra_of opts local_schema t)] ∧
  omap read_create_schema own = [].
Proof.
  unfold tool_statements. destruct (Ddl.create_function t) as [fn|] eqn:Hf; [|done]. intros [= <-].
  pose proof (other_statements t fn Hf) as Ho. rewrite !omap_cons, !omap_none.
  - split; [|done]. rewrite Ddl.create_table_text, Ddl.read_foreign_table_text; [done|].
    apply Ddl.foreign_of_plain.
  - eapply Forall_impl; [exact Ho|]. by intros s [_ ?].
  - eapply Forall_impl; [exact Ho|]. by intros s [? _].
Qed.

(** The schema of a tool that is not the local one. *)
Definition foreign_schema (t : PlannedTool) : Prop :=
  io_per_upstream_schema opts = true ∧ schema t ≠ local_schema.

Lemma emit_read created ts out :
  emit server_name local_schema opts created ts = Some out →
  omap Ddl.read_foreign_table out = (fun t => Ddl.foreign_of server_name t (extra_of opts local_schema t)) <$> ts ∧
  NoDup (omap read_create_schema out) ∧
  ∀ x, x ∈ omap read_create_schema out ↔ (x ∉ created) ∧ ∃ t, t ∈ ts ∧ foreign_schema t ∧ schema t = x.
Proof.
  revert created out. induction ts as [|t ts IH]; intros created out.
  { intros [= <-]. split_and!; [done|constructor|]. intros x. split; [by intros ?%elem_of_nil|].
    intros (_ & t & Ht & _). by apply elem_of_nil in Ht. }
  cbn [emit]. destruct (tool_statements _ _ _ t) as [own|] eqn:Hown; [|done]. cbn [mbind option_bind].
  destruct (emit _ _ _ _ ts) as [rest|] eqn:Hr; [|done]. cbn [mbind option_bind]. intros [= <-].
  apply tool_statements_read in Hown as [Ho1 Ho2]. apply IH in Hr as (Hr1 & Hr2 & Hr3). clear IH.
  rewrite !omap_app, Ho1, Ho2, Hr1. cbn [app].
  destruct (io_per_upstream_schema opts && negb (bool_decide (schema t = local_schema))
            && negb (bool_decide (schema t ∈ created))) eqn:Hfresh.
  - rewrite !andb_true_iff, !negb_true_iff, !bool_decide_eq_false in Hfresh. destruct Hfresh as [[Hu Hl] Hc].
    rewrite !omap_cons, read_create_schema_text. rewrite read_other by done.
    change ((option_list (Some (schema t)) ++ omap read_create_schema []) ++ omap read_create_schema rest)
      with (schema t :: omap read_create_schema rest).
    split_and!; [done| |].
    + constructor; [|done]. rewrite Hr3. set_solver.
    + intros x. rewrite elem_of_cons, Hr3. unfold foreign_schema.
      destruct (decide (x = schema t)) as [->|]; set_solver.
  - cbn [omap list_omap app]. split_and!; [done..|]. intros x. rewrite Hr3. unfold foreign_schema.
    rewrite !andb_false_iff, !negb_false_iff, !bool_decide_eq_true in Hfresh.
    split; [set_solver|]. intros (Hn & t' & Ht' & [Hu Hl] & <-). split; [done|].
    apply elem_of_cons in Ht' as [->|Ht']; [|by eauto 6].
    exfalso. destruct Hfresh as [[?|?]|?]; congruence || done.
Qed.

Definition plain_form (s : string) : Prop :=
  strip_prefix "DROP SCHEMA " s = None ∧
  ∀ x, read_create_schema s = Some x → s = "CREATE SCHEMA " +:+ Ddl.quote_ident x +:+ ";".

Lemma other_form s :
  strip_prefix "DROP SCHEMA " s = None → strip_prefix "CREATE SCHEMA " s = None → plain_form s.
Proof. intros Hd Hc. split; [done|]. intros x. unfold read_create_schema. by rewrite Hc. Qed.

(** Every statement of the layout is one of these. *)
Lemma emit_statements (P : string → Prop) created ts out :
  (∀ name, P ("CREATE SCHEMA " +:+ Ddl.quote_ident name +:+ ";")) →
  (∀ what rest, what ∈ ["CREATE FOREIGN TABLE "; "COMMENT ON "; "CREATE FUNCTION "; "CREATE VIEW "] → P (what +:+ rest)) →
  emit server_name local_schema opts created ts = Some out → Forall P out.
Proof.
  intros Hschema Hother. revert created out. induction ts as [|t ts IH]; intros created out; [intros [= <-]; constructor|].
  cbn [emit]. destruct (tool_statements _ _ _ t) as [own|] eqn:Hown; [|done]. cbn [mbind option_bind].
  destruct (emit _ _ _ _ ts) as [rest|] eqn:Hr; [|done]. cbn [mbind option_bind]. intros [= <-].
  apply Forall_app. split; [|apply Forall_app; split; [|by eapply IH]].
  - destruct (_ && _); repeat constructor. apply Hschema.
  - unfold tool_statements in Hown. destruct (Ddl.create_function t) as [fn|] eqn:Hf; [|done].
    injection Hown as <-. constructor; [apply Hother; by left|]. apply Forall_app.
    split; [|apply Forall_cons; split; [|apply Forall_app; split]].
    + apply Forall_forall. intros s (c & _ & Hs)%list_elem_of_omap.
      destruct (col_enum_hint c); simplify_eq/=. apply (Hother "COMMENT ON "). by right; left.
    + unfold Ddl.create_function in Hf. destruct (Ddl.function_body t); simplify_eq/=.
      unfold Ddl.function_head. rewrite !app_string_assoc. apply Hother. by do 2 right; left.
    + unfold Ddl.comment_on_function. destruct (Ddl.comment_text t); repeat constructor.
      apply (Hother "COMMENT ON "). by right; left.
    + unfold Ddl.create_view. destruct (negb (Ddl.eligible t)); repeat constructor. apply Hother. by do 3 right; left.
Qed.

(** A schema is created by its plain statement, nothing is dropped. *)
Lemma emit_forms created ts out :
  emit server_name local_schema opts created ts = Some out →
  Forall plain_form out.
Proof.
  apply emit_statements.
  - intros name. split; [done|]. intros x. rewrite read_create_schema_text. by intros [= ->].
  - intros what rest Hw. set_unfold in Hw. destruct Hw as [->|[->|[->|[->|[]]]]]; by apply other_form.
Qed.

Lemma emit_total created ts :
  Forall (fun t => is_Some (Ddl.create_function t)) ts →
  is_Some (emit server_name local_schema opts created ts).
Proof.
  intros Hall. revert created. induction Hall as [|t ts [fn Hf] _ IH]; intros created; [by eexists|].
  cbn [emit]. unfold tool_statements. rewrite Hf. cbn [mbind option_bind].
  edestruct IH as [rest Hr]. rewrite Hr. by eexists.
Qed.
End layout.

Lemma table_names_distinct server_name local_schema opts (ts : list PlannedTool) :
  NoDup ((fun t => (schema t, tool_sql_name t)) <$> ts) →
  NoDup (((fun f => (Ddl.ft_schema f, Ddl.ft_table f)) ∘
          (fun t => Ddl.foreign_of server_name t (extra_of opts local_schema t))) <$> ts).
Proof.
  intros Hn. change (NoDup (((fun p : string * string => (p.1, "tool_" +:+ p.2))
    ∘ (fun t => (schema t, tool_sql_name t))) <$> ts)).
  rewrite list_fmap_compose. apply NoDup_fmap_2; [|done].
  intros [a b] [c d] Heq. cbn [fst snd] in Heq. injection Heq as -> Heq. by f_equal.
Qed.

(** ** Properties *)

(** The default layout: the statements of an import read back as exactly the
    registry tables the LIMIT TO or EXCEPT list lets through, in registry order,
    in the given schema and server, with the TTL option when one was given; the
    two clauses with the same names split the registry. *)
Theorem import_reads_back (server_name local_schema : string) (opts : ImportOptions) (names : list string) :
  (∀ f, omap Ddl.read_foreign_table (statements_with server_name local_schema f opts) =
        (fun e => registry_table server_name local_schema (import_table_options opts) (e_spec e))
          <$> filter (fun e => passes f (t_name (e_spec e)) = true) REGISTRY) ∧
  statements_with server_name local_schema (LimitTo names) opts
    ++ statements_with server_name local_schema (Except names) opts
  ≡ₚ statements_with server_name local_schema AllTables opts.
Proof.
  split.
  - intros f. apply (read_registry_list _ (fun e => registry_table _ _ _ (e_spec e))).
    intros e [_ He]%list_elem_of_filter. apply read_registry_table; [done|apply import_table_options_plain].
  - unfold statements_with. rewrite <- fmap_app. apply fmap_Permutation.
    assert (filter (fun e => passes AllTables (t_name (e_spec e)) = true) REGISTRY = REGISTRY) as ->.
    { by vm_compute. }
    rewrite <- (filter_app_complement (fun e => passes (LimitTo names) (t_name (e_spec e)) = true) REGISTRY) at 3.
    apply Permutation_app; [done|]. apply eq_subrelation; [tc_solve|]. apply list_filter_iff. intros e. cbn [passes].
    destruct (existsb _ names); naive_solver.
Qed.

(** The engine layout: per upstream, every federated registry table scoped to
    it in a schema of its name, then all ten tables in the target schema, the
    federated ones marked with the empty upstream. *)
Theorem engine_layout (server_name local_schema : string) (opts : ImportOptions) (upstreams : list string) :
  omap Ddl.read_foreign_table (engine_statements server_name local_schema opts upstreams) =
  mjoin ((fun u => (fun e => registry_table server_name u ((TABLE_OPTION_UPSTREAM, u) :: import_table_options opts) (e_spec e))
                     <$> filter (fun e => is_engine_local (e_spec e) = false) REGISTRY) <$> upstreams)
  ++ ((fun e => registry_table server_name local_schema
        (if is_engine_local (e_spec e) then import_table_options opts
         else (TABLE_OPTION_UPSTREAM, EmptyString) :: import_table_options opts) (e_spec e)) <$> REGISTRY) ∧
  omap read_create_schema (engine_statements server_name local_schema opts upstreams) = upstreams.
Proof.
  assert (∀ sch spec o, read_create_schema (create_foreign_table server_name sch spec o) = None) as Hn by done.
  unfold engine_statements. rewrite !omap_app. split.
  - f_equal.
    + induction upstreams as [|u us IH]; [done|].
      cbn [fmap list_fmap mjoin list_join app]. rewrite omap_cons, omap_app.
      rewrite read_other by done. change (option_list None ++ ?x) with x. f_equal; [|exact IH].
      apply (read_registry_list _ (fun e => registry_table _ _ _ (e_spec e))).
      intros e [_ He]%list_elem_of_filter. apply read_registry_table; [done|apply upstream_plain].
    + apply (read_registry_list _ (fun e => registry_table _ _ _ (e_spec e))).
      intros e He. apply read_registry_table; [done|].
      destruct (is_engine_local _); [apply import_table_options_plain|apply upstream_plain].
  - rewrite (omap_none _ (_ <$> REGISTRY)) by (apply Forall_fmap, Forall_true; intros e; apply Hn).
    rewrite app_nil_r. induction upstreams as [|u us IH]; [done|].
    cbn [fmap list_fmap mjoin list_join app]. rewrite omap_cons, omap_app, read_create_schema_text, omap_none.
    + simpl. f_equal. exact IH.
    + apply Forall_fmap, Forall_true. intros e. apply Hn.
Qed.

(** The upstreams of an engine: strictly ascending (so without repetition),
    and exactly the texts before the first dot of a tool name. *)
Theorem upstreams_exact (names : list string) :
  StronglySorted Ident.str_lt (upstreams_from_tool_names names) ∧ NoDup (upstreams_from_tool_names names) ∧
  ∀ u, u ∈ upstreams_from_tool_names names ↔
       ∃ n rest, n ∈ names ∧ n = u +:+ "." +:+ rest ∧ byte_Z "." ∉ bytes u.
Proof.
  assert (StronglySorted Ident.str_lt (upstreams_from_tool_names names)) as Hs.
  { apply vec_dedup_sorted, StronglySorted_merge_sort; apply _. }
  split_and!; [done|by apply StronglySorted_NoDup|]. intros u. unfold upstreams_from_tool_names.
  rewrite elem_of_vec_dedup, merge_sort_Permutation, list_elem_of_omap. split.
  - intros (n & Hn & Hu). destruct (split_once "." n) as [[a b]|] eqn:E; [|done]. injection Hu as <-.
    apply split_once_Some in E as [-> Ha]. exists (a +:+ String "." b), b. split_and!; [done|done|exact Ha].
  - intros (n & rest & Hn & -> & Hu). exists (u +:+ "." +:+ rest). split; [done|].
    change (u +:+ "." +:+ rest) with (u +:+ String "." rest). by rewrite (split_once_app "." u rest Hu).
Qed.

(** C30. The per-tool layout under accepted options.  When it is produced, its tables
    read back as the planned tools in order, no two with the same schema and name,
    and it creates each upstream schema it uses once and no other schema.  It fails
    only on an empty target schema, with 22023, and, in a debug build, by the panic
    of the planner on a tool that requires a name twice; the writers of statements
    never panic. *)
Theorem per_tool_layout `{Serde, Unicode} {profile : Build} (v : Value) (opts : ImportOptions)
    (server_name local_schema : string) (tools : list Value) :
  value_ok v → ImportOptions_parse v = Ok opts → Z.of_nat (length tools) < 10 ^ 53 →
  match per_tool_plan server_name local_schema tools opts with
  | None => False
  | Some (Err e) =>
      local_schema = EmptyString ∧ sqlstate e = "22023" ∨
      debug_assertions = true ∧ ∃ tool m, tool ∈ tools ∧ e = Unwinding AssertionFailed m ∧
        ¬ NoDup (required_list (default Null (get tool "inputSchema")))
  | Some (Ok (out, p)) =>
      local_schema ≠ EmptyString ∧
      omap Ddl.read_foreign_table out =
        (fun t => Ddl.foreign_of server_name t (extra_of opts local_schema t)) <$> Codegen.tools p ∧
      NoDup ((fun f => (Ddl.ft_schema f, Ddl.ft_table f)) <$> omap Ddl.read_foreign_table out) ∧
      NoDup (omap read_create_schema out) ∧
      ∀ x, x ∈ omap read_create_schema out ↔
           ∃ t, t ∈ Codegen.tools p ∧ foreign_schema local_schema opts t ∧ schema t = x
  end.
Proof.
  intros Hv Ho Hlen. destruct (ImportOptions_parse_ok v opts Hv Ho) as [Hf _]. unfold per_tool_plan.
  destruct (plan _ _ _ _ _) as [p|e] eqn:Hp.
  - destruct (plan_spec _ _ _ _ _ _ Hf Hlen Hp) as (_ & _ & Hnd & _).
    destruct (emit_total server_name local_schema opts [] (Codegen.tools p)) as [out Hout].
    { apply Forall_forall. intros t Ht.
      destruct (plan_tools_from _ _ _ _ _ _ _ Hp Ht) as (r & sql & _ & Hone).
      eapply Ddl.create_function_total, params_declared, Hone. }
    rewrite Hout. cbn [mbind option_bind]. destruct (emit_read _ _ _ _ _ _ Hout) as (H1 & H2 & H3).
    split_and!; [by intros ->|done| |done|].
    + rewrite H1, <- list_fmap_compose. by apply table_names_distinct.
    + intros x. rewrite H3. split; [by intros [_ ?]|]. split; [by intros ?%elem_of_nil|done].
  - destruct (plan_Err _ _ _ _ _ _ Hp) as [[-> ->]|(Hd & tool & m & ? & ? & ?)]; [by left|right]. eauto 10.
Qed.

(** ** Witnesses *)

#[local] Instance ascii_tables : Unicode := {| to_lowercase := to_ascii_lowercase |}.
#[local] Instance no_text : Serde := {| json_from_str _ := None; json_to_string _ := EmptyString |}.
#[local] Existing Instance debug_build.

Definition per_upstream : Value :=
  Object [("per_upstream_schema", Bool true); ("prefix", Str "fs_"); ("cache_ttl_ms", Str " 60000 ")].
Definition federated : list Value :=
  (fun n => Object [("name", Str n); ("inputSchema", Object [("properties", Object [])])])
    <$> ["github.search"; "jira.search"; "github.create"; "local"].

Lemma per_tool_layout_witness :
  ImportOptions_parse per_upstream = Ok (mkImport (Some 60000) false false ReadOnly "fs_" true) ∧
  ∃ out p, per_tool_plan "srv" "mcp" federated (mkImport (Some 60000) false false ReadOnly "fs_" true) = Some (Ok (out, p)) ∧
    NoDup ((fun f => (Ddl.ft_schema f, Ddl.ft_table f)) <$> omap Ddl.read_foreign_table out).
Proof.
  assert (ImportOptions_parse per_upstream = Ok (mkImport (Some 60000) false false ReadOnly "fs_" true)) as Hp
    by (by vm_compute).
  split; [exact Hp|].
  pose proof (per_tool_layout per_upstream _ "srv" "mcp" federated
              ltac:(repeat split; apply (bool_decide_unpack _); by vm_compute) Hp ltac:(by vm_compute)) as Hl.
  destruct (per_tool_plan _ _ _ _) as [[[out p]|e]|] eqn:E; [|by vm_compute in E|by vm_compute in E].
  exists out, p. split; [done|]. apply Hl.
Defined.

Example per_upstream_schemas :
  (fun r => match r with Ok (out, _) => omap read_create_schema out | Err _ => [] end)
    <$> per_tool_plan "srv" "mcp" federated (mkImport None false false ReadOnly EmptyString true)
  = Some ["github"; "jira"].
Proof. by vm_compute. Qed.

Example upstreams_example :
  upstreams_from_tool_names ["b.x"; "local"; "a.y.z"; "b.w"; ".odd"] = [EmptyString; "a"; "b"].
Proof. by vm_compute. Qed.

End ImportSchema.
