(* ===== verification/Registry.v ===== *)
(** * codegen/registry.rs: the table of generated objects

    Bookkeeping statements, drop statements and the drop cycle.  SPI belongs to
    PostgreSQL: class [Spi], whose operations see the statements already run in
    the transaction. *)

From Stdlib Require Import Ascii String ZArith Lia.
From stdpp Require Import base numbers gmap sets strings pretty list sorting.
From S2P Require Import Prelude Str Json Errors Tables Quote Codegen Ddl ImportSchema.
#[local] Open Scope Z_scope.

(** One row of a query: its columns as text, NULL as [None]. *)
Class Spi := {
  sql_run : list string → string → result string unit;
  sql_get_one : list string → string → result string (option string);
  sql_select : list string → string → result string (list (list (option string)));
}.

Module Registry.

Definition GENERATED_TABLE : string := "mcp.generated".
Definition KIND_TABLE : string := "table".
Definition KIND_FUNCTION : string := "function".
Definition KIND_VIEW : string := "view".

Record OwnedObject : Type := mkOwned {
  o_kind : string;
  o_name : string;
  o_schema : string;
  o_tool : string;
}.

(** ** Statements *)

Definition owned_sql (server schema : string) : string :=
  "SELECT kind, name, schema, tool FROM " +:+ GENERATED_TABLE +:+ " WHERE server = "
  +:+ Ddl.quote_literal server +:+ " AND schema = " +:+ Ddl.quote_literal schema
  +:+ " ORDER BY generated_at, name".

Definition schemas_sql (server : string) : string :=
  "SELECT DISTINCT schema FROM " +:+ GENERATED_TABLE +:+ " WHERE server = " +:+ Ddl.quote_literal server.

Definition record_sql (server : string) (object : OwnedObject) : string :=
  "INSERT INTO " +:+ GENERATED_TABLE +:+ " (server, schema, kind, name, tool, generated_at) VALUES ("
  +:+ Ddl.quote_literal server +:+ ", " +:+ Ddl.quote_literal (o_schema object) +:+ ", "
  +:+ Ddl.quote_literal (o_kind object) +:+ ", " +:+ Ddl.quote_literal (o_name object) +:+ ", "
  +:+ Ddl.quote_literal (o_tool object)
  +:+ ", now()) ON CONFLICT (schema, name) DO UPDATE SET server = EXCLUDED.server, kind = EXCLUDED.kind, tool = EXCLUDED.tool, generated_at = now()".

Definition clear_sql (server schema : string) : string :=
  "DELETE FROM " +:+ GENERATED_TABLE +:+ " WHERE server = " +:+ Ddl.quote_literal server
  +:+ " AND schema = " +:+ Ddl.quote_literal schema.

Definition identity_sql (object : OwnedObject) : string :=
  "SELECT (SELECT pg_get_function_identity_arguments(p.oid)    FROM pg_proc p    JOIN pg_namespace n ON n.oid = p.pronamespace   WHERE n.nspname = "
  +:+ Ddl.quote_literal (o_schema object) +:+ " AND p.proname = " +:+ Ddl.quote_literal (o_name object)
  +:+ ")".

Definition drop_view_sql (o : OwnedObject) : string :=
  "DROP VIEW " +:+ Ddl.quote_ident (o_schema o) +:+ "." +:+ Ddl.quote_ident (o_name o) +:+ " RESTRICT;".
Definition drop_table_sql (o : OwnedObject) : string :=
  "DROP FOREIGN TABLE " +:+ Ddl.quote_ident (o_schema o) +:+ "." +:+ Ddl.quote_ident (o_name o) +:+ " RESTRICT;".
Definition drop_function_sql (o : OwnedObject) (args : string) : string :=
  "DROP FUNCTION " +:+ Ddl.quote_ident (o_schema o) +:+ "." +:+ Ddl.quote_ident (o_name o) +:+ "("
  +:+ args +:+ ") RESTRICT;".

(** ** Operations, over the statements run so far *)

Section spi.
Context `{Spi}.

Abbreviation SqlM := (M (list string) McpError).

Definition run (what : string → McpError) (sql : string) : SqlM unit := fun ran =>
  match sql_run ran sql with
  | Ok _ => (Ok tt, ran ++ [sql])
  | Err e => (Err (what e), ran)
  end.

(** [get_by_name(..).unwrap_or(None)]: a missing column reads as NULL. *)
Definition column (row : list (option string)) (i : nat) : option string := mjoin (row !! i).
Definition object_of_row (row : list (option string)) : OwnedObject :=
  let text i := default EmptyString (column row i) in
  mkOwned (text 0%nat) (text 1%nat) (text 2%nat) (text 3%nat).

Definition lookup_failed (e : string) : McpError := Internal ("mcp.generated lookup failed: " +:+ e).

Definition owned (server schema : string) : SqlM (list OwnedObject) := fun ran =>
  (match sql_select ran (owned_sql server schema) with
   | Ok rows => Ok (object_of_row <$> rows)
   | Err e => Err (lookup_failed e)
   end, ran).

(** The schemas holding objects of a server, sorted, without repetition. *)
Definition schemas_for (server : string) : SqlM (list string) := fun ran =>
  (match sql_select ran (schemas_sql server) with
   | Ok rows => Ok (ImportSchema.vec_dedup (merge_sort ImportSchema.str_le (omap (fun row => column row 0) rows)))
   | Err e => Err (lookup_failed e)
   end, ran).

Definition record (server : string) (object : OwnedObject) : SqlM unit :=
  run (fun e => Internal ("mcp.generated write failed: " +:+ e)) (record_sql server object).

Definition clear (server schema : string) : SqlM unit :=
  run (fun e => Internal ("mcp.generated delete failed: " +:+ e)) (clear_sql server schema).

Definition drop_statement (o : OwnedObject) : SqlM string := fun ran =>
  (if bool_decide (o_kind o = KIND_VIEW) then Ok (drop_view_sql o)
   else if bool_decide (o_kind o = KIND_TABLE) then Ok (drop_table_sql o)
   else if bool_decide (o_kind o = KIND_FUNCTION) then
     match sql_get_one ran (identity_sql o) with
     | Ok args => Ok (drop_function_sql o (default EmptyString args))
     | Err e => Err (Internal ("function lookup failed: " +:+ e))
     end
   else Err (Internal ("mcp.generated holds unknown kind " +:+ quoted (o_kind o) +:+ " for "
                       +:+ o_schema o +:+ "." +:+ o_name o)), ran).

Definition drop_failed (o : OwnedObject) (e : string) : McpError :=
  Internal ("drop of " +:+ o_schema o +:+ "." +:+ o_name o +:+ " failed: " +:+ e).

Fixpoint drop_each (objects : list OwnedObject) : SqlM unit :=
  match objects with
  | [] => mret tt
  | o :: rest =>
      sql ← drop_statement o;
      _ ← run (drop_failed o) sql;
      drop_each rest
  end.

(** Drop what the extension owns, last generated first, then forget it. *)
Definition drop_owned (server schema : string) : SqlM nat :=
  objects ← owned server schema;
  _ ← drop_each (reverse objects);
  _ ← clear server schema;
  mret (length objects).

(** ** The drop cycle *)

(** What a drop statement drops: the kind of the object, its schema, its name. *)
Definition read_target (kind s : string) : option (string * string * string) :=
  '(sch, s) ← Quote.read_quoted Ddl.dq_char s;
  s ← strip_prefix "." s;
  '(name, _) ← Quote.read_quoted Ddl.dq_char s;
  Some (kind, sch, name).

Definition read_drop (s : string) : option (string * string * string) :=
  match strip_prefix "DROP VIEW " s with
  | Some s => read_target KIND_VIEW s
  | None =>
      match strip_prefix "DROP FOREIGN TABLE " s with
      | Some s => read_target KIND_TABLE s
      | None => strip_prefix "DROP FUNCTION " s ≫= read_target KIND_FUNCTION
      end
  end.

Definition drops (o : OwnedObject) (sql : string) : Prop :=
  read_drop sql = Some (o_kind o, o_schema o, o_name o).

Lemma read_target_text kind sch name rest :
  Quote.not_quote Ddl.dq_char rest →
  read_target kind (Ddl.quote_ident sch +:+ "." +:+ Ddl.quote_ident name +:+ rest) = Some (kind, sch, name).
Proof.
  intros Hr. unfold read_target. rewrite Ddl.read_ident by done. cbn [mbind option_bind].
  rewrite Ddl.strip_prefix_app. cbn [mbind option_bind]. by rewrite Ddl.read_ident.
Qed.

Lemma drop_view_reads o : o_kind o = KIND_VIEW → drops o (drop_view_sql o).
Proof.
  intros Hk. unfold drops, read_drop, drop_view_sql. rewrite Ddl.strip_prefix_app, Hk.
  by apply read_target_text.
Qed.

Lemma drop_table_reads o : o_kind o = KIND_TABLE → drops o (drop_table_sql o).
Proof.
  intros Hk. unfold drops, read_drop, drop_table_sql.
  replace (strip_prefix "DROP VIEW " _) with (@None string) by done.
  rewrite Ddl.strip_prefix_app, Hk. by apply read_target_text.
Qed.

Lemma drop_function_reads o args : o_kind o = KIND_FUNCTION → drops o (drop_function_sql o args).
Proof.
  intros Hk. unfold drops, read_drop, drop_function_sql.
  replace (strip_prefix "DROP VIEW " _) with (@None string) by done.
  replace (strip_prefix "DROP FOREIGN TABLE " _) with (@None string) by done.
  rewrite Ddl.strip_prefix_app, Hk. by apply read_target_text.
Qed.

Lemma run_Ok what sql ran u ran' :
  run what sql ran = (Ok u, ran') → ran' = ran ++ [sql] ∧ sql_run ran sql = Ok tt.
Proof. unfold run. destruct (sql_run ran sql) as [[]|]; intros; by simplify_eq. Qed.

Lemma drop_statement_Ok o ran sql ran' :
  drop_statement o ran = (Ok sql, ran') → ran' = ran ∧ drops o sql.
Proof.
  unfold drop_statement. repeat case_bool_decide; intros; simplify_eq.
  - split; [done|]. by apply drop_view_reads.
  - split; [done|]. by apply drop_table_reads.
  - destruct (sql_get_one _ (identity_sql o)) as [args|e]; simplify_eq/=.
    split; [done|]. by apply drop_function_reads.
Qed.

Lemma drop_each_Ok objects ran u ran' :
  drop_each objects ran = (Ok u, ran') →
  ∃ sqls, ran' = ran ++ sqls ∧ Forall2 drops objects sqls.
Proof.
  revert ran. induction objects as [|o rest IH]; intros ran; cbn [drop_each].
  { intros [= _ <-]. exists []. by rewrite app_nil_r. }
  intros (sql & d1 & Hs & (u1 & d2 & Hr & Hrest)%m_bind_inv_ok)%m_bind_inv_ok.
  apply drop_statement_Ok in Hs as [-> Hd]. apply run_Ok in Hr as [-> _].
  apply IH in Hrest as (sqls & -> & Hf). exists (sql :: sqls). rewrite <- app_assoc. by split; [|constructor].
Qed.

(** A failing drop stops the cycle: the bookkeeping rows are not cleared. *)
Lemma drop_each_Err objects ran e ran' :
  drop_each objects ran = (Err e, ran') →
  ∃ n sqls, (n < length objects)%nat ∧ ran' = ran ++ sqls ∧ Forall2 drops (take n objects) sqls.
Proof.
  revert ran. induction objects as [|o rest IH]; intros ran; cbn [drop_each]; [done|].
  destruct (drop_statement o ran) as [[sql|e1] d1] eqn:Hs.
  - rewrite (m_bind_ok _ _ _ _ _ Hs). pose proof Hs as Hs'. apply drop_statement_Ok in Hs' as [-> Hd].
    destruct (run (drop_failed o) sql ran) as [[u|e2] d2] eqn:Hr.
    + rewrite (m_bind_ok _ _ _ _ _ Hr). apply run_Ok in Hr as [-> _]. intros Hrest.
      apply IH in Hrest as (n & sqls & Hn & -> & Hf). exists (S n), (sql :: sqls).
      rewrite <- app_assoc. cbn [length take]. split_and!; [lia|done|by constructor].
    + rewrite (m_bind_err _ _ _ _ _ Hr). unfold run in Hr. destruct (sql_run ran sql); simplify_eq.
      intros; simplify_eq. exists 0%nat, []. rewrite app_nil_r. cbn. split_and!; [lia|done|constructor].
  - rewrite (m_bind_err _ _ _ _ _ Hs). intros; simplify_eq. unfold drop_statement in Hs. simplify_eq.
    exists 0%nat, []. rewrite app_nil_r. cbn. split_and!; [lia|done|constructor].
Qed.

Lemma drop_owned_Ok server schema ran n ran' :
  drop_owned server schema ran = (Ok n, ran') →
  ∃ rows sqls, sql_select ran (owned_sql server schema) = Ok rows ∧ n = length rows ∧
    ran' = ran ++ sqls ++ [clear_sql server schema] ∧
    Forall2 drops (reverse (object_of_row <$> rows)) sqls.
Proof.
  unfold drop_owned.
  intros (objects & r1 & Ho & (u & r2 & Hd & (u2 & r3 & Hc & Hr)%m_bind_inv_ok)%m_bind_inv_ok)%m_bind_inv_ok.
  unfold owned in Ho. destruct (sql_select ran (owned_sql server schema)) as [rows|] eqn:Hs; [|by simplify_eq].
  injection Ho as <- <-. apply drop_each_Ok in Hd as (sqls & -> & Hf). apply run_Ok in Hc as [-> _].
  injection Hr as <- <-. exists rows, sqls. rewrite length_fmap, app_assoc. done.
Qed.
End spi.

(** ** Properties *)

(** The drop cycle: with [objects] the rows of [mcp.generated] for the server
    and schema, success means that exactly one drop per object ran, in reverse
    order, each reading back as the object's kind, schema and name, and then the
    deletion of the rows; after a failure only drops of the first so many of them
    ran, and no row was deleted. *)
Theorem drop_owned_outcome `{Spi} (server schema : string) (ran : list string)
    (rows : list (list (option string))) :
  sql_select ran (owned_sql server schema) = Ok rows →
  let objects := object_of_row <$> rows in
  match drop_owned server schema ran with
  | (Ok n, ran') =>
      n = length rows ∧
      ∃ sqls, ran' = ran ++ sqls ++ [clear_sql server schema] ∧ Forall2 drops (reverse objects) sqls
  | (Err _, ran') =>
      ∃ k sqls, ran' = ran ++ sqls ∧ Forall2 drops (take k (reverse objects)) sqls
  end.
Proof.
  intros Hrows objects. destruct (drop_owned server schema ran) as [[n|e] ran'] eqn:E.
  - apply drop_owned_Ok in E as (rows' & sqls & Hr & -> & -> & Hf). assert (rows' = rows) as -> by congruence.
    split; [done|]. by exists sqls.
  - revert E. unfold drop_owned.
    assert (owned server schema ran = (Ok objects, ran)) as Ho by (unfold owned; by rewrite Hrows).
    rewrite (m_bind_ok _ _ _ _ _ Ho).
    destruct (drop_each (reverse objects) ran) as [[u|e1] r1] eqn:Hd.
    + rewrite (m_bind_ok _ _ _ _ _ Hd). apply drop_each_Ok in Hd as (sqls & -> & Hf).
      unfold clear, run, mbind, M_bind. destruct (sql_run _ _); intros; simplify_eq.
      exists (length (reverse objects)), sqls. by rewrite firstn_all.
    + rewrite (m_bind_err _ _ _ _ _ Hd). apply drop_each_Err in Hd as (n & sqls & _ & -> & Hf).
      intros; simplify_eq. by exists n, sqls.
Qed.

(** ** Witness *)

Module Wit.
(** Two recorded objects; every statement succeeds. *)
Definition rows : list (list (option string)) :=
  [[Some "table"; Some "tool_a"; Some "s"; Some "a"]; [Some "function"; Some "a"; Some "s"; None]].
#[local] Instance spi : Spi := {|
  sql_run _ _ := Ok tt;
  sql_get_one _ _ := Ok (Some "text");
  sql_select _ _ := Ok rows;
|}.
End Wit.
#[local] Existing Instance Wit.spi.

Example drop_owned_run :
  drop_owned "srv" "s" [] =
  (Ok 2%nat, ["DROP FUNCTION " +:+ quoted "s" +:+ "." +:+ quoted "a" +:+ "(text) RESTRICT;";
              "DROP FOREIGN TABLE " +:+ quoted "s" +:+ "." +:+ quoted "tool_a" +:+ " RESTRICT;";
              clear_sql "srv" "s"]).
Proof. by vm_compute. Qed.

Lemma drop_owned_outcome_witness :
  ∃ n ran' sqls, drop_owned "srv" "s" [] = (Ok n, ran') ∧
    ran' = sqls ++ [clear_sql "srv" "s"] ∧ Forall2 drops (reverse (object_of_row <$> Wit.rows)) sqls.
Proof.
  pose proof (drop_owned_outcome "srv" "s" [] Wit.rows eq_refl) as Ho.
  destruct (drop_owned "srv" "s" []) as [[n|e] ran'] eqn:E; [|by vm_compute in E].
  destruct Ho as (_ & sqls & Hr & Hf). exists n, ran', sqls. split_and!; [done|exact Hr|exact Hf].
Defined.

End Registry.
