(* ===== verification/Api.v ===== *)
(** * api.rs: the SQL entry points

    Tool calls, the simple requests, refresh, import, per-tool generation, the
    session diagnostics and the option validator.  [McpError::raise] is the
    failure of the state monad; the thread-local state is the session map, the
    catalog cache, the statements run and the messages emitted. *)

From Stdlib Require Import Ascii String ZArith Lia.
From stdpp Require Import base numbers gmap sets strings pretty list sorting.
From S2P Require Import Prelude Str Json Errors Ident Tables Options Client Session Cache.
From S2P Require Import Quote Codegen Ddl ImportSchema Registry.
Import Client Session.
#[local] Open Scope Z_scope.

(** The iteration order of a [HashSet]: each element once, in any order. *)
Class HashOrder := {
  hash_order : list string → list string;
  hash_order_perm : ∀ l, NoDup l → hash_order l ≡ₚ l;
}.

#[local] Existing Instance Cache.Slice_eq_dec.
#[local] Existing Instance Cache.Slice_countable.

(** lib.rs: [mcp.version()] and [mcp.protocol_version()]. *)
Module Extension.
Definition version : string := CLIENT_VERSION.
Definition protocol_version : string := CLIENT_PROTOCOL_VERSION.
End Extension.

Module Api.

(** The rest of the backend's state. *)
Record Backend : Type := mkBackend {
  caches : Cache.Caches;
  ran : list string;
  messages : list string;
}.

Inductive OnError : Type := Raise | Return.
#[export] Instance OnError_eq_dec : EqDecision OnError.
Proof. solve_decision. Defined.

Definition OnError_parse (raw : string) : McpResult OnError :=
  if bool_decide (raw = "raise") then Ok Raise
  else if bool_decide (raw = "return") then Ok Return
  else Err (InvalidOption ("invalid value for on_error: " +:+ quoted raw
         +:+ " (expected 'raise' or 'return')")).

Section api.
Context `{Serde, Net, UrlLib, PgCatalog}.
Abbreviation BM := (M (Sessions Backend) McpError).

(** ** Requests *)

Definition api_request (server method : string) (params : Value) : BM Value :=
  resolved ← m_lift (resolve server);
  with_session resolved (fun tr => lift_x (Client.request method params tr)).

Definition fetch_tools_fresh (server : string) : BM (list Value) :=
  resolved ← m_lift (resolve server);
  with_session resolved (fun tr => lift_x (Client.list_all "tools/list" "tools" (Object []) tr)).

Definition discover_upstreams (server : string) : BM (list string) :=
  items ← fetch_tools_fresh server;
  mret (ImportSchema.upstreams_from_tool_names (omap (fun tool => get tool "name" ≫= as_str) items)).

Definition tool_failure (tool : string) (result : Value) : string :=
  default ("tool " +:+ quoted tool +:+ " returned an error result") (text_content result).

Definition call_tool_inner (server tool : string) (args : option Value) (on_error : string) : BM Value :=
  on_error ← m_lift (OnError_parse on_error);
  result ← api_request server "tools/call"
             (Object [("name", Str tool); ("arguments", params_object args)]);
  match is_error_result result, on_error with
  | true, Raise => m_fail (ToolError (tool_failure tool result))
  | _, _ => mret result
  end.

Definition call_tool (server tool : string) (args : option Value) (on_error : string) : BM Value :=
  call_tool_inner server tool args on_error.

Definition call_tool_text (server tool : string) (args : option Value) (on_error : string) :
    BM (option string) :=
  result ← call_tool_inner server tool args on_error; mret (text_content result).

Definition get_prompt (server prompt : string) (args : option Value) : BM Value :=
  api_request server "prompts/get" (Object [("name", Str prompt); ("arguments", params_object args)]).

Definition read_resource (server uri : string) : BM Value :=
  api_request server "resources/read" (Object [("uri", Str uri)]).

Definition complete (server : string) (ref : Value) (argument_name argument_value : string) : BM Value :=
  api_request server "completion/complete"
    (Object [("ref", ref);
             ("argument", Object [("name", Str argument_name); ("value", Str argument_value)])]).

(** ** Session diagnostics *)

Definition session_initialize_count (server : string) : BM (option Z) :=
  '(oid, _) ← m_lift (lookup_foreign_server server);
  st ← m_get; mret (cached_initialize_count oid get_user_id st).

Definition api_session_count : BM nat := st ← m_get; mret (session_count st).

Definition session_info_json (s : McpSession) : Value :=
  Object [("url", Str (url s)); ("protocolVersion", Str (protocol_version s));
          ("serverInfo", server_info s); ("capabilities", capabilities s);
          ("hasSessionId", Bool (match session_id s with Some _ => true | None => false end));
          ("initializeCount", Num (PosInt (initialize_count s)))].

Definition session_info (server : string) : BM (option Value) :=
  '(oid, _) ← m_lift (lookup_foreign_server server);
  st ← m_get; mret (with_cached_session oid get_user_id session_info_json st).

(** ** The validator *)

Definition mcp_fdw_validator (options : list (option string)) (catalog : Z) : McpResult unit :=
  let parsed := split_validator_options options in
  match validator_catalog catalog with
  | ForeignServer => _ ← Options.ServerOptions_parse parsed; Ok tt
  | UserMapping => _ ← Options.UserMappingOptions_parse parsed; Ok tt
  | ForeignDataWrapper =>
      match parsed with
      | [] => Ok tt
      | (name, _) :: _ => Err (InvalidOption ("invalid option " +:+ quoted name
                            +:+ " for the mcp_fdw foreign data wrapper (it takes none)"))
      end
  | OtherCatalog => Ok tt
  end.
End api.

(** ** Statements *)

Section ddl.
Context `{Serde, Net, UrlLib, PgCatalog, Unicode, Spi, HashOrder} {profile : Build}.
Abbreviation BM := (M (Sessions Backend) McpError).

Definition lift_sql {A} (m : M (list string) McpError A) : BM A := fun st =>
  let '(r, ran') := m (ran (extra st)) in
  (r, mkSessions (sessions st) (world st) (mkBackend (caches (extra st)) ran' (messages (extra st)))).

Definition emit_message (message : string) : BM unit := fun st =>
  (Ok tt, mkSessions (sessions st) (world st)
            (mkBackend (caches (extra st)) (ran (extra st)) (messages (extra st) ++ [message]))).

Fixpoint for_each {A} (f : A → BM unit) (l : list A) : BM unit :=
  match l with
  | [] => mret tt
  | x :: rest => _ ← f x; for_each f rest
  end.

(** A loop of statements; each must succeed. *)
Fixpoint run_all (what : string → McpError) (sqls : list string) : M (list string) McpError unit :=
  match sqls with
  | [] => mret tt
  | sql :: rest => _ ← Registry.run what sql; run_all what rest
  end.

Definition owned_rows (tool : Codegen.PlannedTool) : list (string * string) :=
  [(Registry.KIND_TABLE, Ddl.table_name tool); (Registry.KIND_FUNCTION, Codegen.tool_sql_name tool)]
  ++ match Ddl.create_view tool with
     | Some _ => [(Registry.KIND_VIEW, Ddl.view_name tool)]
     | None => []
     end.

Definition owned_objects (plan : Codegen.GenerationPlan) : list Registry.OwnedObject :=
  mjoin ((fun tool => (fun kn => Registry.mkOwned kn.1 kn.2 (Codegen.schema tool) (Codegen.tool_name tool))
                        <$> owned_rows tool) <$> Codegen.tools plan).

Definition schema_if_not_exists (target : string) : string :=
  "CREATE SCHEMA IF NOT EXISTS " +:+ Ddl.quote_ident target.

(** The schemas made on demand, one statement each. *)
Definition on_demand (schema : string) (options : ImportSchema.ImportOptions)
    (plan : Codegen.GenerationPlan) : list string :=
  if ImportSchema.io_per_upstream_schema options
  then schema_if_not_exists <$> filter (fun target => target ≠ schema)
         (hash_order (remove_dups (Codegen.schema <$> Codegen.tools plan)))
  else [].

Definition skipped_warning (plan : Codegen.GenerationPlan) : list string :=
  match Codegen.skipped plan with
  | [] => []
  | sk => ["skipped " +:+ fmt_nat (length sk) +:+ " tool(s) with unmappable schemas: " +:+ join ", " sk]
  end.

(** The message of the [expect] in [function_body]; a panic is an internal error. *)
Definition panicked : McpError := Internal "params reference declared inputs".

Fixpoint record_all (server : string) (objects : list Registry.OwnedObject) : M (list string) McpError unit :=
  match objects with
  | [] => mret tt
  | o :: rest => _ ← Registry.record server o; record_all server rest
  end.

Definition generate_per_tool (server schema : string) (options : ImportSchema.ImportOptions) :
    BM (nat * list string * nat) :=
  tools ← fetch_tools_fresh server;
  planned ← m_lift (ok_or panicked (ImportSchema.per_tool_plan server schema tools options));
  '(statements, plan) ← m_lift planned;
  _ ← for_each emit_message (Codegen.warnings plan ++ skipped_warning plan);
  _ ← lift_sql (run_all (fun e => Internal ("CREATE SCHEMA failed: " +:+ e)) (on_demand schema options plan));
  _ ← lift_sql (run_all (fun e => Internal ("per-tool DDL failed: " +:+ e)) statements);
  _ ← lift_sql (record_all server (owned_objects plan));
  mret (length (Codegen.tools plan), Codegen.skipped plan, length statements).

Definition import (server schema : string) (opts : option Value) : BM nat :=
  _ ← m_lift (lookup_foreign_server server);
  options ← m_lift (ImportSchema.ImportOptions_parse (default Null opts));
  statements ← (if ImportSchema.io_all_upstreams options
                then upstreams ← discover_upstreams server;
                     mret (ImportSchema.engine_statements server schema options upstreams)
                else mret (ImportSchema.statements_with server schema ImportSchema.AllTables options));
  generated ← (if ImportSchema.io_per_tool options
               then r ← generate_per_tool server schema options; mret r.1.1
               else mret 0%nat);
  _ ← lift_sql (run_all (fun e => Internal ("import DDL failed: " +:+ e)) statements);
  mret (length statements + generated)%nat.

(** The schemas whose objects are dropped first: the target, and under
    [per_upstream_schema] the others generated into before. *)
Fixpoint drop_schemas (per_upstream : bool) (acc schemas : list string) : list string :=
  match schemas with
  | [] => acc
  | s :: rest => drop_schemas per_upstream
                   (if per_upstream && negb (bool_decide (s ∈ acc)) then acc ++ [s] else acc) rest
  end.

Fixpoint drop_all (server : string) (targets : list string) : M (list string) McpError unit :=
  match targets with
  | [] => mret tt
  | t :: rest => _ ← Registry.drop_owned server t; drop_all server rest
  end.

(** [options.per_tool = true]. *)
Definition per_tool_options (options : ImportSchema.ImportOptions) : ImportSchema.ImportOptions :=
  ImportSchema.mkImport (ImportSchema.io_cache_ttl_ms options) (ImportSchema.io_all_upstreams options) true
    (ImportSchema.io_invoke_on_select options) (ImportSchema.io_prefix options)
    (ImportSchema.io_per_upstream_schema options).

Definition generate_functions (server schema : string) (opts : option Value) :
    BM (nat * nat * list string) :=
  _ ← m_lift (lookup_foreign_server server);
  parsed ← m_lift (ImportSchema.ImportOptions_parse (default Null opts));
  let options := per_tool_options parsed in
  schemas ← lift_sql (Registry.schemas_for server);
  _ ← lift_sql (drop_all server (drop_schemas (ImportSchema.io_per_upstream_schema options) [schema] schemas));
  '(generated, skipped, _) ← generate_per_tool server schema options;
  mret (generated, length skipped, skipped).

Definition refresh_notice (server : string) (schemas : list string) : string :=
  "server " +:+ quoted server +:+ " has generated per-tool objects in schema(s) " +:+ join ", " schemas
  +:+ "; if its tools changed, re-run mcp.generate_functions".

Definition refresh (server : string) : BM bool :=
  '(oid, _) ← m_lift (lookup_foreign_server server);
  st ← m_get;
  let st1 := (drop_session oid get_user_id st).2 in
  let cached := (Cache.drop (oid, get_user_id) (caches (extra st1))).2 in
  _ ← m_put (mkSessions (sessions st1) (world st1) (mkBackend cached (ran (extra st1)) (messages (extra st1))));
  st2 ← m_get;
  _ ← match (Registry.schemas_for server (ran (extra st2))).1 with
      | Ok ((_ :: _) as schemas) => emit_message (refresh_notice server schemas)
      | _ => mret tt
      end;
  mret true.

(** ** Lemmas *)

Lemma lift_sql_Ok {A} (m : M (list string) McpError A) st a st' :
  lift_sql m st = (Ok a, st') →
  m (ran (extra st)) = (Ok a, ran (extra st')) ∧
  st' = mkSessions (sessions st) (world st)
          (mkBackend (caches (extra st)) (ran (extra st')) (messages (extra st))).
Proof. unfold lift_sql. destruct (m (ran (extra st))) as [r ran'] eqn:E. intros; by simplify_eq. Qed.

Lemma run_all_Ok what sqls r u r' :
  run_all what sqls r = (Ok u, r') →
  r' = r ++ sqls ∧ ∀ pre s post, sqls = pre ++ s :: post → sql_run (r ++ pre) s = Ok tt.
Proof.
  revert r. induction sqls as [|sql rest IH]; intros r; cbn [run_all].
  { intros [= _ <-]. rewrite app_nil_r. split; [done|]. by intros [] ? ? ?. }
  intros (u1 & r1 & Hr & Hrest)%m_bind_inv_ok. apply Registry.run_Ok in Hr as [-> Hok].
  apply IH in Hrest as [-> Hall]. rewrite <- app_assoc. split; [done|].
  intros [|p pre] s post [= <- Heq].
  - by rewrite app_nil_r.
  - specialize (Hall _ _ _ Heq). by rewrite <- app_assoc in Hall.
Qed.

Lemma record_all_Ok server objects r u r' :
  record_all server objects r = (Ok u, r') → r' = r ++ (Registry.record_sql server <$> objects).
Proof.
  revert r. induction objects as [|o rest IH]; intros r; cbn [record_all].
  { intros [= _ <-]. by rewrite app_nil_r. }
  intros (u1 & r1 & Hr & Hrest)%m_bind_inv_ok. apply Registry.run_Ok in Hr as [-> _].
  apply IH in Hrest as ->. by rewrite <- app_assoc.
Qed.

(** Requests leave the statements and the messages alone. *)
Lemma with_session_extra {A} r (f : TransportCtx → M (McpSession * World) McpError A) (st : Sessions Backend) a st' :
  with_session r (fun tr => lift_x (f tr)) st = (a, st') → extra st' = extra st.
Proof.
  unfold with_session. destruct (acquire r st) as [[session|e] w]; [|intros; by simplify_eq].
  unfold lift_x. destruct (f _ (session, w)) as [outcome [session' w']].
  intros Heq. by injection Heq as _ <-.
Qed.

Lemma fetch_extra server st a st' : fetch_tools_fresh server st = (Ok a, st') → extra st' = extra st.
Proof.
  unfold fetch_tools_fresh. intros (r & st1 & Hr & Hw)%m_bind_inv_ok.
  unfold m_lift in Hr. injection Hr as _ <-. by eapply with_session_extra.
Qed.

(** The state after more statements and messages. *)
Definition then_ran (sqls emitted : list string) (st : Sessions Backend) : Sessions Backend :=
  mkSessions (sessions st) (world st)
    (mkBackend (caches (extra st)) (ran (extra st) ++ sqls) (messages (extra st) ++ emitted)).

Lemma then_ran_then sqls emitted sqls' emitted' st :
  then_ran sqls' emitted' (then_ran sqls emitted st) = then_ran (sqls ++ sqls') (emitted ++ emitted') st.
Proof. unfold then_ran. cbn. by rewrite !app_assoc. Qed.

Lemma then_ran_nil st : then_ran [] [] st = st.
Proof. destruct st as [? ? []]. unfold then_ran. cbn. by rewrite !app_nil_r. Qed.

Lemma lift_sql_ran {A} (m : M (list string) McpError A) st a st' sqls :
  lift_sql m st = (Ok a, st') → ran (extra st') = ran (extra st) ++ sqls → st' = then_ran sqls [] st.
Proof. intros [_ ->]%lift_sql_Ok Hr. unfold then_ran. cbn in *. by rewrite Hr, app_nil_r. Qed.

Lemma for_each_emit l st u st' : for_each emit_message l st = (Ok u, st') → st' = then_ran [] l st.
Proof.
  revert st. induction l as [|x l IH]; intros st; cbn [for_each].
  { intros [= _ <-]. by rewrite then_ran_nil. }
  intros (u1 & st1 & He & Hrest)%m_bind_inv_ok. unfold emit_message in He. injection He as _ <-.
  apply IH in Hrest as ->. unfold then_ran. cbn. by rewrite !app_nil_r, <- app_assoc.
Qed.

Lemma with_session_kept {A} r (f : TransportCtx → M (McpSession * World * Backend) McpError A) (st : Sessions Backend) a st' :
  with_session r f st = (Ok a, st') → is_Some (sessions st' !! key_of r).
Proof.
  unfold with_session. destruct (acquire r st) as [[session|e] w]; [|by intros [=]].
  destruct (f _ (session, w, extra st)) as [outcome [[session' w'] x']].
  intros Heq. injection Heq as -> <-. cbn [sessions]. rewrite lookup_insert_eq. by eexists.
Qed.

(** What a successful generation did. *)
Lemma generate_per_tool_Ok server schema options st g sk c st' :
  generate_per_tool server schema options st = (Ok (g, sk, c), st') →
  ∃ tools st1 statements plan,
    fetch_tools_fresh server st = (Ok tools, st1) ∧ extra st1 = extra st ∧
    ImportSchema.per_tool_plan server schema tools options = Some (Ok (statements, plan)) ∧
    st' = then_ran (on_demand schema options plan ++ statements ++ (Registry.record_sql server <$> owned_objects plan))
            (Codegen.warnings plan ++ skipped_warning plan) st1 ∧
    g = length (Codegen.tools plan) ∧ sk = Codegen.skipped plan ∧
    ∀ pre s post, statements = pre ++ s :: post →
      sql_run ((ran (extra st) ++ on_demand schema options plan) ++ pre) s = Ok tt.
Proof.
  unfold generate_per_tool. intros (tools & st1 & Hf & K1)%m_bind_inv_ok.
  apply m_bind_inv_ok in K1 as (planned & st2 & Hp & K2). unfold m_lift in Hp. injection Hp as Hp <-.
  apply ok_or_Ok in Hp. apply m_bind_inv_ok in K2 as ([statements plan] & st3 & Hq & K3).
  unfold m_lift in Hq. injection Hq as -> <-.
  apply m_bind_inv_ok in K3 as (u1 & st4 & Hm & K4). apply for_each_emit in Hm.
  apply m_bind_inv_ok in K4 as (u2 & st5 & Hs & K5). pose proof (lift_sql_Ok _ _ _ _ Hs) as [Hs1 _].
  apply run_all_Ok in Hs1 as [Hs1 _]. apply (lift_sql_ran _ _ _ _ _ Hs) in Hs1.
  apply m_bind_inv_ok in K5 as (u3 & st6 & Ht & K6). pose proof (lift_sql_Ok _ _ _ _ Ht) as [Ht1 _].
  apply run_all_Ok in Ht1 as [Ht1 Ht2]. apply (lift_sql_ran _ _ _ _ _ Ht) in Ht1.
  apply m_bind_inv_ok in K6 as (u4 & st7 & Hr & K7). pose proof (lift_sql_Ok _ _ _ _ Hr) as [Hr1 _].
  apply record_all_Ok in Hr1. apply (lift_sql_ran _ _ _ _ _ Hr) in Hr1.
  injection K7 as <- <- <- <-. pose proof (fetch_extra _ _ _ _ Hf) as He.
  exists tools, st1, statements, plan. split_and!; [done..| |done|done|].
  - by rewrite Hr1, Ht1, Hs1, Hm, !then_ran_then, !app_nil_r.
  - rewrite Hs1, Hm in Ht2. cbn in Ht2. by rewrite app_nil_r, He in Ht2.
Qed.

Lemma elem_of_on_demand schema options plan t :
  ImportSchema.io_per_upstream_schema options = true →
  t ∈ Codegen.tools plan → Codegen.schema t ≠ schema →
  schema_if_not_exists (Codegen.schema t) ∈ on_demand schema options plan.
Proof.
  intros Hu Ht Hne. unfold on_demand. rewrite Hu. apply list_elem_of_fmap_2, list_elem_of_filter.
  split; [done|]. rewrite hash_order_perm by apply NoDup_remove_dups.
  by apply elem_of_remove_dups, list_elem_of_fmap_2.
Qed.

Lemma on_demand_no_drop schema options plan :
  Forall (fun s => strip_prefix "DROP SCHEMA " s = None) (on_demand schema options plan).
Proof.
  unfold on_demand. destruct (ImportSchema.io_per_upstream_schema _); [|constructor].
  by apply Forall_fmap, Forall_true.
Qed.

(** The drop cycles over some schemas, one after another: in each, the rows of
    the server there are read, one drop per row runs, the last recorded first,
    and the rows are deleted. *)
Inductive DropCycles (server : string) : list string → list string → list string → Prop :=
  | no_cycle r : DropCycles server r [] []
  | drop_cycle r target targets rows sqls rest :
      sql_select r (Registry.owned_sql server target) = Ok rows →
      Forall2 Registry.drops (reverse (Registry.object_of_row <$> rows)) sqls →
      DropCycles server (r ++ sqls ++ [Registry.clear_sql server target]) targets rest →
      DropCycles server r (target :: targets) (sqls ++ Registry.clear_sql server target :: rest).

Lemma drop_all_Ok server targets r u r' :
  drop_all server targets r = (Ok u, r') → ∃ sqls, r' = r ++ sqls ∧ DropCycles server r targets sqls.
Proof.
  revert r. induction targets as [|t rest IH]; intros r; cbn [drop_all].
  { intros [= _ <-]. exists []. rewrite app_nil_r. by split; [|constructor]. }
  intros (n & r1 & Hd & Hrest)%m_bind_inv_ok.
  apply Registry.drop_owned_Ok in Hd as (rows & sqls & Hrows & _ & -> & Hf).
  apply IH in Hrest as (sqls' & -> & Hall). eexists. split; [|by econstructor].
  by rewrite <- !app_assoc.
Qed.

(** The target first, the others once each. *)
Lemma drop_schemas_spec per_upstream acc schemas :
  NoDup acc →
  let targets := drop_schemas per_upstream acc schemas in
  acc `prefix_of` targets ∧ NoDup targets ∧
  ∀ s, s ∈ targets ↔ s ∈ acc ∨ per_upstream = true ∧ s ∈ schemas.
Proof.
  revert acc. induction schemas as [|x l IH]; intros acc Hacc; cbn [drop_schemas].
  { split_and!; [done|done|]. set_solver. }
  destruct per_upstream; cbn [andb].
  - destruct (bool_decide_reflect (x ∈ acc)) as [Hx|Hx]; cbn [negb].
    + destruct (IH acc Hacc) as (Hp & Hn & Hin). split_and!; [done|done|]. set_solver.
    + destruct (IH (acc ++ [x])) as (Hp & Hn & Hin).
      { apply NoDup_app. split_and!; [done| |apply NoDup_singleton]. set_solver. }
      split_and!; [|done|set_solver]. etransitivity; [|exact Hp]. by apply prefix_app_r.
  - destruct (IH acc Hacc) as (Hp & Hn & Hin). split_and!; [done|done|]. set_solver.
Qed.

(** A successful regeneration is its drops, then a generation. *)
Lemma generate_functions_Ok server schema opts st g sk names st' :
  generate_functions server schema opts st = (Ok (g, sk, names), st') →
  ∃ parsed schemas drops c,
    ImportSchema.ImportOptions_parse (default Null opts) = Ok parsed ∧
    (Registry.schemas_for server (ran (extra st))).1 = Ok schemas ∧
    drop_all server (drop_schemas (ImportSchema.io_per_upstream_schema parsed) [schema] schemas) (ran (extra st))
      = (Ok tt, ran (extra st) ++ drops) ∧
    generate_per_tool server schema (per_tool_options parsed) (then_ran drops [] st) = (Ok (g, names, c), st') ∧
    sk = length names.
Proof.
  unfold generate_functions. intros (sv & st1 & Hl & K1)%m_bind_inv_ok.
  unfold m_lift in Hl. injection Hl as _ <-. apply m_bind_inv_ok in K1 as (parsed & st2 & Hp & K2).
  unfold m_lift in Hp. injection Hp as Hp <-. cbv zeta in K2.
  apply m_bind_inv_ok in K2 as (schemas & st3 & Hs & K3).
  apply m_bind_inv_ok in K3 as ([] & st4 & Hd & K4).
  apply m_bind_inv_ok in K4 as ([[g0 sk0] c] & st5 & Hg & K5). injection K5 as <- <- <- <-.
  pose proof (lift_sql_Ok _ _ _ _ Hs) as [Hs1 Hs2].
  assert (st3 = st) as ->.
  { unfold Registry.schemas_for in Hs1. injection Hs1 as _ Hr. rewrite Hs2, <- Hr. by destruct st as [? ? []]. }
  pose proof (lift_sql_Ok _ _ _ _ Hd) as [Hd1 _]. pose proof Hd1 as Hd2.
  apply drop_all_Ok in Hd2 as (drops & Hd2 & _). rewrite (lift_sql_ran _ _ _ _ _ Hd Hd2) in Hg.
  exists parsed, schemas, drops, c. rewrite <- Hd2. split_and!; try done. by rewrite Hs1.
Qed.

Lemma plan_counts server schema tools options statements plan :
  ImportSchema.per_tool_plan server schema tools options = Some (Ok (statements, plan)) →
  (length (Codegen.tools plan) + length (Codegen.skipped plan) = length (omap Codegen.usable_name tools))%nat.
Proof.
  unfold ImportSchema.per_tool_plan. set (mode := if ImportSchema.io_per_upstream_schema _ then _ else _).
  destruct (Codegen.plan _ _ _ _ _) as [p|e] eqn:Hp; [|by intros [=]].
  destruct (ImportSchema.emit _ _ _ _ _) as [out|]; [|done]. intros [= <- <-].
  apply Codegen.plan_inv in Hp as (Ht & Hs & _).
  destruct (Codegen.planned_names (ImportSchema.io_invoke_on_select options) mode schema tools
    (Codegen.sql_names (ImportSchema.io_prefix options) (Codegen.routed mode schema tools)))
    as [H1' H2']; [apply Codegen.length_sql_names|].
  rewrite <- Ht in H1'. rewrite <- Hs in H2'. rewrite H2', <- (length_fmap Codegen.tool_name), H1'.
  clear. induction tools as [|t ts IH]; [done|]. rewrite !filter_cons.
  destruct (Codegen.mappable t); [rewrite decide_True, decide_False by done|rewrite decide_False, decide_True by done];
    rewrite !Codegen.omap_cons, !length_app; simpl in *; lia.
Qed.
End ddl.

(** ** Properties *)

(** C35. A tool call, on every branch: a bad [on_error] is 22023 and nothing else
    happens; otherwise exactly one [tools/call] request is made, its failure is
    the failure of the call, and an error result is raised with the tool's own
    text exactly under [raise], every other result being returned; whenever the
    request was answered, raised or not, the session stays cached. *)
Theorem call_tool_outcome `{Serde, Net, UrlLib, PgCatalog} (server tool : string) (args : option Value)
    (on_error : string) (st : Sessions Backend) :
  match OnError_parse on_error with
  | Err e => call_tool server tool args on_error st = (Err e, st) ∧ sqlstate e = "22023"
  | Ok mode =>
      match api_request server "tools/call"
              (Object [("name", Str tool); ("arguments", params_object args)]) st with
      | (Err e, st') => call_tool server tool args on_error st = (Err e, st')
      | (Ok result, st') =>
          call_tool server tool args on_error st =
            (if is_error_result result && bool_decide (mode = Raise)
             then Err (ToolError (tool_failure tool result)) else Ok result, st') ∧
          ∃ r, resolve server = Ok r ∧ is_Some (sessions st' !! key_of r)
      end
  end.
Proof.
  unfold call_tool, call_tool_inner. destruct (OnError_parse on_error) as [mode|e] eqn:Ho.
  - rewrite (m_bind_ok _ _ _ _ _ (eq_refl : m_lift (Ok mode) st = (Ok mode, st))).
    destruct (api_request _ _ _ st) as [[result|e] st'] eqn:Hr.
    + rewrite (m_bind_ok _ _ _ _ _ Hr). split.
      * destruct (is_error_result result), mode; done.
      * unfold api_request in Hr. apply m_bind_inv_ok in Hr as (r & st1 & Hres & Hw).
        unfold m_lift in Hres. injection Hres as Hres <-. exists r. split; [done|].
        by eapply with_session_kept.
    + by rewrite (m_bind_err _ _ _ _ _ Hr).
  - split; [done|]. unfold OnError_parse in Ho. repeat case_bool_decide; by simplify_eq.
Qed.

(** C24. A successful regeneration, from the options given to the state it leaves.
    Its target schemas are the one named, first, and under
    [per_upstream_schema] every other schema with objects recorded for the
    server, each once; in each of them the recorded objects are dropped, exactly
    one statement per recorded row, the last recorded first, and the rows then
    deleted. Only then are the tools fetched, and the statements of their
    per-tool layout under the given options run, after the schemas made on demand
    and before one bookkeeping row per object. The counts are those of the
    generated and of the skipped tools, the names those of the skipped ones,
    together they account for every usable tool, the warnings are all emitted,
    and sessions and world are as the fetch left them. *)
Theorem generate_functions_script `{Serde, Net, UrlLib, PgCatalog, Unicode, Spi, HashOrder} {profile : Build}
    (server schema : string) (opts : option Value) (st st' : Sessions Backend)
    (generated skipped : nat) (names : list string) :
  generate_functions server schema opts st = (Ok (generated, skipped, names), st') →
  ∃ parsed schemas targets drops tools st1 statements plan,
    ImportSchema.ImportOptions_parse (default Null opts) = Ok parsed ∧
    (Registry.schemas_for server (ran (extra st))).1 = Ok schemas ∧
    head targets = Some schema ∧ NoDup targets ∧
    (∀ s, s ∈ targets ↔ s = schema ∨ ImportSchema.io_per_upstream_schema parsed = true ∧ s ∈ schemas) ∧
    DropCycles server (ran (extra st)) targets drops ∧
    fetch_tools_fresh server (then_ran drops [] st) = (Ok tools, st1) ∧
    ImportSchema.per_tool_plan server schema tools (per_tool_options parsed) = Some (Ok (statements, plan)) ∧
    ran (extra st') = ran (extra st) ++ drops ++ on_demand schema (per_tool_options parsed) plan ++ statements
                      ++ (Registry.record_sql server <$> owned_objects plan) ∧
    messages (extra st') = messages (extra st) ++ Codegen.warnings plan ++ skipped_warning plan ∧
    sessions st' = sessions st1 ∧ world st' = world st1 ∧ caches (extra st') = caches (extra st) ∧
    generated = length (Codegen.tools plan) ∧
    skipped = length (Codegen.skipped plan) ∧ names = Codegen.skipped plan ∧
    (generated + skipped = length (omap Codegen.usable_name tools))%nat.
Proof.
  intros (parsed & schemas & drops & c & Hp & Hs & Hd & Hg & ->)%generate_functions_Ok.
  apply generate_per_tool_Ok in Hg as (tools & st1 & statements & plan & Hf & He & Hplan & -> & -> & -> & _).
  apply drop_all_Ok in Hd as (sqls & Hd & Hall). apply app_inv_head in Hd as ->.
  destruct (drop_schemas_spec (ImportSchema.io_per_upstream_schema parsed) [schema] schemas
              (NoDup_singleton _)) as ((rest & Hh) & Hn & Hin).
  eexists parsed, schemas, _, sqls, tools, st1, statements, plan. cbn [then_ran extra ran messages caches].
  rewrite He. split_and!; try done.
  - by rewrite Hh.
  - intros s. rewrite Hin. set_solver.
  - cbn. by rewrite <- !app_assoc.
  - cbn. by rewrite app_nil_r.
  - by eapply plan_counts.
Qed.

(** PostgreSQL on CREATE SCHEMA: after a successful CREATE SCHEMA IF NOT EXISTS
    of a name, and with no schema dropped since, creating it plainly fails. *)
Definition creates_once `{Spi} : Prop :=
  ∀ before after q,
    Forall (fun s => strip_prefix "DROP SCHEMA " s = None) after →
    ∃ e, sql_run (before ++ schema_if_not_exists q :: after)
           ("CREATE SCHEMA " +:+ Ddl.quote_ident q +:+ ";") = Err e.

(** Generation under [per_upstream_schema] cannot succeed once some tool is
    routed to an upstream: each upstream schema is made on demand first, and the
    statement list then creates it again without IF NOT EXISTS. *)
Theorem per_upstream_generation_fails `{Serde, Net, UrlLib, PgCatalog, Unicode, Spi, HashOrder} {profile : Build}
    (server schema : string) (options : ImportSchema.ImportOptions) (st st' : Sessions Backend)
    (r : nat * list string * nat) :
  creates_once → ImportSchema.io_per_upstream_schema options = true →
  generate_per_tool server schema options st = (Ok r, st') →
  ∃ tools statements plan,
    ImportSchema.per_tool_plan server schema tools options = Some (Ok (statements, plan)) ∧
    Forall (fun t => Codegen.schema t = schema) (Codegen.tools plan).
Proof.
  intros Hlaw Hu Hg. destruct r as [[g sk] c].
  apply generate_per_tool_Ok in Hg as (tools & st1 & statements & plan & _ & _ & Hplan & _ & _ & _ & Hrun).
  exists tools, statements, plan. split; [done|]. apply Forall_forall. intros t Ht.
  destruct (decide (Codegen.schema t = schema)) as [|Hne]; [done|]. exfalso.
  unfold ImportSchema.per_tool_plan in Hplan. destruct (Codegen.plan _ _ _ _ _) as [p|]; [|by injection Hplan].
  destruct (ImportSchema.emit _ _ _ _ _) as [out|] eqn:He; [|done]. injection Hplan as -> ->.
  pose proof (ImportSchema.emit_forms _ _ _ _ _ _ He) as Hforms.
  apply ImportSchema.emit_read in He as (_ & _ & Hcs).
  destruct (Hcs (Codegen.schema t)) as [_ Hin].
  assert (Codegen.schema t ∈ omap ImportSchema.read_create_schema statements) as Hmem.
  { apply Hin. split; [by intros ?%elem_of_nil|]. exists t. by split_and!. }
  apply list_elem_of_omap in Hmem as (s & Hs & Hread).
  apply list_elem_of_split in Hs as (pre & post & ->).
  apply Forall_app in Hforms as [Hpre [Hs _]%Forall_cons]. destruct Hs as [_ Htext].
  specialize (Htext _ Hread). subst s.
  specialize (Hrun pre _ post eq_refl).
  pose proof (elem_of_on_demand schema options plan t Hu Ht Hne) as Hod.
  pose proof (on_demand_no_drop schema options plan) as Hnd.
  apply list_elem_of_split in Hod as (a & b & Hab). rewrite Hab in *.
  apply Forall_app in Hnd as [_ [_ Hb]%Forall_cons].
  destruct (Hlaw (ran (extra st) ++ a) (b ++ pre) (Codegen.schema t)) as [e Herr].
  { apply Forall_app. split; [done|]. eapply Forall_impl; [exact Hpre|]. by intros x [? _]. }
  rewrite <- !app_assoc in *. cbn [app] in *. rewrite Hrun in Herr. done.
Qed.

(** Refresh: an unknown server is 42704 and nothing changes; otherwise the
    answer is true, neither a session nor a cached list is left for the caller on
    that server, every other entry stays, nothing is sent and no statement runs. *)
Theorem refresh_outcome `{Serde, Net, UrlLib, PgCatalog, Unicode, Spi, HashOrder} {profile : Build}
    (server : string) (st : Sessions Backend) :
  match lookup_foreign_server server with
  | Err e => refresh server st = (Err e, st) ∧ sqlstate e = "42704"
  | Ok (oid, _) =>
      ∃ st', refresh server st = (Ok true, st') ∧
        sessions st' = delete (oid, get_user_id) (sessions st) ∧
        caches (extra st') = delete (oid, get_user_id) (caches (extra st)) ∧
        world st' = world st ∧ ran (extra st') = ran (extra st) ∧
        (messages (extra st') = messages (extra st) ∨
         ∃ schemas, schemas ≠ [] ∧
           messages (extra st') = messages (extra st) ++ [refresh_notice server schemas])
  end.
Proof.
  unfold refresh. destruct (lookup_foreign_server server) as [[oid o]|e] eqn:Hl.
  - rewrite (m_bind_ok _ _ _ _ _ (eq_refl : m_lift (Ok (oid, o)) st = (Ok (oid, o), st))).
    cbv [m_get m_put mbind M_bind mret M_ret].
    cbn [extra sessions world caches ran messages drop_session Cache.drop fst snd].
    destruct (Registry.schemas_for server (ran (extra st))) as [[[|s l]|e] r'] eqn:Es; cbn [fst].
    + eexists. split_and!; try reflexivity. by left.
    + eexists. split_and!; try reflexivity. right. by exists (s :: l).
    + eexists. split_and!; try reflexivity. by left.
  - split; [done|]. unfold lookup_foreign_server in Hl. case_bool_decide; [by simplify_eq|].
    destruct (foreign_server server); by simplify_eq/=.
Qed.

(** ** Witnesses *)

Module Wit.
Definition echo (name : string) : Value :=
  Object [("name", Str name); ("inputSchema", Object [("properties", Object [("q", Null)])])].
(** Every answer lists the same tools. *)
Definition codec (tools : list Value) : Serde := {|
  json_from_str s := if bool_decide (s = "{r}")
                     then Some (Object [("result", Object [("tools", Array tools)])]) else None;
  json_to_string _ := "{r}" |}.
#[local] Instance ascii_tables : Unicode := {| to_lowercase := to_ascii_lowercase |}.
#[local] Instance order : HashOrder := {| hash_order l := l; hash_order_perm l _ := reflexivity l |}.
(** A database that only refuses to create a schema twice, with one object recorded. *)
#[local] Instance spi : Spi := {|
  sql_run before sql :=
    match ImportSchema.read_create_schema sql with
    | Some q => if bool_decide (schema_if_not_exists q ∈ before) then Err "schema exists" else Ok tt
    | None => Ok tt
    end;
  sql_get_one _ _ := Ok None;
  sql_select _ sql :=
    if bool_decide (sql = Registry.owned_sql "local" "s")
    then Ok [[Some "table"; Some "tool_old"; Some "s"; Some "old"]] else Ok [];
|}.

Lemma spi_creates_once : creates_once.
Proof.
  intros before after q _. exists "schema exists". cbn [sql_run spi].
  rewrite ImportSchema.read_create_schema_text, bool_decide_true; [done|]. set_solver.
Qed.

Definition start : Sessions Backend := mkSessions ∅ (mkWorld [] 0) (mkBackend ∅ [] []).
Definition upstream_options : ImportSchema.ImportOptions :=
  ImportSchema.mkImport None false true Codegen.ReadOnly EmptyString true.
End Wit.
#[local] Existing Instance Session.Wit.steady.
#[local] Existing Instance Session.Wit.catalog.
#[local] Existing Instance Options.Wit.lib.
#[local] Existing Instance Wit.ascii_tables.
#[local] Existing Instance Wit.order.
#[local] Existing Instance Wit.spi.
#[local] Existing Instance Codegen.debug_build.

Lemma generate_functions_script_witness :
  let codec := Wit.codec [Wit.echo "echo"; Null] in
  ∃ st' targets drops tools st1 options statements plan,
    generate_functions "local" "s" None Wit.start = (Ok (1, 0, [])%nat, st') ∧
    DropCycles "local" [] ("s" :: targets) drops ∧
    fetch_tools_fresh "local" (then_ran drops [] Wit.start) = (Ok tools, st1) ∧
    ImportSchema.per_tool_plan "local" "s" tools options = Some (Ok (statements, plan)) ∧
    ran (extra st') = ran (extra Wit.start) ++ drops ++ on_demand "s" options plan ++ statements
                      ++ (Registry.record_sql "local" <$> owned_objects plan).
Proof.
  intros codec. destruct (generate_functions "local" "s" None Wit.start) as [r st'] eqn:E.
  assert (r = Ok (1, 0, [])%nat) as ->.
  { apply (f_equal fst) in E. by vm_compute in E. }
  destruct (generate_functions_script "local" "s" None Wit.start st' 1 0 [] E)
    as (parsed & schemas & [|t targets] & drops & tools & st1 & statements & plan
        & _ & _ & [= ->] & _ & _ & Hd & Hf & Hp & Hr & _).
  exists st', targets, drops, tools, st1, (per_tool_options parsed), statements, plan.
  split_and!; [done|exact Hd|exact Hf|exact Hp|exact Hr].
Defined.

(** The object recorded before is dropped first, and its row deleted. *)
Example regeneration_drops_first :
  let codec := Wit.codec [Wit.echo "echo"; Null] in
  take 2 (ran (extra (generate_functions "local" "s" None Wit.start).2))
  = [Registry.drop_table_sql (Registry.mkOwned "table" "tool_old" "s" "old"); Registry.clear_sql "local" "s"].
Proof. by vm_compute. Qed.

Lemma per_upstream_generation_fails_witness :
  let codec := Wit.codec [Wit.echo "echo"] in
  ∃ r st' tools statements plan,
    generate_per_tool "local" "s" Wit.upstream_options Wit.start = (Ok r, st') ∧
    ImportSchema.per_tool_plan "local" "s" tools Wit.upstream_options = Some (Ok (statements, plan)) ∧
    Forall (fun t => Codegen.schema t = "s") (Codegen.tools plan).
Proof.
  intros codec. destruct (generate_per_tool "local" "s" Wit.upstream_options Wit.start) as [r st'] eqn:E.
  destruct r as [r|e]; [|apply (f_equal fst) in E; by vm_compute in E].
  destruct (per_upstream_generation_fails "local" "s" Wit.upstream_options Wit.start st' r
              Wit.spi_creates_once eq_refl E) as (tools & statements & plan & Hp & Hf).
  exists r, st', tools, statements, plan. split_and!; [done|exact Hp|exact Hf].
Defined.

(** One federated tool, and the whole generation is refused. *)
Example per_upstream_refused :
  let codec := Wit.codec [Wit.echo "github.search"] in
  (generate_per_tool "local" "s" Wit.upstream_options Wit.start).1
  = Err (Internal "per-tool DDL failed: schema exists").
Proof. by vm_compute. Qed.

(** An error result raises the tool's own text and leaves the session cached. *)
Example error_result_raised :
  let codec : Serde := {|
    json_from_str _ := Some (Object [("result", Object [("isError", Bool true);
      ("content", Array [Object [("type", Str "text"); ("text", Str "boom")]])])]);
    json_to_string _ := "{r}" |} in
  let run := call_tool "local" "t" None "raise" Wit.start in
  run.1 = Err (ToolError "boom") ∧ size (sessions run.2) = 1%nat.
Proof. split; by vm_compute. Qed.

End Api.
