(* ===== verification/Bookkeeping.v ===== *)
(** * mcp.generated over a regeneration

    What the bookkeeping statements of [codegen/registry.rs] make of the table
    [mcp.generated], and what [mcp.generate_functions] therefore leaves in it.  The
    table and the effect of its three statements are PostgreSQL's side, written
    here as documented: an INSERT with ON CONFLICT on the primary key (schema, name)
    replaces, a DELETE removes, a SELECT reads; the statements are read back from
    their text. *)

From Stdlib Require Import Ascii String ZArith Lia.
From stdpp Require Import base numbers gmap sets strings pretty list sorting.
From S2P Require Import Prelude Str Json Errors Ident Tables Options Client Session Cache.
From S2P Require Import Quote Codegen Ddl ImportSchema Registry Api.
Import Client Session Registry Api.
#[local] Open Scope Z_scope.

Module Bookkeeping.

(** ** The table *)

(** A row of [mcp.generated], under its primary key (schema, name). *)
Record GeneratedRow : Type := mkGenerated { g_server : string; g_kind : string; g_tool : string }.
Abbreviation Generated := (gmap (string * string) GeneratedRow).

#[export] Instance OwnedObject_eq_dec : EqDecision OwnedObject.
Proof. solve_decision. Defined.

Definition object_key (o : OwnedObject) : string * string := (o_schema o, o_name o).
Definition object_row (server : string) (o : OwnedObject) : GeneratedRow := mkGenerated server (o_kind o) (o_tool o).
Definition row_object (kr : (string * string) * GeneratedRow) : OwnedObject :=
  mkOwned (g_kind kr.2) kr.1.2 kr.1.1 (g_tool kr.2).

(** ** The statements, read back *)

Definition literal (s : string) : option (string * string) := Quote.read_quoted Ddl.sq_char s.
Definition exactly (s rest : string) : option unit := if bool_decide (s = rest) then Some tt else None.

Definition record_tail : string :=
  ", now()) ON CONFLICT (schema, name) DO UPDATE SET server = EXCLUDED.server, kind = EXCLUDED.kind, tool = EXCLUDED.tool, generated_at = now()".

Definition read_record (s : string) : option (string * OwnedObject) :=
  s ← strip_prefix ("INSERT INTO " +:+ GENERATED_TABLE
        +:+ " (server, schema, kind, name, tool, generated_at) VALUES (") s;
  '(server, s) ← literal s; s ← strip_prefix ", " s;
  '(schema, s) ← literal s; s ← strip_prefix ", " s;
  '(kind, s) ← literal s; s ← strip_prefix ", " s;
  '(name, s) ← literal s; s ← strip_prefix ", " s;
  '(tool, s) ← literal s; _ ← exactly record_tail s;
  Some (server, mkOwned kind name schema tool).

Definition read_scope (head tail s : string) : option (string * string) :=
  s ← strip_prefix head s;
  '(server, s) ← literal s; s ← strip_prefix " AND schema = " s;
  '(schema, s) ← literal s; _ ← exactly tail s;
  Some (server, schema).

Definition read_clear : string → option (string * string) :=
  read_scope ("DELETE FROM " +:+ GENERATED_TABLE +:+ " WHERE server = ") EmptyString.
Definition read_owned : string → option (string * string) :=
  read_scope ("SELECT kind, name, schema, tool FROM " +:+ GENERATED_TABLE +:+ " WHERE server = ")
    " ORDER BY generated_at, name".

Definition in_scope (server schema : string) (kr : (string * string) * GeneratedRow) : Prop :=
  g_server kr.2 = server ∧ kr.1.1 = schema.
#[local] Instance in_scope_dec server schema kr : Decision (in_scope server schema kr).
Proof. unfold in_scope. apply _. Defined.

(** The effect of one statement on the table. *)
Definition apply_sql (g : Generated) (sql : string) : Generated :=
  match read_record sql with
  | Some (server, o) => <[object_key o := object_row server o]> g
  | None =>
      match read_clear sql with
      | Some (server, schema) => filter (fun kr => ¬ in_scope server schema kr) g
      | None => g
      end
  end.

Definition generated_after (g : Generated) (sqls : list string) : Generated := foldl apply_sql g sqls.

(** The objects recorded for a server in a schema, in some order. *)
Definition recorded (server schema : string) (g : Generated) : list OwnedObject :=
  row_object <$> filter (in_scope server schema) (map_to_list g).

(** ** Lemmas on the readers *)

Lemma read_literal_sep s rest :
  match rest with String c _ => c ≠ Ddl.sq_char | EmptyString => True end →
  literal (Ddl.quote_literal s +:+ rest) = Some (s, rest).
Proof. apply Ddl.read_literal. Qed.

Lemma exactly_refl s : exactly s s = Some tt.
Proof. unfold exactly. by rewrite bool_decide_true. Qed.

Ltac read_tokens :=
  repeat first [rewrite Ddl.strip_prefix_app | rewrite read_literal_sep by done | rewrite exactly_refl];
  cbn [mbind option_bind].

Lemma read_record_sql server o : read_record (record_sql server o) = Some (server, o).
Proof.
  unfold read_record. set (head := "INSERT INTO " +:+ _).
  change (record_sql server o) with (head +:+ (Ddl.quote_literal server +:+ (", " +:+ (Ddl.quote_literal (o_schema o)
    +:+ (", " +:+ (Ddl.quote_literal (o_kind o) +:+ (", " +:+ (Ddl.quote_literal (o_name o)
    +:+ (", " +:+ (Ddl.quote_literal (o_tool o) +:+ record_tail)))))))))).
  do 10 read_tokens. by destruct o.
Qed.

Lemma read_scope_text head tail server schema :
  match tail with String c _ => c ≠ Ddl.sq_char | EmptyString => True end →
  read_scope head tail (head +:+ Ddl.quote_literal server +:+ " AND schema = " +:+ Ddl.quote_literal schema +:+ tail)
  = Some (server, schema).
Proof. intros Ht. unfold read_scope. do 5 read_tokens. done. Qed.

Lemma read_clear_sql server schema : read_clear (clear_sql server schema) = Some (server, schema).
Proof.
  unfold read_clear, clear_sql. rewrite <- (app_string_nil_r (Ddl.quote_literal schema)).
  by apply (read_scope_text ("DELETE FROM " +:+ GENERATED_TABLE +:+ " WHERE server = ") EmptyString).
Qed.

Lemma read_owned_sql server schema : read_owned (owned_sql server schema) = Some (server, schema).
Proof.
  by apply (read_scope_text ("SELECT kind, name, schema, tool FROM " +:+ GENERATED_TABLE +:+ " WHERE server = ")
    " ORDER BY generated_at, name").
Qed.

(** Statements of other forms leave the table alone. *)
Definition elsewhere (s : string) : Prop := read_record s = None ∧ read_clear s = None.

Lemma elsewhere_other s :
  strip_prefix "INSERT INTO " s = None → strip_prefix "DELETE FROM " s = None → elsewhere s.
Proof.
  intros Hi Hd. unfold elsewhere, read_record, read_clear, read_scope.
  assert (∀ p q, strip_prefix p s = None → strip_prefix (p +:+ q) s = None) as Hp.
  { intros p q Hn. destruct (strip_prefix (p +:+ q) s) eqn:E; [|done]. apply strip_prefix_Some in E as ->.
    by rewrite app_string_assoc, Ddl.strip_prefix_app in Hn. }
  by rewrite !Hp.
Qed.

Lemma elsewhere_drop o s : drops o s → elsewhere s.
Proof.
  unfold drops, read_drop. intros Hr.
  assert (∃ rest, s = "DROP " +:+ rest) as [rest ->]; [|by apply elsewhere_other].
  destruct (strip_prefix "DROP VIEW " s) eqn:E1; [apply strip_prefix_Some in E1 as ->; by eexists|].
  destruct (strip_prefix "DROP FOREIGN TABLE " s) eqn:E2; [apply strip_prefix_Some in E2 as ->; by eexists|].
  destruct (strip_prefix "DROP FUNCTION " s) eqn:E3; [apply strip_prefix_Some in E3 as ->; by eexists|done].
Qed.

Lemma elsewhere_layout `{Serde, Unicode} {profile : Build} server schema opts created ts out :
  ImportSchema.emit server schema opts created ts = Some out → Forall elsewhere out.
Proof.
  apply ImportSchema.emit_statements.
  - intros name. by apply elsewhere_other.
  - intros what rest Hw. set_unfold in Hw. destruct Hw as [->|[->|[->|[->|[]]]]]; by apply elsewhere_other.
Qed.

Lemma generated_after_app g l k : generated_after g (l ++ k) = generated_after (generated_after g l) k.
Proof. apply foldl_app. Qed.

Lemma generated_after_elsewhere g l : Forall elsewhere l → generated_after g l = g.
Proof. intros Hl. revert g. induction Hl as [|s l [H1 H2] _ IH]; intros g; [done|]. cbn. unfold apply_sql. by rewrite H1, H2, IH. Qed.

Lemma apply_clear g server schema :
  apply_sql g (clear_sql server schema) = filter (fun kr => ¬ in_scope server schema kr) g.
Proof. unfold apply_sql. rewrite read_clear_sql. done. Qed.

Lemma apply_record g server o : apply_sql g (record_sql server o) = <[object_key o := object_row server o]> g.
Proof. unfold apply_sql. by rewrite read_record_sql. Qed.

(** The objects recorded by a list of statements. *)
Definition records (sqls : list string) : list OwnedObject := omap (fun s => snd <$> read_record s) sqls.

Lemma records_app l k : records (l ++ k) = records l ++ records k.
Proof. apply omap_app. Qed.

Lemma records_elsewhere l : Forall elsewhere l → records l = [].
Proof. unfold records. induction 1 as [|s l [H1 _] _ IH]; [done|]. cbn. by rewrite H1. Qed.

Lemma records_of server objects : records (record_sql server <$> objects) = objects.
Proof. unfold records. induction objects as [|o l IH]; [done|]. cbn. by rewrite read_record_sql, IH. Qed.

(** The last of the records under a key stays. *)
Lemma generated_records g server objects k :
  generated_after g (record_sql server <$> objects) !! k =
  match last (filter (fun o => object_key o = k) objects) with
  | Some o => Some (object_row server o)
  | None => g !! k
  end.
Proof.
  induction objects as [|o objects IH] using rev_ind; [done|].
  rewrite fmap_app, generated_after_app. cbn [fmap list_fmap generated_after foldl] in *. rewrite apply_record.
  rewrite filter_app. destruct (decide (object_key o = k)) as [<-|Hne].
  - rewrite lookup_insert_eq, (filter_cons_True _ o []), filter_nil by done. by rewrite last_snoc.
  - rewrite lookup_insert_ne, (filter_cons_False _ o []), filter_nil by done. by rewrite app_nil_r.
Qed.

Lemma last_filter_Some {A} (P : A → Prop) `{!∀ x, Decision (P x)} (l : list A) x :
  last (filter P l) = Some x → P x ∧ x ∈ l.
Proof. intros Hl%last_Some_elem_of. by apply list_elem_of_filter in Hl. Qed.

Lemma last_filter_None {A} (P : A → Prop) `{!∀ x, Decision (P x)} (l : list A) x :
  last (filter P l) = None → x ∈ l → ¬ P x.
Proof.
  intros Hl%last_None Hx HP. assert (x ∈ filter P l) as Hf by by apply list_elem_of_filter.
  rewrite Hl in Hf. by apply elem_of_nil in Hf.
Qed.

Lemma elem_of_recorded server schema g o :
  o ∈ recorded server schema g ↔ g !! object_key o = Some (object_row server o) ∧ o_schema o = schema.
Proof.
  unfold recorded. rewrite list_elem_of_fmap. split.
  - intros ([[sch name] [sv kind tool]] & -> & [Hs Hm]%list_elem_of_filter).
    apply elem_of_map_to_list in Hm. destruct Hs as [Hs1 Hs2]. cbn in *. by subst.
  - intros [Hg Hs]. exists (object_key o, object_row server o). split; [by destruct o|].
    apply list_elem_of_filter. split; [done|]. by apply elem_of_map_to_list.
Qed.

Lemma plan_single_schema `{Serde, Unicode} {profile : Build} ts target prefix gate p t :
  Codegen.plan ts target prefix gate Codegen.SingleSchema = Ok p → t ∈ Codegen.tools p → Codegen.schema t = target.
Proof.
  intros Hp Ht. destruct (Codegen.plan_tools_from _ _ _ _ _ _ _ Hp Ht) as (r & sql & Hr & E).
  apply Codegen.elem_of_routed in Hr as (_ & n & _ & Hroute). cbn in Hroute. injection Hroute as Hroute _.
  apply Codegen.plan_one_Ok in E as (_ & _ & _ & Hs & _). congruence.
Qed.

Lemma elem_of_owned_objects plan o :
  o ∈ owned_objects plan → ∃ t, t ∈ Codegen.tools plan ∧ o_schema o = Codegen.schema t.
Proof.
  unfold owned_objects. intros (l & Ho & (t & -> & Ht)%list_elem_of_fmap)%list_elem_of_join.
  apply list_elem_of_fmap in Ho as (kn & -> & _). by exists t.
Qed.

Lemma owned_object_of plan t kind name :
  t ∈ Codegen.tools plan → (kind, name) ∈ owned_rows t →
  mkOwned kind name (Codegen.schema t) (Codegen.tool_name t) ∈ owned_objects plan.
Proof.
  intros Ht Hk. unfold owned_objects. apply list_elem_of_join. eexists. split; [|by apply list_elem_of_fmap_2].
  by apply (list_elem_of_fmap_2 (fun kn => mkOwned kn.1 kn.2 _ _) _ _ Hk).
Qed.

Section generation.
Context `{Serde, Net, UrlLib, PgCatalog, Unicode, Spi, HashOrder} {profile : Build}.

(** One schema's drop cycle removes the server's rows there and no others. *)
Lemma drop_all_one server schema r u r' :
  drop_all server [schema] r = (Ok u, r') →
  ∃ sqls, r' = r ++ sqls ∧ records sqls = [] ∧
    ∀ table, generated_after table sqls = filter (fun kr => ¬ in_scope server schema kr) table.
Proof.
  cbn [drop_all]. intros (n & r1 & Hd & Hr)%m_bind_inv_ok. injection Hr as _ <-.
  apply drop_owned_Ok in Hd as (rows & sqls & _ & _ & -> & Hf).
  assert (Forall elsewhere sqls) as Hsqls.
  { apply Forall_forall. intros s Hs. apply list_elem_of_lookup in Hs as [i Hi].
    destruct (Forall2_lookup_r _ _ _ _ _ Hf Hi) as (o & _ & Ho). by apply (elsewhere_drop o). }
  exists (sqls ++ [clear_sql server schema]). split; [done|].
  split; [by rewrite records_app, records_elsewhere|]. intros table.
  rewrite generated_after_app, (generated_after_elsewhere table sqls); [apply apply_clear|done].
Qed.

(** The table after a regeneration into one schema. *)
Lemma regenerated_table server schema opts parsed st st' g sk names :
  generate_functions server schema opts st = (Ok (g, sk, names), st') →
  ImportSchema.ImportOptions_parse (default Null opts) = Ok parsed →
  ImportSchema.io_per_upstream_schema parsed = false →
  ∃ options tools statements plan sqls,
    ImportSchema.per_tool_plan server schema tools options = Some (Ok (statements, plan)) ∧
    (∀ o, o ∈ owned_objects plan → o_schema o = schema) ∧
    ran (extra st') = ran (extra st) ++ sqls ∧ records sqls = owned_objects plan ∧
    ∀ table, generated_after table sqls =
        generated_after (filter (fun kr => ¬ in_scope server schema kr) table)
          (record_sql server <$> owned_objects plan).
Proof.
  intros (parsed' & schemas & drops & c & Hp' & _ & Hd & Hg & _)%generate_functions_Ok Hp Hsingle.
  assert (parsed' = parsed) as -> by congruence. rewrite Hsingle in Hd.
  set (options := per_tool_options parsed) in *.
  assert (ImportSchema.io_per_upstream_schema options = false) as Hu by exact Hsingle.
  apply generate_per_tool_Ok in Hg as (tools & st1 & statements & plan & _ & He & Hplan & -> & _).
  assert (drop_schemas false [schema] schemas = [schema]) as Hone.
  { clear. generalize [schema]. induction schemas as [|x l IH]; intros acc; [done|apply IH]. }
  rewrite Hone in Hd. apply drop_all_one in Hd as (sqls & Hd & Hnone & Hafter).
  pose proof Hplan as Hpl. unfold ImportSchema.per_tool_plan in Hpl. rewrite Hu in Hpl.
  destruct (Codegen.plan _ _ _ _ _) as [p|e] eqn:Hcp; [|done].
  destruct (ImportSchema.emit _ _ _ _ _) as [out|] eqn:Hem; [|done]. injection Hpl as -> ->.
  exists options, tools, statements, plan. eexists. split; [done|]. split.
  { intros o (t & Ht & ->)%elem_of_owned_objects. by eapply plan_single_schema. }
  apply elsewhere_layout in Hem. cbn [then_ran extra ran]. rewrite He. cbn [then_ran extra ran].
  rewrite Hd, <- !app_assoc. split; [done|].
  unfold on_demand. rewrite Hu. cbn [app]. split.
  - by rewrite !records_app, Hnone, records_elsewhere, records_of.
  - intros table. rewrite !generated_after_app, Hafter. f_equal. by apply generated_after_elsewhere.
Qed.
End generation.

Lemma recorded_NoDup server schema g : NoDup (recorded server schema g).
Proof.
  unfold recorded. apply NoDup_fmap_2_strong; [|apply NoDup_filter, NoDup_map_to_list].
  intros [[s1 n1] [sv1 k1 t1]] [[s2 n2] [sv2 k2 t2]] [[Hs1 _] _]%list_elem_of_filter [[Hs2 _] _]%list_elem_of_filter.
  cbn in *. intros [=]. by subst.
Qed.

(** The key tells recorded objects apart. *)
Lemma recorded_unique server schema g o o' :
  o ∈ recorded server schema g → o' ∈ recorded server schema g → o_name o = o_name o' → o = o'.
Proof.
  intros [H1 Hs1]%elem_of_recorded [H2 Hs2]%elem_of_recorded Hn.
  destruct o, o'. cbn in *. subst. unfold object_key in *. cbn in *. rewrite H1 in H2. by injection H2 as <- <-.
Qed.

(** What is recorded once the records of a generation are in. *)
Lemma recorded_after server schema table objects :
  (∀ o, o ∈ objects → o_schema o = schema) →
  let after := generated_after (filter (fun kr => ¬ in_scope server schema kr) table) (record_sql server <$> objects) in
  (∀ o, o ∈ recorded server schema after → o ∈ objects) ∧
  ((∀ o, o ∈ objects → o ∈ recorded server schema after) ↔
   ∀ o o', o ∈ objects → o' ∈ objects → o_name o = o_name o' → o = o').
Proof.
  intros Hsch after. assert (∀ o, o ∈ recorded server schema after → o ∈ objects) as Hin.
  { intros o [Ho Hs]%elem_of_recorded. unfold after in Ho. rewrite generated_records in Ho.
    destruct (last _) as [o'|] eqn:El.
    - apply last_filter_Some in El as [Hk Ho']. assert (o = o') as ->; [|done].
      destruct o, o'. injection Ho. injection Hk. intros. by subst.
    - apply map_lookup_filter_Some in Ho as [_ Hn]. by destruct Hn. }
  split; [done|]. split.
  - intros Hall o o' Ho Ho'. apply (recorded_unique server schema after); auto.
  - intros Hinj o Ho. apply elem_of_recorded. split; [|by apply Hsch]. unfold after. rewrite generated_records.
    destruct (last _) as [o'|] eqn:El.
    + apply last_filter_Some in El as [Hk Ho']. injection Hk as _ Hn. by rewrite (Hinj o' o).
    + by destruct (last_filter_None _ _ _ El Ho).
Qed.

(** ** Properties *)

(** C16. What a regeneration into one schema leaves in [mcp.generated], whatever was
    there: nothing older of that server in that schema; every row of another
    server or schema whose key no generated object takes; and all the objects just
    created exactly when no two of them share a name.  Tables and functions have
    separate name spaces in PostgreSQL but one key here, so with a tool [x] and a
    tool [tool_x] an object that exists is not recorded. *)
Theorem regeneration_bookkeeping `{Serde, Net, UrlLib, PgCatalog, Unicode, Spi, HashOrder} {profile : Build}
    (server schema : string) (opts : option Value) (parsed : ImportSchema.ImportOptions)
    (st st' : Sessions Backend) (g sk : nat) (names : list string) :
  generate_functions server schema opts st = (Ok (g, sk, names), st') →
  ImportSchema.ImportOptions_parse (default Null opts) = Ok parsed →
  ImportSchema.io_per_upstream_schema parsed = false →
  ∃ options tools statements plan sqls,
    ImportSchema.per_tool_plan server schema tools options = Some (Ok (statements, plan)) ∧
    ran (extra st') = ran (extra st) ++ sqls ∧ records sqls = owned_objects plan ∧
    ∀ table,
      let after := generated_after table sqls in
      let objects := owned_objects plan in
      (∀ o, o ∈ recorded server schema after → o ∈ objects) ∧
      (∀ k row, table !! k = Some row → ¬ in_scope server schema (k, row) → k ∉ object_key <$> objects →
         after !! k = Some row) ∧
      ((∀ o, o ∈ objects → o ∈ recorded server schema after) ↔
       ∀ o o', o ∈ objects → o' ∈ objects → o_name o = o_name o' → o = o') ∧
      (∀ t t', t ∈ Codegen.tools plan → t' ∈ Codegen.tools plan →
         Codegen.tool_sql_name t' = "tool_" +:+ Codegen.tool_sql_name t →
         ∃ o, o ∈ objects ∧ o ∉ recorded server schema after).
Proof.
  intros Hg Hp Hu. destruct (regenerated_table _ _ _ _ _ _ _ _ _ Hg Hp Hu)
    as (options & tools & statements & plan & sqls & Hplan & Hsch & Hran & Hrec & Hafter).
  exists options, tools, statements, plan, sqls. split; [done|]. split; [done|]. split; [done|].
  intros table after objects.
  destruct (recorded_after server schema table objects Hsch) as [Hin Hall].
  unfold after. rewrite Hafter. split; [done|]. split; [|split; [done|]].
  - intros k row Hk Hs Hno. rewrite generated_records. destruct (last _) as [o|] eqn:El.
    + apply last_filter_Some in El as [<- Ho]. destruct Hno. by apply list_elem_of_fmap_2.
    + by apply map_lookup_filter_Some.
  - intros t t' Ht Ht' Hname.
    assert (mkOwned KIND_TABLE (Ddl.table_name t) (Codegen.schema t) (Codegen.tool_name t) ∈ objects) as H1'
      by (apply owned_object_of; [done|]; unfold owned_rows; by left).
    assert (mkOwned KIND_FUNCTION (Codegen.tool_sql_name t') (Codegen.schema t') (Codegen.tool_name t') ∈ objects) as H2'
      by (apply owned_object_of; [done|]; unfold owned_rows; by right; left).
    destruct (decide (mkOwned KIND_TABLE (Ddl.table_name t) (Codegen.schema t) (Codegen.tool_name t)
      ∈ recorded server schema (generated_after (filter (fun kr => ¬ in_scope server schema kr) table)
                                  (record_sql server <$> objects)))) as [Hin1|Hno]; [|eexists; by split; [exact H1'|]].
    eexists. split; [exact H2'|]. intros Hin2.
    pose proof (recorded_unique _ _ _ _ _ Hin1 Hin2 (eq_sym Hname)) as Heq. by apply (f_equal o_kind) in Heq.
Qed.

(** PostgreSQL on the SELECT of the owned objects: it reads the table that the
    statements so far have made. *)
Definition select_reads_table `{Spi} : Prop :=
  ∀ before server schema, ∃ rows, sql_select before (owned_sql server schema) = Ok rows ∧
    object_of_row <$> rows ≡ₚ recorded server schema (generated_after ∅ before).

(** C23. Regeneration takes away what the last one made: after a successful
    [generate_functions] into a schema whose objects all have names of their own,
    a drop cycle of the server there that succeeds runs exactly one drop per
    generated object, each reading back as that object, and leaves none recorded. *)
Theorem regeneration_drops_its_objects `{Serde, Net, UrlLib, PgCatalog, Unicode, Spi, HashOrder} {profile : Build}
    (server schema : string) (opts : option Value) (parsed : ImportSchema.ImportOptions)
    (st st' : Sessions Backend) (g sk : nat) (names : list string) :
  select_reads_table →
  generate_functions server schema opts st = (Ok (g, sk, names), st') →
  ImportSchema.ImportOptions_parse (default Null opts) = Ok parsed →
  ImportSchema.io_per_upstream_schema parsed = false →
  ∃ options tools statements plan sqls,
    ImportSchema.per_tool_plan server schema tools options = Some (Ok (statements, plan)) ∧
    ran (extra st') = ran (extra st) ++ sqls ∧ records sqls = owned_objects plan ∧
    (NoDup (o_name <$> records sqls) →
     ∀ n after, drop_owned server schema (ran (extra st')) = (Ok n, after) →
       n = length (owned_objects plan) ∧
       recorded server schema (generated_after ∅ after) = [] ∧
       ∃ objects dropped, objects ≡ₚ owned_objects plan ∧ Forall2 drops objects dropped ∧
         after = ran (extra st') ++ dropped ++ [clear_sql server schema]).
Proof.
  intros Hlaw Hg Hp Hu. destruct (regenerated_table _ _ _ _ _ _ _ _ _ Hg Hp Hu)
    as (options & tools & statements & plan & sqls & Hplan & Hsch & Hran & Hrec & Hafter).
  exists options, tools, statements, plan, sqls. split; [done|]. split; [done|]. split; [done|].
  rewrite Hrec. intros Hnd n after Hd.
  destruct (recorded_after server schema (generated_after ∅ (ran (extra st))) (owned_objects plan) Hsch) as [Hin Hall].
  rewrite <- Hafter, <- generated_after_app, <- Hran in Hin, Hall.
  assert (recorded server schema (generated_after ∅ (ran (extra st'))) ≡ₚ owned_objects plan) as Hperm.
  { apply NoDup_Permutation; [apply recorded_NoDup|by eapply NoDup_fmap_1|].
    intros o. split; [apply Hin|]. apply Hall. intros o1 o2 H1' H2' Hn.
    apply list_elem_of_lookup in H1' as [i Hi], H2' as [j Hj].
    assert (i = j) as ->; [|congruence]. eapply NoDup_lookup; [exact Hnd|..]; rewrite list_lookup_fmap.
    - by rewrite Hi.
    - rewrite Hj. cbn. by rewrite Hn. }
  destruct (Hlaw (ran (extra st')) server schema) as (rows & Hrows & Hperm').
  pose proof Hd as Hone. apply drop_owned_Ok in Hd as (rows' & dropped & Hr & -> & -> & Hf).
  assert (rows' = rows) as -> by congruence. rewrite Hperm in Hperm'. split_and!.
  - by rewrite <- (Permutation_length Hperm'), length_fmap.
  - assert (drop_all server [schema] (ran (extra st'))
      = (Ok tt, ran (extra st') ++ dropped ++ [clear_sql server schema])) as Ha
      by (cbn [drop_all]; by rewrite (m_bind_ok _ _ _ _ _ Hone)).
    apply drop_all_one in Ha as (sqls' & Heq & _ & Hc). apply app_inv_head in Heq as ->.
    rewrite generated_after_app, Hc. apply elem_of_nil_inv. intros o [Ho Hs]%elem_of_recorded.
    apply map_lookup_filter_Some in Ho as [_ Hn]. by destruct Hn.
  - exists (reverse (object_of_row <$> rows)), dropped. split; [|done]. by rewrite reverse_Permutation.
Qed.

(** ** Witnesses *)

Module Wit.
Definition cells (o : OwnedObject) : list (option string) :=
  [Some (o_kind o); Some (o_name o); Some (o_schema o); Some (o_tool o)].
(** A database that keeps the table. *)
Definition spi : Spi := {|
  sql_run _ _ := Ok tt;
  sql_get_one _ _ := Ok (Some "jsonb");
  sql_select before sql :=
    match read_owned sql with
    | Some (server, schema) => Ok (cells <$> recorded server schema (generated_after ∅ before))
    | None => Ok []
    end;
|}.
#[local] Existing Instance spi.
Lemma spi_reads_table : select_reads_table.
Proof.
  intros before server schema. eexists. cbn [sql_select spi]. rewrite read_owned_sql. split; [done|].
  rewrite <- list_fmap_compose, (list_fmap_ext _ id), list_fmap_id; [done|]. by intros ? [] ?.
Qed.
End Wit.
#[local] Existing Instance Wit.spi.
#[local] Existing Instance Session.Wit.steady.
#[local] Existing Instance Session.Wit.catalog.
#[local] Existing Instance Options.Wit.lib.
#[local] Existing Instance Api.Wit.ascii_tables.
#[local] Existing Instance Api.Wit.order.
#[local] Existing Instance Codegen.debug_build.

Lemma regeneration_bookkeeping_witness :
  let codec := Api.Wit.codec [Api.Wit.echo "echo"] in
  ∃ st', generate_functions "local" "s" None Api.Wit.start = (Ok (1, 0, [])%nat, st') ∧
    ∀ o, o ∈ recorded "local" "s" (generated_after ∅ (ran (extra st'))) → o ∈ records (ran (extra st')).
Proof.
  intros codec. destruct (generate_functions "local" "s" None Api.Wit.start) as [r st'] eqn:E.
  assert (r = Ok (1, 0, [])%nat) as -> by (apply (f_equal fst) in E; by vm_compute in E).
  destruct (regeneration_bookkeeping "local" "s" None ImportSchema.ImportOptions_default Api.Wit.start st' 1 0 [] E
    ltac:(by vm_compute) ltac:(done)) as (options & tools & statements & plan & sqls & _ & Hr & Hrec & Hall).
  exists st'. split; [done|]. cbn in Hr. rewrite Hr, Hrec. exact (proj1 (Hall ∅)).
Defined.

(** The table of tool [x] is not among what the next regeneration drops. *)
Example colliding_table_survives :
  let codec := Api.Wit.codec [Api.Wit.echo "x"; Api.Wit.echo "tool_x"] in
  match generate_functions "local" "s" None Api.Wit.start with
  | (Ok _, st') =>
      let '(out, after) := drop_owned "local" "s" (ran (extra st')) in
      (is_ok out, length (filter (fun s => is_Some (Ddl.read_foreign_table s)) after),
       (* the tables dropped *)
       omap (fun s => t ← read_drop s; if bool_decide (t.1.1 = KIND_TABLE) then Some t.2 else None) after)
  | _ => (false, 0%nat, [])
  end = (true, 2%nat, ["tool_tool_x"]).
Proof. by vm_compute. Qed.

Lemma regeneration_drops_its_objects_witness :
  let codec := Api.Wit.codec [Api.Wit.echo "echo"] in
  ∃ st' n after, generate_functions "local" "s" None Api.Wit.start = (Ok (1, 0, [])%nat, st') ∧
    drop_owned "local" "s" (ran (extra st')) = (Ok n, after) ∧
    n = length (records (ran (extra st'))) ∧ recorded "local" "s" (generated_after ∅ after) = [].
Proof.
  intros codec. destruct (generate_functions "local" "s" None Api.Wit.start) as [r st'] eqn:E.
  assert (r = Ok (1, 0, [])%nat) as -> by (apply (f_equal fst) in E; by vm_compute in E).
  destruct (regeneration_drops_its_objects "local" "s" None ImportSchema.ImportOptions_default Api.Wit.start st' 1 0 []
    Wit.spi_reads_table E ltac:(by vm_compute) ltac:(done))
    as (options & tools & statements & plan & sqls & _ & Hr & Hrec & Hall).
  cbn in Hr. subst sqls. assert (NoDup (o_name <$> records (ran (extra st')))) as Hnd.
  { replace st' with (generate_functions "local" "s" None Api.Wit.start).2 by by rewrite E.
    apply (bool_decide_unpack _). by vm_compute. }
  destruct (drop_owned "local" "s" (ran (extra st'))) as [out after] eqn:D.
  assert (out = (drop_owned "local" "s" (ran (extra (generate_functions "local" "s" None Api.Wit.start).2))).1) as Hout
    by (rewrite E; cbn [snd]; by rewrite D).
  destruct out as [n|e]; [|exfalso; clear -Hout; vm_compute in Hout; discriminate Hout].
  destruct (Hall Hnd n after eq_refl) as (Hn & Hnone & _).
  exists st', n, after. split; [done|]. split; [done|]. split; [by rewrite Hrec|exact Hnone].
Defined.

End Bookkeeping.
