(* ===== verification/PerTool.v ===== *)
(** * tables/per_tool.rs: the generated tool tables

    SELECT as invocation behind the gate, INSERT as the universal path, the shape
    of the rows.  PostgreSQL's input functions for uuid, timestamptz and date are
    class [PgInput]: a rejected text aborts the statement with the function's own
    error, which no [.ok()] of the program catches. *)

From Stdlib Require Import Ascii String ZArith Lia.
From Stdlib Require Import SpecFloat.
From stdpp Require Import base numbers gmap sets strings pretty list.
From S2P Require Import Prelude Str Json Errors Options Quals Tables Cursor Client Session Cache ToolCalls.
From S2P Require Import Ident Codegen Registry.
Import Options Quals Tables Client Session.
#[local] Open Scope Z_scope.

(** A C function of PostgreSQL: its value, or the error it raises. *)
Class PgInput := {
  timestamptz_in : string → result string Z;
  uuid_in : string → result string (list Z);
  date_in : string → result string unit;
}.

#[local] Existing Instance Cache.Slice_eq_dec.
#[local] Existing Instance Cache.Slice_countable.

Module PerTool.

Record PerToolTarget : Type := mkTarget {
  pt_tool : string;
  pt_invoke_on_select : bool;
  pt_cache_ttl_ms : option Z;
}.

Record PerToolContext : Type := mkContext {
  target : PerToolTarget;
  table_qual : string;
  pt_server_name : string;
  pt_resolved : Resolved;
  pt_quals : list Qual;
}.

Record ResolvedTool : Type := mkTool { ctx : PerToolContext; planned : Codegen.PlannedTool }.

(** Either an error of the program or one PostgreSQL raised. *)
Inductive Abort : Type := Mcp (e : McpError) | PgError (message : string).

(** The caches, the warnings given, and the statements the transaction has run, which
    its queries see. *)
Record Locals : Type := mkLocals {
  pt_caches : Cache.Caches; pt_warnings : list string; pt_ran : list string;
}.

(** ** JSON to cells *)

Section cells.
Context `{Serde, PgInput}.

Definition type_error {A} (value : Value) (column expected : string) : McpResult A :=
  Err (InvalidParams ("value " +:+ json_to_string value +:+ " for argument " +:+ quoted column
                      +:+ " is not a valid " +:+ expected +:+ " (PRD-8 §4.1)")).

Definition parse_timestamptz (text : string) : result string Z := timestamptz_in (ToolCalls.strip_nul text).
Definition parse_uuid (text : string) : result string (list Z) := uuid_in (ToolCalls.strip_nul text).
Definition parse_date (text : string) : result string unit := date_in (ToolCalls.strip_nul text).

Definition or_type_error {A} (value : Value) (column expected : string) (mk : A → Cell) (o : option A) :
    McpResult (option Cell) :=
  match o with Some a => Ok (Some (mk a)) | None => type_error value column expected end.

(** A text through an input function: the outer result is PostgreSQL's. *)
Definition through_input {A} (value : Value) (column expected : string) (input : string → result string A)
    (mk : string → A → Cell) : result string (McpResult (option Cell)) :=
  match as_str value with
  | Some text => a ← input text; Ok (Ok (Some (mk text a)))
  | None => Ok (type_error value column expected)
  end.

Definition as_i32 (value : Value) : option Z :=
  v ← as_i64 value; if in_range i32_min i32_max v then Some v else None.

Definition json_to_cell (value : Value) (ty : ColumnType) (column : string) :
    result string (McpResult (option Cell)) :=
  if is_null value then Ok (Ok None)
  else match ty with
  | Text => Ok (Ok (Some (CText (match value with Str s => s | other => json_to_string other end))))
  | Jsonb => Ok (Ok (Some (CJson value)))
  | Boolean => Ok (or_type_error value column "boolean" CBool (as_bool value))
  | Int4 => Ok (or_type_error value column "integer" CInt4 (as_i32 value))
  | Int8 => Ok (or_type_error value column "bigint" CInt8 (as_i64 value))
  | Float8 => Ok (or_type_error value column "double precision" CFloat8 (as_f64 value))
  | Uuid => through_input value column "uuid" parse_uuid (fun _ b => CUuid b)
  | TimestampTz => through_input value column "timestamptz" parse_timestamptz (fun _ t => CTimestampTz t)
  | Date => through_input value column "date" parse_date (fun text _ => CDate text)
  | Bytea => Ok (type_error value column "bytea")
  end.

(** [.and_then(|v| json_to_cell(..).ok()).flatten()] *)
Definition cell_or_null (value : option Value) (col : Codegen.Column) : result string (option Cell) :=
  match value with
  | None => Ok None
  | Some v =>
      r ← json_to_cell v (Codegen.pg_type col) (Codegen.sql_name col);
      Ok (match r with Ok c => c | Err _ => None end)
  end.

(** ** Arguments *)

Definition required_missing (tool : Codegen.PlannedTool) (col : Codegen.Column) (where_ : string) : McpError :=
  InvalidParams ("required argument " +:+ quoted (Codegen.sql_name col) +:+ " of tool "
                 +:+ quoted (Codegen.tool_name tool) +:+ " must be supplied " +:+ where_ +:+ " (PRD-8 §4.2)").

(** The value bound to an input column: the first [=] qual on it. *)
Definition bound (quals : list Qual) (col : Codegen.Column) : option Value :=
  (fun iq => value iq.2) <$> list_find (fun q => field q = Codegen.sql_name col ∧ operator q = Equal) quals.

(** The loop over the input columns, [supplied] being what a column gets. *)
Fixpoint collect (missing : Codegen.Column → McpError) (supplied : Codegen.Column → option Value)
    (args : list (string * Value)) (cols : list Codegen.Column) : McpResult (list (string * Value)) :=
  match cols with
  | [] => Ok args
  | col :: rest =>
      match supplied col with
      | Some v => collect missing supplied (obj_insert (Codegen.property col) v args) rest
      | None => if Codegen.required col then Err (missing col) else collect missing supplied args rest
      end
  end.

Definition arguments_from_quals (tool : ResolvedTool) : McpResult Value :=
  args ← collect (fun col => required_missing (planned tool) col "as a WHERE equality qual")
           (bound (pt_quals (ctx tool))) [] (Codegen.inputs (planned tool));
  Ok (Object args).

(** ** Shaping the rows *)

Definition shape_row (tool : Codegen.PlannedTool) (echo : Codegen.Column → result string (option Cell))
    (outputs : list (option Cell)) (is_error : bool) (content : option Value) : result string Row :=
  inputs ← mapM echo (Codegen.inputs tool);
  Ok (inputs ++ outputs ++ [CJson <$> content; Some (CBool is_error)]).

Definition output_cells (columns : list Codegen.Column) (source : option Value) :
    result string (list (option Cell)) :=
  mapM (fun col => cell_or_null (source ≫= fun s => get s (Codegen.property col)) col) columns.

Definition shape (tool : Codegen.PlannedTool) (arguments reply : Value) : result string (list Row) :=
  let is_error := is_error_result reply in
  let content := get reply "content" in
  let structured := get reply "structuredContent" in
  let echo col := cell_or_null (get arguments (Codegen.property col)) col in
  let null_outputs := replicate (length (Codegen.output_columns tool)) None in
  let single outputs : result string (list Row) := row ← shape_row tool echo outputs is_error content; Ok [row] in
  if is_error then single null_outputs
  else match Codegen.output tool with
       | Codegen.ElementOf property columns =>
           match default [] (s ← structured; v ← get s property; as_array v) with
           | [] => single null_outputs
           | elements =>
               mapM (fun element =>
                 cells ← output_cells columns (Some element);
                 shape_row tool echo cells false content) elements
           end
       | Codegen.Single columns => cells ← output_cells columns structured; single cells
       | Codegen.NoOutput => single []
       end.

(** ** Filtering *)

Definition consumed (tool : ResolvedTool) (q : Qual) : bool :=
  existsb (fun c => bool_decide (Codegen.sql_name c = field q)) (Codegen.inputs (planned tool))
  && bool_decide (operator q = Equal).

(** The position of the cell a qual is checked against, when the row has it. *)
Definition checked_cell (tool : ResolvedTool) (q : Qual) : option nat :=
  let width := length (Codegen.inputs (planned tool)) in
  let outputs := Codegen.output_columns (planned tool) in
  match position (fun c => bool_decide (Codegen.sql_name c = field q)) outputs with
  | Some pos => Some (width + pos)%nat
  | None => if bool_decide (field q = "content") then Some (width + length outputs)%nat
            else if bool_decide (field q = "is_error") then Some (width + length outputs + 1)%nat
            else None
  end.

Definition qual_holds (tool : ResolvedTool) (row : Row) (q : Qual) : bool :=
  if consumed tool q then true
  else match checked_cell tool q with
       | Some idx =>
           let candidate := match mjoin (row !! idx) with Some c => as_json c | None => Null end in
           matches_json q (field q) candidate
       | None => true
       end.

Definition post_filter (tool : ResolvedTool) (row : Row) : bool :=
  forallb (qual_holds tool row) (pt_quals (ctx tool)).
End cells.

(** ** Resolution and invocation *)

(** ** The cursor: the rows of one call, read by consuming them *)

Record PerToolCursor : Type := mkToolCursor { tl_rows : list Row }.
Definition tool_iter_scan (c : PerToolCursor) : McpResult (option Row) * PerToolCursor :=
  let '(row, rest) := take_row (tl_rows c) in (Ok row, mkToolCursor rest).

#[global] Instance tool_cursor : ScanCursor PerToolCursor := {|
  iter_scan := tool_iter_scan; re_scan := default_re_scan |}.

#[global] Program Instance tool_cursor_laws : ScanCursorLaws PerToolCursor := {|
  cursor_rest := tl_rows; cursor_restart := tl_rows; rewinds _ := false |}.
Next Obligation. done. Qed.
Next Obligation. intros [[|row rows]]; [done|]. eexists. repeat split; [by apply (take_row_suffix row)|done]. Qed.
Next Obligation. intros c. by exists c. Qed.

Section calls.
Context `{Serde, Net, Unicode, PgInput, Spi} {profile : Build}.
Abbreviation PM := (M (Sessions Locals) Abort).

Definition lift_mcp {A} (m : M (Sessions Locals) McpError A) : PM A := fun st =>
  let '(r, st') := m st in (map_err Mcp r, st').

Definition set_caches (c : Cache.Caches) (st : Sessions Locals) : Sessions Locals :=
  mkSessions (sessions st) (world st) (mkLocals c (pt_warnings (extra st)) (pt_ran (extra st))).

(** The cache around a session call. *)
Definition cached (k : Z * Z) (ttl : Z) (slice : Cache.Slice)
    (fetch : M (Sessions Locals) McpError (list Value)) : M (Sessions Locals) McpError (list Value) :=
  fun st =>
    let fetch' : M (Cache.Caches * Sessions Locals) McpError (list Value) :=
      fun '(c, st) => let '(r, st') := fetch (set_caches c st) in (r, (pt_caches (extra st'), st')) in
    let '(r, (c', st')) :=
      Cache.get_or_fetch (fun st => w_now (world st)) k ttl slice fetch' (pt_caches (extra st), st) in
    (r, set_caches c' st').

Definition key_of_ctx (c : PerToolContext) : Z * Z := key_of (pt_resolved c).

Definition stale_warning (server : string) (schemas : list string) : string :=
  "tool list changed on server " +:+ server +:+ "; generated objects in " +:+ join ", " schemas
  +:+ " are stale; re-run mcp.generate_functions".

(** The observed tools/list_changed flag: drop the slice, warn. *)
Definition note_change (c : PerToolContext) : M (Sessions Locals) McpError unit := fun st =>
  let k := key_of_ctx c in
  if default false (with_cached_session k.1 k.2 tools_list_changed st) then
    let dropped := (Cache.drop_tools k (pt_caches (extra st))).2 in
    let warnings := match (Registry.schemas_for (pt_server_name c) (pt_ran (extra st))).1 with
                    | Ok ((_ :: _) as schemas) => [stale_warning (pt_server_name c) schemas]
                    | _ => []
                    end in
    (Ok tt, mkSessions (sessions st) (world st) (mkLocals dropped (pt_warnings (extra st) ++ warnings) (pt_ran (extra st))))
  else (Ok tt, st).

Definition not_listed (c : PerToolContext) : McpError :=
  UndefinedObject ("tool " +:+ quoted (pt_tool (target c)) +:+ " is not in server "
    +:+ quoted (pt_server_name c) +:+ "'s tools/list; the generated table " +:+ table_qual c
    +:+ " is stale — re-run mcp.generate_functions").
Definition not_mappable (c : PerToolContext) : McpError :=
  UndefinedObject ("tool " +:+ quoted (pt_tool (target c)) +:+ " on server "
    +:+ quoted (pt_server_name c) +:+ " no longer has a mappable input schema; re-run mcp.generate_functions").

Definition find_tool (name : string) (items : list Value) : option Value :=
  snd <$> list_find (fun t => get t "name" ≫= as_str = Some name) items.

Definition plan_live (c : PerToolContext) (items : list Value) : McpResult ResolvedTool :=
  def ← ok_or (not_listed c) (find_tool (pt_tool (target c)) items);
  plan ← Codegen.plan [def] "pg_mcp_runtime" EmptyString Codegen.ReadOnly Codegen.SingleSchema;
  p ← ok_or (not_mappable c) (head (Codegen.tools plan));
  Ok (mkTool c p).

Definition resolve_tool (c : PerToolContext) : M (Sessions Locals) McpError ResolvedTool :=
  let ttl := default (so_cache_ttl_ms (options (pt_resolved c))) (pt_cache_ttl_ms (target c)) in
  items ← cached (key_of_ctx c) ttl Cache.Tools
            (with_session (pt_resolved c) (fun tr => lift_x (list_all "tools/list" "tools" (Object []) tr)));
  _ ← note_change c;
  m_lift (plan_live c items).

Definition gated (c : PerToolContext) : McpError :=
  FeatureNotSupported ("tool " +:+ quoted (pt_tool (target c)) +:+ " is not read-only; INSERT into "
                       +:+ table_qual c +:+ " instead (PRD-8 §4.2)").
Definition check_gate (c : PerToolContext) : McpResult unit :=
  if pt_invoke_on_select (target c) then Ok tt else Err (gated c).

Definition call_params (tool : ResolvedTool) (arguments : Value) : Value :=
  Object [("name", Str (Codegen.tool_name (planned tool))); ("arguments", arguments)].

Definition call (tool : ResolvedTool) (arguments : Value) : M (Sessions Locals) McpError Value :=
  with_session (pt_resolved (ctx tool))
    (fun tr => lift_x (request "tools/call" (call_params tool arguments) tr)).

Definition invoke_and_shape (tool : ResolvedTool) (arguments : Value) : PM (list Row) :=
  reply ← lift_mcp (call tool arguments);
  m_lift (map_err PgError (shape (planned tool) arguments reply)).

Definition begin_scan (c : PerToolContext) : PM PerToolCursor :=
  _ ← m_lift (map_err Mcp (check_gate c));
  tool ← lift_mcp (resolve_tool c);
  arguments ← m_lift (map_err Mcp (arguments_from_quals tool));
  rows ← invoke_and_shape tool arguments;
  mret (mkToolCursor (filter (fun row => post_filter tool row = true) rows)).

(** ** INSERT *)

Definition supplied_value (supplied : list (string * option Value)) (col : Codegen.Column) : option Value :=
  (snd <$> list_find (fun s => s.1 = Codegen.sql_name col) supplied) ≫= fun s => s.2.

Definition arguments_from_row (tool : ResolvedTool) (supplied : list (string * option Value)) : McpResult Value :=
  args ← collect (fun col => required_missing (planned tool) col "on INSERT")
           (supplied_value supplied) [] (Codegen.inputs (planned tool));
  Ok (Object args).

Definition without_quals (c : PerToolContext) : PerToolContext :=
  mkContext (target c) (table_qual c) (pt_server_name c) (pt_resolved c) [].

Definition insert (c : PerToolContext) (supplied : list (string * option Value)) : PM Row :=
  tool ← lift_mcp (resolve_tool (without_quals c));
  arguments ← m_lift (map_err Mcp (arguments_from_row tool supplied));
  rows ← invoke_and_shape tool arguments;
  mret (default [] (head rows)).
End calls.

(** ** Lemmas: cells and rows *)

(** What PostgreSQL documents of the input functions. *)
Definition input_ok `{PgInput} : Prop :=
  (∀ s b, uuid_in s = Ok b → Forall (fun x => 0 <= x < 256) b ∧ length b = 16%nat) ∧
  (∀ s t, timestamptz_in s = Ok t → i64_min <= t <= i64_max).

Definition cell_typed (ty : ColumnType) (cell : option Cell) : Prop :=
  match cell with Some x => cell_ok ty x | None => True end.

(** The column types of a per-tool table, in table order. *)
Definition tool_types (t : Codegen.PlannedTool) : list ColumnType :=
  (Codegen.pg_type <$> Codegen.table_columns t) ++ [Jsonb; Boolean].

Section shapes.
Context `{Serde, PgInput}.

Lemma or_type_error_typed {A} value column expected (mk : A → Cell) o ty cell :
  or_type_error value column expected mk o = Ok cell → (∀ a, o = Some a → cell_ok ty (mk a)) →
  cell_typed ty cell.
Proof. unfold or_type_error. destruct o; [|done]. intros [= <-] Ho. by apply Ho. Qed.

Lemma json_to_cell_typed value ty column cell :
  input_ok → value_ok value → json_to_cell value ty column = Ok (Ok cell) → cell_typed ty cell.
Proof.
  intros [Hu Ht] Hv. unfold json_to_cell. destruct (is_null value); [by intros [= <-]|].
  destruct ty; intros Hj; simplify_eq/=; try done.
  - eapply or_type_error_typed; [exact Hj|done].
  - eapply or_type_error_typed; [exact Hj|]. intros a (n & Hn & Ha)%bind_Some.
    destruct (in_range i32_min i32_max n) eqn:Hr; [|done]. injection Ha as <-.
    unfold in_range in Hr. bool_prop. simpl. lia.
  - eapply or_type_error_typed; [exact Hj|]. intros a. by apply as_i64_range.
  - unfold through_input in Hj. destruct (as_str value) as [text|]; [|done].
    apply result_bind_Ok in Hj as (b & Hb & [= <-]). by eapply Hu.
  - unfold through_input in Hj. destruct (as_str value) as [text|]; [|done].
    apply result_bind_Ok in Hj as (b & Hb & [= <-]). by eapply Ht.
  - eapply or_type_error_typed; [exact Hj|done].
  - unfold through_input in Hj. destruct (as_str value) as [text|]; [|done].
    by apply result_bind_Ok in Hj as (b & Hb & [= <-]).
Qed.

Lemma cell_or_null_typed value col cell :
  input_ok → (∀ v, value = Some v → value_ok v) → cell_or_null value col = Ok cell →
  cell_typed (Codegen.pg_type col) cell.
Proof.
  intros Hi Hv. unfold cell_or_null. destruct value as [v|]; [|by intros [= <-]].
  intros ([c|e] & Hr & [= <-])%result_bind_Ok; [|done]. eapply json_to_cell_typed; [done|by apply Hv|done].
Qed.

Lemma output_cells_typed columns source cells :
  input_ok → (∀ v, source = Some v → value_ok v) → output_cells columns source = Ok cells →
  Forall2 cell_typed (Codegen.pg_type <$> columns) cells.
Proof.
  intros Hi Hs Hc%mapM_Ok. apply Forall2_fmap_l. eapply Forall2_impl; [exact Hc|].
  intros col cell Hcell. eapply cell_or_null_typed; [done| |exact Hcell].
  intros v (s & Hs' & Hg)%bind_Some. eapply value_ok_get; [by apply Hs|done].
Qed.

Lemma nulls_typed (types : list ColumnType) : Forall2 cell_typed types (replicate (length types) None).
Proof. induction types; simpl; by constructor. Qed.

Lemma shape_row_typed t echo outputs is_error content row :
  (∀ col cell, echo col = Ok cell → cell_typed (Codegen.pg_type col) cell) →
  Forall2 cell_typed (Codegen.pg_type <$> Codegen.output_columns t) outputs →
  shape_row t echo outputs is_error content = Ok row →
  Forall2 cell_typed (tool_types t) row ∧ last row = Some (Some (CBool is_error)) ∧
  ∃ ins, row = ins ++ outputs ++ [CJson <$> content; Some (CBool is_error)] ∧
         length ins = length (Codegen.inputs t).
Proof.
  intros He Ho. unfold shape_row. intros (ins & Hins & [= <-])%result_bind_Ok. apply mapM_Ok in Hins.
  unfold tool_types, Codegen.table_columns. split_and!.
  - rewrite fmap_app, <- app_assoc. apply Forall2_app; [|apply Forall2_app; [done|]].
    + apply Forall2_fmap_l. eapply Forall2_impl; [exact Hins|]. intros col cell. apply He.
    + repeat constructor. by destruct content.
  - by rewrite !last_app.
  - exists ins. split; [done|]. symmetry. by eapply Forall2_length.
Qed.

(** The rows a reply makes: how many, and what they carry. *)
Definition element_count (t : Codegen.PlannedTool) (reply : Value) : nat :=
  match Codegen.output t with
  | Codegen.ElementOf property _ =>
      length (default [] (s ← get reply "structuredContent"; v ← get s property; as_array v))
  | _ => 0%nat
  end.

Lemma shape_rows t arguments reply rows :
  input_ok → value_ok arguments → value_ok reply → shape t arguments reply = Ok rows →
  length rows = (if is_error_result reply then 1 else Nat.max 1 (element_count t reply))%nat ∧
  Forall (fun row => Forall2 cell_typed (tool_types t) row ∧
            last row = Some (Some (CBool (is_error_result reply))) ∧
            row !! (length (Codegen.table_columns t)) = Some (CJson <$> get reply "content") ∧
            (is_error_result reply = true →
             take (length (Codegen.output_columns t)) (drop (length (Codegen.inputs t)) row)
             = replicate (length (Codegen.output_columns t)) None)) rows.
Proof.
  intros Hi Ha Hr. unfold shape.
  set (echo := fun col => cell_or_null (get arguments (Codegen.property col)) col).
  assert (∀ col cell, echo col = Ok cell → cell_typed (Codegen.pg_type col) cell) as Hecho.
  { intros col cell Hc. eapply cell_or_null_typed; [done| |exact Hc]. intros v Hg.
    exact (value_ok_get _ _ _ Ha Hg). }
  assert (∀ e outputs row,
    Forall2 cell_typed (Codegen.pg_type <$> Codegen.output_columns t) outputs →
    (e = true → outputs = replicate (length (Codegen.output_columns t)) None) →
    shape_row t echo outputs e (get reply "content") = Ok row →
    Forall2 cell_typed (tool_types t) row ∧ last row = Some (Some (CBool e)) ∧
    row !! (length (Codegen.table_columns t)) = Some (CJson <$> get reply "content") ∧
    (e = true → take (length (Codegen.output_columns t)) (drop (length (Codegen.inputs t)) row)
                = replicate (length (Codegen.output_columns t)) None)) as Hrow.
  { intros e outputs row Ho Hnull Hs.
    destruct (shape_row_typed _ _ _ _ _ _ Hecho Ho Hs) as (Ht & Hl & ins & -> & Hlen).
    apply Forall2_length in Ho. rewrite length_fmap in Ho. split_and!; [done..| |].
    - unfold Codegen.table_columns. rewrite length_app, lookup_app_r by lia.
      rewrite lookup_app_r by lia. by replace (_ - _ - _)%nat with 0%nat by lia.
    - intros He. rewrite drop_app_length' by done. rewrite take_app_length' by done. by apply Hnull. }
  pose proof (nulls_typed (Codegen.pg_type <$> Codegen.output_columns t)) as Hnulls.
  rewrite length_fmap in Hnulls.
  assert (∀ v, get reply "structuredContent" = Some v → value_ok v) as Hst.
  { intros v Hg. exact (value_ok_get _ _ _ Hr Hg). }
  unfold element_count. destruct (is_error_result reply) eqn:Herr.
  - intros (row & Hs & [= <-])%result_bind_Ok. split; [done|]. constructor; [|constructor].
    by apply (Hrow true _ _ Hnulls).
  - unfold Codegen.output_columns in *. destruct (Codegen.output t) as [|property columns|columns].
    + intros (row & Hs & [= <-])%result_bind_Ok. split; [done|]. constructor; [|constructor].
      by apply (Hrow false []); [constructor| |].
    + destruct (default [] _) as [|el els] eqn:Hel.
      * intros (row & Hs & [= <-])%result_bind_Ok. split; [done|]. constructor; [|constructor].
        by eapply (Hrow false).
      * intros Hm%mapM_Ok. pose proof (Forall2_length _ _ _ Hm) as Hl.
        split; [cbn [length] in *; lia|].
        assert (Forall value_ok (el :: els)) as Hall.
        { rewrite <- Hel. destruct (get reply "structuredContent") as [sv|]; [|constructor]. simpl.
          destruct (get sv property) as [v|] eqn:Hg; [|constructor]. simpl.
          destruct v; simpl; try constructor.
          apply value_ok_array. eapply value_ok_get; [by apply Hst|done]. }
        apply Forall_forall. intros row Hin. apply list_elem_of_lookup in Hin as [i Hin].
        destruct (Forall2_lookup_r _ _ _ _ _ Hm Hin) as (e & He & Hs).
        apply result_bind_Ok in Hs as (cells & Hc & Hs). apply (Hrow false cells); [|done|done].
        eapply output_cells_typed; [done| |exact Hc]. intros v [= <-].
        by eapply (Forall_lookup_1 _ _ _ _ Hall).
    + intros (cells & Hc & (row & Hs & [= <-])%result_bind_Ok)%result_bind_Ok.
      split; [done|]. constructor; [|constructor]. apply (Hrow false cells); [|done|done].
      eapply output_cells_typed; [done|exact Hst|exact Hc].
Qed.
End shapes.

(** ** Lemmas: arguments *)

Lemma obj_insert_new k v m : k ∉ m.*1 → obj_insert k v m = m ++ [(k, v)].
Proof.
  induction m as [|[k0 v0] m IH]; [done|]. simpl. intros Hk. rewrite bool_decide_false by set_solver.
  f_equal. apply IH. set_solver.
Qed.

(** What the inputs of a tool are given. *)
Definition given (supplied : Codegen.Column → option Value) (cols : list Codegen.Column) :
    list (string * Value) :=
  omap (fun col => pair (Codegen.property col) <$> supplied col) cols.

Lemma given_keys supplied cols : (given supplied cols).*1 `sublist_of` (Codegen.property <$> cols).
Proof.
  apply (Codegen.fmap_omap_sublist _ fst Codegen.property). intros col [k v].
  destruct (supplied col); intros; by simplify_eq/=.
Qed.

Lemma given_cons supplied col cols :
  given supplied (col :: cols) =
  match supplied col with
  | Some v => (Codegen.property col, v) :: given supplied cols
  | None => given supplied cols
  end.
Proof. unfold given. rewrite Codegen.omap_cons. by destruct (supplied col). Qed.

Lemma given_absent supplied k cols : k ∉ Codegen.property <$> cols → k ∉ (given supplied cols).*1.
Proof. intros Hk Hin. apply Hk. eapply elem_of_sublist; [exact Hin|apply given_keys]. Qed.

Lemma obj_get_given supplied cols col :
  NoDup (Codegen.property <$> cols) → col ∈ cols →
  obj_get (Codegen.property col) (given supplied cols) = supplied col.
Proof.
  induction cols as [|c cols IH]; intros Hnd Hcol; [by apply elem_of_nil in Hcol|].
  apply NoDup_cons in Hnd as [Hn Hnd]. rewrite given_cons.
  apply elem_of_cons in Hcol as [<-|Hcol].
  - destruct (supplied col) as [v|]; cbn [obj_get]; [by rewrite bool_decide_true|].
    by apply obj_get_None, given_absent.
  - assert (Codegen.property c ≠ Codegen.property col) as Hne.
    { intros Heq. apply Hn. rewrite Heq. by apply list_elem_of_fmap_2. }
    destruct (supplied c); cbn [obj_get]; [rewrite bool_decide_false by done|]; by apply IH.
Qed.

Lemma collect_Ok missing supplied args cols out :
  NoDup (args.*1 ++ (Codegen.property <$> cols)) → collect missing supplied args cols = Ok out →
  out = args ++ given supplied cols ∧
  Forall (fun col => Codegen.required col = true → is_Some (supplied col)) cols.
Proof.
  revert args. induction cols as [|col cols IH]; intros args Hnd; cbn [collect].
  { intros [= <-]. by rewrite app_nil_r. }
  cbn [fmap list_fmap] in Hnd. unfold given. rewrite Codegen.omap_cons. destruct (supplied col) as [v|] eqn:Hs.
  - rewrite obj_insert_new.
    + intros Hc. destruct (IH (args ++ [(Codegen.property col, v)])) as [-> Hall]; [|done|].
      * rewrite fmap_app, <- app_assoc. done.
      * rewrite <- app_assoc. split; [done|]. constructor; [by eexists|done].
    + apply NoDup_app in Hnd as (_ & Hd & _). intros Hin. apply (Hd _ Hin). left.
  - destruct (Codegen.required col) eqn:Hr; [done|]. intros Hc. destruct (IH args) as [-> Hall]; [|done|].
    + apply NoDup_app in Hnd as (H1 & H2 & H3). apply NoDup_cons in H3 as [_ H3].
      apply NoDup_app. split_and!; [done| |done]. intros k Hk Hin. apply (H2 k Hk). by right.
    + split; [done|]. constructor; [congruence|done].
Qed.

Lemma collect_Err missing supplied args cols e :
  collect missing supplied args cols = Err e →
  ∃ pre col post, cols = pre ++ col :: post ∧ Codegen.required col = true ∧ supplied col = None ∧
    e = missing col ∧ Forall (fun c => Codegen.required c = true → is_Some (supplied c)) pre.
Proof.
  revert args. induction cols as [|col cols IH]; intros args; cbn [collect]; [done|].
  destruct (supplied col) as [v|] eqn:Hs.
  - intros (pre & c & post & -> & H1 & H2 & H3 & H4)%IH. exists (col :: pre), c, post.
    split_and!; try done. constructor; [by eexists|done].
  - destruct (Codegen.required col) eqn:Hr.
    + intros [= <-]. exists [], col, cols. by split_and!.
    + intros (pre & c & post & -> & H1 & H2 & H3 & H4)%IH. exists (col :: pre), c, post.
      split_and!; try done. constructor; [congruence|done].
Qed.

Lemma plan_live_inputs `{Serde, Unicode} {profile : Build} c items tool :
  Forall value_ok items → plan_live c items = Ok tool →
  ctx tool = c ∧ NoDup (Codegen.property <$> Codegen.inputs (planned tool)) ∧
  Codegen.tool_name (planned tool) = pt_tool (target c).
Proof.
  intros Hok. unfold plan_live.
  intros (def & Hd & (plan & Hp & (p & Hh & [= <-])%result_bind_Ok)%result_bind_Ok)%result_bind_Ok.
  apply ok_or_Ok in Hd, Hh. cbn [ctx planned]. split; [done|].
  assert (p ∈ Codegen.tools plan) as Hin by (destruct (Codegen.tools plan); simplify_eq/=; left).
  destruct (Codegen.plan_tools_from _ _ _ _ _ _ _ Hp Hin) as (r & sql & Hr & Hone).
  apply Codegen.elem_of_routed in Hr as (Hdef & n & Hu & _). apply list_elem_of_singleton in Hdef.
  unfold find_tool in Hd. apply fmap_Some in Hd as ([i d] & (Hi & Hn & _)%list_find_Some & ->).
  cbn [snd] in *. pose proof Hone as Hone'. apply Codegen.plan_one_Ok in Hone' as (_ & Hname & _).
  rewrite Hdef, Hn in Hname. split; [|done].
  unfold Codegen.plan_one in Hone. rewrite Hdef in Hone.
  destruct (get d "inputSchema") as [sch|] eqn:Es; [|done]. cbn [default from_option id] in Hone.
  destruct (Codegen.properties sch) as [props|] eqn:Ep; [|done]. injection Hone as <-. cbn [Codegen.inputs].
  rewrite Codegen.input_columns_property. unfold Codegen.properties in Ep.
  destruct (get sch "properties") as [[]|] eqn:Eg; try done. simpl in Ep. injection Ep as <-.
  pose proof (Forall_lookup_1 _ _ _ _ Hok Hi) as Hv.
  by destruct (value_ok_get _ _ _ (value_ok_get _ _ _ Hv Es) Eg).
Qed.

(** ** Lemmas: scans *)

Lemma lift_mcp_Ok {A} (m : M (Sessions Locals) McpError A) st a st' :
  lift_mcp m st = (Ok a, st') → m st = (Ok a, st').
Proof. unfold lift_mcp. destruct (m st) as [[?|?] ?]; intros; by simplify_eq/=. Qed.

Lemma m_lift_Ok {S E A} (r : result E A) (s s' : S) a : m_lift r s = (Ok a, s') → r = Ok a ∧ s' = s.
Proof. unfold m_lift. by intros [= -> ->]. Qed.

Lemma map_err_Ok {E F A} (f : E → F) (r : result E A) a : map_err f r = Ok a → r = Ok a.
Proof. by destruct r; intros; simplify_eq/=. Qed.

Section scans.
Context `{Serde, Net, Unicode, PgInput, Spi} {profile : Build}.

Lemma invoke_Ok tool arguments st rows st' :
  invoke_and_shape tool arguments st = (Ok rows, st') →
  ∃ reply, call tool arguments st = (Ok reply, st') ∧ shape (planned tool) arguments reply = Ok rows.
Proof.
  intros (reply & st1 & Hc%lift_mcp_Ok & [Hs ->]%m_lift_Ok)%m_bind_inv_ok.
  apply map_err_Ok in Hs. by exists reply.
Qed.

Lemma resolve_tool_ctx c st tool st' : resolve_tool c st = (Ok tool, st') → ctx tool = c.
Proof.
  intros (items & st1 & _ & (u & st2 & _ & [Hp _]%m_lift_Ok)%m_bind_inv_ok)%m_bind_inv_ok.
  unfold plan_live in Hp.
  by apply result_bind_Ok in Hp as (def & _ & (plan & _ & (p & _ & [= <-])%result_bind_Ok)%result_bind_Ok).
Qed.

(** A successful scan, step by step. *)
Lemma begin_scan_Ok c st rows st' :
  begin_scan c st = (Ok (mkToolCursor rows), st') →
  pt_invoke_on_select (target c) = true ∧
  ∃ tool st1 arguments reply all,
    resolve_tool c st = (Ok tool, st1) ∧ ctx tool = c ∧ arguments_from_quals tool = Ok arguments ∧
    call tool arguments st1 = (Ok reply, st') ∧ shape (planned tool) arguments reply = Ok all ∧
    rows = filter (fun row => post_filter tool row = true) all.
Proof.
  intros (u & st0 & [Hg%map_err_Ok ->]%m_lift_Ok & Hb)%m_bind_inv_ok.
  apply m_bind_inv_ok in Hb as (tool & st1 & Ht%lift_mcp_Ok & Hb).
  apply m_bind_inv_ok in Hb as (arguments & st2 & [Ha%map_err_Ok ->]%m_lift_Ok & Hb).
  apply m_bind_inv_ok in Hb as (all & st3 & (reply & Hc & Hs)%invoke_Ok & Hr).
  injection Hr as <- <-. unfold check_gate in Hg. destruct (pt_invoke_on_select (target c)); [|done].
  split; [done|]. exists tool, st1, arguments, reply, all. split_and!; try done. by eapply resolve_tool_ctx.
Qed.

Lemma insert_Ok c supplied st row st' :
  insert c supplied st = (Ok row, st') →
  ∃ tool st1 arguments reply all,
    resolve_tool (without_quals c) st = (Ok tool, st1) ∧ arguments_from_row tool supplied = Ok arguments ∧
    call tool arguments st1 = (Ok reply, st') ∧ shape (planned tool) arguments reply = Ok all ∧
    row = default [] (head all).
Proof.
  intros (tool & st1 & Ht%lift_mcp_Ok & Hb)%m_bind_inv_ok.
  apply m_bind_inv_ok in Hb as (arguments & st2 & [Ha%map_err_Ok ->]%m_lift_Ok & Hb).
  apply m_bind_inv_ok in Hb as (all & st3 & (reply & Hc & Hs)%invoke_Ok & Hr).
  injection Hr as <- <-. by exists tool, st1, arguments, reply, all.
Qed.
End scans.

Lemma filter_all_false {A} (p : A → bool) (l : list A) :
  (∀ x, x ∈ l → p x = false) → filter (fun x => p x = true) l = [].
Proof.
  induction l as [|x l IH]; intros Hp; [done|]. rewrite filter_cons_False by (by rewrite Hp by left).
  apply IH. intros y Hy. apply Hp. by right.
Qed.

(** The echo: the cell of an input column in every shaped row. *)
Lemma shape_row_echo `{Serde, PgInput} t echo outputs e content row i col :
  shape_row t echo outputs e content = Ok row → Codegen.inputs t !! i = Some col →
  ∃ cell, row !! i = Some cell ∧ echo col = Ok cell.
Proof.
  unfold shape_row. intros (ins & Hins%mapM_Ok & [= <-])%result_bind_Ok Hi.
  destruct (Forall2_lookup_l _ _ _ _ _ Hins Hi) as (cell & Hc & He). exists cell. split; [|done].
  by apply lookup_app_l_Some.
Qed.

Lemma shape_echo `{Serde, PgInput} t arguments reply rows i col row :
  shape t arguments reply = Ok rows → Codegen.inputs t !! i = Some col → row ∈ rows →
  ∃ cell, row !! i = Some cell ∧ cell_or_null (get arguments (Codegen.property col)) col = Ok cell.
Proof.
  unfold shape. set (echo := fun col => cell_or_null (get arguments (Codegen.property col)) col).
  intros Hs Hi Hrow.
  assert (∀ outs, (r ← shape_row t echo outs (is_error_result reply) (get reply "content"); Ok [r]) = Ok rows →
    ∃ cell, row !! i = Some cell ∧ echo col = Ok cell) as Hone.
  { intros outs (r & Hr & [= <-])%result_bind_Ok. apply list_elem_of_singleton in Hrow as ->.
    by eapply shape_row_echo. }
  destruct (is_error_result reply) eqn:He; [by eapply Hone|].
  destruct (Codegen.output t) as [|property columns|columns]; [by eapply Hone| |].
  - destruct (default [] _) as [|el els]; [by eapply Hone|]. apply mapM_Ok in Hs.
    apply list_elem_of_lookup in Hrow as [k Hk].
    destruct (Forall2_lookup_r _ _ _ _ _ Hs Hk) as (e & _ & (cells & _ & Hr)%result_bind_Ok).
    exact (shape_row_echo _ _ _ _ _ _ _ _ Hr Hi).
  - apply result_bind_Ok in Hs as (cells & _ & Hs). by eapply Hone.
Qed.

(** ** Lemmas: rejected texts *)

(** A text PostgreSQL's input function for the type raises an error on. *)
Definition rejected `{PgInput} (ty : ColumnType) (text message : string) : Prop :=
  match ty with
  | Uuid => parse_uuid text = Err message
  | TimestampTz => parse_timestamptz text = Err message
  | Date => parse_date text = Err message
  | _ => False
  end.

Section rejections.
Context `{Serde, PgInput}.

Lemma cell_or_null_Err value col m :
  cell_or_null value col = Err m → ∃ text, value = Some (Str text) ∧ rejected (Codegen.pg_type col) text m.
Proof.
  unfold cell_or_null. destruct value as [v|]; [|done]. unfold json_to_cell.
  destruct (is_null v); [done|]. destruct (Codegen.pg_type col); try done;
    unfold through_input; destruct v as [| | |text| |]; try done; cbn [as_str]; intros Hr; exists text; (split; [done|]);
    cbn [rejected].
  - by destruct (parse_uuid text); simplify_eq/=.
  - by destruct (parse_timestamptz text); simplify_eq/=.
  - by destruct (parse_date text); simplify_eq/=.
Qed.

Lemma mapM_Err {A B} (f : A → result string B) l m : mapM f l = Err m → ∃ x, x ∈ l ∧ f x = Err m.
Proof.
  induction l as [|x l IH]; [done|]. cbn [mapM]. destruct (f x) as [y|e] eqn:E.
  - destruct (mapM f l) as [k|e] eqn:Em; [done|]. intros [= ->]. destruct (IH eq_refl) as (z & Hz & Hf).
    exists z. split; [by right|done].
  - intros [= ->]. exists x. split; [left|done].
Qed.

(** What the output cells of a reply are read from. *)
Definition output_sources (t : Codegen.PlannedTool) (reply : Value) : list Value :=
  match Codegen.output t with
  | Codegen.ElementOf property _ => default [] (s ← get reply "structuredContent"; v ← get s property; as_array v)
  | _ => option_list (get reply "structuredContent")
  end.

Lemma shape_row_Err t echo outputs e content m :
  shape_row t echo outputs e content = Err m → ∃ col, col ∈ Codegen.inputs t ∧ echo col = Err m.
Proof. unfold shape_row. destruct (mapM _ _) eqn:E; [done|]. intros [= ->]. by apply mapM_Err in E. Qed.

Lemma output_cells_Err columns source m :
  output_cells columns source = Err m →
  ∃ col v text, col ∈ columns ∧ source = Some v ∧ get v (Codegen.property col) = Some (Str text) ∧
    rejected (Codegen.pg_type col) text m.
Proof.
  intros (col & Hc & (text & Hv & Hr)%cell_or_null_Err)%mapM_Err. apply bind_Some in Hv as (v & Hs & Hg).
  by exists col, v, text.
Qed.

(** The one way shaping fails: a text of the arguments or of the outputs is rejected. *)
Lemma shape_Err t arguments reply m :
  shape t arguments reply = Err m →
  ∃ col text, rejected (Codegen.pg_type col) text m ∧
    (col ∈ Codegen.inputs t ∧ get arguments (Codegen.property col) = Some (Str text) ∨
     is_error_result reply = false ∧ col ∈ Codegen.output_columns t ∧
     ∃ source, source ∈ output_sources t reply ∧ get source (Codegen.property col) = Some (Str text)).
Proof.
  unfold shape. set (echo := fun col => cell_or_null (get arguments (Codegen.property col)) col).
  assert (∀ outs e content, shape_row t echo outs e content = Err m →
    ∃ col text, rejected (Codegen.pg_type col) text m ∧
      (col ∈ Codegen.inputs t ∧ get arguments (Codegen.property col) = Some (Str text) ∨
       is_error_result reply = false ∧ col ∈ Codegen.output_columns t ∧
       ∃ source, source ∈ output_sources t reply ∧ get source (Codegen.property col) = Some (Str text))) as Hrow.
  { intros outs e content (col & Hc & (text & Ht & Hr)%cell_or_null_Err)%shape_row_Err. exists col, text. auto. }
  destruct (is_error_result reply) eqn:He.
  { intros Hs. destruct (shape_row _ _ _ _ _) eqn:E; [done|]. injection Hs as ->. by eapply Hrow. }
  unfold output_sources in *. unfold Codegen.output_columns in *.
  destruct (Codegen.output t) as [|property columns|columns] eqn:Ho.
  - intros Hs. destruct (shape_row _ _ _ _ _) eqn:E; [done|]. injection Hs as ->. by eapply Hrow.
  - destruct (default [] _) as [|el els] eqn:Hel.
    + intros Hs. destruct (shape_row _ _ _ _ _) eqn:E; [done|]. injection Hs as ->. by eapply Hrow.
    + intros (x & Hx & Hs)%mapM_Err. destruct (output_cells columns (Some x)) as [cells|e] eqn:Ec.
      * by eapply Hrow.
      * injection Hs as ->. apply output_cells_Err in Ec as (col & v & text & Hc & [= <-] & Hg & Hr).
        exists col, text. eauto 10.
  - intros Hs. destruct (output_cells columns _) as [cells|e] eqn:Ec.
    + cbn in Hs. destruct (shape_row _ _ _ _ _) eqn:E; [done|]. injection Hs as ->. by eapply Hrow.
    + injection Hs as ->. apply output_cells_Err in Ec as (col & v & text & Hc & -> & Hg & Hr).
      exists col, text. split; [done|]. right. split_and!; [done..|]. exists v. split; [by left|done].
Qed.
End rejections.

(** ** Lemmas: what the post-filter checks *)

(** The names after the inputs, and the first place a name has among them. *)
Definition tail_names (t : Codegen.PlannedTool) : list string :=
  (Codegen.sql_name <$> Codegen.output_columns t) ++ ["content"; "is_error"].
Definition first_at (names : list string) (name : string) (i : nat) : Prop :=
  names !! i = Some name ∧ ∀ j, (j < i)%nat → names !! j ≠ Some name.

Lemma first_at_unique names name i j : first_at names name i → first_at names name j → i = j.
Proof.
  intros [Hi Hi'] [Hj Hj']. destruct (Nat.lt_trichotomy i j) as [?|[?|?]]; [|done|].
  - by destruct (Hj' i).
  - by destruct (Hi' j).
Qed.

Lemma first_at_cons x names name i :
  first_at (x :: names) name i ↔
  match i with O => x = name | S i => x ≠ name ∧ first_at names name i end.
Proof.
  unfold first_at. destruct i as [|i]; cbn.
  - split; [by intros [[= ->] _]|]. intros ->. split; [done|]. lia.
  - split.
    + intros [Hi Hj]. split; [intros ->; by destruct (Hj 0%nat); [lia|]|]. split; [done|].
      intros j Hlt. apply (Hj (S j)). lia.
    + intros (Hx & Hi & Hj). split; [done|]. intros [|j] Hlt; [by intros [= ?]|]. apply Hj. lia.
Qed.

Lemma first_at_tail name i :
  first_at ["content"; "is_error"] name i ↔ i = 0%nat ∧ name = "content" ∨ i = 1%nat ∧ name = "is_error".
Proof.
  rewrite first_at_cons. destruct i as [|i]; [naive_solver|]. rewrite first_at_cons. destruct i as [|i]; [naive_solver|].
  split; [|naive_solver]. intros (_ & _ & [[=] _]).
Qed.

Lemma checked_cell_first tool q idx :
  checked_cell tool q = Some idx ↔
  ∃ i, idx = (length (Codegen.inputs (planned tool)) + i)%nat ∧ first_at (tail_names (planned tool)) (field q) i.
Proof.
  unfold checked_cell, tail_names. generalize (length (Codegen.inputs (planned tool))) as w.
  induction (Codegen.output_columns (planned tool)) as [|c outs IH]; intros w; cbn [position fmap list_fmap app length].
  - setoid_rewrite first_at_tail. case_bool_decide as H1; [|case_bool_decide as H2]; split.
    + intros [= <-]. exists 0%nat. auto.
    + intros (i & -> & [[-> _]|[-> H2]]); [done|by rewrite H1 in H2].
    + intros [= <-]. exists 1%nat. split; [lia|auto].
    + intros (i & -> & [[-> ?]|[-> _]]); [done|]. f_equal. lia.
    + done.
    + intros (i & _ & [[_ ?]|[_ ?]]); done.
  - destruct (bool_decide_reflect (Codegen.sql_name c = field q)) as [Hc|Hc]; cbn [fmap option_fmap option_map].
    + split.
      * intros [= <-]. exists 0%nat. by rewrite first_at_cons.
      * intros ([|i] & -> & Hi%first_at_cons); [done|]. by destruct Hi.
    + specialize (IH (S w)). destruct (position _ outs) as [pos|]; cbn [fmap option_fmap option_map] in *.
      1: replace (w + S pos)%nat with (S w + pos)%nat by lia.
      2: replace (w + S (length outs))%nat with (S w + length outs)%nat by lia.
      all: (etransitivity; [exact IH|]); split.
      all: try (intros (i & -> & Hi); exists (S i); rewrite first_at_cons; split; [lia|done]).
      all: intros ([|i] & -> & Hi%first_at_cons); [congruence|]; exists i; split; [lia|apply Hi].
Qed.

(** What a returned row answers of a qual: all of it, unless it is an equality on an
    input, which is an argument. *)
Definition answers (tool : ResolvedTool) (row : Row) (q : Qual) : Prop :=
  (operator q = AnyEqual ∨ field q ∉ Codegen.sql_name <$> Codegen.inputs (planned tool)) →
  ∀ i, first_at (tail_names (planned tool)) (field q) i →
    matches_json q (field q)
      (match mjoin (row !! (length (Codegen.inputs (planned tool)) + i)%nat) with
       | Some x => as_json x | None => Null end) = true.

Lemma consumed_iff tool q :
  consumed tool q = true ↔ ¬ (operator q = AnyEqual ∨ field q ∉ Codegen.sql_name <$> Codegen.inputs (planned tool)).
Proof.
  unfold consumed. rewrite andb_true_iff, bool_decide_eq_true, existsb_exists. split.
  - intros [(c & Hc & Hf%bool_decide_eq_true) He] [Ha|Hn]; [congruence|]. apply Hn. rewrite <- Hf.
    by apply list_elem_of_fmap_2, list_elem_of_In.
  - intros Hn. split; [|destruct (operator q); [done|by destruct Hn; left]].
    destruct (decide (field q ∈ Codegen.sql_name <$> Codegen.inputs (planned tool))) as [Hin|]; [|by destruct Hn; right].
    apply list_elem_of_fmap in Hin as (c & Hc & Hin). exists c.
    split; [by apply list_elem_of_In|by apply bool_decide_true].
Qed.

Lemma qual_holds_iff tool row q : qual_holds tool row q = true ↔ answers tool row q.
Proof.
  unfold qual_holds, answers. destruct (consumed tool q) eqn:Hc.
  { apply consumed_iff in Hc. tauto. }
  assert (operator q = AnyEqual ∨ field q ∉ Codegen.sql_name <$> Codegen.inputs (planned tool)) as Hq.
  { destruct (decide (operator q = AnyEqual)); [by left|]. right. intros Hin.
    apply not_true_iff_false in Hc. apply Hc, consumed_iff. intros [?|?]; done. }
  destruct (checked_cell tool q) as [idx|] eqn:Hi.
  - apply checked_cell_first in Hi as (i & -> & Hf). split.
    + intros Hm _ j Hj. by rewrite (first_at_unique _ _ _ _ Hj Hf).
    + intros Ha. by apply Ha.
  - split; [|done]. intros _ _ i Hf. assert (checked_cell tool q = Some (length (Codegen.inputs (planned tool)) + i)%nat)
      by (apply checked_cell_first; eauto). congruence.
Qed.

(** ** Lemmas: INSERT and the gate *)

Definition with_gate (gate : bool) (c : PerToolContext) : PerToolContext :=
  mkContext (mkTarget (pt_tool (target c)) gate (pt_cache_ttl_ms (target c))) (table_qual c) (pt_server_name c)
    (pt_resolved c) (pt_quals c).

Section gates.
Context `{Serde, Net, Unicode, PgInput, Spi} {profile : Build}.

Definition regate (gate : bool) (t : ResolvedTool) : ResolvedTool := mkTool (with_gate gate (ctx t)) (planned t).

Lemma plan_live_gate gate c items : plan_live (with_gate gate c) items = regate gate <$> plan_live c items.
Proof.
  unfold plan_live. cbn [target with_gate pt_tool]. destruct (find_tool _ items) as [def|]; [|done].
  cbn [ok_or mbind result_bind]. destruct (Codegen.plan _ _ _ _ _) as [p|]; [|done]. cbn [mbind result_bind].
  by destruct (head (Codegen.tools p)).
Qed.

Lemma resolve_tool_gate gate c st :
  resolve_tool (with_gate gate c) st = ((fun r => regate gate <$> r) (resolve_tool c st).1, (resolve_tool c st).2).
Proof.
  unfold resolve_tool. unfold mbind, M_bind. cbn [target with_gate pt_cache_ttl_ms pt_resolved].
  change (key_of_ctx (with_gate gate c)) with (key_of_ctx c).
  destruct (cached _ _ _ _ st) as [[items|e] st1]; [|done].
  change (note_change (with_gate gate c)) with (note_change c).
  destruct (note_change c st1) as [[u|e] st2]; [|done]. unfold m_lift. cbn [fst snd].
  by rewrite plan_live_gate.
Qed.

Lemma insert_gate gate c supplied st : insert (with_gate gate c) supplied st = insert c supplied st.
Proof.
  unfold insert, mbind, M_bind, lift_mcp.
  change (without_quals (with_gate gate c)) with (with_gate gate (without_quals c)). rewrite resolve_tool_gate.
  by destruct (resolve_tool (without_quals c) st) as [[t|e] st1].
Qed.

Lemma insert_unresolved c supplied st e st1 :
  resolve_tool (without_quals c) st = (Err e, st1) → insert c supplied st = (Err (Mcp e), st1).
Proof. intros Ht. unfold insert, mbind, M_bind, lift_mcp. by rewrite Ht. Qed.
End gates.

(** ** Properties *)

(** C26. The shape of the answer, on every reply of the server.  Either it becomes rows
    of the table's width and column types, one row for an error result (its output
    columns NULL, [is_error] true) or for a reply without elements, and one row
    per element otherwise, every row carrying [content] and [is_error]; or a text
    that PostgreSQL's input function for a uuid, date or timestamptz rejects aborts
    it: a text echoed from the arguments or, in a reply that is no error, one of an
    output column. *)
Theorem tool_rows_typed `{Serde, PgInput} (t : Codegen.PlannedTool) (arguments reply : Value) :
  input_ok → value_ok arguments → value_ok reply →
  match shape t arguments reply with
  | Ok rows =>
      length rows = (if is_error_result reply then 1 else Nat.max 1 (element_count t reply))%nat ∧
      Forall (fun row => Forall2 cell_typed (tool_types t) row ∧
                last row = Some (Some (CBool (is_error_result reply))) ∧
                row !! (length (Codegen.table_columns t)) = Some (CJson <$> get reply "content") ∧
                (is_error_result reply = true →
                 take (length (Codegen.output_columns t)) (drop (length (Codegen.inputs t)) row)
                 = replicate (length (Codegen.output_columns t)) None)) rows
  | Err m =>
      ∃ col text, rejected (Codegen.pg_type col) text m ∧
        (col ∈ Codegen.inputs t ∧ get arguments (Codegen.property col) = Some (Str text) ∨
         is_error_result reply = false ∧ col ∈ Codegen.output_columns t ∧
         ∃ source, source ∈ output_sources t reply ∧ get source (Codegen.property col) = Some (Str text))
  end.
Proof.
  intros Hi Ha Hr. destruct (shape t arguments reply) as [rows|m] eqn:E; [by apply (shape_rows t arguments)|].
  by apply shape_Err.
Qed.

(** C36. The arguments of an invoking SELECT, with the tool planned from a live
    list: exactly the inputs bound by an equality qual, in table order, each under
    its own property name; and it fails, with 22023, exactly when some required
    input is unbound, naming the first. *)
Theorem arguments_exact `{Serde, Unicode} {profile : Build} (c : PerToolContext) (items : list Value)
    (tool : ResolvedTool) :
  Forall value_ok items → plan_live c items = Ok tool →
  match arguments_from_quals tool with
  | Ok args =>
      args = Object (given (bound (pt_quals c)) (Codegen.inputs (planned tool))) ∧
      (∀ col, col ∈ Codegen.inputs (planned tool) →
         get args (Codegen.property col) = bound (pt_quals c) col) ∧
      Forall (fun col => Codegen.required col = true → is_Some (bound (pt_quals c) col))
        (Codegen.inputs (planned tool))
  | Err e =>
      sqlstate e = "22023" ∧
      ∃ pre col post, Codegen.inputs (planned tool) = pre ++ col :: post ∧
        Codegen.required col = true ∧ bound (pt_quals c) col = None ∧
        e = required_missing (planned tool) col "as a WHERE equality qual" ∧
        Forall (fun c' => Codegen.required c' = true → is_Some (bound (pt_quals c) c')) pre
  end.
Proof.
  intros Hok (Hctx & Hnd & _)%(plan_live_inputs _ _ _ Hok). unfold arguments_from_quals. rewrite Hctx.
  destruct (collect _ _ [] _) as [args|e] eqn:Hc; cbn [mbind result_bind].
  - apply collect_Ok in Hc as [-> Hall]; [|done]. cbn [app]. split_and!; [done| |done].
    intros col Hcol. by apply obj_get_given.
  - apply collect_Err in Hc as (pre & col & post & H1 & H2 & H3 & -> & H4). split; [done|].
    by exists pre, col, post.
Qed.

(** C14. What an invoking SELECT returns, with a tool whose properties are distinct: the
    gate was open; each input column holds the value its first equality qual bound
    (NULL when unbound); and of the rows of the answer exactly those are returned
    whose cells match every pushed qual on an output column, [content] or
    [is_error].  Quals on the other names are not checked on the rows: an equality
    on an input, of which the first was bound and a second is forgotten; and a set
    on an input that no output shares its name with. *)
Theorem scan_answers_quals `{Serde, Net, Unicode, PgInput, Spi} {profile : Build} (c : PerToolContext)
    (st st' : Sessions Locals) (rows : list Row) :
  begin_scan c st = (Ok (mkToolCursor rows), st') →
  pt_invoke_on_select (target c) = true ∧
  ∃ tool st1 args reply all,
    resolve_tool c st = (Ok tool, st1) ∧ arguments_from_quals tool = Ok args ∧
    call tool args st1 = (Ok reply, st') ∧ shape (planned tool) args reply = Ok all ∧
    rows `sublist_of` all ∧
    (∀ row, row ∈ rows ↔ row ∈ all ∧ ∀ q, q ∈ pt_quals c →
       (operator q = AnyEqual ∨ field q ∉ Codegen.sql_name <$> Codegen.inputs (planned tool)) →
       ∀ i, first_at ((Codegen.sql_name <$> Codegen.output_columns (planned tool)) ++ ["content"; "is_error"]) (field q) i →
         matches_json q (field q)
           (match mjoin (row !! (length (Codegen.inputs (planned tool)) + i)%nat) with
            | Some x => as_json x | None => Null end) = true) ∧
    (NoDup (Codegen.property <$> Codegen.inputs (planned tool)) →
     ∀ row i col, row ∈ rows → Codegen.inputs (planned tool) !! i = Some col →
       ∃ cell, row !! i = Some cell ∧ cell_or_null (bound (pt_quals c) col) col = Ok cell).
Proof.
  intros (Hg & tool & st1 & arguments & reply & all & Ht & Hctx & Ha & Hcall & Hs & ->)%begin_scan_Ok.
  split; [done|]. exists tool, st1, arguments, reply, all. split_and!; [done..|apply sublist_filter| |].
  - intros row. rewrite list_elem_of_filter, (and_comm (post_filter tool row = true)). apply and_iff_compat_l.
    unfold post_filter. rewrite Hctx, forallb_forall. setoid_rewrite <- list_elem_of_In.
    by setoid_rewrite qual_holds_iff.
  - intros Hnd row i col [_ Hrow]%list_elem_of_filter Hi.
    destruct (shape_echo _ _ _ _ _ _ _ Hs Hi Hrow) as (cell & Hcell & He).
    exists cell. split; [done|]. rewrite <- He. f_equal. unfold arguments_from_quals in Ha. rewrite Hctx in Ha.
    apply result_bind_Ok in Ha as (args & Hc & [= <-]). apply collect_Ok in Hc as [-> _]; [|done].
    symmetry. apply obj_get_given; [done|]. by eapply list_elem_of_lookup_2.
Qed.

(** A pushed restriction on a uuid or timestamptz output column empties the
    scan: such cells read as JSON null in the post-filter, which nothing equals,
    so no row is ever returned, whatever the server answered. *)
Theorem opaque_filter_empties `{Serde, Net, Unicode, PgInput, Spi} {profile : Build} (c : PerToolContext)
    (st st' : Sessions Locals) (rows : list Row) (tool : ResolvedTool) (st1 : Sessions Locals)
    (q : Qual) (pos : nat) (col : Codegen.Column) :
  input_ok → begin_scan c st = (Ok (mkToolCursor rows), st') → resolve_tool c st = (Ok tool, st1) →
  (∀ args reply st2, arguments_from_quals tool = Ok args → call tool args st1 = (Ok reply, st2) →
     value_ok args ∧ value_ok reply) →
  q ∈ pt_quals c → consumed tool q = false →
  position (fun c' => bool_decide (Codegen.sql_name c' = field q)) (Codegen.output_columns (planned tool)) = Some pos →
  Codegen.output_columns (planned tool) !! pos = Some col →
  Codegen.pg_type col = Uuid ∨ Codegen.pg_type col = TimestampTz →
  rows = [].
Proof.
  intros Hi Hb Ht Hv Hq Hcons Hpos Hcol Hty.
  apply begin_scan_Ok in Hb as (_ & tool' & st1' & args & reply & all & Ht' & Hctx & Ha & Hc & Hs & ->).
  rewrite Ht in Ht'. injection Ht' as <- <-. destruct (Hv _ _ _ Ha Hc) as [Hva Hvr].
  destruct (shape_rows _ _ _ _ Hi Hva Hvr Hs) as [_ Hall].
  apply filter_all_false. intros row Hrow. apply not_true_iff_false. intros Hpf. rewrite Forall_forall in Hall.
  destruct (Hall row Hrow) as (Htyped & _). unfold post_filter in Hpf. rewrite Hctx, forallb_forall in Hpf.
  apply list_elem_of_In, Hpf in Hq. unfold qual_holds, checked_cell in Hq. rewrite Hcons, Hpos in Hq.
  set (idx := (length (Codegen.inputs (planned tool)) + pos)%nat) in *.
  assert (tool_types (planned tool) !! idx = Some (Codegen.pg_type col)) as Hlk.
  { unfold tool_types, Codegen.table_columns. apply lookup_app_l_Some.
    rewrite list_lookup_fmap, lookup_app_r by (unfold idx; lia).
    by replace (idx - _)%nat with pos by (unfold idx; lia); rewrite Hcol. }
  destruct (Forall2_lookup_l _ _ _ _ _ Htyped Hlk) as (cell & Hcell & Hok). rewrite Hcell in Hq. simpl in Hq.
  assert (match cell with Some x => as_json x | None => Null end = Null) as Hnull.
  { destruct cell as [[]|]; try done; by destruct Hty as [He|He]; rewrite He in Hok. }
  change (mjoin (Some cell)) with cell in Hq. rewrite Hnull in Hq.
  by rewrite matches_null in Hq.
Qed.

(** C37. INSERT is the universal path, on every branch, with a tool whose properties are
    distinct.  The gate has no say in it.  A tool that does not resolve is the
    error; a required input that the row does not supply is 22023, naming the first,
    and nothing more is sent; otherwise one call is made, with exactly the inputs the
    row supplies, each under its property; and its answer becomes exactly one full
    row of the table's types, also for an error result, unless PostgreSQL rejects a
    text of it. *)
Theorem insert_one_row `{Serde, Net, Unicode, PgInput, Spi} {profile : Build} (c : PerToolContext)
    (supplied : list (string * option Value)) (st : Sessions Locals) :
  input_ok →
  (∀ gate, insert (with_gate gate c) supplied st = insert c supplied st) ∧
  match resolve_tool (without_quals c) st with
  | (Err e, st1) => insert c supplied st = (Err (Mcp e), st1)
  | (Ok tool, st1) =>
      let inputs := Codegen.inputs (planned tool) in
      let args := Object (given (supplied_value supplied) inputs) in
      NoDup (Codegen.property <$> inputs) →
      (∃ pre col post, inputs = pre ++ col :: post ∧ Codegen.required col = true ∧
         supplied_value supplied col = None ∧
         Forall (fun c' => Codegen.required c' = true → is_Some (supplied_value supplied c')) pre ∧
         insert c supplied st = (Err (Mcp (required_missing (planned tool) col "on INSERT")), st1)) ∨
      Forall (fun col => get args (Codegen.property col) = supplied_value supplied col ∧
                         (Codegen.required col = true → is_Some (supplied_value supplied col))) inputs ∧
      match call tool args st1 with
      | (Err e, st2) => insert c supplied st = (Err (Mcp e), st2)
      | (Ok reply, st2) =>
          (∃ m, shape (planned tool) args reply = Err m ∧ insert c supplied st = (Err (PgError m), st2)) ∨
          ∃ row, insert c supplied st = (Ok row, st2) ∧
            (value_ok args → value_ok reply →
             Forall2 cell_typed (tool_types (planned tool)) row ∧
             last row = Some (Some (CBool (is_error_result reply))))
      end
  end.
Proof.
  intros Hi. split; [intros gate; apply insert_gate|].
  destruct (resolve_tool (without_quals c) st) as [[tool|e] st1] eqn:Ht; [|by eapply insert_unresolved].
  intros inputs args Hnd. unfold insert, mbind, M_bind, lift_mcp. rewrite Ht. cbn [map_err].
  unfold arguments_from_row. destruct (collect _ _ [] _) as [out|e] eqn:Hc; cbn [mbind result_bind m_lift map_err].
  - right. apply collect_Ok in Hc as [-> Hall]; [|done]. cbn [app]. fold inputs. fold args. split.
    + apply Forall_forall. rewrite Forall_forall in Hall. intros col Hcol. split; [|by apply Hall].
      by apply obj_get_given.
    + unfold m_lift, invoke_and_shape, lift_mcp, mbind, M_bind.
      destruct (call tool args st1) as [[reply|e] st2]; [|done]. cbn [map_err]. unfold m_lift.
      destruct (shape (planned tool) args reply) as [all|m] eqn:Hs; cbn [map_err]; [right|by left; exists m].
      exists (default [] (head all)). split; [done|]. intros Hva Hvr.
      destruct (shape_rows _ _ _ _ Hi Hva Hvr Hs) as [Hlen Hrows].
      destruct all as [|row all]; [simpl in Hlen; destruct (is_error_result reply); lia|].
      apply Forall_cons in Hrows as [(Htyped & Hlast & _) _]. done.
  - left. apply collect_Err in Hc as (pre & col & post & Hsplit & Hreq & Hnone & -> & Hpre). by exists pre, col, post.
Qed.

(** ** Witnesses *)

Module Wit.
Definition schema_of (fmt : list (string * Value)) : Value := Object (("type", Str "string") :: fmt).
Definition lookup_tool : Value :=
  Object [("name", Str "lookup");
    ("inputSchema", Object [("properties", Object [("q", schema_of [])]); ("required", Array [Str "q"])]);
    ("outputSchema", Object [("properties", Object [("name", schema_of []); ("id", schema_of [("format", Str "uuid")])])])].
(** One answer serves both methods. *)
Definition reply : Value :=
  Object [("tools", Array [lookup_tool]); ("content", Array []);
          ("structuredContent", Object [("name", Str "n"); ("id", Str "u")])].
#[local] Instance codec : Serde := {|
  json_from_str s := if bool_decide (s = "{r}") then Some (Object [("result", reply)]) else None;
  json_to_string _ := "{r}" |}.
#[local] Instance ascii_tables : Unicode := {| to_lowercase := to_ascii_lowercase |}.
#[local] Existing Instance debug_build.
#[local] Instance pg : PgInput := {|
  timestamptz_in _ := Ok 0; uuid_in _ := Ok (replicate 16 0); date_in _ := Ok tt |}.
#[local] Instance spi : Spi := {|
  sql_run _ _ := Ok tt; sql_get_one _ _ := Ok None; sql_select _ _ := Ok [] |}.

Lemma pg_ok : input_ok.
Proof.
  split; intros s b [= <-]; [|by unfold i64_min, i64_max]. split; [|done].
  repeat constructor; lia.
Qed.

Definition start : Sessions Locals := mkSessions ∅ (mkWorld [] 0) (mkLocals ∅ [] []).
Definition context (gate : bool) (quals : list Qual) : PerToolContext :=
  mkContext (mkTarget "lookup" gate None) "s.tool_lookup" "local" Session.Wit.resolved quals.
Definition tool (quals : list Qual) : ResolvedTool :=
  match plan_live (context true quals) [lookup_tool] with
  | Ok t => t
  | Err _ => mkTool (context true quals) (Codegen.mkPlanned EmptyString EmptyString EmptyString false false []
                                            Codegen.NoOutput [] None None)
  end.
Definition arguments : Value := Object [("q", Str "x")].
Definition hello : list Qual := [equal "q" (Str "x")].

Lemma reply_ok : value_ok reply.
Proof. repeat split; repeat constructor; set_solver. Qed.
Lemma arguments_ok : value_ok arguments.
Proof. repeat split; repeat constructor; set_solver. Qed.
Lemma lookup_ok : Forall value_ok [lookup_tool].
Proof. constructor; [|constructor]. repeat split; repeat constructor; set_solver. Qed.
End Wit.
#[local] Existing Instance Wit.codec.
#[local] Existing Instance Wit.ascii_tables.
#[local] Existing Instance debug_build.
#[local] Existing Instance Wit.pg.
#[local] Existing Instance Wit.spi.
#[local] Existing Instance Session.Wit.steady.

(** A scan: one row, the input echoed, the outputs typed. *)
Example scan_run :
  (begin_scan (Wit.context true Wit.hello) Wit.start).1 =
  Ok (mkToolCursor [[Some (CText "x"); Some (CText "n"); Some (CUuid (replicate 16 0)); Some (CJson (Array []));
       Some (CBool false)]]).
Proof. by vm_compute. Qed.

(** A second equality qual on an input is neither bound nor checked. *)
Example second_equality_ignored :
  (begin_scan (Wit.context true (Wit.hello ++ [equal "q" (Str "other")])) Wit.start).1 =
  (begin_scan (Wit.context true Wit.hello) Wit.start).1.
Proof. by vm_compute. Qed.

(** The closed gate, and a missing required argument, as errors. *)
Example closed_gate_silent :
  begin_scan (Wit.context false Wit.hello) Wit.start =
  (Err (Mcp (gated (Wit.context false Wit.hello))), Wit.start).
Proof. by vm_compute. Qed.

Lemma tool_rows_typed_witness :
  ∃ rows, shape (planned (Wit.tool Wit.hello)) Wit.arguments Wit.reply = Ok rows ∧ length rows = 1%nat ∧
    Forall (fun row => Forall2 cell_typed (tool_types (planned (Wit.tool Wit.hello))) row) rows.
Proof.
  pose proof (tool_rows_typed (planned (Wit.tool Wit.hello)) Wit.arguments Wit.reply
                Wit.pg_ok Wit.arguments_ok Wit.reply_ok) as Ht.
  destruct (shape (planned (Wit.tool Wit.hello)) Wit.arguments Wit.reply) as [rows|] eqn:E;
    [|by vm_compute in E].
  destruct Ht as [Hl Hall]. exists rows. split; [done|]. split; [rewrite Hl; by vm_compute|].
  eapply Forall_impl; [exact Hall|]. intros row Hrow. apply Hrow.
Defined.

(** A uuid that PostgreSQL rejects, in an answer that is no error. *)
Example rejected_uuid_aborts :
  let _ : PgInput := {| timestamptz_in _ := Ok 0; uuid_in _ := Err "invalid input syntax for type uuid"; date_in _ := Ok tt |} in
  shape (planned (Wit.tool Wit.hello)) Wit.arguments Wit.reply = Err "invalid input syntax for type uuid".
Proof. by vm_compute. Qed.

Lemma arguments_exact_witness :
  plan_live (Wit.context true []) [Wit.lookup_tool] = Ok (Wit.tool []) ∧
  ∃ e, arguments_from_quals (Wit.tool []) = Err e ∧ sqlstate e = "22023".
Proof.
  assert (plan_live (Wit.context true []) [Wit.lookup_tool] = Ok (Wit.tool [])) as Hp by (by vm_compute).
  split; [exact Hp|].
  pose proof (arguments_exact (Wit.context true []) [Wit.lookup_tool] (Wit.tool []) Wit.lookup_ok Hp) as Ha.
  destruct (arguments_from_quals (Wit.tool [])) as [args|e] eqn:E; [by vm_compute in E|].
  exists e. split; [done|]. exact (proj1 Ha).
Defined.

Lemma scan_answers_quals_witness :
  ∃ rows st', begin_scan (Wit.context true Wit.hello) Wit.start = (Ok (mkToolCursor rows), st') ∧
    pt_invoke_on_select (target (Wit.context true Wit.hello)) = true.
Proof.
  destruct (begin_scan (Wit.context true Wit.hello) Wit.start) as [r st'] eqn:E.
  destruct r as [[rows]|e]; [|apply (f_equal fst) in E; by vm_compute in E].
  exists rows, st'. split; [done|].
  exact (proj1 (scan_answers_quals (Wit.context true Wit.hello) Wit.start st' rows E)).
Defined.

Lemma insert_one_row_witness :
  ∃ row st', insert (Wit.context false []) [("q", Some (Str "x"))] Wit.start = (Ok row, st') ∧
    insert (Wit.context true []) [("q", Some (Str "x"))] Wit.start = (Ok row, st').
Proof.
  destruct (insert (Wit.context false []) [("q", Some (Str "x"))] Wit.start) as [r st'] eqn:E.
  destruct r as [row|e]; [|apply (f_equal fst) in E; by vm_compute in E].
  exists row, st'. split; [done|]. rewrite <- E.
  exact (proj1 (insert_one_row (Wit.context false []) [("q", Some (Str "x"))] Wit.start Wit.pg_ok) true).
Defined.

(** A set on an input column is pushed, neither bound nor checked: with [mode]
    optional, no row is dropped, whatever the set. *)
Definition optional_input : Codegen.PlannedTool :=
  Codegen.mkPlanned "t" "t" "s" true true [Codegen.mkCol "mode" "mode" Text false None] Codegen.NoOutput [] None None.
Example set_on_input_ignored :
  let tool := mkTool (Wit.context true [mkQual "mode" AnyEqual (Array [Str "fast"]) true]) optional_input in
  arguments_from_quals tool = Ok (Object []) ∧
  post_filter tool [None; Some (CJson (Array [])); Some (CBool false)] = true.
Proof. by vm_compute. Qed.

Definition uuid_qual : list Qual := Wit.hello ++ [equal "id" (Str "u")].

Lemma opaque_filter_empties_witness :
  ∃ rows st', begin_scan (Wit.context true uuid_qual) Wit.start = (Ok (mkToolCursor rows), st') ∧ rows = [].
Proof.
  destruct (begin_scan (Wit.context true uuid_qual) Wit.start) as [r st'] eqn:E.
  destruct r as [[rows]|e]; [|apply (f_equal fst) in E; by vm_compute in E].
  destruct (resolve_tool (Wit.context true uuid_qual) Wit.start) as [rt st1] eqn:Et.
  assert (rt = Ok (Wit.tool uuid_qual)) as ->.
  { apply (f_equal fst) in Et. cbn [fst] in Et. rewrite <- Et. by vm_compute. }
  assert (arguments_from_quals (Wit.tool uuid_qual) = Ok Wit.arguments) as Ha by (by vm_compute).
  assert ((call (Wit.tool uuid_qual) Wit.arguments st1).1 = Ok Wit.reply) as Hc.
  { apply (f_equal snd) in Et. cbn [snd] in Et. rewrite <- Et. by vm_compute. }
  exists rows, st'. split; [done|].
  apply (opaque_filter_empties (Wit.context true uuid_qual) Wit.start st' rows (Wit.tool uuid_qual) st1
           (equal "id" (Str "u")) 1 (Codegen.mkCol "id" "id" Uuid false None) Wit.pg_ok E Et).
  - intros args reply st2 Ha' Hc'. rewrite Ha in Ha'. injection Ha' as <-. rewrite Hc' in Hc.
    cbn [fst] in Hc. injection Hc as ->. split; [apply Wit.arguments_ok|apply Wit.reply_ok].
  - right. left.
  - by vm_compute.
  - by vm_compute.
  - by vm_compute.
  - by left.
Defined.

End PerTool.
