(* ===== verification/Datum.v ===== *)
(** * fdw.rs: the datum boundary

    Cells to datums and back: what fills a scan slot, what reads an inserted
    row, and what a constant or a parameter of a plan becomes as JSON.
    PostgreSQL's input and output functions are the operations of [PgDatum];
    their documented behaviour is [datum_ok]. *)

From Stdlib Require Import Ascii String ZArith Lia.
From Stdlib Require Import SpecFloat.
From stdpp Require Import base numbers gmap sets strings pretty list.
From S2P Require Import Prelude Str Json Errors Quals Tables ToolCalls.
Import Quals Tables.
#[local] Open Scope Z_scope.

(** A datum and the C functions over it.  An input function may reject its text
    with an error of its own; an output function is total on a non-NULL datum. *)
Class PgDatum := {
  Datum : Type;
  cstring_to_text : string → Datum;
  jsonb_in : string → result string Datum;
  byteain : string → result string Datum;
  date_from : string → result string Datum;
  bool_datum : bool → Datum;
  i32_datum : Z → Datum;
  i64_datum : Z → Datum;
  f64_datum : spec_float → Datum;
  uuid_datum : list Z → Datum;
  text_to_cstring : Datum → string;
  jsonb_out : Datum → string;
  byteaout : Datum → string;
  date_out : Datum → string;
  uuid_out : Datum → string;
  timestamptz_out : Datum → string;
  datum_bool : Datum → bool;
  datum_i32 : Datum → Z;
  datum_i64 : Datum → Z;
  datum_f64 : Datum → spec_float;
  datum_uuid : Datum → list Z;
}.

(** The attributes of a tuple, NULL as [None]. *)
Abbreviation Slot := (list (option Datum)).

Module Datums.

Definition VARCHAROID : Z := 1043.
Definition BPCHAROID : Z := 1042.

Definition is_text_oid (t : Z) : bool := (t =? oid Text) || (t =? VARCHAROID) || (t =? BPCHAROID).

(** ** timestamptz_out as RFC 3339 *)

Definition byte_at (s : string) (i : nat) (c : ascii) : bool :=
  bool_decide (String.get i s = Some c).
Definition is_sign (c : ascii) : bool := bool_decide (c = "+"%char) || bool_decide (c = "-"%char).

(** The byte offset of the first sign. *)
Fixpoint find_sign (s : string) : option nat :=
  match s with
  | EmptyString => None
  | String c rest => if is_sign c then Some 0%nat else S <$> find_sign rest
  end.

Definition normalized_offset (o : string) : string :=
  if is_empty o then EmptyString
  else if bool_decide (o = "+00") then "Z"
  else if Nat.eqb (String.length o) 3 then o +:+ ":00"
  else o.

Definition is_iso (raw : string) : bool :=
  Nat.leb 19 (String.length raw) && byte_at raw 4 "-" && byte_at raw 7 "-" && byte_at raw 10 " "
  && byte_at raw 13 ":" && byte_at raw 16 ":".

Definition pg_timestamptz_to_json (raw : string) : string :=
  if negb (is_iso raw) then raw
  else
    let time := str_drop 11 raw in
    let '(time_core, offset) := match find_sign (str_drop 8 time) with
                                | Some i => (str_take (8 + i) time, str_drop (8 + i) time)
                                | None => (time, EmptyString)
                                end in
    str_take 10 raw +:+ "T" +:+ time_core +:+ normalized_offset offset.

(** ** bytea as hex *)

Definition hex_value (b : Z) : option Z :=
  if is_ascii_digit b then Some (b - 48)
  else if in_range 97 102 b then Some (b - 87)
  else if in_range 65 70 b then Some (b - 55)
  else None.

(** [u8::from_str_radix(two bytes, 16)]: a leading plus sign is accepted. *)
Definition parse_hex2 (a b : Z) : option Z :=
  if a =? 43 then hex_value b else x ← hex_value a; y ← hex_value b; Some (16 * x + y).

Fixpoint hex_pairs (l : list Z) : list Z :=
  match l with
  | a :: b :: rest => match parse_hex2 a b with
                      | Some v => v :: hex_pairs rest
                      | None => hex_pairs rest
                      end
  | _ => []
  end.

Definition hex_decode_bytea_out (raw : string) : list Z :=
  hex_pairs (bytes (default raw (strip_prefix "\x" raw))).

Definition bytea_hex (b : list Z) : string := "\x" +:+ concat (hex2 <$> b).

(** ** Conversions *)

Section datums.
Context `{Serde, PgDatum}.

(** [CString::new(s).unwrap_or_else(..)] *)
Definition c_string (s fallback : string) : string := if bool_decide (0 ∈ bytes s) then fallback else s.

Definition cell_to_datum (cell : Cell) : result string Datum :=
  match cell with
  | CText s => Ok (cstring_to_text (c_string (ToolCalls.strip_nul s) EmptyString))
  | CJson v => jsonb_in (c_string (json_to_string v) "null")
  | CBool b => Ok (bool_datum b)
  | CInt4 i => Ok (i32_datum i)
  | CInt8 i => Ok (i64_datum i)
  | CBytea b => byteain (c_string (bytea_hex b) "\x")
  | CUuid b => Ok (uuid_datum b)
  | CTimestampTz micros => Ok (i64_datum micros)
  | CFloat8 f => Ok (f64_datum f)
  | CDate d => date_from (c_string d "1970-01-01")
  end.

(** The first [natts] cells of a row; an attribute past its end is NULL. *)
Fixpoint fill_slot (natts : nat) (row : Row) : result string Slot :=
  match natts with
  | O => Ok []
  | S n =>
      d ← match mjoin (head row) with
          | None => Ok None
          | Some cell => d ← cell_to_datum cell; Ok (Some d)
          end;
      rest ← fill_slot n (tail row);
      Ok (d :: rest)
  end.

Definition read_cell (col : ColumnSpec) (d : Datum) : McpResult Cell :=
  match c_type col with
  | Text => Ok (CText (text_to_cstring d))
  | Jsonb => match json_from_str (jsonb_out d) with
             | Some v => Ok (CJson v)
             | None => Err (Internal ("column " +:+ quoted (c_name col) +:+ " holds malformed jsonb"))
             end
  | Boolean => Ok (CBool (datum_bool d))
  | Int4 => Ok (CInt4 (datum_i32 d))
  | Int8 => Ok (CInt8 (datum_i64 d))
  | Uuid => Ok (CUuid (datum_uuid d))
  | TimestampTz => Ok (CTimestampTz (datum_i64 d))
  | Bytea => Ok (CBytea (hex_decode_bytea_out (byteaout d)))
  | Float8 => Ok (CFloat8 (datum_f64 d))
  | Date => Ok (CDate (date_out d))
  end.

(** [slot_getattr] past the last attribute gives NULL. *)
Fixpoint read_columns (columns : list ColumnSpec) (slot : Slot) : McpResult Row :=
  match columns with
  | [] => Ok []
  | col :: rest =>
      cell ← match mjoin (head slot) with
             | None => Ok None
             | Some d => cell ← read_cell col d; Ok (Some cell)
             end;
      cells ← read_columns rest (tail slot);
      Ok (cell :: cells)
  end.

Definition read_slot (slot : Slot) (spec : TableSpec) : McpResult Row := read_columns (t_columns spec) slot.

(** A constant's or a parameter's value by its type OID; [None] for a type no
    qual carries. *)
Definition datum_to_json (type_oid : Z) (d : Datum) : option Value :=
  if is_text_oid type_oid then Some (Str (text_to_cstring d))
  else if type_oid =? oid Jsonb then json_from_str (jsonb_out d)
  else if type_oid =? oid Boolean then Some (Bool (datum_bool d))
  else if type_oid =? oid Int4 then Some (num_of_Z (datum_i32 d))
  else if type_oid =? oid Int8 then Some (num_of_Z (datum_i64 d))
  else if type_oid =? oid Float8 then Num <$> num_from_f64 (datum_f64 d)
  else if type_oid =? oid Uuid then Some (Str (uuid_out d))
  else if type_oid =? oid Date then Some (Str (date_out d))
  else if type_oid =? oid TimestampTz then Some (Str (pg_timestamptz_to_json (timestamptz_out d)))
  else None.

(** One attribute of a per-tool insert. *)
Definition attribute_json (name : string) (type_oid : Z) (d : Datum) : McpResult Value :=
  if is_text_oid type_oid then Ok (Str (text_to_cstring d))
  else if type_oid =? oid Jsonb then
    ok_or (Internal ("column " +:+ quoted name +:+ " holds malformed jsonb")) (json_from_str (jsonb_out d))
  else if type_oid =? oid Boolean then Ok (Bool (datum_bool d))
  else if type_oid =? oid Int4 then Ok (num_of_Z (datum_i32 d))
  else if type_oid =? oid Int8 then Ok (num_of_Z (datum_i64 d))
  else if type_oid =? oid Float8 then Ok (default Null (Num <$> num_from_f64 (datum_f64 d)))
  else if type_oid =? oid Uuid then Ok (Str (uuid_out d))
  else if type_oid =? oid Date then Ok (Str (date_out d))
  else if type_oid =? oid TimestampTz then Ok (Str (pg_timestamptz_to_json (timestamptz_out d)))
  else if type_oid =? oid Bytea then Ok (Str (byteaout d))
  else Err (Internal ("column " +:+ quoted name +:+ " has a type the per-tool insert path does not carry")).

(** The slot of a per-tool insert, by the relation's attributes (name, type). *)
Fixpoint read_slot_json (attributes : list (string * Z)) (slot : Slot) :
    McpResult (list (string * option Value)) :=
  match attributes with
  | [] => Ok []
  | (name, ty) :: rest =>
      v ← match mjoin (head slot) with
          | None => Ok None
          | Some d => v ← attribute_json name ty d; Ok (Some v)
          end;
      more ← read_slot_json rest (tail slot);
      Ok ((name, v) :: more)
  end.

(** ** What the functions are documented to do *)

Record datum_ok : Prop := {
  text_law s : 0 ∉ bytes s → text_to_cstring (cstring_to_text s) = s;
  bool_law b : datum_bool (bool_datum b) = b;
  i32_law i : i32_min <= i <= i32_max → datum_i32 (i32_datum i) = i;
  i64_law i : i64_min <= i <= i64_max → datum_i64 (i64_datum i) = i;
  f64_law f : datum_f64 (f64_datum f) = f;
  uuid_law b : length b = 16%nat → datum_uuid (uuid_datum b) = b;
  bytea_law b d : Forall (fun x => 0 <= x < 256) b → byteain (bytea_hex b) = Ok d → byteaout d = bytea_hex b;
}.
End datums.

(** ** Lemmas *)

Lemma hex_value_digit n : 0 <= n < 16 → hex_value (hex_digit n) = Some n.
Proof.
  intros Hn. unfold hex_value, hex_digit, is_ascii_digit, in_range.
  repeat case_match; bool_prop; f_equal; lia.
Qed.

Lemma hex_digit_range n : 0 <= n < 16 → 48 <= hex_digit n < 128.
Proof. intros Hn. unfold hex_digit. case_match; bool_prop; lia. Qed.

Lemma parse_hex2_hex2 x : 0 <= x < 256 → parse_hex2 (hex_digit (x / 16)) (hex_digit (x mod 16)) = Some x.
Proof.
  intros Hx. assert (0 <= x / 16 < 16) by (split; [apply Z.div_pos|apply Z.div_lt_upper_bound]; lia).
  pose proof (Z.mod_pos_bound x 16 ltac:(lia)). pose proof (hex_digit_range (x / 16) ltac:(lia)).
  unfold parse_hex2. rewrite (proj2 (Z.eqb_neq _ _)) by lia. rewrite !hex_value_digit by lia. simpl.
  f_equal. pose proof (Z.div_mod x 16). lia.
Qed.

Lemma bytes_hex2 x : 0 <= x < 256 → bytes (hex2 x) = [hex_digit (x / 16); hex_digit (x mod 16)].
Proof.
  intros Hx. unfold hex2. rewrite bytes_of_bytes; [done|].
  assert (0 <= x / 16 < 16) by (split; [apply Z.div_pos|apply Z.div_lt_upper_bound]; lia).
  pose proof (Z.mod_pos_bound x 16 ltac:(lia)).
  pose proof (hex_digit_range (x / 16) ltac:(lia)). pose proof (hex_digit_range (x mod 16) ltac:(lia)).
  repeat constructor; lia.
Qed.

Lemma bytes_concat_hex b :
  Forall (fun x => 0 <= x < 256) b →
  bytes (concat (hex2 <$> b)) = mjoin ((fun x => [hex_digit (x / 16); hex_digit (x mod 16)]) <$> b).
Proof.
  induction 1 as [|x b Hx _ IH]; [done|]. cbn [fmap list_fmap concat foldr].
  fold (concat (hex2 <$> b)). rewrite bytes_app, bytes_hex2, IH by done. done.
Qed.

(** The decoder inverts the hex form, whatever the bytes. *)
Lemma hex_round_trip b : Forall (fun x => 0 <= x < 256) b → hex_decode_bytea_out (bytea_hex b) = b.
Proof.
  intros Hb. unfold hex_decode_bytea_out, bytea_hex.
  replace (strip_prefix "\x" ("\x" +:+ concat (hex2 <$> b))) with (Some (concat (hex2 <$> b)))
    by (symmetry; by apply strip_prefix_Some).
  simpl. rewrite bytes_concat_hex by done.
  induction Hb as [|x b Hx _ IH]; [done|]. 
  change (hex_pairs ([hex_digit (x / 16); hex_digit (x mod 16)]
    ++ mjoin ((fun x => [hex_digit (x / 16); hex_digit (x mod 16)]) <$> b)) = x :: b).
  cbn [app hex_pairs]. by rewrite parse_hex2_hex2, IH.
Qed.

Lemma bytea_hex_no_nul b : Forall (fun x => 0 <= x < 256) b → 0 ∉ bytes (bytea_hex b).
Proof.
  intros Hb. unfold bytea_hex. rewrite bytes_app, bytes_concat_hex by done.
  rewrite elem_of_app. intros [H|H]; [change (bytes "\x") with [92; 120] in H; set_solver|].
  apply list_elem_of_join in H as (l & Hl & (x & -> & Hx)%list_elem_of_fmap).
  rewrite Forall_forall in Hb. specialize (Hb x Hx).
  assert (0 <= x / 16 < 16) by (split; [apply Z.div_pos|apply Z.div_lt_upper_bound]; lia).
  pose proof (Z.mod_pos_bound x 16 ltac:(lia)).
  pose proof (hex_digit_range (x / 16) ltac:(lia)). pose proof (hex_digit_range (x mod 16) ltac:(lia)).
  rewrite !elem_of_cons, elem_of_nil in Hl. lia.
Qed.

Section laws.
Context `{Serde, PgDatum}.

(** What a cell must satisfy to survive the slot: text, JSON text and dates
    without NUL, and a codec that gives the JSON value and the date back. *)
Definition survives (c : Cell) : Prop :=
  match c with
  | CText s => 0 ∉ bytes s
  | CJson v => (0 ∉ bytes (json_to_string v)) ∧
               (∀ d, jsonb_in (json_to_string v) = Ok d → json_from_str (jsonb_out d) = Some v)
  | CDate s => (0 ∉ bytes s) ∧ (∀ d, date_from s = Ok d → date_out d = s)
  | _ => True
  end.

Lemma c_string_id s fallback : 0 ∉ bytes s → c_string s fallback = s.
Proof. intros Hs. unfold c_string. by rewrite bool_decide_false. Qed.

Lemma strip_nul_id s : 0 ∉ bytes s → ToolCalls.strip_nul s = s.
Proof. intros Hs. unfold ToolCalls.strip_nul. by apply replace_none. Qed.

Lemma read_cell_to_datum col c d :
  datum_ok → cell_ok (c_type col) c → survives c → cell_to_datum c = Ok d → read_cell col d = Ok c.
Proof.
  intros [Ht Hb H32 H64 Hf Hu Hby] Hc Hs Hd. unfold read_cell.
  destruct (c_type col), c; cbn [cell_ok survives cell_to_datum] in *; try done; simplify_eq/=.
  - by rewrite strip_nul_id, c_string_id, Ht.
  - destruct Hs as [Hn Hs]. rewrite c_string_id in Hd by done. by rewrite (Hs _ Hd).
  - by rewrite Hb.
  - by rewrite H32.
  - by rewrite H64.
  - rewrite c_string_id in Hd by by apply bytea_hex_no_nul.
    rewrite (Hby _ _ Hc Hd). by rewrite hex_round_trip.
  - destruct Hc. by rewrite Hu.
  - by rewrite H64.
  - by rewrite Hf.
  - destruct Hs as [Hn Hs]. rewrite c_string_id in Hd by done. by rewrite (Hs _ Hd).
Qed.

Lemma fill_slot_length natts row slot : fill_slot natts row = Ok slot → length slot = natts.
Proof.
  revert row slot. induction natts as [|n IH]; intros row slot; cbn [fill_slot]; [by intros [= <-]|].
  intros (d & Hd & (rest & Hr & [= <-])%result_bind_Ok)%result_bind_Ok. simpl. f_equal. by eapply IH.
Qed.

Lemma read_columns_fill columns row slot :
  datum_ok → Forall2 (fun c o => match o with Some x => cell_ok (c_type c) x | None => True end) columns row →
  Forall (fun o => from_option survives True o) row →
  fill_slot (length columns) row = Ok slot → read_columns columns slot = Ok row.
Proof.
  intros Hok Hrow. revert slot. induction Hrow as [|col o columns row Ho Hrow IH]; intros slot Hs; [by intros [= <-]|].
  apply Forall_cons in Hs as [Hso Hs]. cbn [length fill_slot head tail].
  intros (d & Hd & (rest & Hr & [= <-])%result_bind_Ok)%result_bind_Ok.
  cbn [read_columns head tail]. rewrite (IH rest Hs Hr).
  destruct o as [c|]; simpl in *; [|by simplify_eq].
  apply result_bind_Ok in Hd as (d' & Hd & [= <-]). simpl.
  by rewrite (read_cell_to_datum col c d' Hok Ho Hso Hd).
Qed.
End laws.

(** C38. A row survives the slot: a well-typed row whose cells survive, stored as
    datums by the scan and read back by the insert path, is the same row, and
    the slot has one attribute per column; bytea goes through its hex text. *)
Theorem slot_round_trip `{Serde, PgDatum} (spec : TableSpec) (row : Row) (slot : Slot) :
  datum_ok → row_ok spec row → Forall (fun o => from_option survives True o) row →
  fill_slot (arity spec) row = Ok slot →
  length slot = arity spec ∧ read_slot slot spec = Ok row.
Proof.
  intros Hok Hrow Hs Hf. split; [by eapply fill_slot_length|]. by apply read_columns_fill.
Qed.

(** ** timestamptz *)

Lemma get_app_lt s t i : (i < String.length s)%nat → String.get i (s +:+ t) = String.get i s.
Proof.
  revert i. induction s as [|c s IH]; intros i Hi; simpl in *; [lia|].
  destruct i; [done|]. apply IH. lia.
Qed.

Lemma str_take_app_length s t : str_take (String.length s) (s +:+ t) = s.
Proof. induction s; simpl; [by destruct t|]. by rewrite IHs. Qed.
Lemma str_drop_app_length s t : str_drop (String.length s) (s +:+ t) = t.
Proof. induction s; simpl; [by destruct t|]. done. Qed.

Lemma find_sign_app f c rest :
  find_sign f = None → is_sign c = true → find_sign (f +:+ String c rest) = Some (String.length f).
Proof.
  induction f as [|x f IH]; simpl; intros Hf Hc; [by rewrite Hc|].
  destruct (is_sign x); [done|]. apply fmap_None in Hf. by rewrite IH.
Qed.

Lemma app_length_string s t : String.length (s +:+ t) = (String.length s + String.length t)%nat.
Proof. induction s; simpl; auto. Qed.

(** An ISO timestamptz text becomes an RFC 3339 one: the date, a T, the clock
    time with its fraction untouched, and the zone, UTC as Z and an hours-only
    offset completed with its minutes. *)
Theorem timestamptz_rfc3339 (date clock fraction zone : string) (sign : ascii) :
  String.length date = 10%nat → byte_at date 4 "-" = true → byte_at date 7 "-" = true →
  String.length clock = 8%nat → byte_at clock 2 ":" = true → byte_at clock 5 ":" = true →
  find_sign fraction = None → is_sign sign = true →
  pg_timestamptz_to_json (date +:+ " " +:+ clock +:+ fraction +:+ String sign zone) =
  date +:+ "T" +:+ clock +:+ fraction
  +:+ (if bool_decide (String sign zone = "+00") then "Z"
       else if Nat.eqb (String.length zone) 2 then String sign zone +:+ ":00"
       else String sign zone).
Proof.
  intros Hd H4 H7 Hc H2 H5 Hf Hs. unfold byte_at in *. bool_prop.
  do 10 (destruct date as [|? date]; [done|]); destruct date; [|done].
  do 8 (destruct clock as [|? clock]; [done|]); destruct clock; [|done].
  cbn in H4, H7, H2, H5. simplify_eq.
  remember (fraction +:+ String sign zone) as rest eqn:Hrest.
  match goal with |- _ = _ +:+ "T" +:+ _ +:+ ?r => remember r as res eqn:Hres end.
  cbv [String.append]. unfold pg_timestamptz_to_json.
  match goal with |- context [is_iso ?r] => replace (is_iso r) with true by reflexivity end.
  cbn [negb]. cbv zeta. cbv [str_drop]. fold str_drop.
  rewrite Hrest at 1. rewrite (find_sign_app fraction sign zone Hf Hs).
  cbv [Nat.add]. cbn [str_take str_drop]. subst.
  rewrite str_take_app_length, str_drop_app_length.
  cbv [String.append]. fold String.append. do 19 f_equal.
Qed.

(** BC dates are printed with the zone before the era, which the zone part keeps:
    the text is no longer PostgreSQL's and not RFC 3339 either. *)
Example timestamptz_bc :
  pg_timestamptz_to_json "0044-03-15 10:00:00+00 BC" = "0044-03-15T10:00:00+00 BC" ∧
  pg_timestamptz_to_json "10000-01-01 00:00:00+00" = "10000-01-01 00:00:00+00" ∧
  pg_timestamptz_to_json "2026-09-05 10:00:00.25-07" = "2026-09-05T10:00:00.25-07:00".
Proof. done. Qed.

Example hex_decode_skips :
  hex_decode_bytea_out "\x41zz42" = [65; 66] ∧ hex_decode_bytea_out "\x+f" = [15].
Proof. done. Qed.

(** ** Witnesses *)

Module Wit.
(** Datums as tagged values; jsonb and dates kept as their text. *)
Inductive D : Type :=
  | DText (s : string) | DJson (s : string) | DBytea (s : string) | DDate (s : string)
  | DBool (b : bool) | DI32 (i : Z) | DI64 (i : Z) | DF64 (f : spec_float) | DUuid (b : list Z).
Definition text (d : D) : string :=
  match d with DText s | DJson s | DBytea s | DDate s => s | _ => EmptyString end.
Definition number (d : D) : Z := match d with DI32 i | DI64 i => i | _ => 0 end.
#[local] Instance pg : PgDatum := {|
  Datum := D;
  cstring_to_text := DText;
  jsonb_in s := Ok (DJson s);
  byteain s := Ok (DBytea s);
  date_from s := Ok (DDate s);
  bool_datum := DBool; i32_datum := DI32; i64_datum := DI64; f64_datum := DF64; uuid_datum := DUuid;
  text_to_cstring := text; jsonb_out := text; byteaout := text; date_out := text;
  uuid_out d := match d with DUuid b => ToolCalls.uuid_hex b | _ => EmptyString end;
  timestamptz_out d := EmptyString;
  datum_bool d := match d with DBool b => b | _ => false end;
  datum_i32 := number; datum_i64 := number;
  datum_f64 d := match d with DF64 f => f | _ => S754_nan end;
  datum_uuid d := match d with DUuid b => b | _ => [] end |}.
Lemma datum_pg_ok : datum_ok.
Proof. constructor; try done. intros b d _ [= <-]. done. Qed.
(** A codec that knows one text. *)
#[local] Instance codec : Serde := {|
  json_from_str s := if bool_decide (s = "{}") then Some (Object []) else None;
  json_to_string _ := "{}" |}.
Definition row : Row :=
  [Some (CUuid (replicate 16 7)); Some (CText "echo"); Some (CJson (Object [])); None; None;
   Some (CBool false); None; Some (CTimestampTz 5); Some (CInt4 12)].
Definition bytes_row : Row := [Some (CBytea [0; 255])].
Definition bytes_spec : TableSpec := mkTable "b" [mkColumn "blob" Bytea Local_].
End Wit.

Lemma slot_round_trip_witness :
  let _ := Wit.pg in let _ := Wit.codec in
  (∃ slot, fill_slot (arity TOOL_CALLS_SPEC) Wit.row = Ok slot ∧
     read_slot slot TOOL_CALLS_SPEC = Ok Wit.row) ∧
  (∃ slot, fill_slot (arity Wit.bytes_spec) Wit.bytes_row = Ok slot ∧
     read_slot slot Wit.bytes_spec = Ok Wit.bytes_row).
Proof.
  cbv zeta. split; (eexists; split; [reflexivity|]).
  - refine (proj2 (@slot_round_trip Wit.codec Wit.pg TOOL_CALLS_SPEC Wit.row _ Wit.datum_pg_ok _ _ eq_refl)).
    + repeat constructor; by vm_compute.
    + repeat constructor; cbn; first [set_solver | by intros d [= <-]].
  - refine (proj2 (@slot_round_trip Wit.codec Wit.pg Wit.bytes_spec Wit.bytes_row _ Wit.datum_pg_ok _ _ eq_refl)).
    + repeat constructor; by vm_compute.
    + repeat constructor.
Defined.

Lemma timestamptz_rfc3339_witness :
  pg_timestamptz_to_json "2026-09-05 10:00:00.25+00" = "2026-09-05T10:00:00.25Z".
Proof.
  apply (timestamptz_rfc3339 "2026-09-05" "10:00:00" ".25" "00" "+"); reflexivity.
Defined.
End Datums.
