(* ===== verification/Pushdown.v ===== *)
(** * fdw.rs: what is pushed down

    The resolution of a foreign table to its handler, the recognition of
    pushable clauses over the planner's expression nodes, the split of a scan's
    clauses into pushed quals, parameter quals and local clauses, and the
    resolution of the parameters when the executor starts.  [get_opcode] is the
    catalog lookup of an operator's function; evaluation of an expression is
    PostgreSQL's and is specified, not modelled, in the second half. *)

From Stdlib Require Import Ascii String ZArith Lia.
From Stdlib Require Import SpecFloat.
From stdpp Require Import base numbers gmap sets strings pretty list.
From S2P Require Import Prelude Str Json Errors Options Quals Tables Client Session Cache Catalog.
From S2P Require Import Ddl PerTool Datum.
Import Quals Tables Datums.
#[local] Set Warnings "-register-all".
#[local] Open Scope Z_scope.

Class PgOperators := { get_opcode : Z → Z }.

Module Pushdown.

Inductive ParamKind : Type := PARAM_EXTERN | PARAM_EXEC | PARAM_SUBLINK | PARAM_MULTIEXPR.
Inductive BoolExprType : Type := AND_EXPR | OR_EXPR | NOT_EXPR.
Inductive BoolTestType : Type :=
  | IS_TRUE | IS_NOT_TRUE | IS_FALSE | IS_NOT_FALSE | IS_UNKNOWN | IS_NOT_UNKNOWN.
Inductive NullTestType : Type := IS_NULL | IS_NOT_NULL.

(** The functions behind [=] the extension recognizes, by their fixed OIDs. *)
Definition F_TEXTEQ : Z := 67.
Definition F_BOOLEQ : Z := 60.
Definition EQUALITY_OPCODES : list Z :=
  [F_TEXTEQ; 65 (* INT4EQ *); 467 (* INT8EQ *); F_BOOLEQ; 1948 (* BYTEAEQ *); 4038 (* JSONB_EQ *);
   2956 (* UUID_EQ *); 293 (* FLOAT8EQ *); 1086 (* DATE_EQ *); 1152 (* TIMESTAMPTZ_EQ *)].
Definition is_equality_opcode (opcode : Z) : bool := bool_decide (opcode ∈ EQUALITY_OPCODES).

(** What the catalogs say of a foreign table; a name is missing when the lookup
    gives a null pointer. *)
Record Relation : Type := mkRelation {
  rel_name : option string;
  rel_schema : option string;
  rel_server : option string;
  rel_options : list (string * string);
  rel_attributes : list (string * Z);   (* name and type of attribute 1, 2, ... *)
}.

(** [get_attname(relid, attno, false)], for an attribute that exists. *)
Definition attname (r : Relation) (attno : Z) : string :=
  default EmptyString (fst <$> rel_attributes r !! Z.to_nat (attno - 1)).

Definition cstr_to_string (raw : option string) (what : string) : McpResult string :=
  ok_or (Internal ("catalog returned no name for " +:+ what)) raw.

Definition relname_for_relid (r : Relation) : McpResult string := cstr_to_string (rel_name r) "foreign table".
Definition server_name_for_relid (r : Relation) : McpResult string := cstr_to_string (rel_server r) "foreign server".

(** <schema>.<table>, quoted. *)
Definition table_qual_for_relid (r : Relation) : McpResult string :=
  schema ← cstr_to_string (rel_schema r) "foreign table schema";
  name ← relname_for_relid r;
  Ok (Ddl.quote_ident schema +:+ "." +:+ Ddl.quote_ident name).

(** ** The handler of a table *)

Inductive Target : Type :=
  | Registry (entry : TableEntry)
  | PerToolTable (t : PerTool.PerToolTarget).

Definition not_managed (name : string) : McpError :=
  FeatureNotSupported ("foreign table " +:+ quoted name
    +:+ " is not managed by mcp_fdw; import it with IMPORT FOREIGN SCHEMA mcp FROM SERVER ... (PRD-7 §4.11) or generate per-tool tables with mcp.generate_functions (PRD-8 §4.6)").

Definition target_for_relid (r : Relation) : McpResult Target :=
  name ← relname_for_relid r;
  match find name with
  | Some entry => Ok (Registry entry)
  | None =>
      let get k := table_option (rel_options r) k in
      match get "tool" with
      | Some tool =>
          if is_empty tool then Err (not_managed name)
          else Ok (PerToolTable (PerTool.mkTarget tool
                     (bool_decide (get "invoke_on_select" = Some "true"))
                     (get "cache_ttl_ms" ≫= parse_u64)))
      | None => Err (not_managed name)
      end
  end.

(** [GetForeignRelSize], [GetForeignPaths]: constants, no I/O. *)
Definition get_foreign_rel_size (target : Target) : Z :=
  match target with
  | Registry entry => if bool_decide (t_name (e_spec entry) = "server") then 1 else 1000
  | PerToolTable _ => 1000
  end.
Definition path_total_cost (rows : Z) : Z := 10 + rows * 10.

(** ** Clauses *)

Section planner.
Context `{Serde, PgDatum, PgOperators}.

(** The expression nodes the extractor looks into; a null constant is [None]. *)
Inductive Node : Type :=
  | Var (varno varattno varlevelsup : Z)
  | Const (consttype : Z) (constvalue : option Datum)
  | Param (paramkind : ParamKind) (paramid paramtype : Z)
  | OpExpr (opno : Z) (args : list Node)
  | ScalarArrayOpExpr (opno : Z) (useOr : bool) (args : list Node)
  | BoolExpr (boolop : BoolExprType) (args : list Node)
  | BooleanTest (arg : Node) (booltesttype : BoolTestType)
  | NullTest (arg : Node) (nulltesttype : NullTestType)
  | RelabelType (arg : Node)
  | OtherNode (tag : Z) (args : list Node).

Inductive Pushed : Type :=
  | PushedValue (q : Qual)
  | PushedParam (p : ParamQual) (node : Node).

Fixpoint strip_coercion (n : Node) : Node :=
  match n with RelabelType arg => strip_coercion arg | _ => n end.

Definition const_to_json (consttype : Z) (constvalue : option Datum) : option Value :=
  d ← constvalue; datum_to_json consttype d.

Section scan.
Variable rt_index : Z.
Variable r : Relation.
Variable target : Target.

Definition var_column (varno varattno varlevelsup : Z) : option string :=
  if negb (varlevelsup =? 0) || (varattno <=? 0) || negb (varno =? rt_index) then None
  else
    let column := attname r varattno in
    match target with
    | Registry entry =>
        _ ← attno (e_spec entry) column;
        if bool_decide (column ∈ Catalog.pushdown_columns (e_handler entry)) then Some column else None
    | PerToolTable _ => Some column
    end.

Definition qual_from_var (varno varattno varlevelsup : Z) (v : Value) : option Qual :=
  column ← var_column varno varattno varlevelsup; Some (equal column v).

(** The column and the other operand, a constant or a parameter. *)
Definition orient (l r : Node) : option (Z * Z * Z * Node) :=
  match strip_coercion l, strip_coercion r with
  | Var a b c, (Const _ _ | Param _ _ _) as v => Some (a, b, c, v)
  | (Const _ _ | Param _ _ _) as v, Var a b c => Some (a, b, c, v)
  | _, _ => None
  end.

Definition extract_equality (opno : Z) (args : list Node) (use_or : bool) : option Pushed :=
  if negb (is_equality_opcode (get_opcode opno)) then None
  else match args with
  | [l; r] =>
      '(a, b, c, v) ← orient l r;
      column ← var_column a b c;
      match v with
      | Const ty value =>
          value ← const_to_json ty value;
          if use_or then items ← as_array value; Some (PushedValue (any_equal column items))
          else Some (PushedValue (equal column value))
      | Param PARAM_EXTERN _ ty =>
          if use_or then None else Some (PushedParam (mkParamQual column 0 false ty) v)
      | _ => None
      end
  | _ => None
  end.

(** The NULL test and the equality among the two arms of an OR. *)
Definition null_and_equality (arg0 arg1 : Node) : option (Node * NullTestType * Z * list Node) :=
  match strip_coercion arg0, strip_coercion arg1 with
  | NullTest arg t, OpExpr opno args => Some (arg, t, opno, args)
  | OpExpr opno args, NullTest arg t => Some (arg, t, opno, args)
  | _, _ => None
  end.

Definition extract_optional_param_qual (clause : Node) : option Pushed :=
  match clause with
  | BoolExpr OR_EXPR [arg0; arg1] =>
      '(arg, t, opno, args) ← null_and_equality arg0 arg1;
      match t, strip_coercion arg, args with
      | IS_NULL, Param _ null_id _, [l; r] =>
          if negb (is_equality_opcode (get_opcode opno)) then None
          else
            '(a, b, c, v) ← orient l r;
            match v with
            | Param kind id ty =>
                if negb (id =? null_id) then None
                else
                  column ← var_column a b c;
                  match kind with
                  | PARAM_EXTERN => Some (PushedParam (mkParamQual column 0 true ty) v)
                  | _ => None
                  end
            | _ => None
            end
      | _, _, _ => None
      end
  | _ => None
  end.

Definition extract_qual (clause : Node) : option Pushed :=
  match clause with
  | Var a b c => PushedValue <$> qual_from_var a b c (Bool true)
  | BoolExpr NOT_EXPR [arg] =>
      match strip_coercion arg with
      | Var a b c => PushedValue <$> qual_from_var a b c (Bool false)
      | _ => extract_optional_param_qual clause
      end
  | BoolExpr _ _ => extract_optional_param_qual clause
  | BooleanTest arg t =>
      match strip_coercion arg, t with
      | Var a b c, IS_TRUE => PushedValue <$> qual_from_var a b c (Bool true)
      | Var a b c, IS_FALSE => PushedValue <$> qual_from_var a b c (Bool false)
      | _, _ => None
      end
  | OpExpr opno args => extract_equality opno args false
  | ScalarArrayOpExpr opno useOr args => extract_equality opno args useOr
  | _ => None
  end.

(** ** The split of the scan's clauses *)

Record RestrictInfo : Type := mkRestrict { ri_clause : Node; ri_pseudoconstant : bool }.

Record Split : Type := mkSplit {
  sp_pushed : list Qual;
  sp_params : list ParamQual;
  sp_nodes : list Node;
  sp_local : list Node;
}.

Definition with_index (p : ParamQual) (i : nat) : ParamQual :=
  mkParamQual (pfield p) (Z.of_nat i) (omit_null p) (param_type p).

Definition split_step (s : Split) (c : RestrictInfo) : Split :=
  if ri_pseudoconstant c then
    mkSplit (sp_pushed s) (sp_params s) (sp_nodes s) (sp_local s ++ [ri_clause c])
  else match extract_qual (ri_clause c) with
  | Some (PushedValue q) => mkSplit (sp_pushed s ++ [q]) (sp_params s) (sp_nodes s) (sp_local s)
  | Some (PushedParam p node) =>
      mkSplit (sp_pushed s) (sp_params s ++ [with_index p (length (sp_nodes s))])
        (sp_nodes s ++ [node]) (sp_local s)
  | None => mkSplit (sp_pushed s) (sp_params s) (sp_nodes s) (sp_local s ++ [ri_clause c])
  end.

Definition split_clauses (clauses : list RestrictInfo) : Split :=
  foldl split_step (mkSplit [] [] [] []) clauses.
End scan.

(** What the plan keeps. *)
Record ForeignScan : Type := mkForeignScan {
  fs_local : list Node;
  fs_exprs : list Node;
  fs_private : list string;
}.

(** The private blob of a plan. *)
Definition plan_private (relname : string) (s : Split) : FdwPrivate :=
  mkFdwPrivate relname (sp_pushed s) (sp_params s).

Definition get_foreign_plan (r : Relation) (rt_index : Z) (scan_clauses : list RestrictInfo) :
    McpResult ForeignScan :=
  target ← target_for_relid r;
  relname ← relname_for_relid r;
  let s := split_clauses rt_index r target scan_clauses in
  let json := encode_private (plan_private relname s) in
  if bool_decide (0 ∈ bytes json) then Err (Internal "fdw_private contained NUL")
  else Ok (mkForeignScan (sp_local s) (sp_nodes s) [json]).

(** ** Executor start *)

Fixpoint quals_from_private (privates : list string) (expected_table : string) :
    McpResult (list Qual * list ParamQual) :=
  match privates with
  | [] => Ok ([], [])
  | s :: rest =>
      match decode_private s with
      | None => quals_from_private rest expected_table
      | Some decoded =>
          if negb (bool_decide (table decoded = expected_table)) then
            Err (Internal ("fdw_private names table " +:+ quoted (table decoded)
                           +:+ " but the plan scans " +:+ quoted expected_table))
          else Ok (quals decoded, params decoded)
      end
  end.

(** [ExecEvalExpr] on a node of the plan: [None] is NULL. *)
Fixpoint resolve_param_quals (exec_eval : Node → option Datum) (exprs : list Node) (ps : list ParamQual) :
    McpResult (list Qual) :=
  match ps with
  | [] => Ok []
  | p :: rest =>
      node ← ok_or (Internal ("fdw_exprs entry " +:+ fmt_Z (index p) +:+ " for parameter qual on "
                              +:+ quoted (pfield p) +:+ " is missing"))
               (exprs !! Z.to_nat (index p));
      more ← resolve_param_quals exec_eval exprs rest;
      Ok (match exec_eval node with
          | None => more
          | Some d => match datum_to_json (param_type p) d with
                      | Some v => equal (pfield p) v :: more
                      | None => more
                      end
          end)
  end.

(** The quals a scan starts with. *)
Definition scan_quals (exec_eval : Node → option Datum) (plan : ForeignScan) (relname : string) :
    McpResult (list Qual) :=
  '(qs, ps) ← quals_from_private (fs_private plan) relname;
  more ← resolve_param_quals exec_eval (fs_exprs plan) ps;
  Ok (qs ++ more).
End planner.

(** ** What a clause means

    SQL's three-valued logic over the nodes: [None] is NULL, a row passes when
    a clause is true.  The operators' functions and every node the extractor
    does not look into are parameters. *)

Record Env `{PgDatum} : Type := mkEnv {
  e_var : Z → Z → Z → option Datum;
  e_param : ParamKind → Z → option Datum;
  e_operator : Z → list (option Datum) → option Datum;          (* by function, its operands *)
  e_array : Z → bool → list (option Datum) → option Datum;      (* = ANY, = ALL *)
  e_other : Z → list (option Datum) → option Datum;
}.

Section semantics.
Context `{Serde, PgDatum, PgOperators}.

Definition known (o : option bool) (b : bool) : bool := bool_decide (o = Some b).

Definition or3 (l : list (option bool)) : option bool :=
  if existsb (fun o => known o true) l then Some true
  else if forallb (fun o => known o false) l then Some false else None.
Definition and3 (l : list (option bool)) : option bool :=
  negb <$> or3 ((fun o : option bool => negb <$> o) <$> l).

Definition test_bool (t : BoolTestType) (b : option bool) : bool :=
  match t with
  | IS_TRUE => known b true
  | IS_NOT_TRUE => negb (known b true)
  | IS_FALSE => known b false
  | IS_NOT_FALSE => negb (known b false)
  | IS_UNKNOWN => bool_decide (b = None)
  | IS_NOT_UNKNOWN => negb (bool_decide (b = None))
  end.

Fixpoint eval (e : Env) (n : Node) : option Datum :=
  match n with
  | Var a b c => e_var e a b c
  | Const _ v => v
  | Param kind id _ => e_param e kind id
  | OpExpr opno args => e_operator e (get_opcode opno) (map (eval e) args)
  | ScalarArrayOpExpr opno use_or args => e_array e (get_opcode opno) use_or (map (eval e) args)
  | BoolExpr op args =>
      let truths := (fun d : option Datum => datum_bool <$> d) <$> map (eval e) args in
      bool_datum <$> match op, truths with
                     | AND_EXPR, _ => and3 truths
                     | OR_EXPR, _ => or3 truths
                     | NOT_EXPR, t :: _ => negb <$> t
                     | NOT_EXPR, [] => None
                     end
  | BooleanTest arg t => Some (bool_datum (test_bool t (datum_bool <$> eval e arg)))
  | NullTest arg t =>
      let null := bool_decide (is_Some (eval e arg)) in
      Some (bool_datum match t with IS_NULL => negb null | IS_NOT_NULL => null end)
  | RelabelType arg => eval e arg
  | OtherNode tag args => e_other e tag (map (eval e) args)
  end.

Definition truth (e : Env) (n : Node) : option bool := datum_bool <$> eval e n.
Definition passes (e : Env) (n : Node) : Prop := truth e n = Some true.

(** The two equalities the theorem speaks of, as documented: strict, byte
    equality of texts under a deterministic collation, equality of booleans. *)
Record operators_ok (e : Env) : Prop := {
  texteq_law a b : e_operator e F_TEXTEQ [a; b] =
    (x ← a; y ← b; Some (bool_datum (bool_decide (text_to_cstring x = text_to_cstring y))));
  booleq_law a b : e_operator e F_BOOLEQ [a; b] =
    (x ← a; y ← b; Some (bool_datum (Bool.eqb (datum_bool x) (datum_bool y))));
}.

(** The parser's typing: an equality applies the function of its operands'
    type, the right side of [= ANY] and [= ALL] is an array, a column used as a
    truth value is boolean, and a parameter tested for NULL is an external one
    (the extractor compares only the numbers of the two parameters). *)
Definition node_type (r : Relation) (n : Node) : option Z :=
  match strip_coercion n with
  | Var _ k _ => snd <$> rel_attributes r !! Z.to_nat (k - 1)
  | Const t _ | Param _ _ t => Some t
  | _ => None
  end.

Definition operand_type (t : Z) : Z := if is_text_oid t then oid Text else t.

Definition pair_typed (t u opcode : Z) : Prop :=
  operand_type t = operand_type u ∧
  (operand_type t = oid Text → opcode = F_TEXTEQ) ∧ (operand_type t = oid Boolean → opcode = F_BOOLEQ).

Definition operands_typed (r : Relation) (opno : Z) (l rt : Node) : Prop :=
  ∀ t u, node_type r l = Some t → node_type r rt = Some u →
    is_equality_opcode (get_opcode opno) = true → pair_typed t u (get_opcode opno).

Definition is_carried (t : Z) : bool :=
  is_text_oid t || bool_decide (t ∈ oid <$> [Jsonb; Boolean; Int4; Int8; Float8; Uuid; Date; TimestampTz]).

Fixpoint typed (r : Relation) (n : Node) : Prop :=
  match n with
  | Var _ _ _ => ∀ t, node_type r n = Some t → t = oid Boolean
  | OpExpr opno [l; rt] => operands_typed r opno l rt
  | ScalarArrayOpExpr _ _ [_; rt] => ∀ t, node_type r rt = Some t → is_carried t = false
  | BoolExpr _ args =>
      (fix all (args : list Node) : Prop :=
         match args with [] => True | a :: rest => typed r a ∧ all rest end) args
  | BooleanTest arg _ | RelabelType arg => typed r arg
  | NullTest arg _ => match strip_coercion arg with Param kind _ _ => kind = PARAM_EXTERN | _ => True end
  | _ => True
  end.

(** A scan of a registry table, at one row: the table has the columns of its
    specification, the row was put into the slot, and the expressions see the
    slot.  Of a pushed column the slot must give the cell back (of a text, that it
    holds no NUL, which a datum cannot); what the slot makes of the others, the
    key order of a jsonb say, is PostgreSQL's. *)
Record scan_at (r : Relation) (entry : TableEntry) (rt_index : Z) (row : Row) (slot : Slot) (e : Env) : Prop := {
  sa_datum : datum_ok;
  sa_operators : operators_ok e;
  sa_attributes : rel_attributes r = (fun c => (c_name c, oid (c_type c))) <$> t_columns (e_spec entry);
  sa_names : NoDup (c_name <$> t_columns (e_spec entry));
  sa_row : row_ok (e_spec entry) row;
  sa_survives i col : t_columns (e_spec entry) !! i = Some col →
                      c_name col ∈ Catalog.pushdown_columns (e_handler entry) →
                      from_option survives True (mjoin (row !! i));
  sa_fill : fill_slot (arity (e_spec entry)) row = Ok slot;
  sa_var k : 0 < k → e_var e rt_index k 0 = mjoin (slot !! Z.to_nat (k - 1));
}.

Definition text_or_boolean (entry : TableEntry) : Prop :=
  ∀ c, c ∈ t_columns (e_spec entry) → c_name c ∈ Catalog.pushdown_columns (e_handler entry) →
    c_type c = Text ∨ c_type c = Boolean.

(** The filter of the handlers, on one row. *)
Definition holds (entry : TableEntry) (row : Row) (q : Qual) : Prop :=
  matches_json q (field q) (Catalog.cell_json (e_spec entry) row (field q)) = true.

(** A parameter the code can stand for: of a type it carries, and with a value
    unless a NULL is what the clause asks for. *)
Definition param_usable (e : Env) (p : ParamQual) (node : Node) : Prop :=
  is_carried (param_type p) = true ∧ (eval e node = None → omit_null p = true).
End semantics.

(** ** Lemmas *)

Section lemmas.
Context `{Serde, PgDatum, PgOperators}.

Lemma fill_slot_lookup natts row slot i :
  fill_slot natts row = Ok slot → (i < natts)%nat →
  match mjoin (row !! i) with
  | None => slot !! i = Some None
  | Some c => ∃ d, slot !! i = Some (Some d) ∧ cell_to_datum c = Ok d
  end.
Proof.
  revert row slot i. induction natts as [|n IH]; intros row slot i; [lia|]. cbn [fill_slot].
  intros (d & Hd & (rest & Hr & [= <-])%result_bind_Ok)%result_bind_Ok Hi.
  destruct i as [|i].
  - destruct row as [|[c|] row]; cbn in Hd |- *; simplify_eq; [done| |done].
    apply result_bind_Ok in Hd as (d' & Hd & [= <-]). eauto.
  - specialize (IH _ _ i Hr ltac:(lia)). by destruct row.
Qed.

Lemma pushdown_nonempty h : EmptyString ∉ Catalog.pushdown_columns h.
Proof. destruct h; apply (bool_decide_unpack _); by vm_compute. Qed.

(** What a recognized column is, in a scan of a registry table. *)
Lemma var_column_cell r entry rt_index row slot e a k c col :
  scan_at r entry rt_index row slot e →
  var_column rt_index r (Registry entry) a k c = Some col →
  ∃ spec_col, spec_col ∈ t_columns (e_spec entry) ∧ c_name spec_col = col ∧
    col ∈ Catalog.pushdown_columns (e_handler entry) ∧
    (∀ n, strip_coercion n = Var a k c → node_type r n = Some (oid (c_type spec_col))) ∧
    match Catalog.cell_json (e_spec entry) row col, e_var e a k c with
    | v, None => v = Null
    | v, Some d => ∃ cell, v = as_json cell ∧ cell_ok (c_type spec_col) cell ∧ survives cell ∧
                           cell_to_datum cell = Ok d
    end.
Proof.
  intros [Hd Ho Ha Hn Hr Hs Hf Hv]. unfold var_column.
  destruct (negb (c =? 0) || _ || _) eqn:Hg; [done|]. bool_prop. subst c a.
  intros (i & Hi & Hc)%bind_Some. case_bool_decide as Hp; [|done]. injection Hc as <-.
  unfold attname in *. rewrite Ha in *. rewrite list_lookup_fmap in *.
  destruct (t_columns (e_spec entry) !! Z.to_nat (k - 1)) as [sc|] eqn:Hsc; cbn in *;
    [|by apply pushdown_nonempty in Hp].
  exists sc. split; [by eapply list_elem_of_lookup_2|]. split; [done|]. split; [done|].
  split.
  { intros n Hsn. unfold node_type. by rewrite Hsn, Ha, list_lookup_fmap, Hsc. }
  rewrite Hv by lia. unfold Catalog.cell_json. rewrite (attno_column _ (Z.to_nat (k - 1)) sc Hn Hsc).
  cbn [mbind option_bind]. replace (S (Z.to_nat (k - 1)) - 1)%nat with (Z.to_nat (k - 1)) by lia.
  pose proof (fill_slot_lookup _ _ _ (Z.to_nat (k - 1)) Hf (lookup_lt_Some _ _ _ Hsc)) as Hl.
  destruct (row !! Z.to_nat (k - 1)) as [[cell|]|] eqn:Hrow; cbn in *.
  - destruct Hl as (d & -> & Hcd). cbn. exists cell. split; [done|].
    pose proof (Forall2_lookup_lr _ _ _ _ _ _ Hr Hsc Hrow) as Hok. cbn in Hok.
    specialize (Hs _ _ Hsc Hp). rewrite Hrow in Hs. done.
  - by rewrite Hl.
  - by rewrite Hl.
Qed.

Lemma eval_strip e n : eval e (strip_coercion n) = eval e n.
Proof. induction n; done. Qed.
Lemma typed_strip r n : typed r n → typed r (strip_coercion n).
Proof. induction n; simpl; auto. Qed.

Lemma oid_inj t u : oid t = oid u → t = u.
Proof. by destruct t, u. Qed.

Lemma pair_typed_sym t u opcode : pair_typed t u opcode → pair_typed u t opcode.
Proof. intros (He & Ht & Hb). unfold pair_typed. rewrite <- He. auto. Qed.

Lemma holds_equal entry row col v :
  holds entry row (equal col v) ↔ json_equal v (Catalog.cell_json (e_spec entry) row col) = true.
Proof. unfold holds, matches_json. cbn. by rewrite bool_decide_true. Qed.

(** A boolean column as a truth value. *)
Lemma var_boolean r entry rt_index row slot e a k c col b n :
  scan_at r entry rt_index row slot e → var_column rt_index r (Registry entry) a k c = Some col →
  strip_coercion n = Var a k c → typed r n →
  datum_bool <$> e_var e a k c = Some b ↔ holds entry row (equal col (Bool b)).
Proof.
  intros Hsa Hcol Hn Hty. pose proof (sa_datum _ _ _ _ _ _ Hsa) as Hlaw.
  destruct (var_column_cell _ _ _ _ _ _ _ _ _ _ Hsa Hcol) as (sc & _ & _ & _ & Hnt & Hcell).
  apply typed_strip in Hty. rewrite Hn in Hty. cbn in Hty.
  specialize (Hty _ (Hnt (Var a k c) eq_refl)). apply (oid_inj _ Boolean) in Hty.
  rewrite holds_equal. destruct (e_var e a k c) as [d|].
  - destruct Hcell as (cell & -> & Hok & _ & Hd). rewrite Hty in Hok.
    destruct cell; try done. injection Hd as <-. cbn. rewrite (bool_law Hlaw). by destruct b, b0.
  - rewrite Hcell. cbn. split; [done|]. by destruct b.
Qed.

(** A column compared with a value: the operator's answer and the qual's. *)
Lemma column_equality r entry rt_index row slot e a k c col ty d v opcode n :
  scan_at r entry rt_index row slot e → text_or_boolean entry →
  var_column rt_index r (Registry entry) a k c = Some col → strip_coercion n = Var a k c →
  (∀ t, node_type r n = Some t → pair_typed t ty opcode) → datum_to_json ty d = Some v →
  (datum_bool <$> e_operator e opcode [e_var e a k c; Some d] = Some true ↔ holds entry row (equal col v)) ∧
  (datum_bool <$> e_operator e opcode [Some d; e_var e a k c] = Some true ↔ holds entry row (equal col v)).
Proof.
  intros Hsa Htb Hcol Hn Hpt Hv. pose proof (sa_datum _ _ _ _ _ _ Hsa) as Hlaw.
  pose proof (sa_operators _ _ _ _ _ _ Hsa) as Hops.
  destruct (var_column_cell _ _ _ _ _ _ _ _ _ _ Hsa Hcol) as (sc & Hin & <- & Hp & Hnt & Hcell).
  destruct (Hpt _ (Hnt n Hn)) as (Hu & Ht & Hb). rewrite !holds_equal.
  destruct (Htb sc Hin Hp) as [Hct|Hct]; rewrite Hct in *; cbn in Ht, Hb.
  - rewrite (Ht eq_refl), !(texteq_law _ Hops). unfold datum_to_json in Hv.
    change (operand_type (oid Text)) with 25 in Hu. unfold operand_type in Hu.
    destruct (is_text_oid ty) eqn:Hty; [|by subst ty]. injection Hv as <-.
    destruct (e_var e a k c) as [d'|]; [|by rewrite Hcell].
    destruct Hcell as (cell & -> & Hok & Hsv & Hd). destruct cell as [s| | | | | | | | |]; try done.
    cbn in Hd, Hsv. rewrite strip_nul_id, c_string_id in Hd by done. injection Hd as <-. cbn.
    rewrite !(bool_law Hlaw), !(text_law Hlaw) by done.
    split; split; intros Heq; simplify_option_eq; bool_prop; try done;
      try (f_equal; apply bool_decide_true; congruence); apply bool_decide_true; congruence.
  - rewrite (Hb eq_refl), !(booleq_law _ Hops). change (operand_type (oid Boolean)) with 16 in Hu.
    assert (ty = 16) as ->.
    { unfold operand_type in Hu. by destruct (is_text_oid ty). }
    change (datum_to_json 16 d) with (Some (Bool (datum_bool d))) in Hv. injection Hv as <-.
    destruct (e_var e a k c) as [d'|]; [|by rewrite Hcell].
    destruct Hcell as (cell & -> & Hok & Hsv & Hd). destruct cell; try done. injection Hd as <-. cbn.
    rewrite !(bool_law Hlaw). by destruct b, (datum_bool d).
Qed.

Lemma orient_Some l rt a k c v :
  orient l rt = Some (a, k, c, v) →
  ((strip_coercion l = Var a k c ∧ strip_coercion rt = v) ∨
   (strip_coercion l = v ∧ strip_coercion rt = Var a k c)) ∧ strip_coercion v = v.
Proof. unfold orient. intros Ho. repeat case_match; simplify_eq; auto. Qed.

Lemma node_type_strip r n m : strip_coercion n = m → strip_coercion m = m → node_type r n = node_type r m.
Proof. intros Hn Hm. unfold node_type. by rewrite Hn, Hm. Qed.

(** The quals one resolved parameter gives. *)
Definition resolved (e : Env) (p : ParamQual) (node : Node) : list Qual :=
  match eval e node with
  | None => []
  | Some d => match datum_to_json (param_type p) d with
              | Some v => [equal (pfield p) v]
              | None => []
              end
  end.

(** An oriented equality whose value is known. *)
Lemma oriented_equality r entry rt_index row slot e opno l rt a k c col v ty d j :
  scan_at r entry rt_index row slot e → text_or_boolean entry → operands_typed r opno l rt →
  orient l rt = Some (a, k, c, v) → var_column rt_index r (Registry entry) a k c = Some col →
  is_equality_opcode (get_opcode opno) = true → node_type r v = Some ty →
  eval e v = Some d → datum_to_json ty d = Some j →
  passes e (OpExpr opno [l; rt]) ↔ holds entry row (equal col j).
Proof.
  intros Hsa Htb Hty Ho Hcol Heq Hv He Hj. unfold passes, truth. cbn.
  rewrite <- (eval_strip e l), <- (eval_strip e rt).
  destruct (orient_Some _ _ _ _ _ _ Ho) as [[[Hl Hr]|[Hl Hr]] Hs].
  - rewrite Hl, Hr, He.
    eapply (column_equality r entry rt_index row slot e a k c col ty d j (get_opcode opno) l); try done.
    intros t Ht. apply (Hty t ty Ht); [|done]. by rewrite (node_type_strip r rt v).
  - rewrite Hl, Hr, He.
    eapply (column_equality r entry rt_index row slot e a k c col ty d j (get_opcode opno) rt); try done.
    intros t Ht. apply pair_typed_sym. apply (Hty ty t); [|done|done]. by rewrite (node_type_strip r l v).
Qed.

Lemma extract_equality_value rt_index r target opno args use_or q :
  extract_equality rt_index r target opno args use_or = Some (PushedValue q) →
  ∃ l rt a k c col ty d j, args = [l; rt] ∧ is_equality_opcode (get_opcode opno) = true ∧
    orient l rt = Some (a, k, c, Const ty (Some d)) ∧ var_column rt_index r target a k c = Some col ∧
    datum_to_json ty d = Some j ∧ (use_or = false → q = equal col j).
Proof.
  unfold extract_equality. destruct (is_equality_opcode _) eqn:Heq; [|done]. cbn [negb].
  destruct args as [|l [|rt [|]]]; try done.
  intros ([[[a k] c] v] & Ho & Hv)%bind_Some. apply bind_Some in Hv as (col & Hcol & Hv).
  destruct v as [|ty value|kind id ty| | | | | | |]; try done; [|by destruct kind, use_or].
  apply bind_Some in Hv as (j & (d & -> & Hj)%bind_Some & Hv).
  exists l, rt, a, k, c, col, ty, d, j. repeat split; try done. intros ->. by injection Hv.
Qed.

Lemma extract_equality_param rt_index r target opno args use_or p node :
  extract_equality rt_index r target opno args use_or = Some (PushedParam p node) →
  ∃ l rt a k c col id ty, args = [l; rt] ∧ is_equality_opcode (get_opcode opno) = true ∧
    orient l rt = Some (a, k, c, node) ∧ var_column rt_index r target a k c = Some col ∧
    node = Param PARAM_EXTERN id ty ∧ p = mkParamQual col 0 false ty ∧ use_or = false.
Proof.
  unfold extract_equality. destruct (is_equality_opcode _) eqn:Heq; [|done]. cbn [negb].
  destruct args as [|l [|rt [|]]]; try done.
  intros ([[[a k] c] v] & Ho & Hv)%bind_Some. apply bind_Some in Hv as (col & Hcol & Hv).
  destruct v as [|ty value|kind id ty| | | | | | |]; try done;
    [by apply bind_Some in Hv as (j & _ & Hv); destruct use_or; [apply bind_Some in Hv as (? & _ & ?)|]|].
  destruct kind, use_or; try done. injection Hv as <- <-. exists l, rt, a, k, c, col, id, ty. done.
Qed.

Lemma extract_optional_Some rt_index r target clause x :
  extract_optional_param_qual rt_index r target clause = Some x →
  ∃ arg0 arg1 arg opno l rt a k c col kind id ty ty',
    clause = BoolExpr OR_EXPR [arg0; arg1] ∧
    ((strip_coercion arg0 = NullTest arg IS_NULL ∧ strip_coercion arg1 = OpExpr opno [l; rt]) ∨
     (strip_coercion arg1 = NullTest arg IS_NULL ∧ strip_coercion arg0 = OpExpr opno [l; rt])) ∧
    strip_coercion arg = Param kind id ty' ∧ is_equality_opcode (get_opcode opno) = true ∧
    orient l rt = Some (a, k, c, Param PARAM_EXTERN id ty) ∧
    var_column rt_index r target a k c = Some col ∧
    x = PushedParam (mkParamQual col 0 true ty) (Param PARAM_EXTERN id ty).
Proof.
  unfold extract_optional_param_qual. destruct clause as [| | | | |[] [|arg0 [|arg1 [|]]]| | | |]; try done.
  intros ([[[arg t] opno] args] & Hne & Hx)%bind_Some.
  destruct t; [|done]. destruct (strip_coercion arg) as [| |kind id ty'| | | | | | |] eqn:Harg; try done.
  destruct args as [|l [|rt [|]]]; try done. destruct (is_equality_opcode _) eqn:Heq; [|done]. cbn [negb] in Hx.
  apply bind_Some in Hx as ([[[a k] c] v] & Ho & Hx). destruct v as [| |kind' id' ty| | | | | | |]; try done.
  destruct (id' =? id) eqn:Hid; [|done]. cbn [negb] in Hx. apply Z.eqb_eq in Hid as ->.
  apply bind_Some in Hx as (col & Hcol & Hx). destruct kind'; try done. injection Hx as <-.
  exists arg0, arg1, arg, opno, l, rt, a, k, c, col, kind, id, ty, ty'. repeat split; try done.
  unfold null_and_equality in Hne. repeat case_match; simplify_eq; auto.
Qed.

Lemma extract_bool_param rt_index r target op args p node :
  extract_qual rt_index r target (BoolExpr op args) = Some (PushedParam p node) →
  extract_optional_param_qual rt_index r target (BoolExpr op args) = Some (PushedParam p node).
Proof.
  intros Hx. destruct op; [done|done|]. cbn in Hx. destruct args as [|arg [|]]; try done.
  destruct (strip_coercion arg); try done. by apply fmap_Some in Hx as (? & _ & ?).
Qed.

Lemma not_carried t d : is_carried t = false → datum_to_json t d = None.
Proof.
  unfold is_carried, datum_to_json. intros Hc. apply orb_false_iff in Hc as [-> Hc].
  apply bool_decide_eq_false in Hc. cbn in Hc. rewrite !elem_of_cons in Hc.
  repeat (case_match; [bool_prop; subst; tauto|]). done.
Qed.

Lemma carried_json t d : is_carried t = true → t ≠ oid Jsonb → t ≠ oid Float8 → is_Some (datum_to_json t d).
Proof.
  unfold is_carried, datum_to_json. intros Hc Hj Hf. destruct (is_text_oid t); [done|].
  apply bool_decide_eq_true in Hc. cbn in Hc, Hj, Hf. rewrite !elem_of_cons, elem_of_nil in Hc.
  repeat (case_match; [bool_prop; by eauto|]). bool_prop. tauto.
Qed.

(** The right side of [= ANY] is an array, so neither a constant nor a column
    there is recognized. *)
Lemma array_operand r entry rt_index row slot e opno use_or l rt a k c v col :
  scan_at r entry rt_index row slot e → text_or_boolean entry →
  typed r (ScalarArrayOpExpr opno use_or [l; rt]) → orient l rt = Some (a, k, c, v) →
  var_column rt_index r (Registry entry) a k c = Some col →
  ∀ t, node_type r v = Some t → is_carried t = false.
Proof.
  intros Hsa Htb Hty Ho Hcol t Ht. cbn in Hty.
  destruct (orient_Some _ _ _ _ _ _ Ho) as [[[Hl Hr]|[Hl Hr]] Hs].
  - apply Hty. by rewrite (node_type_strip r rt v).
  - destruct (var_column_cell _ _ _ _ _ _ _ _ _ _ Hsa Hcol) as (sc & Hin & <- & Hp & Hnt & _).
    specialize (Hty _ (Hnt rt Hr)). by destruct (Htb sc Hin Hp) as [Hct|Hct]; rewrite Hct in Hty.
Qed.

(** A clause recognized with its value holds of the same rows as its qual. *)
Lemma clause_value r entry rt_index row slot e clause q :
  scan_at r entry rt_index row slot e → text_or_boolean entry → typed r clause →
  extract_qual rt_index r (Registry entry) clause = Some (PushedValue q) →
  passes e clause ↔ holds entry row q.
Proof.
  intros Hsa Htb Hty Hx. unfold passes, truth.
  pose proof (bool_law (sa_datum _ _ _ _ _ _ Hsa)) as Hbool.
  assert (∀ n a k c b q, strip_coercion n = Var a k c → typed r n →
    PushedValue <$> qual_from_var rt_index r (Registry entry) a k c (Bool b) = Some (PushedValue q) →
    datum_bool <$> eval e n = Some b ↔ holds entry row q) as Hvar.
  { intros n a k c b q' Hn Htn (q0 & (col & Hcol & [= <-])%bind_Some & [= ->])%fmap_Some.
    rewrite <- eval_strip, Hn. by eapply var_boolean. }
  destruct clause as [a k c| | |opno args|opno use_or args|op args|arg t| | |]; try done.
  - by apply (Hvar (Var a k c) a k c true).
  - apply extract_equality_value in Hx as (l & rt & a & k & c & col & ty & d & j & -> & Heq & Ho & Hcol & Hj & Hq).
    rewrite (Hq eq_refl). by eapply (oriented_equality _ _ _ _ _ _ opno l rt a k c col (Const ty (Some d))).
  - apply extract_equality_value in Hx as (l & rt & a & k & c & col & ty & d & j & -> & Heq & Ho & Hcol & Hj & Hq).
    pose proof (array_operand _ _ _ _ _ _ _ _ _ _ _ _ _ _ _ Hsa Htb Hty Ho Hcol ty eq_refl) as Hc.
    by rewrite (not_carried ty d Hc) in Hj.
  - destruct op; [done| |cbn in Hx].
    + change (extract_optional_param_qual rt_index r (Registry entry) (BoolExpr OR_EXPR args)
        = Some (PushedValue q)) in Hx. by apply extract_optional_Some in Hx as (? & ? & ? & ? & ? & ? & ? & ? & ? & ? & ? & ? & ? & ? & Hx); destruct_and! Hx.
    + destruct args as [|arg [|]]; try done.
      destruct (strip_coercion arg) eqn:Hs; try done. destruct Hty as [Hty _].
      pose proof (Hvar arg _ _ _ false q Hs Hty Hx) as Hiff. rewrite <- Hiff. cbn.
      destruct (eval e arg) as [d|]; [|done]. cbn. rewrite Hbool. by destruct (datum_bool d).
  - cbn in Hx. destruct (strip_coercion arg) eqn:Hs; try done. cbn in Hty.
    destruct t; try done.
    + rewrite <- (Hvar arg _ _ _ true q Hs Hty Hx). cbn. rewrite Hbool. unfold known.
      destruct (datum_bool <$> eval e arg) as [[]|]; naive_solver.
    + rewrite <- (Hvar arg _ _ _ false q Hs Hty Hx). cbn. rewrite Hbool. unfold known.
      destruct (datum_bool <$> eval e arg) as [[]|]; naive_solver.
Qed.

Lemma or3_two a b : or3 [a; b] = Some true ↔ a = Some true ∨ b = Some true.
Proof. by destruct a as [[]|], b as [[]|]; vm_compute; naive_solver. Qed.

(** The value a usable parameter resolves to, against the column it is compared
    with. *)
Lemma usable_json r entry rt_index row slot e opno l rt a k c col id ty d :
  scan_at r entry rt_index row slot e → text_or_boolean entry → operands_typed r opno l rt →
  is_equality_opcode (get_opcode opno) = true →
  orient l rt = Some (a, k, c, Param PARAM_EXTERN id ty) →
  var_column rt_index r (Registry entry) a k c = Some col → is_carried ty = true →
  is_Some (datum_to_json ty d).
Proof.
  intros Hsa Htb Hty Heq Ho Hcol Hc.
  destruct (var_column_cell _ _ _ _ _ _ _ _ _ _ Hsa Hcol) as (sc & Hin & <- & Hp & Hnt & _).
  assert (pair_typed (oid (c_type sc)) ty (get_opcode opno)) as (Hu & _).
  { destruct (orient_Some _ _ _ _ _ _ Ho) as [[[Hl Hr]|[Hl Hr]] _].
    - apply (Hty _ _ (Hnt l Hl)); [|done]. unfold node_type. by rewrite Hr.
    - apply pair_typed_sym. apply (Hty _ _); [|by apply Hnt|done]. unfold node_type. by rewrite Hl. }
  apply carried_json; [done| |]; intros ->; unfold operand_type in Hu;
    destruct (Htb sc Hin Hp) as [Hct|Hct]; rewrite Hct in Hu; by vm_compute in Hu.
Qed.

(** An oriented equality with a bound parameter. *)
Lemma param_equality r entry rt_index row slot e opno l rt a k c col id ty d :
  scan_at r entry rt_index row slot e → text_or_boolean entry → operands_typed r opno l rt →
  is_equality_opcode (get_opcode opno) = true → orient l rt = Some (a, k, c, Param PARAM_EXTERN id ty) →
  var_column rt_index r (Registry entry) a k c = Some col → is_carried ty = true →
  eval e (Param PARAM_EXTERN id ty) = Some d →
  passes e (OpExpr opno [l; rt]) ↔
  Forall (holds entry row) match datum_to_json ty d with Some v => [equal col v] | None => [] end.
Proof.
  intros Hsa Htb Ht Heq Ho Hcol Hc He.
  destruct (usable_json _ _ _ _ _ _ _ _ _ _ _ _ _ _ _ d Hsa Htb Ht Heq Ho Hcol Hc) as [j Hj].
  rewrite Hj, Forall_singleton.
  by eapply (oriented_equality _ _ _ _ _ _ opno l rt a k c col (Param PARAM_EXTERN id ty)).
Qed.

(** The two arms of the optional shape, the NULL test first. *)
Lemma optional_arms r e n m arg opno l rt kind id ty ty' :
  datum_ok → typed r n → typed r m →
  strip_coercion n = NullTest arg IS_NULL → strip_coercion m = OpExpr opno [l; rt] →
  strip_coercion arg = Param kind id ty' →
  operands_typed r opno l rt ∧
  (datum_bool <$> eval e n = Some true ∨ datum_bool <$> eval e m = Some true
   ↔ eval e (Param PARAM_EXTERN id ty) = None ∨ passes e (OpExpr opno [l; rt])).
Proof.
  intros Hok Htn%typed_strip Htm%typed_strip Hn Hm Harg. rewrite Hn in Htn. rewrite Hm in Htm.
  cbn in Htn, Htm. rewrite Harg in Htn. subst kind. split; [done|].
  rewrite <- (eval_strip e n), <- (eval_strip e m), Hn, Hm. cbn [eval].
  rewrite <- (eval_strip e arg), Harg. cbn [eval]. unfold passes, truth. cbn.
  rewrite (bool_law Hok). destruct (e_param e PARAM_EXTERN id); cbn; naive_solver.
Qed.

(** A clause recognized with a usable parameter holds of the same rows as the
    quals the parameter resolves to. *)
Lemma clause_param r entry rt_index row slot e clause p node :
  scan_at r entry rt_index row slot e → text_or_boolean entry → typed r clause →
  extract_qual rt_index r (Registry entry) clause = Some (PushedParam p node) →
  param_usable e p node →
  passes e clause ↔ Forall (holds entry row) (resolved e p node).
Proof.
  intros Hsa Htb Hty Hx [Hcarried Hnull]. pose proof (sa_datum _ _ _ _ _ _ Hsa) as Hok. unfold resolved.
  destruct clause as [a k c| | |opno args|opno use_or args|op args|arg t| | |]; try done.
  - by cbn in Hx; apply fmap_Some in Hx as (? & _ & ?).
  - apply extract_equality_param in Hx
      as (l & rt & a & k & c & col & id & ty & -> & Heq & Ho & Hcol & -> & -> & _).
    destruct (eval e (Param PARAM_EXTERN id ty)) as [d|] eqn:He; [|by specialize (Hnull eq_refl)].
    by eapply param_equality.
  - apply extract_equality_param in Hx
      as (l & rt & a & k & c & col & id & ty & -> & Heq & Ho & Hcol & -> & -> & _). cbn in Hcarried.
    pose proof (array_operand _ _ _ _ _ _ _ _ _ _ _ _ _ _ _ Hsa Htb Hty Ho Hcol ty eq_refl). congruence.
  - apply extract_bool_param, extract_optional_Some in Hx as (arg0 & arg1 & arg & opno & l & rt & a & k & c & col & kind & id & ty & ty'
      & [= -> ->] & Harms & Harg & Heq & Ho & Hcol & [= -> ->]). destruct Hty as (Hty0 & Hty1 & _).
    assert (∀ o : option bool, (datum_bool <$> (bool_datum <$> o)) = o) as Hid
      by (intros [b|]; cbn; by rewrite ?(bool_law Hok)).
    unfold passes at 1, truth. cbn [eval map]. rewrite Hid. cbn [fmap list_fmap]. rewrite or3_two.
    assert (operands_typed r opno l rt ∧
      (datum_bool <$> eval e arg0 = Some true ∨ datum_bool <$> eval e arg1 = Some true
       ↔ eval e (Param PARAM_EXTERN id ty) = None ∨ passes e (OpExpr opno [l; rt]))) as (Hop & ->).
    { destruct Harms as [[Ha Hb]|[Ha Hb]]; [by eapply (optional_arms r e arg0 arg1)|].
      rewrite (or_comm (datum_bool <$> eval e arg0 = _)). by eapply (optional_arms r e arg1 arg0). }
    cbn [pfield param_type]. change (e_param e PARAM_EXTERN id) with (eval e (Param PARAM_EXTERN id ty)).
    destruct (eval e (Param PARAM_EXTERN id ty)) as [d|] eqn:He.
    + rewrite (param_equality _ _ _ _ _ _ opno l rt a k c col id ty d) by done.
      split; [by intros [?|?]|by intros; right].
    + split; [by constructor|by left].
  - cbn in Hx. repeat case_match; try done; by apply fmap_Some in Hx as (? & _ & ?).
Qed.

(** The codec reads the plan's blob back. *)
Definition blob_survives (r : Relation) (rt_index : Z) (target : Target) (name : string) (clauses : list RestrictInfo) : Prop :=
  let blob := plan_private name (split_clauses rt_index r target clauses) in
  decode_private (encode_private blob) = Some blob.

(** ** The quals are ones the handlers apply *)

Definition applied (entry : TableEntry) (q : Qual) : Prop :=
  field q ∈ Catalog.pushdown_columns (e_handler entry) ∧ operator q = Equal ∧ is_supported q = true.

Lemma var_column_pushdown rt_index r entry a k c col :
  var_column rt_index r (Registry entry) a k c = Some col →
  col ∈ Catalog.pushdown_columns (e_handler entry).
Proof.
  unfold var_column. case_match; [done|]. intros (i & _ & Hc)%bind_Some.
  case_bool_decide; by simplify_eq.
Qed.

Lemma equal_applied entry col v :
  col ∈ Catalog.pushdown_columns (e_handler entry) → is_null v = false → applied entry (equal col v).
Proof.
  intros Hc Hv. split; [done|]. split; [done|]. unfold is_supported. cbn. rewrite Hv.
  destruct (is_empty col) eqn:He; [|done]. destruct col; [|done]. by apply pushdown_nonempty in Hc.
Qed.

Lemma operand_not_null r entry rt_index row slot e opno l rt a k c col v ty d j :
  scan_at r entry rt_index row slot e → text_or_boolean entry → operands_typed r opno l rt →
  is_equality_opcode (get_opcode opno) = true → orient l rt = Some (a, k, c, v) →
  var_column rt_index r (Registry entry) a k c = Some col → node_type r v = Some ty →
  datum_to_json ty d = Some j → applied entry (equal col j).
Proof.
  intros Hsa Htb Hty Heq Ho Hcol Hv Hj.
  destruct (var_column_cell _ _ _ _ _ _ _ _ _ _ Hsa Hcol) as (sc & Hin & <- & Hp & Hnt & _).
  apply equal_applied; [done|].
  assert (pair_typed (oid (c_type sc)) ty (get_opcode opno)) as (Hu & _).
  { destruct (orient_Some _ _ _ _ _ _ Ho) as [[[Hl Hr]|[Hl Hr]] Hs].
    - apply (Hty _ _ (Hnt l Hl)); [|done]. by rewrite (node_type_strip r rt v).
    - apply pair_typed_sym. apply (Hty _ _); [|by apply Hnt|done]. by rewrite (node_type_strip r l v). }
  unfold datum_to_json, operand_type in *. destruct (is_text_oid ty) eqn:Ht; [by simplify_eq|].
  destruct (Htb sc Hin Hp) as [Hct|Hct]; rewrite Hct in Hu; cbn in Hu; subst ty; [done|].
  cbn in Hj. by simplify_eq.
Qed.

Lemma value_applied r entry rt_index row slot e clause q :
  scan_at r entry rt_index row slot e → text_or_boolean entry → typed r clause →
  extract_qual rt_index r (Registry entry) clause = Some (PushedValue q) → applied entry q.
Proof.
  intros Hsa Htb Hty Hx.
  assert (∀ a k c b, PushedValue <$> qual_from_var rt_index r (Registry entry) a k c (Bool b) = Some (PushedValue q) →
    applied entry q) as Hvar.
  { intros a k c b (q0 & (col & Hcol & [= <-])%bind_Some & [= ->])%fmap_Some.
    apply equal_applied; [by eapply var_column_pushdown|done]. }
  destruct clause as [a k c| | |opno args|opno use_or args|op args|arg t| | |]; try done.
  - by apply Hvar in Hx.
  - apply extract_equality_value in Hx as (l & rt & a & k & c & col & ty & d & j & -> & Heq & Ho & Hcol & Hj & Hq).
    rewrite (Hq eq_refl). by eapply (operand_not_null _ _ _ _ _ _ opno l rt a k c col (Const ty (Some d))).
  - apply extract_equality_value in Hx as (l & rt & a & k & c & col & ty & d & j & -> & Heq & Ho & Hcol & Hj & Hq).
    pose proof (array_operand _ _ _ _ _ _ _ _ _ _ _ _ _ _ _ Hsa Htb Hty Ho Hcol ty eq_refl) as Hc.
    by rewrite (not_carried ty d Hc) in Hj.
  - destruct op; [done| |cbn in Hx].
    + change (extract_optional_param_qual rt_index r (Registry entry) (BoolExpr OR_EXPR args)
        = Some (PushedValue q)) in Hx.
      by apply extract_optional_Some in Hx as (? & ? & ? & ? & ? & ? & ? & ? & ? & ? & ? & ? & ? & ? & Hx); destruct_and! Hx.
    + destruct args as [|arg [|]]; try done. destruct (strip_coercion arg); try done. by apply Hvar in Hx.
  - cbn in Hx. destruct (strip_coercion arg); try done. destruct t; try done; by apply Hvar in Hx.
Qed.

Lemma param_applied r entry rt_index row slot e clause p node :
  scan_at r entry rt_index row slot e → text_or_boolean entry → typed r clause →
  extract_qual rt_index r (Registry entry) clause = Some (PushedParam p node) →
  is_carried (param_type p) = true → Forall (applied entry) (resolved e p node).
Proof.
  intros Hsa Htb Hty Hx Hc. unfold resolved. destruct (eval e node) as [d|]; [|constructor].
  destruct (datum_to_json (param_type p) d) as [j|] eqn:Hj; [|constructor]. apply Forall_singleton.
  assert (∀ opno l rt a k c col id ty, operands_typed r opno l rt →
    is_equality_opcode (get_opcode opno) = true → orient l rt = Some (a, k, c, Param PARAM_EXTERN id ty) →
    var_column rt_index r (Registry entry) a k c = Some col → datum_to_json ty d = Some j →
    applied entry (equal col j)) as Heqn.
  { intros opno l rt a k c col id ty Ht Heq Ho Hcol Hj'.
    by eapply (operand_not_null _ _ _ _ _ _ opno l rt a k c col (Param PARAM_EXTERN id ty)). }
  destruct clause as [a k c| | |opno args|opno use_or args|op args|arg t| | |]; try done.
  - by cbn in Hx; apply fmap_Some in Hx as (? & _ & ?).
  - apply extract_equality_param in Hx
      as (l & rt & a & k & c & col & id & ty & -> & Heq & Ho & Hcol & -> & -> & _). by eapply Heqn.
  - apply extract_equality_param in Hx
      as (l & rt & a & k & c & col & id & ty & -> & Heq & Ho & Hcol & -> & -> & _). cbn in Hc.
    pose proof (array_operand _ _ _ _ _ _ _ _ _ _ _ _ _ _ _ Hsa Htb Hty Ho Hcol ty eq_refl). congruence.
  - apply extract_bool_param, extract_optional_Some in Hx as (arg0 & arg1 & arg & opno & l & rt & a & k & c & col & kind & id & ty & ty'
      & [= -> ->] & Harms & Harg & Heq & Ho & Hcol & [= -> ->]). destruct Hty as (Hty0 & Hty1 & _).
    apply typed_strip in Hty0, Hty1.
    destruct Harms as [[_ Hb]|[_ Hb]]; rewrite Hb in *; by eapply Heqn.
  - cbn in Hx. repeat case_match; try done; by apply fmap_Some in Hx as (? & _ & ?).
Qed.

(** ** The split, clause by clause *)

Section split.
Variable rt_index : Z.
Variable r : Relation.
Variable target : Target.

Definition decision (c : RestrictInfo) : option Pushed :=
  if ri_pseudoconstant c then None else extract_qual rt_index r target (ri_clause c).
Definition value_of (c : RestrictInfo) : option Qual :=
  match decision c with Some (PushedValue q) => Some q | _ => None end.
Definition param_of (c : RestrictInfo) : option (ParamQual * Node) :=
  match decision c with Some (PushedParam p node) => Some (p, node) | _ => None end.
Definition kept (c : RestrictInfo) : option Node :=
  match decision c with None => Some (ri_clause c) | _ => None end.

Lemma split_spec clauses :
  split_clauses rt_index r target clauses =
  mkSplit (omap value_of clauses) (imap (fun i pn => with_index pn.1 i) (omap param_of clauses))
    (snd <$> omap param_of clauses) (omap kept clauses).
Proof.
  induction clauses as [|c clauses IH] using rev_ind; [done|].
  unfold split_clauses in *. rewrite foldl_snoc, IH. unfold split_step. cbn [sp_pushed sp_params sp_nodes sp_local].
  rewrite !omap_app. cbn [omap list_omap]. unfold value_of, param_of, kept, decision.
  destruct (ri_pseudoconstant c); [by rewrite !app_nil_r|].
  destruct (extract_qual _ _ _ (ri_clause c)) as [[q|p node]|]; cbn; rewrite ?app_nil_r; [done| |done].
  rewrite fmap_app, imap_app, length_fmap. cbn. by rewrite Nat.add_0_r.
Qed.

Lemma resolve_indexed e pre suf :
  resolve_param_quals (eval e) (snd <$> (pre ++ suf)) (imap (fun i pn => with_index pn.1 (length pre + i)) suf)
  = Ok (mjoin ((fun pn => resolved e pn.1 pn.2) <$> suf)).
Proof.
  revert pre. induction suf as [|[p node] suf IH]; intros pre; [done|]. cbn [imap resolve_param_quals].
  rewrite fmap_app. cbn [with_index index pfield param_type fst]. rewrite Nat2Z.id.
  replace (((snd <$> pre) ++ (snd <$> ((p, node) :: suf))) !! (length pre + 0)%nat) with (Some node).
  2:{ rewrite lookup_app_r by (rewrite length_fmap; lia). rewrite length_fmap.
      by replace (length pre + 0 - length pre)%nat with 0%nat by lia. }
  cbn [ok_or mbind result_bind].
  specialize (IH (pre ++ [(p, node)])). rewrite <- app_assoc in IH. cbn [app] in IH. rewrite fmap_app in IH.
  rewrite (imap_ext _ (fun i pn => with_index pn.1 (length (pre ++ [(p, node)]) + i)))
    by (intros i x _; unfold compose; f_equal; rewrite length_app; simpl; lia).
  rewrite IH. cbn [mbind result_bind fmap list_fmap mjoin list_join fst snd]. f_equal.
  unfold resolved. destruct (eval e node) as [d|]; [|done]. by destruct (datum_to_json _ d).
Qed.

(** The executor resolves each parameter qual against its own node. *)
Lemma resolve_split e clauses :
  let s := split_clauses rt_index r target clauses in
  resolve_param_quals (eval e) (sp_nodes s) (sp_params s) =
  Ok (mjoin ((fun pn => resolved e pn.1 pn.2) <$> omap param_of clauses)).
Proof. cbv zeta. rewrite split_spec. exact (resolve_indexed e [] (omap param_of clauses)). Qed.
End split.

Lemma passes_split r entry rt_index row slot e clauses :
  scan_at r entry rt_index row slot e → text_or_boolean entry →
  Forall (fun c => typed r (ri_clause c)) clauses →
  Forall (fun c => ∀ p node, extract_qual rt_index r (Registry entry) (ri_clause c) = Some (PushedParam p node) →
                   param_usable e p node) clauses →
  let quals := omap (value_of rt_index r (Registry entry)) clauses
               ++ mjoin ((fun pn => resolved e pn.1 pn.2) <$> omap (param_of rt_index r (Registry entry)) clauses) in
  (Forall (passes e) (ri_clause <$> clauses) ↔
   Forall (holds entry row) quals ∧ Forall (passes e) (omap (kept rt_index r (Registry entry)) clauses)) ∧
  Forall (applied entry) quals.
Proof.
  intros Hsa Htb Hty Hus. cbv zeta. rewrite !Forall_app.
  induction clauses as [|c clauses IH]; [by split; [split; repeat constructor|repeat constructor]|].
  apply Forall_cons in Hty as [Hc Hty], Hus as [Hu Hus]. destruct (IH Hty Hus) as [Hiff [Ha1 Ha2]]. clear IH.
  rewrite fmap_cons, Forall_cons, Hiff. clear Hiff Hty Hus. revert Ha1 Ha2. cbn [omap list_omap].
  fold (omap (M:=list) (value_of rt_index r (Registry entry)) clauses).
  fold (omap (M:=list) (param_of rt_index r (Registry entry)) clauses).
  fold (omap (M:=list) (kept rt_index r (Registry entry)) clauses).
  generalize (omap (M:=list) (value_of rt_index r (Registry entry)) clauses) as vs,
    (omap (M:=list) (param_of rt_index r (Registry entry)) clauses) as ps,
    (omap (M:=list) (kept rt_index r (Registry entry)) clauses) as ks.
  unfold value_of, param_of, kept, decision. intros ks ps vs Ha1 Ha2.
  destruct (ri_pseudoconstant c) eqn:Hps; [rewrite Forall_cons; tauto|].
  destruct (extract_qual rt_index r (Registry entry) (ri_clause c)) as [[q|p node]|] eqn:Hx;
    [| |rewrite Forall_cons; tauto].
  - rewrite !Forall_cons, (clause_value _ _ _ _ _ _ _ _ Hsa Htb Hc Hx).
    pose proof (value_applied _ _ _ _ _ _ _ _ Hsa Htb Hc Hx). tauto.
  - rewrite fmap_cons. cbn [mjoin list_join fst snd].
    rewrite !Forall_app, (clause_param _ _ _ _ _ _ _ _ _ Hsa Htb Hc Hx (Hu _ _ eq_refl)).
    pose proof (param_applied _ _ _ _ _ _ _ _ _ Hsa Htb Hc Hx (proj1 (Hu _ _ eq_refl))). tauto.
Qed.

Lemma plan_quals r rt_index clauses plan target name e :
  get_foreign_plan r rt_index clauses = Ok plan → target_for_relid r = Ok target → rel_name r = Some name →
  blob_survives r rt_index target name clauses →
  fs_local plan = omap (kept rt_index r target) clauses ∧
  scan_quals (eval e) plan name =
  Ok (omap (value_of rt_index r target) clauses
      ++ mjoin ((fun pn => resolved e pn.1 pn.2) <$> omap (param_of rt_index r target) clauses)).
Proof.
  intros Hp Ht Hn Hcodec. unfold get_foreign_plan, relname_for_relid in Hp. rewrite Ht, Hn in Hp. cbn in Hp.
  case_bool_decide; [done|]. injection Hp as <-. cbn [fs_local fs_private fs_exprs].
  rewrite split_spec at 1. split; [done|].
  unfold scan_quals. cbn [fs_private quals_from_private]. unfold blob_survives in Hcodec. cbv zeta in Hcodec.
  rewrite Hcodec. cbn [plan_private table quals params].
  rewrite bool_decide_true by done. cbn [negb mbind result_bind fs_exprs]. rewrite resolve_split.
  by rewrite split_spec.
Qed.
End lemmas.

Section environments.
Context `{Serde, PgDatum, PgOperators}.

(** A parameter of the plan is an external one, so that its value does not depend
    on the row. *)
Lemma extract_param_external rt_index r target clause p node :
  extract_qual rt_index r target clause = Some (PushedParam p node) → ∃ id ty, node = Param PARAM_EXTERN id ty.
Proof.
  intros Hx. destruct clause as [a k c| | |opno args|opno use_or args|op args|arg t| | |]; try done.
  - by cbn in Hx; apply fmap_Some in Hx as (? & _ & ?).
  - apply extract_equality_param in Hx as (? & ? & ? & ? & ? & ? & id & ty & Hx). destruct_and! Hx. eauto.
  - apply extract_equality_param in Hx as (? & ? & ? & ? & ? & ? & id & ty & Hx). destruct_and! Hx. eauto.
  - apply extract_bool_param, extract_optional_Some in Hx
      as (? & ? & ? & ? & ? & ? & ? & ? & ? & ? & ? & id & ty & ? & Hx). destruct_and! Hx. simplify_eq. eauto.
  - cbn in Hx. repeat case_match; try done; by apply fmap_Some in Hx as (? & _ & ?).
Qed.

Lemma quals_same_params rt_index r target (clauses : list RestrictInfo) e e' :
  (∀ kind id, e_param e kind id = e_param e' kind id) →
  (fun pn => resolved e pn.1 pn.2) <$> omap (param_of rt_index r target) clauses =
  (fun pn => resolved e' pn.1 pn.2) <$> omap (param_of rt_index r target) clauses.
Proof.
  intros He. apply list_fmap_ext. intros i [p node] Hl%list_elem_of_lookup_2.
  apply list_elem_of_omap in Hl as (c & _ & Hc). unfold param_of, decision in Hc.
  destruct (ri_pseudoconstant c); [done|].
  destruct (extract_qual _ _ _ _) as [[q|p' node']|] eqn:Hx; try done. injection Hc as -> ->.
  apply extract_param_external in Hx as (id & ty & ->). unfold resolved. cbn. by rewrite He.
Qed.
End environments.

(** ** Properties *)

(** C7. Pushdown loses no row and lets none through, on a table whose pushed
    columns are text or boolean: with usable parameters, a row whose pushed texts
    hold no NUL satisfies all the clauses of the scan iff it satisfies the quals the
    scan starts with, as the handlers check them, and the clauses left local; and
    every such qual is a supported equality on a column the handler filters by.  The
    clauses are typed as the parser leaves them: a column is compared with its own
    type, by that type's equality. *)
Theorem pushdown_answers `{Serde, PgDatum, PgOperators} (r : Relation) (entry : TableEntry) (rt_index : Z)
    (clauses : list RestrictInfo) (plan : ForeignScan) (name : string) (row : Row) (slot : Slot) (e : Env) :
  target_for_relid r = Ok (Registry entry) → rel_name r = Some name →
  get_foreign_plan r rt_index clauses = Ok plan →
  blob_survives r rt_index (Registry entry) name clauses →
  scan_at r entry rt_index row slot e → text_or_boolean entry →
  Forall (fun c => typed r (ri_clause c)) clauses →
  Forall (fun c => ∀ p node, extract_qual rt_index r (Registry entry) (ri_clause c) = Some (PushedParam p node) →
                   param_usable e p node) clauses →
  ∃ quals, scan_quals (eval e) plan name = Ok quals ∧
    (Forall (passes e) (ri_clause <$> clauses) ↔
     Forall (holds entry row) quals ∧ Forall (passes e) (fs_local plan)) ∧
    Forall (applied entry) quals.
Proof.
  intros Ht Hn Hp Hcodec Hsa Htb Hty Hus.
  destruct (plan_quals r rt_index clauses plan _ name e Hp Ht Hn Hcodec) as [-> ->].
  eexists. split; [done|]. by eapply passes_split.
Qed.

(** C40. A parameter that resolves to nothing is forgotten: for [column = $n] with
    [$n] NULL, which no row satisfies, and for [column = ALL($n)], the clause is
    taken off the local list and the scan starts without any qual. *)
Theorem unresolved_parameter_unfiltered `{Serde, PgDatum, PgOperators} (r : Relation) (target : Target)
    (rt_index : Z) (clause : Node) (plan : ForeignScan) (name : string) (e : Env)
    (opno : Z) (l rt : Node) (a k c id ty : Z) (col : string) :
  target_for_relid r = Ok target → rel_name r = Some name →
  get_foreign_plan r rt_index [mkRestrict clause false] = Ok plan →
  blob_survives r rt_index target name [mkRestrict clause false] →
  is_equality_opcode (get_opcode opno) = true → orient l rt = Some (a, k, c, Param PARAM_EXTERN id ty) →
  var_column rt_index r target a k c = Some col →
  (∀ x, e_operator e (get_opcode opno) [x; None] = None ∧ e_operator e (get_opcode opno) [None; x] = None) →
  clause = OpExpr opno [l; rt] ∧ e_param e PARAM_EXTERN id = None ∨
  clause = ScalarArrayOpExpr opno false [l; rt] ∧ is_carried ty = false →
  fs_local plan = [] ∧ scan_quals (eval e) plan name = Ok [] ∧
  (e_param e PARAM_EXTERN id = None → ¬ passes e (OpExpr opno [l; rt])).
Proof.
  intros Ht Hn Hp Hcodec Heq Ho Hcol Hstrict Hclause.
  destruct (plan_quals r rt_index _ plan target name e Hp Ht Hn Hcodec) as [-> ->].
  assert (extract_qual rt_index r target clause
          = Some (PushedParam (mkParamQual col 0 false ty) (Param PARAM_EXTERN id ty))) as Hx.
  { destruct Hclause as [[-> _]|[-> _]]; cbn; unfold extract_equality; by rewrite Heq, Ho; cbn; rewrite Hcol. }
  cbn [omap list_omap]. unfold kept, value_of, param_of, decision. cbn [ri_pseudoconstant ri_clause]. rewrite Hx.
  split; [done|]. split.
  - cbn. unfold resolved. cbn. destruct Hclause as [[_ ->]|[_ Hc]]; [done|].
    destruct (e_param e PARAM_EXTERN id); [|done]. by rewrite (not_carried ty _ Hc).
  - intros Hnull. unfold passes, truth. cbn. rewrite <- (eval_strip e l), <- (eval_strip e rt).
    destruct (orient_Some _ _ _ _ _ _ Ho) as [[[-> ->]|[-> ->]] _]; cbn; rewrite Hnull.
    + by rewrite (proj1 (Hstrict _)).
    + by rewrite (proj2 (Hstrict _)).
Qed.

(** ** Witnesses *)

Module Wit.
#[local] Existing Instance Datums.Wit.pg.
#[local] Instance ops : PgOperators := {| get_opcode opno := opno |}.
Definition entry : TableEntry := mkEntry TOOLS_SPEC TOOLS_TABLE.
Definition r : Relation :=
  mkRelation (Some "tools") (Some "public") (Some "local") []
    ((fun c => (c_name c, oid (c_type c))) <$> t_columns TOOLS_SPEC).
Definition row : Row := Some (CText "echo") :: replicate 10 None.
Definition slot : Slot := Some (Datums.Wit.DText "echo") :: replicate 10 None.
Definition env (p : option Datum) : Env := {|
  e_var a k c := if (a =? 1) && (c =? 0) then mjoin (slot !! Z.to_nat (k - 1)) else None;
  e_param _ _ := p;
  e_operator op args := match args with
    | [Some x; Some y] => Some (Datums.Wit.DBool (if op =? F_BOOLEQ then Bool.eqb (datum_bool x) (datum_bool y)
                            else bool_decide (text_to_cstring x = text_to_cstring y)))
    | _ => None
    end;
  e_array _ _ _ := None; e_other _ _ := None |}.
(** name = 'echo', $1 IS NULL OR name = $1, and title = 'x', which stays local. *)
Definition name_is (n : Node) : Node := OpExpr F_TEXTEQ [Var 1 1 0; n].
Definition constant : Node := Const (oid Text) (Some (Datums.Wit.DText "echo")).
Definition optional : Node :=
  BoolExpr OR_EXPR [NullTest (Param PARAM_EXTERN 1 (oid Text)) IS_NULL; name_is (Param PARAM_EXTERN 1 (oid Text))].
Definition title_is : Node := OpExpr F_TEXTEQ [Const (oid Text) (Some (Datums.Wit.DText "x")); Var 1 2 0].
Definition clauses : list RestrictInfo :=
  [mkRestrict (name_is constant) false; mkRestrict optional false; mkRestrict title_is false].
Definition blob (clauses : list RestrictInfo) : FdwPrivate :=
  plan_private "tools" (split_clauses (H := {| json_from_str _ := None; json_to_string _ := EmptyString |})
                          1 r (Registry entry) clauses).
Definition codec (clauses : list RestrictInfo) : Serde := {|
  json_from_str s := if bool_decide (s = "blob") then Some (private_to_json (blob clauses)) else None;
  json_to_string _ := "blob" |}.
Definition null_clause : Node := name_is (Param PARAM_EXTERN 1 (oid Text)).
End Wit.

#[local] Existing Instance Datums.Wit.pg.
#[local] Existing Instance Wit.ops.

Lemma wit_scan_at (s : Serde) p : scan_at Wit.r Wit.entry 1 Wit.row Wit.slot (Wit.env p).
Proof.
  constructor.
  - exact Datums.Wit.datum_pg_ok.
  - constructor; intros [x|] [y|]; done.
  - done.
  - apply (bool_decide_unpack _). by vm_compute.
  - repeat constructor.
  - intros [|i] col _ _; [cbn; set_solver|]. change (Wit.row !! S i) with (replicate 10 (@None Cell) !! i).
    by destruct (replicate 10 None !! i) as [[]|] eqn:E; [apply lookup_replicate in E as [[=] _]|..].
  - done.
  - intros k Hk. cbn. done.
Qed.

Lemma wit_typed : Forall (fun c => typed Wit.r (ri_clause c)) Wit.clauses.
Proof.
  assert (∀ l m, node_type Wit.r l = Some (oid Text) → node_type Wit.r m = Some (oid Text) →
    operands_typed Wit.r F_TEXTEQ l m) as Ht.
  { intros l m Hl Hm t u. rewrite Hl, Hm. intros [= <-] [= <-] _. done. }
  unfold Wit.clauses. rewrite !Forall_cons, Forall_nil. cbn. auto 10 using Ht.
Qed.

Lemma wit_usable (s : Serde) :
  Forall (fun c => ∀ p node, extract_qual 1 Wit.r (Registry Wit.entry) (ri_clause c) = Some (PushedParam p node) →
                   param_usable (Wit.env None) p node) Wit.clauses.
Proof.
  unfold Wit.clauses. rewrite !Forall_cons, Forall_nil.
  assert (extract_qual 1 Wit.r (Registry Wit.entry) Wit.optional
          = Some (PushedParam (mkParamQual "name" 0 true 25) (Param PARAM_EXTERN 1 25))) as Ho by reflexivity.
  refine (conj _ (conj _ (conj _ I))); intros p node; cbn [ri_clause]; [done| |done].
  rewrite Ho. intros [= <- <-]. by split.
Qed.

(** The plan keeps only the title clause; the two others become quals. *)
Example plan_run :
  let s := split_clauses (H := Wit.codec Wit.clauses) 1 Wit.r (Registry Wit.entry) Wit.clauses in
  sp_pushed s = [equal "name" (Str "echo")] ∧ sp_params s = [mkParamQual "name" 0 true 25] ∧
  sp_nodes s = [Param PARAM_EXTERN 1 25] ∧ sp_local s = [Wit.title_is].
Proof. done. Qed.

Lemma pushdown_answers_witness :
  let _ := Wit.codec Wit.clauses in
  ∃ plan, get_foreign_plan Wit.r 1 Wit.clauses = Ok plan ∧
    ∃ quals, scan_quals (eval (Wit.env None)) plan "tools" = Ok quals ∧
    (Forall (passes (Wit.env None)) (ri_clause <$> Wit.clauses) ↔
     Forall (holds Wit.entry Wit.row) quals ∧ Forall (passes (Wit.env None)) (fs_local plan)) ∧
    Forall (applied Wit.entry) quals.
Proof.
  intros cdc. eexists. split; [reflexivity|].
  refine (@pushdown_answers cdc Datums.Wit.pg Wit.ops Wit.r Wit.entry 1 Wit.clauses _ "tools" Wit.row Wit.slot
    (Wit.env None) eq_refl eq_refl eq_refl eq_refl (wit_scan_at cdc None) _ _ _).
  - intros c Hc Hp. cbn in Hc, Hp. rewrite !elem_of_cons, elem_of_nil in Hc.
    rewrite list_elem_of_singleton in Hp. destruct_or! Hc; subst; try done; by left.
  - apply wit_typed.
  - apply wit_usable.
Defined.

Lemma unresolved_parameter_unfiltered_witness :
  let cl := [mkRestrict Wit.null_clause false] in
  let _ := Wit.codec cl in
  ∃ plan, get_foreign_plan Wit.r 1 cl = Ok plan ∧
    fs_local plan = [] ∧ scan_quals (eval (Wit.env None)) plan "tools" = Ok [] ∧
    (e_param (Wit.env None) PARAM_EXTERN 1 = None → ¬ passes (Wit.env None) Wit.null_clause).
Proof.
  intros cl cdc. eexists. split; [reflexivity|].
  refine (@unresolved_parameter_unfiltered cdc Datums.Wit.pg Wit.ops Wit.r (Registry Wit.entry) 1
    Wit.null_clause _ "tools" (Wit.env None) F_TEXTEQ (Var 1 1 0) (Param PARAM_EXTERN 1 25) 1 1 0 1 25 "name"
    eq_refl eq_refl eq_refl eq_refl eq_refl eq_refl eq_refl _ _).
  - intros [x|]; done.
  - left. done.
Defined.

(** The filter is gone: every row is returned although none satisfies the clause. *)
Example null_parameter_returns_everything :
  ¬ passes (Wit.env None) Wit.null_clause ∧
  sp_local (split_clauses (H := Wit.codec []) 1 Wit.r (Registry Wit.entry) [mkRestrict Wit.null_clause false]) = [].
Proof. split; [by vm_compute|done]. Qed.

(** [name = ANY(ARRAY['echo'])], as the planner folds it, is not recognized: no
    constant of an array type has a JSON form (1009 is text[]). *)
Example any_constant_stays_local :
  extract_qual (H := Wit.codec []) 1 Wit.r (Registry Wit.entry)
    (ScalarArrayOpExpr F_TEXTEQ true [Var 1 1 0; Const 1009 (Some (Datums.Wit.DText "{echo}"))]) = None.
Proof. done. Qed.
End Pushdown.
