(* ===== verification/Fdw.v ===== *)
(** * fdw.rs: the executor callbacks

    The scan callbacks over the handler's cursor, the modify callbacks over its
    insert session, [IMPORT FOREIGN SCHEMA], and the constants the planner is
    told.  The backend's thread-local state is one record here, of which each
    handler sees its part.  A raised error ends the statement: it is the outcome. *)

From Stdlib Require Import Ascii String ZArith Lia.
From stdpp Require Import base numbers gmap sets strings pretty list relations.
From S2P Require Import Prelude Str Json Errors Options Quals Tables Cursor Client Session Cache Catalog.
From S2P Require Import Readthrough ToolCalls Ident Codegen Ddl ImportSchema Registry PerTool Datum Pushdown.
Import Options Quals Tables Client Session Datums Pushdown.
#[local] Open Scope Z_scope.
#[local] Existing Instance Cache.Slice_eq_dec.
#[local] Existing Instance Cache.Slice_countable.

Module Fdw.

(** ** State and failures *)

Record Backend : Type := mkBackend {
  fb_caches : Cache.Caches;
  fb_warnings : list string;
  fb_logs : ToolCalls.CallLogs;
  fb_audit : list string;
}.

(** A report of the program, or the error a C function of PostgreSQL raised. *)
Inductive Failure : Type := Reported (report : Report) | PgRaised (message : string).

Definition raised (e : McpError) : Failure := Reported (raise e).
Definition raised_ctx (server : string) (e : McpError) : Failure := Reported (raise_ctx e server "tools/call").

Abbreviation FM := (M (Sessions Backend) Failure).

(** Run a handler on its part of the state. *)
Definition zoom {X E A} (part : Backend → X) (update : X → Backend → Backend) (failure : E → Failure)
    (m : M (Sessions X) E A) : FM A := fun st =>
  let '(r, st') := m (mkSessions (sessions st) (world st) (part (extra st))) in
  (map_err failure r, mkSessions (sessions st') (world st') (update (extra st') (extra st))).

Definition set_caches (c : Cache.Caches) (b : Backend) : Backend :=
  mkBackend c (fb_warnings b) (fb_logs b) (fb_audit b).
Definition per_tool_part (b : Backend) : PerTool.Locals := PerTool.mkLocals (fb_caches b) (fb_warnings b) (fb_audit b).
Definition set_per_tool (l : PerTool.Locals) (b : Backend) : Backend :=
  mkBackend (PerTool.pt_caches l) (PerTool.pt_warnings l) (fb_logs b) (fb_audit b).
Definition tool_calls_part (b : Backend) : ToolCalls.Locals := ToolCalls.mkLocals (fb_logs b) (fb_audit b).
Definition set_tool_calls (l : ToolCalls.Locals) (b : Backend) : Backend :=
  mkBackend (fb_caches b) (fb_warnings b) (ToolCalls.call_logs l) (ToolCalls.spi_done l).

Definition per_tool_failure (on_error : McpError → Failure) (a : PerTool.Abort) : Failure :=
  match a with PerTool.Mcp e => on_error e | PerTool.PgError m => PgRaised m end.

(** ** Cursors *)

(** [Box<dyn ScanCursor>]: one of the four implementations, and the calls through it. *)
Inductive BoxedCursor : Type :=
  | OfRows (c : RowsCursor)
  | OfBuffer (c : Readthrough.BufferedCursor)
  | OfLog (c : ToolCalls.LogCursor)
  | OfTool (c : PerTool.PerToolCursor).

Definition through {C R} (wrap : C → BoxedCursor) (out : R * C) : R * BoxedCursor := (out.1, wrap out.2).

Definition cursor_iter (c : BoxedCursor) : McpResult (option Row) * BoxedCursor :=
  match c with
  | OfRows c => through OfRows (iter_scan c)
  | OfBuffer c => through OfBuffer (iter_scan c)
  | OfLog c => through OfLog (iter_scan c)
  | OfTool c => through OfTool (iter_scan c)
  end.
Definition cursor_re_scan (c : BoxedCursor) : McpResult unit * BoxedCursor :=
  match c with
  | OfRows c => through OfRows (re_scan c)
  | OfBuffer c => through OfBuffer (re_scan c)
  | OfLog c => through OfLog (re_scan c)
  | OfTool c => through OfTool (re_scan c)
  end.

#[global] Instance boxed_cursor : ScanCursor BoxedCursor := {|
  iter_scan := cursor_iter; re_scan := cursor_re_scan |}.

#[global] Program Instance boxed_cursor_laws : ScanCursorLaws BoxedCursor := {|
  cursor_rest c := match c with
    OfRows c => cursor_rest c | OfBuffer c => cursor_rest c | OfLog c => cursor_rest c | OfTool c => cursor_rest c end;
  cursor_restart c := match c with
    OfRows c => cursor_restart c | OfBuffer c => cursor_restart c | OfLog c => cursor_restart c
    | OfTool c => cursor_restart c end;
  rewinds c := match c with
    OfRows c => rewinds c | OfBuffer c => rewinds c | OfLog c => rewinds c | OfTool c => rewinds c end |}.
Next Obligation. intros [c|c|c|c]; apply rest_suffix. Qed.
Next Obligation.
  intros [c|c|c|c]; unfold iter_scan at 1 2, boxed_cursor, cursor_iter, through; pose proof (iter_scan_next c) as Hi;
    (destruct (cursor_rest c); [by rewrite Hi|destruct Hi as (c' & -> & Hi); eexists; split; [done|exact Hi]]).
Qed.
Next Obligation.
  intros [c|c|c|c]; unfold re_scan, boxed_cursor, cursor_re_scan, through;
    destruct (re_scan_restarts c) as (c' & Hr & Hs); rewrite Hr; (eexists; split; [done|exact Hs]).
Qed.

(** ** Scan callbacks *)

Section callbacks.
Context `{Serde, Net, UrlLib, PgCatalog, Unicode, Spi, PgEnv, PgInput, PgDatum, PgOperators} {profile : Build}.

Definition resolve_for_relid (r : Relation) : McpResult (Target * string * Resolved) :=
  target ← target_for_relid r;
  server_name ← server_name_for_relid r;
  resolved ← resolve server_name;
  Ok (target, server_name, resolved).

(** [handler.begin_scan(ctx)] of a registry entry. *)
Definition begin_registry_scan (h : Handler) (ctx : ScanContext) : FM BoxedCursor :=
  let catalog (m : M (Sessions Cache.Caches) McpError RowsCursor) : FM BoxedCursor :=
    c ← zoom fb_caches set_caches raised m; mret (OfRows c) in
  let read_through (m : M (Sessions Backend) Report Readthrough.BufferedCursor) : FM BoxedCursor := fun st =>
    let '(r, st') := m st in (map_err Reported (OfBuffer <$> r), st') in
  match h with
  | SERVER_TABLE => catalog (Catalog.server_scan ctx)
  | TOOLS_TABLE => catalog (Catalog.tools_scan ctx)
  | PROMPTS_TABLE => catalog (Catalog.prompts_scan ctx)
  | PROMPT_ARGUMENTS_TABLE => catalog (Catalog.prompt_arguments_scan ctx)
  | RESOURCES_TABLE => catalog (Catalog.resources_scan ctx)
  | RESOURCE_TEMPLATES_TABLE => catalog (Catalog.resource_templates_scan ctx)
  | RESOURCE_CONTENTS_TABLE => read_through (Readthrough.begin_scan Readthrough.resource_contents_rows ctx)
  | PROMPT_MESSAGES_TABLE => read_through (Readthrough.begin_scan Readthrough.prompt_messages_rows ctx)
  | COMPLETIONS_TABLE => read_through (Readthrough.begin_scan Readthrough.completions_rows ctx)
  | TOOL_CALLS_TABLE => fun st => (Ok (OfLog (ToolCalls.begin_scan ctx (fb_logs (extra st)))), st)
  end.

Definition EXEC_FLAG_EXPLAIN_ONLY : Z := 1.
Definition explain_only (eflags : Z) : bool := negb (Z.land eflags EXEC_FLAG_EXPLAIN_ONLY =? 0).

(** The cursor kept in [node->fdw_state]; none under EXPLAIN. *)
Definition begin_foreign_scan (r : Relation) (eflags : Z) (plan : ForeignScan)
    (exec_eval : Node → option Datum) : FM (option BoxedCursor) :=
  if explain_only eflags then mret None
  else
    relname ← m_lift (map_err raised (relname_for_relid r));
    '(target, server_name, resolved) ← m_lift (map_err raised (resolve_for_relid r));
    quals ← m_lift (map_err raised (scan_quals exec_eval plan relname));
    match target with
    | Pushdown.Registry entry =>
        c ← begin_registry_scan (e_handler entry)
              (mkScanContext (mkTableContext (e_spec entry) server_name resolved (rel_options r)) quals);
        mret (Some c)
    | PerToolTable t =>
        table_qual ← m_lift (map_err raised (table_qual_for_relid r));
        c ← zoom per_tool_part set_per_tool (per_tool_failure raised)
                 (PerTool.begin_scan (PerTool.mkContext t table_qual server_name resolved quals));
        mret (Some (OfTool c))
    end.

(** [IterateForeignScan]: the slot, empty when there is no row. *)
Definition iterate_foreign_scan {C} `{ScanCursor C} (natts : nat) (state : option C) :
    result Failure (option Slot) * option C :=
  match state with
  | None => (Ok None, None)
  | Some c =>
      let '(r, c') := iter_scan c in
      (row ← map_err raised r;
       match row with
       | Some row => slot ← map_err PgRaised (fill_slot natts row); Ok (Some slot)
       | None => Ok None
       end, Some c')
  end.

Definition re_scan_foreign_scan {C} `{ScanCursor C} (state : option C) : result Failure unit * option C :=
  match state with
  | None => (Ok tt, None)
  | Some c => let '(r, c') := re_scan c in (map_err raised r, Some c')
  end.
Definition end_foreign_scan {C} (state : option C) : option C := None.

(** ** Modify callbacks *)

Inductive CmdType : Type := CMD_SELECT | CMD_UPDATE | CMD_INSERT | CMD_DELETE | CMD_MERGE.

Inductive ModifyHolder : Type :=
  | RegistryHolder (entry : TableEntry) (ctx : TableContext)
  | PerToolHolder (ctx : PerTool.PerToolContext).

Definition operation_name (op : CmdType) : string :=
  match op with CMD_UPDATE => "UPDATE" | CMD_DELETE => "DELETE" | _ => "this operation" end.

Definition insert_only (op : CmdType) (name : string) : McpError :=
  FeatureNotSupported (operation_name op +:+ " on foreign table " +:+ quoted name
    +:+ " is not supported; MCP tables accept INSERT only (PRD-7 §4.7 / PRD-8 §4.2)").

(** The plan keeps the table's name, and nothing resolved. *)
Definition plan_foreign_modify (r : Relation) : FM (list string) :=
  name ← m_lift (map_err raised (relname_for_relid r)); mret [name].

Definition begin_foreign_modify (r : Relation) (op : CmdType) (eflags : Z) : FM (option ModifyHolder) :=
  if explain_only eflags then mret None
  else match op with
  | CMD_INSERT =>
      '(target, server_name, resolved) ← m_lift (map_err raised (resolve_for_relid r));
      match target with
      | Pushdown.Registry entry =>
          match e_handler entry with
          | TOOL_CALLS_TABLE => mret (Some (RegistryHolder entry
                                  (mkTableContext (e_spec entry) server_name resolved (rel_options r))))
          | _ => m_lift (map_err raised default_begin_modify)
          end
      | PerToolTable t =>
          table_qual ← m_lift (map_err raised (table_qual_for_relid r));
          mret (Some (PerToolHolder (PerTool.mkContext t table_qual server_name resolved [])))
      end
  | _ =>
      name ← m_lift (map_err raised (relname_for_relid r));
      m_fail (raised (insert_only op name))
  end.

(** One row inserted; the slot then holds the row that RETURNING sees. *)
Definition exec_foreign_insert (r : Relation) (holder : option ModifyHolder) (slot : Slot) : FM Slot :=
  row ← match holder with
        | None => m_fail (raised (Internal "foreign insert ran before begin_foreign_modify"))
        | Some (RegistryHolder entry ctx) =>
            cells ← m_lift (map_err raised (read_slot slot (e_spec entry)));
            zoom tool_calls_part set_tool_calls (raised_ctx (tc_server_name ctx))
              (ToolCalls.insert ctx (mkInsertRow (e_spec entry) cells))
        | Some (PerToolHolder ctx) =>
            supplied ← m_lift (map_err raised (read_slot_json (rel_attributes r) slot));
            zoom per_tool_part set_per_tool (per_tool_failure (raised_ctx (PerTool.pt_server_name ctx)))
              (PerTool.insert ctx supplied)
        end;
  m_lift (map_err PgRaised (fill_slot (length (rel_attributes r)) row)).

Definition append_only (what : string) (name : string) : McpError :=
  FeatureNotSupported (what +:+ " on foreign table " +:+ quoted name
    +:+ " is not supported; the call log is append-only (PRD-7 §4.7)").
Definition exec_foreign_update (r : Relation) : FM Slot :=
  name ← m_lift (map_err raised (relname_for_relid r)); m_fail (raised (append_only "UPDATE" name)).
Definition exec_foreign_delete (r : Relation) : FM Slot :=
  name ← m_lift (map_err raised (relname_for_relid r)); m_fail (raised (append_only "DELETE" name)).
Definition end_foreign_modify (holder : option ModifyHolder) : option ModifyHolder := None.

(** The bitmap of supported operations, by the numbers of [CmdType]. *)
Definition is_foreign_rel_updatable : Z := Z.lor (Z.lor (Z.shiftl 1 3) (Z.shiftl 1 2)) (Z.shiftl 1 4).
Definition is_foreign_scan_parallel_safe : bool := false.

(** ** IMPORT FOREIGN SCHEMA *)

Inductive ImportListType : Type := IMPORT_ALL | IMPORT_LIMIT_TO | IMPORT_EXCEPT.
Record ImportStmt : Type := mkImportStmt {
  is_remote_schema : option string;
  is_local_schema : option string;
  is_list_type : ImportListType;
  is_table_list : list (option string);
}.

Definition wrong_remote (remote : string) : McpError :=
  InvalidSchemaName ("the mcp_fdw wrapper exports exactly one remote schema: " +:+ quoted "mcp" +:+ ", not "
                     +:+ quoted remote).

Fixpoint table_names (l : list (option string)) : McpResult (list string) :=
  match l with
  | [] => Ok []
  | x :: rest => name ← cstr_to_string x "table name"; names ← table_names rest; Ok (name :: names)
  end.

Definition import_filter (stmt : ImportStmt) : McpResult ImportSchema.TableFilter :=
  match is_list_type stmt with
  | IMPORT_LIMIT_TO => names ← table_names (is_table_list stmt); Ok (ImportSchema.LimitTo names)
  | IMPORT_EXCEPT => names ← table_names (is_table_list stmt); Ok (ImportSchema.Except names)
  | IMPORT_ALL => Ok ImportSchema.AllTables
  end.

(** [CString::new] of each statement. *)
Fixpoint c_strings (l : list string) : McpResult (list string) :=
  match l with
  | [] => Ok []
  | s :: rest =>
      if bool_decide (0 ∈ bytes s) then Err (Internal "DDL contained NUL")
      else more ← c_strings rest; Ok (s :: more)
  end.

Definition import_foreign_schema (stmt : ImportStmt) (server : option string) : McpResult (list string) :=
  remote ← cstr_to_string (is_remote_schema stmt) "remote schema";
  if negb (bool_decide (remote = "mcp")) then Err (wrong_remote remote)
  else
    local ← cstr_to_string (is_local_schema stmt) "local schema";
    server_name ← cstr_to_string server "foreign server";
    filter ← import_filter stmt;
    c_strings (ImportSchema.statements server_name local filter).
End callbacks.

(** ** Lemmas: the scan as a state machine *)

Section machine.
Context `{Serde, PgDatum} {C : Type} `{ScanCursorLaws C}.
Variable natts : nat.

Inductive step : option C → option C → Prop :=
  | step_iterate s : step s (iterate_foreign_scan natts s).2
  | step_re_scan s : step s (re_scan_foreign_scan s).2
  | step_end s : step s (end_foreign_scan s).

(** The rows still to come. *)
Definition rest (s : option C) : list Row := from_option cursor_rest [] s.

(** A scan over a list of rows: nothing but those can still come back, and all of
    them do when the cursor rewinds. *)
Definition scans (rows : list Row) (all : bool) (s : option C) : Prop :=
  match s with
  | None => True
  | Some c => cursor_restart c `suffix_of` rows ∧ (all = true → rewinds c = true ∧ cursor_restart c = rows)
  end.

Lemma scans_step rows all s s' : step s s' → scans rows all s → scans rows all s'.
Proof.
  intros [[c|]|[c|]|s0]; try done; cbn; intros [Hs Ha].
  - pose proof (iter_scan_next c) as Hc. destruct (cursor_rest c) as [|row more]; [by rewrite Hc|].
    destruct Hc as (c' & -> & _ & Hsuf & Hw & Hr). cbn. split; [by etrans|]. intros [Hc <-]%Ha.
    rewrite Hw. auto.
  - destruct (re_scan_restarts c) as (c' & -> & _ & Hr & Hw). cbn. by rewrite Hr, Hw.
Qed.

Lemma scans_reachable rows all s s' : rtc step s s' → scans rows all s → scans rows all s'.
Proof. induction 1; eauto using scans_step. Qed.

Lemma scans_rest rows all s : scans rows all s → rest s `suffix_of` rows.
Proof.
  destruct s as [c|]; cbn; [|intros _; apply suffix_nil]. intros [Hs _]. etrans; [apply rest_suffix|exact Hs].
Qed.

(** [k] calls of [IterateForeignScan]. *)
Fixpoint iterates (k : nat) (s : option C) : result Failure (list (option Slot)) :=
  match k with
  | O => Ok []
  | S k =>
      let '(r, s') := iterate_foreign_scan natts s in
      out ← r; more ← iterates k s'; Ok (out :: more)
  end.

Lemma iterates_dry k s : rest s = [] → iterates k s = Ok (replicate k None).
Proof.
  intros Hr. induction k as [|k IH]; [done|]. cbn. destruct s as [c|]; cbn.
  - cbn in Hr. pose proof (iter_scan_next c) as Hc. rewrite Hr in Hc. rewrite Hc. cbn. by rewrite IH.
  - by rewrite IH.
Qed.

Lemma iterates_rest j slots s :
  mapM (fill_slot natts) (rest s) = Ok slots →
  iterates (length slots + j) s = Ok ((Some <$> slots) ++ replicate j None).
Proof.
  revert s. induction slots as [|slot slots IH]; intros s Hm.
  - apply iterates_dry. destruct (rest s); [done|]. cbn in Hm.
    apply result_bind_Ok in Hm as (? & _ & Hm). by apply result_bind_Ok in Hm as (? & _ & ?).
  - destruct s as [c|]; [|done]. cbn in Hm. pose proof (iter_scan_next c) as Hc.
    destruct (cursor_rest c) as [|row more]; [done|]. destruct Hc as (c' & Hi & Hc' & _).
    cbn in Hm. apply result_bind_Ok in Hm as (x & Hx & Hm). apply result_bind_Ok in Hm as (xs & Hxs & Hm).
    injection Hm as -> ->. cbn. rewrite Hi. cbn. rewrite Hx. cbn.
    rewrite (IH (Some c')) by (cbn; by rewrite Hc'). done.
Qed.

Lemma mapM_suffix l k slots :
  l `suffix_of` k → mapM (fill_slot natts) k = Ok slots → ∃ part, mapM (fill_slot natts) l = Ok part ∧ part `suffix_of` slots.
Proof.
  intros [pre ->]. revert slots. induction pre as [|x pre IH]; intros slots; cbn; [by exists slots|].
  intros (y & _ & (ys & Hys & [= <-])%result_bind_Ok)%result_bind_Ok.
  destruct (IH ys Hys) as (part & Hp & Hsuf). exists part. split; [done|]. by apply suffix_cons_r.
Qed.

Lemma re_scan_rest c : (∃ s', re_scan_foreign_scan (Some c) = (Ok tt, s') ∧ rest s' = cursor_restart c).
Proof. destruct (re_scan_restarts c) as (c' & Hr & Hrest & _). cbn. rewrite Hr. by eexists. Qed.
End machine.

(** ** Properties *)

(** C15. Every scan runs dry, whatever keeps the promises of a cursor: from any
    state the callbacks can reach after a scan over [rows] began, in whatever order
    iterate, re-scan and end came, at most [length rows] more iterations return the
    rows still to come, in order, and every later one an empty slot; a re-scan never
    fails, and over a cursor that rewinds it brings all the rows back. *)
Theorem scan_runs_dry `{Serde, PgDatum} {C} `{ScanCursorLaws C} (natts : nat) (rows : list Row)
    (slots : list Slot) (all : bool) (start now : option C) :
  scans rows all start → rtc (step natts) start now → mapM (fill_slot natts) rows = Ok slots →
  (∃ part, part `suffix_of` slots ∧ mapM (fill_slot natts) (rest now) = Ok part ∧
     ∀ j, iterates natts (length part + j) now = Ok ((Some <$> part) ++ replicate j None)) ∧
  (∀ c, now = Some c → ∃ again, re_scan_foreign_scan now = (Ok tt, again) ∧
     (all = true →
      ∀ j, iterates natts (length slots + j) again = Ok ((Some <$> slots) ++ replicate j None))).
Proof.
  intros Hs Hr Hm. pose proof (scans_reachable natts _ _ _ _ Hr Hs) as Hnow. split.
  - destruct (mapM_suffix natts _ _ _ (scans_rest rows all now Hnow) Hm) as (part & Hp & Hsuf).
    exists part. split; [done|]. split; [done|]. intros j. by apply iterates_rest.
  - intros c ->. destruct (re_scan_rest c) as (again & Hag & Hrest). exists again. split; [done|].
    intros Hall j. apply iterates_rest. rewrite Hrest. destruct Hnow as [_ Hnow].
    destruct (Hnow Hall) as [_ ->]. exact Hm.
Qed.

(** ** Lemmas: begin and insert *)

Section begin.
Context `{Serde, Net, UrlLib, PgCatalog, Unicode, Spi, PgEnv, PgInput, PgDatum, PgOperators} {profile : Build}.

Lemma backend_eta (st : Sessions Backend) : mkSessions (sessions st) (world st) (extra st) = st.
Proof. by destruct st. Qed.

Lemma zoom_pure {X E A} (part : Backend → X) update failure (m : M (Sessions X) E A) (st : Sessions Backend) r :
  (∀ b, update (part b) b = b) → m (mkSessions (sessions st) (world st) (part (extra st)))
    = (r, mkSessions (sessions st) (world st) (part (extra st))) →
  zoom part update failure m st = (map_err failure r, st).
Proof. intros Hu Hm. unfold zoom. rewrite Hm. cbn. by rewrite Hu, backend_eta. Qed.

Lemma zoom_Ok {X E A} (part : Backend → X) update failure (m : M (Sessions X) E A) (st st' : Sessions Backend) a :
  zoom part update failure m st = (Ok a, st') →
  ∃ st1, m (mkSessions (sessions st) (world st) (part (extra st))) = (Ok a, st1) ∧
    st' = mkSessions (sessions st1) (world st1) (update (extra st1) (extra st)).
Proof.
  unfold zoom. destruct (m _) as [[x|e] st1]; intros Hz; simplify_eq/=. by exists st1.
Qed.

(** What a scan does once its table, server and quals are known. *)
Definition open_scan (r : Relation) (target : Target) (server_name : string) (resolved : Resolved)
    (quals : list Qual) : FM (option BoxedCursor) :=
  match target with
  | Pushdown.Registry entry =>
      c ← begin_registry_scan (e_handler entry)
            (mkScanContext (mkTableContext (e_spec entry) server_name resolved (rel_options r)) quals);
      mret (Some c)
  | PerToolTable t =>
      table_qual ← m_lift (map_err raised (table_qual_for_relid r));
      c ← zoom per_tool_part set_per_tool (per_tool_failure raised)
               (PerTool.begin_scan (PerTool.mkContext t table_qual server_name resolved quals));
      mret (Some (OfTool c))
  end.

Lemma begin_opens r eflags plan ev st name target server_name resolved quals :
  explain_only eflags = false → rel_name r = Some name →
  resolve_for_relid r = Ok (target, server_name, resolved) → scan_quals ev plan name = Ok quals →
  begin_foreign_scan r eflags plan ev st = open_scan r target server_name resolved quals st.
Proof.
  intros He Hn Hr Hq. unfold begin_foreign_scan, relname_for_relid. rewrite He, Hn, Hr.
  unfold mbind, M_bind, m_lift. cbn. rewrite Hq. by destruct target.
Qed.

Lemma begin_Ok r eflags plan ev st c st' :
  begin_foreign_scan r eflags plan ev st = (Ok (Some c), st') →
  ∃ name target server_name resolved quals, rel_name r = Some name ∧
    resolve_for_relid r = Ok (target, server_name, resolved) ∧ scan_quals ev plan name = Ok quals ∧
    open_scan r target server_name resolved quals st = (Ok (Some c), st').
Proof.
  unfold begin_foreign_scan. destruct (explain_only eflags); [done|].
  unfold relname_for_relid. destruct (rel_name r) as [name|] eqn:Hn; [|done].
  unfold mbind, M_bind, m_lift. cbn.
  destruct (resolve_for_relid r) as [[[target server_name] resolved]|e] eqn:Hr; [|done]. cbn.
  destruct (scan_quals ev plan name) as [quals|e] eqn:Hq; [|done]. cbn.
  intros Hb. exists name, target, server_name, resolved, quals. by destruct target.
Qed.
End begin.

(** Beginning a scan touches nothing it need not: under EXPLAIN no handler
    runs; a table that is not managed (0A000), a failed credential resolution
    and a plan made for another table fail before any traffic; a per-tool table
    behind a closed gate is 0A000; and a scan of the call log succeeds from
    memory.  In all of these the sessions, the caches, the logs and the peer are
    what they were. *)
Theorem begin_scan_without_io `{Serde, Net, UrlLib, PgCatalog, Unicode, Spi, PgEnv, PgInput, PgDatum, PgOperators} {profile : Build}
    (r : Relation) (eflags : Z) (plan : ForeignScan) (ev : Node → option Datum) (name : string)
    (st : Sessions Backend) :
  rel_name r = Some name →
  if explain_only eflags then begin_foreign_scan r eflags plan ev st = (Ok None, st)
  else match resolve_for_relid r, scan_quals ev plan name with
  | Err e, _ | Ok _, Err e => begin_foreign_scan r eflags plan ev st = (Err (raised e), st)
  | Ok (target, server_name, resolved), Ok quals =>
      match target with
      | PerToolTable t =>
          ∀ schema, rel_schema r = Some schema → PerTool.pt_invoke_on_select t = false →
            ∃ e, begin_foreign_scan r eflags plan ev st = (Err (raised e), st) ∧ sqlstate e = "0A000"
      | Pushdown.Registry entry =>
          e_handler entry = TOOL_CALLS_TABLE →
            ∃ rows, begin_foreign_scan r eflags plan ev st = (Ok (Some (OfLog (ToolCalls.mkLogCursor rows))), st) ∧
              ∀ row, row ∈ rows → ∃ rec,
                rec ∈ ToolCalls.snapshot (key_of resolved) (fb_logs (extra st)) ∧
                row = ToolCalls.row_from_record rec
      end
  end.
Proof.
  intros Hn. destruct (explain_only eflags) eqn:He; [unfold begin_foreign_scan; by rewrite He|].
  destruct (resolve_for_relid r) as [[[target server_name] resolved]|e] eqn:Hr.
  2:{ unfold begin_foreign_scan, relname_for_relid. rewrite He, Hn, Hr. done. }
  destruct (scan_quals ev plan name) as [quals|e] eqn:Hq.
  2:{ unfold begin_foreign_scan, relname_for_relid. rewrite He, Hn, Hr. unfold mbind, M_bind, m_lift. cbn. by rewrite Hq. }
  destruct target as [entry|t].
  - intros Hh. rewrite (begin_opens _ _ _ _ _ _ _ _ _ _ He Hn Hr Hq). cbn [open_scan]. rewrite Hh.
    eexists. split; [done|]. intros row (rec & -> & Hrec)%list_elem_of_fmap. exists rec.
    apply list_elem_of_filter in Hrec as [_ Hrec]. done.
  - intros schema Hsch Hgate. rewrite (begin_opens _ _ _ _ _ _ _ _ _ _ He Hn Hr Hq). cbn [open_scan].
    unfold table_qual_for_relid, relname_for_relid. rewrite Hsch, Hn.
    eexists. unfold mbind, M_bind, m_lift. cbn.
    rewrite (zoom_pure per_tool_part set_per_tool (per_tool_failure raised) _ st
      (Err (PerTool.Mcp (PerTool.gated (PerTool.mkContext t (Ddl.quote_ident schema +:+ "." +:+ Ddl.quote_ident name)
        server_name resolved quals))))).
    + split; [reflexivity|done].
    + by intros [].
    + unfold PerTool.begin_scan, PerTool.check_gate. cbn. rewrite Hgate. done.
Qed.

Section modify.
Context `{Serde, Net, UrlLib, PgCatalog, Unicode, Spi, PgEnv, PgInput, PgDatum, PgOperators} {profile : Build}.

(** An insert into the call log, taken apart. *)
Lemma exec_insert_log r entry ctx slot st slot' st' :
  exec_foreign_insert r (Some (RegistryHolder entry ctx)) slot st = (Ok slot', st') →
  ∃ cells rec, read_slot slot (e_spec entry) = Ok cells ∧
    ToolCalls.input_tool (mkInsertRow (e_spec entry) cells) = Ok (ToolCalls.r_tool rec) ∧
    fb_logs (extra st') = ToolCalls.record (cache_key ctx) rec (fb_logs (extra st)) ∧
    fb_caches (extra st') = fb_caches (extra st) ∧
    fill_slot (length (rel_attributes r)) (ToolCalls.row_from_record rec) = Ok slot'.
Proof.
  unfold exec_foreign_insert.
  intros (row & st1 & Hrow & [Hf ->]%PerTool.m_lift_Ok)%m_bind_inv_ok.
  apply m_bind_inv_ok in Hrow as (cells & st0 & [Hc ->]%PerTool.m_lift_Ok & Hrow).
  apply PerTool.map_err_Ok in Hc, Hf.
  apply zoom_Ok in Hrow as (st2 & Hi & ->). apply ToolCalls.insert_inv in Hi as [(e & _ & ? & _)|(tool & Ht & Hi)]; [done|].
  cbn in Hi. destruct Hi as [(e & _ & ? & _)|(res & st3 & Hcall & Hi)]; [done|].
  set (rec := ToolCalls.make_record _ _ _ _ _ _) in Hi.
  destruct (ToolCalls.audit_append ctx rec _) as [audited done'] eqn:Ha. destruct Hi as [-> Hout].
  destruct audited as [u|e]; [|done]. injection Hout as ->. cbn.
  exists cells, rec. by repeat split.
Qed.
End modify.

(** Modification, from its beginning: EXPLAIN opens nothing; UPDATE, DELETE and
    MERGE are 0A000 before the table is even resolved; INSERT into any registry
    table but [tool_calls] is 0A000; an insert without a session is XX000; and
    what an INSERT into [tool_calls] returns is the newest record of the call
    log, with the tool the row named, every other log and cache untouched. *)
Theorem modify_outcome `{Serde, Net, UrlLib, PgCatalog, Unicode, Spi, PgEnv, PgInput, PgDatum, PgOperators} {profile : Build}
    (r : Relation) (op : CmdType) (eflags : Z) (name : string) (st : Sessions Backend) (slot : Slot) :
  rel_name r = Some name →
  (if explain_only eflags then begin_foreign_modify r op eflags st = (Ok None, st)
   else match op with
   | CMD_INSERT =>
       match resolve_for_relid r with
       | Err e => begin_foreign_modify r op eflags st = (Err (raised e), st)
       | Ok (Pushdown.Registry entry, server_name, resolved) =>
           if bool_decide (e_handler entry = TOOL_CALLS_TABLE) then
             ∃ ctx, begin_foreign_modify r op eflags st = (Ok (Some (RegistryHolder entry ctx)), st) ∧
               cache_key ctx = key_of resolved ∧
               ∀ slot' st', exec_foreign_insert r (Some (RegistryHolder entry ctx)) slot st = (Ok slot', st') →
                 ∃ cells rec, read_slot slot (e_spec entry) = Ok cells ∧
                   ToolCalls.input_tool (mkInsertRow (e_spec entry) cells) = Ok (ToolCalls.r_tool rec) ∧
                   head (ToolCalls.snapshot (key_of resolved) (fb_logs (extra st'))) = Some rec ∧
                   fill_slot (length (rel_attributes r)) (ToolCalls.row_from_record rec) = Ok slot' ∧
                   (∀ k, k ≠ key_of resolved → fb_logs (extra st') !! k = fb_logs (extra st) !! k) ∧
                   fb_caches (extra st') = fb_caches (extra st)
           else ∃ e, begin_foreign_modify r op eflags st = (Err (raised e), st) ∧ sqlstate e = "0A000"
       | Ok (PerToolTable t, server_name, resolved) =>
           ∀ schema, rel_schema r = Some schema →
             ∃ ctx, begin_foreign_modify r op eflags st = (Ok (Some (PerToolHolder ctx)), st) ∧
               PerTool.target ctx = t ∧ PerTool.pt_quals ctx = []
       end
   | _ => ∃ e, begin_foreign_modify r op eflags st = (Err (raised e), st) ∧ sqlstate e = "0A000"
   end) ∧
  (∃ e, exec_foreign_insert r None slot st = (Err (raised e), st) ∧ sqlstate e = "XX000") ∧
  (∃ e, exec_foreign_update r st = (Err (raised e), st) ∧ sqlstate e = "0A000") ∧
  (∃ e, exec_foreign_delete r st = (Err (raised e), st) ∧ sqlstate e = "0A000").
Proof.
  intros Hn. unfold exec_foreign_update, exec_foreign_delete, relname_for_relid. rewrite Hn.
  split; [|split; [by eexists; split|split; by eexists; split]].
  unfold begin_foreign_modify, relname_for_relid. rewrite Hn.
  destruct (explain_only eflags); [done|]. destruct op; try by (eexists; split).
  destruct (resolve_for_relid r) as [[[[entry|t] server_name] resolved]|e]; [| |done].
  - case_bool_decide as Hh; cbn; unfold mbind, M_bind, m_lift; cbn.
    2:{ destruct (e_handler entry); try done; by eexists; split. }
    rewrite Hh. eexists. split; [reflexivity|]. split; [done|].
    intros slot' st' (cells & rec & Hc & Ht & Hl & Hca & Hf)%exec_insert_log.
    exists cells, rec. split; [done|]. split; [done|]. rewrite Hl. split_and!; try done.
    + change (key_of resolved) with (cache_key (mkTableContext (e_spec entry) server_name resolved (rel_options r))).
      by rewrite ToolCalls.snapshot_record.
    + intros k Hk. unfold ToolCalls.record. by rewrite lookup_insert_ne.
  - intros schema Hs. unfold table_qual_for_relid, relname_for_relid. rewrite Hs, Hn.
    eexists. split; [reflexivity|done].
Qed.

(** IMPORT FOREIGN SCHEMA: any remote schema but [mcp] is 3F000; otherwise it
    hands PostgreSQL the statements of the registry tables the filter lets
    through, each without a NUL, and what else can fail is a missing name or a
    NUL in one, as XX000. *)
Theorem import_outcome (stmt : ImportStmt) (server : option string) :
  match import_foreign_schema stmt server with
  | Ok statements =>
      is_remote_schema stmt = Some "mcp" ∧
      ∃ local server_name filter, is_local_schema stmt = Some local ∧ server = Some server_name ∧
        import_filter stmt = Ok filter ∧
        statements = ImportSchema.statements server_name local filter ∧
        Forall (fun s => 0 ∉ bytes s) statements
  | Err e => (∃ remote, is_remote_schema stmt = Some remote ∧ remote ≠ "mcp" ∧ sqlstate e = "3F000") ∨
             sqlstate e = "XX000"
  end.
Proof.
  assert (∀ l, match c_strings l with Ok k => k = l ∧ Forall (fun s => 0 ∉ bytes s) l | Err e => sqlstate e = "XX000" end) as Hc.
  { induction l as [|s l IH]; [done|]. cbn. case_bool_decide; [done|].
    destruct (c_strings l); cbn; [|done]. destruct IH as [-> IH]. by split; [|constructor]. }
  assert (∀ l e, table_names l = Err e → sqlstate e = "XX000") as Ht.
  { induction l as [|[x|] l IH]; intros e; cbn; [done| |by intros [= <-]].
    destruct (table_names l) as [k|e']; cbn; [done|]. intros [= <-]. by apply IH. }
  unfold import_foreign_schema. generalize ImportSchema.statements as list_statements. intros list_statements.
  destruct (is_remote_schema stmt) as [remote|]; cbn; [|by right].
  case_bool_decide as Hr; cbn; [subst|by left; exists remote].
  destruct (is_local_schema stmt) as [local|]; cbn; [|by right].
  destruct server as [server_name|]; cbn; [|by right].
  destruct (import_filter stmt) as [filter|e] eqn:Hf; cbn.
  - specialize (Hc (list_statements server_name local filter)).
    destruct (c_strings _); [|by right]. destruct Hc as [-> Hc].
    split; [done|]. by exists local, server_name, filter.
  - right. unfold import_filter in Hf. destruct (is_list_type stmt); cbn in Hf; [done| |];
      destruct (table_names (is_table_list stmt)) eqn:Hn; cbn in Hf; simplify_eq; by eapply Ht.
Qed.

(** ** A SELECT from a catalog table, from plan to rows *)

(** The handlers that filter by their pushed columns: their list and its rows. *)
Definition catalog_list `{Serde, Net} (h : Handler) (ctx : TableContext) :
    M (Sessions Cache.Caches) McpError (list Value) :=
  match h with
  | TOOLS_TABLE => Catalog.fetch_list ctx Cache.Tools "tools/list" "tools" true
  | _ => Catalog.fetch_list ctx Cache.Prompts "prompts/list" "prompts" false
  end.
Definition catalog_rows (h : Handler) (spec : TableSpec) (items : list Value) : list Row :=
  match h with
  | TOOLS_TABLE => Catalog.tools_row spec <$> items
  | PROMPTS_TABLE => Catalog.prompts_row spec <$> items
  | _ => Catalog.prompt_argument_rows spec items
  end.
Definition filtering_entries : list TableEntry :=
  [mkEntry TOOLS_SPEC TOOLS_TABLE; mkEntry PROMPTS_SPEC PROMPTS_TABLE;
   mkEntry PROMPT_ARGUMENTS_SPEC PROMPT_ARGUMENTS_TABLE].

Section select.
Context `{Serde, Net, UrlLib, PgCatalog, Unicode, Spi, PgEnv, PgInput, PgDatum, PgOperators} {profile : Build}.

(** The rows that satisfy all of the clauses, each in its own environment. *)
Definition satisfying (env : Row → Env) (clauses : list Node) (rows : list Row) : list Row :=
  filter (fun row => forallb (fun n => known (truth (env row) n) true) clauses = true) rows.

Lemma satisfies_all e clauses :
  forallb (fun n => known (truth e n) true) clauses = true ↔ Forall (Pushdown.passes e) clauses.
Proof.
  rewrite forallb_forall, Forall_forall. setoid_rewrite list_elem_of_In. unfold known.
  by setoid_rewrite bool_decide_eq_true.
Qed.

Lemma rows_rest cur : cursor_rest (OfRows cur) = drop (cur_pos cur) (cur_rows cur).
Proof. done. Qed.

Lemma filtering_scan entry ctx st c st' :
  entry ∈ filtering_entries → e_spec entry = tc_spec (sc_base ctx) →
  begin_registry_scan (e_handler entry) ctx st = (Ok c, st') →
  ∃ items st1, catalog_list (e_handler entry) (sc_base ctx)
                 (mkSessions (sessions st) (world st) (fb_caches (extra st))) = (Ok items, st1) ∧
    cursor_rest c = Catalog.apply_post_filters (e_spec entry) (catalog_rows (e_handler entry) (e_spec entry) items)
                      (sc_quals ctx) (Catalog.pushdown_columns (e_handler entry)).
Proof.
  intros He Hspec. unfold filtering_entries in He. rewrite !elem_of_cons, elem_of_nil in He.
  destruct_or! He; subst entry; cbn [e_handler e_spec begin_registry_scan catalog_list catalog_rows] in *;
    rewrite Hspec;
    intros (cur & st2 & (st1 & (items & Hf & Hp & Hr)%Catalog.scan_filtered & ->)%zoom_Ok & [<- <-]%Catalog.m_ret_inv)%m_bind_inv_ok;
    exists items, st1; (split; [done|]); by rewrite rows_rest, Hp, Hr.
Qed.

Lemma filtering_text_or_boolean entry : entry ∈ filtering_entries → text_or_boolean entry.
Proof.
  intros He c Hc Hp. unfold filtering_entries in He. rewrite !elem_of_cons, elem_of_nil in He.
  destruct_or! He; subst entry; cbn in Hc, Hp; rewrite !elem_of_cons, elem_of_nil in Hc;
    rewrite list_elem_of_singleton in Hp; destruct_or! Hc; subst; try done; by left.
Qed.
End select.

(** C1. A SELECT from [tools], [prompts] or [prompt_arguments] gives the rows of
    the WHERE clause, in order and with their multiplicity: with [env] what a row's
    expressions see, the parameters usable and no NUL in a pushed column's text, the
    rows of the cursor that satisfy the clauses the plan left local are exactly the
    projected rows of the fetched list that satisfy all the clauses of the query.
    The other columns, jsonb above all, may come out of the slot however PostgreSQL
    stores them. *)
Theorem select_gives_where `{Serde, Net, UrlLib, PgCatalog, Unicode, Spi, PgEnv, PgInput, PgDatum, PgOperators} {profile : Build}
    (r : Relation) (entry : TableEntry) (rt_index : Z) (clauses : list RestrictInfo) (plan : ForeignScan)
    (name server_name : string) (resolved : Resolved) (env : Row → Env) (eflags : Z)
    (st st' : Sessions Backend) (c : BoxedCursor) :
  entry ∈ filtering_entries → rel_name r = Some name →
  resolve_for_relid r = Ok (Pushdown.Registry entry, server_name, resolved) →
  get_foreign_plan r rt_index clauses = Ok plan →
  blob_survives r rt_index (Pushdown.Registry entry) name clauses →
  (∀ row row' kind id, e_param (env row) kind id = e_param (env row') kind id) →
  Forall (fun c => typed r (ri_clause c)) clauses →
  Forall (fun c => ∀ row p node,
    extract_qual rt_index r (Pushdown.Registry entry) (ri_clause c) = Some (PushedParam p node) →
    param_usable (env row) p node) clauses →
  begin_foreign_scan r eflags plan (eval (env [])) st = (Ok (Some c), st') →
  ∃ items st1,
    catalog_list (e_handler entry) (mkTableContext (e_spec entry) server_name resolved (rel_options r))
      (mkSessions (sessions st) (world st) (fb_caches (extra st))) = (Ok items, st1) ∧
    let rows := catalog_rows (e_handler entry) (e_spec entry) items in
    ((∀ row, row ∈ rows → ∃ slot, scan_at r entry rt_index row slot (env row)) →
     satisfying env (fs_local plan) (cursor_rest c) = satisfying env (ri_clause <$> clauses) rows).
Proof.
  intros He Hn Hr Hp Hcodec Henv Hty Hus Hb.
  apply begin_Ok in Hb as (name' & target & sn & res & quals & Hn' & Hr' & Hq & Ho).
  rewrite Hr in Hr'. simplify_eq. assert (target_for_relid r = Ok (Pushdown.Registry entry)) as Ht.
  { unfold resolve_for_relid in Hr. destruct (target_for_relid r) as [t|]; [|done]. cbn in Hr.
    destruct (server_name_for_relid r); [|done]. cbn in Hr. destruct (resolve _); by simplify_eq/=. }
  apply m_bind_inv_ok in Ho as (c' & st2 & Ho & [[= <-] <-]%Catalog.m_ret_inv).
  apply filtering_scan in Ho as (items & st1 & Hl & Hc); [|done|done].
  destruct (plan_quals r rt_index clauses plan _ name (env []) Hp Ht Hn Hcodec) as [Hlocal Hq'].
  rewrite Hq' in Hq. injection Hq as <-.
  exists items, st1. split; [exact Hl|]. cbv zeta. intros Hrows. rewrite Hc, Catalog.apply_post_filters_spec, Hlocal.
  unfold satisfying. rewrite list_filter_filter. apply filter_iff_in. intros row Hrow.
  destruct (Hrows row Hrow) as [slot Hsa].
  destruct (passes_split r entry rt_index row slot (env row) clauses Hsa (filtering_text_or_boolean _ He) Hty) as [Hiff Happ].
  { eapply Forall_impl; [exact Hus|]. cbn. eauto. }
  rewrite !satisfies_all, Hiff. cbn [sc_quals].
  rewrite (quals_same_params _ _ _ _ (env []) (env row)) by done.
  rewrite (and_comm (Forall (Pushdown.passes (env row)) _)). apply and_iff_compat_r.
  clear Hiff. match goal with |- context [Forall (holds entry row) ?l] => generalize dependent l; intros qs Happ end.
  rewrite forallb_forall, Forall_forall. setoid_rewrite <- list_elem_of_In. setoid_rewrite list_elem_of_filter.
  rewrite Forall_forall in Happ. unfold holds. split.
  - intros Hall q Hq. destruct (Happ q Hq) as (Hf & _ & Hs). by apply Hall.
  - intros Hall q [_ Hq]. by apply Hall.
Qed.

(** ** Witnesses *)

Module Wit.
#[local] Existing Instance Datums.Wit.pg.
#[local] Existing Instance Pushdown.Wit.ops.
(** One text, which is both the server's answer and the plan's blob. *)
Definition codec (tools : list Value) : Serde := {|
  json_from_str s :=
    if bool_decide (s = "{r}") then
      Some (Object (("result", Object [("tools", Array tools)])
                    :: default [] (as_object (private_to_json (Pushdown.Wit.blob Pushdown.Wit.clauses)))))
    else None;
  json_to_string _ := "{r}" |}.
Definition echo : Value := Object [("name", Str "echo")].
Definition other : Value := Object [("name", Str "other")].
Definition relation (name : string) (columns : list ColumnSpec) : Relation :=
  mkRelation (Some name) (Some "public") (Some "local") []
    ((fun c => (c_name c, oid (c_type c))) <$> columns).
Definition tools : Relation := Pushdown.Wit.r.
Definition log : Relation := relation "tool_calls" (t_columns TOOL_CALLS_SPEC).
Definition resolved : Resolved :=
  match @resolve Options.Wit.lib Session.Wit.catalog "local" with Ok r => r | Err _ => Session.Wit.resolved end.
Definition backend : Sessions Backend := mkSessions ∅ (mkWorld [] 0) (mkBackend ∅ [] ∅ []).
Definition rows : list Row := [[Some (CText "a")]; [Some (CText "b")]].
Definition slots : list Slot := [[Some (Datums.Wit.DText "a")]; [Some (Datums.Wit.DText "b")]].
#[local] Instance spi : Spi := {|
  sql_run _ _ := Ok tt; sql_get_one _ _ := Ok None; sql_select _ _ := Ok [] |}.
#[local] Instance ascii_tables : Unicode := {| to_lowercase := to_ascii_lowercase |}.
#[local] Instance input : PgInput := {|
  timestamptz_in _ := Ok 0; uuid_in _ := Ok (replicate 16 0); date_in _ := Ok tt |}.
End Wit.
#[local] Existing Instance Datums.Wit.pg.
#[local] Existing Instance Pushdown.Wit.ops.
#[local] Existing Instance Session.Wit.steady.
#[local] Existing Instance Session.Wit.catalog.
#[local] Existing Instance Options.Wit.lib.
#[local] Existing Instance ToolCalls.Wit.env.
#[local] Existing Instance Wit.spi.
#[local] Existing Instance Wit.ascii_tables.
#[local] Existing Instance Codegen.debug_build.
#[local] Existing Instance Wit.input.

Lemma scan_runs_dry_witness :
  let _ := Wit.codec [] in
  let start := Some (OfRows (mkCursor Wit.rows 0)) in
  let now := (iterate_foreign_scan 1 start).2 in
  rtc (step 1) start now ∧
  ∃ again, re_scan_foreign_scan now = (Ok tt, again) ∧
    ∀ j, iterates 1 (2 + j) again = Ok ((Some <$> Wit.slots) ++ replicate j None).
Proof.
  intros cdc start now. assert (rtc (step 1) start now) as Hr by (apply rtc_once; constructor).
  split; [exact Hr|]. assert (scans Wit.rows true start) as Hs by (by repeat split).
  destruct (proj2 (@scan_runs_dry cdc Datums.Wit.pg _ _ _ 1 Wit.rows Wit.slots true start now Hs Hr eq_refl) _ eq_refl)
    as (again & Hag & Hall).
  exists again. split; [exact Hag|exact (Hall eq_refl)].
Defined.

(** The cursor of a tool table does not come back. *)
Example consuming_re_scan :
  let _ := Wit.codec [] in
  let now := (iterate_foreign_scan 1 (Some (OfTool (PerTool.mkToolCursor Wit.rows)))).2 in
  iterates 1 2 (re_scan_foreign_scan now).2 = Ok [Some [Some (Datums.Wit.DText "b")]; None].
Proof. done. Qed.

Lemma begin_scan_without_io_witness :
  let _ := Wit.codec [] in
  begin_foreign_scan Wit.tools 1 (mkForeignScan [] [] []) (fun _ => None) Wit.backend = (Ok None, Wit.backend).
Proof.
  intros cdc.
  exact (begin_scan_without_io Wit.tools 1 (mkForeignScan [] [] []) (fun _ => None) "tools" Wit.backend eq_refl).
Defined.

Lemma modify_outcome_witness :
  let _ := Wit.codec [] in
  ∃ e, begin_foreign_modify Wit.log CMD_DELETE 0 Wit.backend = (Err (raised e), Wit.backend) ∧ sqlstate e = "0A000".
Proof.
  intros cdc. exact (proj1 (modify_outcome Wit.log CMD_DELETE 0 "tool_calls" Wit.backend [] eq_refl)).
Defined.

(** A query with three clauses over two tools. *)
Definition select_run `{Serde} : result Failure (ForeignScan * option BoxedCursor) :=
  match get_foreign_plan Wit.tools 1 Pushdown.Wit.clauses with
  | Err e => Err (raised e)
  | Ok plan =>
      match (begin_foreign_scan Wit.tools 0 plan (eval (Pushdown.Wit.env None)) Wit.backend).1 with
      | Ok c => Ok (plan, c)
      | Err e => Err e
      end
  end.

Example select_filters :
  let _ := Wit.codec [Wit.other; Wit.echo; Wit.other] in
  match select_run with
  | Ok (plan, Some c) => (length (fs_local plan), length (cursor_rest c))
  | _ => (0, 0)%nat
  end = (1, 1)%nat.
Proof. by vm_compute. Qed.

Lemma select_gives_where_witness :
  let cdc := Wit.codec [Wit.echo] in
  let entry := mkEntry TOOLS_SPEC TOOLS_TABLE in
  let env (row : Row) := Pushdown.Wit.env None in
  ∃ plan c st', get_foreign_plan Wit.tools 1 Pushdown.Wit.clauses = Ok plan ∧
    begin_foreign_scan Wit.tools 0 plan (eval (env [])) Wit.backend = (Ok (Some c), st') ∧
    satisfying env (fs_local plan) (cursor_rest c)
    = satisfying env (ri_clause <$> Pushdown.Wit.clauses) [Pushdown.Wit.row].
Proof.
  intros cdc entry env.
  set (plan := mkForeignScan [Pushdown.Wit.title_is] [Param PARAM_EXTERN 1 25] ["{r}"]).
  assert (get_foreign_plan Wit.tools 1 Pushdown.Wit.clauses = Ok plan) as Hp by reflexivity.
  destruct (begin_foreign_scan Wit.tools 0 plan (eval (env [])) Wit.backend) as [out st'] eqn:Hb.
  destruct out as [[c|]|e]; [|apply (f_equal fst) in Hb; by vm_compute in Hb..].
  exists plan, c, st'. split; [exact Hp|]. split; [exact Hb|].
  assert (resolve_for_relid Wit.tools = Ok (Pushdown.Registry entry, "local", Wit.resolved)) as Hr by (by vm_compute).
  destruct (select_gives_where Wit.tools entry 1 Pushdown.Wit.clauses plan "tools" "local" Wit.resolved env 0
    Wit.backend st' c ltac:(by left) eq_refl Hr Hp eq_refl (fun _ _ _ _ => eq_refl)) as (items & st1 & Hl & Heq).
  - exact Pushdown.wit_typed.
  - eapply Forall_impl; [exact (Pushdown.wit_usable cdc)|]. intros cl Hcl row. exact Hcl.
  - exact Hb.
  - assert (Ok items = Ok (E := McpError) [Wit.echo]) as [= ->].
    { apply (f_equal fst) in Hl. etrans; [exact (eq_sym Hl)|]. by vm_compute. }
    apply Heq. intros row Hrow. apply list_elem_of_singleton in Hrow as ->.
    exists Pushdown.Wit.slot. exact (Pushdown.wit_scan_at cdc None).
Defined.
End Fdw.
