(* ===== verification/Statements.v ===== *)
(** * Whole statements: what generated tables and inserted rows come to

    The components composed over one or more statements.  A table that the DDL
    emitters wrote, once PostgreSQL has catalogued it, is resolved by [fdw.rs] to
    the tool it was planned for; an INSERT of several rows into [tool_calls] makes
    the calls of its rows one after the other, and a SELECT that follows gives the
    rows it returned.  What PostgreSQL does between the callbacks (its catalog
    entry of a table, the executor's loops) is written here as documented. *)

From Stdlib Require Import Ascii String ZArith Lia.
From stdpp Require Import base numbers gmap sets strings pretty list relations.
From S2P Require Import Prelude Str Json Errors Options Quals Tables Cursor Client Session Cache Catalog.
From S2P Require Import Readthrough ToolCalls Ident Codegen Ddl ImportSchema Registry PerTool Datum Pushdown Fdw.
Import Options Quals Tables Client Session Datums Pushdown Fdw.
#[local] Open Scope Z_scope.
#[local] Existing Instance Cache.Slice_eq_dec.
#[local] Existing Instance Cache.Slice_countable.

Module Statements.

(** ** A generated table in the catalog *)

(** PostgreSQL's [truncate_identifier]: a name of more than 63 bytes (NAMEDATALEN
    less one) is cut before the first character that does not fit whole, a
    character's length being that of its first byte in UTF-8. *)
Definition char_length (c : ascii) : nat :=
  let b := byte_Z c in
  if b <? 0x80 then 1 else if Z.land b 0xe0 =? 0xc0 then 2
  else if Z.land b 0xf0 =? 0xe0 then 3 else if Z.land b 0xf8 =? 0xf0 then 4 else 1.

(** [room] bytes are left, [pending] of the current character are still to come. *)
Fixpoint clip (room pending : nat) (s : string) : string :=
  match s with
  | EmptyString => EmptyString
  | String c s' =>
      match pending with
      | S pending' => String c (clip room pending' s')
      | O => if Nat.leb (char_length c) room
             then String c (clip (room - char_length c) (char_length c - 1) s') else EmptyString
      end
  end.
Definition clip_name (s : string) : string := if Nat.leb (String.length s) 63 then s else clip 63 0 s.

(** The relation CREATE FOREIGN TABLE makes: names are clipped, options are kept
    as given, columns get the types' identifiers. *)
Definition catalogued (type_oid : string → Z) (ft : Ddl.ForeignTable) : Relation :=
  mkRelation (Some (clip_name (Ddl.ft_table ft))) (Some (clip_name (Ddl.ft_schema ft)))
    (Some (clip_name (Ddl.ft_server ft))) (Ddl.ft_options ft)
    ((fun c => (clip_name c.1, type_oid c.2)) <$> Ddl.ft_columns ft).

Lemma tool_prefix_registry s :
  find ("tool_" +:+ s) =
    if bool_decide (s = "calls") then Some (mkEntry TOOL_CALLS_SPEC TOOL_CALLS_TABLE) else None.
Proof.
  case_bool_decide as Hs; [subst; by vm_compute|]. unfold find.
  replace (list_find _ REGISTRY) with (@None (nat * TableEntry)); [done|].
  symmetry. apply list_find_None, Forall_forall. intros e He Heq.
  pose proof (list_elem_of_fmap_2 (fun e => t_name (e_spec e)) _ _ He) as Hin. cbv beta in Hin. rewrite Heq, list_elem_of_In in Hin.
  cbn in Hin.
  repeat destruct Hin as [Hin|Hin]; try discriminate Hin; [|done]. injection Hin as Hin. by subst.
Qed.

Lemma char_length_max c : (char_length c ≤ 4)%nat.
Proof. unfold char_length. repeat case_match; lia. Qed.

Lemma clip_char room c s t :
  byte_Z c < 128 → clip room 0 s = String c t → ∃ s', s = String c s' ∧ clip (room - 1) 0 s' = t.
Proof.
  intros Hc. destruct s as [|d s']; [done|]. cbn [clip]. destruct (Nat.leb _ room); [|done]. intros [= -> <-].
  assert (char_length c = 1%nat) as -> by (unfold char_length; by rewrite (proj2 (Z.ltb_lt _ _))). by exists s'.
Qed.

Lemma clip_end room s : (4 ≤ room)%nat → clip room 0 s = EmptyString → s = EmptyString.
Proof.
  intros Hr. destruct s as [|c s']; [done|]. cbn [clip].
  by rewrite (proj2 (Nat.leb_le _ _)) by (pose proof (char_length_max c); lia).
Qed.

Lemma clip_calls room s : (9 ≤ room)%nat → clip room 0 s = "calls" → s = "calls".
Proof.
  intros Hr H0. do 5 (apply clip_char in H0 as (? & -> & H0); [|done]).
  apply clip_end in H0; [by subst|lia].
Qed.

(** Clipping never makes or unmakes the name [tool_calls]. *)
Lemma clip_tool s : ∃ s', clip_name ("tool_" +:+ s) = "tool_" +:+ s' ∧ (s' = "calls" ↔ s = "calls").
Proof.
  unfold clip_name. destruct (Nat.leb _ 63) eqn:Hl; [by exists s|]. exists (clip 58 0 s). split; [done|].
  split; [by apply clip_calls; lia|]. intros ->. done.
Qed.

(** ** Which tool a generated table invokes *)

Definition table_target (t : Codegen.PlannedTool) (extra : Ddl.ExtraOptions) : PerTool.PerToolTarget :=
  PerTool.mkTarget (Codegen.tool_name t) (Codegen.invoke_on_select t) (Ddl.cache_ttl_ms extra).

(** The relation of the statement emitted for a planned tool. *)
Definition generated_relation (type_oid : string → Z) (server_name : string) (t : Codegen.PlannedTool)
    (extra : Ddl.ExtraOptions) : option Relation :=
  catalogued type_oid <$> Ddl.read_foreign_table (Ddl.create_table server_name t extra).

Lemma generated_relation_of type_oid server_name t extra :
  generated_relation type_oid server_name t extra =
  Some (catalogued type_oid (Ddl.foreign_of server_name t extra)).
Proof.
  unfold generated_relation. rewrite Ddl.create_table_text.
  rewrite Ddl.read_foreign_table_text by apply Ddl.foreign_of_plain. done.
Qed.

Lemma table_options_lookup t extra :
  (∀ ttl, Ddl.cache_ttl_ms extra = Some ttl → 0 <= ttl <= u64_max) →
  let get := table_option (Ddl.table_options t extra) in
  get "tool" = Some (Codegen.tool_name t) ∧
  bool_decide (get "invoke_on_select" = Some "true") = Codegen.invoke_on_select t ∧
  (get "cache_ttl_ms" ≫= parse_u64) = Ddl.cache_ttl_ms extra.
Proof.
  intros Httl get. unfold get, Ddl.table_options. split; [done|]. split; [by destruct (Codegen.invoke_on_select t)|].
  destruct (Ddl.upstream extra) as [u|], (Ddl.cache_ttl_ms extra) as [ttl|] eqn:E; try done;
    by apply parse_u64_fmt, Httl.
Qed.

Lemma resolve_for_relid_Ok `{PgCatalog, UrlLib} r target sn res :
  resolve_for_relid r = Ok (target, sn, res) →
  target_for_relid r = Ok target ∧ server_name_for_relid r = Ok sn ∧ resolve sn = Ok res.
Proof.
  unfold resolve_for_relid. destruct (target_for_relid r); cbn; [|done].
  destruct (server_name_for_relid r); cbn; [|done]. destruct (resolve _) eqn:E; cbn; [|done]. intros [= <- <- <-]. done.
Qed.

Lemma generated_target type_oid server_name t extra r :
  generated_relation type_oid server_name t extra = Some r → Codegen.tool_name t ≠ EmptyString →
  (∀ ttl, Ddl.cache_ttl_ms extra = Some ttl → 0 <= ttl <= u64_max) →
  target_for_relid r =
    Ok (if bool_decide (Codegen.tool_sql_name t = "calls")
        then Pushdown.Registry (mkEntry TOOL_CALLS_SPEC TOOL_CALLS_TABLE)
        else PerToolTable (table_target t extra)).
Proof.
  rewrite generated_relation_of. intros [= <-] Hn Httl.
  destruct (table_options_lookup t extra Httl) as (Ht & Hg & Hc).
  destruct (clip_tool (Codegen.tool_sql_name t)) as (s' & Hs & Hcalls).
  unfold target_for_relid, relname_for_relid, catalogued.
  cbn [rel_name rel_options Ddl.foreign_of Ddl.ft_table Ddl.ft_options cstr_to_string ok_or mbind result_bind].
  unfold Ddl.table_name. rewrite Hs, tool_prefix_registry.
  rewrite (bool_decide_ext _ _ Hcalls). destruct (bool_decide (Codegen.tool_sql_name t = "calls")); [done|].
  rewrite Ht. destruct (is_empty (Codegen.tool_name t)) eqn:He; [by destruct (Codegen.tool_name t)|].
  by rewrite Hg, Hc.
Qed.

(** ** An INSERT of several rows into tool_calls *)

Section inserts.
Context `{Serde, Net, UrlLib, PgCatalog, Unicode, Spi, PgEnv, PgInput, PgDatum, PgOperators} {profile : Build}.

(** The executor's loop over the rows of the source; the first error ends it. *)
Fixpoint exec_rows (r : Relation) (holder : option ModifyHolder) (slots : list Slot) : FM (list Slot) :=
  match slots with
  | [] => mret []
  | slot :: more => row ← exec_foreign_insert r holder slot; rows ← exec_rows r holder more; mret (row :: rows)
  end.

Definition insert_statement (r : Relation) (slots : list Slot) : FM (list Slot) :=
  holder ← begin_foreign_modify r CMD_INSERT 0; exec_rows r holder slots.

(** The tool and the arguments a row asks for, when it can be read. *)
Definition row_call (slot : Slot) : option (string * Value) :=
  match read_slot slot TOOL_CALLS_SPEC with
  | Ok cells =>
      let input := mkInsertRow TOOL_CALLS_SPEC cells in
      match ToolCalls.input_tool input with
      | Ok tool => Some (tool, ToolCalls.input_arguments input)
      | Err _ => None
      end
  | Err _ => None
  end.
Definition tools_call (c : string * Value) : string * Value := ("tools/call", ToolCalls.call_params c.1 c.2).

(** The record of a completed call. *)
Definition answered (c : string * Value) (reply : Value) (rec : ToolCalls.CallRecord) : Prop :=
  ToolCalls.r_tool rec = c.1 ∧ ToolCalls.r_arguments rec = c.2 ∧
  ToolCalls.r_content rec = get reply "content" ∧
  ToolCalls.r_structured rec = get reply "structuredContent" ∧
  ToolCalls.r_is_error rec = is_error_result reply.

Definition record_all (key : SessionKey) (recs : list ToolCalls.CallRecord) (logs : ToolCalls.CallLogs) :
    ToolCalls.CallLogs := foldl (fun logs rec => ToolCalls.record key rec logs) logs recs.

(** The server on which a relation's calls run. *)
Definition serves_calls (r : Relation) (server_name : string) (resolved : Resolved) : Prop :=
  resolve_for_relid r = Ok (Pushdown.Registry (mkEntry TOOL_CALLS_SPEC TOOL_CALLS_TABLE), server_name, resolved).

Lemma backend_part b : set_tool_calls (tool_calls_part b) b = b.
Proof. by destruct b. Qed.

(** A session method does not look at the rest of the state. *)
Lemma with_session_part {X Y A} res (m : TransportCtx → M (McpSession * World) McpError A) s w (x : X) (y : Y) :
  with_session res (fun tr => lift_x (m tr)) (mkSessions s w x) =
  let '(out, st') := with_session res (fun tr => lift_x (m tr)) (mkSessions s w y) in
  (out, mkSessions (sessions st') (world st') x).
Proof.
  unfold with_session. change (acquire res (mkSessions s w x)) with (acquire res (mkSessions s w y)).
  cbn [sessions extra]. destruct (acquire res (mkSessions s w y)) as [[ses|e] w1]; [|done].
  unfold lift_x. by destruct (m _ _) as [out [ses' w']].
Qed.

Section one_relation.
Variables (r : Relation) (server_name : string) (resolved : Resolved).
Let ctx : TableContext := mkTableContext TOOL_CALLS_SPEC server_name resolved (rel_options r).
Let holder : option ModifyHolder := Some (RegistryHolder (mkEntry TOOL_CALLS_SPEC TOOL_CALLS_TABLE) ctx).
Let call (c : string * Value) : M (Sessions Backend) McpError Value :=
  with_session resolved (fun tr => lift_x (request (tools_call c).1 (tools_call c).2 tr)).
Let fill (rec : ToolCalls.CallRecord) : result string Slot :=
  fill_slot (length (rel_attributes r)) (ToolCalls.row_from_record rec).

(** A row whose call completed: what its record says and where it went. *)
Definition logged_row (c : string * Value) (reply : Value) (st1 st st' : Sessions Backend)
    (out : result Failure Slot) (rec : ToolCalls.CallRecord) : Prop :=
  answered c reply rec ∧ sessions st' = sessions st1 ∧ world st' = world st1 ∧
  fb_logs (extra st') = ToolCalls.record (key_of resolved) rec (fb_logs (extra st)) ∧
  fb_caches (extra st') = fb_caches (extra st) ∧
  match out with
  | Ok row => fill rec = Ok row
  | Err f => so_audit_table (options resolved) = None → ∃ m, fill rec = Err m ∧ f = PgRaised m
  end.

Lemma exec_insert_step slot st out st' :
  exec_foreign_insert r holder slot st = (out, st') →
  match row_call slot with
  | None => st' = st ∧ ∃ f, out = Err f
  | Some c =>
      match call c st with
      | (Err e, st1) => out = Err (raised_ctx server_name e) ∧ st' = st1 ∧ extra st' = extra st
      | (Ok reply, st1) => ∃ rec, logged_row c reply st1 st st' out rec
      end
  end.
Proof.
  unfold exec_foreign_insert, holder, row_call, mbind, M_bind, m_lift, zoom. cbn [e_spec]. intros Hout.
  destruct (read_slot slot TOOL_CALLS_SPEC) as [cells|e]; cbn [map_err] in Hout;
    [|injection Hout as <- <-; by eauto].
  destruct (ToolCalls.insert ctx _ _) as [r1 s1] eqn:Hi. apply ToolCalls.insert_inv in Hi.
  destruct Hi as [(e & -> & -> & ->)|(tool & -> & Hi)].
  { cbn in Hout. rewrite backend_part, backend_eta in Hout. injection Hout as <- <-. by eauto. }
  cbn [fst snd]. unfold call, tools_call. cbn [fst snd].
  destruct st as [ss w b]. cbn [sessions world extra] in *.
  rewrite (with_session_part _ _ _ _ b (tool_calls_part b)).
  cbn [tc_resolved ctx] in Hi. destruct Hi as [(e & -> & -> & Hx)|(reply & st1 & -> & Hi)].
  { cbn in Hout. rewrite Hx, backend_part in Hout. by injection Hout as <- <-. }
  set (rec := ToolCalls.make_record _ _ _ _ _ _) in Hi. exists rec.
  destruct (ToolCalls.audit_append ctx rec _) as [audited done'] eqn:Ha. destruct Hi as [-> ->].
  apply ToolCalls.audit_append_done in Ha as [_ Ha].
  destruct audited as [u|e]; cbn in Hout.
  - unfold logged_row, fill. destruct (fill_slot _ (ToolCalls.row_from_record rec)) as [row|m];
      injection Hout as <- <-; repeat split; try done; by exists m.
  - injection Hout as <- <-. repeat split. intros Hnone. by specialize (Ha Hnone).
Qed.

(** What the rows of an INSERT came to: the calls made, the replies, the failure
    of the last call if it failed, and the records of those that completed. *)
Record InsertOutcome (slots : list Slot) (st st' : Sessions Backend) (out : result Failure (list Slot))
    (calls : list (string * Value)) (replies : list Value) (failure : option McpError)
    (recs : list ToolCalls.CallRecord) : Prop := mkInsertOutcome {
  oc_calls : mapM row_call (take (length calls) slots) = Some calls;
  oc_run : ∃ st1, run_calls resolved (tools_call <$> calls) st
      = ((Ok <$> replies) ++ (Err <$> option_list failure), st1) ∧
    sessions st' = sessions st1 ∧ world st' = world st1;
  oc_records : Forall3 answered (take (length recs) calls) replies recs;
  oc_log : fb_logs (extra st') = record_all (key_of resolved) recs (fb_logs (extra st));
  oc_caches : fb_caches (extra st') = fb_caches (extra st);
  oc_out :
    match out, failure with
    | Ok rows, None => length calls = length slots ∧ mapM fill recs = Ok rows
    | Ok _, Some _ => False
    | Err f, Some e => f = raised_ctx server_name e
    | Err f, None =>
        (∃ slot, slots !! length calls = Some slot ∧ row_call slot = None) ∨
        (∃ rec, last recs = Some rec ∧
           (so_audit_table (options resolved) = None → ∃ m, fill rec = Err m ∧ f = PgRaised m))
    end;
}.

Lemma run_tools_calls c calls st :
  run_calls resolved (tools_call <$> c :: calls) st =
  let '(out, st1) := call c st in
  let '(outs, st2) := run_calls resolved (tools_call <$> calls) st1 in (out :: outs, st2).
Proof. done. Qed.

Lemma run_calls_part calls s w (x y : Backend) :
  run_calls resolved calls (mkSessions s w x) =
  let '(outs, st') := run_calls resolved calls (mkSessions s w y) in
  (outs, mkSessions (sessions st') (world st') x).
Proof.
  revert s w. induction calls as [|[method params] calls IH]; intros s w; [done|]. cbn [run_calls].
  rewrite (with_session_part _ _ _ _ x y). destruct (with_session _ _ _) as [out [s1 w1 y1]] eqn:E.
  apply ToolCalls.lift_extra in E. cbn [extra sessions world] in *. subst y1. rewrite IH.
  by destruct (run_calls resolved calls _) as [outs st2].
Qed.

Lemma exec_rows_outcome slots st out st' :
  exec_rows r holder slots st = (out, st') →
  ∃ calls replies failure recs, InsertOutcome slots st st' out calls replies failure recs.
Proof.
  revert st out st'. induction slots as [|slot slots IH]; intros st out st'.
  { intros [= <- <-]. exists [], [], None, []. by split; try done; [exists st|constructor]. }
  cbn [exec_rows]. unfold mbind at 1, M_bind at 1.
  destruct (exec_foreign_insert r holder slot st) as [out1 st1] eqn:He. apply exec_insert_step in He.
  destruct (row_call slot) as [c|] eqn:Hc.
  2:{ destruct He as [-> [f ->]]. intros [= <- <-]. exists [], [], None, [].
      split; try done; [by exists st|constructor|]. left. by exists slot. }
  destruct (call c st) as [[reply|e] s1] eqn:Hcall.
  2:{ destruct He as (-> & -> & Hx). intros [= <- <-]. exists [c], [], (Some e), [].
      split; try done; [cbn; by rewrite Hc, take_0| |constructor|by rewrite Hx..].
      exists s1. split; [|done]. by rewrite run_tools_calls, Hcall. }
  destruct He as (rec & Hans & Hs & Hw & Hl & Hca & Hout).
  assert (st1 = mkSessions (sessions s1) (world s1) (extra st1)) as Est by (rewrite <- Hs, <- Hw; by destruct st1).
  destruct out1 as [row|f].
  2:{ intros [= <- <-]. exists [c], [reply], None, [rec].
      split; try done; [cbn; by rewrite Hc, take_0| |constructor; [exact Hans|constructor]|by right; exists rec].
      exists s1. split; [|done]. by rewrite run_tools_calls, Hcall. }
  unfold mbind at 1, M_bind at 1. destruct (exec_rows r holder slots st1) as [out2 st2] eqn:Hr.
  apply IH in Hr as (calls & replies & failure & recs & [O1 (s2 & O2 & O2s & O2w) O3 O4 O5 O6]).
  rewrite Est in O2. rewrite (run_calls_part _ _ _ _ (extra s1)) in O2.
  replace (mkSessions (sessions s1) (world s1) (extra s1)) with s1 in O2 by by destruct s1.
  destruct (run_calls _ _ s1) as [outs s3] eqn:Hr3. injection O2 as -> <-. cbn [sessions world] in *.
  assert (InsertOutcome (slot :: slots) st st2
    match out2 with Ok rows => Ok (row :: rows) | Err f => Err f end
    (c :: calls) (reply :: replies) failure (rec :: recs)) as Hall.
  { split.
    - cbn. rewrite Hc. cbn. by rewrite O1.
    - exists s3. by rewrite run_tools_calls, Hcall, Hr3.
    - by constructor.
    - cbn. by rewrite O4, Hl.
    - by rewrite O5.
    - destruct out2 as [rows|f], failure as [e|]; try done.
      + destruct O6 as [Ol O6]. split; [cbn; by rewrite Ol|]. cbn. rewrite Hout. cbn. by rewrite O6.
      + destruct O6 as [O6|(rec' & Hlast & O6)]; [by left|]. right. exists rec'. split; [|done].
        by destruct recs. }
  destruct out2; intros [= <- <-]; eauto 10.
Qed.

(** The log after several records, as a SELECT sees it. *)
Lemma snapshot_record_all key recs logs :
  recs ≠ [] →
  ToolCalls.snapshot key (record_all key recs logs)
    = take ToolCalls.LOG_CAP (reverse recs ++ ToolCalls.snapshot key logs).
Proof.
  unfold record_all. induction recs as [|rec recs IH] using rev_ind; [done|]. intros _.
  rewrite foldl_app, reverse_app. cbn [foldl]. rewrite ToolCalls.snapshot_record.
  destruct recs as [|rec0 recs]; [done|]. rewrite IH by done. change (reverse [rec]) with [rec]. cbn [app].
  change ToolCalls.LOG_CAP with (S 999). rewrite !firstn_cons. f_equal. rewrite take_take. f_equal.
Qed.

(** Calls of [IterateForeignScan] while rows can be stored. *)
Lemma iterates_prefix {C} `{ScanCursorLaws C} natts slots more c :
  mapM (fill_slot natts) more = Ok slots → more `prefix_of` cursor_rest c →
  iterates natts (length slots) (Some c) = Ok (Some <$> slots).
Proof.
  revert more c. induction slots as [|slot slots IH]; intros more c Hm [suf Hp]; [done|].
  apply mapM_Ok in Hm. inversion Hm as [|row ? rows ? Hrow Hrows]; subst. apply mapM_Ok in Hrows.
  pose proof (iter_scan_next c) as Hc. rewrite Hp in Hc. cbn [app] in Hc.
  destruct Hc as (c' & Hi & Hc' & _). cbn [length iterates iterate_foreign_scan]. rewrite Hi. cbn.
  rewrite Hrow. cbn. rewrite (IH rows c' Hrows); [done|]. by exists suf.
Qed.

Lemma insert_statement_rows slots :
  serves_calls r server_name resolved → insert_statement r slots = exec_rows r holder slots.
Proof.
  intros Hr. unfold insert_statement, begin_foreign_modify. cbn [explain_only]. unfold mbind, M_bind, m_lift.
  rewrite Hr. done.
Qed.

(** A scan of the log that pushed nothing down stands before the whole log. *)
Lemma begin_log_scan fplan ev name st :
  serves_calls r server_name resolved → rel_name r = Some name → scan_quals ev fplan name = Ok [] →
  begin_foreign_scan r 0 fplan ev st =
    (Ok (Some (OfLog (ToolCalls.mkLogCursor (ToolCalls.row_from_record <$>
       ToolCalls.snapshot (key_of resolved) (fb_logs (extra st)))))), st).
Proof.
  intros Hr Hn Hq. rewrite (begin_opens _ _ _ _ _ _ _ _ _ _ (eq_refl : explain_only 0 = false) Hn Hr Hq).
  cbn [open_scan e_handler e_spec begin_registry_scan]. unfold mbind, M_bind, mret, M_ret, ToolCalls.begin_scan.
  cbn [sc_quals sc_base]. change (cache_key _) with (key_of resolved).
  rewrite filter_all; [done|]. by intros.
Qed.
End one_relation.
End inserts.

(** ** Properties *)

(** C19. From the server's tool to the handler of its table: planned under a gate, written
    as DDL and catalogued by PostgreSQL, whatever text its name holds and however
    long its SQL name is, the table is served as that tool, invocable by SELECT
    exactly when the gate opens for the tool's read-only mark, with the TTL given.
    The exception is a tool whose SQL name is [calls]: its table is called like the
    registry's [tool_calls], and is served as that. *)
Theorem generated_table_serves_its_tool `{Serde, Unicode} {profile : Build} (tool : Value) (local sql target : string)
    (gate : Codegen.InvokeOnSelect) (t : Codegen.PlannedTool) (type_oid : string → Z)
    (server_name : string) (extra : Ddl.ExtraOptions) :
  Codegen.plan_one tool local sql target gate = Ok t →
  Codegen.usable_name tool = Some (Codegen.tool_name t) →
  (∀ ttl, Ddl.cache_ttl_ms extra = Some ttl → 0 <= ttl <= u64_max) →
  ∃ r, generated_relation type_oid server_name t extra = Some r ∧
    target_for_relid r =
      Ok (if bool_decide (sql = "calls")
          then Pushdown.Registry (mkEntry TOOL_CALLS_SPEC TOOL_CALLS_TABLE)
          else PerToolTable (PerTool.mkTarget (Codegen.tool_name t)
                 (Codegen.gate_opens gate (Codegen.declared_read_only tool)) (Ddl.cache_ttl_ms extra))).
Proof.
  intros Hp Hu Httl. apply Codegen.plan_one_Ok in Hp as (_ & _ & <- & _ & _ & <-).
  apply Codegen.usable_name_nonempty in Hu as Hn.
  destruct (generated_relation type_oid server_name t extra) as [r|] eqn:Hr.
  - exists r. split; [done|]. by apply (generated_target _ _ _ _ _ Hr).
  - by rewrite generated_relation_of in Hr.
Qed.

(** C20. A gate that is closed when the tables are generated stays closed for the
    statements that read them: for every tool of a plan whose gate does not open,
    no SELECT on its generated table, whatever its clauses, calls it or changes
    sessions, caches, logs or the server.  The SELECT fails (with 0A000 once the
    server and the role resolve and the plan is one of this table), with one
    exception: the table of a tool whose SQL name is [calls] is called like the
    registry's [tool_calls], and a SELECT on it reads the log of calls.  EXPLAIN
    succeeds, empty. *)
Theorem closed_gate_stays_closed
    `{Serde, Net, UrlLib, PgCatalog, Unicode, Spi, PgEnv, PgInput, PgDatum, PgOperators} {profile : Build}
    (ts : list Value) (target prefix : string) (gate : Codegen.InvokeOnSelect) (mode : Codegen.SchemaMode)
    (p : Codegen.GenerationPlan) (t : Codegen.PlannedTool) (type_oid : string → Z) (server_name : string)
    (opts : Ddl.ExtraOptions) (r : Relation) :
  Codegen.plan ts target prefix gate mode = Ok p → t ∈ Codegen.tools p →
  gate = Codegen.NoInvoke ∨ gate = Codegen.ReadOnly ∧ Codegen.read_only t = false →
  (∀ ttl, Ddl.cache_ttl_ms opts = Some ttl → 0 <= ttl <= u64_max) →
  generated_relation type_oid server_name t opts = Some r →
  ∀ eflags fplan ev (st : Sessions Backend),
    ∃ out, begin_foreign_scan r eflags fplan ev st = (out, st) ∧
    if explain_only eflags then out = Ok None
    else if bool_decide (Codegen.tool_sql_name t = "calls") then
      (∃ e, out = Err (raised e)) ∨
      ∃ sn resolved rows,
        resolve_for_relid r = Ok (Pushdown.Registry (mkEntry TOOL_CALLS_SPEC TOOL_CALLS_TABLE), sn, resolved) ∧
        out = Ok (Some (OfLog (ToolCalls.mkLogCursor rows))) ∧
        ∀ row, row ∈ rows → ∃ rec, rec ∈ ToolCalls.snapshot (key_of resolved) (fb_logs (extra st)) ∧
          row = ToolCalls.row_from_record rec
    else ∃ e, out = Err (raised e) ∧
      (∀ name, rel_name r = Some name → is_ok (resolve_for_relid r) = true →
       is_ok (scan_quals ev fplan name) = true → sqlstate e = "0A000").
Proof.
  intros Hp Ht Hgate Httl Hr eflags fplan ev st.
  destruct (Codegen.plan_tools_from _ _ _ _ _ _ _ Hp Ht) as (rt & sql & Hrt & E).
  apply Codegen.elem_of_routed in Hrt as (_ & n & Hu & _).
  apply Codegen.plan_one_Ok in E as (_ & Hn & _ & _ & Hro & Hinv).
  rewrite (Codegen.usable_name_get _ _ Hu) in Hn. cbn in Hn. subst n.
  assert (Codegen.invoke_on_select t = false) as Hclosed.
  { rewrite Hinv, <- Hro. destruct Hgate as [->|[-> ->]]; done. }
  pose proof (generated_target _ _ _ _ _ Hr (Codegen.usable_name_nonempty _ _ Hu) Httl) as Htarget.
  rewrite generated_relation_of in Hr.
  assert (∃ name schema, rel_name r = Some name ∧ rel_schema r = Some schema) as (name & schema & Hname & Hschema)
    by (injection Hr as <-; by do 2 eexists).
  pose proof (begin_scan_without_io r eflags fplan ev name st Hname) as Hb.
  destruct (explain_only eflags); [by eexists|].
  destruct (resolve_for_relid r) as [[[tg sn] res]|e] eqn:Hres.
  2:{ exists (Err (raised e)). split; [exact Hb|]. case_bool_decide; [left|]; by exists e. }
  destruct (scan_quals ev fplan name) as [quals|e] eqn:Hq.
  2:{ exists (Err (raised e)). split; [exact Hb|]. case_bool_decide; [left; by exists e|]. exists e. split; [done|].
      intros name' Hn' _. rewrite Hname in Hn'. injection Hn' as <-. by rewrite Hq. }
  pose proof (resolve_for_relid_Ok _ _ _ _ Hres) as (Htg & _ & _). rewrite Htarget in Htg. injection Htg as <-.
  case_bool_decide.
  - destruct (Hb eq_refl) as (rows & He & Hrows). eexists. split; [exact He|]. right. by exists sn, res, rows.
  - destruct (Hb schema Hschema Hclosed) as (e & He & Hs). eexists. split; [exact He|]. by exists e.
Qed.

(** C21. A multi-row INSERT into [tool_calls] is its calls, in order: the rows before
    the first failure ask for the calls made, which run one after the other exactly
    as a sequence of session calls, and nothing is sent after a failure; the
    completed ones, and only they, are recorded in order in the caller's log, also
    when the statement fails; it fails with the error of the last call, or because
    the next row cannot be read, or because the last record cannot be audited or
    stored in a slot; and when it succeeds it made one call per row and returns the
    rows of the records. *)
Theorem insert_statement_outcome
    `{Serde, Net, UrlLib, PgCatalog, Unicode, Spi, PgEnv, PgInput, PgDatum, PgOperators} {profile : Build}
    (r : Relation) (server_name : string) (resolved : Resolved) (slots : list Slot) (st : Sessions Backend) :
  serves_calls r server_name resolved →
  let '(out, st') := insert_statement r slots st in
  ∃ calls replies failure recs,
    InsertOutcome r server_name resolved slots st st' out calls replies failure recs.
Proof.
  intros Hr. rewrite (insert_statement_rows _ _ _ _ Hr).
  destruct (exec_rows _ _ _ _) as [out st'] eqn:He. by apply exec_rows_outcome in He.
Qed.

(** C22. A backend reads its own calls: the rows an INSERT into [tool_calls] returned
    are what a following SELECT without pushed quals yields first, newest first, up
    to the 1000 the log holds; the SELECT changes nothing and sends nothing. *)
Theorem inserted_rows_read_back
    `{Serde, Net, UrlLib, PgCatalog, Unicode, Spi, PgEnv, PgInput, PgDatum, PgOperators} {profile : Build}
    (r : Relation) (server_name name : string) (resolved : Resolved) (slots rows : list Slot)
    (st st' : Sessions Backend) (fplan : ForeignScan) (ev : Node → option Datum) :
  serves_calls r server_name resolved → rel_name r = Some name →
  insert_statement r slots st = (Ok rows, st') → scan_quals ev fplan name = Ok [] →
  ∃ c, begin_foreign_scan r 0 fplan ev st' = (Ok (Some c), st') ∧
    iterates (length (rel_attributes r)) (length rows `min` ToolCalls.LOG_CAP) (Some c)
      = Ok (Some <$> take ToolCalls.LOG_CAP (reverse rows)).
Proof.
  intros Hr Hn Hi Hq. rewrite (insert_statement_rows _ _ _ _ Hr) in Hi.
  apply exec_rows_outcome in Hi as (calls & replies & failure & recs & [_ _ _ Hlog _ Hout]).
  destruct failure as [e|]; [done|]. destruct Hout as [_ Hrows]. apply mapM_Ok in Hrows.
  eexists. split; [by apply (begin_log_scan _ server_name resolved _ _ name)|]. rewrite Hlog.
  assert (mapM (fill_slot (length (rel_attributes r)))
    (ToolCalls.row_from_record <$> take ToolCalls.LOG_CAP (reverse recs))
    = Ok (take ToolCalls.LOG_CAP (reverse rows))) as Htop.
  { apply mapM_Ok, Forall2_fmap_l, Forall2_take. by apply Forall2_reverse. }
  replace (length rows `min` ToolCalls.LOG_CAP)%nat with (length (take ToolCalls.LOG_CAP (reverse rows)))
    by (rewrite length_take, length_reverse; lia).
  eapply iterates_prefix; [exact Htop|]. cbn [cursor_rest boxed_cursor_laws ToolCalls.log_cursor_laws ToolCalls.lc_rows].
  destruct (decide (recs = [])) as [->|Hne]; [by apply prefix_nil|].
  rewrite snapshot_record_all by done. rewrite take_app, fmap_app. by eexists.
Qed.

(** ** Witnesses *)

Module Wit.
(** A tool that takes a text, by its name. *)
Definition tool (name : string) : Value :=
  Object [("name", Str name); ("inputSchema", Object [("properties", Object [("q", Null)])])].
Definition type_oid (ty : string) : Z := if bool_decide (ty = "jsonb") then oid Jsonb else oid Text.
Definition extra : Ddl.ExtraOptions := Ddl.mkExtra None (Some 60000).
(** Two calls of one tool. *)
#[local] Existing Instance Datums.Wit.pg.
Definition slots : list Slot :=
  [[None; Some (Datums.Wit.DText "echo"); None]; [None; Some (Datums.Wit.DText "fetch"); None]].
(** One server, without an audit table. *)
Definition catalog : PgCatalog := {|
  foreign_server n := if bool_decide (n = "local")
                      then Some (1, [("url", "http://127.0.0.1:1/mcp"); ("auth", "none")]) else None;
  user_mapping _ _ := None;
  get_user_id := 10;
  spi_get_one _ := Ok None |}.
Definition codec : Serde := Fdw.Wit.codec [].
Definition resolved : Resolved :=
  match @resolve Options.Wit.lib catalog "local" with Ok r => r | Err _ => Session.Wit.resolved end.
End Wit.
#[local] Existing Instance Datums.Wit.pg.
#[local] Existing Instance Pushdown.Wit.ops.
#[local] Existing Instance Session.Wit.steady.
#[local] Existing Instance Wit.catalog.
#[local] Existing Instance Options.Wit.lib.
#[local] Existing Instance ToolCalls.Wit.env.
#[local] Existing Instance Fdw.Wit.spi.
#[local] Existing Instance Fdw.Wit.ascii_tables.
#[local] Existing Instance Codegen.debug_build.
#[local] Existing Instance Fdw.Wit.input.
#[local] Existing Instance Wit.codec.

Lemma generated_table_serves_its_tool_witness :
  ∃ t r, Codegen.plan_one (Wit.tool "calls") "calls" "calls_2" "s" Codegen.ReadOnly = Ok t ∧
    generated_relation Wit.type_oid "local" t Wit.extra = Some r ∧
    target_for_relid r = Ok (PerToolTable (PerTool.mkTarget "calls" false (Some 60000))).
Proof.
  destruct (Codegen.plan_one (Wit.tool "calls") "calls" "calls_2" "s" Codegen.ReadOnly) as [t|e] eqn:Hp;
    [|by vm_compute in Hp].
  assert (Codegen.tool_name t = "calls") as Hn by by apply Codegen.plan_one_Ok in Hp as (_ & -> & _).
  destruct (generated_table_serves_its_tool _ _ _ _ _ t Wit.type_oid "local" Wit.extra Hp) as (r & Hr & Ht);
    [by rewrite Hn|by intros ttl [= <-]|].
  exists t, r. rewrite Hn in Ht. by split_and!.
Defined.

(** The plan of a tool called [calls], and what its table turns out to be. *)
Example calls_is_taken :
  match Codegen.plan [Wit.tool "calls"] "s" EmptyString Codegen.All Codegen.SingleSchema with
  | Ok p => t ← head (Codegen.tools p); r ← generated_relation Wit.type_oid "local" t Wit.extra;
            match target_for_relid r with Ok (Pushdown.Registry e) => Some (t_name (e_spec e)) | _ => None end
  | Err _ => None
  end = Some "tool_calls".
Proof. by vm_compute. Qed.

Lemma closed_gate_stays_closed_witness :
  ∃ p t r, Codegen.plan [Wit.tool "echo"] "s" EmptyString Codegen.ReadOnly Codegen.SingleSchema = Ok p ∧
    head (Codegen.tools p) = Some t ∧ generated_relation Wit.type_oid "local" t Wit.extra = Some r ∧
    ∃ e, begin_foreign_scan r 0 (mkForeignScan [] [] []) (fun _ => None) Fdw.Wit.backend
         = (Err (raised e), Fdw.Wit.backend) ∧ sqlstate e = "0A000".
Proof.
  destruct (Codegen.plan [Wit.tool "echo"] "s" EmptyString Codegen.ReadOnly Codegen.SingleSchema) as [p|e] eqn:Hp;
    [|by vm_compute in Hp].
  pose proof Hp as Hc. vm_compute in Hc. destruct p as [ts sk ws]. injection Hc as Hts _ _.
  destruct ts as [|t l]; [done|]. injection Hts as Ht _.
  destruct (generated_relation Wit.type_oid "local" t Wit.extra) as [r|] eqn:Hr; [|by rewrite generated_relation_of in Hr].
  exists (Codegen.mkPlan (t :: l) sk ws), t, r. split_and!; try done.
  assert (r = catalogued Wit.type_oid (Ddl.foreign_of "local" t Wit.extra)) as Er
    by (rewrite generated_relation_of in Hr; congruence).
  destruct (closed_gate_stays_closed [Wit.tool "echo"] "s" EmptyString Codegen.ReadOnly Codegen.SingleSchema
    (Codegen.mkPlan (t :: l) sk ws) t Wit.type_oid "local" Wit.extra r Hp ltac:(left)
    ltac:(right; by rewrite <- Ht) ltac:(by intros ttl [= <-]) Hr
    0 (mkForeignScan [] [] []) (fun _ => None) Fdw.Wit.backend) as (out & He & Hout).
  change (explain_only 0) with false in Hout. rewrite bool_decide_eq_false_2 in Hout by by rewrite <- Ht.
  destruct Hout as (e & -> & Hs). exists e. split; [exact He|]. apply (Hs "tool_echo"); subst r t; by vm_compute.
Defined.

Lemma insert_statement_outcome_witness :
  ∃ rows st' calls replies recs,
    insert_statement Fdw.Wit.log Wit.slots Fdw.Wit.backend = (Ok rows, st') ∧
    InsertOutcome Fdw.Wit.log "local" Wit.resolved Wit.slots Fdw.Wit.backend st' (Ok rows) calls replies None recs ∧
    length rows = 2%nat ∧ length (w_sent (world st')) = 4%nat.
Proof.
  pose proof (insert_statement_outcome Fdw.Wit.log "local" Wit.resolved Wit.slots Fdw.Wit.backend eq_refl) as Ho.
  destruct (insert_statement Fdw.Wit.log Wit.slots Fdw.Wit.backend) as [out st'] eqn:Hi.
  destruct Ho as (calls & replies & failure & recs & Ho).
  assert (out = (insert_statement Fdw.Wit.log Wit.slots Fdw.Wit.backend).1) as Hout by by rewrite Hi.
  assert (world st' = world (insert_statement Fdw.Wit.log Wit.slots Fdw.Wit.backend).2) as Hw by by rewrite Hi.
  destruct out as [rows|f]; [|clear -Hout; vm_compute in Hout; discriminate Hout].
  destruct failure as [e|]; [destruct (oc_out _ _ _ _ _ _ _ _ _ _ _ Ho)|].
  exists rows, st', calls, replies, recs. split; [done|]. split; [done|]. split.
  - vm_compute in Hout. injection Hout as ->. reflexivity.
  - rewrite Hw. clear. vm_compute. reflexivity.
Defined.

Lemma inserted_rows_read_back_witness :
  ∃ rows st' c, insert_statement Fdw.Wit.log Wit.slots Fdw.Wit.backend = (Ok rows, st') ∧
    begin_foreign_scan Fdw.Wit.log 0 (mkForeignScan [] [] []) (fun _ => None) st' = (Ok (Some c), st') ∧
    iterates 9 2 (Some c) = Ok (Some <$> reverse rows).
Proof.
  destruct (insert_statement Fdw.Wit.log Wit.slots Fdw.Wit.backend) as [out st'] eqn:Hi.
  assert (out = (insert_statement Fdw.Wit.log Wit.slots Fdw.Wit.backend).1) as Hout by by rewrite Hi.
  destruct out as [rows|f]; [|clear -Hout; vm_compute in Hout; discriminate Hout].
  assert (serves_calls Fdw.Wit.log "local" Wit.resolved) as Hs by by vm_compute.
  destruct (inserted_rows_read_back Fdw.Wit.log "local" "tool_calls" Wit.resolved Wit.slots rows
    Fdw.Wit.backend st' (mkForeignScan [] [] []) (fun _ => None) Hs eq_refl Hi eq_refl) as (c & Hc & Hit).
  exists rows, st', c. split; [done|]. split; [exact Hc|].
  vm_compute in Hout. injection Hout as ->. exact Hit.
Defined.

End Statements.
