(* ===== verification/Federation.v ===== *)
(** * The engine layout in use

    [import.rs] writes one schema per upstream of an engine, [tables/catalog.rs]
    scopes each table's list to its schema's upstream.  Here both ends meet: the
    statements of a layout, catalogued by PostgreSQL, as relations that the
    executor resolves; what their tables list together; and what the read-through
    handlers make of the scope. *)

From Stdlib Require Import Ascii String ZArith Lia.
From stdpp Require Import base numbers gmap sets strings pretty list sorting.
From S2P Require Import Prelude Str Json Errors Options Quals Tables Client Session Cache Catalog.
From S2P Require Import Readthrough ToolCalls Ident Codegen Ddl ImportSchema PerTool Datum Pushdown Fdw Statements.
Import Options Quals Tables Client Session Datums Pushdown Fdw Statements.
#[local] Open Scope Z_scope.

Module Federation.

(** ** The relations of a layout *)

(** What PostgreSQL holds after running statements: a relation per CREATE FOREIGN TABLE. *)
Definition relations (type_oid : string → Z) (statements : list string) : list Relation :=
  catalogued type_oid <$> omap Ddl.read_foreign_table statements.

Definition engine_relations (type_oid : string → Z) (server_name local_schema : string)
    (opts : ImportSchema.ImportOptions) (tool_names : list string) : list Relation :=
  relations type_oid (ImportSchema.engine_statements server_name local_schema opts
                        (ImportSchema.upstreams_from_tool_names tool_names)).

(** The tables of one name, one per schema. *)
Definition tables_called (table : string) (rs : list Relation) : list Relation :=
  filter (fun r => rel_name r = Some table) rs.

(** What a table shows of a list, as [Catalog.fetch_list] cuts it. *)
Definition scope (r : Relation) (items : list Value) : list Value :=
  match upstream (rel_options r) with Some u => Catalog.scoped_items u items | None => items end.

(** An item under its name at the server: the schema's upstream put back. *)
Definition qualified (r : Relation) (item : Value) : Value :=
  match upstream (rel_options r), Catalog.item_name item with
  | Some u, Some local => if is_empty u then item else Catalog.rename item (u +:+ "." +:+ local)
  | _, _ => item
  end.

(** The upstream in an item's name. *)
Definition item_upstream (item : Value) : option string :=
  n ← Catalog.item_name item; fst <$> split_once "." n.

(** An item some table of the layout has room for. *)
Definition placed (upstreams : list string) (item : Value) : Prop :=
  match item_upstream item with Some u => u ∈ upstreams | None => True end.
#[export] Instance placed_dec upstreams item : Decision (placed upstreams item).
Proof. unfold placed. destruct (item_upstream item); apply _. Defined.

(** ** The registry's tables in the catalog *)

Lemma registry_names : Forall (fun e => clip_name (t_name (e_spec e)) = t_name (e_spec e) ∧
    find (t_name (e_spec e)) = Some e ∧
    Forall (fun c => clip_name (c_name c) = c_name c) (t_columns (e_spec e))) REGISTRY.
Proof. repeat constructor. Qed.

Definition registry_relation (type_oid : string → Z) (server_name local_schema : string)
    (opts : list (string * string)) (e : TableEntry) : Relation :=
  catalogued type_oid (ImportSchema.registry_table server_name local_schema opts (e_spec e)).

(** A relation that stands for a registry entry: it resolves to it, has its columns
    and types in order, and the options of the statement. *)
Record serves_entry (type_oid : string → Z) (server_name : string) (opts : list (string * string))
    (e : TableEntry) (r : Relation) : Prop := mkServes {
  se_name : rel_name r = Some (t_name (e_spec e));
  se_target : target_for_relid r = Ok (Pushdown.Registry e);
  se_server : server_name_for_relid r = Ok (clip_name server_name);
  se_options : rel_options r = opts;
  se_columns : rel_attributes r = (fun c => (c_name c, type_oid (Tables.sql_name (c_type c)))) <$> t_columns (e_spec e);
}.

Lemma registry_serves type_oid server_name local_schema opts e :
  e ∈ REGISTRY →
  serves_entry type_oid server_name opts e (registry_relation type_oid server_name local_schema opts e).
Proof.
  intros He. pose proof registry_names as Hn. rewrite Forall_forall in Hn. destruct (Hn e He) as (Hc & Hf & Hcols).
  split; [cbn; by rewrite Hc| |done..|].
  - unfold target_for_relid, relname_for_relid. cbn [registry_relation catalogued rel_name cstr_to_string ok_or].
    cbn [ImportSchema.registry_table Ddl.ft_table mbind result_bind]. by rewrite Hc, Hf.
  - cbn. rewrite <- list_fmap_compose. apply list_fmap_ext. intros i c Hi%list_elem_of_lookup_2.
    rewrite Forall_forall in Hcols. cbn. by rewrite (Hcols c Hi).
Qed.

Lemma fmap_mjoin {A B} (f : A → B) (ls : list (list A)) : f <$> mjoin ls = mjoin (fmap f <$> ls).
Proof.
  induction ls as [|l ls IH]; [done|]. change (mjoin (l :: ls)) with (l ++ mjoin ls).
  rewrite fmap_app, IH. done.
Qed.

Lemma filter_all_in {A} (P : A → Prop) `{∀ x, Decision (P x)} (l : list A) :
  (∀ x, x ∈ l → P x) → filter P l = l.
Proof.
  induction l as [|x l IH]; intros Hp; [done|]. rewrite filter_cons_True by (apply Hp; by left).
  rewrite IH; [done|]. intros y Hy. apply Hp. by right.
Qed.

Lemma mjoin_app {A} (ls ks : list (list A)) : mjoin (ls ++ ks) = mjoin ls ++ mjoin ks.
Proof.
  induction ls as [|l ls IH]; [done|]. cbn [app].
  change (mjoin (l :: ls ++ ks)) with (l ++ mjoin (ls ++ ks)). by rewrite IH, app_assoc.
Qed.

Lemma engine_relations_spec type_oid server_name local_schema opts names :
  engine_relations type_oid server_name local_schema opts names =
  mjoin ((fun u => registry_relation type_oid server_name u
            ((TABLE_OPTION_UPSTREAM, u) :: ImportSchema.import_table_options opts)
            <$> filter (fun e => ImportSchema.is_engine_local (e_spec e) = false) REGISTRY)
         <$> ImportSchema.upstreams_from_tool_names names)
  ++ ((fun e => registry_relation type_oid server_name local_schema
        (if ImportSchema.is_engine_local (e_spec e) then ImportSchema.import_table_options opts
         else (TABLE_OPTION_UPSTREAM, EmptyString) :: ImportSchema.import_table_options opts) e) <$> REGISTRY).
Proof.
  unfold engine_relations, relations.
  rewrite (proj1 (ImportSchema.engine_layout server_name local_schema opts _)), fmap_app. f_equal.
  by rewrite fmap_mjoin, <- list_fmap_compose.
Qed.

(** ** The scopes of one table *)

Lemma filter_mjoin {A} (P : A → Prop) `{∀ x, Decision (P x)} (ls : list (list A)) :
  filter P (mjoin ls) = mjoin (filter P <$> ls).
Proof.
  induction ls as [|l ls IH]; [done|]. change (mjoin (l :: ls)) with (l ++ mjoin ls).
  rewrite filter_app, IH. done.
Qed.

(** The tables of one federated name: one per upstream, then the engine's own. *)
Lemma tables_called_spec type_oid server_name local_schema opts names e :
  e ∈ REGISTRY → ImportSchema.is_engine_local (e_spec e) = false →
  tables_called (t_name (e_spec e)) (engine_relations type_oid server_name local_schema opts names) =
  ((fun u => registry_relation type_oid server_name u
      ((TABLE_OPTION_UPSTREAM, u) :: ImportSchema.import_table_options opts) e)
     <$> ImportSchema.upstreams_from_tool_names names)
  ++ [registry_relation type_oid server_name local_schema
        ((TABLE_OPTION_UPSTREAM, EmptyString) :: ImportSchema.import_table_options opts) e].
Proof.
  intros He Hf. rewrite engine_relations_spec. unfold tables_called. rewrite filter_app. f_equal.
  - rewrite filter_mjoin, <- list_fmap_compose. set (f := fun u => registry_relation _ _ u _ e).
    transitivity (mjoin ((fun u => [f u]) <$> ImportSchema.upstreams_from_tool_names names)).
    + f_equal. apply list_fmap_ext. intros i u _. subst f. clear -He Hf. cbn [compose].
      unfold REGISTRY in He. rewrite !elem_of_cons, elem_of_nil in He. destruct_or! He; subst e; done.
    + induction (ImportSchema.upstreams_from_tool_names names) as [|u us IH]; [done|].
      cbn [fmap list_fmap]. by rewrite <- IH.
  - clear -He Hf. unfold REGISTRY in He. rewrite !elem_of_cons, elem_of_nil in He. destruct_or! He; subst e; done.
Qed.

Lemma obj_insert_back k v w m : obj_get k m = Some v → obj_insert k v (obj_insert k w m) = m.
Proof.
  induction m as [|[k' v'] m IH]; [done|]. cbn [obj_get obj_insert]. case_bool_decide as Hk.
  - intros [= ->]. subst. cbn [obj_insert]. by rewrite bool_decide_true.
  - intros Hg. cbn [obj_insert]. rewrite bool_decide_false by done. by rewrite IH.
Qed.

Lemma rename_back it n x : Catalog.item_name it = Some n → Catalog.rename (Catalog.rename it x) n = it.
Proof.
  unfold Catalog.item_name. destruct it as [| | | | |m]; try done. cbn [get Catalog.rename as_object].
  destruct (obj_get "name" m) as [[| | |s| |]|] eqn:Hg; try done. intros [= <-].
  f_equal. by apply obj_insert_back.
Qed.

(** Disjoint filters, side by side. *)
Lemma filter_disjoint {A} (P Q R : A → Prop) `{∀ x, Decision (P x), ∀ x, Decision (Q x), ∀ x, Decision (R x)} l :
  (∀ x, R x ↔ P x ∨ Q x) → (∀ x, P x → ¬ Q x) → filter P l ++ filter Q l ≡ₚ filter R l.
Proof.
  intros Hr Hd. induction l as [|x l IH]; [done|].
  destruct (decide (P x)) as [Hp|Hp].
  - rewrite (filter_cons_True P), (filter_cons_False Q), (filter_cons_True R) by naive_solver.
    cbn [app]. by rewrite IH.
  - rewrite (filter_cons_False P) by done. destruct (decide (Q x)) as [Hq|Hq].
    + rewrite (filter_cons_True Q), (filter_cons_True R) by naive_solver.
      by rewrite <- Permutation_middle, IH.
    + by rewrite (filter_cons_False Q), (filter_cons_False R) by naive_solver.
Qed.

(** A list cut by a key, the cuts of distinct keys together. *)
Definition key_in (us : list string) (k : option string) : Prop :=
  match k with Some u => u ∈ us | None => False end.
#[local] Instance key_in_dec us k : Decision (key_in us k).
Proof. unfold key_in. destruct k; apply _. Defined.

Lemma cut_by_key {A} (key : A → option string) (us : list string) (l : list A) :
  NoDup us →
  mjoin ((fun u => filter (fun x => key x = Some u) l) <$> us) ≡ₚ filter (fun x => key_in us (key x)) l.
Proof.
  induction us as [|u us IH].
  - intros _. induction l as [|x l IH]; [done|]. rewrite filter_cons_False; [exact IH|].
    destruct (key x); cbn; [apply not_elem_of_nil|tauto].
  - intros [Hu Hnd]%NoDup_cons. cbn [fmap list_fmap]. change (mjoin (?c :: ?cs)) with (c ++ mjoin cs).
    rewrite (IH Hnd). apply filter_disjoint; intros x; unfold key_in; destruct (key x) as [k|].
    + rewrite elem_of_cons. naive_solver.
    + naive_solver.
    + by intros [= ->].
    + done.
Qed.

(** ** One table's share *)

Lemma item_upstream_split it n : Catalog.item_name it = Some n → item_upstream it = fst <$> split_once "." n.
Proof. unfold item_upstream. by intros ->. Qed.

Lemma local_share items :
  Catalog.scoped_items EmptyString items = filter (fun it => item_upstream it = None) items.
Proof.
  change (Catalog.scoped_items EmptyString items) with
    (filter (fun it => from_option (fun n => negb (contains "." n)) true (Catalog.item_name it) = true) items).
  apply list_filter_iff. intros it. unfold item_upstream. destruct (Catalog.item_name it) as [n|]; [|done].
  cbn. rewrite negb_true_iff, <- not_true_iff_false, Catalog.contains_dot, <- split_once_None.
  destruct (split_once "." n); naive_solver.
Qed.

Lemma upstream_share r u items :
  upstream (rel_options r) = Some u → u ≠ EmptyString → byte_Z "." ∉ bytes u →
  qualified r <$> Catalog.scoped_items u items = filter (fun it => item_upstream it = Some u) items.
Proof.
  intros Hr Hne Hu. unfold Catalog.scoped_items, is_empty. rewrite bool_decide_false by done.
  induction items as [|it items IH]; [done|]. rewrite Codegen.omap_cons, fmap_app, IH.
  destruct (Catalog.item_name it) as [n|] eqn:Hn.
  2:{ rewrite filter_cons_False; [done|]. unfold item_upstream. by rewrite Hn. }
  cbn [mbind option_bind]. destruct (strip_prefix (u +:+ ".") n) as [local|] eqn:Hs.
  - pose proof Hs as Hl. apply Catalog.strip_upstream in Hl; [|done].
    rewrite filter_cons_True by by rewrite (item_upstream_split it n), Hl.
    cbn. f_equal. unfold qualified. rewrite Hr, (Catalog.item_name_rename it n local Hn).
    unfold is_empty. rewrite bool_decide_false by done.
    apply strip_prefix_Some in Hs. rewrite <- app_string_assoc, <- Hs. by apply rename_back.
  - rewrite filter_cons_False; [done|]. rewrite (item_upstream_split it n) by done.
    destruct (split_once "." n) as [[a b]|] eqn:Ho; [|done]. cbn. intros [= ->].
    apply (Catalog.strip_upstream u n b) in Ho; [congruence|done].
Qed.

(** ** The scan of a scoped table *)

Section scans.
Context `{Serde, Net}.

(** The table fetches what the whole list's table would, through the same session
    and the same cache entry, and shows its share. *)
Lemma fetch_scoped r spec sn res o slice method key flag st :
  table_ttl_ms (rel_options r) = table_ttl_ms o → upstream o = None →
  Catalog.fetch_list (mkTableContext spec sn res (rel_options r)) slice method key flag st =
  let '(out, st') := Catalog.fetch_list (mkTableContext spec sn res o) slice method key flag st in
  (scope r <$> out, st').
Proof.
  intros Httl Ho. unfold Catalog.fetch_list, Catalog.ttl_of. cbn [tc_resolved tc_options].
  change (Catalog.cache_key (mkTableContext spec sn res (rel_options r)))
    with (Catalog.cache_key (mkTableContext spec sn res o)).
  rewrite Httl, Ho. unfold with_session. destruct (acquire res st) as [[ses|e] w]; [|done].
  unfold mbind, M_bind, mret, M_ret, Catalog.poll_tools.
  destruct flag; [destruct (take_tools_list_changed ses)|];
    destruct (Catalog.through_cache _ _ _ _ _) as [[items|e] [[s2 w2] x2]]; done.
Qed.
End scans.

(** ** The TTL through the option text *)

Lemma fmt_Z_digits n : 0 <= n → Forall (fun b => is_ascii_digit b = true) (bytes (fmt_Z n)).
Proof.
  intros Hn. destruct n as [|p|p]; [by repeat constructor| |lia].
  change (fmt_Z (Z.pos p)) with (pretty_N_go (N.pos p) EmptyString). by apply pretty_N_go_digits.
Qed.

Lemma trim_digits s : Forall (fun b => is_ascii_digit b = true) (bytes s) → trim s = s.
Proof.
  intros Hs. unfold trim.
  assert (Forall (fun b => b < 128) (bytes s)) as Ha.
  { eapply Forall_impl; [exact Hs|]. unfold is_ascii_digit, in_range. cbn. intros b Hb. bool_prop. lia. }
  assert (Forall (fun b => is_whitespace b = false) (bytes s)) as Hw.
  { eapply Forall_impl; [exact Hs|]. unfold is_ascii_digit, is_whitespace, in_range. cbn. intros b Hb.
    bool_prop. rewrite !orb_false_iff, !andb_false_iff, !Z.eqb_neq, !Z.leb_gt. lia. }
  rewrite chars_bytes by auto. rewrite (drop_while_none _ (bytes s)) by done.
  unfold trim_end_with. rewrite drop_while_none by by apply Forall_reverse.
  rewrite reverse_involutive, Ident.utf8_ascii by done. apply of_bytes_bytes.
Qed.

(** The options of an accepted TTL give it back. *)
Lemma ttl_read_back opts more :
  ImportSchema.options_ok opts → table_option more TABLE_OPTION_CACHE_TTL_MS = None →
  table_ttl_ms (more ++ ImportSchema.import_table_options opts) = ImportSchema.io_cache_ttl_ms opts.
Proof.
  intros [_ Httl] Hm. unfold table_ttl_ms, table_option in *.
  destruct (list_find _ more) as [[i [k v]]|] eqn:Hf; [done|]. rewrite list_find_app_r by done.
  unfold ImportSchema.import_table_options. destruct (ImportSchema.io_cache_ttl_ms opts) as [n|]; [|done].
  transitivity (parse_u64 (trim (fmt_Z n))); [done|].
  rewrite trim_digits by (apply fmt_Z_digits; lia). by apply parse_u64_fmt.
Qed.

Lemma plain_options opts :
  upstream (ImportSchema.import_table_options opts) = None ∧
  ∀ u, upstream ((TABLE_OPTION_UPSTREAM, u) :: ImportSchema.import_table_options opts) = Some u ∧
       table_ttl_ms ((TABLE_OPTION_UPSTREAM, u) :: ImportSchema.import_table_options opts)
       = table_ttl_ms (ImportSchema.import_table_options opts).
Proof. unfold ImportSchema.import_table_options. by destruct (ImportSchema.io_cache_ttl_ms opts). Qed.

(** What the relations of the two layouts are. *)
Lemma default_relation type_oid server_name local_schema f opts r :
  r ∈ relations type_oid (ImportSchema.statements_with server_name local_schema f opts) →
  ∃ e, e ∈ REGISTRY ∧ ImportSchema.passes f (t_name (e_spec e)) = true ∧
    r = registry_relation type_oid server_name local_schema (ImportSchema.import_table_options opts) e.
Proof.
  unfold relations. rewrite (proj1 (ImportSchema.import_reads_back server_name local_schema opts []) f).
  rewrite <- list_fmap_compose. intros (e & -> & [Hp He]%list_elem_of_filter)%list_elem_of_fmap. by exists e.
Qed.

Lemma engine_relation type_oid server_name local_schema opts names r :
  r ∈ engine_relations type_oid server_name local_schema opts names →
  ∃ e schema o, e ∈ REGISTRY ∧ r = registry_relation type_oid server_name schema o e ∧
    (if ImportSchema.is_engine_local (e_spec e)
     then schema = local_schema ∧ o = ImportSchema.import_table_options opts
     else ∃ u, o = (TABLE_OPTION_UPSTREAM, u) :: ImportSchema.import_table_options opts ∧
            (schema = local_schema ∧ u = EmptyString ∨
             schema = u ∧ u ∈ ImportSchema.upstreams_from_tool_names names)).
Proof.
  rewrite engine_relations_spec. intros [Hr|Hr]%elem_of_app.
  - apply list_elem_of_join in Hr as (l & Hr & (u & -> & Hu)%list_elem_of_fmap).
    apply list_elem_of_fmap in Hr as (e & -> & [Hl He]%list_elem_of_filter).
    exists e, u, ((TABLE_OPTION_UPSTREAM, u) :: ImportSchema.import_table_options opts). rewrite Hl.
    split_and!; [done..|]. exists u. split; [done|by right].
  - apply list_elem_of_fmap in Hr as (e & -> & He). exists e, local_schema. eexists.
    split_and!; [done..|]. destruct (ImportSchema.is_engine_local (e_spec e)); [done|].
    exists EmptyString. split; [done|by left].
Qed.

(** ** Properties *)

(** C28. What an import creates is served as what was imported.  Under accepted
    options and whatever the server and schemas are called, each relation of the
    default layout and of the engine layout resolves, by its name alone, to the
    registry entry it was written for, with the entry's columns and types in order,
    on the server (its name clipped as PostgreSQL clips it); its options give back
    the TTL; and the upstream it is scoped to is its schema's, the empty one in the
    engine's own schema, and none for the tables that are not federated. *)
Theorem imported_tables_serve_the_registry (type_oid : string → Z) (server_name local_schema : string)
    (f : ImportSchema.TableFilter) (opts : ImportSchema.ImportOptions) (tool_names : list string) :
  ImportSchema.options_ok opts →
  (∀ r, r ∈ relations type_oid (ImportSchema.statements_with server_name local_schema f opts) →
     ∃ e, e ∈ REGISTRY ∧ ImportSchema.passes f (t_name (e_spec e)) = true ∧
       serves_entry type_oid server_name (rel_options r) e r ∧
       table_ttl_ms (rel_options r) = ImportSchema.io_cache_ttl_ms opts ∧ upstream (rel_options r) = None) ∧
  (∀ r, r ∈ engine_relations type_oid server_name local_schema opts tool_names →
     ∃ e schema, e ∈ REGISTRY ∧ serves_entry type_oid server_name (rel_options r) e r ∧
       rel_schema r = Some (clip_name schema) ∧
       table_ttl_ms (rel_options r) = ImportSchema.io_cache_ttl_ms opts ∧
       match upstream (rel_options r) with
       | None => ImportSchema.is_engine_local (e_spec e) = true ∧ schema = local_schema
       | Some u => ImportSchema.is_engine_local (e_spec e) = false ∧
           (u = EmptyString ∧ schema = local_schema ∨
            u = schema ∧ ∃ n rest, n ∈ tool_names ∧ n = u +:+ "." +:+ rest ∧ byte_Z "." ∉ bytes u)
       end).
Proof.
  intros Hok. destruct (plain_options opts) as [Hplain Hup].
  pose proof (ttl_read_back opts [] Hok eq_refl) as Httl. cbn [app] in Httl. split.
  - intros r (e & He & Hp & ->)%default_relation. exists e. split_and!; [done..| |exact Httl|exact Hplain].
    by apply registry_serves.
  - intros r (e & schema & o & He & -> & Ho)%engine_relation. exists e, schema.
    split; [done|]. split; [by apply registry_serves|]. split; [done|].
    change (rel_options (registry_relation type_oid server_name schema o e)) with o.
    destruct (ImportSchema.is_engine_local (e_spec e)) eqn:Hl.
    + destruct Ho as [-> ->]. by rewrite Hplain.
    + destruct Ho as (u & -> & Hu). destruct (Hup u) as [-> ->]. split; [done|]. split; [done|].
      destruct Hu as [[-> ->]|[-> Hu]]; [by left|]. right. split; [done|].
      by apply (ImportSchema.upstreams_exact tool_names) in Hu.
Qed.

(** C18. The engine layout splits a list without loss and without overlap.  Take any
    federated table of the registry in its schemas: one per upstream of the tools'
    names and the engine's own.  Each scan fetches what a scan of the whole list
    would, through the same session and cache entry, and shows its share; the
    shares together, every name put back under its schema's upstream, are the
    items of the list, each as often as it is listed, whose upstream has a schema
    -- all of them when the list's names are among the tools' names, but not an
    item of an upstream that publishes no tool. *)
Theorem engine_layout_splits_lists `{Serde, Net} (type_oid : string → Z) (server_name local_schema : string)
    (opts : ImportSchema.ImportOptions) (tool_names : list string) (e : TableEntry) (items : list Value) :
  e ∈ REGISTRY → ImportSchema.is_engine_local (e_spec e) = false →
  EmptyString ∉ ImportSchema.upstreams_from_tool_names tool_names →
  let upstreams := ImportSchema.upstreams_from_tool_names tool_names in
  let tables := tables_called (t_name (e_spec e))
                  (engine_relations type_oid server_name local_schema opts tool_names) in
  length tables = S (length upstreams) ∧
  (∀ r, r ∈ tables → ∀ spec sn res slice method key flag st,
     Catalog.fetch_list (mkTableContext spec sn res (rel_options r)) slice method key flag st =
     let '(out, st') := Catalog.fetch_list
       (mkTableContext spec sn res (ImportSchema.import_table_options opts)) slice method key flag st in
     (scope r <$> out, st')) ∧
  mjoin ((fun r => qualified r <$> scope r items) <$> tables) ≡ₚ filter (placed upstreams) items ∧
  ((∀ it n, it ∈ items → Catalog.item_name it = Some n → n ∈ tool_names) →
   filter (placed upstreams) items = items).
Proof.
  intros He Hl Hempty upstreams tables. destruct (plain_options opts) as [Hplain Hup].
  destruct (ImportSchema.upstreams_exact tool_names) as (_ & Hnd & Hex). fold upstreams in Hnd, Hex.
  unfold tables. rewrite tables_called_spec by done. fold upstreams. split_and!.
  - rewrite length_app, length_fmap. cbn. lia.
  - intros r Hr spec sn res slice method key flag st. apply fetch_scoped; [|exact Hplain].
    apply elem_of_app in Hr as [(u & -> & _)%list_elem_of_fmap| ->%list_elem_of_singleton]; apply Hup.
  - rewrite fmap_app, <- list_fmap_compose, mjoin_app. set (local := registry_relation _ _ local_schema _ e).
    assert (mjoin ((fun r => qualified r <$> scope r items) <$> [local])
            = filter (fun it => item_upstream it = None) items) as ->.
    { unfold scope. cbn [fmap list_fmap mjoin list_join]. rewrite app_nil_r.
      destruct (Hup EmptyString) as [Hu _]. change (rel_options local) with
        ((TABLE_OPTION_UPSTREAM, EmptyString) :: ImportSchema.import_table_options opts).
      rewrite Hu, local_share. rewrite <- (list_fmap_id (filter _ items)) at 2. apply list_fmap_ext.
      intros i it _. unfold qualified. change (rel_options local) with
        ((TABLE_OPTION_UPSTREAM, EmptyString) :: ImportSchema.import_table_options opts).
      rewrite Hu. by destruct (Catalog.item_name it). }
    transitivity (filter (fun it => key_in upstreams (item_upstream it)) items
                  ++ filter (fun it => item_upstream it = None) items);
      [|apply filter_disjoint; intros it; unfold placed, key_in; destruct (item_upstream it); naive_solver].
    apply Permutation_app_tail. rewrite <- cut_by_key by done.
    match goal with |- mjoin ?x ≡ₚ mjoin ?y => assert (x = y) as ->; [|done] end.
    apply list_fmap_ext. intros i u Hi%list_elem_of_lookup_2. cbn [compose].
    unfold scope. set (r := registry_relation _ _ u _ e). destruct (Hup u) as [Hu _].
    change (rel_options r) with ((TABLE_OPTION_UPSTREAM, u) :: ImportSchema.import_table_options opts).
    rewrite Hu. apply upstream_share; [done|by intros ->|]. apply Hex in Hi. naive_solver.
  - intros Hall. apply filter_all_in. intros it Hit. unfold placed, item_upstream.
    destruct (Catalog.item_name it) as [n|] eqn:Hn; [|done]. cbn.
    destruct (split_once "." n) as [[u rest]|] eqn:Hs; [|done]. cbn.
    apply Hex. apply split_once_Some in Hs as [Hn' Hd]. exists n, rest. split_and!; [by eapply Hall|done|done].
Qed.

(** The read-through handlers do not look at the scope: their scan is the same
    whatever options the table has, so a table of an upstream's schema reads from
    the whole server, by the server's names. *)
Theorem read_through_ignores_upstream
    `{Serde, Net, UrlLib, PgCatalog, Unicode, Spi, PgEnv, PgInput, PgDatum, PgOperators} {profile : Build}
    (h : Handler) spec sn res o o' quals (st : Sessions Backend) :
  h ∈ [RESOURCE_CONTENTS_TABLE; PROMPT_MESSAGES_TABLE; COMPLETIONS_TABLE] →
  begin_registry_scan h (mkScanContext (mkTableContext spec sn res o) quals) st =
  begin_registry_scan h (mkScanContext (mkTableContext spec sn res o') quals) st.
Proof.
  intros Hh. rewrite !elem_of_cons, elem_of_nil in Hh. by destruct_or! Hh; subst h.
Qed.

(** ** Witnesses *)

Module Wit.
Definition opts : ImportSchema.ImportOptions :=
  ImportSchema.mkImport (Some 60000) true false Codegen.ReadOnly EmptyString false.
Definition named (n : string) : Value := Object [("name", Str n)].
Definition tool_names : list string := ["fs.read"; "status"; "git.log"; "fs.write"].
Definition layout : list Relation :=
  engine_relations Statements.Wit.type_oid "engine" "mcp" opts tool_names.
Definition shown (table : string) (items : list Value) : list (option string * list (option string)) :=
  (fun r => (rel_schema r, Catalog.item_name <$> scope r items)) <$> tables_called table layout.
End Wit.
#[local] Existing Instance Session.Wit.codec.
#[local] Existing Instance Codegen.debug_build.
#[local] Existing Instance Session.Wit.steady.

Example engine_tools :
  Wit.shown "tools" (Wit.named <$> Wit.tool_names) =
  [(Some "fs", [Some "read"; Some "write"]); (Some "git", [Some "log"]); (Some "mcp", [Some "status"])].
Proof. by vm_compute. Qed.

(** Dots mean something else in the names of resources: [README.md] is taken for an
    item of an upstream [README], which has no schema, and is in no table. *)
Example dotted_resource_hidden :
  Wit.shown "resources" [Wit.named "README.md"; Wit.named "notes"] =
  [(Some "fs", []); (Some "git", []); (Some "mcp", [Some "notes"])].
Proof. by vm_compute. Qed.

(** The prompt the server calls [fs.greet] is listed as [greet] in the schema [fs],
    and asked for as [greet] by [prompt_messages] there. *)
Example prompt_asked_unqualified :
  let '(_, st) := Readthrough.begin_scan Readthrough.prompt_messages_rows
    (mkScanContext (mkTableContext PROMPT_MESSAGES_SPEC "engine" Session.Wit.resolved [("upstream", "fs")])
       [equal "prompt" (Str "greet")]) Session.Wit.empty in
  Wit.shown "prompts" [Wit.named "fs.greet"] = [(Some "fs", [Some "greet"]); (Some "git", []); (Some "mcp", [])] ∧
  (fun rq => get (rq_body rq) "params" ≫= fun p => get p "name") <$> last (w_sent (world st))
  = Some (Some (Str "greet")).
Proof. by vm_compute. Qed.

(** A tool whose name starts with a dot: the statements begin with the schema of
    the empty name, which PostgreSQL refuses. *)
Example nameless_upstream :
  head (ImportSchema.engine_statements "engine" "mcp" Wit.opts
          (ImportSchema.upstreams_from_tool_names [".hidden"; "fs.read"]))
  = Some ("CREATE SCHEMA " +:+ quoted EmptyString +:+ ";").
Proof. by vm_compute. Qed.

Lemma imported_tables_serve_the_registry_witness :
  length Wit.layout = 26%nat ∧
  Forall (fun r => ∃ e, target_for_relid r = Ok (Pushdown.Registry e) ∧
                        table_ttl_ms (rel_options r) = Some 60000) Wit.layout.
Proof.
  split; [by vm_compute|]. apply Forall_forall. intros r Hr.
  destruct (imported_tables_serve_the_registry Statements.Wit.type_oid "engine" "mcp"
    ImportSchema.AllTables Wit.opts Wit.tool_names ltac:(by split; [split|])) as [_ He].
  destruct (He r Hr) as (e & schema & _ & Hs & _ & Ht & _). exists e.
  split; [exact (se_target _ _ _ _ _ Hs)|exact Ht].
Defined.

Lemma engine_layout_splits_lists_witness :
  mjoin ((fun r => qualified r <$> scope r (Wit.named <$> Wit.tool_names)) <$> tables_called "tools" Wit.layout)
  ≡ₚ Wit.named <$> Wit.tool_names.
Proof.
  destruct (engine_layout_splits_lists Statements.Wit.type_oid "engine" "mcp" Wit.opts Wit.tool_names
    (mkEntry TOOLS_SPEC TOOLS_TABLE) (Wit.named <$> Wit.tool_names)) as (_ & _ & Hp & Hall).
  - by right; left.
  - done.
  - apply (bool_decide_unpack _). by vm_compute.
  - etrans; [exact Hp|]. rewrite Hall; [done|].
    intros it n (m & -> & Hm)%list_elem_of_fmap [= <-]. exact Hm.
Defined.

End Federation.
