(* ===== verification/Generated.v ===== *)
(** * Generated tables in use: the names PostgreSQL keeps, the rows that fit

    The planner bounds names by 63 bytes, the emitters put [tool_] before them,
    PostgreSQL clips what it is given; and a row's shape comes from the tool's
    definition at the time of the scan, the table's columns from the one it was
    generated from.  Here these are put side by side. *)

From Stdlib Require Import Ascii String ZArith Lia.
From stdpp Require Import base numbers gmap sets strings pretty list.
From S2P Require Import Prelude Str Json Errors Options Quals Tables Cursor Client Session Cache Catalog.
From S2P Require Import Readthrough ToolCalls Ident Codegen Ddl ImportSchema Registry PerTool Datum Pushdown Fdw Statements.
Import Options Quals Tables Client Session Datums Pushdown Fdw Statements.
#[local] Open Scope Z_scope.

Module Generated.

(** ** Clipped identifiers *)

Lemma clip_ascii room s :
  Forall (fun b => b < 128) (bytes s) → clip room 0 s = str_take room s.
Proof.
  revert room. induction s as [|c s IH]; intros room Ha; [by destruct room|].
  apply Forall_cons in Ha as [Hc Ha]. cbn [clip str_take].
  assert (char_length c = 1%nat) as -> by (unfold char_length; by rewrite (proj2 (Z.ltb_lt _ _))).
  destruct room as [|room]; [done|]. cbn [Nat.leb Nat.sub]. by rewrite Nat.sub_0_r, IH.
Qed.

Lemma str_take_all n s : (String.length s ≤ n)%nat → str_take n s = s.
Proof.
  revert n. induction s as [|c s IH]; intros n Hl; [by destruct n|].
  cbn [String.length] in Hl. destruct n as [|n]; [lia|]. cbn [str_take]. by rewrite IH by lia.
Qed.

Lemma clip_name_ascii s : Forall (fun b => b < 128) (bytes s) → clip_name s = str_take 63 s.
Proof.
  intros Ha. unfold clip_name. destruct (Nat.leb_spec (String.length s) 63).
  - by rewrite str_take_all.
  - by apply clip_ascii.
Qed.

(** The name of a generated table: five bytes of its 63 are the prefix's. *)
Lemma clip_table_name s :
  Forall Ident.ident_byte (bytes s) → clip_name ("tool_" +:+ s) = "tool_" +:+ str_take 58 s.
Proof.
  intros Hs. rewrite clip_name_ascii; [done|]. rewrite bytes_app. apply Forall_app. split.
  - repeat constructor.
  - by apply Ident.ident_ascii.
Qed.

Lemma clip_name_short s : (String.length s ≤ 63)%nat → clip_name s = s.
Proof. intros Hl. unfold clip_name. by rewrite (proj2 (Nat.leb_le _ _) Hl). Qed.

(** ** Rows against columns *)

(** A row that the slot of a relation can hold: as wide, and each cell of the type
    of its attribute. *)
Definition fits (type_oid : string → Z) (r : Relation) (row : Row) : Prop :=
  Forall2 (fun (a : string * Z) cell => ∃ ty, a.2 = type_oid (Tables.sql_name ty) ∧ PerTool.cell_typed ty cell)
    (rel_attributes r) row.

Lemma typed_fits type_oid server_name t extra row :
  Forall2 PerTool.cell_typed (PerTool.tool_types t) row →
  fits type_oid (catalogued type_oid (Ddl.foreign_of server_name t extra)) row.
Proof.
  unfold fits, catalogued. cbn [rel_attributes Ddl.foreign_of Ddl.ft_columns].
  assert ((fun c : string * string => (clip_name c.1, type_oid c.2)) <$>
            ((Ddl.typed <$> Codegen.table_columns t) ++ [("content", "jsonb"); ("is_error", "boolean")])
          = ((fun c => (clip_name (Codegen.sql_name c), type_oid (Tables.sql_name (Codegen.pg_type c))))
               <$> Codegen.table_columns t)
            ++ [("content", type_oid (Tables.sql_name Jsonb)); ("is_error", type_oid (Tables.sql_name Boolean))]) as ->.
  { rewrite fmap_app, <- list_fmap_compose. done. }
  unfold PerTool.tool_types. intros (outs & last2 & Ho & Hl & ->)%Forall2_app_inv_l.
  apply Forall2_app.
  - apply Forall2_fmap_l. rewrite Forall2_fmap_l in Ho.
    eapply Forall2_impl; [exact Ho|].
    intros c cell Hc. by exists (Codegen.pg_type c).
  - eapply Forall2_cons_inv_l in Hl as (c1 & l1 & H1 & Hl & ->).
    apply Forall2_cons_inv_l in Hl as (c2 & l2 & H2 & Hl & ->). apply Forall2_nil_inv_l in Hl as ->.
    constructor; [by exists Jsonb|]. constructor; [by exists Boolean|constructor].
Qed.

(** The columns depend on the two schemas of the definition alone. *)
Lemma plan_one_shape `{Serde, Unicode} {profile : Build} tool def local sql target gate local' sql' target' gate' t t' :
  get def "inputSchema" = get tool "inputSchema" → get def "outputSchema" = get tool "outputSchema" →
  Codegen.plan_one tool local sql target gate = Ok t →
  Codegen.plan_one def local' sql' target' gate' = Ok t' →
  Codegen.inputs t' = Codegen.inputs t ∧ Codegen.output t' = Codegen.output t.
Proof.
  intros Hi Ho. unfold Codegen.plan_one. rewrite Hi, Ho.
  destruct (Codegen.properties _) as [props|]; [|done]. intros [= <-] [= <-]. done.
Qed.

Lemma plan_live_one `{Serde, Unicode} {profile : Build} c items rt :
  PerTool.plan_live c items = Ok rt →
  ∃ def local sql target gate, PerTool.find_tool (PerTool.pt_tool (PerTool.target c)) items = Some def ∧
    Codegen.plan_one def local sql target gate = Ok (PerTool.planned rt).
Proof.
  unfold PerTool.plan_live.
  intros (def & Hd & (plan & Hp & (p & Hh & [= <-])%result_bind_Ok)%result_bind_Ok)%result_bind_Ok.
  apply ok_or_Ok in Hd, Hh. cbn [PerTool.planned].
  assert (p ∈ Codegen.tools plan) as Hin by (destruct (Codegen.tools plan); simplify_eq/=; left).
  destruct (Codegen.plan_tools_from _ _ _ _ _ _ _ Hp Hin) as (r & sql & Hr & Hone).
  apply Codegen.elem_of_routed in Hr as (Hdef & _). apply list_elem_of_singleton in Hdef.
  rewrite Hdef in Hone. by do 5 eexists.
Qed.

Lemma same_types t t' :
  Codegen.inputs t' = Codegen.inputs t → Codegen.output t' = Codegen.output t →
  PerTool.tool_types t' = PerTool.tool_types t.
Proof.
  intros Hi Ho. unfold PerTool.tool_types, Codegen.table_columns, Codegen.output_columns. by rewrite Hi, Ho.
Qed.

(** The list a scan of a generated table looks its tool up in: the cached one while
    it is fresh, else what the server lists now. *)
Definition live_list `{Serde, Net} (c : PerTool.PerToolContext) :
    M (Sessions PerTool.Locals) McpError (list Value) :=
  PerTool.cached (PerTool.key_of_ctx c)
    (default (so_cache_ttl_ms (options (PerTool.pt_resolved c))) (PerTool.pt_cache_ttl_ms (PerTool.target c)))
    Cache.Tools
    (with_session (PerTool.pt_resolved c) (fun tr => lift_x (list_all "tools/list" "tools" (Object []) tr))).

(** The relations PostgreSQL makes of a plan's tables. *)
Definition plan_relations (type_oid : string → Z) (server_name : string)
    (extra : Codegen.PlannedTool → Ddl.ExtraOptions) (ts : list Codegen.PlannedTool) : list Relation :=
  omap (fun t => generated_relation type_oid server_name t (extra t)) ts.

Lemma plan_relations_of type_oid server_name extra ts :
  plan_relations type_oid server_name extra ts =
  (fun t => catalogued type_oid (Ddl.foreign_of server_name t (extra t))) <$> ts.
Proof.
  induction ts as [|t ts IH]; [done|]. unfold plan_relations in *.
  rewrite Codegen.omap_cons, IH, generated_relation_of. done.
Qed.

(** A change noticed in a response adds a warning and no more. *)
Lemma note_change_frame `{Spi} c st u st' :
  PerTool.note_change c st = (Ok u, st') → sessions st' = sessions st ∧ world st' = world st.
Proof. unfold PerTool.note_change. destruct (default false _); by intros [= _ <-]. Qed.

Section opened.
Context `{Serde, Net, UrlLib, PgCatalog, Unicode, Spi, PgEnv, PgInput, PgDatum, PgOperators} {profile : Build}.

(** A scan of the log reads memory. *)
Lemma open_log r sn res quals st c st' :
  open_scan r (Pushdown.Registry (mkEntry TOOL_CALLS_SPEC TOOL_CALLS_TABLE)) sn res quals st = (Ok (Some c), st') →
  ∃ rows, c = OfLog (ToolCalls.mkLogCursor rows) ∧ st' = st.
Proof. cbn [open_scan e_handler begin_registry_scan]. intros [= <- <-]. by eexists. Qed.

(** A scan of a tool's table that opens: the list, the tool in it, its call and
    the rows of the reply. *)
Lemma open_tool r t name schema sn res quals st c st' :
  rel_name r = Some name → rel_schema r = Some schema →
  let ctx := PerTool.mkContext t (Ddl.quote_ident schema +:+ "." +:+ Ddl.quote_ident name) sn res quals in
  open_scan r (PerToolTable t) sn res quals st = (Ok (Some c), st') →
  ∃ rt st0 items st1 args reply all st2,
    live_list ctx (mkSessions (sessions st) (world st) (per_tool_part (extra st))) = (Ok items, st0) ∧
    PerTool.plan_live ctx items = Ok rt ∧ sessions st1 = sessions st0 ∧ world st1 = world st0 ∧
    PerTool.arguments_from_quals rt = Ok args ∧ PerTool.call rt args st1 = (Ok reply, st2) ∧
    PerTool.shape (PerTool.planned rt) args reply = Ok all ∧
    cursor_rest c = filter (fun row => PerTool.post_filter rt row = true) all ∧
    st' = mkSessions (sessions st2) (world st2) (set_per_tool (extra st2) (extra st)).
Proof.
  intros Hn Hsch ctx Ho. cbn [open_scan] in Ho.
  apply m_bind_inv_ok in Ho as (table_qual & st0 & [Htq ->]%PerTool.m_lift_Ok & Ho).
  unfold table_qual_for_relid, relname_for_relid in Htq. rewrite Hsch, Hn in Htq. cbn in Htq. injection Htq as <-.
  apply m_bind_inv_ok in Ho as ([rows] & st3 & (st2 & Hscan & ->)%zoom_Ok & [[= <-] <-]%Catalog.m_ret_inv).
  apply PerTool.begin_scan_Ok in Hscan as (_ & rt & st1 & args & reply & all & Ht & _ & Ha & Hcall & Hs & ->).
  unfold PerTool.resolve_tool in Ht.
  apply m_bind_inv_ok in Ht as (items & st4 & Hitems & (u & st5 & Hnote & [Hlive ->]%PerTool.m_lift_Ok)%m_bind_inv_ok).
  apply note_change_frame in Hnote as [Hs1 Hw1].
  by exists rt, st4, items, st5, args, reply, all, st2.
Qed.
End opened.

(** ** Properties *)

(** C29. When the tables of a plan have names of their own.  Planned SQL names are
    distinct within 63 bytes, but [tool_] takes five of them and PostgreSQL keeps
    the first 63: every planned tool gets its relation, and no two relations share
    schema and name exactly when the SQL names differ within their first 58 bytes
    (in schemas that PostgreSQL does not clip together); names of at most 58 bytes,
    in schemas of at most 63, are safe.  The plan is always there, but for the
    panic of a debug build on a tool that requires some name twice. *)
Theorem generated_tables_distinct `{Serde, Unicode} {profile : Build} (ts : list Value) (target prefix : string)
    (gate : Codegen.InvokeOnSelect) (mode : Codegen.SchemaMode) (type_oid : string → Z) (server_name : string)
    (extra : Codegen.PlannedTool → Ddl.ExtraOptions) :
  target ≠ EmptyString → Ident.fragment prefix → Z.of_nat (length ts) < 10 ^ 53 →
  match Codegen.plan ts target prefix gate mode with
  | Ok p =>
      let rels := plan_relations type_oid server_name extra (Codegen.tools p) in
      length rels = length (Codegen.tools p) ∧
      (NoDup ((fun r => (rel_schema r, rel_name r)) <$> rels) ↔
       NoDup ((fun t => (clip_name (Codegen.schema t), str_take 58 (Codegen.tool_sql_name t))) <$> Codegen.tools p)) ∧
      (Forall (fun t => (String.length (Codegen.schema t) ≤ 63)%nat ∧
                        (String.length (Codegen.tool_sql_name t) ≤ 58)%nat) (Codegen.tools p) →
       NoDup ((fun r => (rel_schema r, rel_name r)) <$> rels))
  | Err e =>
      Codegen.debug_assertions = true ∧
      ∃ tool m, tool ∈ ts ∧ e = Unwinding AssertionFailed m ∧ ¬ Codegen.required_once tool
  end.
Proof.
  intros Ht Hp Hl. destruct (Codegen.plan ts target prefix gate mode) as [p|e] eqn:Hplan.
  2:{ apply Codegen.plan_Err in Hplan as [[? _]|Hd]; [done|exact Hd]. }
  destruct (Codegen.plan_spec ts target prefix gate mode p Hp Hl Hplan) as (_ & _ & Hnd & Hid & _).
  cbv zeta. rewrite plan_relations_of, <- list_fmap_compose.
  assert (((fun r => (rel_schema r, rel_name r))
           ∘ (fun t => catalogued type_oid (Ddl.foreign_of server_name t (extra t)))) <$> Codegen.tools p
          = (fun q : string * string => (Some q.1, Some ("tool_" +:+ q.2))) <$>
            ((fun t => (clip_name (Codegen.schema t), str_take 58 (Codegen.tool_sql_name t))) <$> Codegen.tools p)) as ->.
  { rewrite <- list_fmap_compose. apply list_fmap_ext. intros i t Hi%list_elem_of_lookup_2.
    rewrite Forall_forall in Hid. destruct (Hid t Hi) as [[Hc _] _].
    unfold compose, catalogued, Ddl.foreign_of. cbn [rel_schema rel_name Ddl.ft_schema Ddl.ft_table fst snd].
    unfold Ddl.table_name. by rewrite clip_table_name. }
  assert (Inj (=) (=) (fun q : string * string => (Some q.1, Some ("tool_" +:+ q.2)))) as Hinj.
  { intros [a b] [c d] Heq. cbn in Heq. by simplify_eq. }
  assert (NoDup ((fun q : string * string => (Some q.1, Some ("tool_" +:+ q.2))) <$>
            ((fun t => (clip_name (Codegen.schema t), str_take 58 (Codegen.tool_sql_name t))) <$> Codegen.tools p))
          ↔ NoDup ((fun t => (clip_name (Codegen.schema t), str_take 58 (Codegen.tool_sql_name t))) <$> Codegen.tools p))
    as Hiff by (split; [apply NoDup_fmap_1|apply (NoDup_fmap_2 _ _)]).
  split_and!; [by rewrite length_fmap|exact Hiff|].
  intros Hshort. apply Hiff.
  assert ((fun t => (clip_name (Codegen.schema t), str_take 58 (Codegen.tool_sql_name t))) <$> Codegen.tools p
          = (fun t => (Codegen.schema t, Codegen.tool_sql_name t)) <$> Codegen.tools p) as ->; [|done].
  apply list_fmap_ext. intros i t Hi%list_elem_of_lookup_2. rewrite Forall_forall in Hshort.
  destruct (Hshort t Hi). by rewrite clip_name_short, str_take_all.
Qed.

(** C17. A generated table and its tool, at the time of a SELECT.  A scan that opens on
    the table of a planned tool is made as the server and the role of the table
    resolve at that moment: it looks the tool up, by the name it was planned under,
    in the server's list then, and calls the tool found once, with the arguments the
    clauses give; its rows are those of the reply that the clauses keep, and it
    leaves the sessions and the world of that call.  When the definition found has
    the input and output schemas the table was generated from, every row is as wide
    as the table and each cell has the type of its column -- it is the table's own
    columns that are never consulted.  The exception is a tool whose SQL name is
    [calls]: a scan of its table reads the log of calls, and calls nothing. *)
Theorem generated_rows_fit
    `{Serde, Net, UrlLib, PgCatalog, Unicode, Spi, PgEnv, PgInput, PgDatum, PgOperators} {profile : Build}
    (tool : Value) (local sql target : string) (gate : Codegen.InvokeOnSelect) (t : Codegen.PlannedTool)
    (type_oid : string → Z) (server_name : string) (opts : Ddl.ExtraOptions) (r : Relation)
    (eflags : Z) (fplan : ForeignScan) (ev : Node → option Datum) (st st' : Sessions Backend) (c : BoxedCursor) :
  PerTool.input_ok →
  Codegen.plan_one tool local sql target gate = Ok t →
  Codegen.usable_name tool = Some (Codegen.tool_name t) →
  (∀ ttl, Ddl.cache_ttl_ms opts = Some ttl → 0 <= ttl <= u64_max) →
  generated_relation type_oid server_name t opts = Some r →
  begin_foreign_scan r eflags fplan ev st = (Ok (Some c), st') →
  if bool_decide (sql = "calls") then
    st' = st ∧ ∃ sn resolved rows, c = OfLog (ToolCalls.mkLogCursor rows) ∧
      resolve_for_relid r = Ok (Pushdown.Registry (mkEntry TOOL_CALLS_SPEC TOOL_CALLS_TABLE), sn, resolved)
  else
    ∃ name schema resolved quals,
      rel_name r = Some name ∧ rel_schema r = Some schema ∧
      resolve (clip_name server_name) = Ok resolved ∧ scan_quals ev fplan name = Ok quals ∧
      let ctx := PerTool.mkContext (table_target t opts) (Ddl.quote_ident schema +:+ "." +:+ Ddl.quote_ident name)
                   (clip_name server_name) resolved quals in
      ∃ items def rt args reply all st0 st1 st2,
        live_list ctx (mkSessions (sessions st) (world st) (per_tool_part (extra st))) = (Ok items, st0) ∧
        PerTool.find_tool (Codegen.tool_name t) items = Some def ∧ PerTool.plan_live ctx items = Ok rt ∧
        sessions st1 = sessions st0 ∧ world st1 = world st0 ∧
        PerTool.arguments_from_quals rt = Ok args ∧ PerTool.call rt args st1 = (Ok reply, st2) ∧
        PerTool.shape (PerTool.planned rt) args reply = Ok all ∧
        cursor_rest c = filter (fun row => PerTool.post_filter rt row = true) all ∧
        st' = mkSessions (sessions st2) (world st2) (set_per_tool (extra st2) (extra st)) ∧
        (get def "inputSchema" = get tool "inputSchema" → get def "outputSchema" = get tool "outputSchema" →
         value_ok args → value_ok reply → Forall (fits type_oid r) (cursor_rest c)).
Proof.
  intros Hin Hp Hu Httl Hr Hb. pose proof (Codegen.plan_one_Ok _ _ _ _ _ _ Hp) as (_ & _ & Hsql & _).
  pose proof (generated_target _ _ _ _ _ Hr (Codegen.usable_name_nonempty _ _ Hu) Httl) as Htarget.
  rewrite Hsql in Htarget. apply begin_Ok in Hb as (name & tg & sn & res & quals & Hn & Hres & Hq & Ho).
  pose proof (resolve_for_relid_Ok _ _ _ _ Hres) as (Htg & Hsn & Hrs). rewrite Htarget in Htg.
  injection Htg as <-. case_bool_decide.
  { apply open_log in Ho as (rows & -> & ->). split; [done|]. by exists sn, res, rows. }
  rewrite generated_relation_of in Hr.
  assert (∃ schema, rel_schema r = Some schema ∧ server_name_for_relid r = Ok (clip_name server_name))
    as (schema & Hsch & Hsn') by (injection Hr as <-; by eexists).
  rewrite Hsn' in Hsn. injection Hsn as <-. exists name, schema, res, quals. split_and!; [done..|]. intros ctx.
  destruct (open_tool _ _ _ _ _ _ _ _ _ _ Hn Hsch Ho)
    as (rt & st0 & items & st1 & args & reply & all & st2 & Hl & Hlive & Hs1 & Hw1 & Ha & Hcall & Hs & Hc & ->).
  destruct (plan_live_one _ _ _ Hlive) as (def & l' & s' & tg' & g' & Hfind & Hone).
  exists items, def, rt, args, reply, all, st0, st1, st2. split_and!; [done..|].
  intros Hi Hout Hva Hvr. destruct (plan_one_shape _ _ _ _ _ _ _ _ _ _ _ _ Hi Hout Hp Hone) as [Hin' Hout'].
  destruct (PerTool.shape_rows _ _ _ _ Hin Hva Hvr Hs) as [_ Hall]. rewrite Hc. injection Hr as <-.
  apply Forall_forall. intros row [_ Hrow]%list_elem_of_filter. apply typed_fits.
  rewrite <- (same_types t (PerTool.planned rt) Hin' Hout'). rewrite Forall_forall in Hall. by apply Hall.
Qed.

(** ** Witnesses *)

Module Wit.
Definition opts : Ddl.ExtraOptions := Ddl.mkExtra None None.
(** A read-only tool without inputs that gives one value of a type. *)
Definition clock (ty : string) : Value :=
  Object [("name", Str "clock"); ("annotations", Object [("readOnlyHint", Bool true)]);
          ("inputSchema", Object [("properties", Object [])]);
          ("outputSchema", Object [("properties", Object [("n", Object [("type", Str ty)])])])].
(** A server that lists the tool with that type and answers it with the value. *)
Definition codec (ty : string) (n : Value) : Serde := {|
  json_from_str s :=
    if bool_decide (s = "{r}") then
      Some (Object [("result", Object [("tools", Array [clock ty]); ("content", Array []);
                                       ("structuredContent", Object [("n", n)])])])
    else None;
  json_to_string _ := "{r}" |}.
Definition type_oid (ty : string) : Z :=
  default 0 (oid <$> head (filter (fun t => Tables.sql_name t = ty)
    [Text; Jsonb; Boolean; Int4; Int8; Bytea; Uuid; TimestampTz; Float8; Date])).
(** A tool whose name has 60 letters. *)
Definition long (c : string) : Value :=
  Object [("name", Str ("get_the_current_state_of_the_deployment_in_the_region_number_" +:+ c));
          ("inputSchema", Object [("properties", Object [])])].
End Wit.
#[local] Existing Instance Datums.Wit.pg.
#[local] Existing Instance Pushdown.Wit.ops.
#[local] Existing Instance Session.Wit.steady.
#[local] Existing Instance Statements.Wit.catalog.
#[local] Existing Instance Options.Wit.lib.
#[local] Existing Instance ToolCalls.Wit.env.
#[local] Existing Instance Fdw.Wit.spi.
#[local] Existing Instance Fdw.Wit.ascii_tables.
#[local] Existing Instance Codegen.debug_build.
#[local] Existing Instance Fdw.Wit.input.

(** Two planned names that differ in their last byte only, and one table name. *)
Example clipped_tables_collide :
  let _ := Statements.Wit.codec in
  match Codegen.plan [Wit.long "1"; Wit.long "2"] "s" EmptyString Codegen.ReadOnly Codegen.SingleSchema with
  | Ok p => (Codegen.tool_sql_name <$> Codegen.tools p,
             rel_name <$> plan_relations Wit.type_oid "local" (fun _ => Wit.opts) (Codegen.tools p))
  | Err _ => ([], [])
  end =
  (["get_the_current_state_of_the_deployment_in_the_region_number_1";
    "get_the_current_state_of_the_deployment_in_the_region_number_2"],
   [Some "tool_get_the_current_state_of_the_deployment_in_the_region_numb";
    Some "tool_get_the_current_state_of_the_deployment_in_the_region_numb"]).
Proof. by vm_compute. Qed.

(** Two properties of one tool that derive to one name of 63 bytes: the suffix that
    tells their columns apart lies beyond what PostgreSQL keeps. *)
Example clipped_columns_collide :
  let _ := Statements.Wit.codec in
  let property (sep : string) :=
    ("the_maximum_number_of_results" +:+ sep +:+ "that_the_search_may_return_at_once", Null) in
  (fun cols => (bool_decide (NoDup (Codegen.sql_name <$> cols)),
                bool_decide (NoDup ((fun c => clip_name (Codegen.sql_name c)) <$> cols))))
    (Codegen.input_columns ∅ ∅ [property "_"; property "-"]) = (true, false).
Proof. by vm_compute. Qed.

(** A tool generated with a text output and now listed with an integer one: the
    scan succeeds, and its row has a bigint where the table has a text column. *)
Example stale_table_misfit :
  let generated := Wit.clock "string" in
  let cdc := Wit.codec "integer" (num_of_Z 7) in
  match Codegen.plan_one generated "clock" "clock" "s" Codegen.ReadOnly with
  | Ok t => r ← generated_relation Wit.type_oid "local" t Wit.opts;
            match (begin_foreign_scan r 0 (mkForeignScan [] [] []) (fun _ => None) Fdw.Wit.backend).1 with
            | Ok (Some c) => Some (take 1 (rel_attributes r), take 1 <$> cursor_rest c)
            | _ => None
            end
  | Err _ => None
  end = Some ([("n", oid Text)], [[Some (CInt8 7)]]).
Proof. by vm_compute. Qed.

Lemma generated_tables_distinct_witness :
  let _ := Statements.Wit.codec in
  ∃ p, Codegen.plan [Wit.clock "string"; Wit.long "1"] "s" EmptyString Codegen.ReadOnly Codegen.SingleSchema = Ok p ∧
    NoDup ((fun r => (rel_schema r, rel_name r))
             <$> plan_relations Wit.type_oid "local" (fun _ => Wit.opts) (Codegen.tools p)).
Proof.
  intros cdc. pose proof (generated_tables_distinct [Wit.clock "string"; Wit.long "1"] "s" EmptyString
    Codegen.ReadOnly Codegen.SingleSchema Wit.type_oid "local" (fun _ => Wit.opts)
    ltac:(done) ltac:(by split) ltac:(by vm_compute)) as Hd.
  destruct (Codegen.plan _ _ _ _ _) as [p|e] eqn:Hp; [|by vm_compute in Hp].
  destruct Hd as (_ & Hiff & _). exists p. split; [reflexivity|]. apply Hiff. clear Hiff. vm_compute in Hp. injection Hp as <-.
  apply (bool_decide_unpack _). by vm_compute.
Defined.

Lemma generated_rows_fit_witness :
  let cdc := Wit.codec "string" (Str "noon") in
  ∃ t r c st', Codegen.plan_one (Wit.clock "string") "clock" "clock" "s" Codegen.ReadOnly = Ok t ∧
    generated_relation Wit.type_oid "local" t Wit.opts = Some r ∧
    begin_foreign_scan r 0 (mkForeignScan [] [] []) (fun _ => None) Fdw.Wit.backend = (Ok (Some c), st') ∧
    length (cursor_rest c) = 1%nat ∧
    ∃ ctx items st0, live_list ctx (mkSessions ∅ (mkWorld [] 0) (PerTool.mkLocals ∅ [] [])) = (Ok items, st0) ∧
      is_Some (PerTool.find_tool "clock" items).
Proof.
  intros cdc. destruct (Codegen.plan_one (Wit.clock "string") "clock" "clock" "s" Codegen.ReadOnly) as [t|e] eqn:Hp;
    [|by vm_compute in Hp].
  destruct (generated_relation Wit.type_oid "local" t Wit.opts) as [r|] eqn:Hr; [|by rewrite generated_relation_of in Hr].
  assert (r = catalogued Wit.type_oid (Ddl.foreign_of "local" t Wit.opts)) as Er
    by (rewrite generated_relation_of in Hr; congruence).
  destruct (begin_foreign_scan r 0 (mkForeignScan [] [] []) (fun _ => None) Fdw.Wit.backend) as [out st'] eqn:Hb.
  assert (out = (begin_foreign_scan r 0 (mkForeignScan [] [] []) (fun _ => None) Fdw.Wit.backend).1) as Hout
    by by rewrite Hb.
  assert (Codegen.tool_name t = "clock") as Hn by by apply Codegen.plan_one_Ok in Hp as (_ & -> & _).
  destruct out as [[c|]|f].
  2,3: exfalso; vm_compute in Hp; injection Hp as <-; rewrite Er in Hout; clear -Hout; vm_compute in Hout;
    discriminate Hout.
  destruct (generated_rows_fit (Wit.clock "string") "clock" "clock" "s" Codegen.ReadOnly t Wit.type_oid "local"
    Wit.opts r 0 (mkForeignScan [] [] []) (fun _ => None) Fdw.Wit.backend st' c PerTool.Wit.pg_ok Hp
    ltac:(by rewrite Hn) ltac:(done) Hr Hb)
    as (name & schema & res & quals & _ & _ & _ & _ & items & def & rt & args & reply & all & st0 & st1 & st2 & Hl & Hf & _).
  rewrite Hn in Hf. exists t, r, c, st'. split; [done|]. split; [done|]. split; [done|]. split.
  - vm_compute in Hp. injection Hp as <-. rewrite Er in Hout. clear -Hout. vm_compute in Hout.
    injection Hout as ->. reflexivity.
  - eexists _, items, st0. split; [exact Hl|by exists def].
Defined.

End Generated.
