(* ===== verification/JsonText.v ===== *)
(** * A concrete JSON text codec

    An executable instance of [Serde]: an RFC 8259 reader and the compact writer.
    It is not the crate's code and no theorem speaks of it: the test vectors
    evaluate the model with it. *)

From Stdlib Require Import Ascii String ZArith Lia.
From Stdlib Require Import SpecFloat.
From stdpp Require Import base numbers gmap sets strings pretty list.
From S2P Require Import Prelude Str Json.
#[local] Set Warnings "-register-all".
#[local] Open Scope Z_scope.

Module JsonText.

(** ** Reading *)

Definition is_space (c : ascii) : bool :=
  Ascii.eqb c " "%char || Ascii.eqb c "009"%char || Ascii.eqb c "010"%char || Ascii.eqb c "013"%char.

Fixpoint skip (s : string) : string :=
  match s with
  | String c s' => if is_space c then skip s' else s
  | EmptyString => EmptyString
  end.

Definition hex_value (c : ascii) : option Z :=
  let b := byte_Z c in
  if is_ascii_digit b then Some (b - 48)
  else if in_range 97 102 b then Some (b - 87)
  else if in_range 65 70 b then Some (b - 55) else None.

(** Four hexadecimal digits: a scalar value of the basic plane. *)
Definition hex4 (a b c d : ascii) : option Z :=
  x ← hex_value a; y ← hex_value b; z ← hex_value c; w ← hex_value d;
  let n := ((x * 16 + y) * 16 + z) * 16 + w in
  if in_range 0xD800 0xDFFF n then None else Some n.

Definition unescape (c : ascii) : option string :=
  match c with
  | "034"%char | "092"%char | "047"%char => Some (String c EmptyString)
  | "b"%char => Some (String "008"%char EmptyString)
  | "f"%char => Some (String "012"%char EmptyString)
  | "n"%char => Some nl
  | "r"%char => Some (String "013"%char EmptyString)
  | "t"%char => Some (String "009"%char EmptyString)
  | _ => None
  end.

(** The text after an opening quote, and what follows the closing one. *)
Fixpoint read_text (acc s : string) : option (string * string) :=
  match s with
  | EmptyString => None
  | String "034"%char s' => Some (acc, s')
  | String "092"%char (String "u"%char (String a (String b (String c (String d s'))))) =>
      n ← hex4 a b c d; read_text (acc +:+ utf8_char n) s'
  | String "092"%char (String c s') => t ← unescape c; read_text (acc +:+ t) s'
  | String c s' => if byte_Z c <? 32 then None else read_text (acc +:+ String c EmptyString) s'
  end.

Fixpoint digits (acc : string) (s : string) : string * string :=
  match s with
  | String c s' =>
      if is_ascii_digit (byte_Z c) then digits (acc +:+ String c EmptyString) s' else (acc, s)
  | EmptyString => (acc, EmptyString)
  end.

Definition value_of_digits (s : string) : Z := default 0 (digits_value 0 (bytes s)).

(** [m * 10^e] in binary64, correctly rounded while both powers are exact. *)
Definition decimal (m e : Z) : spec_float :=
  if 0 <=? e then f64_of_Z (m * 10 ^ e) else SFdiv 53 1024 (f64_of_Z m) (f64_of_Z (10 ^ (- e))).

Definition read_fraction (s : string) : option (option string * string) :=
  match s with
  | String "."%char s' =>
      let '(ds, rest) := digits EmptyString s' in
      if is_empty ds then None else Some (Some ds, rest)
  | _ => Some (None, s)
  end.

Definition read_exponent (s : string) : option (option Z * string) :=
  match s with
  | String c s' =>
      if Ascii.eqb c "e"%char || Ascii.eqb c "E"%char then
        let '(negative, s') := match s' with
                               | String "-"%char s'' => (true, s'')
                               | String "+"%char s'' => (false, s'')
                               | _ => (false, s')
                               end in
        let '(ds, rest) := digits EmptyString s' in
        if is_empty ds then None
        else Some (Some (if negative then - value_of_digits ds else value_of_digits ds), rest)
      else Some (None, s)
  | EmptyString => Some (None, s)
  end.

(** An integer in range is an integer; anything else is a double. *)
Definition number (negative : bool) (int : string) (frac : option string) (exp : option Z) : Number :=
  let sign (n : Z) := if negative then - n else n in
  match frac, exp with
  | None, None =>
      let n := value_of_digits int in
      if negative then
        if (n =? 0) then Float (S754_zero true)
        else if - n <? i64_min then Float (f64_of_Z (- n)) else NegInt (- n)
      else if u64_max <? n then Float (f64_of_Z n) else PosInt n
  | _, _ =>
      let ds := default EmptyString frac in
      let m := sign (value_of_digits (int +:+ ds)) in
      Float (decimal m (default 0 exp - Z.of_nat (String.length ds)))
  end.

Definition read_number (s : string) : option (Value * string) :=
  let '(negative, s) := match s with String "-"%char s' => (true, s') | _ => (false, s) end in
  let '(int, s) := digits EmptyString s in
  if is_empty int || (starts_with "0" int && negb (bool_decide (int = "0"))) then None
  else
    '(frac, s) ← read_fraction s;
    '(exp, s) ← read_exponent s;
    Some (Num (number negative int frac exp), s).

Definition read_literal (word : string) (v : Value) (s : string) : option (Value * string) :=
  rest ← strip_prefix word s; Some (v, rest).

(** One value, the rest of an array, the rest of an object. *)
Fixpoint read_value (fuel : nat) (s : string) : option (Value * string) :=
  match fuel with
  | O => None
  | S fuel =>
      match skip s with
      | String "{"%char s' =>
          match skip s' with
          | String "}"%char rest => Some (Object [], rest)
          | s' => read_fields fuel [] s'
          end
      | String "["%char s' =>
          match skip s' with
          | String "]"%char rest => Some (Array [], rest)
          | s' => read_items fuel [] s'
          end
      | String "034"%char s' => '(t, rest) ← read_text EmptyString s'; Some (Str t, rest)
      | String "n"%char _ as s' => read_literal "null" Null s'
      | String "t"%char _ as s' => read_literal "true" (Bool true) s'
      | String "f"%char _ as s' => read_literal "false" (Bool false) s'
      | s' => read_number s'
      end
  end
with read_items (fuel : nat) (acc : list Value) (s : string) : option (Value * string) :=
  match fuel with
  | O => None
  | S fuel =>
      '(v, rest) ← read_value fuel s;
      match skip rest with
      | String "]"%char rest => Some (Array (acc ++ [v]), rest)
      | String ","%char rest => read_items fuel (acc ++ [v]) rest
      | _ => None
      end
  end
with read_fields (fuel : nat) (acc : list (string * Value)) (s : string) : option (Value * string) :=
  match fuel with
  | O => None
  | S fuel =>
      match skip s with
      | String "034"%char s' =>
          '(k, rest) ← read_text EmptyString s';
          match skip rest with
          | String ":"%char rest =>
              '(v, rest) ← read_value fuel rest;
              match skip rest with
              | String "}"%char rest => Some (Object (obj_insert k v acc), rest)
              | String ","%char rest => read_fields fuel (obj_insert k v acc) rest
              | _ => None
              end
          | _ => None
          end
      | _ => None
      end
  end.

Definition from_str (s : string) : option Value :=
  '(v, rest) ← read_value (2 * S (String.length s)) s;
  if is_empty (skip rest) then Some v else None.

(** ** Writing *)

Definition escape (c : ascii) : string :=
  match c with
  | "034"%char | "092"%char => String "092"%char (String c EmptyString)
  | "008"%char => "\b"
  | "012"%char => "\f"
  | "010"%char => "\n"
  | "013"%char => "\r"
  | "009"%char => "\t"
  | _ => if byte_Z c <? 32 then "\u00" +:+ hex2 (byte_Z c) else String c EmptyString
  end.

Fixpoint write_text (s : string) : string :=
  match s with
  | EmptyString => EmptyString
  | String c s' => escape c +:+ write_text s'
  end.

(** [n / 10^k] in decimal. *)
Definition fixed_point (n : Z) (k : nat) : string :=
  let s := fmt_Z n in
  let padded := concat (replicate (S k - String.length s) "0") +:+ s in
  let whole := (String.length padded - k)%nat in
  str_take whole padded +:+ "." +:+ str_drop whole padded.

(** The first of [10^k, 10^(k+1), ...] under which the rounded numerator reads back. *)
Fixpoint shortest (fuel k : nat) (m : Z) (e : Z) (f : spec_float) : string :=
  let scale := 2 ^ (- e) in
  let n := (2 * m * 10 ^ Z.of_nat k + scale) / (2 * scale) in
  match fuel with
  | O => fixed_point n k
  | S fuel => if SFeqb (decimal n (- Z.of_nat k)) f then fixed_point n k else shortest fuel (S k) m e f
  end.

(** A double in decimal; an exponent is not needed. *)
Definition write_float (f : spec_float) : string :=
  match f with
  | S754_finite s m e =>
      (if s then "-" else EmptyString)
      +:+ (if 0 <=? e then fmt_Z (Zpos m * 2 ^ e) +:+ ".0" else shortest 20 1 (Zpos m) e (S754_finite false m e))
  | S754_zero s => (if s then "-" else EmptyString) +:+ "0.0"
  | _ => "null"
  end.

Example write_float_tenths : write_float (decimal 15 (-1)) = "1.5" ∧ write_float (decimal (-9) (-1)) = "-0.9" ∧
  write_float (decimal 5 0) = "5.0".
Proof. vm_compute. done. Qed.

Definition write_number (n : Number) : string :=
  match n with PosInt n | NegInt n => fmt_Z n | Float f => write_float f end.

Fixpoint write (v : Value) : string :=
  match v with
  | Null => "null"
  | Bool b => if b then "true" else "false"
  | Num n => write_number n
  | Str s => quoted (write_text s)
  | Array l => "[" +:+ join "," (map write l) +:+ "]"
  | Object m =>
      "{" +:+ join "," (map (fun kv => quoted (write_text kv.1) +:+ ":" +:+ write kv.2) m) +:+ "}"
  end.

(** JSON as the vectors spell it: single quotes for double ones. *)
Definition requote (s : string) : string := replace "'"%char dq s.
Definition json (s : string) : Value := default (Str "malformed") (from_str (requote s)).

End JsonText.

Definition json_text : Serde :=
  {| json_from_str := JsonText.from_str; json_to_string := JsonText.write |}.
