(* ===== verification/Vectors.v ===== *)
(** * The unit tests of the protocol layer, evaluated on the model

    The tests of errors.rs, quals.rs, sse.rs, client.rs and options.rs that need
    no running server, one boolean per test function with its assertions in
    order.  JSON is written with single quotes and read by [JsonText]. *)

From Stdlib Require Import Ascii String ZArith Lia.
From Stdlib Require Import SpecFloat.
From stdpp Require Import base numbers gmap sets strings pretty list.
From S2P Require Import Prelude Str Json JsonText Errors Sse Options Quals Client.
#[local] Open Scope Z_scope.

(** ** Assertions *)

Module Assert.

Definition all (l : list bool) : bool := forallb (fun b => b) l.

(** [assert_eq!] and [assert_ne!] on types with decidable equality, and on JSON. *)
Definition eq {A} `{EqDecision A} (x y : A) : bool := bool_decide (x = y).
Definition ne {A} `{EqDecision A} (x y : A) : bool := negb (eq x y).
Definition opt_json_eq (x y : option Value) : bool :=
  match x, y with Some x, Some y => value_eqb x y | None, None => true | _, _ => false end.
Fixpoint jsons_eq (xs ys : list Value) : bool :=
  match xs, ys with
  | [], [] => true
  | x :: xs, y :: ys => value_eqb x y && jsons_eq xs ys
  | _, _ => false
  end.

(** [r.is_err()], [r.unwrap_err()] with its SQLSTATE and a part of its message,
    and [r.unwrap()] with a check. *)
Definition is_err {A} (r : McpResult A) : bool := negb (is_ok r).
Definition err_with {A} (r : McpResult A) (p : McpError → bool) : bool :=
  match r with Err e => p e | Ok _ => false end.
Definition ok_with {A} (r : McpResult A) (p : A → bool) : bool :=
  match r with Ok a => p a | Err _ => false end.
Definition code (want : string) (e : McpError) : bool := eq (sqlstate e) want.
Definition says (part : string) (e : McpError) : bool := contains part (message e).

(** [value[key]]: indexing a JSON object. *)
Definition at_key (v : Value) (k : string) : Value := default Null (get v k).

(** [s.repeat(n)] *)
Fixpoint repeat (n : nat) (s : string) : string :=
  match n with O => EmptyString | S n => s +:+ repeat n s end.
End Assert.

Notation "x ≟ y" := (Assert.eq x y) (at level 70).
Notation "x ≠? y" := (Assert.ne x y) (at level 70).
Abbreviation json := JsonText.json.
Import Assert.

(** ** errors.rs *)

Module ErrorsTests.

Definition errcode_table_matches_prd_6_4_7 : bool := all [
  sqlstate (from_rpc (-32602) "bad") ≟ "22023";
  sqlstate (from_rpc (-32601) "nope") ≟ "0A000";
  sqlstate (from_http_status 401) ≟ "42501";
  sqlstate (from_http_status 403) ≟ "42501";
  sqlstate (from_http_status 502) ≟ "08006";
  sqlstate (Transport "t") ≟ "08006";
  sqlstate (UndefinedObject "s") ≟ "42704";
  sqlstate (NoAuthMapping "m") ≟ "28000";
  sqlstate (ToolError "boom") ≟ "P0001";
  sqlstate (NotImplemented "later") ≟ "0A000"].

Definition errcode_table_covers_the_full_prd_7_4_9_set : bool := all [
  sqlstate (from_rpc (-32602) "bad") ≟ "22023";
  sqlstate (from_rpc (-32601) "nope") ≟ "0A000";
  forallb (fun code => sqlstate (from_rpc code "m") ≟ "XX000") [-32600; -32700; -32603];
  sqlstate (from_http_status 401) ≟ "42501";
  sqlstate (Transport "conn") ≟ "08006";
  sqlstate (FeatureNotSupported "missing qual") ≟ "0A000";
  sqlstate (TooManyArguments "cap") ≟ "54023";
  sqlstate (NotNullViolation "tool") ≟ "23502";
  sqlstate (DatatypeMismatch "column") ≟ "42804"].

Definition rpc_error_carries_server_message : bool :=
  message (from_rpc (-32602) "arguments.location is required") ≟ "arguments.location is required".

Definition authz_shaped_rpc_errors_become_42501 : bool := all [
  sqlstate (from_rpc (-32001) "Unauthorized") ≟ "42501";
  sqlstate (from_rpc (-32003) "invalid_token") ≟ "42501";
  sqlstate (from_rpc (-32000) "disk full") ≟ "22023"].

Definition expired_session_detection : bool := all [
  is_expired_session "Session expired";
  is_expired_session "unknown session";
  is_expired_session "Invalid session id";
  is_expired_session "session not found";
  negb (is_expired_session "tool not found");
  negb (is_expired_session "timeout")].

Definition every_variant_has_its_sqlstate_row : bool :=
  forallb (fun '(error, state) => (sqlstate error ≟ state) && (message error ≟ "m")) [
    (InvalidParams "m", "22023");
    (InvalidOption "m", "22023");
    (Rpc (-1) "m", "22023");
    (MethodNotFound "m", "0A000");
    (NotImplemented "m", "0A000");
    (FeatureNotSupported "m", "0A000");
    (Internal "m", "XX000");
    (TooManyArguments "m", "54023");
    (NotNullViolation "m", "23502");
    (DatatypeMismatch "m", "42804");
    (InvalidSchemaName "m", "3F000");
    (Forbidden "m", "42501");
    (Transport "m", "08006");
    (UndefinedObject "m", "42704");
    (NoAuthMapping "m", "28000");
    (ToolError "m", "P0001")].

Definition from_rpc_covers_the_full_prd_table : bool := all [
  sqlstate (from_rpc (-32602) "x") ≟ "22023";
  sqlstate (from_rpc (-32601) "x") ≟ "0A000";
  forallb (fun garbage => let e := from_rpc garbage "x" in
             (sqlstate e ≟ "XX000") && says (fmt_Z garbage) e) [-32600; -32700; -32603];
  forallb (fun msg => sqlstate (from_rpc (-32001) msg) ≟ "42501")
    ["Unauthorized"; "FORBIDDEN"; "access denied"; "Insufficient scope"; "invalid_token"];
  sqlstate (from_rpc (-32001) "disk full") ≟ "22023";
  sqlstate (from_rpc (-32003) "disk full") ≟ "22023";
  match from_rpc (-31415) "custom failure" with
  | Rpc code m => (code ≟ -31415) && (m ≟ "custom failure")
  | _ => false
  end].

Definition from_http_status_table : bool := all [
  sqlstate (from_http_status 401) ≟ "42501";
  sqlstate (from_http_status 403) ≟ "42501";
  sqlstate (from_http_status 400) ≟ "22023";
  sqlstate (from_http_status 405) ≟ "0A000";
  sqlstate (from_http_status 404) ≟ "08006";
  forallb (fun other => sqlstate (from_http_status other) ≟ "08006") [402; 409; 429; 500; 502; 503]].

Definition http_error_messages_are_composed_not_reflected : bool := all [
  message (from_http_status 401) ≟ "MCP server rejected the request (HTTP 401)";
  message (from_http_status 400) ≟ "MCP server rejected the request (HTTP 400)";
  message (from_http_status 405) ≟ "MCP server does not accept POST (HTTP 405)";
  message (from_http_status 502) ≟ "MCP server returned HTTP 502"].

Definition expired_session_matrix : bool := all [
  forallb is_expired_session [
    "Session expired"; "MCP session has EXPIRED"; "unknown session"; "session not found";
    "Unknown Session"; "Invalid session id"; "invalid session id: abc123";
    "the session was not found on this server"];
  forallb (fun no => negb (is_expired_session no)) [
    "tool not found"; "timeout"; "invalid arguments"; "expired token"; "unknown method";
    EmptyString]].

Definition jsonrpc_reserved_codes : bool := all [
  JSONRPC_INVALID_PARAMS ≟ -32602;
  JSONRPC_METHOD_NOT_FOUND ≟ -32601;
  JSONRPC_INVALID_REQUEST ≟ -32600;
  JSONRPC_PARSE_ERROR ≟ -32700;
  JSONRPC_INTERNAL_ERROR ≟ -32603].

Example errors_tests_pass : all [
  errcode_table_matches_prd_6_4_7; errcode_table_covers_the_full_prd_7_4_9_set;
  rpc_error_carries_server_message; authz_shaped_rpc_errors_become_42501;
  expired_session_detection; every_variant_has_its_sqlstate_row;
  from_rpc_covers_the_full_prd_table; from_http_status_table;
  http_error_messages_are_composed_not_reflected; expired_session_matrix;
  jsonrpc_reserved_codes] = true.
Proof. vm_compute. reflexivity. Qed.

End ErrorsTests.

(** ** quals.rs *)

Module QualsTests.
Import Quals.
#[local] Existing Instance json_text.

Definition q (f : string) (op : Operator) (v : string) : Qual := mkQual f op (json v) false.

Definition equal_on_primitives_is_supported : bool := all [
  is_supported (q "name" Equal "'x'");
  is_supported (q "size" Equal "42");
  is_supported (q "read_only" Equal "true")].

Definition any_equal_with_zero_one_and_n_elements_is_supported : bool := all [
  is_supported (q "uri" AnyEqual "[]");
  is_supported (q "uri" AnyEqual "['a']");
  is_supported (q "uri" AnyEqual "['a','b','c']");
  negb (matches_json (q "uri" AnyEqual "[]") "uri" (Str "a"))].

Definition nulls_and_nested_sets_are_unsupported : bool := all [
  negb (is_supported (q "name" Equal "null"));
  negb (is_supported (q "uri" AnyEqual "[null]"));
  negb (is_supported (q "uri" AnyEqual "[['a']]"));
  negb (is_supported (q "uri" AnyEqual "[{'a':1}]"));
  negb (is_supported (q EmptyString Equal "'x'"))].

Definition other_columns_are_never_falsified : bool :=
  let qual := q "name" Equal "'x'" in
  all [
    matches_json qual "uri" (Str "anything");
    negb (matches_json qual "name" (Str "y"));
    matches_json qual "name" (Str "x")].

Definition matches_json_semantics : bool :=
  let any := q "uri" AnyEqual "['a','b']" in
  all [
    matches_json (q "name" Equal "'x'") "name" (Str "x");
    negb (matches_json (q "name" Equal "'x'") "name" (Str "X"));
    negb (matches_json (q "name" Equal "'x'") "name" Null);
    matches_json (q "idx" Equal "1") "idx" (json "1.0");
    matches_json any "uri" (Str "a");
    matches_json any "uri" (Str "b");
    negb (matches_json any "uri" (Str "c"));
    matches_json (q "arguments" Equal "{'style':'terse'}") "arguments" (json "{'style':'terse'}")].

Definition restricted_values_flattens_sets : bool := all [
  jsons_eq (restricted_values (q "uri" Equal "'a'")) [Str "a"];
  jsons_eq (restricted_values (q "uri" AnyEqual "['a','b']")) [Str "a"; Str "b"]].

Definition fdw_private_round_trips_through_json : bool :=
  let private := mkFdwPrivate "resource_contents"
    [q "uri" Equal "'file:///a'"; q "uri" AnyEqual "['b','c']"] [] in
  match decode_private (encode_private private) with
  | Some back => all [
      table back ≟ "resource_contents";
      Nat.eqb (length (quals back)) 2;
      match quals back with
      | [q0; q1] => (operator q0 ≟ Equal) && value_eqb (value q1) (json "['b','c']")
      | _ => false
      end;
      negb (existsb use_or (quals back))]
  | None => false
  end.

Definition support_matrix : bool := all [
  forallb (fun v => is_supported (q "f" Equal v)) ["'x'"; "42"; "-1.5"; "true"; "false"];
  forallb (fun items => is_supported (q "f" AnyEqual items))
    ["[]"; "['a']"; "[1,2,3]"; "[true,'mixed',2.5]"];
  forallb (fun v => is_supported (q "f" Equal v)) ["{}"; "[]"];
  negb (is_supported (q "f" Equal "null"));
  forallb (fun items => negb (is_supported (q "f" AnyEqual items)))
    ["[null]"; "[[1]]"; "[{'a':1}]"; "['ok',null]"];
  negb (is_supported (q "f" AnyEqual "'scalar'"));
  negb (is_supported (q EmptyString Equal "'x'"));
  negb (is_supported (q EmptyString AnyEqual "['x']"))].

Definition matching_semantics : bool := all [
  matches_json (q "n" Equal "1") "n" (json "1.0");
  matches_json (q "n" Equal "2.5") "n" (json "2.5");
  negb (matches_json (q "n" Equal "1") "n" (Bool true));
  negb (matches_json (q "n" Equal "null") "n" (json "1"));
  negb (matches_json (q "n" Equal "1") "n" Null);
  negb (matches_json (q "f" AnyEqual "[]") "f" (Str "a"));
  matches_json (q "a" Equal "{'b':[1,2],'c':null}") "a" (json "{'c':null,'b':[1,2]}")].

Definition restricted_value_shapes : bool := all [
  jsons_eq (restricted_values (q "f" Equal "'a'")) [Str "a"];
  jsons_eq (restricted_values (q "f" AnyEqual "['a',1,true]")) [Str "a"; json "1"; Bool true];
  jsons_eq (restricted_values (q "f" AnyEqual "'scalar'")) []].

Definition param_qual_round_trips_through_json : bool :=
  let pq := mkParamQual "name" 3 true 25 in
  let private := mkFdwPrivate "prompt_messages" [q "prompt" Equal "'greet'"]
    [mkParamQual "arguments" 0 true 114; mkParamQual "idx" 1 false 23] in
  all [
    match json_from_str (json_to_string (param_to_json pq)) ≫= param_of_json with
    | Some back => (pfield back ≟ "name") && (index back ≟ 3) && omit_null back
                   && (param_type back ≟ 25)
    | None => false
    end;
    match decode_private (encode_private private) with
    | Some back =>
        match params back with
        | [p0; p1] => (param_type p0 ≟ 114) && omit_null p0 && negb (omit_null p1)
                      && (pfield p1 ≟ "idx")
        | _ => false
        end
    | None => false
    end].

Definition pre_param_private_blobs_still_decode : bool :=
  match decode_private (JsonText.requote "{'table':'resource_contents','quals':[{'field':'uri','operator':'Equal','value':'file:///a','use_or':false}]}") with
  | Some back => all [
      table back ≟ "resource_contents"; Nat.eqb (length (quals back)) 1;
      Nat.eqb (length (params back)) 0]
  | None => false
  end.

Definition same_qual (a b : Qual) : bool :=
  (field a ≟ field b) && (operator a ≟ operator b) && value_eqb (value a) (value b)
  && Bool.eqb (use_or a) (use_or b).

Definition qual_serde_round_trip : bool :=
  let qual := q "uri" AnyEqual "['a','b']" in
  let or_qual := mkQual "f" Equal (json "1") true in
  let text := json_to_string (qual_to_json qual) in
  all [
    contains (JsonText.requote "'AnyEqual'") text;
    contains (JsonText.requote "'use_or':false") text;
    match json_from_str text ≫= qual_of_json with
    | Some back => same_qual back qual
    | None => false
    end;
    match json_from_str (json_to_string (qual_to_json or_qual)) ≫= qual_of_json with
    | Some back => use_or back
    | None => false
    end].

Example quals_tests_pass : all [
  equal_on_primitives_is_supported; any_equal_with_zero_one_and_n_elements_is_supported;
  nulls_and_nested_sets_are_unsupported; other_columns_are_never_falsified;
  matches_json_semantics; restricted_values_flattens_sets;
  fdw_private_round_trips_through_json; support_matrix; matching_semantics;
  restricted_value_shapes; param_qual_round_trips_through_json;
  pre_param_private_blobs_still_decode; qual_serde_round_trip] = true.
Proof. vm_compute. reflexivity. Qed.

End QualsTests.

(** ** sse.rs *)

Module SseTests.
#[local] Existing Instance json_text.

(** [NoInterrupts] and a clock that stands still. *)
Definition read (stream : list string) (id : Z) : McpResult Value :=
  Sse.read_until_id (fun _ => 0) (fun _ => Ok tt) id 5000
    (Sse.mkStream (concat (map JsonText.requote stream)) None).

Definition result_is (r : McpResult Value) (want : string) : bool :=
  ok_with r (fun out => value_eqb (at_key out "result") (json want)).

Definition single_event : bool :=
  ok_with (read ["data: {'jsonrpc':'2.0','id':1,'result':{'ok':true}}"; nl; nl] 1)
    (fun out => value_eqb (at_key (at_key out "result") "ok") (Bool true)).

Definition multi_line_data_is_joined_with_newlines : bool :=
  result_is (read ["data: {'jsonrpc':'2.0',"; nl; "data: 'id':2,"; nl; "data: 'result':'split'}";
                   nl; nl] 2) "'split'".

Definition ignores_comments_event_and_id_lines : bool :=
  result_is (read [": keepalive"; nl; nl; "event: message"; nl; "id: 7"; nl;
                   "data: {'jsonrpc':'2.0','id':3,'result':'fine'}"; nl; nl] 3) "'fine'".

Definition skips_frames_for_other_ids_and_notifications : bool :=
  result_is (read ["data: {'jsonrpc':'2.0','method':'notifications/progress','params':{}}"; nl; nl;
                   "data: {'jsonrpc':'2.0','id':99,'result':'someone else'}"; nl; nl;
                   "data: {'jsonrpc':'2.0','id':4,'result':'mine'}"; nl; nl] 4) "'mine'".

Definition string_ids_still_match : bool :=
  result_is (read ["data: {'jsonrpc':'2.0','id':'5','result':'str'}"; nl; nl] 5) "'str'".

Definition truncated_stream_is_08006 : bool :=
  err_with (read ["data: {'jsonrpc':'2.0','id':6,'result':1}"] 6) (code "08006").

Definition stream_without_the_wanted_id_is_08006 : bool :=
  err_with (read ["data: {'jsonrpc':'2.0','id':1,'result':1}"; nl; nl] 42)
    (fun e => code "08006" e && says "ended before" e).

Definition non_json_frames_are_skipped_not_fatal : bool :=
  result_is (read ["data: not json at all"; nl; nl;
                   "data: {'jsonrpc':'2.0','id':8,'result':'after garbage'}"; nl; nl] 8)
    "'after garbage'".

(** A deadline of zero: the first look at the clock is past it. *)
Definition deadline_is_total_across_the_stream : bool :=
  err_with (Sse.read_until_id (fun n => 50 * Z.of_nat n) (fun _ => Ok tt) 1 0
              (Sse.mkStream EmptyString None))
    (fun e => code "08006" e && says "timed out" e).

Definition three_events : string :=
  concat (map JsonText.requote [
    "data: {'jsonrpc':'2.0','id':1,'result':1}"; nl; nl;
    "data: {'jsonrpc':'2.0','id':2,'result':2}"; nl; nl;
    "data: {'jsonrpc':'2.0','id':3,'result':3}"; nl; nl]).

(** The counter reads 3: a third check is made and a fourth is not. *)
Definition interrupt_hook_runs_between_events : bool :=
  let failing_at n := fun k => if Nat.eqb k n then Err (Transport "hook") else Ok tt in
  let run hook := Sse.read_until_id (fun _ => 0) hook 3 5000 (Sse.mkStream three_events None) in
  all [is_ok (run (failing_at 3%nat)); is_err (run (failing_at 2%nat))].

Definition a_cancelling_interrupt_hook_aborts_the_read : bool :=
  is_err (Sse.read_until_id (fun _ => 0) (fun _ => Err (Transport "cancelled")) 2 5000
            (Sse.mkStream three_events None)).

Definition observed (stream : list string) (id : Z) : McpResult Value * list Value :=
  Sse.read_until_id_observed (fun _ => 0) (fun _ => Ok tt) id 5000
    (Sse.mkStream (concat (map JsonText.requote stream)) None).

Definition observer_sees_skipped_frames_including_notifications : bool :=
  let '(out, frames) := observed [
    "data: {'jsonrpc':'2.0','method':'notifications/tools/list_changed'}"; nl; nl;
    "data: {'jsonrpc':'2.0','id':7,'result':'mine'}"; nl; nl] 7 in
  all [
    result_is out "'mine'";
    map (fun frame => get frame "method" ≫= as_str) frames
      ≟ [Some "notifications/tools/list_changed"; None]].

Definition observer_panics_do_not_bypass_the_match : bool :=
  let '(out, frames) := observed ["data: {'jsonrpc':'2.0','id':3,'result':1}"; nl; nl] 3 in
  all [ok_with out (fun out => value_eqb (at_key out "id") (json "3")); Nat.eqb (length frames) 1].

Definition crlf : string := String "013" nl.

Definition crlf_line_endings_dispatch : bool := all [
  result_is (read ["data: {'jsonrpc':'2.0','id':9,'result':'crlf'}"; crlf; crlf] 9) "'crlf'";
  result_is (read ["data: {'jsonrpc':'2.0',"; crlf; "data: 'id':10,"; nl;
                   "data: 'result':'mixed'}"; crlf; crlf] 10) "'mixed'"].

Definition reply (id body : string) : list string :=
  ["data: {'jsonrpc':'2.0','id':"; id; ",'result':"; body; "}"; nl; nl].

Definition byte_order_mark_is_tolerated : bool :=
  result_is (read (of_bytes [0xEF; 0xBB; 0xBF] :: nl :: reply "11" "'bom'") 11) "'bom'".

Definition field_matrix_matches_the_sse_spec : bool :=
  result_is (read ["retry: 5000"; nl; "x-custom: whatever"; nl; "event: message"; nl; "id: 13"; nl;
                   "data:{'no':'space'}"; nl; "data"; nl; nl;
                   "data: {'jsonrpc':'2.0','id':13,'result':'fields'}"; nl; nl] 13) "'fields'".

Definition unusable_ids_are_skipped_not_fatal : bool :=
  result_is (read [
    "data: {'jsonrpc':'2.0','method':'n'}"; nl; nl;
    "data: {'jsonrpc':'2.0','id':1.5,'result':'float'}"; nl; nl;
    "data: {'jsonrpc':'2.0','id':99999999999999999999,'result':'huge'}"; nl; nl;
    "data: {'jsonrpc':'2.0','id':null,'result':'null id'}"; nl; nl;
    "data: {'jsonrpc':'2.0','id':14,'result':'reached'}"; nl; nl] 14) "'reached'".

Definition io_error_messages_never_carry_the_os_string : bool :=
  err_with (Sse.read_until_id (fun _ => 0) (fun _ => Ok tt) 1 5000
              (Sse.mkStream EmptyString (Some "BrokenPipe")))
    (fun e => code "08006" e && says "BrokenPipe" e && negb (says "SPIKE_CANARY_OS_STRING" e)).

Definition comments_never_disturb_frame_accumulation : bool :=
  result_is (read [": keepalive"; nl; nl; "data: {'jsonrpc':'2.0','id':15,"; nl;
                   ": mid-frame keepalive"; nl; "data: 'result':'ok'}"; nl; nl] 15) "'ok'".

Example sse_tests_pass : all [
  single_event; multi_line_data_is_joined_with_newlines; ignores_comments_event_and_id_lines;
  skips_frames_for_other_ids_and_notifications; string_ids_still_match;
  truncated_stream_is_08006; stream_without_the_wanted_id_is_08006;
  non_json_frames_are_skipped_not_fatal; deadline_is_total_across_the_stream;
  interrupt_hook_runs_between_events; a_cancelling_interrupt_hook_aborts_the_read;
  observer_sees_skipped_frames_including_notifications;
  observer_panics_do_not_bypass_the_match; crlf_line_endings_dispatch;
  byte_order_mark_is_tolerated; field_matrix_matches_the_sse_spec;
  unusable_ids_are_skipped_not_fatal; io_error_messages_never_carry_the_os_string;
  comments_never_disturb_frame_accumulation] = true.
Proof. vm_compute. reflexivity. Qed.

End SseTests.

(** ** client.rs *)

Module ClientTests.
Import Client.
#[local] Existing Instance json_text.

Definition bearer_never_prints_its_value : bool :=
  let rendered := bearer_debug (mkBearer "SPIKE_CANARY_TOKEN") in
  all [negb (contains "SPIKE_CANARY_TOKEN" rendered); rendered ≟ "Bearer(<redacted>)"].

Definition bearer_header_shape : bool := bearer_header (mkBearer "abc") ≟ "Bearer abc".

Definition finish_extracts_result_and_maps_errors : bool := all [
  is_ok (finish (json "{'jsonrpc':'2.0','id':1,'result':{'content':[]}}") 1);
  err_with (finish (json "{'jsonrpc':'2.0','id':1,'error':{'code':-32602,'message':'bad args'}}") 1)
    (fun e => code "22023" e && (message e ≟ "bad args"));
  err_with (finish (json "{'jsonrpc':'2.0','id':1}") 1) (code "08006")].

Definition text_content_concatenates_text_parts_only : bool := all [
  text_content (json "{'content':[{'type':'text','text':'hi'},{'type':'image','data':'AAAA'},{'type':'text','text':'!'}]}")
    ≟ Some "hi!";
  text_content (json "{'content':[{'type':'image','data':'AAAA'}]}") ≟ None;
  text_content (json "{'content':[]}") ≟ None;
  text_content (json "{}") ≟ None].

Definition is_error_result_defaults_false : bool := all [
  is_error_result (json "{'isError':true}");
  negb (is_error_result (json "{'isError':false}"));
  negb (is_error_result (json "{'content':[]}"))].

Definition client_identity_is_the_crate_version : bool := all [
  CLIENT_NAME ≟ "pg_mcp"; CLIENT_VERSION ≟ "0.3.0"].

Definition page_items_extracts_the_array_and_the_cursor : bool := all [
  let '(items, next) := page_items (json "{'tools':[{'name':'a'},{'name':'b'}],'nextCursor':'c2'}") "tools" in
  jsons_eq items [json "{'name':'a'}"; json "{'name':'b'}"] && (next ≟ Some "c2");
  let '(items, next) := page_items (json "{'tools':[{'name':'c'}]}") "tools" in
  Nat.eqb (length items) 1 && (next ≟ None);
  let '(items, next) := page_items (json "{'result':{}}") "tools" in
  Nat.eqb (length items) 0 && (next ≟ None)].

(** A session with its notification flag down. *)
Definition flags : McpSession := mkSession "u" None CLIENT_PROTOCOL_VERSION Null Null 1 0 0 false 1000.
Definition observed (frames : list string) : McpSession :=
  set_flag (foldl observe (tools_list_changed flags) (map json frames)) flags.

Definition list_changed_notification_is_observed_and_taken_once : bool :=
  let s := observed ["{'jsonrpc':'2.0','method':'notifications/tools/list_changed','params':{}}"] in
  let '(first, s1) := take_tools_list_changed s in
  let '(second, _) := take_tools_list_changed s1 in
  all [negb (tools_list_changed flags); tools_list_changed s; first; negb (tools_list_changed s1);
       negb second].

Definition other_notifications_are_ignored : bool := all [
  negb (tools_list_changed (observed [
    "{'jsonrpc':'2.0','method':'notifications/progress'}";
    "{'jsonrpc':'2.0','method':'notifications/initialized'}";
    "{'jsonrpc':'2.0','method':'notifications/resources/list_changed'}";
    "{'jsonrpc':'2.0','method':'notifications/prompts/list_changed'}"]));
  negb (tools_list_changed (observed ["{'result':{}}"]))].

Definition bearer_redaction_and_header_shape : bool :=
  let b := mkBearer "SPIKE_CANARY_TOKEN" in
  let hostile := mkBearer ("a" +:+ SseTests.crlf +:+ "X-Evil: 1") in
  all [
    bearer_debug b ≟ "Bearer(<redacted>)";
    negb (contains "SPIKE_CANARY_TOKEN" (bearer_debug b));
    bearer_header b ≟ "Bearer SPIKE_CANARY_TOKEN";
    bearer_header hostile ≟ "Bearer a" +:+ SseTests.crlf +:+ "X-Evil: 1";
    negb (contains "X-Evil" (bearer_debug hostile))].

Definition finish_matrix : bool := all [
  ok_with (finish (json "{'jsonrpc':'2.0','id':1,'result':null}") 1) is_null;
  ok_with (finish (json "{'jsonrpc':'2.0','id':1,'result':{'ok':true}}") 1)
    (fun v => value_eqb (at_key v "ok") (Bool true));
  err_with (finish (json "{'jsonrpc':'2.0','id':1,'error':{'code':-32602,'message':'bad args'}}") 1)
    (fun e => code "22023" e && (message e ≟ "bad args"));
  err_with (finish (json "{'jsonrpc':'2.0','id':1}") 1)
    (fun e => code "08006" e && says "neither result nor error" e)].

Definition rpc_error_defaults_on_malformed_objects : bool := all [
  rpc_error (json "{'error':{}}") ≟ Some (0, "MCP server returned an error");
  rpc_error (json "{'error':{'code':'notanumber','message':7}}")
    ≟ Some (0, "MCP server returned an error");
  rpc_error (json "{'result':{}}") ≟ None;
  rpc_error (json "{}") ≟ None].

Definition text_content_matrix : bool := all [
  text_content (json "{'content':[{'type':'text','text':'héllo '},{'type':'image','data':'AAAA'},{'type':'text','text':'🚀'},{'type':'text'},{'type':'resource','resource':{'text':'nope'}}]}")
    ≟ Some "héllo 🚀";
  text_content (json "{'content':[]}") ≟ None;
  text_content (json "{'content':[{'type':'audio'}]}") ≟ None;
  text_content (json "{}") ≟ None;
  text_content (json "{'content':'not an array'}") ≟ None].

Definition is_error_result_matrix : bool := all [
  is_error_result (json "{'isError':true}");
  negb (is_error_result (json "{'isError':false}"));
  negb (is_error_result (json "{'isError':'yes'}"));
  negb (is_error_result (json "{}"))].

Definition page_items_matrix : bool := all [
  let '(items, next) := page_items (json "{'tools':[1,2,3],'nextCursor':'p2'}") "tools" in
  Nat.eqb (length items) 3 && (next ≟ Some "p2");
  let '(items, next) := page_items (json "{'tools':[],'nextCursor':''}") "tools" in
  Nat.eqb (length items) 0 && (next ≟ Some EmptyString);
  let '(items, next) := page_items (json "{'tools':[1],'nextCursor':42}") "tools" in
  Nat.eqb (length items) 1 && (next ≟ None);
  let '(items, next) := page_items (json "{}") "tools" in
  Nat.eqb (length items) 0 && (next ≟ None)].

Definition wire_identity_is_pinned : bool := all [
  CLIENT_PROTOCOL_VERSION ≟ "2025-11-25"; CLIENT_NAME ≟ "pg_mcp"; CLIENT_VERSION ≟ "0.3.0";
  Nat.eqb MAX_LIST_PAGES 1000].

Example client_tests_pass : all [
  bearer_never_prints_its_value; bearer_header_shape; finish_extracts_result_and_maps_errors;
  text_content_concatenates_text_parts_only; is_error_result_defaults_false;
  client_identity_is_the_crate_version; page_items_extracts_the_array_and_the_cursor;
  list_changed_notification_is_observed_and_taken_once; other_notifications_are_ignored;
  bearer_redaction_and_header_shape; finish_matrix; rpc_error_defaults_on_malformed_objects;
  text_content_matrix; is_error_result_matrix; page_items_matrix; wire_identity_is_pinned] = true.
Proof. vm_compute. reflexivity. Qed.

End ClientTests.

(** ** options.rs *)

Module OptionsTests.
Import Options.

(** An instance of [UrlLib] for the vectors: absolute URLs with a scheme, a host
    and an optional port; addresses in brackets or dotted quads; no name
    resolves. *)
Record SimpleUrl : Type := mkUrl { u_scheme : string; u_host : Host; u_port : option Z; u_text : string }.

Definition scheme_ok (s : string) : bool :=
  match bytes s with
  | c :: cs => is_ascii_alphabetic c
               && forallb (fun c => is_ascii_alphanumeric c || (c =? 43) || (c =? 45) || (c =? 46)) cs
  | [] => false
  end.

Definition octet (s : string) : option Z :=
  n ← parse_u64 s; if in_range 0 255 n then Some n else None.

Definition host_of (s : string) : Host :=
  match mapM octet (split_on "." s) with
  | Some [a; b; c; d] => HostIp (V4 a b c d)
  | _ => HostDomain (to_ascii_lowercase s)
  end.

(** Of the v6 addresses the vectors only need [::1] told from the others. *)
Definition v6_of (s : string) : Host := HostIp (V6 (if bool_decide (s = "::1") then 1 else 2)).

Definition authority_end (c : Z) : bool := (c =? 47) || (c =? 63) || (c =? 35).
Fixpoint split_authority (l : list Z) : list Z * list Z :=
  match l with
  | c :: l' => if authority_end c then ([], l)
               else let '(a, rest) := split_authority l' in (c :: a, rest)
  | [] => ([], [])
  end.

Definition host_port (s : string) : option (Host * option Z) :=
  match strip_prefix "[" s with
  | Some inner =>
      '(addr, rest) ← split_once "]" inner;
      Some (v6_of addr, strip_prefix ":" rest ≫= parse_u64)
  | None =>
      match split_once ":" s with
      | Some (h, p) => port ← parse_u64 p; Some (host_of h, Some port)
      | None => Some (host_of s, None)
      end
  end.

Definition simple_parse (raw : string) : option SimpleUrl :=
  '(scheme, rest) ← split_once ":" raw;
  if negb (scheme_ok scheme) then None
  else
    '(authority, tail) ← Some (split_authority (drop_while (fun c => c =? 47) (bytes rest)));
    if bool_decide (authority = []) then None
    else
      '(host, port) ← host_port (of_bytes authority);
      let scheme := to_ascii_lowercase scheme in
      Some (mkUrl scheme host port
              (scheme +:+ "://" +:+ to_ascii_lowercase (of_bytes authority) +:+ of_bytes tail)).

#[local] Instance simple_url : UrlLib := {|
  Url := SimpleUrl;
  url_parse := simple_parse;
  url_scheme := u_scheme;
  url_host u := Some (u_host u);
  url_port_or_known_default u :=
    match u_port u with
    | Some p => Some p
    | None => if bool_decide (u_scheme u = "https") then Some 443 else Some 80
    end;
  url_to_string := u_text;
  to_socket_addrs _ _ := None |}.

Definition server (opts : list (string * string)) : McpResult ServerOptions := ServerOptions_parse opts.
Definition server_with (opts : list (string * string)) : McpResult ServerOptions :=
  ServerOptions_parse (("url", "https://x.example/mcp") :: opts).
Definition refused : McpError → bool := code "22023".

Definition accepts_the_full_prd_option_set : bool :=
  ok_with (server [("url", "https://npl.noizu.com/mcp"); ("mode", "auto"); ("timeout_ms", "15000");
                   ("auth", "bearer"); ("max_unqualified_reads", "0");
                   ("audit_table", "mcp_audit.tool_calls"); ("cache_ttl_ms", "5000")])
    (fun p => all [
       so_mode p ≟ ModeAuto; so_timeout_ms p ≟ 15000; so_auth p ≟ AuthBearer;
       so_max_unqualified_reads p ≟ 0; so_audit_table p ≟ Some "mcp_audit.tool_calls";
       so_cache_ttl_ms p ≟ 5000]).

Definition applies_documented_defaults : bool :=
  ok_with (server_with []) (fun p => all [
    so_mode p ≟ ModeAuto; so_timeout_ms p ≟ DEFAULT_TIMEOUT_MS; so_auth p ≟ AuthBearer;
    so_max_unqualified_reads p ≟ 0; so_audit_table p ≟ None;
    so_cache_ttl_ms p ≟ DEFAULT_CACHE_TTL_MS]).

Definition cache_ttl_zero_disables_and_negatives_are_rejected : bool := all [
  ok_with (server_with [("cache_ttl_ms", "0")]) (fun p => so_cache_ttl_ms p ≟ 0);
  err_with (server_with [("cache_ttl_ms", "-1")]) (fun e => refused e && says "cache_ttl_ms" e)].

Definition url_is_required_and_must_be_absolute_http : bool := all [
  is_err (server [("mode", "generic")]); is_err (server [("url", "/mcp")]);
  is_err (server [("url", "ftp://x.example/mcp")]); is_err (server [("url", "not a url")])].

Definition plain_http_is_loopback_only : bool := all [
  is_ok (server [("url", "http://127.0.0.1:4000/mcp")]);
  is_ok (server [("url", "http://localhost:4000/mcp")]);
  is_err (server [("url", "http://npl.noizu.com/mcp")])].

Definition auth_none_is_loopback_only : bool := all [
  is_ok (server [("url", "http://127.0.0.1:4000/mcp"); ("auth", "none")]);
  err_with (server [("url", "https://npl.noizu.com/mcp"); ("auth", "none")])
    (fun e => refused e && says "loopback" e)].

Definition rejects_bad_enum_and_range_values : bool := all [
  forallb (fun bad => is_err (server_with [("mode", bad)])) ["sideways"; "AUTO"; EmptyString];
  forallb (fun bad => is_err (server_with [("timeout_ms", bad)])) ["0"; "600001"; "-1"; "abc"; "1.5"];
  is_err (server_with [("max_unqualified_reads", "-1")]);
  is_err (server_with [("auth", "basic")])].

Definition timeout_boundaries_are_inclusive : bool := all [
  is_ok (server_with [("timeout_ms", "1")]); is_ok (server_with [("timeout_ms", "600000")])].

Definition rejects_unknown_server_option : bool :=
  err_with (server_with [("tmeout_ms", "5")]) (fun e => refused e && says "tmeout_ms" e).

Definition audit_table_must_be_schema_qualified : bool :=
  forallb (fun bad => is_err (server_with [("audit_table", bad)]))
    ["tool_calls"; "a.b.c"; "mcp_audit.tool calls"].

Definition mapping : list (string * string) → McpResult UserMappingOptions := UserMappingOptions_parse.

Definition user_mapping_accepts_exactly_one_credential : bool := all [
  ok_with (mapping [("token", "abc123")]) (fun m =>
    match um_credential m with Token t => t ≟ "abc123" | _ => false end);
  ok_with (mapping [("token_secret", "mcp_secrets.npl")]) (fun m =>
    match um_credential m with
    | TokenSecret schema table => (schema ≟ "mcp_secrets") && (table ≟ "npl")
    | _ => false
    end);
  is_err (mapping []);
  is_err (mapping [("token", "abc"); ("token_secret", "mcp_secrets.npl")]);
  is_err (mapping [("bearer", "abc")])].

Definition user_mapping_errors_never_echo_the_token : bool := all [
  err_with (mapping [("token", "SPIKE_CANARY_TOKEN"); ("token_secret", "mcp_secrets.npl")])
    (fun e => negb (says "SPIKE_CANARY_TOKEN" e));
  err_with (mapping [("token", "   ")]) (fun e => negb (says "   " e))].

Definition cache_ttl_parsing_edges : bool := all [
  forallb (fun '(raw, want) =>
      ok_with (server_with [("cache_ttl_ms", raw)]) (fun p => so_cache_ttl_ms p ≟ want))
    [("0", 0); ("1", 1); ("60000", 60000); (fmt_Z u64_max, u64_max); ("  5000  ", 5000)];
  forallb (fun bad => is_err (server_with [("cache_ttl_ms", bad)]))
    ["-1"; "abc"; "1.5"; EmptyString; "+"; "0x10"];
  ok_with (server_with [("cache_ttl_ms", "10000000000000000000")])
    (fun p => so_cache_ttl_ms p ≟ 10000000000000000000)].

Definition timeout_parsing_edges : bool := all [
  forallb (fun ok => is_ok (server_with [("timeout_ms", ok)])) ["1"; "600000"; " 15 "; "15000"];
  forallb (fun bad => is_err (server_with [("timeout_ms", bad)]))
    ["0"; "-1"; "600001"; "abc"; EmptyString; "1.5"; "18446744073709551616"];
  err_with (server_with [("timeout_ms", "abc")])
    (fun e => refused e && says "timeout_ms" e && says "abc" e)].

Definition max_unqualified_reads_edges : bool := all [
  ok_with (server_with [("max_unqualified_reads", fmt_Z i64_max)])
    (fun p => so_max_unqualified_reads p ≟ i64_max);
  forallb (fun bad => is_err (server_with [("max_unqualified_reads", bad)]))
    ["-1"; "9223372036854775808"; "abc"]].

Definition loopback_and_scheme_table : bool := all [
  forallb (fun '(url, auth, ok) =>
      let outcome := server [("url", url); ("auth", auth)] in
      Bool.eqb (is_ok outcome) ok && (is_ok outcome || err_with outcome refused))
    [("http://127.0.0.1:4000/mcp", "none", true);
     ("http://[::1]:4000/mcp", "none", true);
     ("http://localhost:4000/mcp", "none", true);
     ("https://npl.noizu.com/mcp", "none", false);
     ("http://10.1.2.3:4000/mcp", "none", false);
     ("https://npl.noizu.com/mcp", "bearer", true);
     ("http://127.0.0.1:4000/mcp", "bearer", true);
     ("http://10.1.2.3:4000/mcp", "bearer", false);
     ("http://[fd00::1]:4000/mcp", "bearer", false)];
  is_ok (server [("url", "http://127.0.0.1/mcp")]);
  is_err (server [("url", "http://example.com/mcp")])].

Definition is_loopback_over_literals_and_names : bool :=
  let u (s : string) : bool := match url_parse s with Some u => is_loopback u | None => false end in
  all [
    u "http://127.0.0.1:1/mcp"; u "http://127.255.0.7/mcp"; u "http://[::1]/mcp";
    negb (u "http://192.168.0.1/mcp"); negb (u "http://[fe80::1]/mcp"); u "http://LOCALHOST/mcp";
    negb (u "http://nonexistent.invalid/mcp")].

Definition option_name_matrix : bool := all [
  is_ok (server_with []);
  forallb (fun kv => is_ok (server_with [kv]))
    [("mode", "auto"); ("timeout_ms", "15000"); ("auth", "bearer"); ("max_unqualified_reads", "1");
     ("audit_table", "mcp_audit.tool_calls"); ("cache_ttl_ms", "5000")];
  err_with (server_with [("urls", "x")]) (fun e => says "urls" e && says "cache_ttl_ms" e);
  forallb (fun name => is_ok (mapping [(name, "mcp_s.t")])) ["token"; "token_secret"];
  err_with (mapping [("tokens", "x")]) (says "tokens")].

Definition qualified_name_shapes : bool := all [
  forallb (fun ok => ok_with (mapping [("token_secret", ok)]) (fun m =>
      match um_credential m with
      | TokenSecret schema table => negb (is_empty schema) && negb (is_empty table)
      | _ => false
      end)) ["mcp_secrets.npl"; "a.b"; "_x.y$1"];
  forallb (fun bad => is_err (mapping [("token_secret", bad)]))
    ["npl"; "a.b.c"; ".b"; "a."; "9a.b"; "a.9b"; "a b.c"; "a. b"; "a .b"; "@.b"; "a.b c"];
  is_err (mapping [("token_secret", repeat 64 "s" +:+ ".t")]);
  is_err (mapping [("token_secret", "s." +:+ repeat 64 "t")]);
  is_ok (server_with [("audit_table", "a.b")]);
  is_err (server_with [("audit_table", "a")])].

Definition no_error_path_echoes_the_credential : bool :=
  let canary := "SPIKE_CANARY_TOKEN_9f8e7d" in
  all [
    forallb (fun bad => err_with (mapping bad) (fun e => negb (says canary e)))
      [[("token", canary); ("token_secret", "a.b")]; [("token", "   ")];
       [("token", canary); ("unknown", "x")]];
    err_with (server_with [("mode", "fast")]) (says "fast");
    err_with (server [("url", "ht!tp://x")]) (says "ht!tp://x")].

Definition url_normalization_and_mode_matrix : bool := all [
  ok_with (server [("url", "HTTPS://x.example/mcp")]) (fun p => starts_with "https://" (so_url p));
  forallb (fun '(raw, want) => ok_with (server_with [("mode", raw)]) (fun p => so_mode p ≟ want))
    [("auto", ModeAuto); ("generic", ModeGeneric); ("sql", ModeSql)];
  ok_with (server [("url", "https://x.example:8443/mcp?x=1#f")])
    (fun p => so_url p ≟ "https://x.example:8443/mcp?x=1#f")].

Definition malformed_urls_name_the_problem : bool := all [
  forallb (fun bad => err_with (server [("url", bad)]) (fun e => refused e && says "url" e))
    ["/mcp"; "ftp://x.example"; "x.example/mcp"; "http://"; EmptyString];
  is_err (server [("url", "http:///mcp")])].

Example options_tests_pass : all [
  accepts_the_full_prd_option_set; applies_documented_defaults;
  cache_ttl_zero_disables_and_negatives_are_rejected; url_is_required_and_must_be_absolute_http;
  plain_http_is_loopback_only; auth_none_is_loopback_only; rejects_bad_enum_and_range_values;
  timeout_boundaries_are_inclusive; rejects_unknown_server_option;
  audit_table_must_be_schema_qualified; user_mapping_accepts_exactly_one_credential;
  user_mapping_errors_never_echo_the_token; cache_ttl_parsing_edges; timeout_parsing_edges;
  max_unqualified_reads_edges; loopback_and_scheme_table; is_loopback_over_literals_and_names;
  option_name_matrix; qualified_name_shapes; no_error_path_echoes_the_credential;
  url_normalization_and_mode_matrix; malformed_urls_name_the_problem] = true.
Proof. vm_compute. reflexivity. Qed.

End OptionsTests.
