(* ===== verification/VectorsCodegen.v ===== *)
(** * The unit tests of code generation, evaluated on the model

    The tests of codegen/ and import.rs that need no running server, one boolean
    per test function with its assertions in order.  The randomized tests are
    in PropTests, for every input. *)

From Stdlib Require Import Ascii String ZArith Lia.
From stdpp Require Import base numbers gmap sets strings pretty list.
From S2P Require Import Prelude Str Json JsonText Errors Sha256 Ident Tables Quote Codegen Ddl.
From S2P Require Import ImportSchema Registry Vectors.
Import Assert.
#[local] Open Scope Z_scope.

(** Lower-casing of ASCII and Latin-1, enough for the names the tests use. *)
Definition lower_latin1 (c : Z) : Z :=
  if is_ascii_uppercase c || (in_range 0xC0 0xDE c && negb (c =? 0xD7)) then c + 32 else c.
Definition latin1_tables : Unicode := {| to_lowercase s := utf8 (map lower_latin1 (chars s)) |}.

(** ** codegen/ident.rs *)

Module IdentTests.
Import Sha256 Ident.
#[local] Existing Instance latin1_tables.
#[local] Existing Instance Codegen.debug_build.

Definition derives (prefix : string) (vectors : list (string * string)) : bool :=
  forallb (fun '(name, want) => derive name prefix ≟ want) vectors.
Definition dedups (names : list string) (prefix : string) : list string :=
  snd <$> default [] (dedup names prefix).
Definition in_class (b : Z) : bool := is_ascii_lowercase b || is_ascii_digit b || (b =? 95).
Definition leading_digit (s : string) : bool :=
  match bytes s with b :: _ => is_ascii_digit b | [] => false end.
Definition lower_hex (b : Z) : bool := is_ascii_digit b || in_range 97 102 b.

Definition derivation_rules_split_case_and_strip_separators : bool := derives EmptyString [
  ("search_docs", "search_docs"); ("searchDocs", "search_docs"); ("SearchDocs", "search_docs");
  ("getHTTPResponse", "get_http_response"); ("HTTPServer", "http_server"); ("get2fa", "get2fa");
  ("version2Update", "version2_update"); ("search-docs.v2", "search_docs_v2");
  ("  spaced  name  ", "spaced_name"); ("we!rd@@name", "we_rd_name"); ("École", "cole");
  ("日本語", EmptyString); ("2fa_check", "_2fa_check"); ("42", "_42"); ("--a___b--", "a_b");
  ("###", EmptyString)].

Definition prefix_is_prepended_and_counts_toward_the_length_rule : bool := all [
  derive "search_docs" "mcp_" ≟ "mcp_search_docs"; derive "searchDocs" "npl_" ≟ "npl_search_docs"].

Definition reserved_words_are_recognized_and_survive_unrenamed : bool := all [
  derives EmptyString [("limit", "limit"); ("select", "select"); ("LIMIT", "limit")];
  is_reserved "limit"; is_reserved "select"; negb (is_reserved "search_docs")].

Definition long_names_truncate_to_63_bytes_with_a_deterministic_hash_suffix : bool :=
  let long := "a_very_long_tool_name_that_goes_on_and_on_until_it_passes_the_sixty_three_byte_limit" in
  let derived := derive long EmptyString in
  let head := str_take 55 derived in
  all [
    Nat.eqb (String.length long) 84; Nat.eqb (String.length derived) 63;
    head ≟ to_ascii_lowercase (str_take 55 long);
    match strip_prefix "_" (str_drop 55 derived) with
    | Some tail => Nat.eqb (String.length tail) 7 && forallb lower_hex (bytes tail)
    | None => false
    end;
    derived ≟ to_ascii_lowercase (str_take 55 long) +:+ "_"
              +:+ sha256_hex7 (bytes (to_ascii_lowercase long))].

Definition prefix_applied_names_also_respect_the_63_byte_limit : bool :=
  let derived := derive "search_docs_with_an_extremely_long_descriptive_name_that_will_not_fit" "npl_" in
  all [Nat.leb (String.length derived) 63; starts_with "npl_" derived].

Definition colliding_names_get_deterministic_distinct_suffixes : bool :=
  let hash (s : string) := sha256_hex7 (bytes s) in
  let out := dedups ["a-b"; "a_b"; "a.b"] EmptyString in
  all [
    out ≟ ["a_b"; "a_b_" +:+ hash "a_b"; "a_b_" +:+ hash "a.b"];
    forallb (fun sql => Nat.leb (String.length sql) 63) out;
    hash "a_b" ≠? hash "a.b";
    dedups ["a-b"; "a_b"] EmptyString ≟ take 2 out;
    dedups ["one"; "two"] EmptyString ≟ ["one"; "two"];
    dedups ["a-b"; "a_b"] "p_" ≟ ["p_a_b"; "p_a_b_" +:+ hash "a_b"]].

Definition hostile_names_always_produce_valid_identifiers : bool :=
  forallb (fun name =>
      let derived := derive name "p_" in
      all [Nat.leb (String.length derived) 63; negb (is_empty derived);
           forallb in_class (bytes derived); negb (leading_digit derived)])
    ["github.create_issue"; "UPPER"; "lower"; "MiXeD case";
     "tabs" +:+ String "009" ("and" +:+ nl +:+ "newlines"); "emoji🚀rocket";
     "null" +:+ String "000" "byte"; "quote" +:+ dq +:+ "name"; "dollar$sign"; "0";
     "_leading_underscore"; "trailing_"; "a"; EmptyString; "  ";
     "engine.upstream.very.long.name.chain.that.keeps.going.and.going"; repeat 200 "x"].

(** The published vectors but the million-byte one. *)
Definition sha256_matches_the_published_test_vectors : bool :=
  let digest (s : string) := concat (hex2 <$> sha256 (bytes s)) in
  all [
    digest EmptyString ≟ "e3b0c44298fc1c149afbf4c8996fb92427ae41e4649b934ca495991b7852b855";
    digest "abc" ≟ "ba7816bf8f01cfea414140de5dae2223b00361a396177a9cb410ff61f20015ad";
    digest "abcdbcdecdefdefgefghfghighijhijkijkljklmklmnlmnomnopnopq"
      ≟ "248d6a61d20638b8e5c026930c3e6039a33ce45964ff2167f6ecedd419db06c1"].

Definition case_boundary_matrix : bool := derives EmptyString [
  ("getHTTPResponse", "get_http_response"); ("HTTPServer", "http_server");
  ("HTTPserver", "htt_pserver"); ("xmlHttpRequest", "xml_http_request"); ("a1b2", "a1b2");
  ("v2Api", "v2_api"); ("APIv2", "ap_iv2"); ("ALLCAPS", "allcaps"); ("MiXeD", "mi_xe_d");
  ("aB", "a_b"); ("Ab", "ab")].

Definition assert_valid_identifier (sql : string) : bool := all [
  Nat.leb (String.length sql) 63; forallb in_class (bytes sql);
  is_empty sql || negb (leading_digit sql)].

Definition truncation_and_prefix_interact_deterministically : bool :=
  let long := repeat 120 "x" in
  all [
    Nat.eqb (String.length (derive long "npl_")) 63;
    assert_valid_identifier (derive long EmptyString);
    assert_valid_identifier (derive long "npl_")].

Definition derivation_is_idempotent_over_its_own_output : bool :=
  forallb (fun name => let once := derive name EmptyString in derive once EmptyString ≟ once)
    ["searchDocs"; "getHTTPResponse"; "we!rd@@name"; "2fa"; "日本語"].

Definition TEST_RESERVED : list string := [
    "all"; "analyse"; "analyze"; "and"; "any"; "array"; "as"; "asc"; "asymmetric"; "both";
    "binary"; "case"; "cast"; "check"; "collate"; "collation"; "column"; "concurrently";
    "constraint"; "create"; "current_catalog"; "current_date"; "current_role"; "current_time";
    "current_timestamp"; "current_user"; "default"; "deferrable"; "desc"; "distinct"; "do";
    "else"; "end"; "except"; "false"; "fetch"; "filter"; "for"; "foreign"; "freeze"; "from";
    "full"; "grant"; "group"; "having"; "ilike"; "in"; "initially"; "inner"; "intersect"; "into";
    "is"; "isnull"; "join"; "lateral"; "leading"; "left"; "like"; "limit"; "localtime";
    "localtimestamp"; "natural"; "not"; "notnull"; "null"; "offset"; "on"; "only"; "or"; "order";
    "outer"; "overlaps"; "placing"; "primary"; "references"; "returning"; "right"; "select";
    "session_user"; "similar"; "some"; "symmetric"; "table"; "tablesample"; "then"; "to";
    "trailing"; "true"; "union"; "unique"; "user"; "using"; "variadic"; "verbose"; "when";
    "where"; "window"; "with"].

Definition reserved_list_is_sorted_and_lookup_is_exact : bool := all [
  derive "limit" EmptyString ≟ "limit"; derive "SELECT" EmptyString ≟ "select";
  is_reserved "with"; negb (is_reserved "withing"); negb (is_reserved "WITH");
  negb (is_reserved EmptyString);
  forallb is_reserved TEST_RESERVED;
  forallb (fun word => (derive word EmptyString ≟ word) && assert_valid_identifier word) TEST_RESERVED].

Definition hostile_names_stay_within_the_identifier_contract : bool := all [
  forallb (fun name =>
      let derived := derive name "t_" in assert_valid_identifier derived && negb (is_empty derived))
    [utf8_char 0xFEFF +:+ "bom" +:+ utf8_char 0xFEFF; utf8_char 0x202E +:+ "rtl_override";
     "combining" +:+ utf8_char 0x301 +:+ "mark"; "null" +:+ String "000" "byte";
     "tab" +:+ String "009" ("newline" +:+ nl); repeat 63 "a"; repeat 64 "a";
     "quote" +:+ dq +:+ "dquote'squote"; "dollar$sign"; "-leading-dash"; "_leading_underscore";
     "__double__underscore__"; "🚀🚀🚀"];
  derive "🚀🚀🚀" EmptyString ≟ EmptyString].

Definition identical_originals_get_ordinal_disambiguation : bool :=
  let hash := sha_suffix "h" in
  let long := "long_tool_name_that_is_well_past_the_truncation_threshold_ever_so_long" in
  let out := dedups [long; long; long; long] "p_" in
  all [
    dedups ["h"; "h"; "h"] EmptyString ≟ ["h"; "h_" +:+ hash; "h_" +:+ hash +:+ "_2"];
    forallb assert_valid_identifier out; Nat.eqb (length out) 4; bool_decide (NoDup out)].

Definition ordinal_disambiguation_respects_the_byte_limit : bool :=
  let base := repeat 80 "x" in
  match dedups [base; base] EmptyString with
  | [_; second] => all [
      Nat.leb (String.length second) 63; contains "_2" second;
      starts_with (str_take 53 (derive base EmptyString)) second]
  | _ => false
  end.

Definition dedup_suffix_hashes_the_original_name : bool := all [
  dedups ["café"; "caf"] EmptyString ≟ ["caf"; "caf_" +:+ sha_suffix "caf"];
  dedups ["a.b"; "a-b"] EmptyString ≟ ["a_b"; "a_b_" +:+ sha_suffix "a-b"]].

Example ident_tests_pass : all [
  derivation_rules_split_case_and_strip_separators;
  prefix_is_prepended_and_counts_toward_the_length_rule;
  reserved_words_are_recognized_and_survive_unrenamed;
  long_names_truncate_to_63_bytes_with_a_deterministic_hash_suffix;
  prefix_applied_names_also_respect_the_63_byte_limit;
  colliding_names_get_deterministic_distinct_suffixes;
  hostile_names_always_produce_valid_identifiers; sha256_matches_the_published_test_vectors;
  case_boundary_matrix; truncation_and_prefix_interact_deterministically;
  derivation_is_idempotent_over_its_own_output; reserved_list_is_sorted_and_lookup_is_exact;
  hostile_names_stay_within_the_identifier_contract;
  identical_originals_get_ordinal_disambiguation; ordinal_disambiguation_respects_the_byte_limit;
  dedup_suffix_hashes_the_original_name] = true.
Proof. vm_compute. reflexivity. Qed.

End IdentTests.

(** ** codegen/types.rs *)

Module TypesTests.
Import Tables Codegen.
#[local] Existing Instance json_text.

Definition maps (rows : list (string * ColumnType)) : bool :=
  forallb (fun '(text, want) => map_type (json text) ≟ want) rows.

Definition the_prd_type_table_maps_exactly : bool := maps [
  ("{'type':'string'}", Text); ("{'type':'string','format':'date-time'}", TimestampTz);
  ("{'type':'string','format':'date'}", Date); ("{'type':'string','format':'uuid'}", Uuid);
  ("{'type':'string','enum':['a','b']}", Text); ("{'type':'integer'}", Int8);
  ("{'type':'number'}", Float8); ("{'type':'boolean'}", Boolean); ("{'type':'object'}", Jsonb);
  ("{'type':'array'}", Jsonb); ("{'type':'array','items':{'type':'string'}}", Jsonb)].

Definition union_schemas_take_the_single_non_null_branch : bool := maps [
  ("{'type':['string','null']}", Text); ("{'type':['string','null'],'format':'uuid'}", Uuid);
  ("{'type':['integer','null']}", Int8); ("{'type':['string','integer','null']}", Jsonb);
  ("{'type':['null']}", Jsonb); ("{'type':['string','integer']}", Jsonb)].

Definition composition_keywords_and_refs_fall_back_to_jsonb : bool := maps [
  ("{'$ref':'#/components/x'}", Jsonb);
  ("{'$ref':'#/self','description':'points at itself'}", Jsonb);
  ("{'oneOf':[{'type':'string'}]}", Jsonb); ("{'anyOf':[{'type':'string'}]}", Jsonb);
  ("{'allOf':[{'type':'string'}]}", Jsonb); ("{'type':'string','oneOf':[]}", Jsonb)].

Definition absent_and_malformed_schemas_are_jsonb : bool := maps [
  ("{'description':'no type'}", Jsonb); ("{}", Jsonb); ("'just a string'", Jsonb); ("7", Jsonb);
  ("null", Jsonb); ("[]", Jsonb); ("{'type':42}", Jsonb); ("{'type':'int64'}", Jsonb);
  ("{'type':'string','format':'email'}", Text); ("{'type':'integer','format':'date-time'}", Int8)].

Definition required_set_reads_the_required_array : bool := all [
  bool_decide (required_set (json "{'required':['query','limit'],'properties':{}}")
               = {["query"; "limit"]});
  forallb (fun text => bool_decide (required_set (json text) = ∅))
    ["{}"; "{'required':'query'}"; "{'required':[1,null]}"]].

Definition property_names (text : string) : option (list string) :=
  (fun m : list (string * Value) => m.*1) <$> properties (json text).

Definition properties_preserve_published_order : bool := all [
  property_names "{'properties':{'query':{},'limit':{},'since':{}}}" ≟ Some ["query"; "limit"; "since"];
  property_names "{}" ≟ None; property_names "{'properties':7}" ≟ None].

Definition enum_hint_renders_permitted_values_for_the_column_comment : bool := all [
  enum_hint (json "{'enum':['low','mid','high']}") ≟ Some "Permitted values: low, mid, high";
  enum_hint (json "{'enum':[1,true,null]}") ≟ Some "Permitted values: 1, true, null";
  enum_hint (json "{'enum':[]}") ≟ None; enum_hint (json "{'type':'string'}") ≟ None].

Definition the_normative_rows_hold_host_side : bool := maps [
  ("{'type':'string'}", Text); ("{'type':'string','format':'date-time'}", TimestampTz);
  ("{'type':'string','format':'date'}", Date); ("{'type':'string','format':'uuid'}", Uuid);
  ("{'type':'string','enum':['a']}", Text); ("{'type':'integer'}", Int8);
  ("{'type':'number'}", Float8); ("{'type':'boolean'}", Boolean); ("{'type':'object'}", Jsonb);
  ("{'type':'array','items':{'type':'string'}}", Jsonb)].

Definition boolean_schemas_are_jsonb : bool := all [
  map_type (Bool true) ≟ Jsonb; map_type (Bool false) ≟ Jsonb; map_type Null ≟ Jsonb;
  maps [("{'type':'object','properties':{'a':true}}", Jsonb)]].

Definition format_matrix_is_exact : bool := all [
  forallb (fun '(format, want) =>
      (map_type (Object [("type", Str "string"); ("format", Str format)]) ≟ want)
      && (map_type (Object [("type", Str "number"); ("format", Str format)]) ≟ Float8))
    [("date-time", TimestampTz); ("date", Date); ("uuid", Uuid); ("email", Text); ("uri", Text);
     ("duration", Text); ("json-pointer", Text); (EmptyString, Text)];
  maps [("{'type':'string','format':7}", Text)]].

Definition nullable_keyword_does_not_change_the_map : bool := maps [
  ("{'type':'string','nullable':true}", Text); ("{'type':['string','null']}", Text)].

Definition const_and_single_member_enum_map_like_their_base : bool := maps [
  ("{'const':'lit'}", Jsonb); ("{'type':'string','const':'lit'}", Text);
  ("{'type':'integer','enum':[1]}", Int8)].

Definition union_matrix_is_exact : bool := maps [
  ("{'type':['string']}", Text); ("{'type':['uuid','null'],'format':'uuid'}", Jsonb);
  ("{'type':['null','null']}", Jsonb); ("{'type':[['string']]}", Jsonb);
  ("{'type':['string',42,'null']}", Text)].

Fixpoint nested (n : nat) (schema : Value) : Value :=
  match n with
  | O => schema
  | S n => nested n (Object [("type", Str "object"); ("properties", Object [("leaf", schema)])])
  end.
Definition deeply_nested_schemas_map_without_recursion : bool :=
  map_type (nested 64 (json "{'type':'object'}")) ≟ Jsonb.

Definition property_and_required_order_are_preserved : bool :=
  let text := "{'required':['z','a','m'], 'properties':{'z':{},'a':{},'m':{},'q':{},'b':{}}}" in
  all [
    property_names text ≟ Some ["z"; "a"; "m"; "q"; "b"];
    required_list (json text) ≟ ["z"; "a"; "m"];
    required_list (json "{'required':['ghost']}") ≟ ["ghost"]].

Example types_tests_pass : all [
  the_prd_type_table_maps_exactly; union_schemas_take_the_single_non_null_branch;
  composition_keywords_and_refs_fall_back_to_jsonb; absent_and_malformed_schemas_are_jsonb;
  required_set_reads_the_required_array; properties_preserve_published_order;
  enum_hint_renders_permitted_values_for_the_column_comment; the_normative_rows_hold_host_side;
  boolean_schemas_are_jsonb; format_matrix_is_exact; nullable_keyword_does_not_change_the_map;
  const_and_single_member_enum_map_like_their_base; union_matrix_is_exact;
  deeply_nested_schemas_map_without_recursion; property_and_required_order_are_preserved] = true.
Proof. vm_compute. reflexivity. Qed.

End TypesTests.

(** ** codegen/mod.rs *)

Module PlanTests.
Import Tables Codegen.
#[local] Existing Instance json_text.
#[local] Existing Instance latin1_tables.
#[local] Existing Instance Codegen.debug_build.

Definition fixture_tool (name inputs : string) (output : option string) (read_only : bool) : Value :=
  Object ([("name", Str name); ("inputSchema", json inputs)]
          ++ match output with Some out => [("outputSchema", json out)] | None => [] end
          ++ if read_only then [("annotations", json "{'readOnlyHint':true}")] else []).
Definition no_inputs : string := "{'type':'object','properties':{}}".

(** [plan(..).unwrap()] with a check. *)
Definition planned_with (ts : list Value) (target prefix : string) (gate : InvokeOnSelect)
    (mode : SchemaMode) (check : GenerationPlan → bool) : bool :=
  ok_with (plan ts target prefix gate mode) check.
Definition first_tool (ts : list Value) (check : PlannedTool → bool) : bool :=
  planned_with ts "s" EmptyString ReadOnly SingleSchema (fun p =>
    match tools p with t :: _ => check t | [] => false end).
Definition column_is (prop name : string) (ty : ColumnType) (req : bool) (c : Column) : bool := all [
  property c ≟ prop; sql_name c ≟ name; pg_type c ≟ ty; Bool.eqb (required c) req].

Definition the_prd_example_tool_plans_exactly : bool :=
  let tool := fixture_tool "search_docs"
    "{'type':'object','properties':{'query':{'type':'string'},'limit':{'type':'integer'},'since':{'type':'string','format':'date-time'}},'required':['query']}"
    (Some "{'type':'object','properties':{'results':{'type':'array','items':{'type':'object','properties':{'id':{'type':'string'},'score':{'type':'number'}}}}}}")
    true in
  planned_with [tool] "npl" EmptyString ReadOnly SingleSchema (fun p =>
    match tools p with
    | [t] => all [
        skipped p ≟ []; tool_name t ≟ "search_docs"; tool_sql_name t ≟ "search_docs";
        schema t ≟ "npl"; read_only t; invoke_on_select t;
        match inputs t with
        | [query; limit; since] => all [
            column_is "query" "query" Text true query; column_is "limit" "limit" Int8 false limit;
            column_is "since" "since" TimestampTz false since]
        | _ => false
        end;
        match output t with
        | ElementOf property [id; score] => all [
            property ≟ "results"; column_is "id" "id" Text false id;
            column_is "score" "score" Float8 false score]
        | _ => false
        end;
        params t ≟ ["query"; "limit"; "since"]]
    | _ => false
    end).

Definition shape_is (out : option string) (check : OutputShape → bool) : bool :=
  first_tool [fixture_tool "t" no_inputs out true] (fun t => check (output t)).
Definition is_single (s : OutputShape) : bool := match s with Single _ => true | _ => false end.
Definition is_element (s : OutputShape) : bool := match s with ElementOf _ _ => true | _ => false end.

Definition output_shape_matrix_matches_prd_4_2 : bool := all [
  shape_is None (fun s => match s with NoOutput => true | _ => false end);
  shape_is (Some "{'type':'object','properties':{'results':{'type':'array','items':{'type':'object','properties':{'id':{'type':'string'}}}}}}") is_element;
  shape_is (Some "{'type':'object','properties':{'total':{'type':'integer'}}}")
    (fun s => match s with Single cols => (pg_type <$> cols) ≟ [Int8] | _ => false end);
  shape_is (Some "{'type':'object','properties':{'results':{'type':'array','items':{'type':'object'}},'total':{'type':'integer'}}}")
    (fun s => match s with Single cols => (pg_type <$> cols) ≟ [Jsonb; Int8] | _ => false end);
  shape_is (Some "{'type':'object','properties':{'a':{'type':'array','items':{'type':'object'}},'b':{'type':'array','items':{'type':'object'}}}}") is_single;
  shape_is (Some "{'type':'object','properties':{'tags':{'type':'array','items':{'type':'string'}}}}") is_single;
  shape_is (Some "{'type':'object','properties':{'items':{'type':'array','items':{'type':'object'}}}}")
    (fun s => match s with
              | ElementOf property cols => (property ≟ "items") && Nat.eqb (length cols) 0
              | _ => false
              end)].

Definition gate_for (gate : InvokeOnSelect) (tool : Value) (want : bool) : bool :=
  planned_with [tool] "s" EmptyString gate SingleSchema (fun p =>
    (invoke_on_select <$> tools p) ≟ [want]).

Definition invocation_gate_follows_the_prd_matrix : bool :=
  let ro := fixture_tool "ro" no_inputs None true in
  let rw := fixture_tool "rw" no_inputs None false in
  all [
    gate_for ReadOnly ro true; gate_for ReadOnly rw false;
    gate_for All ro true; gate_for All rw true;
    gate_for NoInvoke ro false; gate_for NoInvoke rw false;
    gate_for ReadOnly (json "{'name':'plain','inputSchema':{'type':'object','properties':{}}}") false;
    planned_with [ro; rw] "s" EmptyString All SingleSchema (fun p =>
      match filter (fun w => contains "not declared read-only" w = true) (warnings p) with
      | w :: _ => contains "rw" w
      | [] => false
      end)].

Definition unmappable_tools_are_skipped_not_fatal : bool :=
  planned_with
    [json "{'name':'broken_ref','inputSchema':{'type':'string','maxLength':3}}";
     fixture_tool "fine" "{'type':'object','properties':{'q':{'type':'string'}}}" None true]
    "s" EmptyString ReadOnly SingleSchema (fun p => all [
      skipped p ≟ ["broken_ref"]; (tool_name <$> tools p) ≟ ["fine"];
      existsb (contains "broken_ref") (warnings p)]).

Definition unnamed_tools_are_skipped : bool :=
  planned_with [json "{'inputSchema':{'type':'object'}}"] "s" EmptyString ReadOnly SingleSchema
    (fun p => Nat.eqb (length (tools p)) 0 && existsb (contains "no usable name") (warnings p)).

Definition per_upstream_routing_splits_schemas_and_strips_prefixes : bool := all [
  planned_with
    [fixture_tool "github.create_issue" no_inputs None true;
     fixture_tool "github.list_issues" no_inputs None true;
     fixture_tool "slack.post_message" no_inputs None false;
     fixture_tool "local_echo" no_inputs None true]
    "engine_mcp" EmptyString ReadOnly PerUpstream (fun p =>
      ((fun t => (tool_name t, schema t, tool_sql_name t)) <$> tools p)
      ≟ [("github.create_issue", "github", "create_issue");
         ("github.list_issues", "github", "list_issues");
         ("slack.post_message", "slack", "post_message");
         ("local_echo", "engine_mcp", "local_echo")]);
  planned_with
    [fixture_tool "a.search" no_inputs None true; fixture_tool "b.search" no_inputs None true]
    "e" EmptyString ReadOnly PerUpstream (fun p =>
      forallb (fun t => tool_sql_name t ≟ "search") (tools p))].

Definition per_tool_column_collisions_get_property_hash_suffixes : bool :=
  first_tool
    [fixture_tool "t" "{'type':'object','properties':{'a-b':{'type':'string'},'a_b':{'type':'integer'}}}"
       None true]
    (fun t => match inputs t with
              | [c0; c1] => all [
                  sql_name c0 ≟ "a_b"; sql_name c1 ≠? "a_b"; starts_with "a_b_" (sql_name c1);
                  property c1 ≟ "a_b"]
              | _ => false
              end).

Definition prefix_lands_on_the_derived_object_names : bool :=
  planned_with [fixture_tool "search_docs" no_inputs None true] "s" "npl_" ReadOnly SingleSchema
    (fun p => (tool_sql_name <$> tools p) ≟ ["npl_search_docs"]).

Definition empty_target_schema_is_rejected : bool :=
  err_with (plan [] EmptyString EmptyString ReadOnly SingleSchema) (code "22023").

Definition title_and_description_are_carried_for_comments : bool :=
  first_tool [json "{'name':'search_docs','title':'Search documents','description':'Full-text search over the doc corpus.','annotations':{'readOnlyHint':true},'inputSchema':{'type':'object','properties':{}}}"]
    (fun t => (title t ≟ Some "Search documents")
              && (description t ≟ Some "Full-text search over the doc corpus.")).

Definition host_tool (name inputs : string) : Value :=
  Object [("name", Str name); ("inputSchema", json inputs)].

Definition parameter_order_is_required_order_then_property_order : bool :=
  first_tool [host_tool "t" "{'type':'object','properties':{'opt_a':{'type':'string'},'req_z':{'type':'string'},'opt_b':{'type':'integer'},'req_a':{'type':'boolean'}},'required':['req_z','req_a']}"]
    (fun t => all [
       params t ≟ ["req_z"; "req_a"; "opt_a"; "opt_b"];
       forallb (fun col => negb (required col) || bool_decide (sql_name col ∈ params t)) (inputs t)]).

Definition phantom_required_entries_do_not_break_planning : bool :=
  first_tool [host_tool "t" "{'type':'object','properties':{'real':{'type':'string'}},'required':['ghost','real']}"]
    (fun t => (params t ≟ ["real"]) && Nat.eqb (length (inputs t)) 1).

Definition column_order_follows_published_property_order : bool :=
  let names := ["zulu"; "alpha"; "mike"; "bravo"; "kilo"] in
  first_tool [Object [("name", Str "t"); ("inputSchema", Object
      [("type", Str "object"); ("properties", Object ((fun n => (n, json "{'type':'string'}")) <$> names))])]]
    (fun t => (property <$> inputs t) ≟ names).

Definition duplicate_tool_names_get_distinct_sql_names : bool :=
  let echo := host_tool "echo" no_inputs in
  planned_with [echo; echo; echo] "s" EmptyString ReadOnly SingleSchema (fun p => all [
    Nat.eqb (length (tools p)) 3; bool_decide (NoDup (tool_sql_name <$> tools p));
    forallb (fun t => tool_name t ≟ "echo") (tools p)]).

Definition empty_derivation_becomes_the_underscore_column : bool :=
  first_tool [host_tool "t" "{'type':'object','properties':{'🚀':{'type':'string'}}}"]
    (fun t => ((fun c => (sql_name c, property c)) <$> inputs t) ≟ [("_", "🚀")]).

Definition output_shape_edges : bool :=
  let analyzed (text : string) := analyze_output (Some (json text)) in
  all [
    match analyze_output None with NoOutput => true | _ => false end;
    match analyzed "true" with Single cols => Nat.eqb (length cols) 0 | _ => false end;
    is_element (analyzed "{'type':'object','properties':{'rows':{'type':'array','items':{'type':'object','properties':{'id':{'type':'string'}}}}}}");
    match analyzed "{'type':'object','properties':{'rows':{'type':'array','items':{'type':'string'}}}}" with
    | Single cols => (pg_type <$> cols) ≟ [Jsonb]
    | _ => false
    end].

Definition invoke_on_select_parse_matrix : bool := all [
  forallb (fun '(raw, want) =>
      ok_with (InvokeOnSelect_parse raw) (fun g => g ≟ want) && (InvokeOnSelect_as_str want ≟ raw))
    [("read_only", ReadOnly); ("all", All); ("none", NoInvoke)];
  forallb (fun bad => err_with (InvokeOnSelect_parse bad)
      (fun e => code "22023" e && says "invoke_on_select" e))
    [EmptyString; "ALL"; "readonly"; "always"]].

Example plan_tests_pass : all [
  the_prd_example_tool_plans_exactly; output_shape_matrix_matches_prd_4_2;
  invocation_gate_follows_the_prd_matrix; unmappable_tools_are_skipped_not_fatal;
  unnamed_tools_are_skipped; per_upstream_routing_splits_schemas_and_strips_prefixes;
  per_tool_column_collisions_get_property_hash_suffixes; prefix_lands_on_the_derived_object_names;
  empty_target_schema_is_rejected; title_and_description_are_carried_for_comments;
  parameter_order_is_required_order_then_property_order;
  phantom_required_entries_do_not_break_planning; column_order_follows_published_property_order;
  duplicate_tool_names_get_distinct_sql_names; empty_derivation_becomes_the_underscore_column;
  output_shape_edges; invoke_on_select_parse_matrix] = true.
Proof. vm_compute. reflexivity. Qed.

End PlanTests.

(** SQL as the vectors spell it: tildes for double quotes. *)
Definition sql (s : string) : string := replace "~"%char dq s.
Fixpoint count_char (c : ascii) (s : string) : nat :=
  match s with
  | String c' s' => ((if Ascii.eqb c c' then 1 else 0) + count_char c s')%nat
  | EmptyString => 0
  end.
Definition ends_with (suffix s : string) : bool :=
  str_drop (String.length s - String.length suffix) s ≟ suffix.

(** ** codegen/table.rs, function.rs and view.rs *)

Module DdlTests.
Import Tables Codegen Ddl.
#[local] Existing Instance json_text.
#[local] Existing Instance latin1_tables.
#[local] Existing Instance Codegen.debug_build.

(** The plan of one tool, as the tests make it. *)
Definition plan_one_in (target : string) (gate : InvokeOnSelect) (text : string)
    (check : PlannedTool → bool) : bool :=
  ok_with (plan [json text] target EmptyString gate SingleSchema) (fun p =>
    match tools p with t :: _ => check t | [] => false end).
Definition plan_npl : string → (PlannedTool → bool) → bool := plan_one_in "npl" ReadOnly.

Definition SEARCH_DOCS : string :=
  "{'name':'search_docs','title':'Search documents','description':'Full-text search over the corpus.','annotations':{'readOnlyHint':true},'inputSchema':{'type':'object','properties':{'query':{'type':'string'},'limit':{'type':'integer'},'since':{'type':'string','format':'date-time'}},'required':['query']},'outputSchema':{'type':'object','properties':{'results':{'type':'array','items':{'type':'object','properties':{'id':{'type':'string'},'score':{'type':'number'}}}}}}}".
Definition BARE : string :=
  "{'name':'bare','annotations':{'readOnlyHint':true},'inputSchema':{'type':'object','properties':{}}}".
Definition SEND_EMAIL : string := "{'name':'send_email','inputSchema':{'type':'object','properties':{}}}".
Definition LIST_THINGS : string :=
  "{'name':'list_things','annotations':{'readOnlyHint':true},'inputSchema':{'type':'object','properties':{}}}".

Definition function_with (check : string → bool) (tool : PlannedTool) : bool :=
  match create_function tool with Some ddl => check ddl | None => false end.
Definition has (part : string) (ddl : string) : bool := contains (sql part) ddl.

Definition readonly_fanout_function_is_exact : bool := plan_npl SEARCH_DOCS (fun tool => all [
  create_function tool ≟ Some (sql (concat [
    "CREATE FUNCTION ~npl~.~search_docs~(";
    "~query~ text, ~limit~ bigint DEFAULT NULL, ~since~ timestamptz DEFAULT NULL) ";
    "RETURNS TABLE (~id~ text, ~score~ double precision) ";
    "LANGUAGE sql VOLATILE PARALLEL UNSAFE ";
    "AS $pg_mcp_fn$ ";
    "SELECT t.~id~, t.~score~ FROM ~npl~.~tool_search_docs~ AS t ";
    "WHERE t.~query~ = $1 ";
    "AND ($2::bigint IS NULL OR t.~limit~ = $2) ";
    "AND ($3::timestamptz IS NULL OR t.~since~ = $3) ";
    "$pg_mcp_fn$;"]));
  match comment_on_function tool with
  | Some comment => all [
      starts_with (sql "COMMENT ON FUNCTION ~npl~.~search_docs~(text, bigint, timestamptz) IS '") comment;
      contains "Search documents: Full-text search over the corpus." comment]
  | None => false
  end]).

Definition non_readonly_function_inserts_through_a_cte : bool :=
  plan_npl "{'name':'send_email','inputSchema':{'type':'object','properties':{'to':{'type':'string'},'body':{'type':'string'}},'required':['to','body']}}"
    (function_with (fun ddl => all [
       has "~to~ text, ~body~ text)" ddl; negb (has "DEFAULT" ddl);
       has "WITH call AS (INSERT INTO ~npl~.~tool_send_email~" ddl;
       has "VALUES ($1, $2) RETURNING ~content~, ~is_error~)" ddl; has "RETURNS jsonb" ddl;
       has "LANGUAGE sql VOLATILE PARALLEL UNSAFE" ddl])).

Definition non_readonly_fanout_tool_still_returns_the_typed_shape : bool :=
  plan_npl "{'name':'sync_users','inputSchema':{'type':'object','properties':{}},'outputSchema':{'type':'object','properties':{'users':{'type':'array','items':{'type':'object','properties':{'id':{'type':'string'}}}}}}}"
    (function_with (fun ddl => all [
       has "RETURNS TABLE (~id~ text)" ddl; has "INSERT INTO" ddl;
       has "SELECT NULL::text FROM call AS t" ddl])).

Definition a_tool_with_no_outputs_returns_the_whole_result_as_jsonb : bool :=
  plan_npl BARE (function_with (fun ddl => all [
    has "RETURNS jsonb" ddl;
    has "jsonb_build_object('content', t.~content~, 'is_error', t.~is_error~)" ddl])).

Definition reserved_word_parameters_and_names_are_quoted : bool :=
  plan_npl "{'name':'limit','annotations':{'readOnlyHint':true},'inputSchema':{'type':'object','properties':{'limit':{'type':'integer'}}}}"
    (function_with (fun ddl => all [
       starts_with (sql "CREATE FUNCTION ~npl~.~limit~(~limit~ bigint DEFAULT NULL)") ddl;
       has "t.~limit~ = $1" ddl])).

Definition tools_without_metadata_generate_no_comment : bool := all [
  plan_npl BARE (fun tool => comment_on_function tool ≟ None);
  plan_npl "{'name':'t','title':'Just a title','annotations':{'readOnlyHint':true},'inputSchema':{'type':'object','properties':{}}}"
    (fun tool => comment_on_function tool
                 ≟ Some (sql "COMMENT ON FUNCTION ~npl~.~t~() IS 'Just a title';"))].

Definition drop_function_carries_the_identity_types : bool :=
  drop_function "s" "search_docs" [Text; Int8; TimestampTz]
  ≟ sql "DROP FUNCTION ~s~.~search_docs~(text, bigint, timestamptz) RESTRICT;".

Definition no_extra : ExtraOptions := mkExtra None None.

Definition the_prd_example_table_ddl_is_exact : bool := plan_npl SEARCH_DOCS (fun tool =>
  create_table "npl" tool no_extra ≟ sql (join nl [
    "CREATE FOREIGN TABLE ~npl~.~tool_search_docs~ ("; "  ~query~ text,"; "  ~limit~ bigint,";
    "  ~since~ timestamptz,"; "  ~id~ text,"; "  ~score~ double precision,"; "  ~content~ jsonb,";
    "  ~is_error~ boolean";
    ") SERVER ~npl~ OPTIONS (tool 'search_docs', invoke_on_select 'true');"])).

Definition the_gate_and_extra_options_are_stamped_in_order : bool := plan_npl SEND_EMAIL (fun tool => all [
  negb (invoke_on_select tool);
  ends_with
    "OPTIONS (tool 'send_email', invoke_on_select 'false', upstream 'mail', cache_ttl_ms '5000');"
    (create_table "npl" tool (mkExtra (Some "mail") (Some 5000)))]).

Definition reserved_word_names_are_quoted_not_renamed : bool :=
  plan_one_in "s" ReadOnly "{'name':'limit','annotations':{'readOnlyHint':true},'inputSchema':{'type':'object','properties':{}}}"
    (fun tool => all [
       tool_sql_name tool ≟ "limit"; has "~s~.~tool_limit~ (" (create_table "s" tool no_extra);
       has "tool 'limit'" (create_table "s" tool no_extra)]).

Definition no_output_schema_means_content_and_is_error_only : bool :=
  plan_one_in "s" ReadOnly BARE (fun tool =>
    let ddl := create_table "s" tool no_extra in
    all [
      match output tool with NoOutput => true | _ => false end;
      contains (sql ("~content~ jsonb," +:+ nl +:+ "  ~is_error~ boolean")) ddl;
      Nat.eqb (count_char "010"%char ddl) 3]).

Definition enum_properties_get_column_comments : bool :=
  plan_one_in "s" ReadOnly "{'name':'set_priority','annotations':{'readOnlyHint':true},'inputSchema':{'type':'object','properties':{'level':{'type':'string','enum':['low','high']}}}}"
    (fun tool => column_comments tool
       ≟ [sql "COMMENT ON COLUMN ~s~.~tool_set_priority~.~level~ IS 'Permitted values: low, high';"]).

Definition eligible_read_only_tools_get_the_flat_view : bool :=
  plan_npl "{'name':'search_docs','annotations':{'readOnlyHint':true},'inputSchema':{'type':'object','properties':{'query':{'type':'string'}}},'outputSchema':{'type':'object','properties':{'results':{'type':'array','items':{'type':'object','properties':{'id':{'type':'string'},'score':{'type':'number'}}}}}}}"
    (fun tool => create_view tool
       ≟ Some (sql "CREATE VIEW ~npl~.~v_tool_search_docs~ AS SELECT ~id~, ~score~, ~content~, ~is_error~ FROM ~npl~.~tool_search_docs~;")).

Definition required_inputs_block_the_view : bool :=
  plan_npl "{'name':'must_qualify','annotations':{'readOnlyHint':true},'inputSchema':{'type':'object','properties':{'query':{'type':'string'}},'required':['query']}}"
    (fun tool => negb (eligible tool) && (create_view tool ≟ None)).

Definition gated_tables_get_no_view : bool := all [
  plan_npl SEND_EMAIL (fun tool => create_view tool ≟ None);
  plan_one_in "npl" All SEND_EMAIL (fun t => invoke_on_select t && (create_view t ≟ None));
  plan_one_in "npl" NoInvoke LIST_THINGS
    (fun t => negb (invoke_on_select t) && (create_view t ≟ None))].

Definition view_without_output_schema_projects_the_bare_pair : bool := plan_npl LIST_THINGS (fun tool =>
  create_view tool
  ≟ Some (sql "CREATE VIEW ~npl~.~v_tool_list_things~ AS SELECT ~content~, ~is_error~ FROM ~npl~.~tool_list_things~;")).

Definition drop_view_is_restrict : bool :=
  drop_view "s" "v_tool_x" ≟ sql "DROP VIEW ~s~.~v_tool_x~ RESTRICT;".

Example ddl_tests_pass : all [
  readonly_fanout_function_is_exact; non_readonly_function_inserts_through_a_cte;
  non_readonly_fanout_tool_still_returns_the_typed_shape;
  a_tool_with_no_outputs_returns_the_whole_result_as_jsonb;
  reserved_word_parameters_and_names_are_quoted; tools_without_metadata_generate_no_comment;
  drop_function_carries_the_identity_types; the_prd_example_table_ddl_is_exact;
  the_gate_and_extra_options_are_stamped_in_order; reserved_word_names_are_quoted_not_renamed;
  no_output_schema_means_content_and_is_error_only; enum_properties_get_column_comments;
  eligible_read_only_tools_get_the_flat_view; required_inputs_block_the_view;
  gated_tables_get_no_view; view_without_output_schema_projects_the_bare_pair;
  drop_view_is_restrict] = true.
Proof. vm_compute. reflexivity. Qed.

(** registry.rs: the statement per kind, on a catalog without the function. *)
#[local] Instance empty_catalog : Spi := {|
  sql_run _ _ := Ok tt; sql_get_one _ _ := Ok None; sql_select _ _ := Ok [] |}.

Definition drop_statements_are_restrict_per_kind : bool :=
  let drop kind := (Registry.drop_statement (Registry.mkOwned kind "tool_x" "s" "x") []).1 in
  all [
    drop Registry.KIND_TABLE ≟ Ok (sql "DROP FOREIGN TABLE ~s~.~tool_x~ RESTRICT;");
    drop Registry.KIND_VIEW ≟ Ok (sql "DROP VIEW ~s~.~tool_x~ RESTRICT;");
    drop Registry.KIND_FUNCTION ≟ Ok (sql "DROP FUNCTION ~s~.~tool_x~() RESTRICT;");
    err_with (drop "index") (says "unknown kind")].

Example registry_tests_pass : drop_statements_are_restrict_per_kind = true.
Proof. vm_compute. reflexivity. Qed.

End DdlTests.

(** ** import.rs *)

Module ImportTests.
Import Tables Codegen ImportSchema.
#[local] Existing Instance json_text.
#[local] Existing Instance latin1_tables.
#[local] Existing Instance Codegen.debug_build.

Definition has (part stmt : string) : bool := contains (sql part) stmt.
Definition some (p : string → bool) (stmts : list string) : bool := existsb p stmts.
Definition starts (part : string) (stmt : string) : bool := starts_with (sql part) stmt.
Definition first (stmts : list string) : string := default EmptyString (head stmts).

Definition all_emits_one_statement_per_registry_table : bool :=
  let stmts := statements "npl" "npl_mcp" AllTables in
  all [Nat.eqb (length stmts) (length REGISTRY);
       starts "CREATE FOREIGN TABLE ~npl_mcp~.~server~" (first stmts);
       ends_with (sql "SERVER ~npl~;") (first stmts)].

Definition limit_to_and_except_filter_by_table_name : bool :=
  let limit := statements "npl" "s" (LimitTo ["tools"]) in
  let except := statements "npl" "s" (Except ["tools"; "tool_calls"]) in
  all [
    Nat.eqb (length limit) 1; starts "CREATE FOREIGN TABLE ~s~.~tools~" (first limit);
    has "~name~ text" (first limit);
    Nat.eqb (length except) (length REGISTRY - 2);
    negb (some (has "~s~.~tools~") except); negb (some (has "~s~.~tool_calls~") except)].

Definition tool_calls_ddl_matches_the_prd_column_block : bool :=
  let stmt := first (statements "npl" "s" (LimitTo ["tool_calls"])) in
  forallb (fun needle => has needle stmt) [
    "~id~ uuid"; "~tool~ text"; "~arguments~ jsonb"; "~content~ jsonb"; "~structured~ jsonb";
    "~is_error~ boolean"; "~error~ jsonb"; "~called_at~ timestamptz"; "~duration_ms~ integer"].

Definition identifiers_are_quoted : bool :=
  ends_with (sql "SERVER ~we~~ird~;") (first (statements (sql "we~ird") "s" AllTables)).

Definition every_statement_projects_its_spec_exactly : bool :=
  forallb (fun entry =>
      let spec := e_spec entry in
      let stmt := first (statements "npl" "s" (LimitTo [t_name spec])) in
      forallb (fun col => contains (quoted (c_name col) +:+ " " +:+ Tables.sql_name (c_type col)) stmt)
        (t_columns spec)
      && Nat.eqb (count_char "010"%char stmt) (length (t_columns spec) + 1)) REGISTRY.

Definition server_table_ddl_is_exact : bool :=
  statements "npl" "s" (LimitTo ["server"]) ≟ [sql (join nl [
    "CREATE FOREIGN TABLE ~s~.~server~ ("; "  ~name~ text,"; "  ~url~ text,";
    "  ~protocol_version~ text,"; "  ~server_name~ text,"; "  ~server_version~ text,";
    "  ~instructions~ text,"; "  ~capabilities~ jsonb,"; "  ~mode~ text,"; "  ~session_id~ text";
    ") SERVER ~npl~;"])].

Definition parse_opts (text : string) : McpResult ImportOptions := ImportOptions_parse (json text).
Definition same_options (a b : ImportOptions) : bool := all [
  io_cache_ttl_ms a ≟ io_cache_ttl_ms b; Bool.eqb (io_all_upstreams a) (io_all_upstreams b);
  Bool.eqb (io_per_tool a) (io_per_tool b); io_invoke_on_select a ≟ io_invoke_on_select b;
  io_prefix a ≟ io_prefix b; Bool.eqb (io_per_upstream_schema a) (io_per_upstream_schema b)].

Definition import_options_default_to_empty_and_null_is_accepted : bool := all [
  ok_with (parse_opts "{}") (same_options ImportOptions_default);
  ok_with (ImportOptions_parse Null) (same_options ImportOptions_default)].

Definition cache_ttl_ms_accepts_number_and_string_forms : bool := all [
  ok_with (parse_opts "{'cache_ttl_ms': 5000}") (fun o => io_cache_ttl_ms o ≟ Some 5000);
  ok_with (parse_opts "{'cache_ttl_ms': '0'}") (fun o => io_cache_ttl_ms o ≟ Some 0);
  ok_with (parse_opts "{'all_upstreams': true}") io_all_upstreams].

Definition refused_naming (rows : list (string * string)) : bool :=
  forallb (fun '(text, key) => err_with (parse_opts text) (fun e => code "22023" e && says key e)) rows.

Definition bad_import_options_are_rejected : bool := all [
  refused_naming [
    ("{'cache_ttl_ms': -1}", "cache_ttl_ms"); ("{'cache_ttl_ms': 'soon'}", "cache_ttl_ms");
    ("{'all_upstreams': 'yes'}", "all_upstreams"); ("{'cache_ttl': 5}", "cache_ttl")];
  err_with (parse_opts "[1]") (says "jsonb object");
  refused_naming [
    ("{'per_tool': 'yes'}", "per_tool"); ("{'invoke_on_select': 'sometimes'}", "invoke_on_select");
    ("{'invoke_on_select': 7}", "invoke_on_select"); ("{'prefix': 9}", "prefix");
    ("{'prefix': 'has-dashes'}", "prefix"); ("{'prefix': '9lives'}", "prefix");
    ("{'per_upstream_schema': 'maybe'}", "per_upstream_schema")]].

Definition prd8_import_options_parse_to_their_defaults_and_values : bool := all [
  ok_with (parse_opts "{}") (fun o => all [
    negb (io_per_tool o); io_invoke_on_select o ≟ ReadOnly; io_prefix o ≟ EmptyString;
    negb (io_per_upstream_schema o)]);
  ok_with (parse_opts "{'per_tool': true, 'invoke_on_select': 'all', 'prefix': 'npl_'}") (fun o => all [
    io_per_tool o; io_invoke_on_select o ≟ All; io_prefix o ≟ "npl_"]);
  ok_with (parse_opts "{'invoke_on_select': 'none'}") (fun o => io_invoke_on_select o ≟ NoInvoke);
  ok_with (parse_opts "{'per_upstream_schema': true}") io_per_upstream_schema].

(** [per_tool_plan(..).unwrap()] with a check. *)
Definition per_tool_with (server schema tools : string) (opts : ImportOptions)
    (check : list string → GenerationPlan → bool) : bool :=
  match per_tool_plan server schema (default [] (as_array (json tools))) opts with
  | Some (Ok (stmts, planned)) => check stmts planned
  | _ => false
  end.

Definition per_tool_plan_emits_the_full_object_set : bool :=
  per_tool_with "npl" "npl_s"
    "[{'name':'search_docs','title':'Search','annotations':{'readOnlyHint':true},'inputSchema':{'type':'object','properties':{'query':{'type':'string'}}},'outputSchema':{'type':'object','properties':{'results':{'type':'array','items':{'type':'object','properties':{'id':{'type':'string'}}}}}}},{'name':'send_email','inputSchema':{'type':'object','properties':{}}}]"
    (mkImport None false true ReadOnly EmptyString false) (fun stmts planned => all [
      Nat.eqb (length (tools planned)) 2; skipped planned ≟ [];
      some (starts "CREATE FOREIGN TABLE ~npl_s~.~tool_search_docs~ (") stmts;
      some (starts "CREATE FUNCTION ~npl_s~.~search_docs~(") stmts;
      some (starts "CREATE VIEW ~npl_s~.~v_tool_search_docs~") stmts;
      some (starts "CREATE FOREIGN TABLE ~npl_s~.~tool_send_email~ (") stmts;
      some (starts "CREATE FUNCTION ~npl_s~.~send_email~(") stmts;
      negb (some (has "v_tool_send_email") stmts);
      let table := first (filter (fun s => has "tool_search_docs" s = true) stmts) in
      has "tool 'search_docs'" table && has "invoke_on_select 'true'" table;
      has "invoke_on_select 'false'" (first (filter (fun s => has "tool_send_email" s = true) stmts))]).

Definition per_tool_plan_honors_prefix_and_cache_ttl : bool :=
  per_tool_with "npl" "s"
    "[{'name':'echo','annotations':{'readOnlyHint':true},'inputSchema':{'type':'object','properties':{}}}]"
    (mkImport (Some 2500) false true ReadOnly "mcp_" false) (fun stmts _ =>
      some (fun s => starts "CREATE FOREIGN TABLE ~s~.~tool_mcp_echo~ (" s && has "cache_ttl_ms '2500'" s)
        stmts).

Definition per_upstream_layout_creates_schemas_and_marks_slices : bool :=
  per_tool_with "engine" "eng_s"
    "[{'name':'github.create_issue','annotations':{'readOnlyHint':true},'inputSchema':{'type':'object','properties':{}}},{'name':'local_echo','annotations':{'readOnlyHint':true},'inputSchema':{'type':'object','properties':{}}}]"
    (mkImport None false true ReadOnly EmptyString true) (fun stmts _ => all [
      first stmts ≟ sql "CREATE SCHEMA ~github~;";
      some (fun s => starts "CREATE FOREIGN TABLE ~github~.~tool_create_issue~ (" s
                     && has "tool 'github.create_issue'" s && has "upstream 'github'" s) stmts;
      some (fun s => starts "CREATE FOREIGN TABLE ~eng_s~.~tool_local_echo~ (" s
                     && has "tool 'local_echo'" s && negb (has "upstream" s)) stmts;
      negb (some (has "tool_github_create_issue") stmts)]).

Definition ttl_only (n : Z) : ImportOptions := mkImport (Some n) false false ReadOnly EmptyString false.

Definition cache_ttl_lands_in_every_tables_options : bool := all [
  forallb (has " OPTIONS (cache_ttl_ms '5000');") (statements_with "npl" "s" AllTables (ttl_only 5000));
  negb (some (has "OPTIONS") (statements "npl" "s" AllTables))].

Definition engine_local_tables_are_exactly_server_and_tool_calls : bool :=
  (t_name ∘ e_spec <$> filter (fun e => is_engine_local (e_spec e) = true) REGISTRY)
  ≟ ["server"; "tool_calls"].

Definition upstream_prefixes_come_from_the_tools_list_namespacing : bool := all [
  upstreams_from_tool_names
    ["alpha.echo"; "plain_local_tool"; "beta.tools"; "alpha.second"; "weird.dotted.name"]
    ≟ ["alpha"; "beta"; "weird"];
  upstreams_from_tool_names ["echo"; "add"] ≟ []].

Definition engine_layout_creates_one_schema_per_upstream_plus_the_engine_schema : bool :=
  let stmts := engine_statements "engine" "mcp_engine" ImportOptions_default ["alpha"; "beta"] in
  let found (part : string) := first (filter (fun s => starts part s = true) stmts) in
  all [
    Nat.eqb (length stmts) (2 * (1 + 8) + 10); first stmts ≟ sql "CREATE SCHEMA ~alpha~;";
    some (fun s => starts "CREATE FOREIGN TABLE ~alpha~.~tools~" s && has "OPTIONS (upstream 'alpha')" s) stmts;
    some (fun s => starts "CREATE FOREIGN TABLE ~beta~.~resource_contents~" s
                   && has "OPTIONS (upstream 'beta')" s) stmts;
    negb (some (has "~alpha~.~server~") stmts); negb (some (has "~beta~.~tool_calls~") stmts);
    has "OPTIONS (upstream '')" (found "CREATE FOREIGN TABLE ~mcp_engine~.~tools~");
    negb (is_empty (found "CREATE FOREIGN TABLE ~mcp_engine~.~server~"));
    negb (has "OPTIONS" (found "CREATE FOREIGN TABLE ~mcp_engine~.~server~"));
    negb (is_empty (found "CREATE FOREIGN TABLE ~mcp_engine~.~tool_calls~"));
    negb (has "OPTIONS" (found "CREATE FOREIGN TABLE ~mcp_engine~.~tool_calls~"))].

Definition engine_layout_combines_upstream_and_cache_ttl_options : bool :=
  let stmts := engine_statements "engine" "mcp_engine"
                 (mkImport (Some 2500) true false ReadOnly EmptyString false) ["alpha"] in
  all [
    some (fun s => starts "CREATE FOREIGN TABLE ~alpha~.~tools~" s
                   && has "OPTIONS (upstream 'alpha', cache_ttl_ms '2500')" s) stmts;
    some (fun s => starts "CREATE FOREIGN TABLE ~mcp_engine~.~tools~" s
                   && has "OPTIONS (upstream '', cache_ttl_ms '2500')" s) stmts].

Definition engine_layout_quotes_odd_upstream_names : bool :=
  let stmts := engine_statements "engine" "s" ImportOptions_default [sql "up~stream"] in
  all [first stmts ≟ sql "CREATE SCHEMA ~up~~stream~;"; some (has "OPTIONS (upstream 'up~stream')") stmts].

Definition import_options_parse_matrix : bool := all [
  ok_with (ImportOptions_parse Null) (same_options (mkImport None false false ReadOnly EmptyString false));
  ok_with (parse_opts "{}") (same_options (mkImport None false false ReadOnly EmptyString false));
  ok_with (parse_opts "{'cache_ttl_ms':'5000','all_upstreams':true,'per_tool':true,'invoke_on_select':'all','prefix':'npl_','per_upstream_schema':true}")
    (same_options (mkImport (Some 5000) true true All "npl_" true));
  ok_with (parse_opts "{'cache_ttl_ms':250}") (fun o => io_cache_ttl_ms o ≟ Some 250);
  refused_naming [
    ("{'cache_ttl_ms':'-5'}", "cache_ttl_ms"); ("{'cache_ttl_ms':1.5}", "cache_ttl_ms");
    ("{'all_upstreams':'yes'}", "all_upstreams"); ("{'per_tool':1}", "per_tool");
    ("{'invoke_on_select':3}", "invoke_on_select"); ("{'prefix':7}", "prefix");
    ("{'per_upstream_schema':'maybe'}", "per_upstream_schema")];
  err_with (parse_opts "'all'") (code "22023"); err_with (parse_opts "7") (code "22023");
  err_with (parse_opts "{'cache':1}") (fun e => says "cache" e && says "all_upstreams" e)].

Definition prefix_validation : bool := all [
  forallb (fun ok => is_ok (validate_prefix ok)) [EmptyString; "npl"; "npl_"; "x1_2"; "_hidden"];
  forallb (fun bad => is_err (validate_prefix bad)) ["9x"; "NPL"; "npl-"; "npl.x"; "npl x"; "nplé"; "🚀"];
  err_with (validate_prefix "Npl") (fun e => says "prefix" e && says "Npl" e)].

Definition table_options_stamping : bool := all [
  ok_with (parse_opts "{}") (fun o => import_table_options o ≟ []);
  ok_with (parse_opts "{'cache_ttl_ms':1000}")
    (fun o => import_table_options o ≟ [("cache_ttl_ms", "1000")])].

Definition quote_ident_escapes_quotes : bool := all [
  Ddl.quote_ident "plain" ≟ sql "~plain~"; Ddl.quote_ident (sql "up~stream") ≟ sql "~up~~stream~";
  Ddl.quote_ident EmptyString ≟ sql "~~"].

Definition LOCAL_SPEC : TableSpec := mkTable "local"
  [mkColumn "alpha" Text ServerIdentity; mkColumn "beta" Int4 Local_].
Definition FEDERATED_SPEC : TableSpec := mkTable "federated"
  [mkColumn "uri" Text (ReadThrough "resources/read")].

Definition create_foreign_table_shape : bool :=
  let ddl := create_foreign_table (sql "srv~q") "target" LOCAL_SPEC [("upstream", "it's")] in
  let bare := create_foreign_table "srv" "target" LOCAL_SPEC [] in
  all [
    starts "CREATE FOREIGN TABLE ~target~.~local~ (" ddl; has "  ~alpha~ text," ddl;
    has "  ~beta~ integer" ddl; has ") SERVER ~srv~~q~ OPTIONS (upstream 'it''s');" ddl;
    ends_with (sql " SERVER ~srv~;") bare; negb (has "OPTIONS" bare)].

Definition engine_local_rule : bool := all [
  is_engine_local LOCAL_SPEC; negb (is_engine_local FEDERATED_SPEC)].

Definition upstream_names_from_tool_names : bool := all [
  upstreams_from_tool_names
    ["github.create_issue"; "slack.post"; "github.list"; "local_echo"; "a.b.c"]
    ≟ ["a"; "github"; "slack"];
  upstreams_from_tool_names ["plain"] ≟ [];
  upstreams_from_tool_names [".leading"; "trailing."] ≟ [EmptyString; "trailing"];
  upstreams_from_tool_names [] ≟ []].

Example import_tests_pass : all [
  all_emits_one_statement_per_registry_table; limit_to_and_except_filter_by_table_name;
  tool_calls_ddl_matches_the_prd_column_block; identifiers_are_quoted;
  every_statement_projects_its_spec_exactly; server_table_ddl_is_exact;
  import_options_default_to_empty_and_null_is_accepted;
  cache_ttl_ms_accepts_number_and_string_forms; bad_import_options_are_rejected;
  prd8_import_options_parse_to_their_defaults_and_values; per_tool_plan_emits_the_full_object_set;
  per_tool_plan_honors_prefix_and_cache_ttl; per_upstream_layout_creates_schemas_and_marks_slices;
  cache_ttl_lands_in_every_tables_options; engine_local_tables_are_exactly_server_and_tool_calls;
  upstream_prefixes_come_from_the_tools_list_namespacing;
  engine_layout_creates_one_schema_per_upstream_plus_the_engine_schema;
  engine_layout_combines_upstream_and_cache_ttl_options; engine_layout_quotes_odd_upstream_names;
  import_options_parse_matrix; prefix_validation; table_options_stamping;
  quote_ident_escapes_quotes; create_foreign_table_shape; engine_local_rule;
  upstream_names_from_tool_names] = true.
Proof. vm_compute. reflexivity. Qed.

End ImportTests.
