(* ===== verification/Stub.v ===== *)
(** * The stub MCP servers of the tests

    The three loopback servers the repository tests its extension against, as
    instances of [Net]: the scripted server of cache.rs, the routed one of
    tables/readthrough.rs and the fixed one of tables/tool_calls.rs.  A server is
    a function of the requests it has seen; what it counts is read off the
    requests the world records.  Sockets and threads are left out: one request
    per connection, answered in order. *)

From Stdlib Require Import Ascii String ZArith Lia.
From stdpp Require Import base numbers gmap sets strings pretty list.
From S2P Require Import Prelude Str Json JsonText Errors Sse Client.
#[local] Open Scope Z_scope.

#[local] Set Warnings "-register-all".
#[local] Existing Instance json_text.

Module Stub.

(** A server: the requests it has answered so far, and the next one. *)
Definition Server : Type := list HttpRequest → HttpRequest → HttpOutcome.

(** ** Requests and answers *)

Definition method_of (rq : HttpRequest) : string :=
  default EmptyString (get (rq_body rq) "method" ≫= as_str).

(** The method names a server has received, in order. *)
Definition all_hits (server_url : string) (w : World) : list string :=
  method_of <$> filter (fun rq => rq_url rq = server_url) (w_sent w).
Definition hits (server_url method : string) (w : World) : nat :=
  length (filter (fun m => m = method) (all_hits server_url w)).

(** An HTTP response with a whole body. *)
Definition respond (status : Z) (headers : list (string * string)) (body : string) : HttpOutcome :=
  Response status headers (Sse.mkStream body None) (fun _ => 0).

Definition json_type : string * string := ("content-type", "application/json").
Definition result_envelope (id result : Value) : Value :=
  Object [("jsonrpc", Str "2.0"); ("id", id); ("result", result)].
Definition error_envelope (id : Value) (code : Z) (message : string) : Value :=
  Object [("jsonrpc", Str "2.0"); ("id", id);
          ("error", Object [("code", num_of_Z code); ("message", Str message)])].

(** The servers at their urls; anything else refuses the connection. *)
Definition loopback (servers : list (string * Server)) : Net := {|
  answer w rq :=
    match list_find (fun entry => entry.1 = rq_url rq) servers with
    | Some (_, (u, server)) => server (filter (fun past => rq_url past = u) (w_sent w)) rq
    | None => TransportError "ConnectionFailed"
    end;
  took _ _ := 0%nat;
  interrupt _ := Ok tt;
  stream_interrupt _ _ := Ok tt |}.

(** ** cache.rs: the scripted server *)

Inductive SseFrame : Type := Notify (v : Value) | ReplyFrame (v : Value).

Inductive Reply : Type :=
  | Result (v : Value)
  | Error (code : Z) (message : string)
  | Sequence (replies : list Reply)
  | ByToken (replies : list (string * Reply))
  | Route (route : string → Value → Reply)
  | Disconnect
  | SseReply (frames : list SseFrame).

Inductive Flat : Type :=
  | FlatResult (v : Value)
  | FlatError (code : Z) (message : string)
  | FlatSse (frames : list SseFrame)
  | FlatDisconnect.

Abbreviation Counters := (gmap string nat).

(** The first entry under a key, continued. *)
Definition with_key {A} (f : Reply → A) (key : string) : list (string * Reply) → option A :=
  fix go m := match m with
              | [] => None
              | (k, next) :: rest => if bool_decide (k = key) then Some (f next) else go rest
              end.
Definition with_index {A} (f : Reply → A) : list Reply → nat → option A :=
  fix go l i := match l, i with
                | [], _ => None
                | next :: _, O => Some (f next)
                | _ :: rest, S i => go rest i
                end.

Fixpoint flatten (reply : Reply) (counters : Counters) (method : string) (token : option string)
    (params : Value) : Flat * Counters :=
  match reply with
  | Result v => (FlatResult v, counters)
  | Error code message => (FlatError code message, counters)
  | SseReply frames => (FlatSse frames, counters)
  | Disconnect => (FlatDisconnect, counters)
  | Route route => flatten (route method params) counters method token params
  | Sequence l =>
      let slot := default 0%nat (counters !! method) in
      let index := Nat.min slot (length l - 1) in
      let counters := <[method := S slot]> counters in
      default (FlatError (-32603) "stub sequence is empty", counters)
        (with_index (fun next => flatten next counters method token params) l index)
  | ByToken m =>
      let go := with_key (fun next => flatten next counters method token params) in
      match go (default EmptyString token) m with
      | Some flat => flat
      | None => default (FlatError (-32603) "no stub reply for token", counters) (go EmptyString m)
      end
  end.

Record Inner : Type := mkInner {
  replies : gmap string Reply;
  session_header : bool;
}.

(** The bearer token of the [authorization] header, or its whole value. *)
Definition token_of (headers : list (string * string)) : option string :=
  foldl (fun token '(name, value) =>
    if bool_decide (to_ascii_lowercase (trim name) = "authorization") then
      Some (default (trim value) (strip_prefix "Bearer " (trim value)))
    else token) None headers.

Definition sse_data (id : Z) (frame : SseFrame) : string :=
  "data: " +:+ json_to_string (match frame with
                               | Notify v => v
                               | ReplyFrame v => result_envelope (num_of_Z id) v
                               end) +:+ nl +:+ nl.

(** The configured reply of a request, and the counters after it. *)
Definition reply_to (inner : Inner) (counters : Counters) (rq : HttpRequest) : Flat * Counters :=
  let method := method_of rq in
  match replies inner !! method with
  | Some reply => flatten reply counters method (token_of (rq_headers rq))
                    (default Null (get (rq_body rq) "params"))
  | None => (FlatError (-32601) "stub has no reply configured", counters)
  end.

Definition handle (inner : Inner) (counters : Counters) (rq : HttpRequest) : HttpOutcome :=
  let id := default 0 (get (rq_body rq) "id" ≫= as_i64) in
  match (reply_to inner counters rq).1 with
  | FlatDisconnect => TransportError "Io"
  | FlatResult result =>
      respond 200 (json_type :: if session_header inner && bool_decide (method_of rq = "initialize")
                                then [("mcp-session-id", "stub-session-1")] else [])
        (json_to_string (result_envelope (num_of_Z id) result))
  | FlatError code message =>
      respond 200 [json_type] (json_to_string (error_envelope (num_of_Z id) code message))
  | FlatSse frames =>
      respond 200 [("content-type", "text/event-stream")] (concat (sse_data id <$> frames))
  end.

(** The counters after the requests so far. *)
Definition replay (inner : Inner) (past : list HttpRequest) : Counters :=
  foldl (fun counters rq => (reply_to inner counters rq).2) ∅ past.

Definition scripted (inner : Inner) : Server := fun past rq => handle inner (replay inner past) rq.

(** ** tables/readthrough.rs: the routed server *)

Inductive Routed : Type :=
  | Answer (v : Value)
  | Refuse (code : Z) (message : string)
  | Accepted.

(** A message without an id is answered without one. *)
Definition without_id (v : Value) : Value :=
  match v with Object fields => Object (filter (fun kv => kv.1 ≠ "id") fields) | _ => v end.

Definition routed (routes : string → Value → Routed) : Server := fun _ rq =>
  let method := method_of rq in
  let id := get (rq_body rq) "id" in
  let envelope (v : Value) : Value := if bool_decide (is_Some id) then v else without_id v in
  if bool_decide (is_Some (strip_prefix "notifications/" method)) then respond 202 [json_type] EmptyString
  else match routes method (default (Object []) (get (rq_body rq) "params")) with
  | Accepted => respond 202 [json_type] EmptyString
  | Answer v => respond 200 [json_type] (json_to_string (envelope (result_envelope (default Null id) v)))
  | Refuse code message =>
      respond 200 [json_type] (json_to_string (envelope (error_envelope (default Null id) code message)))
  end.

(** The handshake, and the routes of a test behind it. *)
Definition stub_with (routes : string → Value → Routed) : Server :=
  routed (fun method params =>
    if bool_decide (method = "initialize") then
      Answer (Object [("protocolVersion", Str "2025-03-26");
                      ("serverInfo", Object [("name", Str "stub"); ("version", Str "0.0.0")]);
                      ("capabilities", Object [])])
    else if bool_decide (method = "notifications/initialized") then Accepted
    else routes method params).

(** The parameters of the requests of one method, in order. *)
Definition requests (server_url method : string) (w : World) : list Value :=
  (fun rq => default (Object []) (get (rq_body rq) "params"))
    <$> filter (fun rq => rq_url rq = server_url ∧ method_of rq = method) (w_sent w).

(** ** tables/tool_calls.rs: the fixed server *)

Definition pointer2 (v : Value) (a b : string) : option Value := get v a ≫= fun x => get x b.

Definition tools_call_reply (id body : Value) : Value :=
  let name := default EmptyString (pointer2 body "params" "name" ≫= as_str) in
  let args := default (Object []) (pointer2 body "params" "arguments") in
  let text (t : string) : Value := Array [Object [("type", Str "text"); ("text", Str t)]] in
  if bool_decide (name = "echo") then
    result_envelope id (Object
      [("content", text (json_to_string (default (Object []) (get args "message"))));
       ("structuredContent", args)])
  else if bool_decide (name = "boom") then
    result_envelope id (Object [("content", text "kaboom"); ("isError", Bool true)])
  else if bool_decide (name = "not_found") then
    error_envelope id (-32601) ("method " +:+ quoted "tools/call" +:+ " has no such tool")
  else if bool_decide (name = "bad_args") then error_envelope id (-32602) "invalid arguments"
  else error_envelope id (-32601) ("unknown tool: " +:+ name).

Definition not_null (v : Value) : option Value := match v with Null => None | _ => Some v end.

Definition serve_one : Server := fun _ rq =>
  let body := rq_body rq in
  let method := method_of rq in
  if bool_decide (is_Some (strip_prefix "notifications/" method)) then respond 202 [json_type] EmptyString
  else respond 200 [json_type] (json_to_string
    match get body "id" ≫= not_null with
    | Some id =>
        if bool_decide (method = "initialize") then
          result_envelope id (Object
            [("protocolVersion", Str Client.CLIENT_PROTOCOL_VERSION);
             ("serverInfo", Object [("name", Str "stub"); ("version", Str "0")]);
             ("capabilities", Object [("tools", Object [])])])
        else if bool_decide (method = "tools/call") then tools_call_reply id body
        else error_envelope id (-32601) ("no such method: " +:+ method)
    | None => Object [("jsonrpc", Str "2.0"); ("id", Null)]
    end).

(** How many requests a server has answered. *)
Definition total_hits (server_url : string) (w : World) : nat := length (all_hits server_url w).

End Stub.
