(* ===== verification/VectorsTables.v ===== *)
(** * The unit tests of the tables, the cache and the session map, evaluated

    The tests of cache.rs, session.rs and tables/ that call the Rust functions
    directly, one boolean per test function with its assertions in order.  Those
    of tables/readthrough.rs run against the routed stub server of [Stub]. *)

From Stdlib Require Import Ascii String ZArith Lia.
From Stdlib Require Import SpecFloat.
From stdpp Require Import base numbers gmap sets strings pretty list.
From S2P Require Import Prelude Str Json JsonText Errors Sse Options Quals Tables Cursor Client Session Cache.
From S2P Require Import Catalog Readthrough ToolCalls Stub Vectors.
Import Assert.
#[local] Open Scope Z_scope.

(** [assert_eq!] on cells, JSON compared as JSON. *)
Definition cell_eq (x y : option Tables.Cell) : bool :=
  match x, y with
  | None, None => true
  | Some (Tables.CText s), Some (Tables.CText t) | Some (Tables.CDate s), Some (Tables.CDate t) => s ≟ t
  | Some (Tables.CJson v), Some (Tables.CJson w) => value_eqb v w
  | Some (Tables.CBool a), Some (Tables.CBool b) => Bool.eqb a b
  | Some (Tables.CInt4 i), Some (Tables.CInt4 j) | Some (Tables.CInt8 i), Some (Tables.CInt8 j)
  | Some (Tables.CTimestampTz i), Some (Tables.CTimestampTz j) => i ≟ j
  | Some (Tables.CBytea b), Some (Tables.CBytea c) | Some (Tables.CUuid b), Some (Tables.CUuid c) => b ≟ c
  | Some (Tables.CFloat8 f), Some (Tables.CFloat8 g) => SFeqb f g
  | _, _ => false
  end.

(** Running a test over a state: [unwrap_err] and the verdict. *)
Definition expect_err {S E A} (m : M S E A) : M S string E := fun s =>
  match m s with (Err e, s') => (Ok e, s') | (Ok _, s') => (Err "unwrap_err on Ok", s') end.
Definition unwrap {S E A} (m : M S E A) : M S string A := fun s =>
  match m s with (Ok a, s') => (Ok a, s') | (Err _, s') => (Err "unwrap on Err", s') end.
Definition verdict {S E} (m : M S E bool) (s : S) : bool :=
  match (m s).1 with Ok b => b | Err _ => false end.

(** ** cache.rs

    The surroundings of the cache are a clock and the counter of the fetches.
    That two hits share an allocation is read as: the second one fetched nothing
    and returned the same items. *)

Module CacheTests.
Import Cache.

Abbreviation CM := (M (Caches * (Z * nat)) string).

Definition counting_fetch (l : list Value) : M (Caches * (Z * nat)) McpError (list Value) :=
  fun '(c, (t, n)) => (Ok l, (c, (t, S n))).
Definition items (n : nat) : list Value := (fun i => Object [("i", num_of_Z (Z.of_nat i))]) <$> seq 0 n.
Definition failing (e : McpError) : M (Caches * (Z * nat)) McpError (list Value) := m_fail e.
Definition get (server user ttl : Z) (slice : Slice)
    (fetch : M (Caches * (Z * nat)) McpError (list Value)) : M (Caches * (Z * nat)) McpError (list Value) :=
  get_or_fetch fst (server, user) ttl slice fetch.
Definition fetches : CM nat := fun st => (Ok st.2.2, st).
Definition restart_count : CM unit := fun '(c, (t, _)) => (Ok tt, (c, (t, 0%nat))).
Definition sleep (ms : Z) : CM unit := fun '(c, (t, n)) => (Ok tt, (c, (t + ms, n))).
Definition slice_count (server user : Z) : CM nat := fun st =>
  (Ok (from_option size 0%nat (st.1 !! (server, user))), st).
Definition clear_all : CM unit := fun st => (Ok tt, (∅, st.2)).
Definition drop_now (server user : Z) : CM bool := fun '(c, r) =>
  let '(b, c') := drop (server, user) c in (Ok b, (c', r)).
Definition drop_tools_now (server user : Z) : CM bool := fun '(c, r) =>
  let '(b, c') := drop_tools (server, user) c in (Ok b, (c', r)).
Definition runs (m : CM bool) : bool := verdict m (∅, (0, 0%nat)).

Definition a_tool (name : string) : list Value := [Object [("name", Str name)]].
Definition first_name (l : list Value) : Value := from_option (fun v => at_key v "name") Null (head l).

Definition cache_hit_within_ttl_and_refetch_after_expiry : bool := runs (
  _ ← clear_all;
  first ← unwrap (get 0x00C0FE01 0x00C0F002 80 Tools (counting_fetch (a_tool "a")));
  second ← unwrap (get 0x00C0FE01 0x00C0F002 80 Tools (counting_fetch (a_tool "a")));
  once ← fetches;
  _ ← sleep 150;
  _ ← unwrap (get 0x00C0FE01 0x00C0F002 80 Tools (counting_fetch (a_tool "a")));
  twice ← fetches;
  mret (all [jsons_eq first second; Nat.eqb once 1; Nat.eqb twice 2])).

Definition per_user_isolation_two_roles_never_share_entries : bool := runs (
  _ ← clear_all;
  for_a ← unwrap (get 0x00C0FE03 0x00C0F004 60000 Tools (counting_fetch (a_tool "tool_for_a")));
  for_b ← unwrap (get 0x00C0FE03 0x00C0F005 60000 Tools (counting_fetch (a_tool "tool_for_b")));
  n ← fetches;
  count_a ← slice_count 0x00C0FE03 0x00C0F004;
  count_b ← slice_count 0x00C0FE03 0x00C0F005;
  again ← unwrap (get 0x00C0FE03 0x00C0F004 60000 Tools (failing (Internal "panic")));
  mret (all [
    value_eqb (first_name for_a) (Str "tool_for_a"); value_eqb (first_name for_b) (Str "tool_for_b");
    negb (jsons_eq for_a for_b); Nat.eqb n 2; Nat.eqb count_a 1; Nat.eqb count_b 1;
    value_eqb (first_name again) (Str "tool_for_a")])).

Definition drop_clears_every_slice_and_refetches : bool := runs (
  _ ← clear_all;
  _ ← unwrap (get 0x00C0FE06 0x00C0F007 60000 Tools (counting_fetch []));
  _ ← unwrap (get 0x00C0FE06 0x00C0F007 60000 Prompts (counting_fetch []));
  _ ← unwrap (get 0x00C0FE06 0x00C0F007 60000 Initialize (counting_fetch []));
  three ← slice_count 0x00C0FE06 0x00C0F007;
  existed ← drop_now 0x00C0FE06 0x00C0F007;
  none ← slice_count 0x00C0FE06 0x00C0F007;
  again ← drop_now 0x00C0FE06 0x00C0F007;
  _ ← unwrap (get 0x00C0FE06 0x00C0F007 60000 Tools (counting_fetch []));
  n ← fetches;
  mret (all [Nat.eqb three 3; existed; Nat.eqb none 0; negb again; Nat.eqb n 4])).

Definition drop_tools_only_drops_the_tools_slice : bool := runs (
  _ ← clear_all;
  _ ← unwrap (get 0x00C0FE08 0x00C0F009 60000 Tools (counting_fetch []));
  _ ← unwrap (get 0x00C0FE08 0x00C0F009 60000 Prompts (counting_fetch []));
  existed ← drop_tools_now 0x00C0FE08 0x00C0F009;
  again ← drop_tools_now 0x00C0FE08 0x00C0F009;
  left ← slice_count 0x00C0FE08 0x00C0F009;
  _ ← unwrap (get 0x00C0FE08 0x00C0F009 60000 Tools (counting_fetch []));
  n ← fetches;
  mret (all [existed; negb again; Nat.eqb left 1; Nat.eqb n 3])).

(** [for _ in 0..n { get(..).unwrap() }]: the lengths. *)
Fixpoint times (n : nat) (m : CM (list Value)) : CM (list nat) :=
  match n with O => mret [] | S n => l ← m; more ← times n m; mret (length l :: more) end.

Definition ttl_zero_disables_caching : bool := runs (
  _ ← clear_all;
  lengths ← times 3 (unwrap (get 0x00C0FE0A 0x00C0F00B 0 Tools (counting_fetch (a_tool "a"))));
  n ← fetches;
  stored ← slice_count 0x00C0FE0A 0x00C0F00B;
  mret (all [lengths ≟ [1; 1; 1]%nat; Nat.eqb n 3; Nat.eqb stored 0])).

Definition fetch_errors_are_never_cached : bool := runs (
  _ ← clear_all;
  err ← expect_err (get 0x00C0FE0C 0x00C0F00D 60000 Resources (failing (Transport "server unreachable")));
  stored ← slice_count 0x00C0FE0C 0x00C0F00D;
  _ ← unwrap (get 0x00C0FE0C 0x00C0F00D 60000 Resources (counting_fetch []));
  n ← fetches;
  mret (all [code "08006" err; Nat.eqb stored 0; Nat.eqb n 1])).

(** The host-side tests. *)

Definition hit_within_ttl_then_refetch_after_expiry : bool := runs (
  first ← unwrap (get 1 2 40 Tools (counting_fetch (items 3)));
  hits ← times 4 (unwrap (get 1 2 40 Tools (counting_fetch (items 3))));
  one ← fetches;
  _ ← sleep 60;
  fresh ← unwrap (get 1 2 40 Tools (counting_fetch (items 3)));
  two ← fetches;
  mret (all [Nat.eqb (length first) 3; hits ≟ [3; 3; 3; 3]%nat; Nat.eqb one 1;
             Nat.eqb (length fresh) 3; Nat.eqb two 2])).

Definition ttl_zero_disables_caching_host : bool := runs (
  _ ← times 5 (unwrap (get 3 4 0 Prompts (counting_fetch (items 1))));
  n ← fetches;
  stored ← slice_count 3 4;
  mret (all [Nat.eqb n 5; Nat.eqb stored 0])).

Definition fetch_errors_are_never_cached_host : bool := runs (
  err ← expect_err (get 5 6 60000 Resources (failing (Transport "server unreachable")));
  stored ← slice_count 5 6;
  _ ← unwrap (get 5 6 60000 Resources (counting_fetch (items 2)));
  n ← fetches;
  mret (all [code "08006" err; Nat.eqb stored 0; Nat.eqb n 1])).

Definition drop_tools_is_slice_scoped : bool := runs (
  _ ← unwrap (get 7 8 60000 Tools (counting_fetch (items 1)));
  _ ← unwrap (get 7 8 60000 Prompts (counting_fetch (items 2)));
  _ ← unwrap (get 7 8 60000 Initialize (counting_fetch (items 1)));
  three ← slice_count 7 8;
  existed ← drop_tools_now 7 8;
  two ← slice_count 7 8;
  again ← drop_tools_now 7 8;
  _ ← restart_count;
  _ ← unwrap (get 7 8 60000 Prompts (counting_fetch (items 1)));
  n ← fetches;
  mret (all [Nat.eqb three 3; existed; Nat.eqb two 2; negb again; Nat.eqb n 0])).

Definition drop_clears_every_slice : bool := runs (
  _ ← unwrap (get 9 10 60000 Tools (counting_fetch (items 1)));
  _ ← unwrap (get 9 10 60000 Prompts (counting_fetch (items 1)));
  _ ← unwrap (get 9 10 60000 Resources (counting_fetch (items 1)));
  _ ← unwrap (get 9 10 60000 ResourceTemplates (counting_fetch (items 1)));
  _ ← unwrap (get 9 10 60000 Initialize (counting_fetch (items 1)));
  five ← slice_count 9 10;
  existed ← drop_now 9 10;
  none ← slice_count 9 10;
  again ← drop_now 9 10;
  mret (all [Nat.eqb five 5; existed; Nat.eqb none 0; negb again])).

(** Only Alice's fetches are counted. *)
Definition per_user_isolation : bool := runs (
  _ ← unwrap (get 11 12 60000 Tools (counting_fetch (items 1)));
  _ ← unwrap (get 11 13 60000 Tools (fun st => (Ok (items 2), st)));
  _ ← unwrap (get 11 12 60000 Tools (counting_fetch (items 1)));
  once ← fetches;
  _ ← drop_tools_now 11 13;
  _ ← unwrap (get 11 12 60000 Tools (counting_fetch (items 1)));
  still ← fetches;
  mret (all [Nat.eqb once 1; Nat.eqb still 1])).

Definition per_server_isolation : bool := runs (
  _ ← unwrap (get 21 23 60000 Tools (counting_fetch (items 1)));
  _ ← unwrap (get 22 23 60000 Tools (counting_fetch (items 2)));
  _ ← drop_tools_now 21 23;
  _ ← restart_count;
  _ ← unwrap (get 22 23 60000 Tools (counting_fetch (items 2)));
  n ← fetches;
  mret (Nat.eqb n 0)).

Definition cached_items_are_shared_immutably : bool := runs (
  first ← unwrap (get 31 32 60000 Tools (counting_fetch (items 3)));
  second ← unwrap (get 31 32 60000 Tools (counting_fetch (items 3)));
  once ← fetches;
  _ ← sleep 30;
  fresh ← unwrap (get 31 32 10 Tools (counting_fetch (items 4)));
  twice ← fetches;
  mret (all [jsons_eq first second; Nat.eqb once 1; Nat.eqb twice 2; Nat.eqb (length fresh) 4;
             Nat.eqb (length first) 3])).

(** The tests of cache.rs pass. *)
Example cache_tests_pass : all [
  cache_hit_within_ttl_and_refetch_after_expiry; per_user_isolation_two_roles_never_share_entries;
  drop_clears_every_slice_and_refetches; drop_tools_only_drops_the_tools_slice;
  ttl_zero_disables_caching; fetch_errors_are_never_cached;
  hit_within_ttl_then_refetch_after_expiry; ttl_zero_disables_caching_host;
  fetch_errors_are_never_cached_host; drop_tools_is_slice_scoped; drop_clears_every_slice;
  per_user_isolation; per_server_isolation; cached_items_are_shared_immutably] = true.
Proof. vm_compute. reflexivity. Qed.
End CacheTests.

(** ** session.rs *)

Module SessionTests.
Import Session.

Definition no_catalog : PgCatalog := {|
  foreign_server _ := None; user_mapping _ _ := None; get_user_id := 10; spi_get_one _ := Ok None |}.
Definition backend : Sessions unit := mkSessions ∅ (mkWorld [] 0) tt.

Definition unknown_foreign_server_is_42704 : bool :=
  err_with (@lookup_foreign_server no_catalog "no_such_server_at_all")
    (fun e => code "42704" e && says "no_such_server_at_all" e).

Definition validator_option_array_splits_on_the_first_equals : bool :=
  split_validator_options [Some "url=https://x.example/mcp?a=b"; Some "timeout_ms=5000"; None; Some "malformed"]
  ≟ [("url", "https://x.example/mcp?a=b"); ("timeout_ms", "5000")].

Definition params_object_defaults_to_empty : bool := all [
  value_eqb (params_object None) (json "{}"); value_eqb (params_object (Some Null)) (json "{}");
  value_eqb (params_object (Some (json "{'a': 1}"))) (json "{'a': 1}")].

Definition session_map_starts_empty_in_a_fresh_backend : bool :=
  let st := clear_all_sessions backend in
  all [Nat.eqb (session_count st) 0; cached_initialize_count InvalidOid InvalidOid st ≟ None].

Definition dropping_an_absent_session_reports_false : bool :=
  negb (drop_session InvalidOid 10 (clear_all_sessions backend)).1.

Definition validator_options_split_on_the_first_equals : bool := all [
  split_validator_options [Some "url=https://x.example/mcp?a=b&c=d"; Some "mode=generic"; None;
                           Some "noequals"; Some "=value"; Some "empty="]
  ≟ [("url", "https://x.example/mcp?a=b&c=d"); ("mode", "generic"); (EmptyString, "value");
     ("empty", EmptyString)];
  split_validator_options [] ≟ []].

Definition params_object_matrix : bool := all [
  value_eqb (params_object None) (json "{}"); value_eqb (params_object (Some Null)) (json "{}");
  value_eqb (params_object (Some (json "{}"))) (json "{}");
  value_eqb (params_object (Some (json "{'a': 1, 'b': [true, null]}"))) (json "{'a': 1, 'b': [true, null]}");
  value_eqb (params_object (Some (Str "scalar"))) (Str "scalar");
  value_eqb (params_object (Some (json "7"))) (json "7")].

Definition session_map_hygiene_in_a_fresh_thread : bool :=
  let st := clear_all_sessions backend in
  all [Nat.eqb (session_count st) 0; negb (drop_session 77 88 st).1;
       cached_initialize_count 77 88 st ≟ None; with_cached_session 77 88 Client.url st ≟ None;
       Nat.eqb (session_count (clear_all_sessions st)) 0].

(** The tests of session.rs pass. *)
Example session_tests_pass : all [
  unknown_foreign_server_is_42704; validator_option_array_splits_on_the_first_equals;
  params_object_defaults_to_empty; session_map_starts_empty_in_a_fresh_backend;
  dropping_an_absent_session_reports_false; validator_options_split_on_the_first_equals;
  params_object_matrix; session_map_hygiene_in_a_fresh_thread] = true.
Proof. vm_compute. reflexivity. Qed.
End SessionTests.

(** ** tables/mod.rs *)

Module TablesTests.
Import Quals Tables.

Definition spec_of (name : string) : TableSpec := from_option e_spec (mkTable EmptyString []) (find name).
Definition has_type (spec : TableSpec) (i : nat) (t : ColumnType) : bool :=
  from_option (fun c => bool_decide (c_type c = t)) false (column spec i).

Definition registry_holds_exactly_the_prd_tables : bool :=
  ((fun e => t_name (e_spec e)) <$> REGISTRY)
  ≟ ["server"; "tools"; "prompts"; "prompt_arguments"; "resources"; "resource_templates";
     "resource_contents"; "prompt_messages"; "completions"; "tool_calls"].

Definition column_names_are_unique_and_non_empty_per_table : bool :=
  forallb (fun e =>
    let names := c_name <$> t_columns (e_spec e) in
    all [forallb (fun n => negb (is_empty n)) names; bool_decide (NoDup names);
         forallb (fun n => bool_decide (is_Some (attno (e_spec e) n))) names;
         Nat.eqb (arity (e_spec e)) (length (t_columns (e_spec e)))]) REGISTRY.

Definition tool_tables_carry_their_prd_columns_and_types : bool :=
  let tools := spec_of "tools" in let calls := spec_of "tool_calls" in
  all [
    Nat.eqb (arity tools) 11; attno tools "name" ≟ Some 1%nat; attno tools "input_schema" ≟ Some 4%nat;
    attno tools "read_only" ≟ Some 7%nat; has_type tools 6 Boolean; has_type tools 10 Jsonb;
    Nat.eqb (arity calls) 9; has_type calls 0 Uuid; attno calls "tool" ≟ Some 2%nat;
    attno calls "arguments" ≟ Some 3%nat; attno calls "is_error" ≟ Some 6%nat;
    attno calls "duration_ms" ≟ Some 9%nat; has_type calls 7 TimestampTz;
    bool_decide (is_Some (attno (spec_of "resource_contents") "idx"))].

(** The OIDs of PostgreSQL's [pg_type.dat]. *)
Definition pg_type_oid (name : string) : option Z :=
  snd <$> head (filter (fun kv => kv.1 = name)
    [("text", 25); ("jsonb", 3802); ("boolean", 16); ("integer", 23); ("bigint", 20); ("bytea", 17);
     ("uuid", 2950); ("timestamptz", 1184); ("double precision", 701); ("date", 1082)]).
Definition type_oids_agree_with_the_sql_spelling : bool :=
  forallb (fun e => forallb (fun c => pg_type_oid (sql_name (c_type c)) ≟ Some (oid (c_type c)))
                      (t_columns (e_spec e))) REGISTRY.

Definition unknown_table_names_do_not_resolve : bool := all [
  negb (bool_decide (is_Some (t_name <$> (e_spec <$> find "nope"))));
  negb (bool_decide (is_Some (t_name <$> (e_spec <$> find "TOOL_CALLS"))))].

Definition track_b_handlers_declare_exactly_their_prd_pushdown_columns : bool :=
  forallb (fun '(table, columns) =>
    from_option (fun e =>
      let declared := Catalog.pushdown_columns (e_handler e) in
      all [Nat.eqb (length declared) (length columns);
           forallb (fun c => bool_decide (c ∈ declared)) columns]) false (find table))
  [("resource_contents", ["uri"]); ("prompt_messages", ["prompt"; "arguments"]);
   ("completions", ["ref"; "argument_name"; "argument_value"])].

Definition insert_row_reads_by_column_name : bool :=
  let spec := spec_of "tool_calls" in
  let input := mkInsertRow spec (set spec (empty_row spec) "tool" (Some (CText "echo"))) in
  all [cell_eq (ir_value input "tool") (Some (CText "echo")); cell_eq (ir_value input "arguments") None;
       cell_eq (ir_value input "no_such_column") None].

(** The host-side tests. *)

Definition LOCAL_SPEC : TableSpec := mkTable "local" [
  mkColumn "alpha" Text ServerIdentity; mkColumn "beta" Jsonb (List "tools/list"); mkColumn "gamma" Int4 Local_].

Definition one_and_a_half : spec_float := S754_finite false 6755399441055744 (-52).
Definition cell_json_projection_rules : bool := all [
  value_eqb (as_json (CText "hi")) (Str "hi");
  value_eqb (as_json (CJson (json "{'a': [1]}"))) (json "{'a': [1]}");
  value_eqb (as_json (CBool false)) (Bool false);
  value_eqb (as_json (CInt4 (-7))) (json "-7");
  value_eqb (as_json (CInt8 i64_min)) (num_of_Z i64_min);
  value_eqb (as_json (CDate "2026-09-06")) (Str "2026-09-06");
  forallb (fun c => value_eqb (as_json c) Null)
    [CBytea [0; 1; 2]; CUuid (replicate 16 0); CTimestampTz 1000];
  value_eqb (as_json (CFloat8 one_and_a_half)) (json "1.5");
  value_eqb (as_json (CFloat8 S754_nan)) Null;
  value_eqb (as_json (CFloat8 (S754_infinity false))) Null].

Definition insert_row_access_rules : bool :=
  let input := mkInsertRow LOCAL_SPEC [Some (CText "present"); None; Some (CInt4 3)] in
  let empty := empty_row LOCAL_SPEC in
  all [cell_eq (ir_value input "alpha") (Some (CText "present")); cell_eq (ir_value input "beta") None;
       cell_eq (ir_value input "gamma") (Some (CInt4 3)); cell_eq (ir_value input "delta") None;
       cell_eq (ir_value input EmptyString) None;
       Nat.eqb (length empty) 3; forallb (fun c => cell_eq c None) empty].

Definition has_column (i : nat) : bool := from_option (fun _ => true) false (column LOCAL_SPEC i).
(** For [usize::MAX] any index past the end stands. *)
Definition spec_index_boundaries : bool := all [
  Nat.eqb (arity LOCAL_SPEC) 3; attno LOCAL_SPEC "alpha" ≟ Some 1%nat; attno LOCAL_SPEC "gamma" ≟ Some 3%nat;
  attno LOCAL_SPEC "delta" ≟ None; attno LOCAL_SPEC "ALPHA" ≟ None; attno LOCAL_SPEC EmptyString ≟ None;
  has_column 0; has_column 2; negb (has_column 3); negb (has_column 1000);
  forallb (fun i => from_option (fun c => attno LOCAL_SPEC (c_name c) ≟ Some (S i)) false (column LOCAL_SPEC i))
    (seq 0 3)].

Definition column_type_sql_names : bool :=
  forallb (fun '(ty, sql) => sql_name ty ≟ sql)
    [(Text, "text"); (Jsonb, "jsonb"); (Boolean, "boolean"); (Int4, "integer"); (Int8, "bigint");
     (Bytea, "bytea"); (Uuid, "uuid"); (TimestampTz, "timestamptz"); (Float8, "double precision");
     (Date, "date")].

Definition scan_context_restricted_values : bool :=
  let quals := [equal "alpha" (Str "a"); any_equal "alpha" [Str "b"; Str "c"];
                equal "beta" (Str "kept-for-beta")] in
  all [jsons_eq (ctx_restricted_values quals "alpha") [Str "a"; Str "b"; Str "c"];
       jsons_eq (ctx_restricted_values quals "beta") [Str "kept-for-beta"];
       jsons_eq (ctx_restricted_values quals "gamma") []].

Definition table_context_option_helpers : bool := all [
  table_ttl_ms [] ≟ None; upstream [] ≟ None; table_option [] "cache_ttl_ms" ≟ None;
  table_ttl_ms [("cache_ttl_ms", "5000")] ≟ Some 5000; table_ttl_ms [("cache_ttl_ms", " 250 ")] ≟ Some 250;
  table_ttl_ms [("cache_ttl_ms", "soon")] ≟ None;
  upstream [("upstream", EmptyString)] ≟ Some EmptyString; upstream [("upstream", "github")] ≟ Some "github";
  cache_key (mkTableContext LOCAL_SPEC "t" Session.Wit.resolved [])
    ≟ (Session.server_oid Session.Wit.resolved, Session.user_oid Session.Wit.resolved)].

(** The tests of tables/mod.rs pass. *)
Example tables_tests_pass : all [
  registry_holds_exactly_the_prd_tables; column_names_are_unique_and_non_empty_per_table;
  tool_tables_carry_their_prd_columns_and_types; type_oids_agree_with_the_sql_spelling;
  unknown_table_names_do_not_resolve; track_b_handlers_declare_exactly_their_prd_pushdown_columns;
  insert_row_reads_by_column_name; cell_json_projection_rules; insert_row_access_rules;
  spec_index_boundaries; column_type_sql_names; scan_context_restricted_values;
  table_context_option_helpers] = true.
Proof. vm_compute. reflexivity. Qed.
End TablesTests.

(** ** tables/catalog.rs: the upstream slices *)

Module ScopeTests.
Import Catalog.

Definition tool_item (name : string) : Value := Object [("name", Str name)].
Definition names (items : list Value) : list string := omap item_name items.

Definition a_named_upstream_keeps_only_its_prefixed_names_and_strips_the_prefix : bool :=
  names (scoped_items "alpha" (tool_item <$> ["alpha.echo"; "alpha.ping"; "beta.add"; "engine_status"]))
  ≟ ["echo"; "ping"].

Definition the_engine_local_slice_keeps_only_unprefixed_names : bool :=
  names (scoped_items EmptyString (tool_item <$> ["alpha.echo"; "beta.add"; "engine_status"]))
  ≟ ["engine_status"].

Definition nameless_items_are_engine_local : bool :=
  let items := [json "{'uri': 'file:///x'}"; tool_item "up.thing"] in
  all [Nat.eqb (length (scoped_items EmptyString items)) 1; names (scoped_items "up" items) ≟ ["thing"]].

Definition a_nested_prefix_belongs_to_its_first_segment : bool :=
  names (scoped_items "weird" [tool_item "weird.dotted.name"; tool_item "weird.plain"])
  ≟ ["dotted.name"; "plain"].

(** The scoping tests of tables/catalog.rs pass. *)
Example scope_tests_pass : all [
  a_named_upstream_keeps_only_its_prefixed_names_and_strips_the_prefix;
  the_engine_local_slice_keeps_only_unprefixed_names; nameless_items_are_engine_local;
  a_nested_prefix_belongs_to_its_first_segment] = true.
Proof. vm_compute. reflexivity. Qed.
End ScopeTests.

(** ** tables/tool_calls.rs: the log *)

Module LogTests.
Import Quals Session ToolCalls.

Definition rec (seed : Z) : CallRecord :=
  mkRecord (replicate 8 0 ++ List.skipn 8 (be16 seed)) ("tool_" +:+ fmt_Z seed) (Object []) None None false None
    seed 1.
Definition log_len (key : SessionKey) (logs : CallLogs) : nat := from_option length 0%nat (logs !! key).
Definition clear_log (key : SessionKey) (logs : CallLogs) : CallLogs := delete key logs.
Definition tool_at (log : list CallRecord) (i : nat) : string := from_option r_tool EmptyString (log !! i).

Definition tool_calls_log_is_capped_at_1000_and_newest_first : bool :=
  let key := (0x7C000001, 42) in
  let logs := foldl (fun logs seed => record key (rec (Z.of_nat seed)) logs) (clear_log key ∅) (seq 0 1010) in
  let snap := snapshot key logs in
  all [Nat.eqb (log_len key logs) 1000; Nat.eqb (length snap) 1000; tool_at snap 0 ≟ "tool_1009";
       tool_at snap 1 ≟ "tool_1008"; tool_at snap 999 ≟ "tool_10"].

Definition tool_calls_log_partitions_per_server_and_user : bool :=
  let a := 0x7C00000A in let b := 0x7C00000B in
  let logs := clear_log (a, 2) (clear_log (b, 1) (clear_log (a, 1) ∅)) in
  let logs := record (a, 2) (rec 4) (record (b, 1) (rec 3) (record (a, 1) (rec 2) (record (a, 1) (rec 1) logs))) in
  all [Nat.eqb (log_len (a, 1) logs) 2; Nat.eqb (log_len (b, 1) logs) 1; Nat.eqb (log_len (a, 2) logs) 1;
       tool_at (snapshot (b, 1) logs) 0 ≟ "tool_3"; tool_at (snapshot (a, 2) logs) 0 ≟ "tool_4"].

Definition log_qual_filter_matches_tool_and_id : bool :=
  let r := rec 7 in
  all [log_entry_matches [] r; log_entry_matches [equal "tool" (Str "tool_7")] r;
       negb (log_entry_matches [equal "tool" (Str "tool_8")] r);
       log_entry_matches [equal "id" (Str (uuid_hex (r_id r)))] r;
       log_entry_matches [any_equal "tool" [Str "x"; Str "tool_7"]] r;
       log_entry_matches [equal "bogus" (Str "x")] r].

(** Two draws of the random source, at two worlds. *)
Definition random_env : PgEnv := {|
  strong_random w := Some (be16 (w_now w * 0x1F3A5C79B2D4E6F8A1C3E5));
  system_micros w := 1788000000000000 + w_now w;
  spi_run _ _ := Ok tt;
  cell_debug _ := EmptyString |}.

Definition uuids_are_v4_and_unique : bool :=
  let a := @uuid_v4 random_env (mkWorld [] 1) in
  let b := @uuid_v4 random_env (mkWorld [] 2) in
  let nth_byte i := default 0 (a !! i) in
  all [a ≠? b; Z.shiftr (nth_byte 6%nat) 4 ≟ 4; Z.shiftr (nth_byte 8%nat) 6 ≟ 2;
       Nat.eqb (String.length (uuid_hex a)) 36].

(** At a wall clock of August 2026. *)
Definition now_pg_micros_is_past_the_pg_epoch_by_decades : bool :=
  800000000000000 <? @now_pg_micros random_env (mkWorld [] 0).

(** The log tests of tables/tool_calls.rs pass. *)
Example log_tests_pass : all [
  tool_calls_log_is_capped_at_1000_and_newest_first; tool_calls_log_partitions_per_server_and_user;
  log_qual_filter_matches_tool_and_id; uuids_are_v4_and_unique;
  now_pg_micros_is_past_the_pg_epoch_by_decades] = true.
Proof. vm_compute. reflexivity. Qed.
End LogTests.

(** ** tables/readthrough.rs *)

Module ReadthroughTests.
Import Options Quals Tables Session Catalog Readthrough Stub.
#[local] Existing Instance json_text.
#[local] Existing Instance Vectors.OptionsTests.simple_url.

Definition restricted_is (quals : list Qual) (want : option (list Value)) : bool :=
  match restricted quals "uri", want with
  | Some l, Some k => jsons_eq l k
  | None, None => true
  | _, _ => false
  end.
Definition restricted_intersects_and_dedupes : bool := all [
  restricted_is [equal "uri" (Str "a"); any_equal "uri" [Str "a"; Str "b"]] (Some [Str "a"]);
  restricted_is [equal "uri" (Str "a"); equal "uri" (Str "b")] (Some []);
  restricted_is [any_equal "uri" [Str "a"; Str "a"; Str "b"]] (Some [Str "a"; Str "b"]);
  restricted_is [equal "prompt" (Str "x")] None;
  restricted_is [any_equal "uri" []] (Some [])].

Definition base64_decode_round_trips : bool := all [
  base64_decode EmptyString ≟ Some []; base64_decode "aGVsbG8=" ≟ Some (bytes "hello");
  base64_decode "aGVsbG8h" ≟ Some (bytes "hello!"); base64_decode "aGVsbG8hIQ==" ≟ Some (bytes "hello!!");
  base64_decode ("aGVs" +:+ nl +:+ "bG8=") ≟ Some (bytes "hello"); base64_decode "aGVsbG8" ≟ Some (bytes "hello");
  base64_decode "a$b=" ≟ None; base64_decode "a" ≟ None].

(** *** Scans against a stub *)

Definition stub_url : string := "http://127.0.0.1:4010/mcp".
Definition resolved_for (u : string) : option Resolved :=
  match ServerOptions_parse [("url", u); ("auth", "none")] with
  | Ok o => Some (mkResolved InvalidOid 10 o None)
  | Err _ => None
  end.
Definition with_cap (cap : Z) (r : Resolved) : Resolved :=
  let o := options r in
  mkResolved (server_oid r) (user_oid r)
    (mkServerOptions (so_url o) (so_mode o) (so_timeout_ms o) (so_auth o) cap (so_audit_table o) (so_cache_ttl_ms o))
    (rbearer r).

Definition ctx_for (entry_name : string) (r : Resolved) (quals : list Qual) : option ScanContext :=
  entry ← find entry_name; Some (mkScanContext (mkTableContext (e_spec entry) "stub" r []) quals).

Abbreviation RT := (M (Sessions unit) string).

Section run.
Variable server : Server.
#[local] Instance net : Net := loopback [(stub_url, server)].

Definition scan_of (h : Handler) : ScanContext → M (Sessions unit) CtxError (list Row) :=
  match h with
  | RESOURCE_CONTENTS_TABLE => resource_contents_rows
  | PROMPT_MESSAGES_TABLE => prompt_messages_rows
  | _ => completions_rows
  end.

(** Read a buffered cursor to its end. *)
Definition drain (fuel : nat) (c : BufferedCursor) : list Row :=
  match (read fuel c).1 with Ok rows => omap (fun row => row) rows | Err _ => [] end.

Definition rows_of (entry_name : string) (r : Resolved) (quals : list Qual) : RT (list Row) := fun st =>
  match find entry_name, ctx_for entry_name r quals with
  | Some entry, Some ctx =>
      match begin_scan (scan_of (e_handler entry)) ctx st with
      | (Ok c, st') => (Ok (drain (S (length (bc_rows c))) c), st')
      | (Err _, st') => (Err "begin_scan raised", st')
      end
  | _, _ => (Err "no such table", st)
  end.

Definition err_of (entry_name : string) (r : Resolved) (quals : list Qual) : RT CtxError := fun st =>
  match find entry_name, ctx_for entry_name r quals with
  | Some entry, Some ctx => expect_err (scan_of (e_handler entry) ctx) st
  | _, _ => (Err "no such table", st)
  end.

Definition hits_of (method : string) : RT nat := fun st => (Ok (hits stub_url method (world st)), st).
Definition seen (method : string) : RT (list Value) := fun st => (Ok (requests stub_url method (world st)), st).
Definition stub_resolved (u : string) : RT Resolved := m_lift (ok_or "bad options" (resolved_for u)).
Definition runs (m : RT bool) : bool := verdict m (mkSessions ∅ (mkWorld [] 0) tt).
End run.

(** [cell(spec, row, column)], and the absence of a value. *)
Definition cell_is (table : string) (rows : list Row) (i : nat) (column : string) (want : option Cell) : bool :=
  from_option (fun entry =>
    match rows !! i, attno (e_spec entry) column with
    | Some row, Some a => cell_eq (mjoin (row !! (a - 1)%nat)) want
    | _, _ => false
    end) false (find table).

Definition unexpected : Routed := Refuse (-32601) "unexpected".
Definition answer_json (s : string) : Routed := Answer (json s).

Definition two_files (method : string) (params : Value) : Routed :=
  if bool_decide (method = "resources/read") then
    if bool_decide (get params "uri" ≫= as_str = Some "file:///a") then
      answer_json "{'contents': [{'uri': 'file:///a', 'mimeType': 'text/plain', 'text': 'alpha'}, {'uri': 'file:///a', 'mimeType': 'application/octet-stream', 'blob': 'AAEC'}]}"
    else answer_json "{'contents': [{'uri': 'file:///b', 'mimeType': 'text/plain', 'text': 'beta'}]}"
  else unexpected.

Definition resource_contents_reads_once_per_distinct_uri : bool :=
  let server := stub_with two_files in
  let cell := cell_is "resource_contents" in
  runs (
    r ← stub_resolved stub_url;
    rows ← rows_of server "resource_contents" r
             [any_equal "uri" [Str "file:///a"; Str "file:///a"; Str "file:///b"]];
    reads ← hits_of "resources/read";
    lists ← hits_of "resources/list";
    mret (all [
      Nat.eqb reads 2; Nat.eqb lists 0; Nat.eqb (length rows) 3;
      cell rows 0%nat "uri" (Some (CText "file:///a")); cell rows 0%nat "idx" (Some (CInt4 0));
      cell rows 0%nat "mime_type" (Some (CText "text/plain")); cell rows 0%nat "text" (Some (CText "alpha"));
      cell rows 0%nat "blob" None;
      cell rows 1%nat "idx" (Some (CInt4 1)); cell rows 1%nat "blob" (Some (CBytea [0; 1; 2]));
      cell rows 1%nat "text" None;
      cell rows 2%nat "uri" (Some (CText "file:///b")); cell rows 2%nat "idx" (Some (CInt4 0))])).

Definition resource_contents_meta_and_empty_any : bool :=
  let server := stub_with (fun method _ =>
    if bool_decide (method = "resources/read") then
      answer_json "{'contents': [{'uri': 'file:///a', 'mimeType': 'text/plain', 'text': 'x', '_meta': {'tag': 't'}}]}"
    else unexpected) in
  runs (
    r ← stub_resolved stub_url;
    none ← rows_of server "resource_contents" r [any_equal "uri" []];
    before ← hits_of "resources/read";
    rows ← rows_of server "resource_contents" r [equal "uri" (Str "file:///a")];
    mret (all [Nat.eqb (length none) 0; Nat.eqb before 0; Nat.eqb (length rows) 1;
               cell_is "resource_contents" rows 0 "meta" (Some (CJson (json "{'tag': 't'}")))])).

(** Nothing listens at this url. *)
Definition nowhere : string := "http://127.0.0.1:1/mcp".
Definition idle : Server := stub_with (fun _ _ => unexpected).
Definition context_says (c part : string) (method : string) (e : CtxError) : bool :=
  all [code c (ce_error e); says part (ce_error e); ce_method e ≟ method].

Definition unqualified_resource_contents_cap_zero_message_is_verbatim : bool :=
  runs (
    r ← stub_resolved nowhere;
    e ← err_of idle "resource_contents" r [];
    mret (all [code "0A000" (ce_error e); ce_method e ≟ "resources/list";
      message (ce_error e) ≟ "unqualified scan of mcp.resource_contents requires a uri qual or max_unqualified_reads > 0"])).

Definition unqualified_resource_contents_honors_the_cap_boundary : bool :=
  let server := stub_with (fun method _ =>
    if bool_decide (method = "resources/list") then
      answer_json "{'resources': [{'uri': 'file:///a'}, {'uri': 'file:///b'}]}"
    else if bool_decide (method = "resources/read") then
      answer_json "{'contents': [{'uri': 'file:///x', 'mimeType': 'text/plain', 'text': 't'}]}"
    else unexpected) in
  runs (
    r ← stub_resolved stub_url;
    rows ← rows_of server "resource_contents" (with_cap 2 r) [];
    lists ← hits_of "resources/list";
    reads ← hits_of "resources/read";
    e ← err_of server "resource_contents" (with_cap 1 r) [];
    mret (all [Nat.eqb lists 1; Nat.eqb reads 2; Nat.eqb (length rows) 2;
               code "54023" (ce_error e); says "max_unqualified_reads = 1" (ce_error e)])).

Definition prompt_messages_requires_a_prompt_qual : bool :=
  runs (
    r ← stub_resolved nowhere;
    e ← err_of idle "prompt_messages" r [];
    rows ← rows_of idle "prompt_messages" r [any_equal "prompt" []];
    mret (context_says "0A000" "prompt" "prompts/get" e && Nat.eqb (length rows) 0)).

Definition summarize (method : string) (params : Value) : Routed :=
  if bool_decide (method = "prompts/get") then
    if bool_decide (get params "name" ≫= as_str = Some "summarize")
       && opt_json_eq (get params "arguments") (Some (json "{'style': 'terse'}")) then
      answer_json "{'description': 'Summarize tersely', 'messages': [{'role': 'user', 'content': {'type': 'text', 'text': 'summarize this'}}, {'role': 'assistant', 'content': {'type': 'text', 'text': 'ok'}}]}"
    else answer_json "{'messages': []}"
  else unexpected.

Definition prompt_messages_returns_messages_in_order : bool :=
  let server := stub_with summarize in
  let cell := cell_is "prompt_messages" in
  runs (
    r ← stub_resolved stub_url;
    rows ← rows_of server "prompt_messages" r
             [equal "prompt" (Str "summarize"); equal "arguments" (json "{'style': 'terse'}")];
    n ← hits_of "prompts/get";
    sent ← seen "prompts/get";
    mret (all [
      Nat.eqb n 1; Nat.eqb (length rows) 2;
      opt_json_eq (head sent) (Some (json "{'name': 'summarize', 'arguments': {'style': 'terse'}}"));
      forallb (fun i => all [
        cell rows i "idx" (Some (CInt4 (Z.of_nat i))); cell rows i "prompt" (Some (CText "summarize"));
        cell rows i "arguments" (Some (CJson (json "{'style': 'terse'}")));
        cell rows i "description" (Some (CText "Summarize tersely"))]) [0; 1]%nat;
      cell rows 0%nat "role" (Some (CText "user")); cell rows 0%nat "content_type" (Some (CText "text"));
      cell rows 0%nat "text" (Some (CText "summarize this"));
      cell rows 0%nat "content" (Some (CJson (json "{'type': 'text', 'text': 'summarize this'}")));
      cell rows 1%nat "role" (Some (CText "assistant"))])).

Definition prompt_messages_defaults_arguments_to_empty_object : bool :=
  let server := stub_with (fun _ _ => answer_json "{'messages': []}") in
  runs (
    r ← stub_resolved stub_url;
    rows ← rows_of server "prompt_messages" r [equal "prompt" (Str "summarize")];
    sent ← seen "prompts/get";
    mret (Nat.eqb (length rows) 0
          && opt_json_eq (head sent ≫= fun p => get p "arguments") (Some (json "{}")))).

Definition ref_s : Qual := equal "ref" (json "{'type': 'ref/prompt', 'name': 's'}").
Definition topic : Qual := equal "argument_name" (Str "topic").

Definition completions_names_each_missing_qual : bool :=
  forallb (fun '(quals, missing) =>
    runs (r ← stub_resolved nowhere;
          e ← err_of idle "completions" r quals;
          mret (context_says "0A000" missing "completion/complete" e)))
    [([], "ref"); ([ref_s], "argument_name"); ([ref_s; topic], "argument_value")]
  && runs (r ← stub_resolved nowhere;
           rows ← rows_of idle "completions" r [ref_s; topic; any_equal "argument_value" []];
           mret (Nat.eqb (length rows) 0)).

Definition candidates (method : string) (params : Value) : Routed :=
  if bool_decide (method = "completion/complete") then
    let value := default EmptyString (pointer2 params "argument" "value" ≫= as_str) in
    Answer (Object [("completion", Object
      [("values", Array [Str (value +:+ "-1"); Str (value +:+ "-2")]); ("total", json "2");
       ("hasMore", Bool false)])])
  else unexpected.

Definition completions_returns_candidates_with_idx_total_has_more : bool :=
  let server := stub_with candidates in
  let cell := cell_is "completions" in
  let ref := json "{'type': 'ref/prompt', 'name': 'summarize'}" in
  runs (
    r ← stub_resolved stub_url;
    rows ← rows_of server "completions" r
             [equal "ref" ref; equal "argument_name" (Str "topic"); equal "argument_value" (Str EmptyString)];
    n ← hits_of "completion/complete";
    sent ← seen "completion/complete";
    mret (all [
      Nat.eqb n 1;
      opt_json_eq (head sent)
        (Some (Object [("ref", ref); ("argument", json "{'name': 'topic', 'value': ''}")]));
      Nat.eqb (length rows) 2;
      forallb (fun i => all [
        cell rows i "idx" (Some (CInt4 (Z.of_nat i))); cell rows i "total" (Some (CInt4 2));
        cell rows i "has_more" (Some (CBool false)); cell rows i "argument_name" (Some (CText "topic"));
        cell rows i "argument_value" (Some (CText EmptyString)); cell rows i "ref" (Some (CJson ref))]) [0; 1]%nat;
      cell rows 0%nat "value" (Some (CText "-1")); cell rows 1%nat "value" (Some (CText "-2"))])).

(** The handler tests of tables/readthrough.rs pass. *)
Example readthrough_tests_pass : all [
  restricted_intersects_and_dedupes; base64_decode_round_trips;
  resource_contents_reads_once_per_distinct_uri; resource_contents_meta_and_empty_any;
  unqualified_resource_contents_cap_zero_message_is_verbatim;
  unqualified_resource_contents_honors_the_cap_boundary; prompt_messages_requires_a_prompt_qual;
  prompt_messages_returns_messages_in_order; prompt_messages_defaults_arguments_to_empty_object;
  completions_names_each_missing_qual; completions_returns_candidates_with_idx_total_has_more] = true.
Proof. vm_compute. reflexivity. Qed.
End ReadthroughTests.
