(* ===== verification/PropTests.v ===== *)
(** * The randomized tests, proved for every input of their strategies

    The repository samples these properties with generated inputs.  Each is
    written here as the boolean its assertions compute on one input, next to the
    strategy that draws the input, and proved [true] for every input the strategy
    can draw.  So is a test of the event-stream reader over an input that arrives
    in pieces, for every way of cutting the stream. *)

From Stdlib Require Import Ascii String ZArith Lia.
From stdpp Require Import base numbers gmap sets strings pretty list.
From S2P Require Import Prelude Str Json JsonText Errors Sse Sha256 Ident Tables Codegen.
From S2P Require Import Vectors VectorsCodegen.
Import Assert.
#[local] Open Scope Z_scope.

(** [all] and its parts, as the proofs use them. *)
Lemma all_true (l : list bool) : Forall (fun b => b = true) l → all l = true.
Proof. induction 1 as [|b l -> _ IH]; [done|exact IH]. Qed.

Lemma eq_true {A} `{EqDecision A} (x y : A) : x = y → (x ≟ y) = true.
Proof. apply bool_decide_true. Qed.

Lemma forallb_true {A} (p : A → bool) l : Forall (fun x => p x = true) l → forallb p l = true.
Proof. induction 1 as [|x l Hx _ IH]; [done|]. cbn [forallb]. by rewrite Hx, IH. Qed.

Ltac assertions := apply all_true; repeat apply Forall_cons_2; [..|apply Forall_nil_2].

(** ** codegen/ident.rs *)

Module IdentProps.
Import Sha256 Ident IdentTests.

(** The strategies: names of up to 159 characters of any kind, prefixes of up to
    seven letters and digits. *)
Definition any_name (bound : nat) (name : string) : bool := Nat.ltb (length (chars name)) bound.
Definition some_prefix (p : string) : bool :=
  Nat.ltb (String.length p) 8 && forallb keep (bytes p) && negb (leading_digit p).
(** Names of 64 to 199 ASCII letters. *)
Definition long_name (name : string) : bool :=
  Nat.leb 64 (String.length name) && Nat.ltb (String.length name) 200
  && forallb is_ascii_alphabetic (bytes name).
(** Up to 23 distinct names of one to eleven lower-case letters. *)
Definition distinct_names (names : list string) : bool :=
  Nat.leb 1 (length names) && Nat.ltb (length names) 24 && bool_decide (NoDup names)
  && forallb (fun n => Nat.leb 1 (String.length n) && Nat.ltb (String.length n) 12
                       && forallb is_ascii_lowercase (bytes n)) names.

Section props.
Context `{Unicode}.

Definition arbitrary_names_always_produce_valid_identifiers
    (name : string) (prefix : option string) : bool :=
  let prefix := default EmptyString prefix in
  let derived := derive name prefix in
  all [
    assert_valid_identifier derived;
    is_empty prefix || starts_with prefix derived;
    derive name prefix ≟ derived].

Definition long_names_always_truncate_to_the_sixty_three_byte_shape (name : string) : bool :=
  let derived := derive name EmptyString in
  let head := str_take 55 derived in
  let tail := str_drop 55 derived in
  all [
    Nat.eqb (String.length derived) 63;
    str_take 1 tail ≟ "_";
    forallb lower_hex (bytes (str_drop 1 tail));
    str_drop 1 tail ≟ sha256_hex7 (bytes (derive_base name));
    forallb (fun b => is_ascii_lowercase b || (b =? 95)) (bytes head)].

Definition dedup_always_resolves_collisions_distinctly (names : list string) : bool :=
  match dedup names EmptyString with
  | Some out => all [
      Nat.eqb (length out) (length names);
      forallb assert_valid_identifier out.*2;
      bool_decide (NoDup out.*2);
      dedup names EmptyString ≟ Some out]
  | None => false
  end.

Definition sha_suffix_is_seven_lowercase_hex_and_deterministic (name : string) : bool :=
  let a := sha_suffix name in
  let b := sha_suffix name in
  all [a ≟ b; Nat.eqb (String.length a) 7; forallb lower_hex (bytes a)].

(** *** The proofs *)

Lemma fragment_valid sql :
  fragment sql → (String.length sql ≤ MAX_BYTES)%nat → assert_valid_identifier sql = true.
Proof.
  intros [Hc Hd] Hl. unfold assert_valid_identifier. assertions.
  - by apply Nat.leb_le.
  - apply forallb_true. eapply Forall_impl; [exact Hc|]. intros b. unfold ident_byte, keep, in_class.
    intros [-> | ->]; [done|]. by rewrite orb_true_r.
  - apply orb_true_iff. right. unfold leading_digit. destruct (bytes sql); [done|by rewrite Hd].
Qed.

Lemma hex_digit_lower n : 0 <= n < 16 → lower_hex (hex_digit n) = true ∧ 0 <= hex_digit n < 256.
Proof.
  intros Hn. unfold hex_digit, lower_hex, is_ascii_digit, in_range.
  destruct (Z.ltb_spec n 10); (split; [|lia]); apply orb_true_iff; [left|right];
    apply andb_true_iff; rewrite !Z.leb_le; lia.
Qed.

Lemma hex_lower l :
  Forall (fun b => 0 <= b < 256) l →
  Forall (fun b => lower_hex b = true) (bytes (Str.concat (hex2 <$> l))).
Proof.
  induction 1 as [|b l Hb _ IH]; [constructor|]. unfold Str.concat. cbn [fmap list_fmap foldr].
  rewrite bytes_app. apply Forall_app. split; [|exact IH]. unfold hex2.
  destruct (hex_digit_lower (b / 16)) as [Hq ?];
    [split; [apply Z.div_pos|apply Z.div_lt_upper_bound]; lia|].
  destruct (hex_digit_lower (b mod 16)) as [Hm ?]; [apply Z.mod_pos_bound; lia|].
  rewrite bytes_of_bytes; by repeat (apply Forall_cons_2 || apply Forall_nil_2).
Qed.

Lemma hex7_lower_hex msg : forallb lower_hex (bytes (sha256_hex7 msg)) = true.
Proof.
  apply forallb_true. unfold sha256_hex7. rewrite bytes_str_take.
  apply Forall_take, hex_lower, Forall_take, sha256_shape.
Qed.

Lemma str_take_app n s t :
  (String.length s ≤ n)%nat → str_take n (s +:+ t) = s +:+ str_take (n - String.length s) t.
Proof.
  revert n. induction s as [|c s IH]; intros n Hl; cbn [String.length] in Hl |- *.
  - by rewrite Nat.sub_0_r.
  - destruct n as [|n]; [lia|]. rewrite !app_string_cons. cbn [str_take Nat.sub].
    by rewrite IH by lia.
Qed.

Lemma str_drop_app n s t : String.length s = n → str_drop n (s +:+ t) = t.
Proof.
  intros <-. induction s as [|c s IH]; [by destruct t|]. rewrite app_string_cons. exact IH.
Qed.

(** A prefix of at most 55 bytes survives the truncation. *)
Lemma derive_starts_with name prefix :
  (String.length prefix ≤ TRUNCATE_BYTES)%nat → starts_with prefix (derive name prefix) = true.
Proof.
  intros Hl. apply starts_with_spec. unfold derive.
  assert ((if is_empty prefix then derive_base name else prefix +:+ derive_base name)
          = prefix +:+ derive_base name) as ->.
  { unfold is_empty. case_bool_decide as He; [by rewrite He|done]. }
  destruct (Nat.ltb _ _); [|eauto].
  rewrite str_take_app, app_string_assoc by done. eauto.
Qed.

(** *** Names of letters *)

(** The characters [derive_base] keeps, in order. *)
Definition kept (l : list Z) : list Z := filter (fun c => keep c = true) l.

Lemma kept_cons_sep l : kept (underscore :: l) = kept l.
Proof. done. Qed.

Lemma kept_drop l : kept (drop_while is_underscore l) = kept l.
Proof.
  induction l as [|c l IH]; [done|]. cbn [drop_while]. destruct (is_underscore c) eqn:Hu; [|done].
  apply Z.eqb_eq in Hu as ->. by rewrite kept_cons_sep.
Qed.

Lemma kept_trim l : kept (trim_end_with is_underscore l) ≡ₚ kept l.
Proof.
  unfold trim_end_with. unfold kept. rewrite reverse_Permutation.
  change (kept (drop_while is_underscore (reverse l)) ≡ₚ kept l). rewrite kept_drop.
  unfold kept. by rewrite reverse_Permutation.
Qed.

Lemma kept_sep_go lu oe cs : kept (sep_go lu oe cs) = kept cs.
Proof.
  unfold kept. revert lu oe. induction cs as [|c cs IH]; intros lu oe; [done|]. cbn [sep_go].
  destruct (keep c) eqn:Hk.
  - by rewrite !filter_cons_True, IH by done.
  - rewrite (filter_cons_False _ c) by by rewrite Hk.
    destruct (_ && _); [|apply IH]. rewrite filter_cons_False by done. apply IH.
Qed.

Lemma kept_derive cs : kept (derive_base_bytes cs) ≡ₚ kept cs.
Proof.
  assert (kept (trim_end_with is_underscore (drop_while is_underscore (sep_go false true cs)))
          ≡ₚ kept cs) as Hk by by rewrite kept_trim, kept_drop, kept_sep_go.
  unfold derive_base_bytes. destruct (trim_end_with _ _) as [|c l]; [done|].
  by destruct (is_ascii_digit c).
Qed.

Definition lower_or_sep (b : Z) : Prop := is_ascii_lowercase b || (b =? 95) = true.

Lemma sep_go_lower lu oe cs : Forall lower_or_sep cs → Forall lower_or_sep (sep_go lu oe cs).
Proof.
  intros Hc. revert lu oe. induction Hc as [|c cs Hc _ IH]; intros lu oe; cbn [sep_go]; [constructor|].
  destruct (keep c); [by constructor|]. destruct (_ && _); [by constructor|done].
Qed.

Lemma derive_base_lower cs : Forall lower_or_sep cs → Forall lower_or_sep (derive_base_bytes cs).
Proof.
  intros Hc. unfold derive_base_bytes.
  assert (Forall lower_or_sep (trim_end_with is_underscore
            (drop_while is_underscore (sep_go false true cs)))) as Hl
    by by apply trim_end_Forall, drop_while_Forall, sep_go_lower.
  destruct (trim_end_with _ _) as [|c l]; [done|].
  destruct (is_ascii_digit c); [by constructor|done].
Qed.

(** Lower-casing the split of a name of letters: its letters lower-cased, with
    separators between some of them. *)
Lemma split_letters prev cs :
  Forall (fun c => is_ascii_alphabetic c = true) cs →
  Forall (fun c => 0 <= c < 128) (split_go prev cs) ∧
  Forall lower_or_sep (map ascii_lower (split_go prev cs)) ∧
  length (kept (map ascii_lower (split_go prev cs))) = length cs.
Proof.
  intros Hc. revert prev. induction Hc as [|c cs Hc _ IH]; intros prev; [by repeat constructor|].
  cbn [split_go]. set (sep := match prev with Some _ => _ | None => _ end).
  assert (sep = [] ∨ sep = [underscore]) as Hsep
    by (subst sep; destruct prev; [destruct (boundary _ _ _)|]; auto). clearbody sep.
  destruct (IH (Some c)) as (Ha & Hl & Hn).
  assert (0 <= c < 128 ∧ is_ascii_lowercase (ascii_lower c) = true) as [Hr Hlow].
  { revert Hc. unfold is_ascii_alphabetic, ascii_lower, is_ascii_lowercase, is_ascii_uppercase, in_range.
    destruct (Z.leb_spec 65 c), (Z.leb_spec c 90), (Z.leb_spec 97 c), (Z.leb_spec c 122); cbn;
      rewrite ?andb_true_iff, ?Z.leb_le; intros; try done; lia. }
  assert (Forall lower_or_sep (map ascii_lower (c :: split_go (Some c) cs)) ∧
          length (kept (map ascii_lower (c :: split_go (Some c) cs))) = S (length cs)) as [H1l H1n].
  { cbn [map]. split; [constructor; [unfold lower_or_sep; by rewrite Hlow|done]|].
    unfold kept. rewrite filter_cons_True by (unfold keep; by rewrite Hlow).
    cbn [length]. f_equal. exact Hn. }
  destruct Hsep as [-> | ->]; cbn [app].
  - split_and!; [by constructor|exact H1l|exact H1n].
  - split_and!; [constructor; [done|by constructor]|by constructor|exact H1n].
Qed.
Theorem arbitrary_names_hold (name : string) (prefix : option string) :
  any_name 160 name = true → from_option some_prefix true prefix = true →
  arbitrary_names_always_produce_valid_identifiers name prefix = true.
Proof.
  intros _ Hp. unfold arbitrary_names_always_produce_valid_identifiers.
  set (p := default EmptyString prefix).
  assert (some_prefix p = true) as Hs by (by subst p; destruct prefix). clearbody p.
  unfold some_prefix in Hs. apply andb_true_iff in Hs as [[Hl%Nat.ltb_lt Hk]%andb_true_iff Hd].
  assert (fragment p) as Hf.
  { split; [|unfold leading_digit in Hd; destruct (bytes p); [done|by apply negb_true_iff]].
    apply Forall_forall. intros b Hb. left. rewrite forallb_forall in Hk.
    by apply Hk, list_elem_of_In. }
  destruct (derive_fragment name p Hf) as [Hv Hm]. assertions.
  - by apply fragment_valid.
  - apply orb_true_iff. right. apply derive_starts_with. unfold TRUNCATE_BYTES. lia.
  - by apply eq_true.
Qed.

Theorem sha_suffix_holds (name : string) :
  any_name 64 name = true → sha_suffix_is_seven_lowercase_hex_and_deterministic name = true.
Proof.
  intros _. assertions; [by apply eq_true| |apply hex7_lower_hex].
  apply Nat.eqb_eq, sha256_hex7_shape.
Qed.

Theorem dedup_holds (names : list string) :
  distinct_names names = true → dedup_always_resolves_collisions_distinctly names = true.
Proof.
  unfold distinct_names. intros [[[_ Hl%Nat.ltb_lt]%andb_true_iff _]%andb_true_iff _]%andb_true_iff.
  unfold dedup_always_resolves_collisions_distinctly.
  destruct (dedup_spec names EmptyString) as (out & -> & Hn & Hd & Hv & _); [by split|lia|].
  assertions.
  - apply Nat.eqb_eq. by rewrite <- Hn, length_fmap.
  - apply forallb_true. eapply Forall_impl; [exact Hv|]. intros c [Hf Hm]. by apply fragment_valid.
  - by apply bool_decide_true.
  - by apply eq_true.
Qed.
End props.

(** The base of a name of letters: lower-case letters and separators, at least as
    long as the name. *)
Lemma derive_base_letters `{UnicodeAscii} name :
  Forall (fun b => is_ascii_alphabetic b = true) (bytes name) →
  Forall lower_or_sep (bytes (derive_base name)) ∧
  (String.length name ≤ String.length (derive_base name))%nat.
Proof.
  intros Ha. destruct (split_letters None (bytes name) Ha) as (Hr & Hl & Hn).
  set (l := split_go None (bytes name)) in *.
  assert (Forall (fun b => b < 128) l) as Hlt by (eapply Forall_impl; [exact Hr|]; cbn; lia).
  assert (bytes (of_bytes l) = l) as Hbl
    by (apply bytes_of_bytes; eapply Forall_impl; [exact Hr|]; cbn; lia).
  assert (Forall (fun b => 0 <= b < 128) (map ascii_lower l)) as Hm.
  { apply Forall_map. eapply Forall_impl; [exact Hr|]. intros b Hb. cbn in Hb. unfold ascii_lower.
    unfold is_ascii_uppercase, in_range.
    destruct (Z.leb_spec 65 b), (Z.leb_spec b 90); cbn; lia. }
  assert (bytes (of_bytes (map ascii_lower l)) = map ascii_lower l) as Hbm
    by (apply bytes_of_bytes; eapply Forall_impl; [exact Hm|]; cbn; lia).
  assert (derive_base name = of_bytes (derive_base_bytes (map ascii_lower l))) as ->.
  { unfold derive_base, split_case_boundaries.
    rewrite (chars_bytes name); [|right; eapply Forall_impl; [exact Ha|]];
      [|unfold is_ascii_alphabetic, is_ascii_lowercase, is_ascii_uppercase, in_range; intros b Hb;
        bool_prop; destruct Hb; bool_prop; lia].
    fold l. rewrite utf8_ascii by done. rewrite to_lowercase_ascii by by rewrite Hbl.
    unfold to_ascii_lowercase. rewrite Hbl, chars_bytes; rewrite Hbm; [done|].
    right. eapply Forall_impl; [exact Hm|]; cbn; lia. }
  destruct (derive_base_bytes_fragment (map ascii_lower l)) as [Hf _].
  rewrite bytes_of_bytes by (eapply Forall_impl; [exact Hf|]; intros b ?%ident_byte_range; lia).
  split; [by apply derive_base_lower|].
  rewrite length_of_bytes, <- length_bytes, <- Hn, <- kept_derive. apply length_filter.
Qed.

Theorem long_names_hold `{UnicodeAscii} (name : string) :
  long_name name = true → long_names_always_truncate_to_the_sixty_three_byte_shape name = true.
Proof.
  unfold long_name. intros [[H64%Nat.leb_le _]%andb_true_iff Ha]%andb_true_iff.
  destruct (derive_base_letters name) as [Hc Hl].
  { apply Forall_forall. intros b Hb. rewrite forallb_forall in Ha. by apply Ha, list_elem_of_In. }
  unfold long_names_always_truncate_to_the_sixty_three_byte_shape, derive.
  change (is_empty EmptyString) with true. cbn match.
  rewrite (proj2 (Nat.ltb_lt MAX_BYTES _)) by (unfold MAX_BYTES; lia).
  set (h := sha256_hex7 (bytes (derive_base name))).
  assert (String.length (str_take 55 (derive_base name)) = 55%nat) as H55
    by (rewrite length_str_take; lia).
  unfold TRUNCATE_BYTES.
  set (hd := str_take 55 (derive_base name)) in *.
  rewrite (str_drop_app 55 hd), (str_take_app 55 hd), H55 by (by rewrite ?H55).
  change (str_take (55 - 55) ("_" +:+ h)) with EmptyString. rewrite app_string_nil_r.
  change (str_drop 1 ("_" +:+ h)) with h.
  assertions.
  - apply Nat.eqb_eq. rewrite !length_app_string, H55. subst h. by rewrite length_hex7.
  - done.
  - apply hex7_lower_hex.
  - by apply eq_true.
  - apply forallb_true. subst hd. rewrite bytes_str_take. by apply Forall_take.
Qed.
End IdentProps.

(** ** codegen/types.rs *)

Module TypesProps.
Import Tables Codegen TypesTests.
#[local] Existing Instance json_text.

(** [assert_total]: one answer, among the ten types of the enumeration. *)
Definition assert_total (v : Value) : bool :=
  let a := map_type v in
  let b := map_type v in
  (a ≟ b) && match a with
             | Text | Jsonb | Boolean | Int4 | Int8 | Bytea | Uuid | TimestampTz | Float8 | Date => true
             end.

Definition the_type_map_is_total_and_deterministic_over_arbitrary_json : bool :=
  forallb (fun raw => assert_total (json raw)) [
    "null"; "true"; "false"; "0"; "-1.5e3"; "'string'"; "[]"; "{'type':null}"; "{'type':{}}";
    "{'TYPE':'string'}"; "{'$ref':'#/a','type':'string'}"; "{'allOf':[],'anyOf':[],'oneOf':[]}";
    "{'type':'string','oneOf':[{'type':'integer'}]}"; "{'type':'STRING'}"; "{'type':''}";
    "{'type':['string','null','null']}"; "{'format':'date-time'}"; "{'properties':null}"].

(** The schema the strategies assemble, key by key. *)
Definition generated_schema (type_name format composition : option string) (as_union : bool)
    (extra : string) : list (string * Value) :=
  let schema := [] in
  let schema := match type_name with
                | Some t => obj_insert "type"
                    (if as_union then Array [Str t; Str "null"] else Str t) schema
                | None => schema
                end in
  let schema := match format with
                | Some f => obj_insert "format" (Str f) schema
                | None => schema
                end in
  let schema := match composition with
                | Some c => obj_insert c (Array [Object [("type", Str "string")]]) schema
                | None => schema
                end in
  obj_insert extra Null schema.

Definition generated_schemas_always_map_to_a_declared_type
    (type_name format composition : option string) (as_union : bool) (extra : string) : bool :=
  let schema := generated_schema type_name format composition as_union extra in
  let mapped := map_type (Object schema) in
  let again := map_type (Object schema) in
  all [
    mapped ≟ again;
    match mapped with
    | Text | Jsonb | Boolean | Int8 | Float8 | TimestampTz | Date | Uuid => true
    | _ => false
    end].

(** Whatever the value: the map gives no [int4] and no [bytea], which only the
    fixed tables have. *)
Lemma map_named_type_declared t schema :
  map_named_type t schema ≠ Int4 ∧ map_named_type t schema ≠ Bytea.
Proof. unfold map_named_type. by repeat case_match. Qed.

Lemma map_type_declared v : map_type v ≠ Int4 ∧ map_type v ≠ Bytea.
Proof. unfold map_type. repeat case_match; try done; apply map_named_type_declared. Qed.

Example the_type_map_is_total : the_type_map_is_total_and_deterministic_over_arbitrary_json = true.
Proof. vm_compute. reflexivity. Qed.

Theorem generated_schemas_hold type_name format composition as_union extra :
  generated_schemas_always_map_to_a_declared_type type_name format composition as_union extra = true.
Proof.
  unfold generated_schemas_always_map_to_a_declared_type.
  destruct (map_type_declared (Object (generated_schema type_name format composition as_union extra)))
    as [Hi Hb].
  assertions; [by apply eq_true|]. by destruct (map_type _).
Qed.
End TypesProps.

(** ** codegen/mod.rs *)

Module PlanProps.
Import Tables Codegen.

(** One draw of the tool strategy: the characters of the name, whether the
    schema is an object, which output schema there is and whether the tool is
    annotated. *)
Record Draw : Type := mkDraw {
  name_chars : list (string * string);
  valid_schema : bool;
  draw_output : option bool;
  annotate : option bool;
}.

Definition draw_name (d : Draw) : string := Str.concat ((fun '(a, b) => a +:+ b) <$> name_chars d).

Definition generated_tool (d : Draw) : Value :=
  let input_schema :=
    if valid_schema d
    then Object [("type", Str "object"); ("properties", Object [("q", Object [("type", Str "string")])]);
                 ("required", Array [Str "q"])]
    else Str "not an object schema" in
  let t := [("name", Str (draw_name d)); ("inputSchema", input_schema)] in
  let t := match draw_output d with
           | Some has_output =>
               obj_insert "outputSchema"
                 (if has_output
                  then Object [("type", Str "object"); ("properties", Object [("rows",
                         Object [("type", Str "array"); ("items", Object [("type", Str "object");
                           ("properties", Object [("id", Object [("type", Str "string")])])])])])]
                  else Object [("type", Str "object");
                               ("properties", Object [("total", Object [("type", Str "integer")])])]) t
           | None => t
           end in
  let t := if bool_decide (annotate d = Some true)
           then obj_insert "annotations" (Object [("readOnlyHint", Bool true)]) t else t in
  Object t.

Section props.
Context `{Serde, Unicode} {profile : Build}.

Definition gate_table (gate : InvokeOnSelect) (t : PlannedTool) : bool :=
  match gate with
  | ReadOnly => invoke_on_select t ≟ read_only t
  | All => invoke_on_select t
  | NoInvoke => negb (invoke_on_select t)
  end.

Definition planning_is_total_and_well_shaped (draws : list Draw) (prefix : option string)
    (gate : InvokeOnSelect) : bool :=
  let ts := generated_tool <$> draws in
  let prefix := default EmptyString prefix in
  match plan ts "target" prefix gate SingleSchema with
  | Err _ => false
  | Ok p =>
      let named := filter (fun n => is_empty n = false) (omap (fun t => get t "name" ≫= as_str) ts) in
      all [
        Nat.eqb (length (tools p) + length (skipped p)) (length named);
        bool_decide (NoDup (tool_sql_name <$> tools p));
        forallb (fun t => all [
          Nat.leb (String.length (tool_sql_name t)) 63;
          forallb IdentTests.in_class (bytes (tool_sql_name t));
          negb (IdentTests.leading_digit (tool_sql_name t));
          bool_decide (tool_name t ∈ named);
          gate_table gate t;
          Nat.eqb (length (table_columns t)) (length (inputs t) + length (output_columns t));
          forallb (fun col => negb (required col) || bool_decide (sql_name col ∈ params t))
            (inputs t)]) (tools p)]
  end.

(** *** The proof *)

Lemma named_usable (ts : list Value) :
  filter (fun n => is_empty n = false) (omap (fun t => get t "name" ≫= as_str) ts)
  = omap usable_name ts.
Proof.
  induction ts as [|t ts IH]; [done|]. rewrite !omap_cons, filter_app, IH. f_equal.
  unfold usable_name. destruct (get t "name" ≫= as_str) as [n|]; [|done].
  change (option_list (Some n)) with [n]. cbn [mbind option_bind].
  destruct (is_empty n) eqn:En; [by rewrite filter_cons_False by by rewrite En|].
  by rewrite filter_cons_True.
Qed.

Lemma named_partition (ts : list Value) :
  (length (omap usable_name (filter (fun tool => mappable tool = true) ts))
   + length (omap usable_name (filter (fun tool => mappable tool = false) ts)))%nat
  = length (omap usable_name ts).
Proof.
  induction ts as [|t ts IH]; [done|].
  destruct (mappable t) eqn:Em;
    [rewrite filter_cons_True, filter_cons_False by by rewrite ?Em
    |rewrite filter_cons_False, filter_cons_True by by rewrite ?Em];
    rewrite !omap_cons, !length_app; lia.
Qed.

(** The tools of the strategy: a mapped one has the one required input [q], which
    is its one parameter. *)
Lemma generated_tool_inputs d local sql target gate t :
  plan_one (generated_tool d) local sql target gate = Ok t →
  Forall (fun c => sql_name c ∈ params t) (inputs t).
Proof.
  destruct d as [cs vs out ann]. unfold plan_one.
  assert (get (generated_tool (mkDraw cs vs out ann)) "inputSchema"
          = get (generated_tool (mkDraw [] vs None None)) "inputSchema") as ->.
  { unfold generated_tool. cbn [draw_output annotate valid_schema].
    by destruct vs, out as [[]|], ann as [[]|]. }
  destruct vs; [|done]. cbn [default from_option id].
  set (sch := default Null (get (generated_tool (mkDraw [] true None None)) "inputSchema")).
  assert (properties sch = Some [("q", Object [("type", Str "string")])]) as -> by done.
  assert (required_list sch = ["q"]) as Hq by done. rewrite Hq. clearbody sch.
  intros [= <-]. cbn [inputs params]. rewrite parameters_eq. cbn [input_columns].
  apply Forall_singleton, list_elem_of_fmap_2, elem_of_app. left. by left.
Qed.

(** Nor does the debug assertion fail on one. *)
Lemma generated_once draws : assertions_hold (generated_tool <$> draws).
Proof.
  intros _. apply Forall_fmap, Forall_true. intros [cs vs out ann]. unfold compose, required_once.
  assert (required_list (default Null (get (generated_tool (mkDraw cs vs out ann)) "inputSchema"))
          = if vs then ["q"] else []) as ->.
  { unfold generated_tool. cbn [draw_output annotate valid_schema]. by destruct vs, out as [[]|], ann as [[]|]. }
  destruct vs; [apply NoDup_singleton|apply NoDup_nil_2].
Qed.

Lemma from_draw draws target prefix gate p t :
  plan (generated_tool <$> draws) target prefix gate SingleSchema = Ok p → t ∈ tools p →
  schema t = target ∧ tool_name t ∈ omap usable_name (generated_tool <$> draws) ∧
  invoke_on_select t = gate_opens gate (read_only t) ∧
  Forall (fun c => sql_name c ∈ params t) (inputs t).
Proof.
  intros Hp Ht. destruct (plan_tools_from _ _ _ _ _ _ _ Hp Ht) as (r & sql & Hr & E).
  apply elem_of_routed in Hr as (Hmem & n & Hu & Hroute). injection Hroute as Htarget _.
  pose proof E as E'. apply plan_one_Ok in E' as (_ & Hn & _ & Hs & Hro & Hi).
  rewrite (usable_name_get _ _ Hu) in Hn. simpl in Hn. subst n.
  split_and!; [congruence| |congruence|].
  - apply list_elem_of_omap. eauto.
  - apply list_elem_of_fmap in Hmem as (d & Hd & _). rewrite Hd in E.
    by apply generated_tool_inputs in E.
Qed.

Lemma well_shaped_tool draws prefix gate p t :
  plan (generated_tool <$> draws) "target" prefix gate SingleSchema = Ok p → t ∈ tools p →
  Ident.fragment (tool_sql_name t) → (String.length (tool_sql_name t) ≤ Ident.MAX_BYTES)%nat →
  all [Nat.leb (String.length (tool_sql_name t)) 63;
       forallb IdentTests.in_class (bytes (tool_sql_name t));
       negb (IdentTests.leading_digit (tool_sql_name t));
       bool_decide (tool_name t ∈ omap usable_name (generated_tool <$> draws));
       gate_table gate t;
       Nat.eqb (length (table_columns t)) (length (inputs t) + length (output_columns t));
       forallb (fun col => negb (required col) || bool_decide (sql_name col ∈ params t)) (inputs t)]
  = true.
Proof.
  intros Hp Ht [Hc Hd] Hl. destruct (from_draw _ _ _ _ _ _ Hp Ht) as (_ & Hn & Hg & Hi). assertions.
  - by apply Nat.leb_le.
  - apply forallb_true. eapply Forall_impl; [exact Hc|].
    intros b. unfold Ident.ident_byte, Ident.keep, IdentTests.in_class.
    intros [-> | ->]; [done|]. by rewrite orb_true_r.
  - unfold IdentTests.leading_digit. destruct (bytes _); [done|by rewrite Hd].
  - by apply bool_decide_true.
  - unfold gate_table. rewrite Hg. by destruct gate; [apply eq_true|..].
  - apply Nat.eqb_eq. unfold table_columns. by rewrite length_app.
  - apply forallb_true. eapply Forall_impl; [exact Hi|]. intros c Hin. apply orb_true_iff. right.
    by apply bool_decide_true.
Qed.

Theorem planning_holds (draws : list Draw) (prefix : option string) (gate : InvokeOnSelect) :
  (length draws < 12)%nat → prefix ∈ [None; Some "mcp_"; Some EmptyString] →
  planning_is_total_and_well_shaped draws prefix gate = true.
Proof.
  intros Hl Hpre. unfold planning_is_total_and_well_shaped. set (pre := default EmptyString prefix).
  assert (Ident.fragment pre) as Hf.
  { subst pre. repeat (apply elem_of_cons in Hpre as [-> | Hpre]); [split; done| |split; done|].
    - split; [|done]. repeat constructor; (by left) || (by right).
    - by apply elem_of_nil in Hpre. }
  clearbody pre.
  destruct (plan_succeeds (generated_tool <$> draws) "target" pre gate SingleSchema) as [p Hp];
    [done|apply generated_once|].
  destruct (plan_spec (generated_tool <$> draws) "target" pre gate SingleSchema p)
    as (Hts & Hsk & Hnd & Hid & _); [done|rewrite length_fmap; lia|done|].
  rewrite Hp, named_usable. assertions.
  - apply Nat.eqb_eq. rewrite <- named_partition, <- Hts, <- Hsk. by rewrite length_fmap.
  - apply bool_decide_true.
    assert ((fun t => (schema t, tool_sql_name t)) <$> tools p
            = (fun n => ("target", n)) <$> (tool_sql_name <$> tools p)) as Heq.
    { rewrite <- list_fmap_compose. apply list_fmap_ext. intros i t Hi%list_elem_of_lookup_2.
      destruct (from_draw _ _ _ _ _ _ Hp Hi) as [Hs _]. cbn. by rewrite Hs. }
    rewrite Heq in Hnd. by apply NoDup_fmap_1 in Hnd.
  - apply forallb_true, Forall_forall. intros t Ht. rewrite Forall_forall in Hid.
    destruct (Hid t Ht) as [Hfr Hlen]. by eapply well_shaped_tool.
Qed.
End props.
End PlanProps.

(** ** sse.rs *)

Module StreamProps.
Import SseTests.
#[local] Existing Instance json_text.

(** [BufReader::read_line] over a reader that hands out one piece per read: a line
    is gathered across pieces, and the rest of a piece is kept for the next line. *)
Fixpoint feed (cur piece : string) : list (result string string) * string :=
  match piece with
  | EmptyString => ([], cur)
  | String c rest =>
      if Ascii.eqb c "010" then
        let '(lines, cur') := feed EmptyString rest in (Sse.line_read (cur +:+ nl) :: lines, cur')
      else feed (cur +:+ String c EmptyString) rest
  end.
Fixpoint read_pieces (cur : string) (pieces : list string) (error : option string) : list (result string string) :=
  match pieces with
  | [] => Sse.read_lines cur EmptyString error
  | piece :: rest => let '(lines, cur') := feed cur piece in lines ++ read_pieces cur' rest error
  end.

(** Hands out at most three bytes per read. *)
Fixpoint Dribble (fuel : nat) (data : string) : list string :=
  match fuel with
  | O => []
  | S fuel => if is_empty data then [] else str_take 3 data :: Dribble fuel (str_drop 3 data)
  end.

Definition read_from (pieces : list string) (id : Z) : McpResult Value :=
  (Sse.read_loop (fun _ => 0) (fun _ => Ok tt) id 5000 0 0 Sse.default_event [] []
     (read_pieces EmptyString pieces None)).1.

Definition frames_split_across_buffer_boundaries_reassemble : bool :=
  let stream := JsonText.requote "data: {'jsonrpc':'2.0','id':12,'result':{'k':'räksmörgås🚀'}}" +:+ nl +:+ nl in
  ok_with (read_from (Dribble (String.length stream) stream) 12)
    (fun out => value_eqb (at_key out "result") (json "{'k':'räksmörgås🚀'}")).

Example split_frames_reassemble : frames_split_across_buffer_boundaries_reassemble = true.
Proof. vm_compute. reflexivity. Qed.

Lemma feed_lines cur piece s error :
  Sse.read_lines cur (piece +:+ s) error = (feed cur piece).1 ++ Sse.read_lines (feed cur piece).2 s error.
Proof.
  revert cur. induction piece as [|c piece IH]; intros cur; [done|].
  change (String c piece +:+ s) with (String c (piece +:+ s)). cbn [Sse.read_lines feed]. destruct (Ascii.eqb c "010"); [|apply IH].
  rewrite IH. by destruct (feed EmptyString piece).
Qed.

(** However the bytes of a stream are cut into reads, in the middle of a line, of a
    terminator or of a character, the reader gets the same lines. *)
Theorem cutting_is_invisible pieces error :
  read_pieces EmptyString pieces error = Sse.lines_of (Sse.mkStream (concat pieces) error).
Proof.
  unfold Sse.lines_of. cbn [Sse.st_bytes Sse.st_error]. generalize EmptyString as cur.
  induction pieces as [|piece pieces IH]; intros cur; [done|].
  cbn [read_pieces concat foldr]. rewrite feed_lines. destruct (feed cur piece) as [lines cur'].
  by rewrite IH.
Qed.
End StreamProps.
