(* ===== verification/Sql.v ===== *)
(** * PostgreSQL's side of the SQL-level tests

    What a statement of a test does between the SQL text and the extension: it is
    planned, started, iterated and re-checked as PostgreSQL documents it for a
    foreign table, over the callbacks of [Fdw] and [Pushdown].  Operators, datums,
    the calendar, catalogs and the executor's loop are written here for the tests
    only; no theorem speaks of them. *)

From Stdlib Require Import Ascii String ZArith Lia.
From Stdlib Require Import SpecFloat.
From stdpp Require Import base numbers gmap sets strings pretty list sorting.
From S2P Require Import Prelude Str Json JsonText Errors Sse Options Quals Tables Cursor Client Session Cache.
From S2P Require Import Catalog Readthrough ToolCalls Ident Codegen Ddl ImportSchema Registry Api PerTool.
From S2P Require Import Datum Pushdown Fdw Stub Vectors VectorsTables.
Import Assert Quals Tables Client Session Datums Pushdown Stub.
#[local] Open Scope Z_scope.

(** ** The calendar: days since 1970-01-01, proleptic Gregorian *)

Module Calendar.
Definition days_of (y m d : Z) : Z :=
  let y := if m <=? 2 then y - 1 else y in
  let era := y / 400 in let yoe := y - era * 400 in
  let doy := (153 * (if m >? 2 then m - 3 else m + 9) + 2) / 5 + d - 1 in
  era * 146097 + (yoe * 365 + yoe / 4 - yoe / 100 + doy) - 719468.
Definition civil (days : Z) : Z * Z * Z :=
  let z := days + 719468 in
  let era := z / 146097 in let doe := z - era * 146097 in
  let yoe := (doe - doe / 1460 + doe / 36524 - doe / 146096) / 365 in
  let doy := doe - (365 * yoe + yoe / 4 - yoe / 100) in
  let mp := (5 * doy + 2) / 153 in
  let m := if mp <? 10 then mp + 3 else mp - 9 in
  (if m <=? 2 then yoe + era * 400 + 1 else yoe + era * 400, m, doy - (153 * mp + 2) / 5 + 1).

(** [n] decimal digits at a position, and a literal text there. *)
Definition digits (s : string) (at_ n : nat) : option Z :=
  l ← mapM (fun i => b ← bytes s !! (at_ + i)%nat; if is_ascii_digit b then Some (b - 48) else None) (seq 0 n);
  Some (foldl (fun acc d => 10 * acc + d) 0 l).
Definition offset_seconds (s : string) : option Z :=
  let sign := match s with String c _ => if Ascii.eqb c "-" then -1 else 1 | _ => 1 end in
  if (s ≟ EmptyString) || (s ≟ "Z") then Some 0
  else h ← digits s 1 2; Some (sign * (h * 3600 + default 0 (digits s 4 2) * 60)).

(** [date_in] and [timestamptz_in] on the ISO forms, in microseconds since 2000-01-01. *)
Definition date_in (s : string) : option Z :=
  y ← digits s 0 4; m ← digits s 5 2; d ← digits s 8 2;
  if (1 <=? m) && (m <=? 12) && (1 <=? d) && (d <=? 31) then Some (days_of y m d) else None.
Definition timestamptz_in (s : string) : option Z :=
  days ← date_in s; h ← digits s 11 2; mi ← digits s 14 2; se ← digits s 17 2;
  off ← offset_seconds (of_bytes (List.skipn 19 (bytes s)));
  Some (((days - 10957) * 86400 + h * 3600 + mi * 60 + se - off) * 1000000).

Definition two (n : Z) : string := if n <? 10 then "0" +:+ fmt_Z n else fmt_Z n.
Definition date_text (days : Z) : string :=
  let '(y, m, d) := civil days in fmt_Z y +:+ "-" +:+ two m +:+ "-" +:+ two d.
(** [timestamptz_out] with TimeZone UTC. *)
Definition timestamptz_text (micros : Z) : string :=
  let secs := micros / 1000000 in let rest := secs mod 86400 in
  date_text (secs / 86400 + 10957) +:+ " " +:+ two (rest / 3600) +:+ ":" +:+ two (rest / 60 mod 60)
  +:+ ":" +:+ two (rest mod 60) +:+ "+00".

Example leap_day : timestamptz_text (default 0 (timestamptz_in "2024-02-29T23:30:00-01:00")) = "2024-03-01 00:30:00+00".
Proof. done. Qed.
End Calendar.

Module Sql.
#[local] Existing Instance json_text.
#[local] Existing Instance Codegen.debug_build.
#[local] Existing Instance Vectors.OptionsTests.simple_url.
Import Datums.Wit.

(** ** PostgreSQL's side *)

(** Datums; a timestamptz is its microseconds since 2000-01-01. *)
#[export] Instance postgres : PgDatum := {|
  Datum := D;
  cstring_to_text := DText;
  jsonb_in s := Ok (DJson s);
  byteain s := Ok (DBytea s);
  date_from s := Ok (DDate s);
  bool_datum := DBool; i32_datum := DI32; i64_datum := DI64; f64_datum := DF64; uuid_datum := DUuid;
  text_to_cstring := text; jsonb_out := text; byteaout := text; date_out := text;
  uuid_out d := match d with DUuid b => ToolCalls.uuid_hex b | _ => EmptyString end;
  timestamptz_out d := Calendar.timestamptz_text (number d);
  datum_bool d := match d with DBool b => b | _ => false end;
  datum_i32 := number; datum_i64 := number;
  datum_f64 d := match d with DF64 f => f | _ => S754_nan end;
  datum_uuid d := match d with DUuid b => b | _ => [] end |}.

(** [oprcode] of the equality operators of pg_operator, and of [>] on float8. *)
Definition oprcode (opno : Z) : Z :=
  default 0 (snd <$> head (filter (fun kv => kv.1 = opno)
    [(98, 67); (91, 60); (96, 65); (410, 467); (3240, 4038); (2972, 2956); (670, 293); (1093, 1086);
     (1320, 1152); (1955, 1948); (674, 297)])).
#[export] Instance operators : PgOperators := {| get_opcode := oprcode |}.

#[export] Instance spi : Spi := {|
  sql_run _ _ := Ok tt; sql_get_one _ _ := Ok None; sql_select _ _ := Ok [] |}.
#[export] Instance lower : Unicode := {| to_lowercase := to_ascii_lowercase |}.
#[export] Instance input : PgInput := {|
  timestamptz_in s := ok_or "invalid input syntax for type timestamp with time zone" (Calendar.timestamptz_in s);
  uuid_in s := match hex_pairs (filter (fun b => b ≠ 45) (bytes s)) with
               | b => if Nat.eqb (length b) 16 then Ok b else Err "invalid input syntax for type uuid"
               end;
  date_in s := from_option (fun _ => Ok tt) (Err "invalid input syntax for type date") (Calendar.date_in s) |}.
#[export] Instance hash : HashOrder := {| hash_order l := l; hash_order_perm _ _ := reflexivity _ |}.
#[export] Instance env : PgEnv := LogTests.random_env.

(** Servers with their options, user mappings by (server, user), the token each
    user reads from the secret table, the audit tables with the [format_type] of
    their columns, and the current user. *)
Record Database : Type := mkDatabase {
  db_servers : list (string * list (string * string));
  db_mappings : list (Z * Z * list (string * string));
  db_tokens : list (Z * string);
  db_tables : list (string * string * list (string * string));
  db_user : Z;
}.
Definition set_role (user : Z) (db : Database) : Database :=
  mkDatabase (db_servers db) (db_mappings db) (db_tokens db) (db_tables db) user.
Definition server_oid_of (db : Database) (name : string) : option Z :=
  (fun i => 16384 + Z.of_nat i) <$> position (fun s => bool_decide (s.1 = name)) (db_servers db).

(** [Spi::get_one] of the two audit probes, and of the token query. *)
Definition get_one (db : Database) (sql : string) : option string :=
  let probe (f : string → string → string) (g : string * string * list (string * string) → string) :=
    g <$> head (filter (fun t : string * string * list (string * string) => f t.1.1 t.1.2 = sql) (db_tables db)) in
  match probe (fun s t => ToolCalls.regclass_sql (s +:+ "." +:+ t)) (fun t => t.1.1 +:+ "." +:+ t.1.2),
        probe ToolCalls.listing_sql (fun t => json_to_string (Object ((fun kv => (kv.1, Str kv.2)) <$> t.2))) with
  | Some name, _ => Some name
  | None, Some listing => Some listing
  | None, None =>
      if bool_decide (is_Some (strip_prefix "SELECT token FROM" sql)) then
        snd <$> head (filter (fun t : Z * string => t.1 = db_user db) (db_tokens db))
      else None
  end.

Definition catalog_of (db : Database) : PgCatalog := {|
  foreign_server name :=
    oid ← server_oid_of db name;
    '(_, options) ← head (filter (fun s => s.1 = name) (db_servers db));
    Some (oid, options);
  user_mapping server user :=
    snd <$> head (filter (fun m : Z * Z * list (string * string) => m.1 = (server, user)) (db_mappings db));
  get_user_id := db_user db;
  spi_get_one sql := Ok (get_one db sql) |}.

(** The tables a list of DDL statements creates, read back from the text. *)
Definition type_oid (sql : string) : Z :=
  default 0 (snd <$> head (filter (fun kv => kv.1 = sql)
    ((fun t => (sql_name t, oid t))
       <$> [Text; Jsonb; Boolean; Int4; Int8; Bytea; Uuid; TimestampTz; Float8; Date]))).
Definition relation_of (ft : Ddl.ForeignTable) : Relation :=
  mkRelation (Some (Ddl.ft_table ft)) (Some (Ddl.ft_schema ft)) (Some (Ddl.ft_server ft)) (Ddl.ft_options ft)
    ((fun c => (c.1, type_oid c.2)) <$> Ddl.ft_columns ft).
Definition no_relation : Relation := mkRelation None None None [] [].
Definition created (ddl : list string) (schema table : string) : Relation :=
  from_option relation_of no_relation
    (head (filter (fun ft => Ddl.ft_schema ft = schema ∧ Ddl.ft_table ft = table)
             (omap Ddl.read_foreign_table ddl))).

(** [IMPORT FOREIGN SCHEMA mcp FROM SERVER server INTO server_s] *)
Definition import_all (server : string) : list string :=
  match Fdw.import_foreign_schema
          (Fdw.mkImportStmt (Some "mcp") (Some (server +:+ "_s")) Fdw.IMPORT_ALL []) (Some server) with
  | Ok ddl => ddl
  | Err _ => []
  end.
Definition imported (server table : string) : Relation := created (import_all server) (server +:+ "_s") table.
(** One made by hand with some of the columns. *)
Definition by_hand (server table : string) (columns : list (string * Z)) (options : list (string * string)) :
    Relation := mkRelation (Some table) (Some "s") (Some server) options columns.

(** ** WHERE clauses *)

Definition col (r : Relation) (name : string) : Node :=
  Var 1 (from_option (fun i => Z.of_nat (S i)) 0 (position (fun a => bool_decide (a.1 = name)) (rel_attributes r))) 0.
Definition text_is (r : Relation) (c s : string) : Node :=
  OpExpr 98 [col r c; Const (oid Text) (Some (DText s))].
Definition jsonb_is (r : Relation) (c s : string) : Node :=
  OpExpr 3240 [col r c; Const (oid Jsonb) (Some (DJson (JsonText.requote s)))].
Definition int_is (r : Relation) (c : string) (n : Z) : Node :=
  OpExpr 96 [col r c; Const (oid Int4) (Some (DI32 n))].
(** [c = false] is simplified to [NOT c], [c IN ('x')] to [c = 'x']. *)
Definition is_false (r : Relation) (c : string) : Node := BoolExpr NOT_EXPR [col r c].
(** [c = ANY(ARRAY[...])] over a constant text array. *)
Definition any_text (r : Relation) (c : string) (l : list string) : Node :=
  ScalarArrayOpExpr 98 true [col r c; Const 1009 (Some (DJson (json_to_string (Array (Str <$> l)))))].

Definition same (f : Z) (x y : D) : bool :=
  match x, y with
  | DBool a, DBool b => Bool.eqb a b
  | DUuid a, DUuid b => bool_decide (a = b)
  | DF64 a, DF64 b => if f =? 297 then SFltb b a else SFeqb a b
  | DJson a, DJson b => opt_json_eq (json_from_str a) (json_from_str b)
  | (DI32 _ | DI64 _), (DI32 _ | DI64 _) => number x =? number y
  | _, _ => bool_decide (text x = text y)
  end.
Definition elements (d : D) : list D :=
  default [] (items ← json_from_str (jsonb_out d) ≫= as_array; Some (DText <$> omap as_str items)).

(** Node tags of the expressions the extractor does not look into:
    [content->0->>'text']. *)
Definition CONTENT_TEXT : Z := 1.
Definition content_text (d : D) : option D :=
  items ← json_from_str (jsonb_out d) ≫= as_array; first ← head items; DText <$> (get first "text" ≫= as_str).

(** Expressions over a slot of range table entry 1, with the parameters of the
    plan.  Operators are strict. *)
Definition env_with (params : list (option D)) (slot : Slot) : Env := {|
  e_var a k c := if (a =? 1) && (c =? 0) then mjoin (slot !! Z.to_nat (k - 1)) else None;
  e_param _ id := mjoin (params !! Z.to_nat (id - 1));
  e_operator f args := match args with [Some x; Some y] => Some (DBool (same f x y)) | _ => None end;
  e_array f use_or args :=
    match args with
    | [Some x; Some l] =>
        Some (DBool (if use_or then existsb (same f x) (elements l) else forallb (same f x) (elements l)))
    | _ => None
    end;
  e_other tag args := match args with [Some d] => if tag =? CONTENT_TEXT then content_text d else None | _ => None end |}.
Definition env_at (slot : Slot) : Env := env_with [] slot.

(** ** Statements *)

Section statements.
Variable servers : list (string * Server).
#[local] Instance net : Net := loopback servers.

Abbreviation Statement := (M (Sessions Fdw.Backend) Fdw.Failure).

(** [IterateForeignScan] until the slot is empty, the local clauses checked on
    every tuple. *)
Fixpoint fetch_all (params : list (option D)) (fuel : nat) (natts : nat) (local : list Node) (state : option Fdw.BoxedCursor) :
    result Fdw.Failure (list Slot) :=
  match fuel with
  | O => Err (Fdw.PgRaised "the scan did not end")
  | S fuel =>
      let '(r, state') := Fdw.iterate_foreign_scan natts state in
      slot ← r;
      match slot with
      | None => Ok []
      | Some slot =>
          more ← fetch_all params fuel natts local state';
          Ok (if forallb (fun n => known (truth (env_with params slot) n) true) local then slot :: more else more)
      end
  end.

Definition select_with (params : list (option D)) (db : Database) (r : Relation) (where_ : list Node) :
    Statement (list Slot) :=
  let _ := catalog_of db in
  plan ← m_lift (map_err Fdw.raised (get_foreign_plan r 1 ((fun n => mkRestrict n false) <$> where_)));
  state ← Fdw.begin_foreign_scan r 0 plan (eval (env_with params []));
  m_lift (fetch_all params 2000 (length (rel_attributes r)) (fs_local plan) state).
Definition select := select_with [].
Definition count (db : Database) (r : Relation) (where_ : list Node) : Statement nat :=
  slots ← select db r where_; mret (length slots).

(** [INSERT ... RETURNING *] of rows given by column, in one statement.  The audit
    rows are the transaction's: they go when the statement fails. *)
Fixpoint insert_rows {catalog : PgCatalog} (r : Relation) (holder : option Fdw.ModifyHolder)
    (rows : list (list (string * D))) : Statement (list Slot) :=
  match rows with
  | [] => mret []
  | row :: rest =>
      let slot := (fun a : string * Z => snd <$> head (filter (fun kv : string * D => kv.1 = a.1) row))
                    <$> rel_attributes r in
      out ← Fdw.exec_foreign_insert r holder slot;
      more ← insert_rows r holder rest;
      mret (out :: more)
  end.
Definition insert (db : Database) (r : Relation) (rows : list (list (string * D))) : Statement (list Slot) :=
  let _ := catalog_of db in
  fun st =>
    match (holder ← Fdw.begin_foreign_modify r Fdw.CMD_INSERT 0; insert_rows r holder rows) st with
    | (Ok slots, st') => (Ok slots, st')
    | (Err e, st') =>
        let b := extra st' in
        (Err e, mkSessions (sessions st') (world st')
                  (Fdw.mkBackend (Fdw.fb_caches b) (Fdw.fb_warnings b) (Fdw.fb_logs b)
                     (Fdw.fb_audit (extra st))))
    end.
(** UPDATE and DELETE fail when the statement starts. *)
Definition modify (db : Database) (r : Relation) (op : Fdw.CmdType) : Statement unit :=
  let _ := catalog_of db in _ ← Fdw.begin_foreign_modify r op 0; mret tt.

(** A function of api.rs, with the statements it ran. *)
Definition api {A} (db : Database) (f : PgCatalog → M (Sessions Api.Backend) McpError A) :
    Statement (A * list string) :=
  Fdw.zoom (fun b => Api.mkBackend (Fdw.fb_caches b) [] (Fdw.fb_warnings b))
    (fun a b => Fdw.mkBackend (Api.caches a) (Api.messages a) (Fdw.fb_logs b) (Fdw.fb_audit b))
    Fdw.raised (a ← f (catalog_of db); st ← m_get; mret (a, Api.ran (extra st))).
Definition call {A} (db : Database) (f : PgCatalog → M (Sessions Api.Backend) McpError A) : Statement A :=
  r ← api db f; mret r.1.

Definition refresh (db : Database) (server : string) : Statement bool :=
  call db (fun _ => Api.refresh server).

(** ** Assertions *)

Definition expect_sqlstate {A} (m : Statement A) (want : string) (needle : option string) : Statement bool :=
  fun st => match m st with
            | (Err (Fdw.Reported rep), st') =>
                (Ok ((errcode_text (rp_code rep) ≟ want) && from_option (fun n => contains n (rp_message rep)) true needle),
                 st')
            | (_, st') => (Ok false, st')
            end.
Definition detail_of {A} (m : Statement A) : Statement (option string) := fun st =>
  match m st with
  | (Err (Fdw.Reported rep), st') => (Ok (rp_detail rep), st')
  | (_, st') => (Ok None, st')
  end.
Definition hits_at (server_url method : string) : Statement nat := fun st => (Ok (hits server_url method (world st)), st).
Definition total_at (server_url : string) : Statement nat := fun st => (Ok (total_hits server_url (world st)), st).
Definition sleep (ms : Z) : Statement unit := fun st =>
  (Ok tt, mkSessions (sessions st) (mkWorld (w_sent (world st)) (w_now (world st) + ms)) (extra st)).
Definition runs (m : Statement bool) : bool :=
  verdict m (mkSessions ∅ (mkWorld [] 0) (Fdw.mkBackend ∅ [] ∅ [])).
End statements.

(** [to_jsonb(row)] and a column of a row. *)
Definition datum_value (type_oid : Z) (d : option D) : Value :=
  default Null (d ≫= @datum_to_json json_text postgres type_oid).
Definition to_jsonb (r : Relation) (slot : Slot) : Value :=
  Object (zip_with (fun a d => (a.1, datum_value a.2 d)) (rel_attributes r) slot).
Definition column (r : Relation) (slot : Slot) (c : string) : Value := default Null (get (to_jsonb r slot) c).
Definition only (r : Relation) (slots : list Slot) : Value :=
  match slots with [slot] => to_jsonb r slot | _ => Str "not one row" end.

(** A server without authentication, and a database with one. *)
Definition open_server (name u : string) (extra : list (string * string)) : string * list (string * string) :=
  (name, [("url", u); ("auth", "none"); ("timeout_ms", "8000")] ++ extra).
Definition one_server (name u : string) (extra : list (string * string)) : Database :=
  mkDatabase [open_server name u extra] [] [] [] 10.

Definition scripted_with (replies : list (string * Reply)) (session_header : bool) : Server :=
  scripted (mkInner (list_to_map replies) session_header).
Definition answers (method body : string) : string * Reply := (method, Result (json body)).
End Sql.

