(* ===== verification/Scenarios.v ===== *)
(** * The SQL-level tests, run through the whole model

    The tests of tables/, e2e.rs, fdw.rs, api.rs and lib.rs that drive the extension
    by SQL against a stub server of [Stub], one boolean per test function with its
    assertions in order, over the statements of [Sql]. *)

From Stdlib Require Import Ascii String ZArith Lia.
From Stdlib Require Import SpecFloat.
From stdpp Require Import base numbers gmap sets strings pretty list sorting.
From S2P Require Import Prelude Str Json JsonText Errors Sse Options Quals Tables Cursor Client Session Cache.
From S2P Require Import Catalog Readthrough ToolCalls Ident Codegen Ddl ImportSchema Registry Api PerTool.
From S2P Require Import Datum Pushdown Fdw Stub Vectors VectorsTables Sql.
Import Assert Quals Tables Client Session Datums Pushdown Stub.
#[local] Open Scope Z_scope.

(** ** tables/catalog.rs *)

Module CatalogScenarios.
Import Sql.
#[local] Existing Instance json_text.
#[local] Existing Instance Codegen.debug_build.

Definition TOOLS_LIST : string := "tools/list".
Definition PROMPTS_LIST : string := "prompts/list".

Definition fixture_replies : list (string * Reply) := [
  answers "initialize" "{'protocolVersion': '2025-11-25', 'capabilities': {'tools': {'listChanged': true}}, 'serverInfo': {'name': 'fixture-server', 'version': '1.2.3'}, 'instructions': 'be excellent to each other'}";
  answers TOOLS_LIST "{'tools': [{'name': 'echo', 'title': 'Echo', 'description': 'echoes', 'inputSchema': {'type': 'object'}, 'outputSchema': {'type': 'string'}, 'annotations': {'readOnlyHint': true, 'destructiveHint': false}, '_meta': {'owner': 'fixture'}}, {'name': 'explode', 'description': 'fails'}]}";
  answers PROMPTS_LIST "{'prompts': [{'name': 'summarize', 'title': 'Summarize', 'description': 'summarizes', 'arguments': [{'name': 'text', 'description': 'the text', 'required': true}, {'name': 'style', 'description': 'tone', 'required': false}], '_meta': {'kind': 'prompt'}}, {'name': 'bare'}]}";
  answers "resources/list" "{'resources': [{'uri': 'file:///a.txt', 'name': 'a', 'title': 'A', 'description': 'the a file', 'mimeType': 'text/plain', 'size': 42, 'annotations': {'audience': ['user']}, '_meta': {'rev': 7}}, {'uri': 'file:///b.bin'}]}";
  answers "resources/templates/list" "{'resourceTemplates': [{'uriTemplate': 'file:///{path}', 'name': 'files', 'description': 'all the files', 'mimeType': 'application/octet-stream', 'annotations': {'priority': 3}, '_meta': {'gen': 2}}]}"].

Definition stub_url : string := "http://127.0.0.1:4020/mcp".
Definition fixture (session_header : bool) : list (string * Server) :=
  [(stub_url, scripted_with fixture_replies session_header)].

Definition server_table_reports_the_handshake_and_identity : bool :=
  let net := fixture true in
  let db := one_server "cat_server" stub_url [("mode", "generic")] in
  let server := imported "cat_server" "server" in
  runs (
    row ← select net db server [];
    n ← count net db server [];
    inits ← hits_at stub_url "initialize";
    mret (all [
      value_eqb (only server row) (json "{'name': 'cat_server', 'url': 'http://127.0.0.1:4020/mcp', 'mode': 'generic', 'protocol_version': '2025-11-25', 'server_name': 'fixture-server', 'server_version': '1.2.3', 'instructions': 'be excellent to each other', 'capabilities': {'tools': {'listChanged': true}}, 'session_id': 'stub-session-1'}");
      Nat.eqb n 1; Nat.eqb inits 2])).

Definition tools_table_maps_the_full_spec : bool :=
  let net := fixture false in
  let db := one_server "cat_tools" stub_url [] in
  let tools := imported "cat_tools" "tools" in
  runs (
    echo ← select net db tools [text_is tools "name" "echo"];
    explode ← select net db tools [text_is tools "name" "explode"];
    let explode := only tools explode in
    mret (all [
      value_eqb (only tools echo) (json "{'name': 'echo', 'title': 'Echo', 'description': 'echoes', 'input_schema': {'type': 'object'}, 'output_schema': {'type': 'string'}, 'annotations': {'readOnlyHint': true, 'destructiveHint': false}, 'read_only': true, 'destructive': false, 'idempotent': null, 'open_world': null, 'meta': {'owner': 'fixture'}}");
      value_eqb (at_key explode "name") (Str "explode");
      forallb (fun c => opt_json_eq (get explode c) (Some Null)) ["title"; "input_schema"; "read_only"; "meta"]])).

Definition name_quals_filter_after_fetch_and_the_list_is_cached : bool :=
  let net := fixture false in
  let db := one_server "cat_quals" stub_url [] in
  let tools := imported "cat_quals" "tools" in
  runs (
    a ← count net db tools [text_is tools "name" "echo"];
    b ← count net db tools [any_text tools "name" ["echo"; "explode"]];
    c ← count net db tools [text_is tools "name" "explode"];
    d ← count net db tools [text_is tools "name" "nope"];
    lists ← hits_at stub_url TOOLS_LIST;
    mret ([a; b; c; d; lists] ≟ [1; 2; 1; 0; 1]%nat)).

Definition cursor_following_exhausts_multi_page_lists : bool :=
  let pages := (TOOLS_LIST, Sequence [
    Result (json "{'tools': [{'name': 'page_one'}], 'nextCursor': 'p2'}");
    Result (json "{'tools': [{'name': 'page_two_a'}, {'name': 'page_two_b'}]}")]) in
  let net := [(stub_url, scripted_with (pages :: fixture_replies) false)] in
  let db := one_server "cat_pages" stub_url [] in
  let tools := imported "cat_pages" "tools" in
  runs (
    a ← count net db tools [];
    first ← hits_at stub_url TOOLS_LIST;
    b ← count net db tools [];
    second ← hits_at stub_url TOOLS_LIST;
    mret ([a; first; b; second] ≟ [3; 2; 3; 2]%nat)).

Definition method_not_found_is_fail_open_and_siblings_survive : bool :=
  let refused := (PROMPTS_LIST, Error (-32601) "method not found") in
  let net := [(stub_url, scripted_with (refused :: fixture_replies) false)] in
  let db := one_server "cat_d5" stub_url [] in
  let rows table := count net db (imported "cat_d5" table) [] in
  runs (
    a ← rows "prompts"; b ← rows "prompt_arguments"; c ← rows "tools"; d ← rows "resources";
    e ← rows "resource_templates";
    mret ([a; b; c; d; e] ≟ [0; 0; 2; 2; 1]%nat)).

Definition prompts_and_prompt_arguments_flatten_with_index : bool :=
  let net := fixture false in
  let db := one_server "cat_prompts" stub_url [] in
  let arguments := imported "cat_prompts" "prompt_arguments" in
  let summarize := text_is arguments "prompt" "summarize" in
  runs (
    prompts ← count net db (imported "cat_prompts" "prompts") [];
    row ← select net db arguments [summarize; int_is arguments "idx" 0];
    of_prompt ← count net db arguments [summarize];
    every ← count net db arguments [];
    optional ← count net db arguments [summarize; is_false arguments "required"];
    lists ← hits_at stub_url PROMPTS_LIST;
    mret (all [
      value_eqb (only arguments row) (json "{'prompt': 'summarize', 'name': 'text', 'description': 'the text', 'required': true, 'idx': 0}");
      [prompts; of_prompt; every; optional; lists] ≟ [2; 2; 2; 1; 1]%nat])).

Definition resources_and_templates_map_mime_size_and_meta : bool :=
  let net := fixture false in
  let db := one_server "cat_res" stub_url [] in
  let resources := imported "cat_res" "resources" in
  let templates := imported "cat_res" "resource_templates" in
  runs (
    a ← select net db resources [text_is resources "uri" "file:///a.txt"];
    b ← select net db resources [text_is resources "uri" "file:///b.bin"];
    t ← select net db templates [];
    mret (all [
      value_eqb (only resources a) (json "{'uri': 'file:///a.txt', 'name': 'a', 'title': 'A', 'description': 'the a file', 'mime_type': 'text/plain', 'size': 42, 'annotations': {'audience': ['user']}, 'meta': {'rev': 7}}");
      forallb (fun c => opt_json_eq (get (only resources b) c) (Some Null)) ["size"; "mime_type"];
      value_eqb (only templates t) (json "{'uri_template': 'file:///{path}', 'name': 'files', 'description': 'all the files', 'title': null, 'mime_type': 'application/octet-stream', 'annotations': {'priority': 3}, 'meta': {'gen': 2}}")])).

Definition other_url : string := "http://127.0.0.1:4021/mcp".
Definition short_ttl_refetches_and_zero_ttl_never_caches : bool :=
  let net := (other_url, scripted_with fixture_replies false) :: fixture false in
  let db := mkDatabase [open_server "cat_ttl" stub_url [("cache_ttl_ms", "80")];
                        open_server "cat_ttl0" other_url [("cache_ttl_ms", "0")]] [] [] [] 10 in
  let tools := imported "cat_ttl" "tools" in
  let tools0 := imported "cat_ttl0" "tools" in
  runs (
    a ← count net db tools [];
    first ← hits_at stub_url TOOLS_LIST;
    _ ← sleep 150;
    b ← count net db tools [];
    second ← hits_at stub_url TOOLS_LIST;
    c ← count net db tools0 [];
    d ← count net db tools0 [];
    never ← hits_at other_url TOOLS_LIST;
    mret ([a; first; b; second; c; d; never] ≟ [2; 1; 2; 2; 2; 2; 2]%nat)).

Definition refresh_drops_the_catalog_cache_and_the_session : bool :=
  let net := fixture true in
  let db := one_server "cat_refresh" stub_url [] in
  let tools := imported "cat_refresh" "tools" in
  let server := imported "cat_refresh" "server" in
  runs (
    a ← count net db tools [];
    lists1 ← hits_at stub_url TOOLS_LIST;
    b ← count net db server [];
    inits1 ← hits_at stub_url "initialize";
    _ ← refresh db "cat_refresh";
    c ← count net db tools [];
    lists2 ← hits_at stub_url TOOLS_LIST;
    d ← count net db server [];
    inits2 ← hits_at stub_url "initialize";
    again ← refresh db "cat_refresh";
    mret (again && ([a; lists1; b; inits1; c; lists2; d; inits2] ≟ [2; 1; 1; 2; 2; 2; 1; 4]%nat))).

Definition list_changed_notification_drops_the_cached_tools_slice : bool :=
  let tools_a := json "{'tools': [{'name': 'tool_a'}]}" in
  let replies := [
    answers "initialize" "{'protocolVersion': '2025-11-25', 'capabilities': {}, 'serverInfo': {'name': 'notify', 'version': '0'}}";
    (TOOLS_LIST, Sequence [
       Result tools_a;
       SseReply [Notify (json "{'jsonrpc': '2.0', 'method': 'notifications/tools/list_changed', 'params': {}}");
                 ReplyFrame tools_a];
       Result (json "{'tools': [{'name': 'tool_b'}]}")])] in
  let net := [(stub_url, scripted_with replies false)] in
  let db := one_server "cat_notify" stub_url [] in
  let tools := imported "cat_notify" "tools" in
  runs (
    a ← count net db tools [text_is tools "name" "tool_a"];
    _ ← refresh db "cat_notify";
    b ← count net db tools [];
    c ← count net db tools [text_is tools "name" "tool_b"];
    lists ← hits_at stub_url TOOLS_LIST;
    mret ([a; b; c; lists] ≟ [1; 1; 1; 3]%nat)).

Definition cross_role_cache_bleed_is_impossible : bool :=
  let replies := [
    answers "initialize" "{'protocolVersion': '2025-11-25', 'capabilities': {}, 'serverInfo': {'name': 'ap3', 'version': '0'}}";
    (TOOLS_LIST, ByToken [("secret_a", Result (json "{'tools': [{'name': 'tool_for_a'}]}"));
                          (EmptyString, Result (json "{'tools': [{'name': 'tool_for_b'}]}"))])] in
  let net := [(stub_url, scripted_with replies false)] in
  let mapping := [("token_secret", "ap3_secrets.tokens")] in
  let role_a := mkDatabase
    [("ap3_srv", [("url", stub_url); ("auth", "bearer"); ("timeout_ms", "8000")])]
    [(16384, 1, mapping); (16384, 2, mapping)] [(1, "secret_a"); (2, "secret_b")] [] 1 in
  let role_b := set_role 2 role_a in
  let tools := imported "ap3_srv" "tools" in
  runs (
    a1 ← count net role_a tools [text_is tools "name" "tool_for_a"];
    a2 ← count net role_a tools [];
    b1 ← count net role_b tools [text_is tools "name" "tool_for_a"];
    b2 ← count net role_b tools [text_is tools "name" "tool_for_b"];
    b3 ← count net role_b tools [];
    a3 ← count net role_a tools [text_is tools "name" "tool_for_a"];
    a4 ← count net role_a tools [text_is tools "name" "tool_for_b"];
    lists ← hits_at stub_url TOOLS_LIST;
    mret ([a1; a2; b1; b2; b3; a3; a4; lists] ≟ [1; 1; 0; 1; 1; 1; 0; 2]%nat)).

Definition an_unreachable_server_fails_the_scan_with_08006 : bool :=
  let db := mkDatabase [("cat_dead", [("url", "http://127.0.0.1:1/mcp"); ("auth", "none"); ("timeout_ms", "500")])]
              [] [] [] 10 in
  runs (expect_sqlstate (count [] db (imported "cat_dead" "tools") []) "08006" None).

(** [string_agg(name, ',' ORDER BY name)] of the names, as a list. *)
Definition names (r : Relation) (slots : list Slot) : list string :=
  merge_sort ImportSchema.str_le (omap (fun s => as_str (column r s "name")) slots).

Definition upstream_tables_scan_their_slice_at_sql_level : bool :=
  let replies := [
    answers "initialize" "{'protocolVersion': '2025-11-25', 'capabilities': {}, 'serverInfo': {'name': 'sliced', 'version': '0'}}";
    answers TOOLS_LIST "{'tools': [{'name': 'alpha.echo'}, {'name': 'alpha.ping'}, {'name': 'beta.add'}, {'name': 'engine_status'}]}"] in
  let net := [(stub_url, scripted_with replies false)] in
  let db := one_server "cat_slice" stub_url [] in
  let whole := imported "cat_slice" "tools" in
  let alpha := by_hand "cat_slice" "tools" [("name", oid Text)] [("upstream", "alpha")] in
  let local := by_hand "cat_slice" "tools" [("name", oid Text)] [("upstream", EmptyString)] in
  runs (
    w ← select net db whole [];
    a ← select net db alpha [];
    l ← select net db local [];
    lists ← hits_at stub_url TOOLS_LIST;
    mret (all [names whole w ≟ ["alpha.echo"; "alpha.ping"; "beta.add"; "engine_status"];
               names alpha a ≟ ["echo"; "ping"]; names local l ≟ ["engine_status"]; Nat.eqb lists 1])).

Definition the_table_cache_ttl_option_overrides_the_server_default : bool :=
  let net := fixture false in
  let db := one_server "cat_tto" stub_url [] in
  let whole := imported "cat_tto" "tools" in
  let with_ttl ttl := by_hand "cat_tto" "tools" [("name", oid Text)] [("cache_ttl_ms", ttl)] in
  runs (
    a ← count net db whole [];
    b ← count net db (with_ttl "0") [];
    c ← count net db (with_ttl "0") [];
    d ← count net db whole [];
    lists ← hits_at stub_url TOOLS_LIST;
    e ← count net db (with_ttl "soon") [];
    after ← hits_at stub_url TOOLS_LIST;
    mret ([a; b; c; d; lists; e; after] ≟ [2; 2; 2; 2; 3; 2; 3]%nat)).

(** The SQL-level tests of tables/catalog.rs pass. *)
Example catalog_scenarios_pass : all [
  server_table_reports_the_handshake_and_identity; tools_table_maps_the_full_spec;
  name_quals_filter_after_fetch_and_the_list_is_cached; cursor_following_exhausts_multi_page_lists;
  method_not_found_is_fail_open_and_siblings_survive; prompts_and_prompt_arguments_flatten_with_index;
  resources_and_templates_map_mime_size_and_meta; short_ttl_refetches_and_zero_ttl_never_caches;
  refresh_drops_the_catalog_cache_and_the_session;
  list_changed_notification_drops_the_cached_tools_slice; cross_role_cache_bleed_is_impossible;
  an_unreachable_server_fails_the_scan_with_08006; upstream_tables_scan_their_slice_at_sql_level;
  the_table_cache_ttl_option_overrides_the_server_default] = true.
Proof. vm_compute. reflexivity. Qed.
End CatalogScenarios.

(** ** tables/readthrough.rs *)

Module ReadthroughScenarios.
Import ReadthroughTests Sql.
#[local] Existing Instance json_text.
#[local] Existing Instance Codegen.debug_build.

Definition probe_url : string := "http://127.0.0.1:4030/mcp".
Definition serve (routes : string → Value → Routed) : list (string * Server) := [(probe_url, stub_with routes)].
(** [match method { key => answer, .. , _ => refuse }] *)
Definition table_of (routes : list (string * string)) (method : string) (params : Value) : Routed :=
  from_option (fun kv : string * string => answer_json kv.2) unexpected (head (filter (fun kv => kv.1 = method) routes)).
Definition probe_server (prefix : string) (extra : list (string * string)) : Database :=
  mkDatabase [("rtb_" +:+ prefix, [("url", probe_url); ("auth", "none"); ("timeout_ms", "10000")] ++ extra)] [] [] [] 10.
Definition table (prefix name : string) : Relation := imported ("rtb_" +:+ prefix) name.

Definition two_uris : string * string :=
  ("resources/list", "{'resources': [{'uri': 'file:///a'}, {'uri': 'file:///b'}]}").
Definition ref_json : string := "{'type': 'ref/prompt', 'name': 's'}".

Definition ap_p2_scans_issue_zero_tools_call_requests : bool :=
  let net := serve (table_of [
    ("resources/list", "{'resources': [{'uri': 'file:///a'}]}");
    ("resources/read", "{'contents': [{'uri': 'file:///a', 'text': 'x'}]}");
    ("prompts/get", "{'messages': [{'role': 'user', 'content': {'type': 'text', 'text': 'hi'}}]}");
    ("completion/complete", "{'completion': {'values': ['v'], 'total': 1, 'hasMore': false}}");
    ("tools/call", "{'content': [], 'isError': false}")]) in
  let db := probe_server "app2" [("max_unqualified_reads", "5")] in
  let messages := table "app2" "prompt_messages" in
  let completions := table "app2" "completions" in
  runs (
    _ ← count net db (table "app2" "resource_contents") [];
    _ ← count net db messages [text_is messages "prompt" "summarize"];
    _ ← count net db completions [jsonb_is completions "ref" ref_json;
          text_is completions "argument_name" "topic"; text_is completions "argument_value" EmptyString];
    calls ← hits_at probe_url "tools/call";
    reads ← hits_at probe_url "resources/read";
    gets ← hits_at probe_url "prompts/get";
    completes ← hits_at probe_url "completion/complete";
    mret (all [Nat.eqb calls 0; Nat.ltb 0 reads; Nat.eqb gets 1; Nat.eqb completes 1])).

Definition unqualified_resource_contents_scan_raises_0a000_via_fdw : bool :=
  let net := serve (table_of [two_uris]) in
  runs (
    refused ← expect_sqlstate (count net (probe_server "capzero" []) (table "capzero" "resource_contents") [])
                "0A000" (Some "max_unqualified_reads");
    lists ← hits_at probe_url "resources/list";
    mret (refused && Nat.eqb lists 0)).

Definition resource_contents_fanout_over_cap_raises_54023_via_fdw : bool :=
  let net := serve (table_of [two_uris]) in
  runs (expect_sqlstate
    (count net (probe_server "capone" [("max_unqualified_reads", "1")]) (table "capone" "resource_contents") [])
    "54023" (Some "max_unqualified_reads = 1")).

Definition unqualified_resource_contents_at_cap_scans_via_fdw : bool :=
  let net := serve (table_of [two_uris;
    ("resources/read", "{'contents': [{'uri': 'file:///r', 'mimeType': 'text/plain', 'text': 't'}]}")]) in
  runs (
    n ← count net (probe_server "captop" [("max_unqualified_reads", "2")]) (table "captop" "resource_contents") [];
    reads ← hits_at probe_url "resources/read";
    mret (Nat.eqb n 2 && Nat.eqb reads 2)).

Definition missing_quals_raise_0a000_via_fdw : bool :=
  let net := serve (fun _ _ => Answer (Object [])) in
  let db := probe_server "quals" [] in
  let messages := table "quals" "prompt_messages" in
  let completions := table "quals" "completions" in
  runs (
    a ← expect_sqlstate (count net db messages []) "0A000" (Some "prompt");
    b ← expect_sqlstate (count net db completions []) "0A000" (Some "ref");
    c ← expect_sqlstate (count net db completions [jsonb_is completions "ref" ref_json]) "0A000"
          (Some "argument_name");
    d ← expect_sqlstate (count net db completions [jsonb_is completions "ref" ref_json;
                           text_is completions "argument_name" "topic"]) "0A000" (Some "argument_value");
    gets ← hits_at probe_url "prompts/get";
    completes ← hits_at probe_url "completion/complete";
    mret (all [a; b; c; d; Nat.eqb gets 0; Nat.eqb completes 0])).

Definition read_through_errors_carry_server_and_method_in_detail : bool :=
  let net := serve (fun method _ =>
    if bool_decide (method = "resources/read") then Refuse (-32601) "no such resource" else unexpected) in
  let db := probe_server "mnf" [] in
  let contents := table "mnf" "resource_contents" in
  let query := select net db contents [text_is contents "uri" "file:///a"] in
  runs (
    refused ← expect_sqlstate query "0A000" None;
    detail ← detail_of query;
    mret (refused && from_option (fun d => all [
      contains ("foreign server " +:+ quoted "rtb_mnf") d; contains "resources/read" d;
      negb (contains "token" d)]) false detail)).

(** The SQL-level tests of tables/readthrough.rs pass. *)
Example readthrough_scenarios_pass : all [
  ap_p2_scans_issue_zero_tools_call_requests; unqualified_resource_contents_scan_raises_0a000_via_fdw;
  resource_contents_fanout_over_cap_raises_54023_via_fdw;
  unqualified_resource_contents_at_cap_scans_via_fdw; missing_quals_raise_0a000_via_fdw;
  read_through_errors_carry_server_and_method_in_detail] = true.
Proof. vm_compute. reflexivity. Qed.
End ReadthroughScenarios.

(** ** tables/tool_calls.rs *)

Module ToolCallsScenarios.
Import Sql Datums.Wit.
#[local] Existing Instance json_text.
#[local] Existing Instance Codegen.debug_build.

Definition log_url : string := "http://127.0.0.1:4040/mcp".
Definition net : list (string * Server) := [(log_url, serve_one)].
Definition make_server (name : string) (extra : list (string * string)) : Database :=
  mkDatabase [(name, [("url", log_url); ("auth", "none"); ("timeout_ms", "5000")] ++ extra)] [] [] [] 10.
Definition with_table (t : string * string * list (string * string)) (db : Database) : Database :=
  mkDatabase (db_servers db) (db_mappings db) (db_tokens db) (t :: db_tables db) (db_user db).
Definition log_of (name : string) : Relation := imported name "tool_calls".
Definition call_of (tool : string) : list (string * D) := [("tool", DText tool)].
Definition call_with (tool arguments : string) : list (string * D) :=
  [("tool", DText tool); ("arguments", DJson (JsonText.requote arguments))].

(** [content->0->>'text'] of a row. *)
Definition first_text (r : Relation) (slot : Slot) : option string :=
  block ← as_array (column r slot "content") ≫= head; get block "text" ≫= as_str.
Definition nil_uuid : string := "00000000-0000-0000-0000-000000000000".
Definition fresh_id (r : Relation) (slot : Slot) : bool := negb (opt_json_eq (Some (column r slot "id")) (Some (Str nil_uuid))).
Definition flag (r : Relation) (slot : Slot) : option bool := as_bool (column r slot "is_error").

Definition insert_performs_one_tools_call_and_fills_every_output_column : bool :=
  let db := make_server "tc_basic" [] in let log := log_of "tc_basic" in
  runs (
    _ ← insert net db log [call_with "echo" "{'message': 'hi'}"];
    rows ← select net db log [];
    hits ← total_at log_url;
    mret (match rows with
          | [row] => all [
              fresh_id log row; flag log row ≟ Some false;
              first_text log row ≟ Some (JsonText.requote "'hi'");
              opt_json_eq (get (column log row "structured") "message") (Some (Str "hi"));
              forallb (fun i => bool_decide (is_Some (mjoin (row !! i)))) [7; 8]%nat;
              bool_decide (mjoin (row !! 6%nat) = None); Nat.eqb hits 3]
          | _ => false
          end)).

Definition arguments_defaults_to_empty_and_output_columns_on_input_are_ignored : bool :=
  let db := make_server "tc_defaults" [] in let log := log_of "tc_defaults" in
  runs (
    _ ← insert net db log [[("tool", DText "echo"); ("id", DUuid (replicate 16 0)); ("content", DJson "[]");
          ("structured", DJson "[]"); ("is_error", DBool true); ("error", DJson "{}");
          ("called_at", DI64 0); ("duration_ms", DI32 999)]];
    rows ← select net db log [];
    mret (match rows with
          | [row] => all [first_text log row ≟ Some "{}"; flag log row ≟ Some false; fresh_id log row]
          | _ => false
          end)).

Definition outcomes (r : Relation) (slots : list Slot) : list (option string * option bool) :=
  (fun s => (as_str (column r s "tool"), flag r s)) <$> slots.
Definition echo_boom_echo : list (option string * option bool) :=
  [(Some "echo", Some false); (Some "boom", Some true); (Some "echo", Some false)].

Definition a_failing_tool_mid_statement_is_a_row_not_an_exception : bool :=
  let db := make_server "tc_multirow" [] in let log := log_of "tc_multirow" in
  runs (
    returned ← insert net db log (call_of <$> ["echo"; "boom"; "echo"]);
    rows ← select net db log [];
    failed ← select net db log [col log "is_error"];
    mret (all [outcomes log returned ≟ echo_boom_echo; outcomes log rows ≟ echo_boom_echo;
               (failed ≫= fun s => option_list (first_text log s)) ≟ ["kaboom"];
               forallb (fun s : Slot => bool_decide (mjoin (s !! 6%nat) = None)) failed])).

Definition tool_null_raises_23502 : bool :=
  let db := make_server "tc_null" [] in let log := log_of "tc_null" in
  runs (
    a ← expect_sqlstate (insert net db log [[]]) "23502" None;
    b ← expect_sqlstate (insert net db log [[("arguments", DJson "{}")]]) "23502" None;
    hits ← total_at log_url;
    mret (all [a; b; Nat.eqb hits 0])).

Definition protocol_failures_raise_per_4_9 : bool :=
  let db := make_server "tc_proto" [] in let log := log_of "tc_proto" in
  runs (
    a ← expect_sqlstate (insert net db log [call_of "not_found"]) "0A000" (Some "tools/call");
    b ← expect_sqlstate (insert net db log [call_of "bad_args"]) "22023" None;
    hits ← total_at log_url;
    logged ← count net db log [];
    mret (all [a; b; Nat.eqb hits 4; Nat.eqb logged 0])).

Definition select_reads_the_log_with_zero_network_io : bool :=
  let db := make_server "tc_appp2" [] in let log := log_of "tc_appp2" in
  runs (
    _ ← insert net db log [call_with "echo" "{}"; call_with "echo" "{}"; call_with "boom" "{}"];
    after_insert ← total_at log_url;
    echoes ← count net db log [text_is log "tool" "echo"];
    every ← count net db log [];
    still ← total_at log_url;
    none ← count net db log [text_is log "tool" "nope"];
    hits ← total_at log_url;
    mret (all [Nat.eqb echoes 2; Nat.eqb every 3; Nat.eqb still after_insert; Nat.eqb none 0;
               Nat.eqb hits after_insert])).

Definition select_before_any_insert_scans_empty_and_never_connects : bool :=
  let db := make_server "tc_fresh" [] in
  runs (
    n ← count net db (log_of "tc_fresh") [];
    hits ← total_at log_url;
    mret (Nat.eqb n 0 && Nat.eqb hits 0)).

Definition update_and_delete_on_tool_calls_still_raise_0a000 : bool :=
  let db := make_server "tc_writes" [] in let log := log_of "tc_writes" in
  runs (
    a ← expect_sqlstate (modify db log Fdw.CMD_UPDATE) "0A000" None;
    b ← expect_sqlstate (modify db log Fdw.CMD_DELETE) "0A000" None;
    hits ← total_at log_url;
    mret (all [a; b; Nat.eqb hits 0])).

Definition audit_is_off_by_default : bool :=
  let db := make_server "tc_noaudit" [] in let log := log_of "tc_noaudit" in
  runs (
    _ ← insert net db log [call_of "echo"];
    hits ← total_at log_url;
    mret (Nat.eqb hits 3)).

(** The statements of the audit table the transaction holds. *)
Definition audited : M (Sessions Fdw.Backend) Fdw.Failure (list string) := fun st => (Ok (Fdw.fb_audit (extra st)), st).
(** A block whose exception handler rolls its work back. *)
Definition rolled_back {A} (m : M (Sessions Fdw.Backend) Fdw.Failure A) : M (Sessions Fdw.Backend) Fdw.Failure unit :=
  fun st =>
    let st' := (m st).2 in let b := extra st' in
    (Ok tt, mkSessions (sessions st') (world st')
              (Fdw.mkBackend (Fdw.fb_caches b) (Fdw.fb_warnings b) (Fdw.fb_logs b) (Fdw.fb_audit (extra st)))).
Definition among (parts : list string) (l : list string) : nat :=
  length (filter (fun s => forallb (fun p => contains p s) parts = true) l).

Definition audit_appends_completed_calls_transactionally : bool :=
  let db := with_table ("tc_audok_audit", "tool_calls", ToolCalls.EXPECTED)
              (make_server "tc_audok" [("audit_table", "tc_audok_audit.tool_calls")]) in
  let log := log_of "tc_audok" in
  runs (
    _ ← insert net db log (call_of <$> ["echo"; "boom"]);
    rows ← audited;
    _ ← rolled_back (insert net db log [call_of "echo"]);
    after ← audited;
    mret (all [
      Nat.eqb (among ["TRUE"; "kaboom"; "NULL"] rows) 1; Nat.eqb (length rows) 2;
      Nat.eqb (among ["current_user"; "'tc_audok'"] rows) 2; Nat.eqb (length after) 2])).

Definition without (name : string) (columns : list (string * string)) : list (string * string) :=
  filter (fun c => c.1 ≠ name) columns.
Definition audit_shape_mismatch_raises_42804_naming_the_column : bool :=
  let server name := make_server name [("audit_table", name +:+ "_audit.tool_calls")] in
  let short := with_table ("tc_audshort_audit", "tool_calls", without "structured" ToolCalls.EXPECTED)
                 (server "tc_audshort") in
  let typed := with_table ("tc_audtype_audit", "tool_calls",
                 ("is_error", "text") :: without "is_error" ToolCalls.EXPECTED) (server "tc_audtype") in
  let absent := make_server "tc_audabsent" [("audit_table", "tc_audabsent_audit.missing")] in
  runs (
    a ← expect_sqlstate (insert net short (log_of "tc_audshort") [call_of "echo"]) "42804" (Some "structured");
    none ← audited;
    b ← expect_sqlstate (insert net typed (log_of "tc_audtype") [call_of "echo"]) "42804" (Some "is_error");
    c ← expect_sqlstate (insert net absent (log_of "tc_audabsent") [call_of "echo"]) "42804"
          (Some "does not exist");
    nothing ← audited;
    mret (all [a; b; c; none ≟ []; nothing ≟ []])).

(** The SQL-level tests of tables/tool_calls.rs pass. *)
Example tool_calls_scenarios_pass : all [
  insert_performs_one_tools_call_and_fills_every_output_column;
  arguments_defaults_to_empty_and_output_columns_on_input_are_ignored;
  a_failing_tool_mid_statement_is_a_row_not_an_exception; tool_null_raises_23502;
  protocol_failures_raise_per_4_9; select_reads_the_log_with_zero_network_io;
  select_before_any_insert_scans_empty_and_never_connects;
  update_and_delete_on_tool_calls_still_raise_0a000; audit_appends_completed_calls_transactionally;
  audit_shape_mismatch_raises_42804_naming_the_column; audit_is_off_by_default] = true.
Proof. vm_compute. reflexivity. Qed.
End ToolCallsScenarios.

(** ** e2e.rs *)

Module E2eScenarios.
Import Sql Datums.Wit.
#[local] Existing Instance json_text.
#[local] Existing Instance Codegen.debug_build.

Definition TOOLS_LIST : string := "tools/list".
Definition stub_url : string := "http://127.0.0.1:4050/mcp".
Definition other_url : string := "http://127.0.0.1:4051/mcp".
Definition init_reply (name : string) : string * Reply :=
  ("initialize", Result (Object [("protocolVersion", Str "2025-11-25"); ("capabilities", Object []);
     ("serverInfo", Object [("name", Str name); ("version", Str "0")])])).
Definition serve (replies : list (string * Reply)) : list (string * Server) :=
  [(stub_url, scripted_with replies false)].
Definition make_server (name : string) : Database := one_server name stub_url [].
Definition tools_named (names : list string) : Reply :=
  Result (Object [("tools", Array ((fun n => Object [("name", Str n)]) <$> names))]).

Definition ap_p2_a_cross_table_select_issues_zero_tools_call : bool :=
  let net := serve [init_reply "ap-p2"; (TOOLS_LIST, tools_named ["echo"]);
    answers "resources/list" "{'resources': [{'uri': 'file:///a'}]}";
    answers "resources/read" "{'contents': [{'uri': 'file:///a', 'mimeType': 'text/plain', 'text': 'alpha'}]}"] in
  let db := make_server "e2_p2" in
  let contents := imported "e2_p2" "resource_contents" in
  runs (
    a ← count net db (imported "e2_p2" "tools") [];
    b ← count net db contents [text_is contents "uri" "file:///a"];
    c ← count net db (imported "e2_p2" "tool_calls") [];
    calls ← hits_at stub_url "tools/call";
    mret ([a; b; c; calls] ≟ [1; 1; 0; 0]%nat)).

Fixpoint each {A} (f : A → M (Sessions Fdw.Backend) Fdw.Failure bool) (l : list A) :
    M (Sessions Fdw.Backend) Fdw.Failure bool :=
  match l with [] => mret true | x :: rest => a ← f x; b ← each f rest; mret (a && b) end.

Definition ap_p1_catalog_tables_refuse_insert : bool :=
  let net := serve [init_reply "ap-p1"; (TOOLS_LIST, tools_named [])] in
  let db := make_server "e2_p1" in
  runs (
    refused ← each (fun table => expect_sqlstate (insert net db (imported "e2_p1" table) [[]]) "0A000"
                                   (Some "tool_calls"))
                ["server"; "tools"; "prompts"; "prompt_arguments"; "resources"; "resource_templates";
                 "resource_contents"; "prompt_messages"; "completions"];
    calls ← hits_at stub_url "tools/call";
    mret (refused && Nat.eqb calls 0)).

Definition ap_p4_a_hidden_tool_is_absent_and_invoking_it_has_no_permission_distinction : bool :=
  let route (method : string) (params : Value) : Reply :=
    if bool_decide (method = "tools/call") then
      if bool_decide (get params "name" ≫= as_str = Some "echo") then
        Result (json "{'content': [{'type': 'text', 'text': 'ok'}]}")
      else Error (-32602) "invalid arguments"
    else Error (-32601) "unexpected" in
  let net := serve [init_reply "ap-p4";
    (TOOLS_LIST, ByToken [("tok_admin", tools_named ["echo"; "hidden"]); (EmptyString, tools_named ["echo"])]);
    ("tools/call", Route route)] in
  let db := mkDatabase [("e2_p4_srv", [("url", stub_url); ("auth", "bearer"); ("timeout_ms", "8000")])]
    [(16384, 7, [("token_secret", "e2_p4_secrets.tokens")])] [(7, "tok_limited")] [] 7 in
  let tools := imported "e2_p4_srv" "tools" in
  let log := imported "e2_p4_srv" "tool_calls" in
  runs (
    hidden ← count net db tools [text_is tools "name" "hidden"];
    every ← count net db tools [];
    a ← expect_sqlstate (insert net db log [[("tool", DText "hidden")]]) "22023" (Some "invalid arguments");
    b ← expect_sqlstate (insert net db log [[("tool", DText "also_absent")]]) "22023" (Some "invalid arguments");
    mret (all [Nat.eqb hidden 0; Nat.eqb every 1; a; b])).

Definition perf_catalog_double_scan_costs_one_tools_list : bool :=
  let net := serve [init_reply "perf-cat"; (TOOLS_LIST, tools_named ["echo"; "explode"])] in
  let db := make_server "e2_perf_cat" in let tools := imported "e2_perf_cat" "tools" in
  runs (
    cold ← count net db tools [];
    warm ← count net db tools [];
    lists ← hits_at stub_url TOOLS_LIST;
    mret ([cold; warm; lists] ≟ [2; 2; 1]%nat)).

(** The wall-clock budget of the test is left out. *)
Definition perf_100_row_insert_select_is_exactly_100_sequential_tools_call : bool :=
  let route (method : string) (params : Value) : Reply :=
    if bool_decide (method = "tools/call") then
      Result (json "{'content': [{'type': 'text', 'text': 'ok'}], 'structuredContent': {}}")
    else Error (-32601) "unexpected" in
  let net := serve [init_reply "perf-100"; ("tools/call", Route route)] in
  let db := make_server "e2_perf_100" in let log := imported "e2_perf_100" "tool_calls" in
  runs (
    _ ← insert net db log (replicate 100 [("tool", DText "echo")]);
    calls ← hits_at stub_url "tools/call";
    rows ← count net db log [];
    mret (Nat.eqb calls 100 && Nat.eqb rows 100)).

Definition ac_7_1_tools_count_parity_and_the_initialize_slice_caches : bool :=
  let net := serve [
    answers "initialize" "{'protocolVersion': '2025-11-25', 'capabilities': {'tools': {}}, 'serverInfo': {'name': 'parity', 'version': '1'}, 'instructions': 'be excellent to each other'}";
    (TOOLS_LIST, tools_named ["t1"; "t2"; "t3"])] in
  let db := make_server "e2_parity" in let server := imported "e2_parity" "server" in
  let instructions slots : list Value := (fun s => Sql.column server s "instructions") <$> slots in
  runs (
    n ← count net db (imported "e2_parity" "tools") [];
    first ← select net db server [];
    second ← select net db server [];
    inits ← hits_at stub_url "initialize";
    lists ← hits_at stub_url TOOLS_LIST;
    mret (all [Nat.eqb n 3; jsons_eq (instructions first) [Str "be excellent to each other"];
               jsons_eq (instructions first) (instructions second); Nat.eqb inits 2; Nat.eqb lists 1])).

Definition ac_7_8_two_roles_two_mappings_different_row_counts : bool :=
  let net := serve [init_reply "ac-7-8";
    (TOOLS_LIST, ByToken [("tok_a", tools_named ["a_one"; "a_two"]); (EmptyString, tools_named ["b_one"])])] in
  let mapping := [("token_secret", "e2_78_secrets.tokens")] in
  let role_a := mkDatabase [("e2_78_srv", [("url", stub_url); ("auth", "bearer"); ("timeout_ms", "8000")])]
    [(16384, 1, mapping); (16384, 2, mapping)] [(1, "tok_a"); (2, "tok_b")] [] 1 in
  let tools := imported "e2_78_srv" "tools" in
  runs (
    a ← count net role_a tools [];
    b ← count net (set_role 2 role_a) tools [];
    lists ← hits_at stub_url TOOLS_LIST;
    mret ([a; b; lists] ≟ [2; 1; 2]%nat)).

Definition ac_7_11_kill_mid_scan_yields_08006_then_recovers : bool :=
  let net := serve [init_reply "ac-7-11"; (TOOLS_LIST, Sequence [
    Result (json "{'tools': [{'name': 'page_one'}], 'nextCursor': 'p2'}"); Disconnect;
    tools_named ["page_one"; "page_two"]])] in
  let db := make_server "e2_711" in let tools := imported "e2_711" "tools" in
  runs (
    failed ← expect_sqlstate (count net db tools []) "08006" None;
    n ← count net db tools [];
    mret (failed && Nat.eqb n 2)).

(** *** The engine convention *)

Definition engine_stub (prefix_a prefix_b : string) : list (string * Server) :=
  serve [init_reply "engine";
    (TOOLS_LIST, tools_named [prefix_a +:+ ".echo"; prefix_a +:+ ".ping"; prefix_b +:+ ".add"; "engine_status"])].
Definition import (net : list (string * Server)) (db : Database) (server schema : string) (opts : option Value) :
    M (Sessions Fdw.Backend) Fdw.Failure (nat * list string) :=
  let _ := loopback net in let _ := Vectors.OptionsTests.simple_url in
  api db (fun _ => Api.import server schema opts).
Definition all_upstreams : option Value := Some (json "{'all_upstreams': true}").
Definition names (slots : M (Sessions Fdw.Backend) Fdw.Failure (list Slot)) (r : Relation) :
    M (Sessions Fdw.Backend) Fdw.Failure (list string) :=
  rows ← slots; mret (CatalogScenarios.names r rows).

Definition ac_7_13_all_upstreams_import_creates_per_upstream_schemas_with_unprefixed_names : bool :=
  let net := engine_stub "alpha" "beta" in
  let db := make_server "e2_eng" in
  runs (
    '(n, ddl) ← import net db "e2_eng" "e2_eng_local" all_upstreams;
    let alpha := created ddl "alpha" "tools" in
    let beta := created ddl "beta" "tools" in
    a ← names (select net db alpha []) alpha;
    b ← names (select net db beta []) beta;
    mret (all [Nat.eqb n 28; omap ImportSchema.read_create_schema ddl ≟ ["alpha"; "beta"];
               a ≟ ["echo"; "ping"]; b ≟ ["add"];
               forallb (fun t => bool_decide (rel_name (created ddl "alpha" t) = None)) ["server"; "tool_calls"]])).

Definition ac_7_14_engine_tools_is_the_prefixed_union_and_a_down_upstream_scans_empty : bool :=
  let net := engine_stub "gamma" "delta" in
  let db := make_server "e2_eng2" in
  runs (
    '(_, ddl) ← import net db "e2_eng2" "e2_eng2_union" None;
    let union := created ddl "e2_eng2_union" "tools" in
    u ← names (select net db union []) union;
    '(_, ddl) ← import net db "e2_eng2" "e2_eng2_local" all_upstreams;
    let local := created ddl "e2_eng2_local" "tools" in
    l ← names (select net db local []) local;
    down ← count net db (by_hand "e2_eng2" "tools" [("name", oid Text)] [("upstream", "down")]) [];
    mret (all [u ≟ ["delta.add"; "engine_status"; "gamma.echo"; "gamma.ping"]; l ≟ ["engine_status"];
               Nat.eqb down 0])).

Definition import_all_upstreams_without_prefixed_tools_creates_nothing_implicit : bool :=
  let net := serve [init_reply "no-upstreams"; (TOOLS_LIST, tools_named ["plain_tool"])] in
  runs (
    '(n, ddl) ← import net (make_server "e2_eng3") "e2_eng3" "e2_eng3_local" all_upstreams;
    mret (Nat.eqb n 10 && (omap ImportSchema.read_create_schema ddl ≟ []))).

(** *** The functions of the mcp schema *)

Section functions.
Variable net : list (string * Server).
#[local] Instance functions_net : Net := loopback net.
#[local] Existing Instance Vectors.OptionsTests.simple_url.
Definition call_tool (db : Database) (server tool on_error : string) :
    M (Sessions Fdw.Backend) Fdw.Failure Value :=
  call db (fun _ => Api.call_tool server tool (Some (Object [])) on_error).
Definition call_tool_text (db : Database) (server tool on_error : string) :
    M (Sessions Fdw.Backend) Fdw.Failure (option string) :=
  call db (fun _ => Api.call_tool_text server tool (Some (Object [])) on_error).
Definition get_prompt (db : Database) (server prompt : string) (args : option Value) :
    M (Sessions Fdw.Backend) Fdw.Failure Value := call db (fun _ => Api.get_prompt server prompt args).
Definition complete (db : Database) (server : string) (ref : Value) (name value : string) :
    M (Sessions Fdw.Backend) Fdw.Failure Value := call db (fun _ => Api.complete server ref name value).
End functions.
Definition session_info (db : Database) (server : string) :
    M (Sessions Fdw.Backend) Fdw.Failure (option Value) := call db (fun _ => Api.session_info server).
Definition session_initialize_count (db : Database) (server : string) :
    M (Sessions Fdw.Backend) Fdw.Failure (option Z) := call db (fun _ => Api.session_initialize_count server).

Definition get_prompt_and_complete_round_trip_their_shapes : bool :=
  let net := serve [init_reply "api-prompt";
    answers "prompts/get" "{'description': 'greet someone', 'messages': [{'role': 'user', 'content': {'type': 'text', 'text': 'hi'}}]}";
    answers "completion/complete" "{'completion': {'values': ['rust', 'ruby'], 'total': 2}}"] in
  let db := make_server "e2_api1" in
  runs (
    prompt ← get_prompt net db "e2_api1" "greet" (Some (json "{'name': 'noizu'}"));
    completion ← complete net db "e2_api1" (json "{'type': 'ref/prompt', 'name': 'greet'}") "lang" "ru";
    gets ← hits_at stub_url "prompts/get";
    completes ← hits_at stub_url "completion/complete";
    let completion := json_to_string completion in
    mret (all [contains "greet someone" (json_to_string prompt); contains (quoted "user") (json_to_string prompt);
               contains "rust" completion; contains (quoted "total" +:+ ":2") completion;
               Nat.leb 1 gets; Nat.leb 1 completes])).

Definition session_info_lifecycle_null_then_populated : bool :=
  let net := serve [init_reply "api-info"; (TOOLS_LIST, tools_named ["echo"]);
                    answers "tools/call" "{'content': []}"] in
  let db := make_server "e2_api2" in
  runs (
    before ← session_info db "e2_api2";
    _ ← call_tool net db "e2_api2" "echo" "raise";
    after ← session_info db "e2_api2";
    unknown ← expect_sqlstate (session_info db "no_such_server") "42704" None;
    mret (all [opt_json_eq before None; unknown;
      from_option (fun info => all [
        value_eqb (at_key info "protocolVersion") (Str "2025-11-25");
        value_eqb (at_key (at_key info "serverInfo") "name") (Str "api-info");
        value_eqb (at_key info "initializeCount") (json "1");
        value_eqb (at_key info "hasSessionId") (Bool false)]) false after])).

Definition call_tool_raises_p0001_by_default_and_returns_under_return : bool :=
  let net := serve [init_reply "api-err"; (TOOLS_LIST, tools_named ["kaboom"]);
    answers "tools/call" "{'content': [{'type': 'text', 'text': 'the fuse is blown'}], 'isError': true}"] in
  let db := make_server "e2_api3" in
  runs (
    raised ← expect_sqlstate (call_tool net db "e2_api3" "kaboom" "raise") "P0001" (Some "the fuse is blown");
    returned ← call_tool net db "e2_api3" "kaboom" "return";
    text ← call_tool_text net db "e2_api3" "kaboom" "return";
    calls ← hits_at stub_url "tools/call";
    mret (all [raised; value_eqb (at_key returned "isError") (Bool true); text ≟ Some "the fuse is blown";
               Nat.leb 3 calls])).

Definition a_transport_failure_drops_the_session_but_rpc_errors_keep_it : bool :=
  let net := [(stub_url, scripted_with [init_reply "api-drop"; (TOOLS_LIST, tools_named ["echo"]);
                                        ("tools/call", Disconnect)] false);
              (other_url, scripted_with [init_reply "api-keep"; (TOOLS_LIST, tools_named ["echo"]);
                                         ("tools/call", Error (-32000) "tool exploded")] false)] in
  let db := mkDatabase [open_server "e2_api4" stub_url []; open_server "e2_api5" other_url []] [] [] [] 10 in
  runs (
    a ← expect_sqlstate (call_tool net db "e2_api4" "echo" "raise") "08006" None;
    dropped ← session_initialize_count db "e2_api4";
    b ← expect_sqlstate (call_tool net db "e2_api4" "echo" "raise") "08006" None;
    fresh ← session_initialize_count db "e2_api4";
    reopened ← hits_at stub_url "initialize";
    c ← expect_sqlstate (call_tool net db "e2_api5" "echo" "raise") "22023" (Some "tool exploded");
    d ← expect_sqlstate (call_tool net db "e2_api5" "echo" "raise") "22023" (Some "tool exploded");
    inits ← session_initialize_count db "e2_api5";
    mret (all [a; dropped ≟ None; b; fresh ≟ None; Nat.leb 2 reopened; c; d; inits ≟ Some 1])).

(** The tests of e2e.rs pass. *)
Example e2e_scenarios_pass : all [
  ap_p2_a_cross_table_select_issues_zero_tools_call; ap_p1_catalog_tables_refuse_insert;
  ap_p4_a_hidden_tool_is_absent_and_invoking_it_has_no_permission_distinction;
  perf_catalog_double_scan_costs_one_tools_list;
  perf_100_row_insert_select_is_exactly_100_sequential_tools_call;
  ac_7_1_tools_count_parity_and_the_initialize_slice_caches;
  ac_7_8_two_roles_two_mappings_different_row_counts; ac_7_11_kill_mid_scan_yields_08006_then_recovers;
  ac_7_13_all_upstreams_import_creates_per_upstream_schemas_with_unprefixed_names;
  ac_7_14_engine_tools_is_the_prefixed_union_and_a_down_upstream_scans_empty;
  import_all_upstreams_without_prefixed_tools_creates_nothing_implicit;
  get_prompt_and_complete_round_trip_their_shapes; session_info_lifecycle_null_then_populated;
  call_tool_raises_p0001_by_default_and_returns_under_return;
  a_transport_failure_drops_the_session_but_rpc_errors_keep_it] = true.
Proof. vm_compute. reflexivity. Qed.
End E2eScenarios.

(** ** fdw.rs *)

Module FdwScenarios.
Import Sql Datums.Wit.
#[local] Existing Instance json_text.
#[local] Existing Instance Codegen.debug_build.

(** Nothing listens there. *)
Definition freeze_url : string := "http://127.0.0.1:1/mcp".
Definition make_server (name : string) : Database :=
  mkDatabase [(name, [("url", freeze_url); ("auth", "none"); ("timeout_ms", "1000")])] [] [] [] 10.
Definition tables_of (ddl : list string) (schema : string) : nat :=
  length (filter (fun ft => Ddl.ft_schema ft = schema) (omap Ddl.read_foreign_table ddl)).
Definition import_stmt (remote local : string) (t : Fdw.ImportListType) (l : list string) : Fdw.ImportStmt :=
  Fdw.mkImportStmt (Some remote) (Some local) t (Some <$> l).

Definition import_creates_the_registry_tables_and_tools_scans_run_end_to_end : bool :=
  let db := make_server "freeze_all" in let tools := imported "freeze_all" "tools" in
  runs (
    a ← expect_sqlstate (count [] db tools []) "08006" None;
    b ← expect_sqlstate (count [] db tools [text_is tools "name" "echo"]) "08006" None;
    c ← expect_sqlstate (count [] db (imported "freeze_all" "server") []) "08006" None;
    mret (all [Nat.eqb (tables_of (import_all "freeze_all") "freeze_all_s") 10; a; b; c])).

Definition import_honors_limit_to_and_unknown_remote_schema_is_3f000 : bool := all [
  ok_with (Fdw.import_foreign_schema
             (import_stmt "mcp" "freeze_lim_s" Fdw.IMPORT_LIMIT_TO ["tools"; "tool_calls"]) (Some "freeze_lim"))
    (fun ddl => Nat.eqb (tables_of ddl "freeze_lim_s") 2);
  err_with (Fdw.import_foreign_schema (import_stmt "bogus" "freeze_lim_s" Fdw.IMPORT_ALL []) (Some "freeze_lim"))
    (code "3F000")].

Definition a_role_without_a_user_mapping_still_scans_an_auth_none_server : bool :=
  runs (expect_sqlstate (count [] (make_server "freeze_nomap") (imported "freeze_nomap" "resources") []) "08006" None).

Definition insert_into_any_table_but_tool_calls_raises_0a000 : bool :=
  runs (expect_sqlstate
    (insert [] (make_server "freeze_ins") (imported "freeze_ins" "tools") [[("name", DText "echo")]]) "0A000" None).

Definition update_and_delete_on_tool_calls_raise_0a000 : bool :=
  let db := make_server "freeze_upd" in let log := imported "freeze_upd" "tool_calls" in
  runs (
    a ← expect_sqlstate (modify db log Fdw.CMD_UPDATE) "0A000" None;
    b ← expect_sqlstate (modify db log Fdw.CMD_DELETE) "0A000" None;
    mret (a && b)).

Definition a_foreign_table_outside_the_registry_raises_0a000 : bool :=
  runs (expect_sqlstate
    (select [] (make_server "freeze_unknown") (by_hand "freeze_unknown" "not_a_table" [("a", oid Text)] []) [])
    "0A000" None).

(** The part of EXPLAIN that is the extension's: the plan's blob, and a start that
    leaves no cursor and sends nothing. *)
Definition explain_of_a_scan_does_not_execute_the_handler : bool :=
  let db := make_server "freeze_explain" in
  let tools := imported "freeze_explain" "tools" in
  let _ := catalog_of db in let _ := loopback [] in
  let _ := Vectors.OptionsTests.simple_url in
  match get_foreign_plan tools 1 [mkRestrict (text_is tools "name" "echo") false] with
  | Err _ => false
  | Ok plan =>
      let st := mkSessions ∅ (mkWorld [] 0) (Fdw.mkBackend ∅ [] ∅ []) in
      let '(r, st') := Fdw.begin_foreign_scan tools Fdw.EXEC_FLAG_EXPLAIN_ONLY plan (eval (env_at [])) st in
      all [Nat.eqb (length (fs_local plan)) 0; forallb (fun s => negb (contains "127.0.0.1" s)) (fs_private plan);
           match r with Ok None => true | _ => false end; Nat.eqb (length (w_sent (world st'))) 0]
  end.

(** The tests of fdw.rs pass. *)
Example fdw_scenarios_pass : all [
  import_creates_the_registry_tables_and_tools_scans_run_end_to_end;
  import_honors_limit_to_and_unknown_remote_schema_is_3f000;
  a_role_without_a_user_mapping_still_scans_an_auth_none_server;
  insert_into_any_table_but_tool_calls_raises_0a000; update_and_delete_on_tool_calls_raise_0a000;
  a_foreign_table_outside_the_registry_raises_0a000;
  explain_of_a_scan_does_not_execute_the_handler] = true.
Proof. vm_compute. reflexivity. Qed.
End FdwScenarios.

(** ** api.rs and lib.rs *)

Module ApiScenarios.
Import Sql FdwScenarios E2eScenarios.
#[local] Existing Instance json_text.
#[local] Existing Instance Codegen.debug_build.
#[local] Existing Instance Vectors.OptionsTests.simple_url.

Definition import_into (server schema : string) (opts : option string) :
    M (Sessions Fdw.Backend) Fdw.Failure (nat * list string) :=
  import [] (FdwScenarios.make_server server) server schema (json <$> opts).

Definition import_returns_the_count_and_creates_the_tables : bool :=
  runs (
    '(n, ddl) ← import_into "imp_srv" "imp_a" None;
    mret (all [Nat.eqb n 10; Nat.eqb (tables_of ddl "imp_a") 10;
               Nat.eqb (length (rel_attributes (created ddl "imp_a" "tools"))) (arity TOOLS_SPEC)])).

(** Without the duplicate-table error, which is PostgreSQL's. *)
Definition import_twice_in_one_backend_and_once_more_failing : bool :=
  runs (
    '(a, ddl_a) ← import_into "imp_twice" "imp_b1" None;
    '(b, ddl_b) ← import_into "imp_twice" "imp_b2" None;
    mret (all [Nat.eqb a 10; Nat.eqb b 10; Nat.eqb (tables_of ddl_a "imp_b1") 10;
               Nat.eqb (tables_of ddl_b "imp_b2") 10])).

Definition import_cache_ttl_option_is_visible_in_the_catalog : bool :=
  runs (
    '(n, ddl) ← import_into "imp_ttl" "imp_c" (Some "{'cache_ttl_ms': 5000}");
    mret (Nat.eqb n 10
          && Nat.eqb (length (filter (fun ft => ("cache_ttl_ms", "5000") ∈ Ddl.ft_options ft)
                                (omap Ddl.read_foreign_table ddl))) 10)).

Definition import_rejects_bad_options : bool :=
  runs (
    a ← expect_sqlstate (import_into "imp_bad" "imp_d" (Some "{'cache_ttl_ms': -1}")) "22023" None;
    b ← expect_sqlstate (import_into "imp_bad" "imp_d" (Some "{'nope': 1}")) "22023" None;
    c ← expect_sqlstate (import_into "imp_bad" "imp_d" (Some "{'per_tool': true}")) "08006" None;
    mret (all [a; b; c])).

Definition import_unknown_server_raises_42704 : bool :=
  runs (expect_sqlstate (import [] (FdwScenarios.make_server "other") "nope" "imp_e" None) "42704" None).

Definition import_all_upstreams_needs_a_reachable_engine : bool :=
  runs (expect_sqlstate (import_into "imp_engine" "imp_f" (Some "{'all_upstreams': true}")) "08006" None).

(** *** lib.rs: CREATE SERVER and CREATE USER MAPPING run the validator *)

Definition validate (catalog : Z) (options : list (string * string)) : McpResult unit :=
  Api.mcp_fdw_validator ((fun kv => Some (kv.1 +:+ "=" +:+ kv.2)) <$> options) catalog.
Definition create_server := validate ForeignServerRelationId.
Definition create_user_mapping := validate UserMappingRelationId.

Definition create_server_accepts_a_valid_option_set : bool :=
  is_ok (create_server [("url", "https://npl.noizu.com/mcp"); ("mode", "generic"); ("timeout_ms", "5000");
    ("auth", "bearer"); ("max_unqualified_reads", "10"); ("audit_table", "mcp_audit.tool_calls")]).
Definition create_server_rejects_a_bad_timeout_with_22023 : bool :=
  err_with (create_server [("url", "https://x.example/mcp"); ("timeout_ms", "0")])
    (fun e => code "22023" e && says "timeout_ms" e).
Definition create_server_rejects_auth_none_off_loopback : bool :=
  err_with (create_server [("url", "https://npl.noizu.com/mcp"); ("auth", "none")]) (says "loopback").
Definition create_server_accepts_auth_none_on_loopback : bool :=
  is_ok (create_server [("url", "http://127.0.0.1:4001/mcp"); ("auth", "none")]).
Definition create_user_mapping_rejects_both_credentials : bool :=
  err_with (create_user_mapping [("token", "SPIKE_CANARY_TOKEN"); ("token_secret", "a.b")])
    (fun e => says "mutually exclusive" e && negb (says "SPIKE_CANARY_TOKEN" e)).

Definition no_db : Database := mkDatabase [] [] [] [] 10.
Definition unknown_server_name_raises_42704_from_every_entry_point : bool :=
  let fails {A} (m : M (Sessions Fdw.Backend) Fdw.Failure A) := expect_sqlstate m "42704" (Some "does not exist") in
  runs (
    a ← fails (call_tool [] no_db "nope" "echo" "raise");
    b ← fails (call_tool_text [] no_db "nope" "echo" "raise");
    c ← fails (get_prompt [] no_db "nope" "p" (Some (Object [])));
    d ← fails (let _ := loopback [] in call no_db (fun _ => Api.read_resource "nope" "x://y"));
    e ← fails (complete [] no_db "nope" (Object []) "a" "b");
    f ← fails (refresh no_db "nope");
    mret (all [a; b; c; d; e; f])).

Definition import_creates_the_catalog_from_sql : bool :=
  runs ('(n, _) ← import_into "imp_srv" "imp_s" None; mret (Nat.eqb n 10)).

(** The url is unroutable: a request would give 08006 instead. *)
Definition missing_user_mapping_under_bearer_raises_28000 : bool :=
  let db := mkDatabase [("nomap_srv", [("url", "https://192.0.2.1/mcp"); ("timeout_ms", "1000")])] [] [] [] 10 in
  runs (expect_sqlstate (call_tool [] db "nomap_srv" "echo" "raise") "28000" (Some "USER MAPPING")).

Definition on_error_rejects_any_other_value : bool :=
  let db := mkDatabase [("oe_srv", [("url", "http://127.0.0.1:4002/mcp"); ("auth", "none")])] [] [] [] 10 in
  runs (expect_sqlstate (call_tool [] db "oe_srv" "echo" "explode") "22023" (Some "on_error")).

Definition version_functions_report_the_pinned_values : bool :=
  (Extension.version ≟ "0.3.0") && (Extension.protocol_version ≟ "2025-11-25").

(** The options survive being written out and validated again. *)
Definition a_server_and_mapping_round_trip_through_the_validator : bool :=
  let options timeout := [("url", "https://npl.noizu.com/mcp"); ("mode", "sql"); ("timeout_ms", timeout)] in
  all [is_ok (create_server (options "30000")); is_ok (create_user_mapping [("token_secret", "mcp_secrets.npl")]);
       is_ok (create_server (options "45000"));
       err_with (create_server (options "999999")) (says "timeout_ms")].

(** The tests of api.rs and lib.rs pass. *)
Example api_scenarios_pass : all [
  import_returns_the_count_and_creates_the_tables; import_twice_in_one_backend_and_once_more_failing;
  import_cache_ttl_option_is_visible_in_the_catalog; import_rejects_bad_options;
  import_unknown_server_raises_42704; import_all_upstreams_needs_a_reachable_engine;
  create_server_accepts_a_valid_option_set; create_server_rejects_a_bad_timeout_with_22023;
  create_server_rejects_auth_none_off_loopback; create_server_accepts_auth_none_on_loopback;
  create_user_mapping_rejects_both_credentials;
  unknown_server_name_raises_42704_from_every_entry_point; import_creates_the_catalog_from_sql;
  missing_user_mapping_under_bearer_raises_28000; on_error_rejects_any_other_value;
  version_functions_report_the_pinned_values;
  a_server_and_mapping_round_trip_through_the_validator] = true.
Proof. vm_compute. reflexivity. Qed.
End ApiScenarios.
