(* ===== verification/PerToolScenarios.v ===== *)
(** * The tests of the generated objects, run through the whole model

    The tests of tables/per_tool.rs: import, generation, SELECT, INSERT and
    regeneration of the per-tool objects against the fixture server, one boolean
    per test function with its assertions in order; and the round trip through
    the bookkeeping table of codegen/registry.rs.  The database is the list of
    the statements committed so far; what exists in it, and the rows of
    mcp.generated, are read back from their text. *)

From Stdlib Require Import Ascii String ZArith Lia.
From Stdlib Require Import SpecFloat.
From stdpp Require Import base numbers gmap sets strings pretty list sorting.
From S2P Require Import Prelude Str Json JsonText Errors Sse Options Quals Tables Cursor Client Session Cache.
From S2P Require Import Catalog Readthrough ToolCalls Ident Codegen Quote Ddl ImportSchema Registry Api PerTool.
From S2P Require Import Datum Pushdown Fdw Stub Vectors VectorsTables Sql.
Import Assert Quals Tables Client Session Datums Pushdown Stub Sql Datums.Wit.
#[local] Open Scope Z_scope.
#[local] Existing Instance json_text.
#[local] Existing Instance Codegen.debug_build.
#[local] Existing Instance Vectors.OptionsTests.simple_url.

(** ** The database as the statements it has run *)

Module History.

(** A kind of object, its schema, its name. *)
Abbreviation Obj := (string * string * string)%type.

(** An identifier is cut at 63 bytes. *)
Definition cut (o : Obj) : Obj := (o.1, str_take 63 o.2).

Definition created_object (sql : string) : option Obj :=
  cut <$> match strip_prefix "CREATE FOREIGN TABLE " sql, strip_prefix "CREATE VIEW " sql,
                strip_prefix "CREATE FUNCTION " sql with
          | Some s, _, _ => Registry.read_target Registry.KIND_TABLE s
          | None, Some s, _ => Registry.read_target Registry.KIND_VIEW s
          | None, None, Some s => Registry.read_target Registry.KIND_FUNCTION s
          | None, None, None => None
          end.
Definition dropped_object (sql : string) : option Obj := cut <$> Registry.read_drop sql.

(** The objects that exist, oldest first. *)
Definition objects (history : list string) : list Obj :=
  foldl (fun objs sql =>
    match created_object sql, dropped_object sql with
    | Some o, _ => objs ++ [o]
    | None, Some o => filter (fun o' => o' ≠ o) objs
    | None, None => objs
    end) [] history.

(** The text after the first occurrence of another. *)
Fixpoint after (needle s : string) : option string :=
  match strip_prefix needle s, s with
  | Some rest, _ => Some rest
  | None, String _ s' => after needle s'
  | None, EmptyString => None
  end.
(** The table a view reads. *)
Definition view_source (sql : string) : option Obj :=
  s ← strip_prefix "CREATE VIEW " sql; s ← after " FROM " s;
  cut <$> Registry.read_target Registry.KIND_TABLE s.
(** Something else reads the object: a view, of which SQL-language functions are none. *)
Definition depended_on (history : list string) (o : Obj) : bool :=
  let objs := objects history in
  existsb (fun sql =>
    match view_source sql with
    | Some source => if bool_decide (source = o) then from_option (fun v => bool_decide (v ∈ objs)) false (created_object sql)
                     else false
    | None => false
    end) history.

(** ** mcp.generated *)

Record Generated : Type := mkGenerated {
  g_server : string; g_schema : string; g_kind : string; g_name : string; g_tool : string;
}.
#[export] Instance Generated_eq_dec : EqDecision Generated.
Proof. solve_decision. Defined.

Fixpoint literals (n : nat) (s : string) : option (list string * string) :=
  match n with
  | O => Some ([], s)
  | S n =>
      '(x, s) ← Quote.read_quoted Ddl.sq_char s;
      '(xs, s) ← literals n (default s (strip_prefix ", " s));
      Some (x :: xs, s)
  end.
Definition inserted_row (sql : string) : option Generated :=
  s ← strip_prefix "INSERT INTO mcp.generated (server, schema, kind, name, tool, generated_at) VALUES (" sql;
  '(values, _) ← literals 5 s;
  match values with
  | [server; schema; kind; name; tool] => Some (mkGenerated server schema kind name tool)
  | _ => None
  end.
Definition deleted_rows (sql : string) : option (string * string) :=
  s ← strip_prefix "DELETE FROM mcp.generated WHERE server = " sql;
  '(server, s) ← Quote.read_quoted Ddl.sq_char s;
  s ← strip_prefix " AND schema = " s;
  '(schema, _) ← Quote.read_quoted Ddl.sq_char s;
  Some (server, schema).
(** The name a test deletes the rows of by hand. *)
Definition deleted_name (sql : string) : option string :=
  s ← strip_prefix "DELETE FROM mcp.generated WHERE name = " sql;
  fst <$> Quote.read_quoted Ddl.sq_char s.

(** The rows; (schema, name) is the key an insertion replaces. *)
Definition generated (history : list string) : list Generated :=
  foldl (fun rows sql =>
    match inserted_row sql, deleted_rows sql, deleted_name sql with
    | Some g, _, _ => filter (fun r => (g_schema r, g_name r) ≠ (g_schema g, g_name g)) rows ++ [g]
    | None, Some (server, schema), _ => filter (fun r => (g_server r, g_schema r) ≠ (server, schema)) rows
    | None, None, Some name => filter (fun r => g_name r ≠ name) rows
    | None, None, None => rows
    end) [] history.

Definition name_le (a b : Generated) : Prop := ImportSchema.str_le (g_name a) (g_name b).
#[local] Instance name_le_dec : RelDecision name_le.
Proof. intros a b. unfold name_le. apply _. Defined.

(** The two queries of codegen/registry.rs.  The rows of one schema come from one
    transaction, so [generated_at] never decides their order. *)
Definition query (history : list string) (sql : string) : list (list (option string)) :=
  let rows := generated history in
  let of_schema := filter (fun r => Registry.owned_sql (g_server r) (g_schema r) = sql) rows in
  let of_server := filter (fun r => Registry.schemas_sql (g_server r) = sql) rows in
  ((fun r => Some <$> [g_kind r; g_name r; g_schema r; g_tool r]) <$> merge_sort name_le of_schema)
  ++ ((fun s => [Some s]) <$> remove_dups (g_schema <$> of_server)).

(** ** SPI over a history; a failing statement is PostgreSQL's own error *)

Definition run_sql (history : list string) (sql : string) : result string unit :=
  match created_object sql, dropped_object sql with
  | Some o, _ => if bool_decide (o ∈ objects history) then Err "already exists" else Ok tt
  | None, Some o =>
      if negb (bool_decide (o ∈ objects history)) then Err "does not exist"
      else if depended_on history o then
        Err "cannot drop it because other objects depend on it"
      else Ok tt
  | None, None => Ok tt
  end.

(** The argument list of a dropped function is not looked at. *)
Definition spi_over (committed : list string) : Spi := {|
  sql_run ran sql := run_sql (committed ++ ran) sql;
  sql_get_one _ _ := Ok None;
  sql_select ran sql := Ok (query (committed ++ ran) sql) |}.

(** An existing table, read back from the statement that created it. *)
Definition table_of (history : list string) (schema name : string) : Relation :=
  if bool_decide ((Registry.KIND_TABLE, schema, name) ∈ objects history) then
    from_option (fun ft => mkRelation (Some name) (Some schema) (Some (Ddl.ft_server ft)) (Ddl.ft_options ft)
                             ((fun c => (c.1, type_oid c.2)) <$> Ddl.ft_columns ft)) no_relation
      (head (filter (fun ft => Ddl.ft_schema ft = schema ∧ str_take 63 (Ddl.ft_table ft) = name)
               (omap Ddl.read_foreign_table (reverse history))))
  else no_relation.

(** The names of a kind of object in a schema that begin with a prefix, sorted. *)
Definition names_like (history : list string) (kind schema prefix : string) : list string :=
  merge_sort ImportSchema.str_le
    (snd <$> filter (fun o : Obj => o.1 = (kind, schema) ∧ is_Some (strip_prefix prefix o.2)) (objects history)).

End History.

(** ** The tests without a server *)

Module PerToolTests.
Import Calendar.

Definition cell_of (v : Value) (ty : ColumnType) (name : string) : option (McpResult (option Cell)) :=
  match PerTool.json_to_cell v ty name with Ok r => Some r | Err _ => None end.
Definition converts (v : Value) (ty : ColumnType) (name : string) (want : option Cell) : bool :=
  match cell_of v ty name with Some (Ok c) => cell_eq c want | _ => false end.
Definition some_cell (v : Value) (ty : ColumnType) (name : string) (p : Cell → bool) : bool :=
  match cell_of v ty name with Some (Ok (Some c)) => p c | _ => false end.
Definition rejects (v : Value) (ty : ColumnType) (name : string) (p : McpError → bool) : bool :=
  match cell_of v ty name with Some (Err e) => p e | _ => false end.

Definition json_values_convert_to_typed_cells : bool := all [
  converts (Str "hello") Text "q" (Some (CText "hello"));
  converts (num_of_Z 7) Int8 "limit" (Some (CInt8 7));
  converts (json "2.5") Float8 "score" (Some (CFloat8 (S754_finite false 5629499534213120 (-51))));
  converts (Bool true) Boolean "flag" (Some (CBool true));
  some_cell (Object []) Jsonb "extra" (fun c => match c with CJson _ => true | _ => false end);
  converts Null Text "q" None;
  some_cell (Str "2026-09-05T10:00:00Z") TimestampTz "since" (fun c => match c with CTimestampTz _ => true | _ => false end);
  converts (Str "2026-09-05") Date "day" (Some (CDate "2026-09-05"));
  some_cell (Str "00000000-0000-0000-0000-000000000001") Uuid "id" (fun c => match c with CUuid _ => true | _ => false end);
  rejects (Str "nope") Int8 "limit" (fun e => code "22023" e && says "limit" e);
  rejects (Bool false) Float8 "score" (code "22023")].

Definition timestamptz_round_trips_through_the_wire_form : bool :=
  match PerTool.parse_timestamptz "2026-09-05T10:00:00Z", PerTool.parse_timestamptz "2026-09-05 10:00:00+00" with
  | Ok micros, Ok direct => (micros ≟ direct) && (800000000000000 <? micros)
  | _, _ => false
  end.

Example per_tool_tests_pass : all [
  json_values_convert_to_typed_cells; timestamptz_round_trips_through_the_wire_form] = true.
Proof. vm_compute. reflexivity. Qed.
End PerToolTests.

(** ** The live tests *)

Module PerToolScenarios.
Import History.

Definition long_name : string := "extremely_long_tool_name_that_keeps_going_well_past_the_sixty_three_x".

Definition fixture_tools : list Value := json <$> [
  "{'name': 'search_docs', 'title': 'Search documents', 'description': 'Full-text search over the corpus.', 'annotations': {'readOnlyHint': true}, 'inputSchema': {'type': 'object', 'properties': {'query': {'type': 'string'}, 'limit': {'type': 'integer'}, 'since': {'type': 'string', 'format': 'date-time'}, 'day': {'type': 'string', 'format': 'date'}, 'corpus_id': {'type': 'string', 'format': 'uuid'}, 'weight': {'type': 'number'}, 'flag': {'type': 'boolean'}, 'meta': {'type': 'object'}, 'tags': {'type': 'array', 'items': {'type': 'string'}}, 'level': {'type': 'string', 'enum': ['low', 'high']}}, 'required': ['query']}, 'outputSchema': {'type': 'object', 'properties': {'results': {'type': 'array', 'items': {'type': 'object', 'properties': {'id': {'type': 'string'}, 'score': {'type': 'number'}}}}}}}";
  "{'name': 'send_email', 'inputSchema': {'type': 'object', 'properties': {'to': {'type': 'string'}}, 'required': ['to']}}";
  "{'name': 'boom_readonly', 'annotations': {'readOnlyHint': true}, 'inputSchema': {'type': 'object', 'properties': {}}}";
  "{'name': 'list_projects', 'annotations': {'readOnlyHint': true}, 'inputSchema': {'type': 'object', 'properties': {}}, 'outputSchema': {'type': 'object', 'properties': {'name': {'type': 'string'}}}}";
  "{'name': 'limit', 'annotations': {'readOnlyHint': true}, 'inputSchema': {'type': 'object', 'properties': {}}}";
  "{'name': '" +:+ long_name +:+ "', 'annotations': {'readOnlyHint': true}, 'inputSchema': {'type': 'object', 'properties': {}}}";
  "{'name': 'a-b', 'annotations': {'readOnlyHint': true}, 'inputSchema': {'type': 'object', 'properties': {}}}";
  "{'name': 'a_b', 'annotations': {'readOnlyHint': true}, 'inputSchema': {'type': 'object', 'properties': {}}}";
  "{'name': 'broken_ref', 'inputSchema': {'type': 'string', 'maxLength': 3}}"].

Definition tools_call_reply (id body : Value) : Value :=
  let name := default EmptyString (pointer2 body "params" "name" ≫= as_str) in
  let args := default (Object []) (pointer2 body "params" "arguments") in
  let text (t : string) : Value := Array [Object [("type", Str "text"); ("text", Str t)]] in
  if bool_decide (name = "search_docs") then
    result_envelope id (Object [("content", text "2 results");
      ("structuredContent", json "{'results': [{'id': 'doc-1', 'score': 0.9}, {'id': 'doc-2', 'score': 0.5}]}")])
  else if bool_decide (name = "send_email") then
    result_envelope id (Object [("content", text "sent");
      ("structuredContent", Object [("sent", Bool true); ("to", default Null (get args "to"))])])
  else if bool_decide (name = "boom_readonly") then
    result_envelope id (Object [("content", text "kaboom"); ("isError", Bool true)])
  else if bool_decide (name ∈ ["limit"; "list_projects"; "a-b"; "a_b"; long_name]) then
    result_envelope id (Object [("content", Array []); ("structuredContent", Object [])])
  else error_envelope id (-32601) ("unknown tool: " +:+ name).

Definition serve_one (tools : list Value) : Server := fun _ rq =>
  let body := rq_body rq in
  let method := method_of rq in
  if bool_decide (is_Some (strip_prefix "notifications/" method)) then respond 202 [] EmptyString
  else respond 200 [json_type] (json_to_string
    match get body "id" ≫= not_null with
    | Some id =>
        if bool_decide (method = "initialize") then
          result_envelope id (Object
            [("protocolVersion", Str Client.CLIENT_PROTOCOL_VERSION);
             ("serverInfo", Object [("name", Str "fixture"); ("version", Str "0")]);
             ("capabilities", Object [("tools", Object [])])])
        else if bool_decide (method = "tools/list") then result_envelope id (Object [("tools", Array tools)])
        else if bool_decide (method = "tools/call") then tools_call_reply id body
        else error_envelope id (-32601) ("no such method: " +:+ method)
    | None => Object [("jsonrpc", Str "2.0"); ("id", Null)]
    end).

Definition stub_url : string := "http://127.0.0.1:4060/mcp".
Definition fixture_stub (tools : list Value) : list (string * Server) := [(stub_url, serve_one tools)].
Definition start : list (string * Server) := fixture_stub fixture_tools.
Definition remove_tool (name : string) : list (string * Server) :=
  fixture_stub (filter (fun t => get t "name" ≫= as_str ≠ Some name) fixture_tools).
Definition call_count : M (Sessions Fdw.Backend) Fdw.Failure nat := hits_at stub_url "tools/call".
Definition make_fixture_server (name : string) : Database := one_server name stub_url [].

(** [mcp.import] and [mcp.generate_functions], each a transaction on top of the
    history; the history after it. *)
Abbreviation Stmt := (M (Sessions Fdw.Backend) Fdw.Failure).
Section sql.
Variable net : list (string * Server).
#[local] Instance stub_net : Net := loopback net.

Definition import (db : Database) (history : list string) (server schema opts : string) : Stmt (list string) :=
  r ← api db (fun catalog => Api.import (H2 := catalog) (H4 := spi_over history) server schema (Some (json opts)));
  mret (history ++ r.2).
Definition generate_functions (db : Database) (history : list string) (server schema : string) :
    Stmt (nat * nat * list string * list string) :=
  r ← api db (fun catalog => Api.generate_functions (H2 := catalog) (H4 := spi_over history) server schema
                               (Some (Object [])));
  mret (r.1, history ++ r.2).
Definition import_and_generate (db : Database) (server schema : string) : Stmt (list string) :=
  history ← import db [] server schema "{'per_tool': true}";
  r ← generate_functions db history server schema;
  mret r.2.
End sql.

(** ** Statements over the generated objects *)

Definition typed_is (opno : Z) (ty : ColumnType) (r : Relation) (c : string) (d : D) : Node :=
  OpExpr opno [col r c; Const (oid ty) (Some d)].
Definition date_is r c s := typed_is 1093 Date r c (DDate s).
Definition float_is r c f := typed_is 670 Float8 r c (DF64 f).
Definition timestamptz_micros (s : string) : D := DI64 (default 0 (Calendar.timestamptz_in s)).
Definition timestamptz_is r c s := typed_is 1320 TimestampTz r c (timestamptz_micros s).
Definition one_uuid : list Z := replicate 15 0 ++ [1].
Definition one_and_a_half : spec_float := S754_finite false 6755399441055744 (-52).

Definition planned (name : string) : option Codegen.PlannedTool :=
  match Codegen.plan fixture_tools "s" EmptyString Codegen.ReadOnly Codegen.SingleSchema with
  | Ok plan => head (filter (fun t => Codegen.tool_name t = name) (Codegen.tools plan))
  | Err _ => None
  end.

(** The WHERE clause of the function of a planned tool, whose text is
    [Ddl.function_body]: under a generic plan its parameters stay, otherwise the
    constants are folded in and a NULL optional one drops out. *)
Definition equality_of (ty : ColumnType) : Z :=
  match ty with
  | Text => 98 | Int4 => 96 | Int8 => 410 | Boolean => 91 | TimestampTz => 1320 | Date => 1093
  | Uuid => 2972 | Float8 => 670 | Jsonb => 3240 | Bytea => 1955
  end.
Definition body_clauses (generic : bool) (tool : Codegen.PlannedTool) (r : Relation) (args : list (option D)) :
    list Node :=
  mjoin (imap (fun i name =>
    match Ddl.find_input tool name with
    | None => []
    | Some c =>
        let ty := Codegen.pg_type c in
        let param := Param PARAM_EXTERN (Z.of_nat (S i)) (oid ty) in
        let is_ v := OpExpr (equality_of ty) [col r name; v] in
        match generic, Codegen.required c, mjoin (args !! i) with
        | true, true, _ => [is_ param]
        | true, false, _ => [BoolExpr OR_EXPR [NullTest param IS_NULL; is_ param]]
        | false, false, None => []
        | false, _, d => [is_ (Const (oid ty) d)]
        end
    end) (Codegen.params tool)).

(** A call of the function of a read-only tool: the rows of its SELECT. *)
Definition call_function (net : list (string * Server)) (generic : bool) (db : Database) (history : list string)
    (schema tool : string) (args : list (option D)) : Stmt (list Slot) :=
  match planned tool with
  | Some t =>
      if bool_decide ((Registry.KIND_FUNCTION, schema, Codegen.tool_sql_name t) ∈ objects history) then
        let r := table_of history schema (Ddl.table_name t) in
        select_with net (if generic then args else []) db r (body_clauses generic t r args)
      else m_fail (Fdw.PgRaised "function does not exist")
  | None => m_fail (Fdw.PgRaised "no such tool")
  end.

(** A failure that says something, whatever its code. *)
Definition fails_saying {A} (m : Stmt A) (needle : string) : Stmt bool := fun st =>
  match m st with
  | (Err (Fdw.Reported rep), st') => (Ok (contains needle (rp_message rep)), st')
  | (_, st') => (Ok false, st')
  end.
Definition texts (r : Relation) (slots : list Slot) (c : string) : list (option string) :=
  (fun s => as_str (Sql.column r s c)) <$> slots.

(** ** The tests *)

Definition per_tool_tables_are_typed_and_invokable_end_to_end : bool :=
  let db := make_fixture_server "pt_basic" in
  runs (
    h ← import_and_generate start db "pt_basic" "pt_basic_s";
    let docs := table_of h "pt_basic_s" "tool_search_docs" in
    let hello := text_is docs "query" "hello" in
    rows ← select start db docs [hello; date_is docs "day" "2026-09-05"; typed_is 2972 Uuid docs "corpus_id" (DUuid one_uuid);
             float_is docs "weight" one_and_a_half; col docs "flag"];
    meta ← count start db docs [hello; is_false docs "is_error";
             OpExpr 98 [OtherNode CONTENT_TEXT [col docs "content"]; Const (oid Text) (Some (DText "2 results"))]];
    let answer s := Object ((fun c => (c, Sql.column docs s c)) <$> ["id"; "score"; "query"]) in
    mret (all [
      jsons_eq (answer <$> rows) [json "{'id': 'doc-1', 'score': 0.9, 'query': 'hello'}";
                                  json "{'id': 'doc-2', 'score': 0.5, 'query': 'hello'}"];
      Nat.eqb meta 2;
      forallb (fun ty => bool_decide (oid ty ∈ snd <$> rel_attributes docs))
        [Text; Int8; TimestampTz; Date; Uuid; Float8; Boolean; Jsonb]])).

Definition the_gate_blocks_selects_and_names_the_insert_alternative : bool :=
  let db := make_fixture_server "pt_gate" in
  runs (
    h ← import_and_generate start db "pt_gate" "pt_gate_s";
    let mail := table_of h "pt_gate_s" "tool_send_email" in
    refused ← expect_sqlstate (select start db mail []) "0A000" (Some "INSERT");
    none ← call_count;
    _ ← insert start db mail [[("to", DText "a@noizu.com")]];
    some ← call_count;
    mret (all [refused; Nat.eqb none 0; Nat.leb 1 some])).

Definition missing_required_input_raises_22023_naming_the_argument : bool :=
  let db := make_fixture_server "pt_req" in
  runs (
    h ← import_and_generate start db "pt_req" "pt_req_s";
    refused ← expect_sqlstate (count start db (table_of h "pt_req_s" "tool_search_docs") []) "22023" (Some "query");
    none ← call_count;
    rows ← call_function start false db h "pt_req_s" "search_docs" [Some (DText "hello")];
    mret (all [refused; Nat.eqb none 0; Nat.eqb (length rows) 2])).

Definition an_is_error_result_is_a_row_with_null_outputs : bool :=
  let db := make_fixture_server "pt_boom" in
  runs (
    h ← import_and_generate start db "pt_boom" "pt_boom_s";
    let boom := table_of h "pt_boom_s" "tool_boom_readonly" in
    rows ← select start db boom [];
    mret (value_eqb (only boom rows) (json "{'content': [{'type': 'text', 'text': 'kaboom'}], 'is_error': true}"))).

Definition typed_functions_and_views_generate_and_are_callable : bool :=
  let db := make_fixture_server "pt_fn" in
  runs (
    h ← import_and_generate start db "pt_fn" "pt_fn_s";
    let docs := table_of h "pt_fn_s" "tool_search_docs" in
    ids ← call_function start false db h "pt_fn_s" "search_docs" [Some (DText "hello")];
    let mail := table_of h "pt_fn_s" "tool_send_email" in
    sent ← insert start db mail [[("to", DText "a@noizu.com")]];
    let viewed := from_option (fun sql => default (Registry.KIND_TABLE, EmptyString, EmptyString) (view_source sql))
                    (Registry.KIND_TABLE, EmptyString, EmptyString)
                    (head (filter (fun sql => created_object sql = Some (Registry.KIND_VIEW, "pt_fn_s", "v_tool_list_projects")) h)) in
    view_rows ← count start db (table_of h viewed.1.2 viewed.2) [];
    let comments := omap (strip_prefix ("COMMENT ON FUNCTION " +:+ Ddl.quote_ident "pt_fn_s" +:+ "." +:+ Ddl.quote_ident "search_docs")) h in
    mret (all [
      texts docs ids "id" ≟ [Some "doc-1"; Some "doc-2"];
      jsons_eq ((fun s => Sql.column mail s "is_error") <$> sent) [Bool false];
      Nat.eqb view_rows 1; existsb (contains "Search documents") comments])).

Definition planned_long_name : option string := Ddl.table_name <$> planned long_name.

Definition reserved_long_and_colliding_names_all_generate_and_are_queryable : bool :=
  let db := make_fixture_server "pt_names" in
  runs (
    h ← import_and_generate start db "pt_names" "pt_names_s";
    limit_rows ← count start db (table_of h "pt_names_s" "tool_limit") [];
    let long := names_like h Registry.KIND_TABLE "pt_names_s" "tool_extremely_long_tool_name" in
    let colliding := names_like h Registry.KIND_TABLE "pt_names_s" "tool_a_b" in
    one ← count start db (table_of h "pt_names_s" (default EmptyString (head colliding))) [];
    mret (all [
      Nat.eqb limit_rows 1;
      bool_decide ((Registry.KIND_FUNCTION, "pt_names_s", "limit") ∈ objects h);
      match long with
      | [relname] => Nat.eqb (String.length relname) 63 && Nat.eqb (String.length (str_drop 5 relname)) 58
                     && (Some relname ≟ (str_take 63 <$> planned_long_name))
      | _ => false
      end;
      Nat.eqb (length colliding) 2;
      bool_decide (is_Some (colliding !! 1%nat ≫= strip_prefix "tool_a_b_"));
      Nat.eqb one 1])).

Definition tools_of (history : list string) (server schema : string) : list string :=
  remove_dups (g_tool <$> filter (fun g => g_server g = server ∧ g_schema g = schema) (generated history)).

Definition unmappable_tools_are_reported_and_the_rest_generates : bool :=
  let db := make_fixture_server "pt_skip" in
  runs (
    h ← import_and_generate start db "pt_skip" "pt_skip_s";
    mret (all [names_like h Registry.KIND_TABLE "pt_skip_s" "tool_broken" ≟ [];
               Nat.eqb (length (tools_of h "pt_skip" "pt_skip_s")) 8])).

Definition regeneration_drops_exactly_the_vanished_tools_objects : bool :=
  let db := make_fixture_server "pt_regen" in
  runs (
    h ← import_and_generate start db "pt_regen" "pt_regen_s";
    let without := remove_tool "list_projects" in
    r ← generate_functions without db h "pt_regen" "pt_regen_s";
    let after := r.2 in
    kept ← count without db (table_of after "pt_regen_s" "tool_limit") [];
    mret (all [
      Nat.eqb (length (generated h)) 22; Nat.eqb (length (generated after)) 19;
      forallb (fun o : Obj => negb (contains "list_projects" o.2)) (objects after); Nat.eqb kept 1])).

(** The dependency error is PostgreSQL's own 2BP01, which the statement raises
    through the program; here it is the text of the failed statement. *)
Definition a_user_view_blocks_regeneration_with_restrict_and_nothing_is_half_dropped : bool :=
  let db := make_fixture_server "pt_restrict" in
  runs (
    imported ← import_and_generate start db "pt_restrict" "pt_restrict_s";
    let h := imported ++ ["CREATE VIEW " +:+ Ddl.quote_ident "pt_restrict_s" +:+ "." +:+ Ddl.quote_ident "user_view"
                          +:+ " AS SELECT id FROM " +:+ Ddl.quote_ident "pt_restrict_s" +:+ "."
                          +:+ Ddl.quote_ident "tool_search_docs" +:+ ";"] in
    blocked ← fails_saying (generate_functions start db h "pt_restrict" "pt_restrict_s") "depend on it";
    alive ← count start db (table_of h "pt_restrict_s" "tool_limit") [];
    mret (all [blocked; Nat.eqb (length (generated h)) 22; Nat.eqb alive 1])).

(** The foreign tables of a schema with some options. *)
Definition with_options (history : list string) (schema : string) (options : list (string * string)) : nat :=
  length (filter (fun ft => Ddl.ft_schema ft = schema ∧ forallb (fun o => bool_decide (o ∈ Ddl.ft_options ft)) options = true)
            (omap Ddl.read_foreign_table history)).

Definition invoke_on_select_all_promotes_with_a_listing_none_demotes : bool :=
  let db := mkDatabase [open_server "pt_all" stub_url []; open_server "pt_none" stub_url []] [] [] [] 10 in
  runs (
    h ← import start db [] "pt_all" "pt_all_s" "{'per_tool': true, 'invoke_on_select': 'all'}";
    let mail := table_of h "pt_all_s" "tool_send_email" in
    unbound ← expect_sqlstate (count start db mail []) "22023" (Some "to");
    sent ← count start db mail [text_is mail "to" "a@noizu.com"];
    h' ← import start db h "pt_none" "pt_none_s" "{'per_tool': true, 'invoke_on_select': 'none'}";
    gated ← expect_sqlstate (count start db (table_of h' "pt_none_s" "tool_search_docs") []) "0A000" (Some "INSERT");
    mret (all [
      Nat.eqb (with_options h "pt_all_s" [("tool", "send_email"); ("invoke_on_select", "true")]) 1;
      unbound; Nat.eqb sent 1;
      Nat.eqb (with_options h' "pt_none_s" [("invoke_on_select", "true")]) 0; gated])).

Definition generate_functions_returns_the_prd_tuple : bool :=
  let db := make_fixture_server "pt_tuple" in
  runs (
    r ← generate_functions start db [] "pt_tuple" "pt_tuple_s";
    again ← generate_functions start db r.2 "pt_tuple" "pt_tuple_s";
    mret (all [r.1.1 ≟ (8%nat, 1%nat); r.1.2 ≟ ["broken_ref"];
               Nat.eqb (length (tools_of again.2 "pt_tuple" "pt_tuple_s")) 8])).

Definition stale_tables_name_the_regeneration_fix : bool :=
  let db := make_fixture_server "pt_stale" in
  runs (
    h ← import_and_generate start db "pt_stale" "pt_stale_s";
    let without := remove_tool "list_projects" in
    _ ← refresh db "pt_stale";
    expect_sqlstate (count without db (table_of h "pt_stale_s" "tool_list_projects") []) "42704"
      (Some "mcp.generate_functions")).

Definition parameter_bound_quals_resolve_through_generic_plans : bool :=
  let db := make_fixture_server "pt_param" in
  runs (
    h ← import_and_generate start db "pt_param" "pt_param_s";
    let docs := table_of h "pt_param_s" "tool_search_docs" in
    let call := call_function start true db h "pt_param_s" "search_docs" in
    rows ← call [Some (DText "hello")];
    bound ← call (Some <$> [DText "hello"; DI64 5; timestamptz_micros "2026-09-05T10:00:00Z"; DDate "2026-09-05";
                            DUuid one_uuid; DF64 one_and_a_half; DBool true]);
    since ← count start db docs [text_is docs "query" "hello"; timestamptz_is docs "since" "2026-09-05T10:00:00Z"];
    calls ← call_count;
    mret (all [
      texts docs rows "id" ≟ [Some "doc-1"; Some "doc-2"];
      Nat.eqb (length (filter (fun s => is_null (Sql.column docs s "score") = false) bound)) 2;
      Nat.eqb since 2; Nat.leb 3 calls])).

Definition qual_shapes_push_or_stay_local_with_identical_results : bool :=
  let db := make_fixture_server "pt_shape" in
  runs (
    h ← import_and_generate start db "pt_shape" "pt_shape_s";
    let docs := table_of h "pt_shape_s" "tool_search_docs" in
    let hello := text_is docs "query" "hello" in
    let flag := col docs "flag" in
    let n clauses := count start db docs clauses in
    a ← n [hello; flag];
    b ← n [hello; BoolExpr NOT_EXPR [flag]];
    c ← n [hello; BooleanTest flag IS_TRUE];
    d ← n [hello; BooleanTest flag IS_FALSE];
    e ← n [OpExpr 670 [Const (oid Float8) (Some (DF64 one_and_a_half)); col docs "weight"]; hello];
    f ← n [OpExpr 98 [RelabelType (RelabelType (col docs "query")); Const (oid Text) (Some (DText "hello"))]];
    g ← n [hello; jsonb_is docs "meta" "{'k': 1}"];
    i ← n [hello; OpExpr 1093 [col docs "day"; Const (oid Date) None]];
    j ← n [hello; OpExpr 674 [col docs "weight"; Const (oid Float8) (Some (DF64 (S754_zero false)))]];
    calls ← call_count;
    mret (([a; b; c; d; e; f; g; i; j] ≟ [2; 2; 2; 2; 2; 2; 2; 0; 0]%nat) && Nat.leb 7 calls)).

Definition a_set_qual_on_an_input_column_is_applied_never_silently_dropped : bool :=
  let db := make_fixture_server "pt_set" in
  runs (
    h ← import_and_generate start db "pt_set" "pt_set_s";
    let docs := table_of h "pt_set_s" "tool_search_docs" in
    (* IN is = ANY over a constant array *)
    let days := ScalarArrayOpExpr 1093 true [col docs "day"; Const 1182 (Some (DJson (json_to_string (json "['2026-09-05', '2000-01-01']"))))] in
    day_in ← count start db docs [text_is docs "query" "hello"; days];
    refused ← expect_sqlstate (count start db docs [any_text docs "query" ["a"; "b"]]) "22023" (Some "query");
    calls ← call_count;
    again ← count start db docs [text_is docs "query" "hello"; days];
    calls' ← call_count;
    mret (all [Nat.eqb day_in 0; Nat.eqb again 0; refused; Nat.leb 1 calls; Nat.leb 2 calls'])).

Definition timestamptz_arguments_normalize_to_rfc3339_on_the_wire : bool :=
  let db := make_fixture_server "pt_ts" in
  runs (
    h ← import_and_generate start db "pt_ts" "pt_ts_s";
    let docs := table_of h "pt_ts_s" "tool_search_docs" in
    echoed ← insert start db docs [[("query", DText "hello"); ("since", timestamptz_micros "2026-09-05 10:00:00+00")]];
    rows ← count start db docs [text_is docs "query" "hello"; timestamptz_is docs "since" "2026-09-05 12:30:00+02"];
    calls ← call_count;
    mret (all [
      ((fun s : Slot => Calendar.timestamptz_text ∘ number <$> mjoin (s !! 2%nat)) <$> echoed) ≟ [Some "2026-09-05 10:00:00+00"];
      Nat.eqb rows 2; Nat.leb 2 calls])).

(** The SQL-level tests of tables/per_tool.rs pass. *)
Example per_tool_scenarios_pass : all [
  per_tool_tables_are_typed_and_invokable_end_to_end; the_gate_blocks_selects_and_names_the_insert_alternative;
  missing_required_input_raises_22023_naming_the_argument; an_is_error_result_is_a_row_with_null_outputs;
  typed_functions_and_views_generate_and_are_callable;
  reserved_long_and_colliding_names_all_generate_and_are_queryable;
  unmappable_tools_are_reported_and_the_rest_generates; regeneration_drops_exactly_the_vanished_tools_objects;
  a_user_view_blocks_regeneration_with_restrict_and_nothing_is_half_dropped;
  invoke_on_select_all_promotes_with_a_listing_none_demotes; generate_functions_returns_the_prd_tuple;
  stale_tables_name_the_regeneration_fix; parameter_bound_quals_resolve_through_generic_plans;
  qual_shapes_push_or_stay_local_with_identical_results;
  a_set_qual_on_an_input_column_is_applied_never_silently_dropped;
  timestamptz_arguments_normalize_to_rfc3339_on_the_wire] = true.
Proof. vm_compute. reflexivity. Qed.
End PerToolScenarios.

(** ** codegen/registry.rs *)

Module RegistryScenarios.
Import History.
#[local] Instance fresh : Spi := spi_over [].

(** A statement of the test itself, and what the database then holds. *)
Definition by_hand (sql : string) : M (list string) McpError unit := Registry.run Internal sql.
Definition functions : M (list string) McpError (list string) :=
  fun ran => (Ok (names_like ran Registry.KIND_FUNCTION "gen_round" EmptyString), ran).

(** The table of generated objects is in place, and identifiers are written quoted. *)
Definition record_lookup_and_drop_owned_round_trip : bool :=
  let a := Registry.mkOwned Registry.KIND_TABLE "tool_gen_a" "gen_round" "a" in
  let b := Registry.mkOwned Registry.KIND_FUNCTION "gen_a" "gen_round" "a" in
  let other := Registry.mkOwned Registry.KIND_TABLE "tool_gen_b" "gen_round" "b" in
  ok_with ((
    _ ← by_hand "CREATE SCHEMA IF NOT EXISTS gen_round";
    _ ← Registry.record "gen_srv" a;
    _ ← Registry.record "gen_srv" b;
    _ ← Registry.record "other_srv" other;
    mine ← Registry.owned "gen_srv" "gen_round";
    schemas ← Registry.schemas_for "gen_srv";
    _ ← by_hand "DELETE FROM mcp.generated WHERE name = 'tool_gen_a'";
    _ ← by_hand ("CREATE FUNCTION " +:+ Ddl.quote_ident "gen_round" +:+ "." +:+ Ddl.quote_ident "gen_a"
                 +:+ "() RETURNS int LANGUAGE sql AS 'SELECT 1'");
    before ← functions;
    dropped ← Registry.drop_owned "gen_srv" "gen_round";
    left ← Registry.owned "gen_srv" "gen_round";
    others ← Registry.owned "other_srv" "gen_round";
    gone ← functions;
    mret (all [
      Nat.eqb (length mine) 2; (Registry.o_name <$> mine !! 0%nat) ≟ Some "gen_a";
      (Registry.o_tool <$> mine !! 1%nat) ≟ Some "a"; schemas ≟ ["gen_round"];
      before ≟ ["gen_a"]; Nat.eqb dropped 1; Nat.eqb (length left) 0; Nat.eqb (length others) 1;
      Nat.eqb (length gone) 0])) []).1 id.

Example registry_scenario_passes : record_lookup_and_drop_owned_round_trip = true.
Proof. vm_compute. reflexivity. Qed.
End RegistryScenarios.
